(* ===== verification/_CoqProject ===== *)
-Q . S2P
Prelude.v
Mem.v
Lib.v
Screen.v
Ports.v
I8259.v
Rtc.v
Pit.v
Paging.v
Pcb.v
Sched.v
Idt.v
Filesys.v
Console.v
Keyboard.v
Irq.v
Terminal.v
Kstate.v
Syscalls.v
Files.v
Process.v
Launch.v
Exec.v
Calls.v
Boot.v
User.v
Serve.v
Ulib.v
Apps.v
Shell.v
Syserr.v
Grep.v
Machine.v
Handler.v
Demos.v
Fish.v
Frames.v
Fishmain.v
Emulate.v
