(* ===== verification/Prelude.v ===== *)
(** * Queeblo OS: a verification library for the kernel of src/student-distrib

    The program is a small 32-bit x86 kernel: it boots from GRUB, sets up
    descriptor tables, interrupt controller, clock, paging and a read-only file
    system, starts three shells on three text terminals, and serves ten system
    calls.  This library translates its C code, component by component, into
    executable Rocq definitions over an explicit state, and proves what makes
    each component, and their composition, correct.

    ** The parts and the files that model them

    - Prelude: machine words, checked array accesses, the result type, bounded
      loops, list lemmas and tactics shared by all files.
    - Mem: the 4 GB physical memory as a finite map of bytes ([load8],
      [store8], little-endian words), what a copy [writes], C strings
      ([is_cstr]).
    - Lib (lib.c): string and memory routines.  Screen (lib.c): the text screen
      and [printf].
    - Ports (lib.h): port input and output as a trace, newest first, against a
      [Device] that answers inputs; [cli] and [sti] are in the trace, so that
      the interrupt flag is a function of it ([if_flag]).
    - I8259, Rtc, Pit (i8259.c, rtc.c, pit.c): the drivers.  What the chips do
      is a class of laws ([PicLaws], [RtcLaws]) with a simulated instance.
    - Paging (page.c): page directory and table; [walk] is the processor's
      translation, the specification side.
    - Pcb (syscalls.h): process control blocks.  Sched (sched.c): the process
      queue and the task switch.
    - Idt (idt.c, x86_desc.h): gates and exceptions.  Irq (idt.c): device
      interrupts.
    - Filesys (filesys_mod.c): the file system image and its lookups.
    - Console, Keyboard, Terminal (terminal.c, keyboard.c): terminals, the
      keyboard handler and the terminal driver, over one [console] state.
    - Kstate: all globals in one record [kernel], and user pointers, which are
      translated through the page tables when they are used.
    - Syscalls, Process (syscalls.c): the system calls.  Files, Launch, Exec:
      their theorems, on descriptors, on one process start, on [execute] and
      [halt] as wholes.  Calls (handler.S): the dispatch of [int 0x80].
    - Handler (handler.S): the stubs of the vectors, instruction by
      instruction, on a processor with registers, a stack and the frames of
      interrupts.
    - Boot (kernel.c): [entry], from the boot information to the shells.
    - User (ece391syscall.S): the system calls as a process sees them.  [OS] is
      the [int 0x80] instruction on a machine of any type, [proc] what a
      process can know of it, and [OSLaws] what the calls promise; [sim] is a
      machine that is just a [proc].  Serve and Machine: the kernel is another
      instance, and keeps the promises.
    - Ulib (ece391support.c), Apps (cat, ls, hello, testprint, counter), Shell,
      Grep, Syserr, Demos (pingpong, sigtest): the programs, proved against
      the laws.
    - Fish (blink.S and the allocator of fish.c): blinkers on a linked list in
      memory.  Frames ([add_frames]) and Fishmain ([main]): the rest of fish.c.
    - Emulate (ece391emulate.c): the wrappers for Linux, whose calls are
      parameters.

    ** How code becomes definitions

    A function of the code is a definition of the same name that takes the
    state it reads and returns the state it writes, in the type [res]: [Ok],
    [Fault] (an access outside an array or through a bad pointer, a page
    fault), or [Hang] (the code waits for ever).  Integers are in [Z] with the
    wrap-around of their C type written out ([u8], [u32], [s32]).  A loop is
    [while], which stops after 2^32 turns with [Hang]; every theorem that a
    loop returns goes through [while_rule], whose measure is below 2^32, so the
    bound is never the reason.  A [for] loop is a fold over its index.  A wait
    for an interrupt takes the list of interrupts to come and is [Hang] when
    the list ends.  The keyboard handler, whose loop ends when the device says
    so, takes its number of turns as fuel; its theorems quantify over it.

    Addresses the linker chooses (page directory, keyboard buffers, literals)
    and the addresses of stack arrays are parameters, with the hypothesis that
    the arrays are apart where the layout of the stack makes them so.  PCBs are
    records in a heap indexed by their address; the byte arrays they contain
    are in memory at their offsets, because the string routines work on them.

    ** What the theorems show

    Lib: the assembly copies, fills and the number conversion do what their
    names say, on every alignment and overlap.  Screen: [putc] implements an
    abstract terminal, [printf] prints the expansion of its format.  Drivers:
    which registers are programmed, and that interrupts are restored.  Paging:
    the map after boot, and that no process reaches another's page or the
    kernel.  Sched: the queue is a deque; how many rotations it survives; two
    task switches restore a program.  Idt, Irq: gates, exception reports,
    dispatch and acknowledgement.  Filesys: reads return the file's bytes
    whatever its blocks, lookups the first entry with the name; the error
    branches.  Console, Keyboard, Terminal: every key sequence keeps the
    buffers in bounds, typed lines are delivered, output reaches the terminal
    of its process, switching terminals loses nothing.  Files: descriptors are
    allocated lowest first and freed.  Exec: [execute] builds exactly the
    child it should and refuses everything else; the first one builds three
    shells; [halt] returns to the parent.  Calls: what fails changes nothing;
    arguments and the screen reach the process.  Boot: [entry] ends in three
    shells, with every component's invariant.  Handler: an interrupt returns
    to the program with all its registers, and the two places where it does
    not.  User programs: what each prints and returns, for every argument and
    every file; [cat] and [ls] again on the kernel itself.  Fish: each command
    of blink.S, and a tick, is a function on a list of records and a screen;
    when a blinker shows which character; [main] returns, and what it leaves.
    Emulate: arguments go through a command line and come back.

    The programs' loops are [while] too, with the bound 2^32, which no file of
    this system reaches; [pingpong] never ends, and is proved for any number of
    its rounds.

    ** Not modelled

    - boot.S and x86_desc.S (the jump to [entry], tables of constants); ITLB
      and cache effects of [set_cr3]; [lidt], [lldt], [ltr], which load
      registers the model does not have.
    - Interrupts between two instructions of a system call: they are modelled
      where the kernel waits for them, and at the one point of
      [handler_syscall] where they matter.
    - The promises of the kernel on the keyboard, on [execute] and on the
      clock ([KeyboardLaws], [ExecuteLaws], [ClockLaws]) depend on interrupts
      to come; they are proved of [sim] only.  The wrappers pass 0 for the
      words of a call that has fewer arguments; the code passes what the
      registers hold.
    - Page faults of the programs, but for the store of [sigtest].
    - [halt], [sigreturn] and [_start] of the wrappers: a program is its [main],
      and its status the value that returns.
    - The code after the final [leave] of [halt] and after the [iret] of
      [execute]: the outcome is what the code pushed for them.
    - testcode.c, debug.h, [test_interrupts] of lib.c: nothing calls them, and
      the tests print and pass variables that they never set.
    - The copies of the library and the wrappers in src/fish.
    - The rotation of processes by the timer: [pit_handler] has its call of
      [change_task] commented out; [change_task] is modelled on its own. *)

From Stdlib Require Export ZArith Lia.
From stdpp Require Export base numbers strings gmap option.
From stdpp Require Export list.

#[global] Open Scope Z_scope.
#[global] Open Scope list_scope.

(** ** Machine words

    A w-bit C integer is a [Z]; the wrap-around of an unsigned type is a
    modulo, a signed type is the two's complement reading of one. *)

Definition u8 (z : Z) : Z := z mod 256.
Definition u16 (z : Z) : Z := z mod 65536.
Definition u32 (z : Z) : Z := z mod 4294967296.
Definition s8 (z : Z) : Z := (z + 128) mod 256 - 128.
Definition s32 (z : Z) : Z := (z + 2147483648) mod 4294967296 - 2147483648.

(** [zdm]: linear arithmetic with [/] and [mod] by constants. *)
Ltac zdm := Z.to_euclidean_division_equations; lia.
(** [words]: unfold the word operations, then [zdm]. *)
Ltac words := unfold u8, u16, u32, s8, s32 in *; zdm.

Lemma u8_small z : 0 <= z < 256 -> u8 z = z.
Proof. words. Qed.
Lemma u8_range z : 0 <= u8 z < 256.
Proof. words. Qed.
Lemma u8_u8 z : u8 (u8 z) = u8 z.
Proof. words. Qed.
Lemma u16_small z : 0 <= z < 65536 -> u16 z = z.
Proof. words. Qed.
Lemma u16_range z : 0 <= u16 z < 65536.
Proof. words. Qed.
Lemma u32_small z : 0 <= z < 4294967296 -> u32 z = z.
Proof. words. Qed.
Lemma u32_range z : 0 <= u32 z < 4294967296.
Proof. words. Qed.
Lemma u32_u32 z : u32 (u32 z) = u32 z.
Proof. words. Qed.
Lemma u32_add_l a b : u32 (u32 a + b) = u32 (a + b).
Proof. words. Qed.
Lemma u32_add_r a b : u32 (a + u32 b) = u32 (a + b).
Proof. words. Qed.
Lemma s32_small z : -2147483648 <= z < 2147483648 -> s32 z = z.
Proof. words. Qed.
Lemma s32_range z : -2147483648 <= s32 z < 2147483648.
Proof. words. Qed.
Lemma s8_range z : -128 <= s8 z < 128.
Proof. words. Qed.
Lemma s8_inj a b : 0 <= a < 256 -> 0 <= b < 256 -> s8 a = s8 b -> a = b.
Proof. words. Qed.
Lemma s8_u8 z : u8 (s8 z) = u8 z.
Proof. words. Qed.

Lemma land_255 z : Z.land z 255 = u8 z.
Proof. apply (Z.land_ones z 8). lia. Qed.

(** The low [n] bits of [k * 2^n + b]. *)
Lemma testbit_low k b n i : 0 <= i < n -> Z.testbit (k * 2 ^ n + b) i = Z.testbit b i.
Proof.
  intros Hi. rewrite <- (Z.mod_pow2_bits_low _ n i), <- (Z.mod_pow2_bits_low b n i) by lia.
  f_equal. rewrite Z.add_comm. apply Z.mod_add. apply Z.pow_nonzero; lia.
Qed.
Lemma lor_low k b n : 0 <= n -> 0 <= b < 2 ^ n -> Z.lor (k * 2 ^ n) b = k * 2 ^ n + b.
Proof.
  intros Hn Hb. symmetry. apply Z.add_nocarry_lor. apply Z.bits_inj'. intros i Hi.
  rewrite Z.land_spec, Z.bits_0. destruct (Z_lt_le_dec i n).
  - by rewrite Z.mul_pow2_bits_low by lia.
  - rewrite <- (Z.mod_small b (2 ^ n)), Z.mod_pow2_bits_high by lia. apply andb_false_r.
Qed.

Create HintDb word discriminated.
Create Rewrite HintDb word.
#[export] Hint Resolve u8_range u16_range u32_range s32_range s8_range : word.
#[export] Hint Rewrite u8_u8 u32_u32 u32_add_l u32_add_r s8_u8 : word.

(** [w32]: drop the wrap of every 32-bit (and 8-bit) value [lia] bounds. *)
Ltac w32 := repeat first [rewrite u32_small by lia | rewrite u8_small by lia
                         | rewrite s32_small by lia].

(** ** Outcomes

    [Ok a]: the code returns [a].  [Fault]: the code runs into undefined
    behaviour of C (an index out of range of an array, a NULL or
    uninitialised pointer).  [Hang]: it never returns. *)

Inductive res (A : Type) : Type :=
| Ok (a : A)
| Fault
| Hang.
Arguments Ok {A} a.
Arguments Fault {A}.
Arguments Hang {A}.

#[export] Instance res_ret : MRet res := fun _ a => Ok a.
#[export] Instance res_bind : MBind res := fun _ _ f m =>
  match m with Ok a => f a | Fault => Fault | Hang => Hang end.
#[export] Instance res_fmap : FMap res := fun _ _ f m =>
  match m with Ok a => Ok (f a) | Fault => Fault | Hang => Hang end.

Definition of_opt {A} (o : option A) : res A :=
  match o with Some a => Ok a | None => Fault end.

Lemma bind_ok {A B} (f : A -> res B) a : (Ok a ≫= f) = f a.
Proof. reflexivity. Qed.
Lemma bind_Ok_inv {A B} (m : res A) (f : A -> res B) b :
  (m ≫= f) = Ok b <-> exists a, m = Ok a /\ f a = Ok b.
Proof.
  destruct m as [a| |]; cbn; split; try done.
  - intros H. by exists a.
  - by intros (a' & [= ->] & H).
  - by intros (a' & [=] & _).
  - by intros (a' & [=] & _).
Qed.

(** The bytes of a string literal, without its terminator. *)
Definition byte_of_ascii (a : Ascii.ascii) : Z := Z.of_N (Ascii.N_of_ascii a).
Fixpoint bytes (s : String.string) : list Z :=
  match s with
  | String.EmptyString => []
  | String.String a s => byte_of_ascii a :: bytes s
  end.

(** ** Arrays indexed by a C integer

    [aget]/[aset] are [None] out of range, negative indices included. *)

Section Arrays.
Context {A : Type}.
Implicit Types (l : list A) (i j : Z) (x : A).

Definition aget l i : option A :=
  if 0 <=? i then l !! Z.to_nat i else None.
Definition aset l i x : option (list A) :=
  if (0 <=? i) && (i <? Z.of_nat (length l))
  then Some (<[Z.to_nat i := x]> l) else None.

Lemma aget_Some_lt l i x : aget l i = Some x -> 0 <= i < Z.of_nat (length l).
Proof.
  unfold aget. destruct (Z.leb_spec 0 i); [|done].
  intros Hx%lookup_lt_Some. lia.
Qed.
Lemma aget_is_Some l i : 0 <= i < Z.of_nat (length l) -> is_Some (aget l i).
Proof.
  intros Hi. unfold aget. destruct (Z.leb_spec 0 i); [|lia].
  apply lookup_lt_is_Some. lia.
Qed.
Lemma aget_None l i : i < 0 \/ Z.of_nat (length l) <= i -> aget l i = None.
Proof.
  intros Hi. unfold aget. destruct (Z.leb_spec 0 i); [|done].
  apply lookup_ge_None. lia.
Qed.
Lemma aset_Some l i x :
  0 <= i < Z.of_nat (length l) -> aset l i x = Some (<[Z.to_nat i := x]> l).
Proof.
  intros Hi. unfold aset.
  destruct (Z.leb_spec 0 i), (Z.ltb_spec i (Z.of_nat (length l)));
    simpl; (done || lia).
Qed.
Lemma aset_None l i x :
  i < 0 \/ Z.of_nat (length l) <= i -> aset l i x = None.
Proof.
  intros Hi. unfold aset.
  destruct (Z.leb_spec 0 i), (Z.ltb_spec i (Z.of_nat (length l)));
    simpl; (done || lia).
Qed.
Lemma aset_inv l i x l' :
  aset l i x = Some l' ->
  0 <= i < Z.of_nat (length l) /\ l' = <[Z.to_nat i := x]> l.
Proof.
  unfold aset.
  destruct (Z.leb_spec 0 i), (Z.ltb_spec i (Z.of_nat (length l)));
    simpl; intros [=]; auto.
Qed.
Lemma aget_aset l i j x l' :
  aset l i x = Some l' -> aget l' j = if i =? j then Some x else aget l j.
Proof.
  intros [Hi ->]%aset_inv. unfold aget.
  destruct (Z.leb_spec 0 j), (Z.eqb_spec i j); subst; try done; try lia.
  - apply list_lookup_insert_eq. lia.
  - apply list_lookup_insert_ne. lia.
Qed.
Lemma aset_length l i x l' : aset l i x = Some l' -> length l' = length l.
Proof. intros [_ ->]%aset_inv. apply length_insert. Qed.
Lemma aget_lookup l i : 0 <= i -> aget l i = l !! Z.to_nat i.
Proof. intros Hi. unfold aget. by destruct (Z.leb_spec 0 i); [|lia]. Qed.
Lemma aget_of_nat l (i : nat) : aget l (Z.of_nat i) = l !! i.
Proof. rewrite aget_lookup by lia. by rewrite Nat2Z.id. Qed.
Lemma aget_snoc l x i :
  aget (l ++ [x]) i = if i =? Z.of_nat (length l) then Some x else aget l i.
Proof.
  destruct (Z.eqb_spec i (Z.of_nat (length l))) as [->|Hne].
  - by rewrite aget_of_nat, lookup_app_r, Nat.sub_diag by lia.
  - destruct (Z_lt_le_dec i 0); [by rewrite !aget_None by lia|].
    rewrite !aget_lookup by done.
    destruct (Z_lt_le_dec i (Z.of_nat (length l))).
    + by rewrite lookup_app_l by lia.
    + rewrite !lookup_ge_None_2; rewrite ?length_app; cbn; lia || done.
Qed.
Lemma aget_reverse l i :
  0 <= i < Z.of_nat (length l) ->
  aget (reverse l) i = aget l (Z.of_nat (length l) - 1 - i).
Proof.
  intros Hi. rewrite !aget_lookup, reverse_lookup by lia. f_equal. lia.
Qed.
Lemma aget_ext l l' :
  length l = length l' ->
  (forall i, 0 <= i < Z.of_nat (length l) -> aget l i = aget l' i) -> l = l'.
Proof.
  intros Hlen H. apply list_eq. intros i.
  destruct (decide (i < length l)%nat) as [Hi|Hi].
  - specialize (H (Z.of_nat i) ltac:(lia)). by rewrite !aget_of_nat in H.
  - rewrite !lookup_ge_None_2 by lia. done.
Qed.
End Arrays.

(** ** Loops

    [while body s] runs a loop whose body either goes on with a new state
    ([inl]) or leaves the loop ([inr]).  The bound of 2^32 iterations is the
    number of values of a 32-bit counter; unrolled along the binary digits of
    the bound, it costs only the iterations that are made. *)

Section Loops.
Context {S R : Type}.
Variable body : S -> S + res R.

Fixpoint loop_pos (p : positive) (s : S) : S + res R :=
  match p with
  | xH => body s
  | xO q => match loop_pos q s with
            | inl s' => loop_pos q s'
            | inr r => inr r
            end
  | xI q => match body s with
            | inl s1 => match loop_pos q s1 with
                        | inl s2 => loop_pos q s2
                        | inr r => inr r
                        end
            | inr r => inr r
            end
  end.

Definition while (s : S) : res R :=
  match loop_pos 4294967296 s with inl _ => Hang | inr r => r end.

Fixpoint loop_nat (n : nat) (s : S) : S + res R :=
  match n with
  | O => inl s
  | Datatypes.S k => match body s with inl s' => loop_nat k s' | inr r => inr r end
  end.

Lemma loop_nat_add n k s :
  loop_nat (n + k) s =
  match loop_nat n s with inl s' => loop_nat k s' | inr r => inr r end.
Proof.
  revert s; induction n as [|n IH]; intros s; cbn; [done|].
  destruct (body s); auto.
Qed.

Lemma loop_pos_nat p s : loop_pos p s = loop_nat (Pos.to_nat p) s.
Proof.
  revert s; induction p as [p IH|p IH|]; intros s.
  - rewrite Pos2Nat.inj_xI. cbn [loop_pos loop_nat]. destruct (body s); [|done].
    replace (2 * Pos.to_nat p)%nat with (Pos.to_nat p + Pos.to_nat p)%nat by lia.
    rewrite loop_nat_add, <- !IH. destruct (loop_pos p s0); [|done]. by rewrite IH.
  - rewrite Pos2Nat.inj_xO. cbn [loop_pos].
    replace (2 * Pos.to_nat p)%nat with (Pos.to_nat p + Pos.to_nat p)%nat by lia.
    rewrite loop_nat_add, <- !IH. destruct (loop_pos p s); [|done]. by rewrite IH.
  - change (Pos.to_nat 1) with 1%nat. cbn. by destruct (body s).
Qed.

Lemma loop_nat_rule (I : S -> Prop) (mu : S -> Z) (Q : res R -> Prop) n s :
  I s -> 0 <= mu s < Z.of_nat n ->
  (forall s, I s -> match body s with
               | inl s' => I s' /\ 0 <= mu s' < mu s
               | inr r => Q r
               end) ->
  exists r, loop_nat n s = inr r /\ Q r.
Proof.
  intros HI Hmu Hbody. revert s HI Hmu.
  induction n as [|n IH]; intros s HI Hmu; [lia|].
  cbn [loop_nat]. specialize (Hbody s HI). destruct (body s) as [s'|r]; [|eauto].
  destruct Hbody as [HI' Hmu']. apply IH; [done|lia].
Qed.

Lemma loop_pos_rule (I : S -> Prop) (mu : S -> Z) (Q : res R -> Prop) p s :
  I s -> 0 <= mu s < Z.pos p ->
  (forall s, I s -> match body s with
               | inl s' => I s' /\ 0 <= mu s' < mu s
               | inr r => Q r
               end) ->
  exists r, loop_pos p s = inr r /\ Q r.
Proof.
  intros HI Hmu Hbody. rewrite loop_pos_nat.
  apply (loop_nat_rule I mu Q); try done. by rewrite positive_nat_Z.
Qed.

(** The total-correctness rule: an invariant, and a measure below 2^32 that
    every iteration decreases; the loop leaves with the postcondition. *)
Lemma while_rule (I : S -> Prop) (mu : S -> Z) (Q : res R -> Prop) s :
  I s -> 0 <= mu s < 4294967296 ->
  (forall s, I s -> match body s with
               | inl s' => I s' /\ 0 <= mu s' < mu s
               | inr r => Q r
               end) ->
  Q (while s).
Proof.
  intros HI Hmu Hbody. unfold while.
  destruct (loop_pos_rule I mu Q 4294967296 s HI Hmu Hbody) as (r & Hr & HQ).
  by rewrite Hr.
Qed.
End Loops.

(** Finite iteration [for (i = 0; i < n; i++)]. *)
Definition for_ {S} (n : Z) (f : S -> Z -> S) (s : S) : S :=
  foldl f s (seqZ 0 n).

Lemma for_inv {S} (n : Z) (f : S -> Z -> S) (I : Z -> S -> Prop) s :
  0 <= n -> I 0 s ->
  (forall i s, 0 <= i < n -> I i s -> I (i + 1) (f s i)) ->
  I n (for_ n f s).
Proof.
  intros Hn H0 Hstep. unfold for_.
  assert (Hk : forall k : nat, Z.of_nat k <= n ->
             I (Z.of_nat k) (foldl f s (seqZ 0 (Z.of_nat k)))).
  { induction k as [|k IH]; intros Hk; [done|].
    rewrite seqZ_S, foldl_app. cbn [foldl]. rewrite Z.add_0_l.
    replace (Z.of_nat (Datatypes.S k)) with (Z.of_nat k + 1) by lia.
    apply Hstep; [lia|]. apply IH; lia. }
  rewrite <- (Z2Nat.id n) by lia. apply Hk. lia.
Qed.

(** Case analysis on a variable [v] with [0 <= v < n]. *)
Ltac range_cases v n :=
  let Hc := fresh "Hc" in
  assert (Hc : v ∈ seqZ 0 n) by (apply elem_of_seqZ; lia);
  let l := eval vm_compute in (seqZ 0 n) in
  change (seqZ 0 n) with l in Hc;
  repeat (apply elem_of_cons in Hc; destruct Hc as [Hc|Hc]; [subst v|]);
  [..|by apply elem_of_nil in Hc].

(** The same with a body that may fault. *)
Fixpoint forM {S A} (l : list A) (f : S -> A -> res S) (s : S) : res S :=
  match l with
  | [] => Ok s
  | i :: l' => match f s i with Ok s' => forM l' f s' | Fault => Fault | Hang => Hang end
  end.

Lemma forM_snoc {S A} l (f : S -> A -> res S) i s :
  forM (l ++ [i]) f s = (s' ← forM l f s; f s' i).
Proof.
  revert s; induction l as [|j l IH]; intros s; cbn; [by destruct (f s i)|].
  destruct (f s j); done.
Qed.

(** The next state of a loop whose body can fail. *)
Definition continue {S R} (r : res S) : S + res R :=
  match r with Ok s => inl s | Fault => inr Fault | Hang => inr Hang end.

(** The rule of [while] with a bound on the turns left that need not be a
    function of the state. *)
Lemma while_rank {S R} (body : S -> S + res R) (I : Z -> S -> Prop) (Q : res R -> Prop) n s :
  I n s -> 0 <= n < 4294967296 ->
  (forall n s, 0 <= n -> I n s ->
     match body s with inl s' => exists n', 0 <= n' < n /\ I n' s' | inr r => Q r end) ->
  Q (while body s).
Proof.
  intros HI Hn Hb. unfold while. rewrite loop_pos_nat.
  assert (Hk : forall (k : nat) n s, 0 <= n < Z.of_nat k -> I n s -> exists r, loop_nat body k s = inr r /\ Q r).
  { induction k as [|k IH]; intros n' s' Hn' HI'; [lia|]. cbn [loop_nat]. specialize (Hb n' s' ltac:(lia) HI').
    destruct (body s') as [s2|r]; [|by exists r]. destruct Hb as (n2 & Hn2 & HI2). apply (IH n2); [lia|done]. }
  destruct (Hk (Pos.to_nat 4294967296) n s) as (r & -> & Hr); [by rewrite positive_nat_Z|done|done].
Qed.

(** A loop whose body can fail and can leave with a result. *)
Definition whileM {S R} (body : S -> res (S + R)) (s : S) : res R :=
  while (fun s => match body s with
                  | Ok (inl s') => inl s'
                  | Ok (inr r) => inr (Ok r)
                  | Fault => inr Fault
                  | Hang => inr Hang
                  end) s.

(** Its rule: the invariant carries a bound on the turns left, which need not
    be a function of the state. *)
Lemma whileM_rule {S R} (body : S -> res (S + R)) (I : Z -> S -> Prop) (Q : R -> Prop) n s :
  I n s -> 0 <= n < 4294967296 ->
  (forall n s, 0 <= n -> I n s -> exists x, body s = Ok x /\
     match x with inl s' => exists n', 0 <= n' < n /\ I n' s' | inr r => Q r end) ->
  exists r, whileM body s = Ok r /\ Q r.
Proof.
  intros HI Hn Hb. unfold whileM. apply (while_rank _ I (fun r => exists r', r = Ok r' /\ Q r') n); [done|done|].
  intros n' s' Hn' HI'. destruct (Hb n' s' Hn' HI') as ([s2|r] & -> & Hx); [done|by exists r].
Qed.

(** The invariant rule of [for (i = 0; i < n; i++)] with a body that may
    fault: it does not fault. *)
Lemma forM_inv {S} (n : Z) (f : S -> Z -> res S) (I : Z -> S -> Prop) s :
  0 <= n -> I 0 s ->
  (forall i s, 0 <= i < n -> I i s -> exists s', f s i = Ok s' /\ I (i + 1) s') ->
  exists s', forM (seqZ 0 n) f s = Ok s' /\ I n s'.
Proof.
  intros Hn H0 Hstep.
  assert (Hk : forall k : nat, Z.of_nat k <= n ->
             exists s', forM (seqZ 0 (Z.of_nat k)) f s = Ok s' /\ I (Z.of_nat k) s').
  { induction k as [|k IH]; intros Hk; [by exists s|].
    destruct IH as (s1 & H1 & HI); [lia|].
    destruct (Hstep (Z.of_nat k) s1) as (s2 & H2 & HI2); [lia|done|].
    exists s2. rewrite seqZ_S, forM_snoc, H1, Z.add_0_l. cbn. rewrite H2.
    split; [done|]. by replace (Z.of_nat (Datatypes.S k)) with (Z.of_nat k + 1) by lia. }
  rewrite <- (Z2Nat.id n) by lia. apply Hk. lia.
Qed.

(** [a[i] = x] as a step that faults out of range, and an array filled by it. *)
Definition set_at {A} (l : list A) (i : Z) (x : A) : res (list A) := of_opt (aset l i x).
Definition get_at {A} (l : list A) (i : Z) : res A := of_opt (aget l i).

Lemma set_at_ok {A} (l : list A) i x :
  0 <= i < Z.of_nat (length l) -> set_at l i x = Ok (<[Z.to_nat i := x]> l).
Proof. intros Hi. unfold set_at. by rewrite aset_Some. Qed.
Lemma set_at_Ok_inv {A} (l : list A) i x l' :
  set_at l i x = Ok l' -> 0 <= i < Z.of_nat (length l) /\ l' = <[Z.to_nat i := x]> l.
Proof.
  unfold set_at. destruct (aset l i x) eqn:E; cbn; [|done].
  intros [= ->]. by apply aset_inv.
Qed.
Lemma get_at_Ok_inv {A} (l : list A) i x :
  get_at l i = Ok x -> 0 <= i < Z.of_nat (length l) /\ aget l i = Some x.
Proof.
  unfold get_at. destruct (aget l i) eqn:E; cbn; [|done].
  intros [= ->]. split; [by eapply aget_Some_lt|done].
Qed.
Lemma get_at_ok {A} (l : list A) i x : aget l i = Some x -> get_at l i = Ok x.
Proof. unfold get_at. by intros ->. Qed.
Lemma aget_insert {A} (l : list A) i j x :
  0 <= i < Z.of_nat (length l) ->
  aget (<[Z.to_nat i := x]> l) j = if i =? j then Some x else aget l j.
Proof. intros Hi. apply aget_aset. by apply aset_Some. Qed.

(** The same loop over other bounds, and over any list with an invariant. *)
Lemma forM_fmap {S A B} (g : A -> B) l (f : S -> B -> res S) s :
  forM (g <$> l) f s = forM l (fun s i => f s (g i)) s.
Proof. revert s. induction l as [|i l IH]; intros s; cbn; [done|]. by destruct (f s (g i)). Qed.

Lemma forM_range {S} (a n : Z) (f : S -> Z -> res S) (I : Z -> S -> Prop) s :
  0 <= n -> I a s ->
  (forall i s, a <= i < a + n -> I i s -> exists s', f s i = Ok s' /\ I (i + 1) s') ->
  exists s', forM (seqZ a n) f s = Ok s' /\ I (a + n) s'.
Proof.
  intros Hn H0 Hstep. replace (seqZ a n) with (Z.add a <$> seqZ 0 n) by (rewrite fmap_add_seqZ; f_equal; lia).
  rewrite forM_fmap. apply (forM_inv n _ (fun i s => I (a + i) s)); [done|by rewrite Z.add_0_r|].
  intros i s' Hi HI. destruct (Hstep (a + i) s' ltac:(lia) HI) as (s2 & E & H2). exists s2.
  split; [done|]. by replace (a + (i + 1)) with (a + i + 1) by lia.
Qed.

Lemma forM_each {S A} (l : list A) (f : S -> A -> res S) (I : S -> Prop) s :
  I s -> (forall i s, i ∈ l -> I s -> exists s', f s i = Ok s' /\ I s') ->
  exists s', forM l f s = Ok s' /\ I s'.
Proof.
  revert s. induction l as [|i l IH]; intros s HI Hstep; cbn [forM]; [by exists s|].
  destruct (Hstep i s ltac:(by left) HI) as (s1 & -> & H1). apply IH; [done|].
  intros j s2 Hj. apply Hstep. by right.
Qed.

Lemma forM_fill {A} (v : A) (l : list A) :
  exists l', forM (seqZ 0 (Z.of_nat (length l))) (fun l i => set_at l i v) l = Ok l' /\
    length l' = length l /\
    forall i, 0 <= i < Z.of_nat (length l) -> aget l' i = Some v.
Proof.
  apply (forM_inv _ _ (fun k l' => length l' = length l /\
           forall i, 0 <= i < k -> aget l' i = Some v)); [lia|split; [done|lia]|].
  intros i l' Hi [Hlen Hl']. exists (<[Z.to_nat i := v]> l').
  rewrite set_at_ok by lia. split; [done|]. split; [by rewrite length_insert|].
  intros j Hj. rewrite aget_insert by lia. destruct (Z.eqb_spec i j); [done|].
  apply Hl'. lia.
Qed.
