(* ===== verification/Mem.v ===== *)
(** * Byte-addressed physical memory

    The 32-bit address space of the machine: an address wraps at 2^32, a cell
    holds a byte.  A finite map stands for the total memory; a cell it does
    not list reads 0. *)

From S2P Require Import Prelude.

Abbreviation mem := (gmap Z Z).

Definition load8 (m : mem) (a : Z) : Z := u8 (default 0 (m !! u32 a)).
Definition store8 (m : mem) (a v : Z) : mem := <[u32 a := u8 v]> m.

(** 32-bit little-endian access, as [movl] does it. *)
Definition load32 (m : mem) (a : Z) : Z :=
  load8 m a + 256 * load8 m (a + 1) + 65536 * load8 m (a + 2)
  + 16777216 * load8 m (a + 3).
Definition store32 (m : mem) (a v : Z) : mem :=
  store8 (store8 (store8 (store8 m a v) (a + 1) (v / 256)) (a + 2) (v / 65536))
         (a + 3) (v / 16777216).
Definition store16 (m : mem) (a v : Z) : mem :=
  store8 (store8 m a v) (a + 1) (v / 256).

Definition load_list (m : mem) (a n : Z) : list Z :=
  (fun i => load8 m (a + i)) <$> seqZ 0 n.
Definition store_list (m : mem) (a : Z) (l : list Z) : mem :=
  foldl (fun m iv => store8 m (a + fst iv) (snd iv)) m
        (zip (seqZ 0 (Z.of_nat (length l))) l).

(** ** Loads after stores *)

Lemma load8_range m a : 0 <= load8 m a < 256.
Proof. apply u8_range. Qed.
Lemma load8_u32 m a : load8 m (u32 a) = load8 m a.
Proof. unfold load8. by rewrite u32_u32. Qed.
Lemma store8_u32 m a v : store8 m (u32 a) v = store8 m a v.
Proof. unfold store8. by rewrite u32_u32. Qed.

Lemma load8_store8 m a v b :
  load8 (store8 m a v) b = if u32 a =? u32 b then u8 v else load8 m b.
Proof.
  unfold load8, store8. rewrite lookup_insert. case_decide as Hd.
  - rewrite Hd, Z.eqb_refl. cbn. apply u8_u8.
  - by destruct (Z.eqb_spec (u32 a) (u32 b)).
Qed.
Lemma load8_store8_eq m a v : load8 (store8 m a v) a = u8 v.
Proof. by rewrite load8_store8, Z.eqb_refl. Qed.

(** Inside the 32-bit address space, [u32] is the identity. *)
Definition addr (a : Z) : Prop := 0 <= a < 4294967296.

Lemma load8_store8_addr m a v b :
  addr a -> addr b -> load8 (store8 m a v) b = if a =? b then u8 v else load8 m b.
Proof. unfold addr. intros ??. by rewrite load8_store8, !u32_small by done. Qed.
Lemma load8_store8_ne m a v b :
  addr a -> addr b -> a <> b -> load8 (store8 m a v) b = load8 m b.
Proof.
  intros. rewrite load8_store8_addr by done. by destruct (Z.eqb_spec a b).
Qed.

(** A 32-bit move is a move of its four bytes. *)
Lemma load32_byte m a k :
  0 <= k < 4 -> u8 (load32 m a / 2 ^ (8 * k)) = load8 m (a + k).
Proof.
  intros Hk.
  pose proof (load8_range m a). pose proof (load8_range m (a + 1)).
  pose proof (load8_range m (a + 2)). pose proof (load8_range m (a + 3)).
  assert (k = 0 \/ k = 1 \/ k = 2 \/ k = 3) as [->|[->|[->| ->]]] by lia;
    unfold load32; [rewrite Z.add_0_r| | |].
  - change (2 ^ (8 * 0)) with 1. words.
  - change (2 ^ (8 * 1)) with 256. words.
  - change (2 ^ (8 * 2)) with 65536. words.
  - change (2 ^ (8 * 3)) with 16777216. words.
Qed.

Lemma load8_store32 m a v b :
  addr b -> 0 <= a -> a + 4 <= 4294967296 ->
  load8 (store32 m a v) b =
  if (a <=? b) && (b <? a + 4) then u8 (v / 2 ^ (8 * (b - a))) else load8 m b.
Proof.
  unfold addr; intros Hb Ha1 Ha2. unfold store32.
  rewrite !load8_store8_addr by (unfold addr; lia).
  destruct (Z.leb_spec a b), (Z.ltb_spec b (a + 4)); cbn [andb];
    repeat match goal with |- context [?x =? ?y] => destruct (Z.eqb_spec x y) end;
    try lia; subst; try done.
  - replace (a + 3 - a) with 3 by lia. reflexivity.
  - replace (a + 2 - a) with 2 by lia. reflexivity.
  - replace (a + 1 - a) with 1 by lia. reflexivity.
  - replace (b - b) with 0 by lia. cbn. by rewrite Z.div_1_r.
Qed.

Lemma load8_store32_load32 m m' a s b :
  addr b -> 0 <= a -> a + 4 <= 4294967296 ->
  load8 (store32 m a (load32 m' s)) b =
  if (a <=? b) && (b <? a + 4) then load8 m' (s + (b - a)) else load8 m b.
Proof.
  intros Hb Ha1 Ha2. rewrite load8_store32 by done.
  destruct (Z.leb_spec a b), (Z.ltb_spec b (a + 4)); cbn [andb]; try done.
  apply load32_byte. lia.
Qed.

Lemma load32_range m a : 0 <= load32 m a < 4294967296.
Proof.
  pose proof (load8_range m a). pose proof (load8_range m (a + 1)).
  pose proof (load8_range m (a + 2)). pose proof (load8_range m (a + 3)).
  unfold load32. lia.
Qed.
Lemma load32_ext m m' a :
  (forall i, 0 <= i < 4 -> load8 m (a + i) = load8 m' (a + i)) ->
  load32 m a = load32 m' a.
Proof.
  intros H. unfold load32.
  rewrite !H by lia. rewrite <- (Z.add_0_r a) at 1. rewrite H by lia.
  by rewrite Z.add_0_r.
Qed.
Lemma load32_store32 m a v :
  0 <= a -> a + 4 <= 4294967296 -> load32 (store32 m a v) a = u32 v.
Proof.
  intros. unfold load32. rewrite !load8_store32 by (unfold addr; lia).
  replace (a - a) with 0 by lia. replace (a + 1 - a) with 1 by lia.
  replace (a + 2 - a) with 2 by lia. replace (a + 3 - a) with 3 by lia.
  repeat match goal with
         | |- context [?x <=? ?y] => destruct (Z.leb_spec x y); [|lia]
         | |- context [?x <? ?y] => destruct (Z.ltb_spec x y); [|lia]
         end.
  cbn [andb]. change (2 ^ (8 * 0)) with 1. change (2 ^ (8 * 1)) with 256.
  change (2 ^ (8 * 2)) with 65536. change (2 ^ (8 * 3)) with 16777216. words.
Qed.

(** ** Equality of memories as functions

    Two maps that read the same at every address are the same memory. *)

Definition mem_eq (m m' : mem) : Prop := forall a, load8 m a = load8 m' a.
#[export] Instance mem_eq_equiv : Equivalence mem_eq.
Proof. split; repeat intro; unfold mem_eq in *; congruence. Qed.
#[export] Instance load8_proper : Proper (mem_eq ==> eq ==> eq) load8.
Proof. intros m m' H a ? <-. apply H. Qed.
#[export] Instance load32_proper : Proper (mem_eq ==> eq ==> eq) load32.
Proof. intros m m' H a ? <-. unfold load32. by rewrite !H. Qed.
#[export] Instance store8_proper : Proper (mem_eq ==> eq ==> eq ==> mem_eq) store8.
Proof.
  intros m m' H a ? <- v ? <- b. rewrite !load8_store8. by rewrite H.
Qed.

(** [same_outside lo hi m m']: a write confined to [lo, hi). *)
Definition same_outside (lo hi : Z) (m m' : mem) : Prop :=
  forall a, addr a -> ~ (lo <= a < hi) -> load8 m' a = load8 m a.

Lemma same_outside_refl lo hi m : same_outside lo hi m m.
Proof. by intros a. Qed.
Lemma same_outside_trans lo hi m1 m2 m3 :
  same_outside lo hi m1 m2 -> same_outside lo hi m2 m3 -> same_outside lo hi m1 m3.
Proof. intros H1 H2 a Ha Hn. rewrite H2 by done. by apply H1. Qed.
Lemma same_outside_store8 lo hi m a v :
  addr a -> lo <= a < hi -> same_outside lo hi m (store8 m a v).
Proof. intros Ha Hin b Hb Hn. apply load8_store8_ne; [done..|]. intros ->; lia. Qed.
Lemma same_outside_store32 m a v :
  0 <= a -> a + 4 <= 4294967296 -> same_outside a (a + 4) m (store32 m a v).
Proof.
  intros H1 H2 b Hb Ho. rewrite load8_store32 by done.
  destruct (Z.leb_spec a b), (Z.ltb_spec b (a + 4)); cbn [andb]; done || lia.
Qed.
Lemma same_outside_weaken lo hi lo' hi' m m' :
  lo' <= lo -> hi <= hi' -> same_outside lo hi m m' -> same_outside lo' hi' m m'.
Proof. intros ?? H a Ha Hn. apply H; [done|lia]. Qed.

Lemma load8_store_list m a l b :
  0 <= a -> a + Z.of_nat (length l) <= 4294967296 -> addr b ->
  load8 (store_list m a l) b =
  if (a <=? b) && (b <? a + Z.of_nat (length l))
  then u8 (default 0 (aget l (b - a))) else load8 m b.
Proof.
  revert m. induction l as [|v l IH] using rev_ind; intros m Ha Hl Hb.
  { change (store_list m a []) with m. cbn [length].
    destruct (Z.leb_spec a b), (Z.ltb_spec b (a + Z.of_nat 0)); cbn [andb]; try done; lia. }
  rewrite length_app in *; cbn [length] in *.
  assert (Happ : store_list m a (l ++ [v]) =
                 store8 (store_list m a l) (a + Z.of_nat (length l)) v).
  { unfold store_list. rewrite length_app; cbn [length].
    replace (Z.of_nat (length l + 1)) with (Z.of_nat (S (length l))) by lia.
    rewrite seqZ_S, zip_with_app by (rewrite length_seqZ; lia).
    rewrite foldl_app; cbn. done. }
  rewrite Happ, load8_store8_addr by (unfold addr in *; lia).
  rewrite IH by (done || lia). clear IH Happ.
  destruct (Z.eqb_spec (a + Z.of_nat (length l)) b) as [<-|Hne].
  - destruct (Z.leb_spec a (a + Z.of_nat (length l))); [|lia].
    destruct (Z.ltb_spec (a + Z.of_nat (length l)) (a + Z.of_nat (length l + 1))); [|lia].
    cbn [andb]. unfold aget. destruct (Z.leb_spec 0 (a + Z.of_nat (length l) - a)); [|lia].
    replace (Z.to_nat (a + Z.of_nat (length l) - a)) with (length l) by lia.
    by rewrite lookup_app_r, Nat.sub_diag by done.
  - destruct (Z.leb_spec a b); cbn [andb]; [|done].
    destruct (Z.ltb_spec b (a + Z.of_nat (length l))),
             (Z.ltb_spec b (a + Z.of_nat (length l + 1))); try lia.
    unfold aget. destruct (Z.leb_spec 0 (b - a)); [|lia].
    by rewrite lookup_app_l by lia.
Qed.

(** [writes m m' d n f]: the bytes [f 0 .. f (n-1)] are written at [d],
    nothing else changes. *)
Definition writes (m m' : mem) (d n : Z) (f : Z -> Z) : Prop :=
  forall a, addr a ->
    load8 m' a = if (d <=? a) && (a <? d + n) then f (a - d) else load8 m a.

Lemma writes_in m m' d n f i :
  writes m m' d n f -> 0 <= d -> d + n <= 4294967296 -> 0 <= i < n ->
  load8 m' (d + i) = f i.
Proof.
  intros H Hd Hn Hi. rewrite H by (unfold addr; lia).
  destruct (Z.leb_spec d (d + i)), (Z.ltb_spec (d + i) (d + n)); try lia.
  cbn [andb]. f_equal. lia.
Qed.
Lemma writes_out m m' d n f a :
  writes m m' d n f -> addr a -> a < d \/ d + n <= a -> load8 m' a = load8 m a.
Proof.
  intros H Ha Hout. rewrite H by done.
  destruct (Z.leb_spec d a), (Z.ltb_spec a (d + n)); try lia; done.
Qed.
Lemma writes_same_outside m m' d n f :
  writes m m' d n f -> same_outside d (d + n) m m'.
Proof. intros H a Ha Hn. apply (writes_out _ _ _ _ _ _ H Ha). lia. Qed.
Lemma writes_nil m d n f : n <= 0 -> writes m m d n f.
Proof.
  intros Hn a Ha. destruct (Z.leb_spec d a), (Z.ltb_spec a (d + n)); done || lia.
Qed.
Lemma writes_ext m m' d n f g :
  (forall i, 0 <= i < n -> f i = g i) -> writes m m' d n f -> writes m m' d n g.
Proof.
  intros Hfg H a Ha. rewrite H by done.
  destruct (Z.leb_spec d a), (Z.ltb_spec a (d + n)); cbn [andb]; try done.
  apply Hfg. lia.
Qed.
Lemma writes_app m1 m2 m3 d n1 n2 f g :
  0 <= n1 -> 0 <= n2 ->
  writes m1 m2 d n1 f -> writes m2 m3 (d + n1) n2 g ->
  writes m1 m3 d (n1 + n2) (fun i => if i <? n1 then f i else g (i - n1)).
Proof.
  intros ?? H1 H2 a Ha. rewrite H2, H1 by done.
  destruct (Z.leb_spec (d + n1) a), (Z.ltb_spec a (d + n1 + n2)),
    (Z.leb_spec d a), (Z.ltb_spec a (d + n1)), (Z.ltb_spec a (d + (n1 + n2)));
    cbn [andb]; try lia; try done;
    destruct (Z.ltb_spec (a - d) n1); try lia; try done; f_equal; lia.
Qed.
(** The same for writes made from the end of the range. *)
Lemma writes_app_back m1 m2 m3 d n1 n2 f g :
  0 <= n1 -> 0 <= n2 ->
  writes m1 m2 (d + n1) n2 g -> writes m2 m3 d n1 f ->
  writes m1 m3 d (n1 + n2) (fun i => if i <? n1 then f i else g (i - n1)).
Proof.
  intros ?? H1 H2 a Ha. rewrite H2, H1 by done.
  destruct (Z.leb_spec (d + n1) a), (Z.ltb_spec a (d + n1 + n2)),
    (Z.leb_spec d a), (Z.ltb_spec a (d + n1)), (Z.ltb_spec a (d + (n1 + n2)));
    cbn [andb]; try lia; try done;
    destruct (Z.ltb_spec (a - d) n1); try lia; try done; f_equal; lia.
Qed.
Lemma writes_store8 m d v : addr d -> writes m (store8 m d v) d 1 (fun _ => u8 v).
Proof.
  intros Hd a Ha. rewrite load8_store8_addr by done.
  destruct (Z.eqb_spec d a), (Z.leb_spec d a), (Z.ltb_spec a (d + 1)); done || lia.
Qed.
Lemma writes_store32 m d v :
  0 <= d -> d + 4 <= 4294967296 ->
  writes m (store32 m d v) d 4 (fun i => u8 (v / 2 ^ (8 * i))).
Proof. intros ?? a Ha. by apply load8_store32. Qed.
Lemma writes_store_list m a l :
  0 <= a -> a + Z.of_nat (length l) <= 4294967296 ->
  writes m (store_list m a l) a (Z.of_nat (length l))
         (fun i => u8 (default 0 (aget l i))).
Proof. intros ?? b Hb. by apply load8_store_list. Qed.

Create HintDb mem discriminated.
#[export] Hint Resolve same_outside_refl load8_range : mem.

(** ** Strings in memory *)

(** [bytes_at m a l]: the bytes [l] lie at [a]. *)
Definition bytes_at (m : mem) (a : Z) (l : list Z) : Prop :=
  forall i, 0 <= i < Z.of_nat (length l) -> aget l i = Some (load8 m (a + i)).

(** [is_cstr m a l]: the NUL-terminated string at [a] has the bytes [l]. *)
Definition is_cstr (m : mem) (a : Z) (l : list Z) : Prop :=
  (forall i, 0 <= i < Z.of_nat (length l) ->
     load8 m (a + i) <> 0 /\ aget l i = Some (load8 m (a + i))) /\
  load8 m (a + Z.of_nat (length l)) = 0.

Lemma bytes_at_nil m a : bytes_at m a [].
Proof. intros i Hi. cbn in Hi. lia. Qed.
Lemma bytes_at_snoc m a l v :
  bytes_at m a l -> load8 m (a + Z.of_nat (length l)) = v -> bytes_at m a (l ++ [v]).
Proof.
  intros H Hv i Hi. rewrite length_app in Hi; cbn [length] in Hi.
  rewrite aget_snoc. destruct (Z.eqb_spec i (Z.of_nat (length l))) as [->|].
  - by rewrite Hv.
  - apply H. lia.
Qed.
Lemma bytes_at_ext m m' a l :
  (forall i, 0 <= i < Z.of_nat (length l) -> load8 m' (a + i) = load8 m (a + i)) ->
  bytes_at m a l -> bytes_at m' a l.
Proof. intros H Hb i Hi. rewrite H by done. by apply Hb. Qed.
Lemma is_cstr_bytes m a l : is_cstr m a l -> bytes_at m a l.
Proof. intros [H _] i Hi. by apply H. Qed.
Lemma is_cstr_nz m a l i :
  is_cstr m a l -> 0 <= i < Z.of_nat (length l) -> load8 m (a + i) <> 0.
Proof. intros [H _] Hi. by apply H. Qed.
Lemma is_cstr_get m a l i :
  is_cstr m a l -> 0 <= i < Z.of_nat (length l) -> aget l i = Some (load8 m (a + i)).
Proof. intros [H _] Hi. by apply H. Qed.
Lemma is_cstr_end m a l :
  is_cstr m a l -> load8 m (a + Z.of_nat (length l)) = 0.
Proof. by intros [_ H]. Qed.
Lemma is_cstr_chars m a l : is_cstr m a l -> Forall (fun c => 0 < c < 256) l.
Proof.
  intros H. apply Forall_forall. intros c Hc. apply list_elem_of_lookup in Hc as [i Hi].
  pose proof (lookup_lt_Some _ _ _ Hi). rewrite <- aget_of_nat in Hi.
  pose proof (is_cstr_get _ _ _ (Z.of_nat i) H ltac:(lia)) as E.
  pose proof (is_cstr_nz _ _ _ (Z.of_nat i) H ltac:(lia)).
  pose proof (load8_range m (a + Z.of_nat i)). rewrite Hi in E. injection E as ->. lia.
Qed.
Lemma is_cstr_ext m m' a l :
  (forall i, 0 <= i <= Z.of_nat (length l) -> load8 m' (a + i) = load8 m (a + i)) ->
  is_cstr m a l -> is_cstr m' a l.
Proof.
  intros H [H1 H2]. split.
  - intros i Hi. rewrite H by lia. auto.
  - by rewrite H by lia.
Qed.
Lemma is_cstr_move m m' a a' l :
  (forall i, 0 <= i <= Z.of_nat (length l) -> load8 m' (a' + i) = load8 m (a + i)) ->
  is_cstr m a l -> is_cstr m' a' l.
Proof.
  intros H [H1 H2]. split.
  - intros i Hi. rewrite H by lia. auto.
  - by rewrite H by lia.
Qed.

Lemma is_cstr_drop m a l n :
  is_cstr m a l -> (n <= length l)%nat -> is_cstr m (a + Z.of_nat n) (drop n l).
Proof.
  intros [H1 H2] Hn. split; rewrite length_drop.
  - intros i Hi. destruct (H1 (Z.of_nat n + i) ltac:(lia)) as [Ha Hb].
    rewrite Z.add_assoc in Ha, Hb. split; [exact Ha|].
    rewrite aget_lookup in * by lia. rewrite lookup_drop.
    replace (n + Z.to_nat i)%nat with (Z.to_nat (Z.of_nat n + i)) by lia. exact Hb.
  - replace (a + Z.of_nat n + Z.of_nat (length l - n)) with (a + Z.of_nat (length l)) by lia.
    exact H2.
Qed.

(** A boolean test of [is_cstr], for concrete memories. *)
Definition is_cstr_b (m : mem) (a : Z) (l : list Z) : bool :=
  forallb (fun i => negb (load8 m (a + i) =? 0) &&
                    bool_decide (aget l i = Some (load8 m (a + i))))
          (seqZ 0 (Z.of_nat (length l))) && (load8 m (a + Z.of_nat (length l)) =? 0).
Lemma is_cstr_dec m a l : is_cstr_b m a l = true -> is_cstr m a l.
Proof.
  unfold is_cstr_b. rewrite andb_true_iff, Z.eqb_eq, forallb_forall.
  intros [H1 H2]. split; [|done]. intros i Hi.
  specialize (H1 i ltac:(apply list_elem_of_In, elem_of_seqZ; lia)).
  rewrite andb_true_iff, negb_true_iff, Z.eqb_neq, bool_decide_eq_true in H1. done.
Qed.
