(* ===== verification/Lib.v ===== *)
(** * lib.c: the kernel's string and memory routines

    [strlen], [strncmp], [strcpy], [strncpy], [strrev], [itoa] as loops over
    the byte memory; [memset], [memset_word], [memset_dword], [memcpy] and
    [memmove] as the inline assembly computes them (aligned head, dword body,
    byte tail; the direction flag).  The theorems relate each routine to the
    byte-wise operation it stands for. *)

From S2P Require Import Prelude Mem.

(** ** Strings (lib.c) *)

Definition strlen (m : mem) (s : Z) : res Z :=
  while (fun len => if load8 m (s + len) =? 0 then inr (Ok len)
                    else inl (u32 (len + 1))) 0.

(** [int8_t] is a signed [char]; [i] is an [int32_t], [n] a [uint32_t]. *)
Definition strncmp (m : mem) (s1 s2 n : Z) : res Z :=
  while (fun i =>
    if u32 i <? u32 n then
      let c1 := s8 (load8 m (s1 + i)) in
      let c2 := s8 (load8 m (s2 + i)) in
      if negb (c1 =? c2) || (c1 =? 0) then inr (Ok (c1 - c2))
      else inl (s32 (i + 1))
    else inr (Ok 0)) 0.

Definition strcpy (m : mem) (dest src : Z) : res mem :=
  while (fun '(i, m) =>
    if load8 m (src + i) =? 0 then inr (Ok (store8 m (dest + i) 0))
    else inl (s32 (i + 1), store8 m (dest + i) (load8 m (src + i)))) (0, m).

Definition strncpy (m : mem) (dest src n : Z) : res mem :=
  '(i, m) ← while (fun '(i, m) =>
    if negb (load8 m (src + i) =? 0) && (u32 i <? u32 n)
    then inl (s32 (i + 1), store8 m (dest + i) (load8 m (src + i)))
    else inr (Ok (i, m))) (0, m);
  while (fun '(i, m) =>
    if u32 i <? u32 n then inl (s32 (i + 1), store8 m (dest + i) 0)
    else inr (Ok m)) (i, m).

Definition strrev (m : mem) (s : Z) : res mem :=
  len ← strlen m s;
  while (fun '(beg, end_, m) =>
    if beg <? end_ then
      let tmp := load8 m (s + end_) in
      let m := store8 m (s + end_) (load8 m (s + beg)) in
      let m := store8 m (s + beg) tmp in
      inl (beg + 1, end_ - 1, m)
    else inr (Ok m)) (0, s32 (len - 1), m).

(** The digit table of [itoa], its terminator included. *)
Definition lookup_digits : list Z :=
  [48; 49; 50; 51; 52; 53; 54; 55; 56; 57; 65; 66; 67; 68; 69; 70; 71; 72; 73;
   74; 75; 76; 77; 78; 79; 80; 81; 82; 83; 84; 85; 86; 87; 88; 89; 90; 0].

(** [newval % radix] converts [radix] to unsigned; a zero radix divides by
    zero, a radix above 37 indexes past the table. *)
Definition itoa (m : mem) (value buf radix : Z) : res mem :=
  if u32 value =? 0 then Ok (store8 (store8 m buf 48) (buf + 1) 0)
  else
    '(newbuf, m) ← while (fun '(newval, newbuf, m) =>
      if 0 <? newval then
        if u32 radix =? 0 then inr Fault
        else match aget lookup_digits (s32 (newval mod u32 radix)) with
             | Some c => inl (newval / u32 radix, newbuf + 1, store8 m newbuf c)
             | None => inr Fault
             end
      else inr (Ok (newbuf, m))) (u32 value, buf, m);
    strrev (store8 m newbuf 0) buf.

(** ** Memory blocks (lib.c, inline assembly) *)

(** [rep stosb]/[rep movsb] and the byte loops around them, [step] being +1 or
    -1 with the direction flag; [ecx] counts down. *)
Fixpoint rep_movsb (step : Z) (ecx : nat) (m : mem) (edi esi : Z) : mem :=
  match ecx with
  | O => m
  | S k => rep_movsb step k (store8 m edi (load8 m esi))
                     (u32 (edi + step)) (u32 (esi + step))
  end.

(** [rep movsl]; the registers it leaves are used by the byte tail. *)
Fixpoint rep_movsl (ecx : nat) (m : mem) (edi esi : Z) : mem * Z * Z :=
  match ecx with
  | O => (m, edi, esi)
  | S k => rep_movsl k (store32 m edi (load32 m esi)) (u32 (edi + 4)) (u32 (esi + 4))
  end.

Fixpoint stosb_loop (ecx : nat) (m : mem) (edi al : Z) : mem :=
  match ecx with
  | O => m
  | S k => stosb_loop k (store8 m edi al) (u32 (edi + 1)) al
  end.

Fixpoint rep_stosl (ecx : nat) (m : mem) (edi eax : Z) : mem * Z :=
  match ecx with
  | O => (m, edi)
  | S k => rep_stosl k (store32 m edi eax) (u32 (edi + 4)) eax
  end.

Fixpoint rep_stosw (ecx : nat) (m : mem) (edi eax : Z) : mem :=
  match ecx with
  | O => m
  | S k => rep_stosw k (store16 m edi eax) (u32 (edi + 2)) eax
  end.

(** [.memcpy_aligned] and [.memcpy_bottom] *)
Definition memcpy_aligned (ecx : nat) (m : mem) (edi esi : Z) : mem :=
  let edx := Z.land (Z.of_nat ecx) 3 in
  let '(m, edi, esi) := rep_movsl (Z.to_nat (Z.shiftr (Z.of_nat ecx) 2)) m edi esi in
  rep_movsb 1 (Z.to_nat edx) m edi esi.

(** [.memcpy_top] *)
Fixpoint memcpy_top (ecx : nat) (m : mem) (edi esi : Z) : mem :=
  match ecx with
  | O => m
  | S k =>
    if Z.land edi 3 =? 0 then memcpy_aligned ecx m edi esi
    else memcpy_top k (store8 m edi (load8 m esi)) (u32 (edi + 1)) (u32 (esi + 1))
  end.

Definition memcpy (m : mem) (dest src n : Z) : mem :=
  memcpy_top (Z.to_nat (u32 n)) m (u32 dest) (u32 src).

(** [memmove] returns the direction flag it leaves beside the memory. *)
Definition memmove (m : mem) (dest src n : Z) : mem * bool :=
  let edi := u32 dest in
  let esi := u32 src in
  let ecx := u32 n in
  if edi <=? esi then (rep_movsb 1 (Z.to_nat ecx) m edi esi, false)
  else (rep_movsb (-1) (Z.to_nat ecx) m (u32 (edi + ecx - 1)) (u32 (esi + ecx - 1)),
        true).

(** [.memset_aligned] and [.memset_bottom] *)
Definition memset_aligned (ecx : nat) (m : mem) (edi eax : Z) : mem :=
  let edx := Z.land (Z.of_nat ecx) 3 in
  let '(m, edi) := rep_stosl (Z.to_nat (Z.shiftr (Z.of_nat ecx) 2)) m edi eax in
  stosb_loop (Z.to_nat edx) m edi (u8 eax).

(** [.memset_top] *)
Fixpoint memset_top (ecx : nat) (m : mem) (edi eax : Z) : mem :=
  match ecx with
  | O => m
  | S k =>
    if Z.land edi 3 =? 0 then memset_aligned ecx m edi eax
    else memset_top k (store8 m edi (u8 eax)) (u32 (edi + 1)) eax
  end.

Definition memset (m : mem) (s c n : Z) : mem :=
  let c := Z.land c 255 in
  let eax := u32 (Z.lor (Z.lor (Z.lor (Z.shiftl c 24) (Z.shiftl c 16))
                               (Z.shiftl c 8)) c) in
  memset_top (Z.to_nat (u32 n)) m (u32 s) eax.

Definition memset_word (m : mem) (s c n : Z) : mem :=
  rep_stosw (Z.to_nat (u32 n)) m (u32 s) (u32 c).

Definition memset_dword (m : mem) (s c n : Z) : mem :=
  fst (rep_stosl (Z.to_nat (u32 n)) m (u32 s) (u32 c)).

(** ** Block copies *)

(** A forward copy reads every source byte before it overwrites it. *)
Definition fwd_ok (d s n : Z) : Prop := d <= s \/ s + n <= d.

(** The precondition of a copy: both ranges lie in the address space. *)
Definition in_space (a n : Z) : Prop := 0 <= a /\ 0 <= n /\ a + n <= 4294967296.

Lemma copy_step m1 m2 m3 d s k n :
  0 <= k -> 0 <= n -> in_space d (k + n) -> in_space s (k + n) ->
  fwd_ok d s (k + n) ->
  writes m1 m2 d k (fun i => load8 m1 (s + i)) ->
  writes m2 m3 (d + k) n (fun i => load8 m2 (s + k + i)) ->
  writes m1 m3 d (k + n) (fun i => load8 m1 (s + i)).
Proof.
  unfold in_space, fwd_ok. intros Hk Hn Hd Hs Hf H1 H2.
  eapply writes_ext; [|apply (writes_app _ _ _ _ _ _ _ _ Hk Hn H1 H2)].
  intros i Hi; cbn beta. destruct (Z.ltb_spec i k); [done|].
  rewrite (writes_out _ _ _ _ _ _ H1) by (unfold addr; lia).
  f_equal; lia.
Qed.

Lemma rep_movsb_fwd n m d s :
  in_space d (Z.of_nat n) -> in_space s (Z.of_nat n) -> fwd_ok d s (Z.of_nat n) ->
  writes m (rep_movsb 1 n m (u32 d) (u32 s)) d (Z.of_nat n)
         (fun i => load8 m (s + i)).
Proof.
  revert m d s. induction n as [|n IH]; intros m d s Hd Hs Hf.
  { by apply writes_nil. }
  cbn [rep_movsb]. rewrite load8_u32, store8_u32, !u32_add_l.
  replace (Z.of_nat (S n)) with (1 + Z.of_nat n) in * by lia.
  unfold in_space, fwd_ok in *.
  eapply copy_step; unfold in_space, fwd_ok; try lia.
  - eapply writes_ext; [|apply writes_store8; unfold addr; lia].
    intros i Hi; cbn beta. replace (s + i) with s by lia. apply u8_small, load8_range.
  - apply IH; unfold in_space, fwd_ok; lia.
Qed.

Lemma rep_movsb_bwd n m d s :
  in_space d (Z.of_nat n) -> in_space s (Z.of_nat n) -> s < d ->
  writes m (rep_movsb (-1) n m (u32 (d + Z.of_nat n - 1)) (u32 (s + Z.of_nat n - 1)))
         d (Z.of_nat n) (fun i => load8 m (s + i)).
Proof.
  revert m. induction n as [|n IH]; intros m Hd Hs Hf.
  { by apply writes_nil. }
  cbn [rep_movsb]. rewrite load8_u32, store8_u32, !u32_add_l.
  replace (d + Z.of_nat (S n) - 1) with (d + Z.of_nat n) by lia.
  replace (s + Z.of_nat (S n) - 1) with (s + Z.of_nat n) by lia.
  unfold in_space in *.
  set (m' := store8 m (d + Z.of_nat n) (load8 m (s + Z.of_nat n))).
  replace (d + Z.of_nat n + -1) with (d + Z.of_nat n - 1) by lia.
  replace (s + Z.of_nat n + -1) with (s + Z.of_nat n - 1) by lia.
  replace (Z.of_nat (S n)) with (Z.of_nat n + 1) in * by lia.
  eapply writes_ext; cycle 1.
  { eapply (writes_app_back m m'); [lia|lia| |apply IH; lia].
    apply writes_store8. unfold addr; lia. }
  intros i Hi; cbn beta. destruct (Z.ltb_spec i (Z.of_nat n)).
  - unfold m'. apply load8_store8_ne; unfold addr; lia.
  - replace i with (Z.of_nat n) by lia. apply u8_small, load8_range.
Qed.

Lemma rep_movsl_fwd n m d s :
  in_space d (4 * Z.of_nat n) -> in_space s (4 * Z.of_nat n) ->
  fwd_ok d s (4 * Z.of_nat n) ->
  exists m', rep_movsl n m (u32 d) (u32 s) =
             (m', u32 (d + 4 * Z.of_nat n), u32 (s + 4 * Z.of_nat n)) /\
             writes m m' d (4 * Z.of_nat n) (fun i => load8 m (s + i)).
Proof.
  revert m d s. induction n as [|n IH]; intros m d s Hd Hs Hf.
  { exists m. cbn [rep_movsl]. rewrite !Z.mul_0_r, !Z.add_0_r.
    split; [done|by apply writes_nil]. }
  cbn [rep_movsl].
  replace (4 * Z.of_nat (S n)) with (4 + 4 * Z.of_nat n) in * by lia.
  unfold in_space, fwd_ok in *.
  rewrite !u32_add_l, (u32_small d), (u32_small s) by lia.
  set (m1 := store32 m d (load32 m s)).
  destruct (IH m1 (d + 4) (s + 4)) as (m' & -> & Hw); try lia.
  exists m'. split; [by rewrite <- !Z.add_assoc|].
  eapply copy_step; unfold in_space, fwd_ok; try lia; [|exact Hw].
  intros a Ha. unfold m1. rewrite load8_store32_load32 by (done || lia). done.
Qed.

Lemma land_3 z : Z.land z 3 = z mod 4.
Proof. apply (Z.land_ones z 2). lia. Qed.
Lemma shiftr_2 z : Z.shiftr z 2 = z / 4.
Proof. by rewrite Z.shiftr_div_pow2. Qed.

Lemma memcpy_aligned_spec n m d s :
  in_space d (Z.of_nat n) -> in_space s (Z.of_nat n) -> fwd_ok d s (Z.of_nat n) ->
  writes m (memcpy_aligned n m (u32 d) (u32 s)) d (Z.of_nat n)
         (fun i => load8 m (s + i)).
Proof.
  intros Hd Hs Hf. unfold memcpy_aligned. rewrite land_3, shiftr_2.
  set (q := Z.of_nat n / 4). set (r := Z.of_nat n mod 4).
  assert (Hn : Z.of_nat n = 4 * q + r /\ 0 <= q /\ 0 <= r < 4) by (unfold q, r; zdm).
  destruct Hn as (Hn & Hq & Hr). clearbody q r. rewrite Hn in *. clear n Hn.
  unfold in_space, fwd_ok in *.
  destruct (rep_movsl_fwd (Z.to_nat q) m d s) as (m' & -> & Hw);
    unfold in_space, fwd_ok; rewrite ?Z2Nat.id by lia; try lia.
  rewrite Z2Nat.id in Hw by lia.
  eapply copy_step; unfold in_space, fwd_ok; try lia; [exact Hw|].
  pose proof (rep_movsb_fwd (Z.to_nat r) m' (d + 4 * q) (s + 4 * q)) as H.
  rewrite Z2Nat.id in H by lia.
  apply H; unfold in_space, fwd_ok; lia.
Qed.

Lemma memcpy_top_spec n m d s :
  in_space d (Z.of_nat n) -> in_space s (Z.of_nat n) -> fwd_ok d s (Z.of_nat n) ->
  writes m (memcpy_top n m (u32 d) (u32 s)) d (Z.of_nat n)
         (fun i => load8 m (s + i)).
Proof.
  revert m d s. induction n as [|n IH]; intros m d s Hd Hs Hf.
  { by apply writes_nil. }
  cbn [memcpy_top]. destruct (Z.land (u32 d) 3 =? 0).
  { by apply memcpy_aligned_spec. }
  rewrite load8_u32, store8_u32, !u32_add_l.
  replace (Z.of_nat (S n)) with (1 + Z.of_nat n) in * by lia.
  unfold in_space, fwd_ok in *.
  eapply copy_step; unfold in_space, fwd_ok; try lia.
  - eapply writes_ext; [|apply writes_store8; unfold addr; lia].
    intros i Hi; cbn beta. replace (s + i) with s by lia. apply u8_small, load8_range.
  - apply IH; unfold in_space, fwd_ok; lia.
Qed.

Lemma memcpy_writes m d s n :
  n < 4294967296 -> in_space d n -> in_space s n -> fwd_ok d s n ->
  writes m (memcpy m d s n) d n (fun i => load8 m (s + i)).
Proof.
  intros Hlt Hd Hs Hf. unfold memcpy, in_space in *. rewrite (u32_small n) by lia.
  pose proof (memcpy_top_spec (Z.to_nat n) m d s) as H.
  rewrite Z2Nat.id in H by lia. by apply H.
Qed.

Lemma memmove_writes m d s n :
  n < 4294967296 -> in_space d n -> in_space s n -> d < 4294967296 ->
  s < 4294967296 ->
  writes m (fst (memmove m d s n)) d n (fun i => load8 m (s + i)).
Proof.
  intros Hlt Hd Hs Hd' Hs'. unfold memmove, in_space in *. w32.
  destruct (Z.leb_spec d s); cbn [fst].
  - pose proof (rep_movsb_fwd (Z.to_nat n) m d s) as H'.
    rewrite Z2Nat.id, !u32_small in H' by lia.
    apply H'; unfold in_space, fwd_ok; lia.
  - pose proof (rep_movsb_bwd (Z.to_nat n) m d s) as H'.
    rewrite Z2Nat.id in H' by lia. apply H'; unfold in_space; lia.
Qed.

(** ** Block fills *)

Lemma stosb_loop_writes n m d c :
  in_space d (Z.of_nat n) ->
  writes m (stosb_loop n m (u32 d) c) d (Z.of_nat n) (fun _ => u8 c).
Proof.
  revert m d. induction n as [|n IH]; intros m d Hd; [by apply writes_nil|].
  cbn [stosb_loop]. rewrite store8_u32, u32_add_l.
  replace (Z.of_nat (S n)) with (1 + Z.of_nat n) in * by lia. unfold in_space in *.
  eapply writes_ext; [|eapply writes_app; [lia|lia| |apply IH; lia]].
  - intros i Hi; cbn beta. by destruct (i <? 1).
  - apply writes_store8. unfold addr; lia.
Qed.

Lemma rep_stosl_writes n m d v :
  in_space d (4 * Z.of_nat n) ->
  exists m', rep_stosl n m (u32 d) v = (m', u32 (d + 4 * Z.of_nat n)) /\
    writes m m' d (4 * Z.of_nat n) (fun i => u8 (v / 2 ^ (8 * (i mod 4)))).
Proof.
  revert m d. induction n as [|n IH]; intros m d Hd.
  { exists m. cbn [rep_stosl]. rewrite !Z.mul_0_r, Z.add_0_r.
    split; [done|by apply writes_nil]. }
  cbn [rep_stosl].
  replace (4 * Z.of_nat (S n)) with (4 + 4 * Z.of_nat n) in * by lia.
  unfold in_space in *. rewrite u32_add_l, (u32_small d) by lia.
  destruct (IH (store32 m d v) (d + 4)) as (m' & -> & Hw); [lia|].
  exists m'. split; [by rewrite <- Z.add_assoc|].
  eapply writes_ext; [|eapply writes_app; [lia|lia| |exact Hw];
                       apply writes_store32; lia].
  intros i Hi; cbn beta. destruct (Z.ltb_spec i 4).
  - by rewrite Z.mod_small by lia.
  - replace ((i - 4) mod 4) with (i mod 4) by zdm. done.
Qed.

(** The dword [memset] stores has the byte in every lane. *)
Definition splat (c : Z) : Z :=
  u32 (Z.lor (Z.lor (Z.lor (Z.shiftl c 24) (Z.shiftl c 16)) (Z.shiftl c 8)) c).

Lemma splat_byte c k : 0 <= c < 256 -> 0 <= k < 4 -> u8 (splat c / 2 ^ (8 * k)) = c.
Proof.
  intros Hc Hk.
  assert (Hall : forallb (fun c => forallb (fun k =>
                   u8 (splat c / 2 ^ (8 * k)) =? c) (seqZ 0 4)) (seqZ 0 256) = true)
    by (vm_compute; reflexivity).
  rewrite forallb_forall in Hall.
  specialize (Hall c ltac:(apply list_elem_of_In, elem_of_seqZ; lia)).
  rewrite forallb_forall in Hall.
  specialize (Hall k ltac:(apply list_elem_of_In, elem_of_seqZ; lia)).
  by apply Z.eqb_eq in Hall.
Qed.
Lemma splat_low c : 0 <= c < 256 -> u8 (splat c) = c.
Proof.
  intros Hc. pose proof (splat_byte c 0 Hc ltac:(lia)) as H.
  change (2 ^ (8 * 0)) with 1 in H. by rewrite Z.div_1_r in H.
Qed.

Lemma memset_aligned_writes n m d c :
  in_space d (Z.of_nat n) -> 0 <= c < 256 ->
  writes m (memset_aligned n m (u32 d) (splat c)) d (Z.of_nat n) (fun _ => c).
Proof.
  intros Hd Hc. unfold memset_aligned. rewrite land_3, shiftr_2.
  set (q := Z.of_nat n / 4). set (r := Z.of_nat n mod 4).
  assert (Hn : Z.of_nat n = 4 * q + r /\ 0 <= q /\ 0 <= r < 4) by (unfold q, r; zdm).
  destruct Hn as (Hn & Hq & Hr). clearbody q r. rewrite Hn in *. clear n Hn.
  unfold in_space in *.
  destruct (rep_stosl_writes (Z.to_nat q) m d (splat c)) as (m' & -> & Hw);
    unfold in_space; rewrite ?Z2Nat.id by lia; try lia.
  rewrite Z2Nat.id in Hw by lia. rewrite splat_low by done.
  pose proof (stosb_loop_writes (Z.to_nat r) m' (d + 4 * q) c) as H.
  rewrite Z2Nat.id in H by lia. unfold in_space in H.
  eapply writes_ext; [|eapply writes_app; [| |exact Hw|apply H]; lia].
  intros i Hi; cbn beta. destruct (Z.ltb_spec i (4 * q)).
  - apply splat_byte; [done|zdm].
  - by apply u8_small.
Qed.

Lemma memset_top_writes n m d c :
  in_space d (Z.of_nat n) -> 0 <= c < 256 ->
  writes m (memset_top n m (u32 d) (splat c)) d (Z.of_nat n) (fun _ => c).
Proof.
  intros Hd Hc. revert m d Hd. induction n as [|n IH]; intros m d Hd.
  { by apply writes_nil. }
  cbn [memset_top]. destruct (Z.land (u32 d) 3 =? 0).
  { by apply memset_aligned_writes. }
  rewrite store8_u32, u32_add_l, splat_low by done.
  replace (Z.of_nat (S n)) with (1 + Z.of_nat n) in * by lia. unfold in_space in *.
  eapply writes_ext; [|eapply writes_app; [lia|lia| |apply IH; lia]].
  - intros i Hi; cbn beta. destruct (i <? 1); reflexivity.
  - eapply writes_ext; [|apply writes_store8; unfold addr; lia].
    intros i Hi; cbn beta. by apply u8_small.
Qed.

Lemma memset_writes m s c n :
  n < 4294967296 -> in_space s n -> writes m (memset m s c n) s n (fun _ => u8 c).
Proof.
  intros Hlt Hs. unfold memset. rewrite land_255. fold (splat (u8 c)).
  pose proof (memset_top_writes (Z.to_nat n) m s (u8 c)) as H.
  unfold in_space in *. rewrite Z2Nat.id in H by lia.
  rewrite (u32_small n) by lia. apply H; [done|apply u8_range].
Qed.

Lemma memset_dword_writes m s c n :
  n < 4294967296 -> in_space s (4 * n) ->
  writes m (memset_dword m s c n) s (4 * n) (fun i => u8 (u32 c / 2 ^ (8 * (i mod 4)))).
Proof.
  intros Hlt Hs. unfold memset_dword, in_space in *.
  rewrite (u32_small n) by lia.
  destruct (rep_stosl_writes (Z.to_nat n) m s (u32 c)) as (m' & -> & Hw);
    unfold in_space; rewrite ?Z2Nat.id by lia; [lia|].
  by rewrite Z2Nat.id in Hw by lia.
Qed.

Lemma writes_store16 m d v :
  0 <= d -> d + 2 <= 4294967296 ->
  writes m (store16 m d v) d 2 (fun i => u8 (v / 2 ^ (8 * i))).
Proof.
  intros ?? a Ha. unfold store16.
  rewrite !load8_store8_addr by (unfold addr in *; lia).
  destruct (Z.eqb_spec (d + 1) a), (Z.eqb_spec d a), (Z.leb_spec d a),
    (Z.ltb_spec a (d + 2)); cbn [andb]; try lia; try done.
  - by replace (a - d) with 1 by lia.
  - replace (a - d) with 0 by lia. cbn. by rewrite Z.div_1_r.
Qed.

Lemma rep_stosw_writes n m d v :
  in_space d (2 * Z.of_nat n) ->
  writes m (rep_stosw n m (u32 d) v) d (2 * Z.of_nat n)
         (fun i => u8 (v / 2 ^ (8 * (i mod 2)))).
Proof.
  revert m d. induction n as [|n IH]; intros m d Hd; [by apply writes_nil|].
  cbn [rep_stosw].
  replace (2 * Z.of_nat (S n)) with (2 + 2 * Z.of_nat n) in * by lia.
  unfold in_space in *. rewrite u32_add_l, (u32_small d) by lia.
  eapply writes_ext; [|eapply writes_app; [lia|lia| |apply IH; lia];
                       apply writes_store16; lia].
  intros i Hi; cbn beta. destruct (Z.ltb_spec i 2).
  - by rewrite Z.mod_small by lia.
  - by replace ((i - 2) mod 2) with (i mod 2) by zdm.
Qed.

Lemma memset_word_writes m s c n :
  n < 4294967296 -> in_space s (2 * n) ->
  writes m (memset_word m s c n) s (2 * n) (fun i => u8 (u32 c / 2 ^ (8 * (i mod 2)))).
Proof.
  intros Hlt Hs. unfold memset_word, in_space in *. rewrite (u32_small n) by lia.
  pose proof (rep_stosw_writes (Z.to_nat n) m s (u32 c)) as H.
  rewrite Z2Nat.id in H by lia. by apply H.
Qed.

(** ** Strings *)

Lemma strlen_cstr m s l :
  is_cstr m s l -> Z.of_nat (length l) < 4294967296 ->
  strlen m s = Ok (Z.of_nat (length l)).
Proof.
  intros Hs Hlen. unfold strlen.
  apply (while_rule _ (fun k => 0 <= k <= Z.of_nat (length l))
                      (fun k => Z.of_nat (length l) - k)); try lia.
  intros k Hk. destruct (Z.eqb_spec (load8 m (s + k)) 0) as [H0|H0].
  - destruct (Z.eq_dec k (Z.of_nat (length l))) as [->|]; [done|].
    exfalso. apply (is_cstr_nz m s l k); [done|lia|done].
  - destruct (Z.eq_dec k (Z.of_nat (length l))) as [->|].
    { exfalso. by apply H0, is_cstr_end. }
    rewrite u32_small by lia. lia.
Qed.

(** The comparison [strncmp] computes, on the two strings as lists. *)
Fixpoint ncmp (n : nat) (la lb : list Z) : Z :=
  match n with
  | O => 0
  | S k =>
    match la, lb with
    | [], [] => 0
    | [], b :: _ => - s8 b
    | a :: _, [] => s8 a
    | a :: la', b :: lb' => if a =? b then ncmp k la' lb' else s8 a - s8 b
    end
  end.

Lemma s8_zero c : 0 <= c < 256 -> s8 c = 0 <-> c = 0.
Proof. words. Qed.

Lemma strncmp_cstr m s1 s2 la lb n :
  is_cstr m s1 la -> is_cstr m s2 lb -> 0 <= n < 2147483648 ->
  strncmp m s1 s2 n = Ok (ncmp (Z.to_nat n) la lb).
Proof.
  intros H1 H2 Hn. unfold strncmp.
  apply (while_rule _
    (fun i => 0 <= i <= n /\ i <= Z.of_nat (length la) /\ i <= Z.of_nat (length lb) /\
       ncmp (Z.to_nat (n - i)) (drop (Z.to_nat i) la) (drop (Z.to_nat i) lb) =
       ncmp (Z.to_nat n) la lb)
    (fun i => n - i)); [|lia|].
  { rewrite Z.sub_0_r. split_and!; try lia. done. }
  intros i (Hi & Hla & Hlb & Heq). w32.
  destruct (Z.ltb_spec i n); cycle 1.
  { rewrite <- Heq. by replace (Z.to_nat (n - i)) with O by lia. }
  replace (Z.to_nat (n - i)) with (S (Z.to_nat (n - (i + 1)))) in Heq by lia.
  pose proof (load8_range m (s1 + i)) as R1. pose proof (load8_range m (s2 + i)) as R2.
  assert (Hdrop : forall s l, is_cstr m s l -> i <= Z.of_nat (length l) ->
    (i = Z.of_nat (length l) /\ drop (Z.to_nat i) l = [] /\ load8 m (s + i) = 0) \/
    (i < Z.of_nat (length l) /\ load8 m (s + i) <> 0 /\
     drop (Z.to_nat i) l = load8 m (s + i) :: drop (Z.to_nat (i + 1)) l)).
  { intros s l Hc Hl. destruct (Z.eq_dec i (Z.of_nat (length l))) as [He|].
    - left. rewrite He at 3. split_and!; [done| |by apply is_cstr_end].
      apply drop_ge. lia.
    - right. split_and!; [lia|apply (is_cstr_nz m s l); [done|lia]|].
      replace (Z.to_nat (i + 1)) with (S (Z.to_nat i)) by lia. apply drop_S.
      rewrite <- aget_lookup by lia. apply is_cstr_get; [done|lia]. }
  destruct (Hdrop s1 la H1 Hla) as [(E1 & D1 & Z1)|(E1 & Z1 & D1)],
           (Hdrop s2 lb H2 Hlb) as [(E2 & D2 & Z2)|(E2 & Z2 & D2)];
    rewrite D1, D2 in Heq; cbn [ncmp] in Heq.
  - by rewrite <- Heq, Z1, Z2.
  - rewrite <- Heq, Z1. change (s8 0) with 0. destruct (Z.eqb_spec 0 (s8 (load8 m (s2 + i)))).
    + exfalso. apply Z2. by apply s8_zero.
    + done.
  - rewrite <- Heq, Z2. change (s8 0) with 0. destruct (Z.eqb_spec (s8 (load8 m (s1 + i))) 0).
    + exfalso. apply Z1. by apply s8_zero.
    + cbn. f_equal. lia.
  - destruct (Z.eqb_spec (s8 (load8 m (s1 + i))) (s8 (load8 m (s2 + i)))) as [He|He].
    + apply s8_inj in He; [|done..]. rewrite He, Z.eqb_refl in Heq.
      destruct (Z.eqb_spec (s8 (load8 m (s1 + i))) 0) as [Hz|Hz].
      { exfalso. apply Z1. by apply s8_zero. }
      rewrite s32_small by lia. cbn [negb orb].
      split_and!; try lia.
    + rewrite <- Heq. cbn. destruct (Z.eqb_spec (load8 m (s1 + i)) (load8 m (s2 + i))) as [He'|He'];
        [by rewrite He' in He|]. done.
Qed.

Lemma ncmp_zero n la lb :
  Forall (fun c => 0 < c < 256) la -> Forall (fun c => 0 < c < 256) lb ->
  ncmp n la lb = 0 <-> take n la = take n lb.
Proof.
  revert la lb. induction n as [|n IH]; intros la lb Ha Hb; [done|].
  destruct la as [|a la], lb as [|b lb]; cbn [ncmp take]; [done| | |];
    repeat match goal with H : Forall _ (_ :: _) |- _ => inversion H; clear H; subst end.
  - split; [|done]. pose proof (s8_zero b). lia.
  - split; [|done]. pose proof (s8_zero a). lia.
  - destruct (Z.eqb_spec a b) as [->|Hne].
    + rewrite IH by done. split; congruence.
    + split; [|congruence]. intros H. exfalso. apply Hne, s8_inj; lia.
Qed.

(** Extending a prefix copied so far by the byte the loop body stores. *)
Lemma writes_snoc m m' d k f v :
  0 <= k -> in_space d (k + 1) -> u8 v = f k ->
  writes m m' d k f -> writes m (store8 m' (d + k) v) d (k + 1) f.
Proof.
  unfold in_space. intros Hk Hd Hv H.
  eapply writes_ext; [|eapply writes_app;
    [exact Hk|lia|exact H|apply writes_store8; unfold addr; lia]].
  intros i Hi; cbn beta. destruct (Z.ltb_spec i k); [done|].
  by replace i with k by lia.
Qed.

Lemma strcpy_cstr m dest src l :
  is_cstr m src l -> Z.of_nat (length l) < 2147483647 ->
  in_space dest (Z.of_nat (length l) + 1) -> in_space src (Z.of_nat (length l) + 1) ->
  fwd_ok dest src (Z.of_nat (length l) + 1) ->
  exists m', strcpy m dest src = Ok m' /\
    writes m m' dest (Z.of_nat (length l) + 1) (fun i => load8 m (src + i)).
Proof.
  intros Hs Hlen Hd Hsrc Hf. unfold strcpy, fwd_ok, in_space in *.
  apply (while_rule _
    (fun '(i, mi) => 0 <= i <= Z.of_nat (length l) /\
                     writes m mi dest i (fun i => load8 m (src + i)))
    (fun '(i, _) => Z.of_nat (length l) - i)); [|lia|].
  { split; [lia|]. by apply writes_nil. }
  intros [i mi] [Hi Hw].
  rewrite (writes_out _ _ _ _ _ _ Hw) by (unfold addr; lia).
  destruct (Z.eqb_spec (load8 m (src + i)) 0) as [H0|H0].
  - destruct (Z.eq_dec i (Z.of_nat (length l))) as [->|].
    2: { exfalso. apply (is_cstr_nz m src l i); [done|lia|done]. }
    eexists. split; [done|].
    apply writes_snoc; [lia|unfold in_space; lia| |done]. by rewrite H0.
  - destruct (Z.eq_dec i (Z.of_nat (length l))) as [->|].
    { exfalso. by apply H0, is_cstr_end. }
    rewrite s32_small by lia. split; [|lia]. split; [lia|].
    apply writes_snoc; [lia|unfold in_space; lia| |done].
    apply u8_small, load8_range.
Qed.

Lemma strncpy_cstr m dest src n l :
  is_cstr m src l -> Z.of_nat (length l) < 2147483647 -> 0 <= n < 2147483647 ->
  in_space dest n -> in_space src (Z.of_nat (length l) + 1) ->
  dest + n <= src \/ src + Z.of_nat (length l) + 1 <= dest ->
  exists m', strncpy m dest src n = Ok m' /\
    writes m m' dest n (fun i => if i <? Z.of_nat (length l)
                                 then load8 m (src + i) else 0).
Proof.
  intros Hs Hlen Hn Hd Hsrc Hf. unfold strncpy, in_space in *.
  set (f := fun i => if i <? Z.of_nat (length l) then load8 m (src + i) else 0).
  set (loop1 := while _ (0, m)).
  assert (H1 : exists i mi, loop1 = Ok (i, mi) /\ writes m mi dest i f /\
    0 <= i <= n /\ i <= Z.of_nat (length l) /\
    (i = n \/ i = Z.of_nat (length l))).
  { unfold loop1. apply (while_rule _
      (fun '(i, mi) => 0 <= i <= n /\ i <= Z.of_nat (length l) /\ writes m mi dest i f)
      (fun '(i, _) => n - i)); [|lia|].
    { split_and!; try lia. by apply writes_nil. }
    intros [i mi] (Hi & Hl & Hw). w32.
    assert (Hld : load8 mi (src + i) = load8 m (src + i)).
    { apply (writes_out _ _ _ _ _ _ Hw); unfold addr; lia. }
    rewrite Hld. destruct (Z.eqb_spec (load8 m (src + i)) 0) as [H0|H0]; cbn [negb andb].
    - exists i, mi. split_and!; try done; try lia. right.
      destruct (Z.eq_dec i (Z.of_nat (length l))); [done|].
      exfalso. apply (is_cstr_nz m src l i); [done|lia|done].
    - assert (i <> Z.of_nat (length l)).
      { intros ->. by apply H0, is_cstr_end. }
      destruct (Z.ltb_spec i n).
      + split_and!; try lia. apply writes_snoc; [lia|unfold in_space; lia| |done].
        unfold f. destruct (Z.ltb_spec i (Z.of_nat (length l))); [|lia].
        apply u8_small, load8_range.
      + exists i, mi. split_and!; try done; lia. }
  destruct H1 as (i & mi & -> & Hw & Hi & Hl & Hend). rewrite bind_ok.
  apply (while_rule _
    (fun '(j, mj) => i <= j <= n /\ writes m mj dest j f)
    (fun '(j, _) => n - j)); [|lia|].
  { split; [lia|done]. }
  intros [j mj] (Hj & Hwj). w32. destruct (Z.ltb_spec j n).
  - split_and!; try lia. apply writes_snoc; [lia|unfold in_space; lia| |done].
    unfold f. destruct (Z.ltb_spec j (Z.of_nat (length l))); [lia|done].
  - replace j with n in * by lia. eauto.
Qed.

(** [strrev] reverses a string in place. *)
Lemma strrev_cstr m s l :
  is_cstr m s l -> Z.of_nat (length l) < 2147483647 ->
  in_space s (Z.of_nat (length l) + 1) ->
  exists m', strrev m s = Ok m' /\ is_cstr m' s (reverse l) /\
    same_outside s (s + Z.of_nat (length l)) m m'.
Proof.
  intros Hs Hlen Hsp. unfold strrev, in_space in *.
  rewrite (strlen_cstr m s l) by (done || lia). rewrite bind_ok.
  set (L := Z.of_nat (length l)) in *. rewrite s32_small by lia.
  apply (while_rule _
    (fun '(b, e, mi) => b + e = L - 1 /\ 0 <= b /\ -1 <= e /\ b <= e + 2 /\
       same_outside s (s + L) m mi /\
       forall i, 0 <= i < L -> load8 mi (s + i) =
         if (i <? b) || (e <? i) then load8 m (s + (L - 1 - i)) else load8 m (s + i))
    (fun '(b, e, _) => e + 1 - b + 1)); [|lia|].
  { split_and!; try lia; [apply same_outside_refl|]. intros i Hi.
    destruct (Z.ltb_spec i 0), (Z.ltb_spec (L - 1) i); cbn [orb]; lia || done. }
  intros [[b e] mi] (Hbe & Hb & He & Hle & Hout & Hin).
  assert (Hinb : forall i, 0 <= i < L -> b <= i <= e -> load8 mi (s + i) = load8 m (s + i)).
  { intros i Hi Hbi. rewrite Hin by done.
    destruct (Z.ltb_spec i b), (Z.ltb_spec e i); cbn [orb]; lia || done. }
  destruct (Z.ltb_spec b e).
  - split; [|lia]. split_and!; try lia.
    + eapply same_outside_trans; [exact Hout|].
      eapply same_outside_trans; apply same_outside_store8; unfold addr; lia.
    + intros i Hi. rewrite !load8_store8_addr by (unfold addr; lia).
      rewrite !Hinb by lia. rewrite Hin by lia. rewrite !u8_small by apply load8_range.
      destruct (Z.eqb_spec (s + b) (s + i)), (Z.eqb_spec (s + e) (s + i)),
        (Z.ltb_spec i (b + 1)), (Z.ltb_spec (e - 1) i), (Z.ltb_spec i b), (Z.ltb_spec e i);
        cbn [orb]; try lia; try done; f_equal; lia.
  - exists mi. split_and!; [done| |done]. split.
    + rewrite length_reverse. fold L. intros i Hi. rewrite Hin, aget_reverse by done.
      fold L. assert (Hswap : load8 m (s + (L - 1 - i)) <> 0 /\
                       aget l (L - 1 - i) = Some (load8 m (s + (L - 1 - i)))).
      { split; [apply (is_cstr_nz m s l)|apply is_cstr_get]; (done || lia). }
      destruct (Z.ltb_spec i b), (Z.ltb_spec e i); cbn [orb]; try done.
      by replace i with (L - 1 - i) at 1 3 by lia.
    + rewrite length_reverse. fold L. rewrite Hout by (unfold addr; lia).
      by apply is_cstr_end.
Qed.

(** ** Numbers: [itoa] against positional notation *)

Definition digit_char (d : Z) : Z := default 0 (aget lookup_digits d).
Definition digit_val (c : Z) : Z := if c <=? 57 then c - 48 else c - 55.

(** The value of a numeral, most significant digit first. *)
Definition parse (radix : Z) (l : list Z) : Z :=
  foldl (fun acc c => acc * radix + digit_val c) 0 l.

(** The same for a list of digits, least significant first. *)
Definition lsd_value (radix : Z) (ds : list Z) : Z :=
  foldr (fun d acc => acc * radix + d) 0 ds.

Lemma digit_char_ok d :
  0 <= d < 36 -> aget lookup_digits d = Some (digit_char d) /\
                 0 < digit_char d < 256 /\ digit_val (digit_char d) = d.
Proof.
  intros Hd.
  assert (Hall : forallb (fun d => bool_decide (aget lookup_digits d = Some (digit_char d)) &&
    ((0 <? digit_char d) && (digit_char d <? 256) && (digit_val (digit_char d) =? d)))
    (seqZ 0 36) = true) by (vm_compute; reflexivity).
  rewrite forallb_forall in Hall.
  specialize (Hall d ltac:(apply list_elem_of_In, elem_of_seqZ; lia)).
  rewrite !andb_true_iff, bool_decide_eq_true, Z.eqb_eq, !Z.ltb_lt in Hall. tauto.
Qed.

Lemma lsd_value_snoc radix ds d :
  lsd_value radix (ds ++ [d]) = lsd_value radix ds + radix ^ Z.of_nat (length ds) * d.
Proof.
  induction ds as [|x ds IH]; cbn [app lsd_value foldr length].
  - unfold lsd_value; cbn. lia.
  - fold (lsd_value radix (ds ++ [d])). fold (lsd_value radix ds). rewrite IH.
    rewrite Nat2Z.inj_succ, Z.pow_succ_r by lia. ring.
Qed.

Lemma parse_reverse radix ds :
  Forall (fun d => 0 <= d < 36) ds ->
  parse radix (reverse (digit_char <$> ds)) = lsd_value radix ds.
Proof.
  intros Hds. unfold parse, lsd_value.
  induction Hds as [|d ds Hd Hds IH]; [done|].
  rewrite fmap_cons, reverse_cons, foldl_snoc, IH. cbn [foldr].
  by destruct (digit_char_ok d Hd) as (_ & _ & ->).
Qed.

(** The numeral of [v], as a function: at most 32 digits. *)
Fixpoint digits (n : nat) (radix v : Z) : list Z :=
  match n with
  | O => []
  | S k => if v =? 0 then [] else v mod radix :: digits k radix (v / radix)
  end.
Definition numeral (radix v : Z) : list Z :=
  if v =? 0 then [48] else reverse (digit_char <$> digits 32 radix v).

Lemma lsd_value_pos radix ds d :
  2 <= radix -> Forall (fun d => 0 <= d < radix) (ds ++ [d]) -> d <> 0 ->
  0 < lsd_value radix (ds ++ [d]).
Proof.
  intros Hr. induction ds as [|x ds IH]; cbn [app]; intros Hds Hd.
  - apply Forall_inv in Hds. unfold lsd_value; cbn. lia.
  - inversion Hds as [|? ? Hx Hds']; subst. specialize (IH Hds' Hd).
    cbn [lsd_value foldr]. fold (lsd_value radix (ds ++ [d])). nia.
Qed.

Lemma digits_unique n radix ds d :
  2 <= radix -> Forall (fun d => 0 <= d < radix) (ds ++ [d]) -> d <> 0 ->
  (length (ds ++ [d]) <= n)%nat ->
  digits n radix (lsd_value radix (ds ++ [d])) = ds ++ [d].
Proof.
  intros Hr. revert n. induction ds as [|x ds IH]; intros n Hds Hd Hn;
    destruct n as [|n]; cbn [app length] in Hn; try lia;
    pose proof (lsd_value_pos _ _ _ Hr Hds Hd) as Hpos; cbn [digits].
  - destruct (Z.eqb_spec (lsd_value radix ([] ++ [d])) 0); [lia|].
    apply Forall_inv in Hds. unfold lsd_value; cbn [app foldr].
    rewrite Z.mul_0_l, Z.add_0_l, Z.mod_small, Z.div_small by lia.
    by destruct n.
  - destruct (Z.eqb_spec (lsd_value radix ((x :: ds) ++ [d])) 0); [lia|].
    inversion Hds as [|? ? Hx Hds']; subst.
    assert (E : lsd_value radix ((x :: ds) ++ [d]) =
                x + lsd_value radix (ds ++ [d]) * radix).
    { cbn [app lsd_value foldr]. fold (lsd_value radix (ds ++ [d])). lia. }
    rewrite E, Z.mod_add, Z.div_add, Z.mod_small, Z.div_small by lia.
    rewrite Z.add_0_l. cbn [app]. f_equal. apply IH; [done|done|].
    cbn in Hn. lia.
Qed.

Lemma numeral_of_digits radix ds d :
  2 <= radix <= 36 -> Forall (fun d => 0 <= d < radix) (ds ++ [d]) -> d <> 0 ->
  (length (ds ++ [d]) <= 32)%nat ->
  numeral radix (lsd_value radix (ds ++ [d])) = reverse (digit_char <$> (ds ++ [d])).
Proof.
  intros Hr Hds Hd Hn. unfold numeral.
  pose proof (lsd_value_pos radix ds d ltac:(lia) Hds Hd).
  destruct (Z.eqb_spec (lsd_value radix (ds ++ [d])) 0); [lia|].
  by rewrite digits_unique by (done || lia).
Qed.

(** The digit loop of [itoa]: it leaves [lsd-first] digits of [value]. *)
Lemma itoa_digits m value buf radix :
  2 <= radix <= 36 -> 0 < value < 4294967296 -> in_space buf 34 ->
  exists ds m1,
    while (fun '(newval, newbuf, m) =>
      if 0 <? newval then
        if u32 radix =? 0 then inr Fault
        else match aget lookup_digits (s32 (newval mod u32 radix)) with
             | Some c => inl (newval / u32 radix, newbuf + 1, store8 m newbuf c)
             | None => inr Fault
             end
      else inr (Ok (newbuf, m))) (value, buf, m) = Ok (buf + Z.of_nat (length ds), m1) /\
    Forall (fun d => 0 <= d < radix) ds /\ lsd_value radix ds = value /\
    (exists ds' d, ds = ds' ++ [d] /\ d <> 0) /\
    Z.of_nat (length ds) <= 32 /\
    bytes_at m1 buf (digit_char <$> ds) /\ same_outside buf (buf + 33) m m1.
Proof.
  intros Hr Hv Hsp. unfold in_space in Hsp.
  assert (Hpow : forall k, 0 <= k -> 2 ^ k <= radix ^ k).
  { intros k Hk. apply Z.pow_le_mono_l. lia. }
  apply (while_rule _
    (fun '(nv, nb, mi) => exists ds, nb = buf + Z.of_nat (length ds) /\ 0 <= nv < 4294967296 /\
       Forall (fun d => 0 <= d < radix) ds /\
       lsd_value radix ds + radix ^ Z.of_nat (length ds) * nv = value /\
       0 <= lsd_value radix ds /\
       (nv = 0 -> exists ds' d, ds = ds' ++ [d] /\ d <> 0) /\
       Z.of_nat (length ds) <= 32 /\
       bytes_at mi buf (digit_char <$> ds) /\ same_outside buf (buf + 33) m mi)
    (fun '(nv, _, _) => nv)); [|lia|].
  { exists []. cbn. split_and!; try lia; [constructor|apply bytes_at_nil|apply same_outside_refl]. }
  intros [[nv nb] mi] (ds & -> & Hnv & Hds & Hval & Hlsd & Hlast & Hlen & Hb & Hout).
  destruct (Z.ltb_spec 0 nv) as [Hpos|Hz].
  2: { exists ds, mi. assert (nv = 0) as -> by lia. rewrite Z.mul_0_r, Z.add_0_r in Hval.
       split_and!; auto. }
  rewrite (u32_small radix) by lia. destruct (Z.eqb_spec radix 0); [lia|].
  assert (Hmod : 0 <= nv mod radix < radix) by (apply Z.mod_pos_bound; lia).
  rewrite s32_small by lia.
  destruct (digit_char_ok (nv mod radix)) as (-> & Hc & _); [lia|].
  assert (Hdiv : nv = radix * (nv / radix) + nv mod radix) by (apply Z.div_mod; lia).
  assert (Hd0 : 0 <= nv / radix) by (apply Z.div_pos; lia).
  assert (Hdlt : nv / radix < nv) by (apply Z.div_lt; lia).
  split; [|lia].
  assert (Hk : Z.of_nat (length ds) < 32).
  { destruct (Z_lt_le_dec (Z.of_nat (length ds)) 32); [done|exfalso].
    specialize (Hpow (Z.of_nat (length ds)) ltac:(lia)).
    replace (Z.of_nat (length ds)) with 32 in * by lia.
    change (2 ^ 32) with 4294967296 in Hpow. nia. }
  exists (ds ++ [nv mod radix]). rewrite length_app; cbn [length].
  split_and!.
  - lia.
  - lia.
  - lia.
  - apply Forall_app; split; [done|]. constructor; [lia|constructor].
  - rewrite lsd_value_snoc. replace (Z.of_nat (length ds + 1)) with (Z.succ (Z.of_nat (length ds))) by lia.
    rewrite Z.pow_succ_r by lia. rewrite <- Hval at 1. rewrite Hdiv at 3. ring.
  - rewrite lsd_value_snoc. specialize (Hpow (Z.of_nat (length ds)) ltac:(lia)).
    assert (0 < 2 ^ Z.of_nat (length ds)) by (apply Z.pow_pos_nonneg; lia). nia.
  - intros Hz. exists ds, (nv mod radix). split; [done|]. rewrite Hz in Hdiv. lia.
  - lia.
  - rewrite fmap_app. cbn. apply bytes_at_snoc.
    + eapply bytes_at_ext; [|exact Hb]. rewrite length_fmap. intros i Hi.
      apply load8_store8_ne; unfold addr; lia.
    + rewrite length_fmap, load8_store8_eq. apply u8_small. lia.
  - eapply same_outside_trans; [exact Hout|]. apply same_outside_store8; unfold addr; lia.
Qed.

Lemma itoa_cstr m value buf radix :
  2 <= radix <= 36 -> 0 <= value < 4294967296 -> in_space buf 34 ->
  exists m' l, itoa m value buf radix = Ok m' /\ is_cstr m' buf l /\
    l = numeral radix value /\
    parse radix l = value /\ 1 <= Z.of_nat (length l) <= 32 /\
    Forall (fun c => 0 <= digit_val c < radix /\ digit_char (digit_val c) = c) l /\
    (value <> 0 -> head l <> Some 48) /\ same_outside buf (buf + 33) m m'.
Proof.
  intros Hr Hv Hsp. unfold itoa. rewrite (u32_small value) by lia.
  destruct (Z.eqb_spec value 0) as [->|Hne].
  { unfold in_space in Hsp. eexists _, [48]. split_and!; try done; try lia.
    - split; cbn [length].
      + intros i Hi. replace i with 0 by lia. rewrite Z.add_0_r.
        by rewrite load8_store8_ne, load8_store8_eq by (unfold addr; lia).
      + by rewrite load8_store8_eq.
    - constructor; [|constructor]. split; [cbn; lia|done].
    - eapply same_outside_trans; apply same_outside_store8; unfold addr; lia. }
  destruct (itoa_digits m value buf radix) as
    (ds & m1 & -> & Hds & Hval & (ds' & d & Hsn & Hd) & Hlen & Hb & Hout); [lia..|done|].
  rewrite bind_ok. unfold in_space in Hsp.
  assert (Hlen1 : 1 <= Z.of_nat (length ds)).
  { rewrite Hsn, length_app; cbn [length]. lia. }
  set (m2 := store8 m1 (buf + Z.of_nat (length ds)) 0).
  destruct (strrev_cstr m2 buf (digit_char <$> ds)) as (m3 & Hrev & Hcs & Hout3).
  { split; rewrite length_fmap.
    - intros i Hi. unfold m2. rewrite load8_store8_ne by (unfold addr; lia).
      pose proof (Hb i) as Hbi. rewrite length_fmap in Hbi. rewrite Hbi by done.
      split; [|done]. specialize (Hbi Hi).
      rewrite aget_lookup, list_lookup_fmap in Hbi by lia.
      destruct (ds !! Z.to_nat i) as [x|] eqn:Hx; [|done].
      cbn in Hbi. injection Hbi as Hbi.
      rewrite Forall_lookup in Hds. specialize (Hds _ _ Hx). cbn in Hds.
      destruct (digit_char_ok x) as (_ & Hc & _); lia.
    - unfold m2. by rewrite load8_store8_eq. }
  { rewrite length_fmap. lia. }
  { rewrite length_fmap. unfold in_space. lia. }
  rewrite length_fmap in Hout3.
  assert (Hds36 : Forall (fun d => 0 <= d < 36) ds).
  { eapply Forall_impl; [exact Hds|]. cbn; lia. }
  exists m3, (reverse (digit_char <$> ds)). split_and!; try done.
  - rewrite <- Hval, Hsn. symmetry. rewrite Hsn in Hds, Hlen.
    apply numeral_of_digits; [done..|lia].
  - by rewrite parse_reverse.
  - by rewrite length_reverse, length_fmap.
  - rewrite length_reverse, length_fmap. lia.
  - rewrite Forall_forall. intros c Hc.
    rewrite elem_of_reverse in Hc.
    apply list_elem_of_fmap in Hc as (x & -> & Hx).
    rewrite Forall_forall in Hds. specialize (Hds x Hx).
    destruct (digit_char_ok x) as (_ & _ & ->); [lia|]. split; [lia|done].
  - intros _. rewrite Hsn, fmap_app, reverse_app. cbn. intros [= Hc].
    rewrite Hsn, Forall_app in Hds36. destruct Hds36 as [_ Hd36].
    apply Forall_inv in Hd36. destruct (digit_char_ok d Hd36) as (_ & _ & Hdv).
    rewrite Hc in Hdv. change (digit_val 48) with 0 in Hdv. congruence.
  - eapply same_outside_trans; [exact Hout|].
    eapply (same_outside_trans _ _ _ m2).
    + apply same_outside_store8; unfold addr; lia.
    + eapply same_outside_weaken; [| |exact Hout3]; lia.
Qed.

(** ** Properties *)

(** C39 [memcpy]: the aligned assembly copy is the byte-wise copy.  When both
    ranges lie in the address space and the destination does not start inside
    the source, byte [i] of the destination becomes byte [i] of the old source
    and no other byte of the memory changes. *)
Theorem memcpy_correct (m : mem) (dest src n : Z) :
  n < 4294967296 -> in_space dest n -> in_space src n -> fwd_ok dest src n ->
  writes m (memcpy m dest src n) dest n (fun i => load8 m (src + i)).
Proof. apply memcpy_writes. Qed.

(** [memmove]: correct for every overlap of the two ranges; it copies
    backwards exactly when the destination lies above the source, and then
    returns with the direction flag still set. *)
Theorem memmove_correct (m : mem) (dest src n : Z) :
  n < 4294967296 -> in_space dest n -> in_space src n ->
  dest < 4294967296 -> src < 4294967296 ->
  writes m (fst (memmove m dest src n)) dest n (fun i => load8 m (src + i)) /\
  snd (memmove m dest src n) = (src <? dest).
Proof.
  intros Hn Hd Hs Hd' Hs'. split; [by apply memmove_writes|].
  unfold memmove, in_space in *. w32.
  destruct (Z.leb_spec dest src), (Z.ltb_spec src dest); cbn [snd]; lia || done.
Qed.

(** [memset], [memset_word], [memset_dword]: the aligned fill writes the
    low byte (word, dword) of [c] to every byte (word, dword) of the range and
    nothing else. *)
Theorem memset_correct (m : mem) (s c n : Z) :
  n < 4294967296 -> in_space s (4 * n) ->
  writes m (memset m s c n) s n (fun _ => u8 c) /\
  writes m (memset_word m s c n) s (2 * n)
         (fun i => u8 (u32 c / 2 ^ (8 * (i mod 2)))) /\
  writes m (memset_dword m s c n) s (4 * n)
         (fun i => u8 (u32 c / 2 ^ (8 * (i mod 4)))).
Proof.
  intros Hn Hs. unfold in_space in *. split_and!.
  - apply memset_writes; unfold in_space; lia.
  - apply memset_word_writes; unfold in_space; lia.
  - apply memset_dword_writes; unfold in_space; lia.
Qed.

(** C40 [itoa] prints the canonical numeral of an unsigned 32-bit value in any
    radix from 2 to 36: the digits are digits of the radix, read back they give
    the value, there is no leading zero, at most 32 of them and a terminator
    are written, and nothing outside the 33 bytes changes. *)
Theorem itoa_roundtrip (m : mem) (value buf radix : Z) :
  2 <= radix <= 36 -> 0 <= value < 4294967296 -> in_space buf 34 ->
  exists m', itoa m value buf radix = Ok m' /\
    is_cstr m' buf (numeral radix value) /\
    same_outside buf (buf + 33) m m' /\
    parse radix (numeral radix value) = value /\
    1 <= Z.of_nat (length (numeral radix value)) <= 32 /\
    Forall (fun c => 0 <= digit_val c < radix /\ digit_char (digit_val c) = c)
           (numeral radix value) /\
    (value <> 0 -> head (numeral radix value) <> Some 48).
Proof.
  intros Hr Hv Hsp.
  destruct (itoa_cstr m value buf radix Hr Hv Hsp)
    as (m' & l & H1 & H2 & -> & H3 & H4 & H5 & H6 & H7).
  exists m'. split_and!; (done || lia).
Qed.

(** [strncmp] on two C strings computes the lexicographic comparison by
    signed characters of their first [n] bytes, and returns 0 exactly when
    those prefixes are equal. *)
Theorem strncmp_correct (m : mem) (s1 s2 n : Z) (la lb : list Z) :
  is_cstr m s1 la -> is_cstr m s2 lb -> 0 <= n < 2147483648 ->
  Forall (fun c => 0 < c < 256) la -> Forall (fun c => 0 < c < 256) lb ->
  strncmp m s1 s2 n = Ok (ncmp (Z.to_nat n) la lb) /\
  (ncmp (Z.to_nat n) la lb = 0 <-> take (Z.to_nat n) la = take (Z.to_nat n) lb).
Proof. intros. split; [by apply strncmp_cstr|by apply ncmp_zero]. Qed.

(** [strcpy] copies a C string with its terminator; [strncpy] writes
    exactly [n] bytes, the string's bytes and then NULs. *)
Theorem strcpy_strncpy_correct (m : mem) (dest src n : Z) (l : list Z) :
  is_cstr m src l -> Z.of_nat (length l) < 2147483647 -> 0 <= n < 2147483647 ->
  in_space dest (Z.of_nat (length l) + 1) -> in_space dest n ->
  in_space src (Z.of_nat (length l) + 1) ->
  src + Z.of_nat (length l) + 1 <= dest ->
  (exists m', strcpy m dest src = Ok m' /\ is_cstr m' dest l /\
     same_outside dest (dest + Z.of_nat (length l) + 1) m m') /\
  (exists m', strncpy m dest src n = Ok m' /\
     writes m m' dest n (fun i => if i <? Z.of_nat (length l)
                                  then load8 m (src + i) else 0)).
Proof.
  intros Hs Hl Hn Hd Hdn Hsp Hdis. split.
  - destruct (strcpy_cstr m dest src l) as (m' & -> & Hw); try done.
    { right. lia. }
    exists m'. unfold in_space in *. split_and!; [done| |].
    + eapply is_cstr_move; [|exact Hs].
      intros i Hi. by rewrite (writes_in _ _ _ _ _ _ Hw) by lia.
    + replace (dest + Z.of_nat (length l) + 1) with
        (dest + (Z.of_nat (length l) + 1)) by lia.
      by eapply writes_same_outside.
  - apply strncpy_cstr; try done. right. lia.
Qed.

(** *** Witnesses *)

Definition lib_demo : mem := store_list ∅ 1000 [104; 101; 108; 108; 111; 0; 104; 105].

Lemma lib_demo_hello : is_cstr lib_demo 1000 [104; 101; 108; 108; 111].
Proof. apply is_cstr_dec. vm_compute. reflexivity. Qed.
Lemma lib_demo_hi : is_cstr lib_demo 1006 [104; 105].
Proof. apply is_cstr_dec. vm_compute. reflexivity. Qed.

Lemma memcpy_correct_witness :
  writes lib_demo (memcpy lib_demo 2001 1000 7) 2001 7 (fun i => load8 lib_demo (1000 + i)).
Proof. apply (memcpy_correct lib_demo 2001 1000 7); unfold in_space, fwd_ok; lia. Defined.
Lemma memmove_correct_witness :
  writes lib_demo (fst (memmove lib_demo 1002 1000 6)) 1002 6
         (fun i => load8 lib_demo (1000 + i)) /\ snd (memmove lib_demo 1002 1000 6) = true.
Proof. apply (memmove_correct lib_demo 1002 1000 6); unfold in_space; lia. Defined.
Lemma memset_correct_witness :
  writes lib_demo (memset lib_demo 1001 298 9) 1001 9 (fun _ => 42).
Proof. apply (memset_correct lib_demo 1001 298 9); unfold in_space; lia. Defined.
Lemma itoa_roundtrip_witness :
  exists m', itoa lib_demo 48879 2000 16 = Ok m' /\ is_cstr m' 2000 [66; 69; 69; 70].
Proof.
  destruct (itoa_roundtrip lib_demo 48879 2000 16) as (m' & H1 & H2 & _);
    unfold in_space; [lia..|]. by exists m'.
Defined.
Lemma strncmp_correct_witness :
  strncmp lib_demo 1000 1006 1 = Ok 0 /\ strncmp lib_demo 1000 1006 2 = Ok (-4).
Proof.
  assert (Ha : Forall (fun c => 0 < c < 256) [104; 101; 108; 108; 111])
    by (repeat constructor; lia).
  assert (Hb : Forall (fun c => 0 < c < 256) [104; 105]) by (repeat constructor; lia).
  split.
  - apply (strncmp_correct lib_demo 1000 1006 1 _ _ lib_demo_hello lib_demo_hi); lia || done.
  - apply (strncmp_correct lib_demo 1000 1006 2 _ _ lib_demo_hello lib_demo_hi); lia || done.
Defined.
Lemma strcpy_strncpy_correct_witness :
  exists m', strcpy lib_demo 3000 1000 = Ok m' /\ is_cstr m' 3000 [104; 101; 108; 108; 111].
Proof.
  destruct (strcpy_strncpy_correct lib_demo 3000 1000 3 _ lib_demo_hello)
    as [(m' & H1 & H2 & _) _]; unfold in_space; cbn [length]; [lia..|].
  by exists m'.
Defined.
