(* ===== verification/Screen.v ===== *)
(** * lib.c: the text screen and [printf]

    Video memory is 25 rows of 80 cells, two bytes per cell, at [VIDEO].
    [put_at] and [scroll_at] are the bodies of [putc]/[scroll_down] over a base
    address, because terminal.c repeats them over the backing pages.  The
    abstract screen [tty] is a grid of characters with a cursor; [putc] refines
    its [tty_putc].  [printf] is translated conversion by conversion and is
    shown to print the expansion of its format. *)

From S2P Require Import Prelude Mem Lib.

Definition VIDEO : Z := 753664.      (* 0xB8000 *)
Definition NUM_COLS : Z := 80.
Definition NUM_ROWS : Z := 25.
Definition ATTRIB : Z := 7.

(** Memory, and the globals [screen_x], [screen_y]. *)
Record screen : Type := Screen { vram : mem; screen_x : Z; screen_y : Z }.

(** The byte offset of a cell, as every routine computes it. *)
Definition cell (base x y : Z) : Z := base + Z.shiftl (NUM_COLS * y + x) 1.

Definition clear (s : screen) : screen :=
  Screen (for_ (NUM_ROWS * NUM_COLS) (fun m i =>
            let m := store8 m (VIDEO + Z.shiftl i 1) 32 in
            store8 m (VIDEO + Z.shiftl i 1 + 1) ATTRIB) (vram s))
         (screen_x s) (screen_y s).

Definition scroll_at (base : Z) (m : mem) : mem :=
  let m := for_ (NUM_ROWS - 1) (fun m y =>
             for_ NUM_COLS (fun m x =>
               store8 m (cell base x y) (load8 m (cell base x (y + 1)))) m) m in
  for_ NUM_COLS (fun m x => store8 m (cell base x (NUM_ROWS - 1)) 32) m.

Definition put_at (base : Z) (m : mem) (x y c : Z) : mem * Z * Z :=
  if (c =? 10) || (c =? 13) then
    let y := y + 1 in
    let x := 0 in
    if NUM_ROWS <=? y then (scroll_at base m, x, NUM_ROWS - 1) else (m, x, y)
  else
    let m := store8 m (cell base x y) c in
    let m := store8 m (cell base x y + 1) ATTRIB in
    let x := x + 1 in
    if NUM_COLS <=? x then
      let y := y + 1 in
      if NUM_ROWS <=? y then (scroll_at base m, 0, NUM_ROWS - 1) else (m, 0, y)
    else (m, x, y).

Definition scroll_down (s : screen) : screen :=
  Screen (scroll_at VIDEO (vram s)) (screen_x s) (screen_y s).

Definition putc (s : screen) (c : Z) : screen :=
  let '(m, x, y) := put_at VIDEO (vram s) (screen_x s) (screen_y s) (u8 c) in
  Screen m x y.

(** [puts] reads the string while it writes the screen. *)
Definition puts (s : screen) (p : Z) : res (Z * screen) :=
  while (fun '(index, s) =>
    if load8 (vram s) (p + index) =? 0 then inr (Ok (index, s))
    else inl (s32 (index + 1), putc s (load8 (vram s) (p + index)))) (0, s).

Definition set_vram (s : screen) (m : mem) : screen :=
  Screen m (screen_x s) (screen_y s).

(** [printf]: the format is given by its bytes, the variable arguments by the
    words [esp] walks over, [cb] is the address of the automatic array
    [conv_buf].  [conv_num] is [itoa] into the array and [puts] of it. *)
Definition conv_num (cb off v radix : Z) (s : screen) : res screen :=
  m ← itoa (vram s) v (cb + off) radix;
  '(_, s) ← puts (set_vram s m) cb;
  Ok s.

Definition conv_alt_hex (cb v : Z) (s : screen) : res screen :=
  m ← itoa (vram s) v (cb + 8) 16;
  starting_index ← strlen m (cb + 8);
  let m := for_ (8 - starting_index)
             (fun m k => store8 m (cb + (starting_index + k)) 48) m in
  '(_, s) ← puts (set_vram s m) (cb + starting_index);
  Ok s.

Definition conv_dec (cb value : Z) (s : screen) : res screen :=
  if s32 value <? 0
  then conv_num cb 1 (u32 (- s32 value)) 10 (set_vram s (store8 (vram s) cb 45))
  else conv_num cb 0 (s32 value) 10 s.

(** [mode]: [None] between conversions, [Some alternate] after a [%].  The
    terminator met inside a conversion is swallowed by [default:], and the
    [buf++] after the switch steps past it. *)
Fixpoint printf_loop (cb : Z) (mode : option bool) (fmt args : list Z)
    (s : screen) : res screen :=
  match mode, fmt with
  | None, [] => Ok s
  | None, c :: fmt =>
    if c =? 37 then printf_loop cb (Some false) fmt args s
    else printf_loop cb None fmt args (putc s c)
  | Some _, [] => Fault
  | Some alternate, c :: fmt =>
    if c =? 37 then printf_loop cb None fmt args (putc s 37)
    else if c =? 35 then printf_loop cb (Some true) fmt args s
    else if c =? 120 then
      match args with
      | [] => Fault
      | v :: args =>
        s ← (if alternate then conv_alt_hex cb v s else conv_num cb 0 v 16 s);
        printf_loop cb None fmt args s
      end
    else if c =? 117 then
      match args with
      | [] => Fault
      | v :: args => s ← conv_num cb 0 v 10 s; printf_loop cb None fmt args s
      end
    else if c =? 100 then
      match args with
      | [] => Fault
      | v :: args => s ← conv_dec cb v s; printf_loop cb None fmt args s
      end
    else if c =? 99 then
      match args with
      | [] => Fault
      | v :: args => printf_loop cb None fmt args (putc s v)
      end
    else if c =? 115 then
      match args with
      | [] => Fault
      | p :: args => '(_, s) ← puts s p; printf_loop cb None fmt args s
      end
    else printf_loop cb None fmt args s
  end.

(** The return value is [buf - format]. *)
Definition printf (cb : Z) (fmt args : list Z) (s : screen) : res (Z * screen) :=
  s ← printf_loop cb None fmt args s; Ok (Z.of_nat (length fmt), s).

(** ** Cells *)

Definition in_grid (x y : Z) : Prop := 0 <= x < 80 /\ 0 <= y < 25.

(** A page base: the 4000 bytes of the cells are addresses. *)
Definition page_ok (base : Z) : Prop := 0 <= base /\ base + 4000 <= 4294967296.

Lemma cell_eq base x y : cell base x y = base + 2 * (80 * y + x).
Proof. unfold cell, NUM_COLS. rewrite Z.shiftl_mul_pow2 by lia. lia. Qed.
Lemma cell_inj base x y x' y' :
  0 <= x < 80 -> 0 <= x' < 80 -> cell base x y = cell base x' y' -> x = x' /\ y = y'.
Proof. rewrite !cell_eq. lia. Qed.
Lemma cell_range base x y :
  in_grid x y -> base <= cell base x y /\ cell base x y + 1 < base + 4000.
Proof. unfold in_grid. rewrite cell_eq. lia. Qed.
Lemma cell_addr base x y : page_ok base -> in_grid x y -> addr (cell base x y).
Proof. intros Hb Hg. pose proof (cell_range base x y Hg). unfold page_ok, addr in *. lia. Qed.

(** A store to one glyph, seen at another cell and at any other address. *)
Lemma glyph_store base m x y x' y' v :
  page_ok base -> in_grid x y -> in_grid x' y' ->
  load8 (store8 m (cell base x y) v) (cell base x' y') =
  if (x =? x') && (y =? y') then u8 v else load8 m (cell base x' y').
Proof.
  intros Hb Hg Hg'. rewrite load8_store8_addr by (by apply cell_addr).
  destruct (Z.eqb_spec (cell base x y) (cell base x' y')) as [He|Hne].
  - unfold in_grid in *. apply cell_inj in He as [-> ->]; [|lia..].
    by rewrite !Z.eqb_refl.
  - destruct (Z.eqb_spec x x'), (Z.eqb_spec y y'); try done. by subst.
Qed.

(** [glyphs_only base m m']: only character bytes of the page differ. *)
Definition glyphs_only (base : Z) (m m' : mem) : Prop :=
  forall a, addr a -> (forall x y, in_grid x y -> a <> cell base x y) ->
    load8 m' a = load8 m a.
Lemma glyphs_only_refl base m : glyphs_only base m m.
Proof. by intros a. Qed.
Lemma glyphs_only_store base m m' x y v :
  page_ok base -> in_grid x y -> glyphs_only base m m' ->
  glyphs_only base m (store8 m' (cell base x y) v).
Proof.
  intros Hb Hg H a Ha Hn. rewrite load8_store8_ne; [by apply H|by apply cell_addr|done|].
  intros He. by apply (Hn x y).
Qed.
#[export] Hint Resolve glyphs_only_refl glyphs_only_store cell_addr : mem.

Lemma shift_row base m0 m y :
  page_ok base -> 0 <= y < 24 -> glyphs_only base m0 m ->
  let m' := for_ NUM_COLS (fun m x =>
              store8 m (cell base x y) (load8 m (cell base x (y + 1)))) m in
  glyphs_only base m0 m' /\
  forall x' y', in_grid x' y' ->
    load8 m' (cell base x' y') =
    if y' =? y then load8 m (cell base x' (y + 1)) else load8 m (cell base x' y').
Proof.
  intros Hb Hy Hg.
  pose proof (for_inv NUM_COLS (fun m x =>
      store8 m (cell base x y) (load8 m (cell base x (y + 1))))
    (fun k mk => glyphs_only base m0 mk /\
       forall x' y', in_grid x' y' ->
         load8 mk (cell base x' y') =
         if (y' =? y) && (x' <? k) then load8 m (cell base x' (y + 1))
         else load8 m (cell base x' y')) m) as H.
  cbn zeta. destruct H as [H1 H2]; [done| | |].
  - split; [done|]. intros x' y' Hin. unfold in_grid in Hin.
    destruct (Z.ltb_spec x' 0); [lia|]. by rewrite andb_false_r.
  - intros k mk Hk [IH1 IH2]. unfold NUM_COLS in Hk.
    split; [apply glyphs_only_store; unfold in_grid; auto; lia|].
    intros x' y' Hin. rewrite glyph_store by (auto; unfold in_grid; lia).
    rewrite !IH2 by (auto; unfold in_grid; lia). unfold in_grid in Hin.
    destruct (Z.eqb_spec k x'), (Z.eqb_spec y y'), (Z.eqb_spec y' y),
      (Z.eqb_spec (y + 1) y), (Z.ltb_spec x' k), (Z.ltb_spec x' (k + 1)),
      (Z.ltb_spec k k); cbn [andb]; subst; try lia; try done.
    apply u8_small, load8_range.
  - split; [done|]. intros x' y' Hin. rewrite H2 by done. unfold in_grid in Hin.
    destruct (Z.ltb_spec x' NUM_COLS); [|unfold NUM_COLS in *; lia].
    by rewrite andb_true_r.
Qed.

Lemma scroll_at_spec base m :
  page_ok base ->
  glyphs_only base m (scroll_at base m) /\
  forall x y, in_grid x y ->
    load8 (scroll_at base m) (cell base x y) =
    if y <? 24 then load8 m (cell base x (y + 1)) else 32.
Proof.
  intros Hb. unfold scroll_at.
  pose proof (for_inv (NUM_ROWS - 1) (fun m y => for_ NUM_COLS (fun m x =>
      store8 m (cell base x y) (load8 m (cell base x (y + 1)))) m)
    (fun k mk => glyphs_only base m mk /\
       forall x y, in_grid x y ->
         load8 mk (cell base x y) =
         if y <? k then load8 m (cell base x (y + 1)) else load8 m (cell base x y)) m)
    as H. cbn zeta.
  destruct H as [H1 H2]; [done| | |].
  - split; [apply glyphs_only_refl|]. intros x y Hin. unfold in_grid in Hin.
    destruct (Z.ltb_spec y 0); [lia|done].
  - intros k mk Hk [IH1 IH2]. unfold NUM_ROWS in Hk.
    destruct (shift_row base m mk k) as [H1 H2]; [done|lia|done|]. cbn zeta in *.
    split; [done|]. intros x y Hin. rewrite H2 by done.
    unfold in_grid in Hin.
    destruct (Z.eqb_spec y k) as [->|].
    + rewrite IH2 by (unfold in_grid; lia).
      destruct (Z.ltb_spec (k + 1) k), (Z.ltb_spec k (k + 1)); lia || done.
    + rewrite IH2 by done.
      destruct (Z.ltb_spec y k), (Z.ltb_spec y (k + 1)); lia || done.
  - set (m1 := for_ (NUM_ROWS - 1) _ m) in *.
    pose proof (for_inv NUM_COLS (fun m x => store8 m (cell base x (NUM_ROWS - 1)) 32)
      (fun k mk => glyphs_only base m mk /\
         forall x y, in_grid x y ->
           load8 mk (cell base x y) =
           if (y =? 24) && (x <? k) then 32 else load8 m1 (cell base x y)) m1) as H.
    destruct H as [H3 H4]; [done| | |].
    + split; [done|]. intros x y Hin. unfold in_grid in Hin.
      destruct (Z.ltb_spec x 0); [lia|]. by rewrite andb_false_r.
    + intros k mk Hk [IH1 IH2]. unfold NUM_COLS in Hk. change (NUM_ROWS - 1) with 24.
      split; [apply glyphs_only_store; unfold in_grid; auto; lia|].
      intros x y Hin. rewrite glyph_store by (auto; unfold in_grid; lia).
      rewrite IH2 by done.
      destruct (Z.eqb_spec k x), (Z.eqb_spec 24 y), (Z.eqb_spec y 24),
        (Z.ltb_spec x k), (Z.ltb_spec x (k + 1)); cbn [andb]; lia || done.
    + split; [done|]. intros x y Hin. rewrite H4 by done. unfold in_grid in Hin.
      destruct (Z.ltb_spec x NUM_COLS); [|unfold NUM_COLS in *; lia].
      rewrite andb_true_r. destruct (Z.eqb_spec y 24).
      * by destruct (Z.ltb_spec y 24); [lia|].
      * rewrite H2 by done. change (NUM_ROWS - 1) with 24. by destruct (y <? 24) eqn:?; [|lia].
Qed.

(** ** The abstract screen *)

Record tty : Type := Tty { grid : Z -> Z -> Z; cx : Z; cy : Z }.

Definition tty_newline (t : tty) : tty :=
  if 25 <=? cy t + 1
  then Tty (fun x y => if y <? 24 then grid t x (y + 1) else 32) 0 24
  else Tty (grid t) 0 (cy t + 1).

Definition tty_putc (t : tty) (c : Z) : tty :=
  if (c =? 10) || (c =? 13) then tty_newline t
  else
    let t := Tty (fun x y => if (x =? cx t) && (y =? cy t) then c else grid t x y)
                 (cx t) (cy t) in
    if 80 <=? cx t + 1 then tty_newline t else Tty (grid t) (cx t + 1) (cy t).

Definition cursor_ok (x y : Z) : Prop := in_grid x y.

(** [shows base m x y t]: the page at [base] with cursor [x], [y] is [t]. *)
Definition shows (base : Z) (m : mem) (x y : Z) (t : tty) : Prop :=
  cx t = x /\ cy t = y /\ cursor_ok x y /\
  forall x' y', in_grid x' y' -> load8 m (cell base x' y') = grid t x' y'.

Lemma shows_newline base m x y t :
  page_ok base -> shows base m x y t ->
  shows base (if NUM_ROWS <=? y + 1 then scroll_at base m else m) 0
    (if NUM_ROWS <=? y + 1 then NUM_ROWS - 1 else y + 1) (tty_newline t).
Proof.
  intros Hb (Hx & Hy & Hc & Hg). unfold tty_newline. rewrite Hy.
  change NUM_ROWS with 25. unfold shows, cursor_ok, in_grid in *.
  destruct (Z.leb_spec 25 (y + 1)).
  - split_and!; cbn; try lia. intros x' y' Hin.
    destruct (scroll_at_spec base m Hb) as [_ H2]. rewrite H2 by done.
    destruct (Z.ltb_spec y' 24); [|done]. apply Hg. lia.
  - split_and!; cbn; try lia. done.
Qed.

Lemma put_at_shows base m x y c t :
  page_ok base -> 0 <= c < 256 -> shows base m x y t ->
  let '(m', x', y') := put_at base m x y c in shows base m' x' y' (tty_putc t c).
Proof.
  intros Hb Hcc Hs. pose proof (shows_newline base m x y t Hb Hs) as Hnl.
  destruct Hs as (Hx & Hy & Hc & Hg). unfold put_at, tty_putc. cbn zeta.
  destruct ((c =? 10) || (c =? 13)).
  { destruct (NUM_ROWS <=? y + 1); exact Hnl. }
  set (m1 := store8 (store8 m (cell base x y) c) (cell base x y + 1) ATTRIB).
  set (t1 := Tty (fun x0 y0 => if (x0 =? cx t) && (y0 =? cy t) then c else grid t x0 y0)
                 (cx t) (cy t)).
  assert (Hs1 : shows base m1 x y t1).
  { split_and!; [done..|]. intros x' y' Hin. unfold m1.
    rewrite load8_store8_ne; [|
      unfold page_ok, cursor_ok, in_grid, addr in *; rewrite cell_eq; lia|
      by apply cell_addr|rewrite !cell_eq; lia].
    rewrite glyph_store by done. cbn. rewrite Hx, Hy, Hg by done.
    rewrite (Z.eqb_sym x' x), (Z.eqb_sym y' y). destruct ((x =? x') && (y =? y')); [|done].
    by apply u8_small. }
  pose proof (shows_newline base m1 x y t1 Hb Hs1) as Hnl1.
  change (cx t1) with (cx t). rewrite Hx. change NUM_COLS with 80. destruct (Z.leb_spec 80 (x + 1)).
  { destruct (NUM_ROWS <=? y + 1); exact Hnl1. }
  destruct Hs1 as (H1 & H2 & H3 & H4). unfold cursor_ok, in_grid in *.
  split_and!; cbn [cx cy grid]; try lia; [unfold cursor_ok, in_grid; lia|exact H4].
Qed.

(** Only the page changes, and the attribute bytes it writes are [ATTRIB]. *)
Lemma put_at_outside base m x y c :
  page_ok base -> cursor_ok x y ->
  same_outside base (base + 4000) m (fst (fst (put_at base m x y c))).
Proof.
  intros Hb Hc.
  assert (Hscroll : forall m, same_outside base (base + 4000) m (scroll_at base m)).
  { intros m0 a Ha Hn. destruct (scroll_at_spec base m0 Hb) as [Hg _]. apply Hg; [done|].
    intros x' y' Hin ->. apply Hn. pose proof (cell_range base x' y' Hin). lia. }
  assert (Hst : same_outside base (base + 4000) m
    (store8 (store8 m (cell base x y) c) (cell base x y + 1) ATTRIB)).
  { pose proof (cell_range base x y Hc). unfold page_ok in Hb.
    eapply same_outside_trans; apply same_outside_store8; unfold addr; lia. }
  unfold put_at; cbn zeta.
  repeat case_match; cbn [fst]; eauto using same_outside_refl, same_outside_trans.
Qed.

(** What [put_at] leaves on the page and in the cursor depends only on the
    page, the cursor and the character. *)
Lemma put_at_ext base m m' x y c :
  page_ok base -> cursor_ok x y ->
  (forall a, base <= a < base + 4000 -> load8 m a = load8 m' a) ->
  snd (fst (put_at base m x y c)) = snd (fst (put_at base m' x y c)) /\
  snd (put_at base m x y c) = snd (put_at base m' x y c) /\
  forall a, base <= a < base + 4000 ->
    load8 (fst (fst (put_at base m x y c))) a = load8 (fst (fst (put_at base m' x y c))) a.
Proof.
  intros Hb Hc Heq.
  assert (Hscroll : forall m m', (forall a, base <= a < base + 4000 -> load8 m a = load8 m' a) ->
    forall a, base <= a < base + 4000 -> load8 (scroll_at base m) a = load8 (scroll_at base m') a).
  { clear m m' Heq. intros m m' Heq a Ha.
    destruct (scroll_at_spec base m Hb) as [G1 C1].
    destruct (scroll_at_spec base m' Hb) as [G2 C2].
    assert (Haddr : addr a) by (unfold page_ok, addr in *; lia).
    set (k := (a - base) / 2).
    destruct (Z.eq_dec ((a - base) mod 2) 0) as [Hev|Hodd].
    - assert (Hk : in_grid (k mod 80) (k / 80)) by (unfold in_grid, k; zdm).
      assert (Hcell : a = cell base (k mod 80) (k / 80)).
      { rewrite cell_eq. unfold k in *. zdm. }
      rewrite Hcell, C1, C2 by done. destruct (Z.ltb_spec (k / 80) 24); [|done].
      apply Heq. unfold in_grid in Hk. rewrite cell_eq. lia.
    - assert (Hno : forall x y, in_grid x y -> a <> cell base x y).
      { intros x' y' _ ->. apply Hodd. rewrite cell_eq. zdm. }
      rewrite (G1 a Haddr Hno), (G2 a Haddr Hno). by apply Heq. }
  assert (Hst : forall a, base <= a < base + 4000 ->
    load8 (store8 (store8 m (cell base x y) c) (cell base x y + 1) ATTRIB) a =
    load8 (store8 (store8 m' (cell base x y) c) (cell base x y + 1) ATTRIB) a).
  { intros a Ha. rewrite !load8_store8. by rewrite Heq. }
  unfold put_at; cbn zeta.
  repeat case_match; cbn [fst snd]; split_and!; auto.
Qed.

Lemma page_ok_video : page_ok VIDEO.
Proof. unfold page_ok, VIDEO. lia. Qed.
#[export] Hint Resolve page_ok_video : mem.

Definition scr_shows (s : screen) (t : tty) : Prop :=
  shows VIDEO (vram s) (screen_x s) (screen_y s) t.
Definition scr_cursor (s : screen) : Prop := cursor_ok (screen_x s) (screen_y s).

(** The abstraction function. *)
Definition tty_of (s : screen) : tty :=
  Tty (fun x y => load8 (vram s) (cell VIDEO x y)) (screen_x s) (screen_y s).
Lemma tty_of_shows s : scr_cursor s -> scr_shows s (tty_of s).
Proof. intros H. by split_and!. Qed.

Lemma putc_shows s c t :
  0 <= c < 256 -> scr_shows s t -> scr_shows (putc s c) (tty_putc t c).
Proof.
  intros Hc Hs. unfold putc. rewrite u8_small by done.
  pose proof (put_at_shows VIDEO _ _ _ c t page_ok_video Hc Hs) as H.
  destruct (put_at _ _ _ _ _) as [[m x] y]. exact H.
Qed.
Lemma putc_cursor s c : scr_cursor s -> scr_cursor (putc s c).
Proof.
  intros Hs. unfold putc.
  pose proof (put_at_shows VIDEO _ _ _ (u8 c) _ page_ok_video (u8_range c) (tty_of_shows s Hs)) as H.
  destruct (put_at _ _ _ _ _) as [[m x] y]. destruct H as (_ & _ & H & _). exact H.
Qed.
Lemma putc_outside s c :
  scr_cursor s -> same_outside VIDEO (VIDEO + 4000) (vram s) (vram (putc s c)).
Proof.
  intros Hs. unfold putc.
  pose proof (put_at_outside VIDEO (vram s) (screen_x s) (screen_y s) (u8 c) page_ok_video Hs) as H.
  destruct (put_at _ _ _ _ _) as [[m x] y]. exact H.
Qed.
#[export] Hint Resolve putc_cursor putc_outside tty_of_shows : mem.
Lemma foldl_putc_cursor l s : scr_cursor s -> scr_cursor (foldl putc s l).
Proof. revert s. induction l; cbn; auto with mem. Qed.
Lemma foldl_putc_outside l s :
  scr_cursor s -> same_outside VIDEO (VIDEO + 4000) (vram s) (vram (foldl putc s l)).
Proof.
  revert s. induction l as [|c l IH]; intros s Hs; cbn; [apply same_outside_refl|].
  eapply same_outside_trans; [by apply putc_outside|]. by apply IH, putc_cursor.
Qed.

(** [on_screen P s s']: same cursor, and memories equal at the addresses
    where [P] holds. *)
Definition scr_eq (P : Z -> Prop) (s s' : screen) : Prop :=
  screen_x s = screen_x s' /\ screen_y s = screen_y s' /\
  forall a, addr a -> P a -> load8 (vram s) a = load8 (vram s') a.
#[export] Instance scr_eq_equiv P : Equivalence (scr_eq P).
Proof.
  split.
  - intros s. by split_and!.
  - intros s s' (H1 & H2 & H3). split_and!; [done..|]. intros. symmetry. auto.
  - intros s1 s2 s3 (H1 & H2 & H3) (G1 & G2 & G3).
    split_and!; [congruence..|]. intros a Ha HP. rewrite H3 by done. auto.
Qed.

(** [putc] respects the equality wherever [P] covers video memory. *)
Lemma putc_scr_eq (P : Z -> Prop) s s' c :
  (forall a, VIDEO <= a < VIDEO + 4000 -> P a) -> scr_cursor s ->
  scr_eq P s s' -> scr_eq P (putc s c) (putc s' c).
Proof.
  intros HP Hc (Hx & Hy & Hm).
  pose proof (putc_outside s c Hc) as O1.
  assert (Hc' : scr_cursor s') by (unfold scr_cursor; by rewrite <- Hx, <- Hy).
  pose proof (putc_outside s' c Hc') as O2.
  unfold putc in *.
  destruct (put_at_ext VIDEO (vram s) (vram s') (screen_x s) (screen_y s) (u8 c))
    as (E1 & E2 & E3); [apply page_ok_video|done| |].
  { intros a Ha. apply Hm; [unfold addr, VIDEO in *; lia|auto]. }
  rewrite <- Hx, <- Hy in *.
  destruct (put_at VIDEO (vram s) _ _ _) as [[m1 x1] y1].
  destruct (put_at VIDEO (vram s') _ _ _) as [[m2 x2] y2]. cbn in *.
  split_and!; [done..|]. cbn. intros a Ha Pa.
  destruct (decide (VIDEO <= a < VIDEO + 4000)) as [Hin|Hout]; [by apply E3|].
  rewrite O1, O2 by done. auto.
Qed.

Lemma foldl_putc_scr_eq (P : Z -> Prop) l s s' :
  (forall a, VIDEO <= a < VIDEO + 4000 -> P a) -> scr_cursor s ->
  scr_eq P s s' -> scr_eq P (foldl putc s l) (foldl putc s' l).
Proof.
  intros HP. revert s s'. induction l as [|c l IH]; intros s s' Hc He; cbn; [done|].
  apply IH; [by apply putc_cursor|by apply putc_scr_eq].
Qed.

(** ** [puts] and [printf] *)

(** A range that [putc] does not write. *)
Definition off_screen (a n : Z) : Prop := a + n <= VIDEO \/ VIDEO + 4000 <= a.

Lemma puts_cstr s p l :
  is_cstr (vram s) p l -> Z.of_nat (length l) < 2147483647 ->
  in_space p (Z.of_nat (length l) + 1) -> off_screen p (Z.of_nat (length l) + 1) ->
  scr_cursor s -> puts s p = Ok (Z.of_nat (length l), foldl putc s l).
Proof.
  intros Hs Hlen Hp Hoff Hc. unfold puts, in_space, off_screen in *.
  apply (while_rule _
    (fun '(i, si) => 0 <= i <= Z.of_nat (length l) /\
                     si = foldl putc s (take (Z.to_nat i) l))
    (fun '(i, _) => Z.of_nat (length l) - i)); [|lia|].
  { split; [lia|done]. }
  intros [i si] [Hi ->].
  assert (Hld : load8 (vram (foldl putc s (take (Z.to_nat i) l))) (p + i) =
                load8 (vram s) (p + i)).
  { apply foldl_putc_outside; [done|unfold addr; lia|lia]. }
  rewrite Hld. destruct (Z.eq_dec i (Z.of_nat (length l))) as [->|Hne].
  - rewrite is_cstr_end by done. cbn. by rewrite take_ge by lia.
  - destruct (Z.eqb_spec (load8 (vram s) (p + i)) 0) as [H0|H0].
    { exfalso. apply (is_cstr_nz _ _ _ i Hs); [lia|done]. }
    rewrite s32_small by lia. split; [|lia]. split; [lia|].
    replace (Z.to_nat (i + 1)) with (S (Z.to_nat i)) by lia.
    erewrite take_S_r; [by rewrite foldl_snoc|].
    rewrite <- aget_lookup by lia. apply is_cstr_get; [done|lia].
Qed.

(** The characters a format prints.  [strs] gives the C strings that [%s]
    arguments point to. *)
Definition hex8 (v : Z) : list Z :=
  replicate (8 - length (numeral 16 v)) 48 ++ numeral 16 v.
Definition dec32 (v : Z) : list Z :=
  if s32 v <? 0 then 45 :: numeral 10 (- s32 v) else numeral 10 (s32 v).

Fixpoint expand (strs : Z -> option (list Z)) (mode : option bool)
    (fmt args : list Z) : option (list Z) :=
  match mode, fmt with
  | None, [] => Some []
  | None, c :: fmt =>
    if c =? 37 then expand strs (Some false) fmt args
    else (c ::.) <$> expand strs None fmt args
  | Some _, [] => None
  | Some alternate, c :: fmt =>
    if c =? 37 then (37 ::.) <$> expand strs None fmt args
    else if c =? 35 then expand strs (Some true) fmt args
    else if (c =? 120) || (c =? 117) || (c =? 100) || (c =? 99) || (c =? 115) then
      match args with
      | [] => None
      | v :: args =>
        out ← (if c =? 120 then Some (if alternate then hex8 v else numeral 16 v)
               else if c =? 117 then Some (numeral 10 v)
               else if c =? 100 then Some (dec32 v)
               else if c =? 99 then Some [v]
               else strs v);
        (out ++.) <$> expand strs None fmt args
      end
    else expand strs None fmt args
  end.

Section Printf.
Context (cb : Z) (strs : Z -> option (list Z)) (m0 : mem).
Hypothesis Hcb : in_space cb 64.
Hypothesis Hcb_off : off_screen cb 64.
(** The strings are in memory, apart from the screen and [conv_buf]. *)
Hypothesis Hstrs : forall a l, strs a = Some l ->
  is_cstr m0 a l /\ Z.of_nat (length l) < 2147483647 /\
  in_space a (Z.of_nat (length l) + 1) /\ off_screen a (Z.of_nat (length l) + 1) /\
  (a + Z.of_nat (length l) + 1 <= cb \/ cb + 64 <= a).

Definition off_buf (a : Z) : Prop := ~ (cb <= a < cb + 64).

Lemma off_buf_video a : VIDEO <= a < VIDEO + 4000 -> off_buf a.
Proof. unfold off_buf, off_screen in *. lia. Qed.

(** The state of [printf] against the ideal screen [s0]: equal off the
    buffer, and off the screen the memory is still [m0]. *)
Definition tracks (s s0 : screen) : Prop :=
  scr_cursor s0 /\ scr_eq off_buf s s0 /\
  same_outside VIDEO (VIDEO + 4000) m0 (vram s0).

Lemma tracks_cursor s s0 : tracks s s0 -> scr_cursor s.
Proof. intros (Hc & (Hx & Hy & _) & _). unfold scr_cursor. by rewrite Hx, Hy. Qed.

Lemma tracks_putc s s0 c : tracks s s0 -> tracks (putc s c) (putc s0 c).
Proof.
  intros H. pose proof (tracks_cursor _ _ H) as Hcs. destruct H as (Hc & He & Ho).
  split_and!; [by apply putc_cursor| |].
  - apply putc_scr_eq; [apply off_buf_video|done|done].
  - eapply same_outside_trans; [exact Ho|]. by apply putc_outside.
Qed.
Lemma tracks_foldl l s s0 : tracks s s0 -> tracks (foldl putc s l) (foldl putc s0 l).
Proof.
  revert s s0. induction l as [|c l IH]; cbn; [done|].
  intros s s0 H. by apply IH, tracks_putc.
Qed.
Lemma tracks_set s s0 m' :
  tracks s s0 -> same_outside cb (cb + 64) (vram s) m' -> tracks (set_vram s m') s0.
Proof.
  intros (Hc & (Hx & Hy & Hm) & Ho) Hout. split_and!; [done| |done].
  split_and!; [done..|]. cbn. intros a Ha Hp. rewrite Hout by done. by apply Hm.
Qed.

Lemma tracks_string s s0 a l :
  tracks s s0 -> strs a = Some l -> is_cstr (vram s) a l.
Proof.
  intros (_ & (_ & _ & Hm) & Ho) Hl.
  destruct (Hstrs a l Hl) as (H1 & H2 & H3 & H4 & H5).
  eapply is_cstr_ext; [|exact H1]. unfold in_space, off_screen in *. intros i Hi.
  rewrite Hm by (unfold addr, off_buf; lia). apply Ho; [unfold addr; lia|lia].
Qed.

(** [puts] of a string that lies in [conv_buf]. *)
Lemma puts_conv s s0 m' p l :
  tracks s s0 -> same_outside cb (cb + 64) (vram s) m' -> is_cstr m' p l ->
  cb <= p -> p + Z.of_nat (length l) + 1 <= cb + 64 ->
  exists s', puts (set_vram s m') p = Ok (Z.of_nat (length l), s') /\
             tracks s' (foldl putc s0 l).
Proof.
  intros Ht Hout Hl Hp1 Hp2. pose proof (tracks_set _ _ _ Ht Hout) as Ht'.
  exists (foldl putc (set_vram s m') l). split; [|by apply tracks_foldl].
  unfold in_space, off_screen in *.
  apply puts_cstr; unfold in_space, off_screen; [done|lia|lia|lia|].
  by eapply tracks_cursor.
Qed.

Lemma numeral_length radix v :
  2 <= radix <= 36 -> 0 <= v < 4294967296 ->
  1 <= Z.of_nat (length (numeral radix v)) <= 32.
Proof.
  intros Hr Hv. destruct (itoa_cstr ∅ v 0 radix Hr Hv) as
    (m' & l & _ & _ & -> & _ & H & _); [unfold in_space; lia|done].
Qed.

Lemma conv_num_tracks s s0 off pre v radix :
  tracks s s0 -> 2 <= radix <= 36 -> 0 <= v < 4294967296 ->
  0 <= off <= 1 -> Z.of_nat (length pre) = off ->
  (forall i, 0 <= i < off -> aget pre i = Some (load8 (vram s) (cb + i)) /\
                             load8 (vram s) (cb + i) <> 0) ->
  exists s', conv_num cb off v radix s = Ok s' /\
             tracks s' (foldl putc s0 (pre ++ numeral radix v)).
Proof.
  intros Ht Hr Hv Hoff Hpre Hb. unfold conv_num, in_space in *.
  destruct (itoa_cstr (vram s) v (cb + off) radix Hr Hv) as
    (m' & l & -> & Hl & -> & _ & Hlen & _ & _ & Hout); [unfold in_space; lia|].
  rewrite bind_ok.
  destruct (puts_conv s s0 m' cb (pre ++ numeral radix v)) as (s' & -> & Ht');
    rewrite ?length_app, ?Nat2Z.inj_add; try lia; [done| | |].
  - eapply same_outside_weaken; [| |exact Hout]; lia.
  - split.
    + rewrite length_app, Nat2Z.inj_add, Hpre. intros i Hi.
      destruct (Z_lt_le_dec i off) as [Hlt|Hge].
      * rewrite Hout by (unfold addr; lia). destruct (Hb i) as [H1 H2]; [lia|].
        split; [done|]. rewrite aget_lookup in * by lia. by rewrite lookup_app_l by lia.
      * replace (cb + i) with (cb + off + (i - off)) by lia.
        split; [apply (is_cstr_nz _ _ _ _ Hl); lia|].
        rewrite <- (is_cstr_get _ _ _ _ Hl) by lia.
        rewrite !aget_lookup by lia. rewrite lookup_app_r by lia. f_equal. lia.
    + rewrite length_app, Nat2Z.inj_add, Hpre.
      replace (cb + (off + Z.of_nat (length (numeral radix v)))) with
        (cb + off + Z.of_nat (length (numeral radix v))) by lia.
      by apply is_cstr_end.
  - by exists s'.
Qed.

Lemma conv_dec_tracks s s0 v :
  tracks s s0 -> exists s', conv_dec cb v s = Ok s' /\ tracks s' (foldl putc s0 (dec32 v)).
Proof.
  intros Ht. unfold conv_dec, dec32. pose proof (s32_range v) as Hv.
  destruct (Z.ltb_spec (s32 v) 0).
  - rewrite u32_small by lia. unfold in_space in *.
    apply (conv_num_tracks _ s0 1 [45]); try lia; [|done|].
    + apply tracks_set; [done|]. apply same_outside_store8; unfold addr; lia.
    + intros i Hi. replace i with 0 by lia. cbn. rewrite Z.add_0_r, load8_store8_eq.
      split; [done|]. rewrite u8_small by lia. lia.
  - apply (conv_num_tracks _ s0 0 []); try lia; done.
Qed.

Lemma numeral16_short v : 0 <= v < 4294967296 -> (length (numeral 16 v) <= 8)%nat.
Proof.
  intros Hv. unfold numeral. destruct (Z.eqb_spec v 0); [cbn; lia|].
  rewrite length_reverse, length_fmap.
  assert (H : forall n k v, 0 <= v < 16 ^ Z.of_nat k -> (length (digits n 16 v) <= k)%nat).
  { clear v Hv n. induction n as [|n IH]; intros k v Hv; [cbn; lia|].
    cbn [digits]. destruct (Z.eqb_spec v 0); [cbn; lia|].
    destruct k as [|k]; [cbn in Hv; lia|]. cbn [length].
    apply le_n_S, IH. rewrite Nat2Z.inj_succ, Z.pow_succ_r in Hv by lia.
    split; [apply Z.div_pos; lia|]. apply Z.div_lt_upper_bound; lia. }
  apply H. cbn. lia.
Qed.

Lemma conv_alt_hex_tracks s s0 v :
  tracks s s0 -> 0 <= v < 4294967296 ->
  exists s', conv_alt_hex cb v s = Ok s' /\ tracks s' (foldl putc s0 (hex8 v)).
Proof.
  intros Ht Hv. unfold conv_alt_hex, in_space in *.
  destruct (itoa_cstr (vram s) v (cb + 8) 16 ltac:(lia) Hv) as
    (m1 & l & -> & Hl & -> & _ & Hlen & _ & _ & Hout); [unfold in_space; lia|].
  rewrite bind_ok, (strlen_cstr _ _ _ Hl), bind_ok by lia. cbn zeta.
  pose proof (numeral16_short v Hv) as H8. unfold hex8.
  set (num := numeral 16 v) in *. set (L := Z.of_nat (length num)) in *.
  set (m2 := for_ (8 - L) (fun m k => store8 m (cb + (L + k)) 48) m1).
  assert (Hw' : writes m1 m2 (cb + L) (8 - L) (fun _ => 48)).
  { apply (for_inv (8 - L) (fun m k => store8 m (cb + (L + k)) 48)
      (fun k mk => writes m1 mk (cb + L) k (fun _ => 48)) m1); [lia|by apply writes_nil|].
    intros i mi Hi IH. replace (cb + (L + i)) with (cb + L + i) by lia.
    apply writes_snoc; [lia|unfold in_space; lia|done|done]. }
  destruct (puts_conv s s0 m2 (cb + L) (replicate (8 - length num) 48 ++ num))
    as (s' & -> & Ht'); [done| | |lia| |].
  - eapply same_outside_trans; [eapply same_outside_weaken; [| |exact Hout]; lia|].
    eapply same_outside_weaken; [| |eapply writes_same_outside, Hw']; lia.
  - split.
    + rewrite length_app, length_replicate. intros i Hi.
      destruct (Z_lt_le_dec i (8 - L)) as [Hlt|Hge].
      * rewrite (writes_in _ _ _ _ _ _ Hw') by lia. split; [lia|].
        rewrite aget_lookup, lookup_app_l by (rewrite ?length_replicate; lia).
        apply lookup_replicate_2. lia.
      * rewrite (writes_out _ _ _ _ _ _ Hw') by (unfold addr; lia).
        replace (cb + L + i) with (cb + 8 + (i - (8 - L))) by lia.
        split; [apply (is_cstr_nz _ _ _ _ Hl); lia|].
        rewrite <- (is_cstr_get _ _ _ _ Hl) by lia.
        rewrite !aget_lookup, lookup_app_r by (rewrite ?length_replicate; lia).
        rewrite length_replicate. f_equal. lia.
    + rewrite length_app, length_replicate.
      rewrite (writes_out _ _ _ _ _ _ Hw') by (unfold addr; lia).
      replace (cb + L + Z.of_nat (8 - length num + length num)) with (cb + 8 + L) by lia.
      by apply is_cstr_end.
  - rewrite length_app, length_replicate. lia.
  - by exists s'.
Qed.

Lemma printf_loop_tracks mode fmt args s s0 out :
  tracks s s0 -> Forall (fun v => 0 <= v < 4294967296) args ->
  expand strs mode fmt args = Some out ->
  exists s', printf_loop cb mode fmt args s = Ok s' /\ tracks s' (foldl putc s0 out).
Proof.
  revert mode args s s0 out. induction fmt as [|c fmt IH];
    intros mode args s s0 out Ht Hargs Hex.
  { destruct mode; cbn in *; [done|]. injection Hex as <-. by exists s. }
  assert (Hconv : forall args s1 pre (r : res screen),
    Forall (fun v => 0 <= v < 4294967296) args ->
    (exists s', r = Ok s' /\ tracks s' (foldl putc s0 pre)) ->
    (pre ++.) <$> expand strs None fmt args = Some out ->
    r = s1 -> exists s', (s ← s1; printf_loop cb None fmt args s) = Ok s' /\
                         tracks s' (foldl putc s0 out)).
  { clear args Hargs Hex. intros args s1 pre r Hargs (s' & -> & Ht') Hex <-.
    rewrite bind_ok. destruct (expand strs None fmt args) as [out'|] eqn:E; [|done].
    cbn in Hex. injection Hex as <-. rewrite foldl_app. by eapply IH. }
  destruct mode as [alt|]; cbn [printf_loop expand] in *.
  - destruct (c =? 37).
    { destruct (expand strs None fmt args) as [out'|] eqn:E; [|done].
      cbn in Hex. injection Hex as <-. cbn [foldl]. eapply IH; eauto using tracks_putc. }
    destruct (c =? 35); [by eapply IH|].
    destruct (Z.eqb_spec c 120) as [->|]; cbn [orb] in Hex.
    { destruct args as [|v args]; [done|]. inversion Hargs; subst.
      eapply Hconv; [done| |exact Hex|reflexivity]. destruct alt.
      - by apply conv_alt_hex_tracks.
      - apply (conv_num_tracks _ s0 0 []); try lia; done. }
    destruct (Z.eqb_spec c 117) as [->|]; cbn [orb] in Hex.
    { destruct args as [|v args]; [done|]. inversion Hargs; subst.
      eapply Hconv; [done| |exact Hex|reflexivity].
      apply (conv_num_tracks _ s0 0 []); try lia; done. }
    destruct (Z.eqb_spec c 100) as [->|]; cbn [orb] in Hex.
    { destruct args as [|v args]; [done|]. inversion Hargs; subst.
      eapply Hconv; [done| |exact Hex|reflexivity]. by apply conv_dec_tracks. }
    destruct (Z.eqb_spec c 99) as [->|]; cbn [orb] in Hex.
    { destruct args as [|v args]; [done|]. inversion Hargs; subst.
      change ((99 =? 120)) with false in Hex. cbn in Hex.
      destruct (expand strs None fmt args) as [out'|] eqn:E; [|done].
      cbn in Hex. injection Hex as <-. cbn [foldl app]. eapply IH; eauto using tracks_putc. }
    destruct (Z.eqb_spec c 115) as [->|]; [|by eapply IH].
    destruct args as [|v args]; [done|]. inversion Hargs; subst. cbn in Hex.
    destruct (strs v) as [l|] eqn:El; [|done]. cbn in Hex.
    destruct (Hstrs v l El) as (H1' & H2' & H3' & H4' & H5').
    rewrite (puts_cstr s v l) by
      (eauto using tracks_string, tracks_cursor). rewrite bind_ok.
    destruct (expand strs None fmt args) as [out'|] eqn:E; [|done].
    cbn in Hex. injection Hex as <-. rewrite foldl_app.
    eapply IH; eauto using tracks_foldl.
  - destruct (c =? 37); [by eapply IH|].
    destruct (expand strs None fmt args) as [out'|] eqn:E; [|done].
    cbn in Hex. injection Hex as <-. cbn [foldl]. eapply IH; eauto using tracks_putc.
Qed.
End Printf.

(** ** [clear] *)

Lemma clear_spec s :
  writes (vram s) (vram (clear s)) VIDEO 4000 (fun k => if k mod 2 =? 0 then 32 else 7).
Proof.
  unfold clear; cbn [vram]. change 4000 with (2 * (NUM_ROWS * NUM_COLS)).
  apply (for_inv (NUM_ROWS * NUM_COLS) _ (fun k mk => writes (vram s) mk VIDEO (2 * k)
    (fun k => if k mod 2 =? 0 then 32 else 7))); [done|by apply writes_nil|].
  intros i mi Hi IH. unfold NUM_ROWS, NUM_COLS in Hi.
  rewrite Z.shiftl_mul_pow2 by lia. change (2 ^ 1) with 2.
  replace (2 * (i + 1)) with (2 * i + 1 + 1) by lia.
  replace (VIDEO + i * 2 + 1) with (VIDEO + (2 * i + 1)) by lia.
  replace (VIDEO + i * 2) with (VIDEO + 2 * i) by lia.
  apply writes_snoc; [lia|unfold in_space, VIDEO; lia| |].
  { replace ((2 * i + 1) mod 2) with 1 by zdm. reflexivity. }
  apply writes_snoc; [lia|unfold in_space, VIDEO; lia| |done].
  replace (2 * i mod 2) with 0 by zdm. reflexivity.
Qed.

(** ** Properties *)

(** [scroll_down] moves every text row up by one and blanks the last one;
    it keeps the attribute bytes and every byte outside the character cells,
    although it copies row over row in place. *)
Theorem scroll_down_correct (s : screen) :
  let s' := scroll_down s in
  (forall x y, in_grid x y ->
     load8 (vram s') (cell VIDEO x y) =
     if y <? 24 then load8 (vram s) (cell VIDEO x (y + 1)) else 32) /\
  (forall a, addr a -> (forall x y, in_grid x y -> a <> cell VIDEO x y) ->
     load8 (vram s') a = load8 (vram s) a) /\
  screen_x s' = screen_x s /\ screen_y s' = screen_y s.
Proof.
  cbn zeta. destruct (scroll_at_spec VIDEO (vram s) page_ok_video) as [H1 H2].
  by split_and!.
Qed.

(** C38 [putc] refines the abstract terminal: from a screen that shows [t] it
    reaches one that shows [tty_putc t c] (a cell written and the cursor
    advanced, wrapped, or the text scrolled), the cursor stays inside the 80x25
    grid, and nothing outside the 4000 bytes of video memory changes. *)
Theorem putc_refines (s : screen) (t : tty) (c : Z) :
  0 <= c < 256 -> scr_shows s t ->
  scr_shows (putc s c) (tty_putc t c) /\
  in_grid (screen_x (putc s c)) (screen_y (putc s c)) /\
  same_outside VIDEO (VIDEO + 4000) (vram s) (vram (putc s c)).
Proof.
  intros Hc Hs. assert (Hcur : scr_cursor s).
  { destruct Hs as (_ & _ & H & _). exact H. }
  split_and!; [by apply putc_shows|by apply putc_cursor..|by apply putc_outside].
Qed.

(** C37 [printf] prints the expansion of its format: on a screen with a valid
    cursor and 32-bit arguments, it consumes the whole format, returns its
    length, and leaves the screen that [putc] of the expanded characters
    leaves ([%x], [%#x] padded to eight digits, [%u], [%d] with sign, [%c],
    [%s], [%%]), up to the bytes of its own conversion buffer. *)
Theorem printf_correct (cb : Z) (strs : Z -> option (list Z)) (fmt args out : list Z)
    (s : screen) :
  in_space cb 64 -> off_screen cb 64 ->
  (forall a l, strs a = Some l ->
     is_cstr (vram s) a l /\ Z.of_nat (length l) < 2147483647 /\
     in_space a (Z.of_nat (length l) + 1) /\ off_screen a (Z.of_nat (length l) + 1) /\
     (a + Z.of_nat (length l) + 1 <= cb \/ cb + 64 <= a)) ->
  scr_cursor s -> Forall (fun v => 0 <= v < 4294967296) args ->
  expand strs None fmt args = Some out ->
  exists s', printf cb fmt args s = Ok (Z.of_nat (length fmt), s') /\
    scr_eq (fun a => ~ (cb <= a < cb + 64)) s' (foldl putc s out).
Proof.
  intros Hcb Hoff Hstrs Hc Hargs Hex.
  destruct (printf_loop_tracks cb strs (vram s) Hcb Hoff Hstrs None fmt args s s out)
    as (s' & H & _ & He & _); [|done|done|].
  - split_and!; [done|reflexivity|apply same_outside_refl].
  - exists s'. unfold printf. rewrite H. by split.
Qed.

(** The [%s] arguments of a [printf]: C strings apart from the screen and the
    conversion buffer. *)
Definition strings_at (cb : Z) (strs : Z -> option (list Z)) (m : mem) : Prop :=
  forall a l, strs a = Some l ->
  is_cstr m a l /\ Z.of_nat (length l) < 2147483647 /\
  in_space a (Z.of_nat (length l) + 1) /\ off_screen a (Z.of_nat (length l) + 1) /\
  (a + Z.of_nat (length l) + 1 <= cb \/ cb + 64 <= a).

(** [printf_correct] as a rule for sequences of calls: [s0] is the ideal
    screen so far. *)
Lemma printf_step cb strs fmt args out s s0 :
  in_space cb 64 -> off_screen cb 64 -> scr_cursor s0 ->
  scr_eq (fun a => ~ (cb <= a < cb + 64)) s s0 -> strings_at cb strs (vram s0) ->
  Forall (fun v => 0 <= v < 4294967296) args -> expand strs None fmt args = Some out ->
  exists s', printf cb fmt args s = Ok (Z.of_nat (length fmt), s') /\
    scr_eq (fun a => ~ (cb <= a < cb + 64)) s' (foldl putc s0 out) /\
    scr_cursor (foldl putc s0 out) /\ strings_at cb strs (vram (foldl putc s0 out)).
Proof.
  intros Hcb Hoff Hc He Hstr Hargs Hex.
  destruct (printf_loop_tracks cb strs (vram s0) Hcb Hoff Hstr None fmt args s s0 out)
    as (s' & H & _ & He' & _); [|done|done|].
  - split_and!; [done|done|apply same_outside_refl].
  - exists s'. unfold printf. rewrite H. split_and!; [done|done|by apply foldl_putc_cursor|].
    intros a l Hal. destruct (Hstr a l Hal) as (G1 & G2 & G3 & G4 & G5). split_and!; try done.
    eapply is_cstr_ext; [|exact G1]. intros i Hi. unfold in_space, off_screen in *.
    apply foldl_putc_outside; [done|unfold addr; lia|lia].
Qed.

(** Evaluate the expansion of a literal format. *)
Ltac expand_fmt :=
  match goal with |- expand _ _ ?fmt _ = _ =>
    let r := eval vm_compute in fmt in change fmt with r end;
  cbn [expand Z.eqb Pos.eqb].

(** A format that ends in the middle of a conversion runs past its
    terminator. *)
Lemma printf_dangling cb fmt args s :
  Forall (fun c => c <> 37) fmt -> printf cb (fmt ++ [37]) args s = Fault.
Proof.
  intros Hf. unfold printf.
  assert (H : printf_loop cb None (fmt ++ [37]) args s = Fault); [|by rewrite H].
  revert s. induction Hf as [|c fmt Hc Hf IH]; intros s; cbn; [done|].
  destruct (Z.eqb_spec c 37); [done|]. apply IH.
Qed.

(** *** Witnesses *)

Definition demo_screen : screen :=
  Screen (store_list ∅ 1000 [115; 104; 101; 108; 108; 0]) 78 24.
Definition demo_strs (a : Z) : option (list Z) :=
  if a =? 1000 then Some [115; 104; 101; 108; 108] else None.

Lemma putc_refines_witness :
  scr_shows (putc demo_screen 65) (tty_putc (tty_of demo_screen) 65) /\
  in_grid (screen_x (putc demo_screen 65)) (screen_y (putc demo_screen 65)) /\
  same_outside VIDEO (VIDEO + 4000) (vram demo_screen) (vram (putc demo_screen 65)).
Proof.
  apply (putc_refines demo_screen (tty_of demo_screen) 65); [lia|].
  apply tty_of_shows. unfold scr_cursor, cursor_ok, in_grid; cbn. lia.
Defined.

(** [printf("%s=%#x\n", 1000, 0xBEEF)] *)
Lemma printf_correct_witness :
  exists s', printf 2000 [37; 115; 61; 37; 35; 120; 10] [1000; 48879] demo_screen = Ok (7, s') /\
    scr_eq (fun a => ~ (2000 <= a < 2064)) s'
      (foldl putc demo_screen [115; 104; 101; 108; 108; 61; 48; 48; 48; 48; 66; 69; 69; 70; 10]).
Proof.
  apply (printf_correct 2000 demo_strs [37; 115; 61; 37; 35; 120; 10] [1000; 48879]).
  - unfold in_space; lia.
  - unfold off_screen, VIDEO; lia.
  - intros a l. unfold demo_strs. destruct (Z.eqb_spec a 1000) as [->|]; [|done].
    intros [= <-]. unfold in_space, off_screen, VIDEO. split_and!; cbn; try lia.
    apply is_cstr_dec. vm_compute. reflexivity.
  - unfold scr_cursor, cursor_ok, in_grid; cbn. lia.
  - repeat constructor; lia.
  - vm_compute. reflexivity.
Defined.
