(* ===== verification/Ports.v ===== *)
(** * lib.h: port I/O and the interrupt flag

    The hardware is not part of the sources: it is a parameter, a [Device]
    whose answers to [inb] are a function of the port operations made so far.
    The kernel's side is the list of those operations, newest first, which
    [outb], [inb], [cli] and [sti] extend. *)

From S2P Require Import Prelude.

Inductive io : Type :=
| Out (port val : Z)
| In (port val : Z)
| Cli
| Sti.

#[export] Instance io_eq_dec : EqDecision io.
Proof. solve_decision. Defined.

Abbreviation trace := (list io).

(** The machine behind the ports. *)
Class Device : Type := device_in : trace -> Z -> Z.

Definition outb (data port : Z) (tr : trace) : trace := Out port (u8 data) :: tr.
Definition inb `{Device} (port : Z) (tr : trace) : Z * trace :=
  let v := u8 (device_in tr port) in (v, In port v :: tr).
Definition cli (tr : trace) : trace := Cli :: tr.
Definition sti (tr : trace) : trace := Sti :: tr.

(** The interrupt flag the operations leave, from [i] before them. *)
Fixpoint if_flag (i : bool) (tr : trace) : bool :=
  match tr with
  | [] => i
  | Cli :: _ => false
  | Sti :: _ => true
  | _ :: tr => if_flag i tr
  end.

(** The port writes of a trace, oldest first. *)
Fixpoint outs (tr : trace) : list (Z * Z) :=
  match tr with
  | [] => []
  | Out p v :: tr => outs tr ++ [(p, v)]
  | _ :: tr => outs tr
  end.

(** [masked_between tr]: every port access of [tr] is made with interrupts
    disabled, given that they are [i] at its start. *)
Fixpoint critical (i : bool) (tr : trace) : bool :=
  match tr with
  | [] => true
  | (Out _ _ | In _ _) :: tr => negb (if_flag i tr) && critical i tr
  | _ :: tr => critical i tr
  end.

(** A port write that touches neither port of a list. *)
Definition writes_to (ps : list Z) (e : io) : bool :=
  match e with Out p _ => bool_decide (p ∈ ps) | _ => false end.
