(* ===== verification/I8259.v ===== *)
(** * i8259.c: the interrupt controllers

    [enable_irq], [disable_irq], [send_eoi] and [i8259_init] over the I/O
    trace, with the cached masks [master_mask], [slave_mask].  What the driver
    relies on of the two 8259A chips is the class [PicLaws]; [pic_sim] is a
    device that satisfies it. *)

From S2P Require Import Prelude Ports.

Definition MASTER_8259_PORT : Z := 32.
Definition MASTER_8259_DATA : Z := 33.
Definition SLAVE_8259_PORT : Z := 160.
Definition SLAVE_8259_DATA : Z := 161.
Definition ICW1 : Z := 17.
Definition ICW2_MASTER : Z := 32.
Definition ICW2_SLAVE : Z := 40.
Definition ICW3_MASTER : Z := 4.
Definition ICW3_SLAVE : Z := 2.
Definition ICW4 : Z := 1.
Definition IRQ_CAS : Z := 2.
Definition IRQ_SLAVE : Z := 8.
Definition EOI : Z := 96.

Record pic : Type := Pic { master_mask : Z; slave_mask : Z }.

Definition i8259_init (tr : trace) : trace :=
  let tr := outb ICW1 MASTER_8259_PORT tr in
  let tr := outb ICW2_MASTER MASTER_8259_DATA tr in
  let tr := outb ICW3_MASTER MASTER_8259_DATA tr in
  let tr := outb ICW4 MASTER_8259_DATA tr in
  let tr := outb ICW1 SLAVE_8259_PORT tr in
  let tr := outb ICW2_SLAVE SLAVE_8259_DATA tr in
  let tr := outb ICW3_SLAVE SLAVE_8259_DATA tr in
  outb ICW4 SLAVE_8259_DATA tr.

Section Driver.
Context `{Device}.

Definition enable_irq (irq_num : Z) (p : pic) (tr : trace) : pic * trace :=
  if IRQ_SLAVE <=? irq_num then
    let '(v, tr) := inb SLAVE_8259_DATA tr in
    let mask := u8 (Z.land v (Z.lnot (Z.shiftl 1 (irq_num - IRQ_SLAVE)))) in
    (Pic (master_mask p) mask, outb mask SLAVE_8259_DATA tr)
  else
    let '(v, tr) := inb MASTER_8259_DATA tr in
    let mask := u8 (Z.land v (Z.lnot (Z.shiftl 1 irq_num))) in
    (Pic mask (slave_mask p), outb mask MASTER_8259_DATA tr).

Definition disable_irq (irq_num : Z) (p : pic) (tr : trace) : pic * trace :=
  if IRQ_SLAVE <=? irq_num then
    let '(v, tr) := inb SLAVE_8259_DATA tr in
    let mask := u8 (Z.lor v (Z.shiftl 1 (irq_num - IRQ_SLAVE))) in
    (Pic (master_mask p) mask, outb mask SLAVE_8259_DATA tr)
  else
    let '(v, tr) := inb MASTER_8259_DATA tr in
    let mask := u8 (Z.lor v (Z.shiftl 1 irq_num)) in
    (Pic mask (slave_mask p), outb mask MASTER_8259_DATA tr).
End Driver.

(** The recursion goes one level deep, to the cascade line of the master;
    [fuel] 2 is enough ([send_eoi_fuel]). *)
Fixpoint send_eoi_rec (fuel : nat) (irq_num : Z) (tr : trace) : option trace :=
  match fuel with
  | O => None
  | S fuel =>
    if IRQ_SLAVE <=? irq_num then
      let tr := outb (Z.lor EOI (irq_num - IRQ_SLAVE)) SLAVE_8259_PORT tr in
      send_eoi_rec fuel IRQ_CAS tr
    else Some (outb (Z.lor EOI irq_num) MASTER_8259_PORT tr)
  end.
Definition send_eoi (irq_num : Z) (tr : trace) : trace :=
  default tr (send_eoi_rec 2 irq_num tr).

(** ** What the driver relies on of the chips *)

(** [imr b tr]: the interrupt mask register of the slave ([b]) or the master.
    [ready b tr]: no initialisation sequence is under way.  ICW1 clears the
    register and starts the sequence, three more words end it (cascade mode,
    IC4 set); a data write outside a sequence is OCW1 and sets the register;
    reading the data port returns it; a command write with bit 4 clear (an
    end of interrupt) and the other ports leave it alone. *)
Definition pic_cmd (b : bool) : Z := if b then SLAVE_8259_PORT else MASTER_8259_PORT.
Definition pic_data (b : bool) : Z := if b then SLAVE_8259_DATA else MASTER_8259_DATA.

Class PicLaws `(Device) : Type := {
  imr : bool -> trace -> Z;
  ready : bool -> trace -> Prop;
  imr_range b tr : 0 <= imr b tr < 256;
  imr_read b tr : ready b tr -> device_in tr (pic_data b) = imr b tr;
  imr_icw b tr w2 w3 w4 :
    let tr' := Out (pic_data b) w4 :: Out (pic_data b) w3 :: Out (pic_data b) w2
                 :: Out (pic_cmd b) ICW1 :: tr in
    ready b tr' /\ imr b tr' = 0;
  imr_ocw1 b tr v : ready b tr ->
    ready b (Out (pic_data b) v :: tr) /\ imr b (Out (pic_data b) v :: tr) = u8 v;
  imr_other b tr e : ready b tr -> writes_to [pic_cmd b; pic_data b] e = false ->
    ready b (e :: tr) /\ imr b (e :: tr) = imr b tr;
  imr_ocw2 b tr v : ready b tr -> Z.testbit v 4 = false ->
    ready b (Out (pic_cmd b) v :: tr) /\ imr b (Out (pic_cmd b) v :: tr) = imr b tr;
}.

(** Line [n] (0..15) is masked. *)
Definition slave_line (n : Z) : bool := IRQ_SLAVE <=? n.
Definition line_bit (n : Z) : Z := if slave_line n then n - IRQ_SLAVE else n.

Section Laws.
Context `{L : PicLaws}.

Definition irq_masked (n : Z) (tr : trace) : bool :=
  Z.testbit (imr (slave_line n) tr) (line_bit n).
Definition pics_ready (tr : trace) : Prop := ready false tr /\ ready true tr.

Lemma data_other b b' v : b <> b' ->
  writes_to [pic_cmd b; pic_data b] (Out (pic_data b') v) = false.
Proof. by destruct b, b'. Qed.
Lemma cmd_other b b' v : b <> b' ->
  writes_to [pic_cmd b; pic_data b] (Out (pic_cmd b') v) = false.
Proof. by destruct b, b'. Qed.

(** The read-modify-write both functions make. *)
Lemma set_mask_imr b f tr b' :
  pics_ready tr ->
  let v := u8 (device_in tr (pic_data b)) in
  let tr' := outb (u8 (f v)) (pic_data b) (In (pic_data b) v :: tr) in
  pics_ready tr' /\
  imr b' tr' = if bool_decide (b = b') then u8 (f (imr b tr)) else imr b' tr.
Proof.
  intros [Hm Hs]. cbn zeta.
  assert (Hr : forall b, ready b tr) by (by intros []).
  assert (Hin : forall b0, ready b0 (In (pic_data b) (u8 (device_in tr (pic_data b))) :: tr) /\
    imr b0 (In (pic_data b) (u8 (device_in tr (pic_data b))) :: tr) = imr b0 tr).
  { intros b0. by apply imr_other. }
  rewrite (imr_read b) in * by done. rewrite (u8_small (imr b tr)) in * by apply imr_range.
  unfold outb. rewrite u8_u8.
  assert (Hout : forall b0, ready b0 (Out (pic_data b) (u8 (f (imr b tr))) :: In (pic_data b) (imr b tr) :: tr) /\
    imr b0 (Out (pic_data b) (u8 (f (imr b tr))) :: In (pic_data b) (imr b tr) :: tr) =
    if bool_decide (b = b0) then u8 (f (imr b tr)) else imr b0 tr).
  { intros b0. destruct (Hin b0) as [H1 H2]. case_bool_decide as Hb.
    - subst b0. destruct (imr_ocw1 b _ (u8 (f (imr b tr))) H1) as [G1 G2].
      split; [done|]. by rewrite G2, u8_u8.
    - destruct (imr_other b0 _ (Out (pic_data b) (u8 (f (imr b tr)))) H1) as [G1 G2];
        [by apply data_other|]. by rewrite G2. }
  split; [split; apply Hout|apply Hout].
Qed.

Lemma testbit_u8 z k : 0 <= k < 8 -> Z.testbit (u8 z) k = Z.testbit z k.
Proof. intros Hk. unfold u8. change 256 with (2 ^ 8). by rewrite Z.mod_pow2_bits_low by lia. Qed.
Lemma testbit_clear v k j :
  0 <= k -> 0 <= j -> Z.testbit (Z.land v (Z.lnot (Z.shiftl 1 k))) j =
  if k =? j then false else Z.testbit v j.
Proof.
  intros Hk Hj. rewrite Z.land_spec, Z.lnot_spec, Z.shiftl_1_l, Z.pow2_bits_eqb by lia.
  destruct (k =? j); cbn; by rewrite ?andb_false_r, ?andb_true_r.
Qed.
Lemma testbit_set v k j :
  0 <= k -> 0 <= j -> Z.testbit (Z.lor v (Z.shiftl 1 k)) j =
  if k =? j then true else Z.testbit v j.
Proof.
  intros Hk Hj. rewrite Z.lor_spec, Z.shiftl_1_l, Z.pow2_bits_eqb by lia.
  destruct (k =? j); cbn; by rewrite ?orb_false_r, ?orb_true_r.
Qed.

Lemma set_line (en : bool) n n' p tr :
  0 <= n < 16 -> 0 <= n' < 16 -> pics_ready tr ->
  let tr' := snd (if en then enable_irq n p tr else disable_irq n p tr) in
  pics_ready tr' /\
  irq_masked n' tr' = if n =? n' then negb en else irq_masked n' tr.
Proof.
  intros Hn Hn' Hr. cbn zeta.
  set (f := fun v => if en then Z.land v (Z.lnot (Z.shiftl 1 (line_bit n)))
                     else Z.lor v (Z.shiftl 1 (line_bit n))).
  assert (Htr : snd (if en then enable_irq n p tr else disable_irq n p tr) =
    outb (u8 (f (u8 (device_in tr (pic_data (slave_line n))))))
         (pic_data (slave_line n))
         (In (pic_data (slave_line n)) (u8 (device_in tr (pic_data (slave_line n)))) :: tr)).
  { unfold enable_irq, disable_irq, inb, f, line_bit, slave_line.
    by destruct en, (IRQ_SLAVE <=? n). }
  rewrite Htr.
  destruct (set_mask_imr (slave_line n) f tr (slave_line n') Hr) as [H1 H2].
  cbn zeta in *. split; [done|]. unfold irq_masked. rewrite H2.
  assert (Hb : forall k, 0 <= k < 16 -> 0 <= line_bit k < 8).
  { intros k Hk. unfold line_bit, slave_line, IRQ_SLAVE. destruct (Z.leb_spec 8 k); lia. }
  pose proof (Hb n Hn). pose proof (Hb n' Hn').
  case_bool_decide as He.
  - rewrite testbit_u8 by done. unfold f. rewrite He.
    assert (Hkk : (line_bit n =? line_bit n') = (n =? n')).
    { unfold line_bit, slave_line, IRQ_SLAVE in *.
      destruct (Z.leb_spec 8 n), (Z.leb_spec 8 n'); try done;
        destruct (Z.eqb_spec n n');
        repeat match goal with |- context [?x =? ?y] => destruct (Z.eqb_spec x y) end;
        lia || done. }
    destruct en; rewrite ?testbit_clear, ?testbit_set by lia; by rewrite Hkk.
  - destruct (Z.eqb_spec n n') as [->|]; [done|]. done.
Qed.

(** The registers of the two chips are [m] and [s]. *)
Definition masks (m s : Z) (tr : trace) : Prop :=
  pics_ready tr /\ imr false tr = m /\ imr true tr = s.

Lemma masks_other m s e tr : masks m s tr ->
  writes_to [MASTER_8259_PORT; MASTER_8259_DATA; SLAVE_8259_PORT; SLAVE_8259_DATA] e = false ->
  masks m s (e :: tr).
Proof.
  intros ([Hm Hs] & <- & <-) He.
  assert (Ho : forall b, writes_to [pic_cmd b; pic_data b] e = false).
  { intros b. destruct e as [p v|p v| |]; try done. cbn in *. rewrite !bool_decide_eq_false in *.
    destruct b; cbn [pic_cmd pic_data]; set_solver. }
  destruct (imr_other false tr e Hm (Ho _)) as [M1 M2], (imr_other true tr e Hs (Ho _)) as [S1 S2].
  by split_and!.
Qed.

(** The initialisation clears both registers: no line is masked. *)
Lemma masks_init tr : masks 0 0 (i8259_init tr).
Proof.
  unfold i8259_init, outb.
  set (t := Out MASTER_8259_DATA (u8 ICW4) :: _ :: _ :: _ :: tr).
  destruct (imr_icw false tr (u8 ICW2_MASTER) (u8 ICW3_MASTER) (u8 ICW4)) as [M1 M2].
  destruct (imr_icw true t (u8 ICW2_SLAVE) (u8 ICW3_SLAVE) (u8 ICW4)) as [S1 S2].
  change (pic_data false) with MASTER_8259_DATA in *. change (pic_cmd false) with MASTER_8259_PORT in *.
  assert (E : forall t0 p v, ready false t0 /\ imr false t0 = 0 -> p = SLAVE_8259_PORT \/ p = SLAVE_8259_DATA ->
    ready false (Out p v :: t0) /\ imr false (Out p v :: t0) = 0).
  { intros t0 p v [R I] Hp. destruct (imr_other false t0 (Out p v) R) as [R' I']; [by destruct Hp; subst|].
    by rewrite I'. }
  split_and!; [split|..]; try done; (eapply E; [|by right]); (eapply E; [|by right]); (eapply E; [|by right]);
    (eapply E; [|by left]); by split.
Qed.

(** One line enabled or disabled: its bit of its chip's register, by one write. *)
Lemma masks_line (en : bool) n p m s tr :
  masks m s tr ->
  let f v := u8 (if en then Z.land v (Z.lnot (Z.shiftl 1 (line_bit n))) else Z.lor v (Z.shiftl 1 (line_bit n))) in
  let r := if en then enable_irq n p tr else disable_irq n p tr in
  let sl := slave_line n in
  masks (if sl then m else f m) (if sl then f s else s) (snd r) /\
  outs (snd r) = outs tr ++ [(pic_data sl, if sl then f s else f m)] /\
  exists v, snd r = Out (pic_data sl) v :: In (pic_data sl) (if sl then s else m) :: tr.
Proof.
  intros ([Hm Hs] & Em & Es) f r sl.
  assert (Hv : u8 (device_in tr (pic_data sl)) = if sl then s else m).
  { rewrite imr_read by (by destruct sl). rewrite u8_small by apply imr_range. by destruct sl. }
  assert (Er : snd r = Out (pic_data sl) (f (if sl then s else m)) :: In (pic_data sl) (if sl then s else m) :: tr).
  { rewrite <- Hv. unfold r, f, sl, line_bit, slave_line, enable_irq, disable_irq, inb, outb in *.
    destruct en, (IRQ_SLAVE <=? n); cbn [snd pic_data]; by rewrite u8_u8. }
  assert (Ef : forall v, 0 <= f v < 256) by (intros v; apply u8_range).
  set (e := In (pic_data sl) _) in Er.
  assert (R : forall b, ready b (e :: tr) /\ imr b (e :: tr) = imr b tr).
  { intros b. apply imr_other; [by destruct b|done]. }
  rewrite Er. split; [|split; [|by eexists]].
  - clearbody f. clear Er Hv r. unfold masks. clearbody e.
    destruct (imr_ocw1 sl _ (f (if sl then s else m)) (proj1 (R sl))) as [A1 A2].
    destruct (imr_other (negb sl) _ (Out (pic_data sl) (f (if sl then s else m))) (proj1 (R (negb sl)))) as [B1 B2];
      [by destruct sl|]. rewrite (u8_small _ (Ef _)) in A2. rewrite (proj2 (R _)) in B2.
    clearbody sl. destruct sl; cbn [negb] in *; rewrite A2, B2; by split_and!.
  - cbn [outs]. by destruct sl.
Qed.

Lemma masks_unmasked n tr : 0 <= n < 16 -> masks 0 0 tr -> irq_masked n tr = false.
Proof. intros Hn (_ & M & S). unfold irq_masked. destruct (slave_line n); rewrite ?M, ?S; apply Z.bits_0. Qed.
End Laws.

(** ** End of interrupt *)

Lemma send_eoi_fuel n irq_num tr :
  (2 <= n)%nat -> send_eoi_rec n irq_num tr = Some (send_eoi irq_num tr).
Proof.
  intros Hn. destruct n as [|[|n]]; [lia|lia|]. unfold send_eoi. cbn [send_eoi_rec].
  by destruct (IRQ_SLAVE <=? irq_num).
Qed.

Lemma lor_eoi k : 0 <= k < 8 -> Z.lor EOI k = EOI + k.
Proof.
  intros Hk. assert (k = 0 \/ k = 1 \/ k = 2 \/ k = 3 \/ k = 4 \/ k = 5 \/ k = 6 \/ k = 7)
    as H by lia. by destruct_or! H; subst.
Qed.
Lemma eoi_not_icw k : 0 <= k < 8 -> Z.testbit (EOI + k) 4 = false.
Proof.
  intros Hk. assert (k = 0 \/ k = 1 \/ k = 2 \/ k = 3 \/ k = 4 \/ k = 5 \/ k = 6 \/ k = 7)
    as H by lia. by destruct_or! H; subst.
Qed.

(** The two writes of a slave line, the one of a master line. *)
Lemma send_eoi_trace irq_num tr :
  0 <= irq_num < 16 ->
  send_eoi irq_num tr =
  if slave_line irq_num
  then Out MASTER_8259_PORT (EOI + 2) :: Out SLAVE_8259_PORT (EOI + line_bit irq_num) :: tr
  else Out MASTER_8259_PORT (EOI + line_bit irq_num) :: tr.
Proof.
  intros Hn. unfold send_eoi, line_bit, slave_line, IRQ_SLAVE. cbn [send_eoi_rec].
  unfold IRQ_SLAVE. destruct (Z.leb_spec 8 irq_num); unfold outb.
  - change (8 <=? IRQ_CAS) with false. cbn match. cbn [default].
    rewrite !lor_eoi by (unfold IRQ_CAS; lia). unfold EOI, IRQ_CAS.
    by rewrite !u8_small by lia.
  - cbn [default]. rewrite lor_eoi by lia. unfold EOI. by rewrite u8_small by lia.
Qed.

Section EoiLaws.
Context `{L : PicLaws}.
Lemma eoi_write b b' k tr :
  0 <= k < 8 -> ready b tr ->
  ready b (Out (pic_cmd b') (EOI + k) :: tr) /\
  imr b (Out (pic_cmd b') (EOI + k) :: tr) = imr b tr.
Proof.
  intros Hk Hr. destruct (decide (b = b')) as [->|Hne].
  - apply imr_ocw2; [done|by apply eoi_not_icw].
  - apply imr_other; [done|by apply cmd_other].
Qed.
Lemma send_eoi_masks irq_num tr b :
  0 <= irq_num < 16 -> ready b tr ->
  ready b (send_eoi irq_num tr) /\ imr b (send_eoi irq_num tr) = imr b tr.
Proof.
  intros Hn Hr. rewrite send_eoi_trace by done. unfold line_bit, slave_line, IRQ_SLAVE.
  destruct (Z.leb_spec 8 irq_num).
  - destruct (eoi_write b true (irq_num - 8) tr ltac:(lia) Hr) as [H1 H2].
    destruct (eoi_write b false 2 _ ltac:(lia) H1) as [H3 H4].
    split; [exact H3|]. rewrite <- H2. exact H4.
  - apply (eoi_write b false irq_num tr); [lia|done].
Qed.
End EoiLaws.

(** ** Properties *)

(** [enable_irq]/[disable_irq]: on chips that are initialised, line [n]
    becomes unmasked (masked), every other of the sixteen lines keeps its
    state, and the cached mask of the chip that was written is its register. *)
Theorem irq_line_correct `{L : PicLaws} (en : bool) (n n' : Z) (p : pic) (tr : trace) :
  0 <= n < 16 -> 0 <= n' < 16 -> pics_ready tr ->
  let '(p', tr') := if en then enable_irq n p tr else disable_irq n p tr in
  pics_ready tr' /\
  irq_masked n' tr' = (if n =? n' then negb en else irq_masked n' tr) /\
  (if slave_line n then slave_mask p' else master_mask p') = imr (slave_line n) tr' /\
  (if slave_line n then master_mask p' = master_mask p else slave_mask p' = slave_mask p).
Proof.
  intros Hn Hn' Hr. pose proof (set_line en n n' p tr Hn Hn' Hr) as [H1 H2].
  destruct (if en then _ else _) as [p' tr'] eqn:E. cbn [snd] in *.
  split_and!; [done|done| |].
  - assert (Hb : exists f, tr' = outb (u8 (f (u8 (device_in tr (pic_data (slave_line n))))))
      (pic_data (slave_line n))
      (In (pic_data (slave_line n)) (u8 (device_in tr (pic_data (slave_line n)))) :: tr) /\
      (if slave_line n then slave_mask p' else master_mask p') =
      u8 (f (u8 (device_in tr (pic_data (slave_line n)))))).
    { unfold enable_irq, disable_irq, inb, slave_line in *. destruct en.
      - exists (fun v => Z.land v (Z.lnot (Z.shiftl 1 (line_bit n)))).
        unfold line_bit, slave_line in *. destruct (IRQ_SLAVE <=? n); injection E as <- <-; done.
      - exists (fun v => Z.lor v (Z.shiftl 1 (line_bit n))).
        unfold line_bit, slave_line in *. destruct (IRQ_SLAVE <=? n); injection E as <- <-; done. }
    destruct Hb as (f & -> & ->).
    destruct (set_mask_imr (slave_line n) f tr (slave_line n) Hr) as [_ H3]. cbn zeta in H3.
    rewrite H3, bool_decide_eq_true_2 by done. f_equal. f_equal.
    destruct Hr. rewrite imr_read by (by destruct (slave_line n)).
    apply u8_small, imr_range.
  - unfold enable_irq, disable_irq, inb, slave_line in *.
    destruct en, (IRQ_SLAVE <=? n); injection E as <- <-; done.
Qed.

(** [send_eoi] terminates (its recursion is at most one level deep), sends
    the specific end of interrupt of the line, for a slave line to the slave
    and then for the cascade line 2 to the master, and unmasks nothing. *)
Theorem send_eoi_correct `{L : PicLaws} (irq_num n' : Z) (tr : trace) (fuel : nat) :
  0 <= irq_num < 16 -> 0 <= n' < 16 -> (2 <= fuel)%nat -> pics_ready tr ->
  send_eoi_rec fuel irq_num tr = Some (send_eoi irq_num tr) /\
  outs (send_eoi irq_num tr) = outs tr ++
    (if irq_num <? 8 then [(32, 96 + irq_num)] else [(160, 96 + (irq_num - 8)); (32, 98)]) /\
  pics_ready (send_eoi irq_num tr) /\
  irq_masked n' (send_eoi irq_num tr) = irq_masked n' tr.
Proof.
  intros Hn Hn' Hf [Hm Hs]. split_and!.
  - by apply send_eoi_fuel.
  - rewrite send_eoi_trace by done. unfold slave_line, line_bit, slave_line, IRQ_SLAVE.
    destruct (Z.leb_spec 8 irq_num), (Z.ltb_spec irq_num 8); try lia; cbn [outs].
    + by rewrite <- app_assoc.
    + done.
  - split; by apply send_eoi_masks.
  - unfold irq_masked. assert (Hr : ready (slave_line n') tr) by (by destruct (slave_line n')).
    by rewrite (proj2 (send_eoi_masks irq_num tr _ Hn Hr)).
Qed.

(** ** A device with the 8259A's behaviour *)

Fixpoint pic_state (b : bool) (tr : trace) : nat * Z :=
  match tr with
  | [] => (O, 255)
  | Out p v :: tr =>
    let '(k, m) := pic_state b tr in
    if p =? pic_cmd b then if Z.testbit v 4 then (3%nat, 0) else (k, m)
    else if p =? pic_data b then match k with O => (O, u8 v) | S k => (k, m) end
    else (k, m)
  | _ :: tr => pic_state b tr
  end.

Definition pic_sim : Device := fun tr p =>
  if p =? MASTER_8259_DATA then snd (pic_state false tr)
  else if p =? SLAVE_8259_DATA then snd (pic_state true tr)
  else 0.

Lemma pic_state_range b tr : 0 <= snd (pic_state b tr) < 256.
Proof.
  induction tr as [|[p v|p v| |] tr IH]; cbn [pic_state]; try done.
  destruct (pic_state b tr) as [k m]. repeat case_match; cbn in *; try lia.
  apply u8_range.
Qed.

(** Any device that answers so at the two data ports obeys the laws. *)
Section Sim.
Context (D : Device).
Hypothesis HD : forall b tr, D tr (pic_data b) = snd (pic_state b tr).
Program Definition pic_sim_of : PicLaws D := {|
  imr b tr := snd (pic_state b tr);
  ready b tr := fst (pic_state b tr) = O
|}.
Next Obligation. intros. apply pic_state_range. Qed.
Next Obligation. intros b tr _. apply HD. Qed.
Next Obligation.
  intros b tr w2 w3 w4. cbn zeta. cbn [pic_state].
  destruct (pic_state b tr) as [k m]. by destruct b.
Qed.
Next Obligation.
  intros b tr v Hr. cbn beta in Hr. cbn [pic_state].
  destruct (pic_state b tr) as [k m]. cbn in Hr. subst k. by destruct b.
Qed.
Next Obligation.
  intros b tr e Hr He. cbn beta in Hr. destruct e as [p v|p v| |]; cbn [pic_state]; try done.
  cbn in He. apply bool_decide_eq_false in He. rewrite !elem_of_cons in He.
  destruct (pic_state b tr) as [k m].
  destruct (Z.eqb_spec p (pic_cmd b)); [tauto|].
  destruct (Z.eqb_spec p (pic_data b)); [tauto|]. done.
Qed.
Next Obligation.
  intros b tr v Hr Hv. cbn beta in Hr. cbn [pic_state]. destruct (pic_state b tr) as [k m].
  rewrite Z.eqb_refl, Hv. done.
Qed.
End Sim.

#[export] Instance pic_sim_laws : PicLaws pic_sim.
Proof. apply pic_sim_of. by intros []. Defined.

#[local] Existing Instance pic_sim.
Definition pic_boot : trace := i8259_init [].
Lemma pic_boot_ready : pics_ready pic_boot.
Proof. by split. Qed.

Lemma irq_line_correct_witness :
  let '(p', tr') := disable_irq 11 (Pic 0 0) pic_boot in
  pics_ready tr' /\ irq_masked 11 tr' = true.
Proof.
  pose proof (irq_line_correct false 11 11 (Pic 0 0) pic_boot ltac:(lia) ltac:(lia)
                pic_boot_ready) as H.
  destruct (disable_irq 11 (Pic 0 0) pic_boot) as [p' tr']. by destruct H as (H1 & H2 & _).
Defined.
Lemma send_eoi_correct_witness :
  outs (send_eoi 8 pic_boot) = outs pic_boot ++ [(160, 96); (32, 98)] /\
  pics_ready (send_eoi 8 pic_boot).
Proof.
  destruct (send_eoi_correct 8 3 pic_boot 5 ltac:(lia) ltac:(lia) ltac:(lia) pic_boot_ready)
    as (_ & H1 & H2 & _). by split.
Defined.
