(* ===== verification/Rtc.v ===== *)
(** * rtc.c (and [rtc_handler] of idt.c): the real-time clock

    The driver's globals, its register accesses over the I/O trace, and the
    wait of [rtc_read] as an explicit interleaving with interrupts.  The CMOS
    register file is the class [RtcLaws]; [cmos_sim] satisfies it. *)

From S2P Require Import Prelude Mem Ports.

Definition REG_A : Z := 10.
Definition REG_B : Z := 11.
Definition REG_C : Z := 12.
Definition RTC_INDEX : Z := 112.
Definition RTC_DATA : Z := 113.
Definition BITMASK6 : Z := 64.
Definition SHIFT_FOR_2HZ : Z := 15.
Definition MAX_FREQ : Z := 1024.

Record rtc : Type := Rtc {
  RTC_READ : Z; rtc_count : Z; rtc_freq : Z; rtc_test_flag : Z }.

(** The [switch] of [rtc_write]; [None] is its [default:]. *)
Definition rtc_rate (freq : Z) : option Z :=
  if freq =? 1024 then Some 6
  else if freq =? 512 then Some 7
  else if freq =? 256 then Some 8
  else if freq =? 128 then Some 9
  else if freq =? 64 then Some 10
  else if freq =? 32 then Some 11
  else if freq =? 16 then Some 12
  else if freq =? 8 then Some 13
  else if freq =? 4 then Some 14
  else if freq =? 2 then Some 15
  else if freq =? 0 then Some 0
  else None.

Section Driver.
Context `{Device}.

Definition rtc_init (r : rtc) (tr : trace) : rtc * trace :=
  let tr := cli tr in
  let tr := outb REG_B RTC_INDEX tr in
  let '(prev, tr) := inb RTC_DATA tr in
  let tr := outb REG_B RTC_INDEX tr in
  let tr := outb (Z.lor (s8 prev) BITMASK6) RTC_DATA tr in
  let tr := sti tr in
  (Rtc (RTC_READ r) 0 2 0, tr).

(** The critical section [rtc_write] and [rtc_open] share. *)
Definition set_rate (rate : Z) (tr : trace) : trace :=
  let tr := cli tr in
  let tr := outb REG_A RTC_INDEX tr in
  let '(prev, tr) := inb RTC_DATA tr in
  let tr := outb REG_A RTC_INDEX tr in
  let tr := outb (Z.lor (Z.land (s8 prev) BITMASK6) rate) RTC_DATA tr in
  sti tr.

(** [rtc_write] once [freq] is read. *)
Definition rtc_write_freq (freq : Z) (tr : trace) : Z * trace :=
  if MAX_FREQ <? freq then (-1, tr)
  else match rtc_rate freq with
       | None => (-1, tr)
       | Some rate => (0, set_rate rate tr)
       end.

(** [freq] is only assigned when [buf] is not NULL; [freq0] is the value the
    uninitialised local has otherwise. *)
Definition rtc_write (freq0 : Z) (m : mem) (buf : Z) (tr : trace) : Z * trace :=
  rtc_write_freq (if buf =? 0 then freq0 else load32 m buf) tr.

Definition rtc_open (tr : trace) : Z * trace := (0, set_rate SHIFT_FOR_2HZ tr).
Definition rtc_close : Z := 0.

Definition clear_rtc_read (r : rtc) (tr : trace) : rtc * trace :=
  let r := Rtc 0 (rtc_count r) (rtc_freq r) (rtc_test_flag r) in
  if negb (rtc_test_flag r =? 0) then
    if ((rtc_count r =? 10) || (rtc_count r =? 30) || (rtc_count r =? 70)
        || (rtc_count r =? 100) || (rtc_count r =? 200)) && (rtc_freq r <? 1024) then
      let freq := u32 (rtc_freq r * 2) in
      let '(_, tr) := rtc_write_freq freq tr in
      (Rtc 0 (rtc_count r) freq (rtc_test_flag r), tr)
    else (r, tr)
  else (r, tr).

Definition rtc_set_flag (r : rtc) : rtc :=
  Rtc (RTC_READ r) (rtc_count r) (rtc_freq r) 1.

Definition rtc_handler (r : rtc) (tr : trace) : rtc * trace :=
  let '(r, tr) := clear_rtc_read r tr in
  let tr := outb REG_C RTC_INDEX tr in
  let '(_, tr) := inb RTC_DATA tr in
  (r, tr).

(** [while(RTC_READ){}]: each event is one turn of the loop, [true] when the
    RTC interrupts during it.  [None]: still spinning after the events. *)
Fixpoint rtc_wait (evs : list bool) (r : rtc) (tr : trace)
    : option (rtc * trace * list bool) :=
  if RTC_READ r =? 0 then Some (r, tr, evs)
  else match evs with
       | [] => None
       | false :: evs => rtc_wait evs r tr
       | true :: evs => let '(r, tr) := rtc_handler r tr in rtc_wait evs r tr
       end.

Definition rtc_read (evs : list bool) (r : rtc) (tr : trace)
    : option (Z * rtc * trace * list bool) :=
  let r := Rtc 1 (rtc_count r) (rtc_freq r) (rtc_test_flag r) in
  '(r, tr, evs) ← rtc_wait evs r tr; Some (0, r, tr, evs).
End Driver.

(** ** What the driver relies on of the CMOS clock

    Port 0x70 selects a register, port 0x71 accesses it.  Bit 7 of register A
    (update in progress) cannot be written, so only its low seven bits are
    state. *)

Definition reg_mask (r : Z) : Z := if r =? REG_A then 127 else 255.

Class RtcLaws `(Device) : Type := {
  cmos : trace -> Z -> Z;
  selected : trace -> Z;
  sel_write tr r : 0 <= r < 128 -> selected (Out RTC_INDEX r :: tr) = r;
  sel_other tr e : writes_to [RTC_INDEX] e = false -> selected (e :: tr) = selected tr;
  cmos_read tr r : r = REG_A \/ r = REG_B -> selected tr = r ->
    Z.land (device_in tr RTC_DATA) (reg_mask r) = cmos tr r;
  cmos_write tr r r' v : r = REG_A \/ r = REG_B -> selected tr = r ->
    cmos (Out RTC_DATA v :: tr) r' =
    if r' =? r then Z.land v (reg_mask r) else cmos tr r';
  cmos_other tr e r : writes_to [RTC_DATA] e = false -> cmos (e :: tr) r = cmos tr r;
}.

Section Laws.
Context `{L : RtcLaws}.

(** A select, a read, a select, a write of the selected register. *)
Lemma rmw r r' v tr :
  r = REG_A \/ r = REG_B ->
  let tr1 := Out RTC_INDEX r :: tr in
  let tr' := Sti :: Out RTC_DATA v :: Out RTC_INDEX r :: In RTC_DATA (u8 (device_in tr1 RTC_DATA)) :: tr1 in
  cmos tr' r' = (if r' =? r then Z.land v (reg_mask r) else cmos tr r') /\
  Z.land (u8 (device_in tr1 RTC_DATA)) (reg_mask r) = cmos tr r.
Proof.
  intros Hr. cbn zeta.
  assert (Hrr : 0 <= r < 128) by (destruct Hr as [-> | ->]; unfold REG_A, REG_B; lia).
  split.
  - rewrite cmos_other, (cmos_write _ r) by (rewrite ?sel_write; done).
    destruct (r' =? r); [done|]. by rewrite !cmos_other.
  - rewrite <- land_255, <- Z.land_assoc.
    replace (Z.land 255 (reg_mask r)) with (reg_mask r) by (by destruct Hr; subst).
    rewrite (cmos_read _ r) by (rewrite ?sel_write; done). by rewrite cmos_other.
Qed.

Lemma land_s8_64 z : Z.land (s8 z) BITMASK6 = Z.land (Z.land (u8 z) 127) BITMASK6.
Proof.
  rewrite <- Z.land_assoc. change (Z.land 127 BITMASK6) with (Z.land 255 BITMASK6).
  rewrite Z.land_assoc, land_255, u8_u8, <- s8_u8, <- land_255, <- Z.land_assoc. done.
Qed.

Lemma set_rate_cmos rate r tr :
  0 <= rate < 64 ->
  cmos (set_rate rate tr) r =
  if r =? REG_A then Z.lor (Z.land (cmos tr REG_A) BITMASK6) rate else cmos tr r.
Proof.
  intros Hrate. unfold set_rate, inb, outb, cli, sti.
  change (u8 REG_A) with REG_A.
  set (tr1 := Out RTC_INDEX REG_A :: Cli :: tr).
  destruct (rmw REG_A r (u8 (Z.lor (Z.land (s8 (u8 (device_in tr1 RTC_DATA))) BITMASK6) rate))
              (Cli :: tr) (or_introl eq_refl)) as [H1 H2].
  cbn zeta in H1, H2. fold tr1 in H1, H2. rewrite H1.
  destruct (Z.eqb_spec r REG_A) as [->|]; [|by rewrite cmos_other].
  change (reg_mask REG_A) with 127 in *.
  rewrite land_s8_64, u8_u8. rewrite H2, cmos_other by done.
  rewrite <- land_255, <- Z.land_assoc. change (Z.land 255 127) with 127.
  rewrite Z.land_lor_distr_l, <- Z.land_assoc. change (Z.land BITMASK6 127) with BITMASK6.
  f_equal. change 127 with (Z.ones 7). rewrite Z.land_ones by lia.
  apply Z.mod_small. lia.
Qed.
End Laws.

Lemma rtc_rate_spec freq rate :
  rtc_rate freq = Some rate ->
  0 <= rate <= 15 /\ (freq = 0 /\ rate = 0 \/
    6 <= rate /\ Z.shiftr 32768 (rate - 1) = freq).
Proof.
  unfold rtc_rate. intros H.
  repeat match type of H with context [?x =? ?y] => destruct (Z.eqb_spec x y) end;
    try done; injection H as <-; subst; (split; [lia|]); vm_compute; intuition congruence.
Qed.
Lemma rtc_rate_None freq :
  rtc_rate freq = None -> forall k, 1 <= k <= 10 -> freq <> 2 ^ k.
Proof.
  unfold rtc_rate. intros H k Hk ->.
  assert (k = 1 \/ k = 2 \/ k = 3 \/ k = 4 \/ k = 5 \/ k = 6 \/ k = 7 \/ k = 8 \/ k = 9
    \/ k = 10) as Hk' by lia.
  by destruct_or! Hk'; subst.
Qed.

(** The four port accesses of [set_rate] are made with interrupts off. *)
Lemma set_rate_critical `{Device} rate tr i :
  critical i tr = true ->
  critical i (set_rate rate tr) = true /\ if_flag i (set_rate rate tr) = true.
Proof. intros Hc. by unfold set_rate, inb, outb, cli, sti. Qed.

Lemma clear_rtc_read_READ `{Device} r tr : RTC_READ (fst (clear_rtc_read r tr)) = 0.
Proof. unfold clear_rtc_read. repeat case_match; done. Qed.

Lemma rtc_handler_READ `{Device} r tr : RTC_READ (fst (rtc_handler r tr)) = 0.
Proof.
  unfold rtc_handler. pose proof (clear_rtc_read_READ r tr) as Hc.
  destruct (clear_rtc_read r tr) as [r' tr']. exact Hc.
Qed.

(** ** Properties *)

(** [rtc_write]: for a frequency 2, 4, ..., 1024 it returns 0 and programs
    register A with the rate whose frequency 32768 >> (rate - 1) is the one
    asked for (rate 0 for frequency 0), under a critical section that ends
    with interrupts enabled; every other frequency is refused with -1 and no
    port access.  Of the old register A only bit 6 survives: the divider bits
    4 and 5 are always cleared. *)
Theorem rtc_write_correct `{L : RtcLaws} (freq0 : Z) (m : mem) (buf : Z) (tr : trace) (i : bool) :
  buf <> 0 -> critical i tr = true ->
  let freq := load32 m buf in
  let '(ret, tr') := rtc_write freq0 m buf tr in
  critical i tr' = true /\
  match rtc_rate freq with
  | Some rate =>
    ret = 0 /\ (freq = 0 \/ Z.shiftr 32768 (rate - 1) = freq) /\ if_flag i tr' = true /\
    cmos tr' REG_A = Z.lor (Z.land (cmos tr REG_A) 64) rate /\
    cmos tr' REG_B = cmos tr REG_B /\
    Z.testbit (cmos tr' REG_A) 5 = false /\ Z.testbit (cmos tr' REG_A) 4 = false
  | None => ret = -1 /\ tr' = tr /\ (forall k, 1 <= k <= 10 -> freq <> 2 ^ k)
  end.
Proof.
  intros Hbuf Hcrit. cbn zeta. unfold rtc_write.
  destruct (Z.eqb_spec buf 0); [done|]. unfold rtc_write_freq.
  pose proof (rtc_rate_spec (load32 m buf)) as Hspec.
  pose proof (rtc_rate_None (load32 m buf)) as Hnone.
  destruct (Z.ltb_spec MAX_FREQ (load32 m buf)) as [Hbig|].
  { assert (Hr : rtc_rate (load32 m buf) = None).
    { unfold rtc_rate, MAX_FREQ in *.
      repeat match goal with |- context [?x =? ?y] => destruct (Z.eqb_spec x y) end; lia || done. }
    rewrite Hr in *. split_and!; auto. }
  destruct (rtc_rate (load32 m buf)) as [rate|].
  - destruct (Hspec rate eq_refl) as [Hr Hf].
    destruct (set_rate_critical rate tr i Hcrit) as [H1 H2].
    rewrite !set_rate_cmos by lia. change (REG_A =? REG_A) with true.
    change (REG_B =? REG_A) with false. cbn match.
    assert (Hbits : forall k, 4 <= k <= 5 ->
      Z.testbit (Z.lor (Z.land (cmos tr REG_A) BITMASK6) rate) k = false).
    { intros k Hk. rewrite Z.lor_spec, Z.land_spec.
      replace (Z.testbit BITMASK6 k) with false by
        (assert (k = 4 \/ k = 5) as [-> | ->] by lia; reflexivity).
      rewrite andb_false_r. cbn.
      rewrite <- (Z.mod_small rate (2 ^ 4)) by (change (2 ^ 4) with 16; lia).
      apply Z.mod_pow2_bits_high. lia. }
    split_and!; [done|done|tauto|done|done|done|apply Hbits; lia..].
  - split_and!; auto.
Qed.

(** [rtc_read] returns exactly when an RTC interrupt arrives: it spins as
    long as there is none, and the first one makes it return 0 with
    [RTC_READ] cleared, leaving the later events. *)
Theorem rtc_read_waits `{Device} (n : nat) (evs : list bool) (r : rtc) (tr : trace) :
  rtc_read (replicate n false) r tr = None /\
  exists r' tr', rtc_read (replicate n false ++ true :: evs) r tr = Some (0, r', tr', evs) /\
    RTC_READ r' = 0.
Proof.
  unfold rtc_read. set (r1 := Rtc 1 _ _ _).
  assert (H1 : RTC_READ r1 = 1) by done. clearbody r1. split.
  - assert (Hw : rtc_wait (replicate n false) r1 tr = None); [|by rewrite Hw].
    induction n as [|n IH]; cbn; by rewrite H1.
  - pose proof (rtc_handler_READ r1 tr) as Hh.
    destruct (rtc_handler r1 tr) as [r' tr'] eqn:E. exists r', tr'. split; [|done].
    assert (Hw : rtc_wait (replicate n false ++ true :: evs) r1 tr = Some (r', tr', evs));
      [|by rewrite Hw].
    induction n as [|n IH]; cbn; rewrite H1; cbn; [|done].
    rewrite E. cbn in Hh. destruct evs; cbn; by rewrite Hh.
Qed.

(** ** A device with the clock's behaviour *)

Fixpoint cmos_state (tr : trace) : Z * (Z -> Z) :=
  match tr with
  | [] => (0, fun r => if r =? REG_A then 38 else 2)
  | Out p v :: tr =>
    let '(s, f) := cmos_state tr in
    if p =? RTC_INDEX then (v, f)
    else if p =? RTC_DATA
         then (s, fun r => if r =? s then Z.land v (reg_mask s) else f r)
    else (s, f)
  | _ :: tr => cmos_state tr
  end.

Definition cmos_sim : Device := fun tr p =>
  if p =? RTC_DATA then Z.land (snd (cmos_state tr) (fst (cmos_state tr)))
                               (reg_mask (fst (cmos_state tr)))
  else 0.

Lemma cmos_state_idem tr r : Z.land (snd (cmos_state tr) r) (reg_mask r) = snd (cmos_state tr) r.
Proof.
  induction tr as [|[p v|p v| |] tr IH]; cbn [cmos_state]; try done.
  - cbn. unfold reg_mask. by destruct (r =? REG_A).
  - destruct (cmos_state tr) as [s f]. repeat case_match; try done. cbn in *.
    destruct (Z.eqb_spec r s) as [->|]; [|done].
    by rewrite <- Z.land_assoc, Z.land_diag.
Qed.

(** Any device that answers so at the data port obeys the laws. *)
Section Sim.
Context (D : Device).
Hypothesis HD : forall tr, D tr RTC_DATA = cmos_sim tr RTC_DATA.
Program Definition cmos_sim_of : RtcLaws D := {|
  cmos tr := snd (cmos_state tr);
  selected tr := fst (cmos_state tr)
|}.
Next Obligation. intros tr r Hr. cbn. by destruct (cmos_state tr). Qed.
Next Obligation.
  intros tr e He. destruct e as [p v|p v| |]; cbn [cmos_state]; try done.
  cbn in He. apply bool_decide_eq_false in He. rewrite elem_of_cons in He.
  destruct (cmos_state tr). destruct (Z.eqb_spec p RTC_INDEX); [tauto|]. by case_match.
Qed.
Next Obligation.
  intros tr r Hr Hs. cbn beta in *. unfold device_in. rewrite HD. unfold cmos_sim.
  change (RTC_DATA =? RTC_DATA) with true. cbn iota. rewrite Hs.
  rewrite <- Z.land_assoc, Z.land_diag. apply cmos_state_idem.
Qed.
Next Obligation.
  intros tr r r' v Hr Hs. cbn beta in *. cbn [cmos_state].
  destruct (cmos_state tr) as [s f]. cbn in *. by subst.
Qed.
Next Obligation.
  intros tr e r He. cbn beta. destruct e as [p v|p v| |]; cbn [cmos_state]; try done.
  cbn in He. apply bool_decide_eq_false in He. rewrite elem_of_cons in He.
  destruct (cmos_state tr). destruct (Z.eqb_spec p RTC_DATA); [tauto|]. by case_match.
Qed.
End Sim.

#[export] Instance cmos_sim_laws : RtcLaws cmos_sim.
Proof. by apply cmos_sim_of. Defined.

Lemma rtc_write_correct_witness :
  let m := store32 ∅ 4096 32 in
  let '(ret, tr') := rtc_write (H := cmos_sim) 0 m 4096 [Sti] in
  ret = 0 /\ cmos tr' REG_A = 11.
Proof.
  pose proof (rtc_write_correct (L := cmos_sim_laws) 0 (store32 ∅ 4096 32) 4096 [Sti] true ltac:(lia) eq_refl) as H.
  cbn zeta in *. destruct (rtc_write _ _ _ _) as [ret tr'].
  replace (load32 (store32 ∅ 4096 32) 4096) with 32 in H by (vm_compute; reflexivity).
  destruct H as (_ & H1 & _ & _ & H2 & _). by split.
Defined.
