(* ===== verification/Pit.v ===== *)
(** * pit.c: the interval timer *)

From S2P Require Import Prelude Ports I8259.

(** A zero frequency divides by zero. *)
Definition pit_init `{Device} (frequency : Z) (p : pic) (tr : trace) : res (pic * trace) :=
  if u32 frequency =? 0 then Fault
  else
    let divisor := 1193180 / u32 frequency in
    let tr := outb 54 67 tr in
    let l := u8 (Z.land divisor 255) in
    let h := u8 (Z.land (Z.shiftr divisor 8) 255) in
    let tr := outb l 64 tr in
    let tr := outb h 64 tr in
    Ok (enable_irq 0 p tr).

(** [pit_init] sends mode word 0x36, then the divisor's low and high byte,
    and unmasks IRQ 0 without touching another line; the two bytes are the
    whole divisor exactly when the frequency is at least 19 (the value the
    kernel uses), below it they are the divisor modulo 2^16. *)
Theorem pit_init_correct `{L : PicLaws} (frequency n : Z) (p : pic) (tr : trace) :
  0 < frequency < 4294967296 -> 0 <= n < 16 -> pics_ready tr ->
  exists p' tr' l h, pit_init frequency p tr = Ok (p', tr') /\
    outs tr' = outs tr ++ [(67, 54); (64, l); (64, h); (33, master_mask p')] /\
    pics_ready tr' /\
    irq_masked n tr' = (if n =? 0 then false else irq_masked n tr) /\
    l + 256 * h = (1193180 / frequency) mod 65536 /\
    (l + 256 * h = 1193180 / frequency <-> 19 <= frequency).
Proof.
  intros Hf Hn Hr. unfold pit_init. rewrite u32_small by lia.
  destruct (Z.eqb_spec frequency 0); [lia|].
  set (d := 1193180 / frequency).
  assert (Hd : 0 <= d /\ (d < 65536 <-> 19 <= frequency)).
  { unfold d. split; [apply Z.div_pos; lia|]. split; intros Hd.
    - destruct (Z_lt_le_dec frequency 19); [|done]. exfalso.
      assert (1193180 / 18 <= 1193180 / frequency) by (apply Z.div_le_compat_l; lia).
      change (1193180 / 18) with 66287 in *. lia.
    - assert (1193180 / frequency <= 1193180 / 19) by (apply Z.div_le_compat_l; lia).
      change (1193180 / 19) with 62798 in *. lia. }
  clearbody d. rewrite !land_255, !u8_u8, Z.shiftr_div_pow2 by lia. change (2 ^ 8) with 256.
  set (tr1 := outb (u8 (d / 256)) 64 (outb (u8 d) 64 (outb 54 67 tr))).
  assert (Hr1 : pics_ready tr1 /\ irq_masked n tr1 = irq_masked n tr).
  { assert (Hb : forall b, ready b tr -> ready b tr1 /\ imr b tr1 = imr b tr).
    { intros b Hb. unfold tr1, outb.
      destruct (imr_other b tr (Out 67 (u8 54)) Hb) as [G1 G2]; [by destruct b|].
      destruct (imr_other b _ (Out 64 (u8 (u8 d))) G1) as [G3 G4]; [by destruct b|].
      destruct (imr_other b _ (Out 64 (u8 (u8 (d / 256)))) G3) as [G5 G6]; [by destruct b|].
      split; [done|]. congruence. }
    destruct Hr as [Hm Hs]. split; [split; by apply Hb|].
    unfold irq_masked. by rewrite (proj2 (Hb (slave_line n) ltac:(by destruct (slave_line n)))). }
  destruct Hr1 as [Hr1 Hm1].
  pose proof (set_line true 0 n p tr1 ltac:(lia) Hn Hr1) as [H1 H2]. cbn zeta in *.
  destruct (enable_irq 0 p tr1) as [p' tr'] eqn:E. cbn [snd] in *.
  exists p', tr', (u8 d), (u8 (d / 256)). split_and!; [done| |done| | |].
  - unfold enable_irq, inb, outb in E. cbn in E. injection E as <- <-.
    cbn [outs master_mask]. rewrite !u8_u8. unfold tr1, outb; cbn [outs]. rewrite !u8_u8.
    by rewrite <- !app_assoc.
  - rewrite H2, Hm1. rewrite (Z.eqb_sym n 0). done.
  - words.
  - words.
Qed.

#[local] Existing Instance pic_sim.
Lemma pit_init_correct_witness :
  exists p' tr' l h, pit_init 19 (Pic 0 0) pic_boot = Ok (p', tr') /\
    irq_masked 0 tr' = false /\ l + 256 * h = 62798.
Proof.
  destruct (pit_init_correct 19 0 (Pic 0 0) pic_boot ltac:(lia) ltac:(lia) pic_boot_ready)
    as (p' & tr' & l & h & H1 & _ & _ & H2 & _ & H3).
  exists p', tr', l, h. split_and!; [done|done|]. apply H3. lia.
Defined.
