(* ===== verification/Paging.v ===== *)
(** * page.c, page.h: the page directory, the page table, backing pages

    The tables are arrays of 1024 words, the control registers are state.
    [walk] is the address translation of the processor (4 MB pages through
    CR4.PSE, 4 KB pages through the one page table); the theorems say which
    addresses the kernel's tables map, and where. *)

From S2P Require Import Prelude Mem Lib.

Definition NUM_PD_ENTRIES : Z := 1024.
Definition BYTES_4KB : Z := 4096.
Definition PAGE_ENTRY : Z := 1024.
Definition KERNEL_ENTRY : Z := 4194691.       (* 0x00400183 *)
Definition PRESENT : Z := 1.
Definition READWRITE : Z := 2.
Definition USER : Z := 4.
Definition PT_IDX_VIDMEM : Z := 184.
Definition PT_IDX_T1_VID : Z := 185.
Definition PT_IDX_T2_VID : Z := 186.
Definition PT_IDX_T3_VID : Z := 187.
Definition PTE_VIDMEM : Z := 753671.          (* 0x000B8007 *)
Definition PTE_TERM1_VID : Z := 757767.       (* 0x000B9007 *)
Definition PTE_TERM2_VID : Z := 761863.       (* 0x000BA007 *)
Definition PTE_TERM3_VID : Z := 765959.       (* 0x000BB007 *)
Definition BACKING_PAGES_START : Z := 757760. (* 0x000B9000 *)
Definition CR4_PSE : Z := 16.
Definition CR0_VALUE : Z := 2147483648.       (* 0x80000000 *)

(** ** Directory entries *)

Record pd_entry : Type := PdEntry {
  is_present : Z; rw : Z; user_supervisor : Z; write_through : Z;
  cache_disabled : Z; is_accessed : Z; is_dirty : Z; is_big_page : Z;
  is_global_page : Z; user_reserved : Z; pat : Z; reserved : Z;
  page_base_addr : Z }.

(** The packed bit-fields, lowest bit first, read as the [val] of the union. *)
Definition pde_val (e : pd_entry) : Z :=
  is_present e + Z.shiftl (rw e) 1 + Z.shiftl (user_supervisor e) 2
  + Z.shiftl (write_through e) 3 + Z.shiftl (cache_disabled e) 4
  + Z.shiftl (is_accessed e) 5 + Z.shiftl (is_dirty e) 6
  + Z.shiftl (is_big_page e) 7 + Z.shiftl (is_global_page e) 8
  + Z.shiftl (user_reserved e) 9 + Z.shiftl (pat e) 12
  + Z.shiftl (reserved e) 13 + Z.shiftl (page_base_addr e) 22.

(** [field v lo n]: bits [lo, lo + n). *)
Definition field (v lo n : Z) : Z := Z.land (Z.shiftr v lo) (Z.ones n).

Definition pde_of_val (v : Z) : pd_entry :=
  PdEntry (field v 0 1) (field v 1 1) (field v 2 1) (field v 3 1) (field v 4 1)
    (field v 5 1) (field v 6 1) (field v 7 1) (field v 8 1) (field v 9 3)
    (field v 12 1) (field v 13 9) (field v 22 10).

(** Every field is written, so the entry does not depend on the old one. *)
Definition init_4mb_user_pde (page_base_addr : Z) : pd_entry :=
  PdEntry 1 1 1 1 0 0 0 1 0 0 0 0 (Z.shiftr (u32 page_base_addr) 22).

(** ** The tables and control registers *)

Record paging : Type := Paging {
  pd : list Z; pt_0_4 : list Z; cr0 : Z; cr3 : Z; cr4 : Z }.

Definition set_read_write (pd : list Z) : res (list Z) :=
  forM (seqZ 0 PAGE_ENTRY) (fun pd i => set_at pd i READWRITE) pd.

Definition init_table (pt : list Z) : res (list Z) :=
  pt ← forM (seqZ 0 PAGE_ENTRY) (fun pt i => set_at pt i READWRITE) pt;
  pt ← set_at pt PT_IDX_VIDMEM PTE_VIDMEM;
  pt ← set_at pt PT_IDX_T1_VID PTE_TERM1_VID;
  pt ← set_at pt PT_IDX_T2_VID PTE_TERM2_VID;
  set_at pt PT_IDX_T3_VID PTE_TERM3_VID.

(** [pd_addr], [pt_addr]: where the linker puts [pd] and [pt_0_4]. *)
Definition init_page (pd_addr pt_addr : Z) (g : paging) : res paging :=
  d ← set_read_write (pd g);
  t ← init_table (pt_0_4 g);
  let PDE_video := 0 in
  let PDE_kernel := 1 in
  d ← set_at d PDE_video (Z.lor (Z.lor (Z.lor pt_addr USER) PRESENT) READWRITE);
  d ← set_at d PDE_kernel KERNEL_ENTRY;
  let reg_cr4 := Z.lor (cr4 g) CR4_PSE in
  let reg_cr0 := Z.lor (cr0 g) CR0_VALUE in
  Ok (Paging d t reg_cr0 pd_addr reg_cr4).

Definition set_cr3 (page_dir : Z) (g : paging) : paging :=
  Paging (pd g) (pt_0_4 g) (cr0 g) page_dir (cr4 g).

(** [pd[PD_IDX_USER] = pde.val; set_cr3(pd);] with an entry for the 4 MB page
    at [base], as execute, halt and change_task do. *)
Definition PD_IDX_USER : Z := 32.
Definition map_user (pd_addr base : Z) (g : paging) : res paging :=
  d ← set_at (pd g) PD_IDX_USER (pde_val (init_4mb_user_pde base));
  Ok (set_cr3 pd_addr (Paging d (pt_0_4 g) (cr0 g) (cr3 g) (cr4 g))).

Definition get_backing_page (terminal_num : Z) : Z :=
  u32 (BACKING_PAGES_START + terminal_num * BYTES_4KB).

Definition copy_4kb_page (m : mem) (source dest : Z) : mem * Z :=
  (memcpy m dest source BYTES_4KB, 0).

(** ** The processor's translation

    [walk pd_addr pt_addr g va] is the physical address and whether user mode
    may access it; [None] is a page fault.  The walk is only defined when CR3
    points at [pd] and a directory entry at [pt_0_4]. *)

Definition walk (pd_addr pt_addr : Z) (g : paging) (va : Z) : option (Z * bool) :=
  if negb (Z.testbit (cr0 g) 31) then Some (va, true) else
  if negb (cr3 g =? pd_addr) then None else
  e ← aget (pd g) (Z.shiftr va 22);
  if negb (Z.testbit e 0) then None else
  if Z.testbit e 7 && Z.testbit (cr4 g) 4
  then Some (Z.shiftl (field e 22 10) 22 + Z.land va (Z.ones 22), Z.testbit e 2)
  else
    if negb (Z.shiftl (field e 12 20) 12 =? pt_addr) then None else
    t ← aget (pt_0_4 g) (field va 12 10);
    if negb (Z.testbit t 0) then None else
    Some (Z.shiftl (field t 12 20) 12 + Z.land va (Z.ones 12),
          Z.testbit e 2 && Z.testbit t 2).

(** ** Lemmas *)

Lemma field_eq v lo n : 0 <= lo -> 0 <= n -> field v lo n = v / 2 ^ lo mod 2 ^ n.
Proof. intros. unfold field. by rewrite Z.shiftr_div_pow2, Z.land_ones by lia. Qed.

(** The widths of the bit-fields. *)
Definition pde_fits (e : pd_entry) : Prop :=
  0 <= is_present e < 2 /\ 0 <= rw e < 2 /\ 0 <= user_supervisor e < 2 /\
  0 <= write_through e < 2 /\ 0 <= cache_disabled e < 2 /\ 0 <= is_accessed e < 2 /\
  0 <= is_dirty e < 2 /\ 0 <= is_big_page e < 2 /\ 0 <= is_global_page e < 2 /\
  0 <= user_reserved e < 8 /\ 0 <= pat e < 2 /\ 0 <= reserved e < 512 /\
  0 <= page_base_addr e < 1024.

Lemma init_4mb_user_pde_fits base : pde_fits (init_4mb_user_pde base).
Proof.
  unfold pde_fits, init_4mb_user_pde; cbn [is_present rw user_supervisor write_through
    cache_disabled is_accessed is_dirty is_big_page is_global_page user_reserved pat
    reserved page_base_addr].
  rewrite Z.shiftr_div_pow2 by lia. change (2 ^ 22) with 4194304.
  pose proof (u32_range base). split_and!; try lia; zdm.
Qed.

Lemma pde_user_val base :
  pde_val (init_4mb_user_pde base) = u32 base / 4194304 * 2 ^ 22 + 143.
Proof.
  unfold pde_val, init_4mb_user_pde; cbn [is_present rw user_supervisor write_through
    cache_disabled is_accessed is_dirty is_big_page is_global_page user_reserved pat
    reserved page_base_addr].
  rewrite Z.shiftr_div_pow2, !Z.shiftl_mul_pow2 by lia.
  change (2 ^ 22) with 4194304. lia.
Qed.

(** Peeling the lowest field off a packed word, and putting it back. *)
Lemma field_peel v a n f t :
  0 <= a -> 0 <= n -> v / 2 ^ a = f + 2 ^ n * t -> 0 <= f < 2 ^ n ->
  field v a n = f /\ v / 2 ^ (a + n) = t.
Proof.
  intros Ha Hn E Hf. rewrite field_eq by lia.
  rewrite Z.pow_add_r, <- Z.div_div by lia. rewrite E, (Z.mul_comm _ t). split.
  - rewrite Z.mod_add by lia. by apply Z.mod_small.
  - rewrite Z.div_add by lia. rewrite Z.div_small by done. lia.
Qed.
Lemma field_push v a n :
  0 <= a -> 0 <= n -> v / 2 ^ a = field v a n + 2 ^ n * (v / 2 ^ (a + n)).
Proof.
  intros Ha Hn. rewrite field_eq by lia.
  rewrite Z.pow_add_r, <- Z.div_div by lia.
  pose proof (Z.div_mod (v / 2 ^ a) (2 ^ n) ltac:(lia)). lia.
Qed.
Lemma field_range v a n : 0 <= a -> 0 <= n -> 0 <= field v a n < 2 ^ n.
Proof. intros. rewrite field_eq by lia. apply Z.mod_pos_bound. lia. Qed.

Lemma pde_unpack e :
  pde_fits e -> 0 <= pde_val e < 4294967296 /\ pde_of_val (pde_val e) = e.
Proof.
  destruct e as [f0 f1 f2 f3 f4 f5 f6 f7 f8 f9 f10 f11 f12]. unfold pde_fits, pde_of_val.
  cbn [is_present rw user_supervisor write_through cache_disabled is_accessed is_dirty
    is_big_page is_global_page user_reserved pat reserved page_base_addr].
  intros H. set (v := pde_val _).
  assert (E : v / 2 ^ 0 = f0 + 2 ^ 1 * (f1 + 2 ^ 1 * (f2 + 2 ^ 1 * (f3 + 2 ^ 1 * (f4
    + 2 ^ 1 * (f5 + 2 ^ 1 * (f6 + 2 ^ 1 * (f7 + 2 ^ 1 * (f8 + 2 ^ 1 * (f9 + 2 ^ 3 * (f10
    + 2 ^ 1 * (f11 + 2 ^ 9 * (f12 + 2 ^ 10 * 0))))))))))))).
  { change (2 ^ 0) with 1. rewrite Z.div_1_r. unfold v, pde_val.
    cbn [is_present rw user_supervisor write_through cache_disabled is_accessed is_dirty
      is_big_page is_global_page user_reserved pat reserved page_base_addr].
    rewrite !Z.shiftl_mul_pow2 by lia. lia. }
  split; [change (2 ^ 0) with 1 in E; rewrite Z.div_1_r in E; lia|]. clearbody v.
  repeat match goal with
  | E : v / 2 ^ ?a = ?f + 2 ^ ?n * ?t |- _ =>
    let F := fresh "F" in
    destruct (field_peel v a n f t ltac:(lia) ltac:(lia) E ltac:(lia)) as [F E'];
    clear E; rename E' into E; let k := eval vm_compute in (a + n) in
    change (a + n) with k in E; rewrite F; clear F
  end.
  done.
Qed.

Lemma pde_pack v :
  0 <= v < 4294967296 -> pde_fits (pde_of_val v) /\ pde_val (pde_of_val v) = v.
Proof.
  intros Hv. unfold pde_fits, pde_val, pde_of_val.
  cbn [is_present rw user_supervisor write_through cache_disabled is_accessed is_dirty
    is_big_page is_global_page user_reserved pat reserved page_base_addr].
  split; [split_and!; apply field_range; lia|].
  rewrite !Z.shiftl_mul_pow2 by lia.
  pose proof (Z.div_1_r v : v / 2 ^ 0 = v) as E.
  assert (E0 : v / 2 ^ 32 = 0) by (apply Z.div_small; lia).
  assert (P : forall a n b, 0 <= a -> 0 <= n -> b = a + n ->
    v / 2 ^ a = field v a n + 2 ^ n * (v / 2 ^ b)) by (intros; subst; by apply field_push).
  rewrite (P 0 1 1),
    (P 1 1 2),
    (P 2 1 3),
    (P 3 1 4),
    (P 4 1 5),
    (P 5 1 6),
    (P 6 1 7),
    (P 7 1 8),
    (P 8 1 9),
    (P 9 3 12),
    (P 12 1 13),
    (P 13 9 22),
    (P 22 10 32) in E by lia.
  rewrite E0 in E. lia.
Qed.

(** The tables [init_page] builds. *)
Definition boot_pd (pt_addr : Z) (i : Z) : Z :=
  if i =? 0 then pt_addr + 7 else if i =? 1 then KERNEL_ENTRY else READWRITE.
Definition boot_pt (i : Z) : Z :=
  if (PT_IDX_VIDMEM <=? i) && (i <=? PT_IDX_T3_VID) then i * 4096 + 7 else READWRITE.

Definition aligned (a : Z) : Prop := 0 <= a < 4294967296 /\ a mod 4096 = 0.

Lemma pt_bits a : aligned a -> Z.lor (Z.lor (Z.lor a USER) PRESENT) READWRITE = a + 7.
Proof.
  intros [Ha Hm]. rewrite <- !Z.lor_assoc. change (Z.lor USER _) with 7.
  replace a with (a / 4096 * 2 ^ 12) at 1 by (change (2 ^ 12) with 4096; zdm).
  rewrite lor_low by lia. change (2 ^ 12) with 4096. zdm.
Qed.

Lemma init_page_tables pd_addr pt_addr g :
  length (pd g) = 1024%nat -> length (pt_0_4 g) = 1024%nat -> aligned pt_addr ->
  exists g', init_page pd_addr pt_addr g = Ok g' /\
    length (pd g') = 1024%nat /\ length (pt_0_4 g') = 1024%nat /\
    cr3 g' = pd_addr /\ Z.testbit (cr0 g') 31 = true /\ Z.testbit (cr4 g') 4 = true /\
    (forall i, 0 <= i < 1024 -> aget (pd g') i = Some (boot_pd pt_addr i)) /\
    (forall i, 0 <= i < 1024 -> aget (pt_0_4 g') i = Some (boot_pt i)).
Proof.
  intros Hd Ht Ha. unfold init_page, set_read_write, init_table, PAGE_ENTRY.
  destruct (forM_fill READWRITE (pd g)) as (d & E1 & Hd1 & Hd2).
  destruct (forM_fill READWRITE (pt_0_4 g)) as (t & E2 & Ht1 & Ht2).
  rewrite Hd in E1. rewrite Ht in E2. change (Z.of_nat 1024) with 1024 in *.
  rewrite E1, bind_ok, E2.
  repeat first [rewrite bind_ok | rewrite set_at_ok by
    (rewrite ?length_insert, ?Hd1, ?Hd, ?Ht1, ?Ht; vm_compute; split; congruence)].
  eexists. split; [reflexivity|]. cbn [pd pt_0_4 cr0 cr3 cr4]. rewrite !length_insert.
  split_and!; try congruence.
  - rewrite Z.lor_spec. apply orb_true_r.
  - rewrite Z.lor_spec. apply orb_true_r.
  - intros i Hi. rewrite !aget_insert by (rewrite ?length_insert; lia).
    rewrite pt_bits, Hd2 by (done || lia). unfold boot_pd.
    destruct (Z.eqb_spec 1 i), (Z.eqb_spec 0 i), (Z.eqb_spec i 0), (Z.eqb_spec i 1);
      subst; (done || lia).
  - intros i Hi. unfold boot_pt, PT_IDX_VIDMEM, PT_IDX_T1_VID, PT_IDX_T2_VID, PT_IDX_T3_VID.
    rewrite !aget_insert by (rewrite ?length_insert; lia). rewrite Ht2 by lia.
    destruct (Z.eqb_spec 187 i); [by subst|]. destruct (Z.eqb_spec 186 i); [by subst|].
    destruct (Z.eqb_spec 185 i); [by subst|]. destruct (Z.eqb_spec 184 i); [by subst|].
    destruct (Z.leb_spec 184 i), (Z.leb_spec i 187); cbn [andb]; (done || lia).
Qed.

(** Paging is on and its tables are the kernel's. *)
Definition paging_on (pd_addr : Z) (g : paging) : Prop :=
  Z.testbit (cr0 g) 31 = true /\ Z.testbit (cr4 g) 4 = true /\ cr3 g = pd_addr.

Section Walk.
Context (pd_addr pt_addr : Z) (g : paging).
Hypothesis Hon : paging_on pd_addr g.
Implicit Types va e : Z.

Lemma va_split va :
  0 <= va < 4294967296 ->
  Z.shiftr va 22 = va / 4194304 /\ Z.land va (Z.ones 22) = va mod 4194304 /\
  Z.land va (Z.ones 12) = va mod 4096 /\ field va 12 10 = va / 4096 mod 1024.
Proof.
  intros Hva. rewrite Z.shiftr_div_pow2, !Z.land_ones, field_eq by lia. done.
Qed.

(** A directory entry that is not present, one of a 4 MB page, one of the
    page table. *)
Lemma walk_absent va e :
  0 <= va < 4294967296 -> aget (pd g) (va / 4194304) = Some e -> Z.testbit e 0 = false ->
  walk pd_addr pt_addr g va = None.
Proof.
  destruct Hon as (H0 & H4 & H3). intros Hva He Hp.
  destruct (va_split va Hva) as (E1 & _). unfold walk.
  rewrite H0, H3, Z.eqb_refl, E1, He. cbn [negb mbind option_bind]. by rewrite Hp.
Qed.

Lemma walk_big va base low :
  0 <= va < 4294967296 -> 0 <= low < 4194304 -> 0 <= base < 1024 ->
  aget (pd g) (va / 4194304) = Some (base * 2 ^ 22 + low) ->
  Z.testbit low 0 = true -> Z.testbit low 7 = true ->
  walk pd_addr pt_addr g va = Some (base * 4194304 + va mod 4194304, Z.testbit low 2).
Proof.
  destruct Hon as (H0 & H4 & H3). intros Hva Hlow Hbase He Hp Hs.
  destruct (va_split va Hva) as (E1 & E2 & _). unfold walk.
  rewrite H0, H3, Z.eqb_refl, E1, He, E2, H4. cbn [negb mbind option_bind].
  rewrite !(testbit_low base low 22) by lia. rewrite Hp, Hs. cbn [negb andb].
  rewrite field_eq, Z.shiftl_mul_pow2 by lia.
  replace ((base * 2 ^ 22 + low) / 2 ^ 22 mod 2 ^ 10) with base; [done|].
  change (2 ^ 22) with 4194304. change (2 ^ 10) with 1024. zdm.
Qed.

Lemma walk_table va :
  0 <= va < 4194304 -> aligned pt_addr -> aget (pd g) 0 = Some (pt_addr + 7) ->
  walk pd_addr pt_addr g va =
  (t ← aget (pt_0_4 g) (va / 4096);
   if negb (Z.testbit t 0) then None else
   Some (Z.shiftl (field t 12 20) 12 + va mod 4096, Z.testbit t 2)).
Proof.
  destruct Hon as (H0 & H4 & H3). intros Hva [Ha1 Ha2] He.
  destruct (va_split va ltac:(lia)) as (E1 & _ & E3 & E4). unfold walk.
  rewrite H0, H3, Z.eqb_refl, E1, E3, E4.
  replace (va / 4194304) with 0 by zdm. rewrite He. cbn [negb mbind option_bind].
  replace (pt_addr + 7) with (pt_addr / 4096 * 2 ^ 12 + 7)
    by (change (2 ^ 12) with 4096; zdm).
  rewrite !(testbit_low _ 7 12) by lia.
  replace (field (pt_addr / 4096 * 2 ^ 12 + 7) 12 20) with (pt_addr / 4096).
  - rewrite (Z.shiftl_mul_pow2 (pt_addr / 4096) 12) by lia.
    replace (pt_addr / 4096 * 2 ^ 12) with pt_addr by (change (2 ^ 12) with 4096; zdm).
    change (Z.testbit 7 0) with true. change (Z.testbit 7 7) with false.
    change (Z.testbit 7 2) with true. cbn [negb andb]. rewrite Z.eqb_refl. cbn [negb].
    by replace (va / 4096 mod 1024) with (va / 4096) by zdm.
  - rewrite field_eq by lia. change (2 ^ 12) with 4096. change (2 ^ 20) with 1048576. zdm.
Qed.

(** The tables of [init_page], up to directory entries other than 0 and 1. *)
Lemma walk_boot va :
  0 <= va < 8388608 -> aligned pt_addr ->
  aget (pd g) 0 = Some (pt_addr + 7) -> aget (pd g) 1 = Some KERNEL_ENTRY ->
  (forall i, 0 <= i < 1024 -> aget (pt_0_4 g) i = Some (boot_pt i)) ->
  walk pd_addr pt_addr g va =
  if 4194304 <=? va then Some (va, false)
  else if (753664 <=? va) && (va <? 770048) then Some (va, true) else None.
Proof.
  intros Hva Ha H0 H1 Ht. destruct (Z.leb_spec 4194304 va).
  - rewrite (walk_big va 1 387) by
      (lia || (replace (va / 4194304) with 1 by zdm; exact H1) || done).
    f_equal. f_equal. zdm.
  - rewrite walk_table by (done || lia). rewrite Ht by zdm. cbn [mbind option_bind].
    unfold boot_pt, PT_IDX_VIDMEM, PT_IDX_T3_VID.
    destruct (Z.leb_spec 184 (va / 4096)), (Z.leb_spec (va / 4096) 187),
      (Z.leb_spec 753664 va), (Z.ltb_spec va 770048); cbn [andb]; try (exfalso; zdm);
      try done.
    replace (va / 4096 * 4096 + 7) with (va / 4096 * 2 ^ 12 + 7)
      by (change (2 ^ 12) with 4096; lia).
    rewrite !(testbit_low _ 7 12) by lia. cbn [negb]. change (Z.testbit 7 0) with true.
    cbn [negb]. rewrite field_eq, Z.shiftl_mul_pow2 by lia. f_equal. f_equal.
    change (2 ^ 12) with 4096. change (2 ^ 20) with 1048576. zdm.
Qed.
End Walk.

(** What [init_page] establishes, apart from the user entry that [map_user]
    replaces later. *)
Definition kernel_map (pd_addr pt_addr : Z) (g : paging) : Prop :=
  paging_on pd_addr g /\ aligned pt_addr /\
  length (pd g) = 1024%nat /\ length (pt_0_4 g) = 1024%nat /\
  (forall i, 0 <= i < 1024 -> i <> PD_IDX_USER -> aget (pd g) i = Some (boot_pd pt_addr i)) /\
  (forall i, 0 <= i < 1024 -> aget (pt_0_4 g) i = Some (boot_pt i)).

Lemma kernel_walk pd_addr pt_addr g va :
  kernel_map pd_addr pt_addr g ->
  0 <= va < 4294967296 -> ~ (134217728 <= va < 138412032) ->
  walk pd_addr pt_addr g va =
  if (4194304 <=? va) && (va <? 8388608) then Some (va, false)
  else if (753664 <=? va) && (va <? 770048) then Some (va, true) else None.
Proof.
  intros (Hon & Ha & _ & _ & Hd & Ht) Hva Hu.
  destruct (Z.ltb_spec va 8388608) as [H8|H8].
  - rewrite (walk_boot _ _ _ Hon) by
      (lia || done || (apply Hd; [lia|done])).
    rewrite andb_true_r. done.
  - rewrite andb_false_r. assert (E : (753664 <=? va) && (va <? 770048) = false) by lia.
    rewrite E. apply (walk_absent _ _ _ Hon va READWRITE); [lia| |done].
    rewrite Hd by (unfold PD_IDX_USER; zdm). unfold boot_pd.
    destruct (Z.eqb_spec (va / 4194304) 0), (Z.eqb_spec (va / 4194304) 1);
      (done || (exfalso; zdm)).
Qed.

(** The page of process [n], as execute and halt compute it. *)
Definition ADDR_4MB : Z := 4194304.
Definition user_base (n : Z) : Z := u32 (ADDR_4MB + n * ADDR_4MB).

Lemma map_user_ok pd_addr pt_addr n g :
  kernel_map pd_addr pt_addr g -> 0 <= n < 1023 ->
  exists g', map_user pd_addr (user_base n) g = Ok g' /\ kernel_map pd_addr pt_addr g' /\
    (forall va, 134217728 <= va < 138412032 ->
       walk pd_addr pt_addr g' va = Some (user_base n + (va - 134217728), true)).
Proof.
  intros (Hon & Ha & Hl1 & Hl2 & Hd & Ht) Hn. unfold map_user.
  rewrite set_at_ok, bind_ok by (rewrite Hl1; done).
  eexists. split; [reflexivity|].
  set (g' := set_cr3 _ _).
  assert (Hon' : paging_on pd_addr g').
  { destruct Hon as (H0 & H4 & _). split_and!; done. }
  assert (Hg : pd g' = <[Z.to_nat PD_IDX_USER := pde_val (init_4mb_user_pde (user_base n))]> (pd g))
    by done.
  split.
  - split_and!; try done; rewrite Hg.
    + by rewrite length_insert.
    + intros i Hi Hne. rewrite aget_insert by (rewrite Hl1; done).
      destruct (Z.eqb_spec PD_IDX_USER i); [congruence|]. by apply Hd.
  - intros va Hva.
    assert (Hu : u32 (user_base n) = user_base n) by (unfold user_base; apply u32_u32).
    assert (Hb : user_base n = (n + 1) * 4194304)
      by (unfold user_base, ADDR_4MB; rewrite u32_small; lia).
    rewrite (walk_big _ pt_addr g' Hon' va (n + 1) 143); [|lia|lia|lia| |done|done].
    + rewrite Hb. f_equal. f_equal. zdm.
    + rewrite Hg, aget_insert by (rewrite Hl1; done).
      replace (va / 4194304) with PD_IDX_USER by (unfold PD_IDX_USER; zdm).
      rewrite Z.eqb_refl, pde_user_val, Hu, Hb, Z.div_mul by lia. done.
Qed.

(** ** Properties *)

(** The bit-field layout of a page directory entry: packing a
    [pd_entry_t] whose fields fit their widths gives a 32-bit word, unpacking
    it gives the fields back, and every 32-bit word is the packing of its
    fields; [init_4mb_user_pde] always fits. *)
Theorem pd_entry_layout (e : pd_entry) (v base : Z) :
  (pde_fits e -> 0 <= pde_val e < 4294967296 /\ pde_of_val (pde_val e) = e) /\
  (0 <= v < 4294967296 -> pde_fits (pde_of_val v) /\ pde_val (pde_of_val v) = v) /\
  pde_of_val (pde_val (init_4mb_user_pde base)) = init_4mb_user_pde base.
Proof.
  split_and!; [apply pde_unpack|apply pde_pack|].
  apply pde_unpack, init_4mb_user_pde_fits.
Qed.

(** [init_page] turns paging on with this address space: the kernel's
    4 MB page at 4 MB for the supervisor only, the video page and the three
    backing pages for everyone, all mapped to themselves; every other address
    faults, NULL included. *)
Theorem init_page_map (pd_addr pt_addr : Z) (g : paging) :
  length (pd g) = 1024%nat -> length (pt_0_4 g) = 1024%nat -> aligned pt_addr ->
  exists g', init_page pd_addr pt_addr g = Ok g' /\ kernel_map pd_addr pt_addr g' /\
    walk pd_addr pt_addr g' 0 = None /\
    forall va, 0 <= va < 4294967296 ->
      walk pd_addr pt_addr g' va =
      if (4194304 <=? va) && (va <? 8388608) then Some (va, false)
      else if (753664 <=? va) && (va <? 770048) then Some (va, true) else None.
Proof.
  intros Hd Ht Ha.
  destruct (init_page_tables pd_addr pt_addr g Hd Ht Ha)
    as (g' & E & L1 & L2 & H3 & H0 & H4 & D & T).
  assert (K : kernel_map pd_addr pt_addr g').
  { split_and!; try done. intros i Hi _. by apply D. }
  assert (W : forall va, 0 <= va < 4294967296 -> walk pd_addr pt_addr g' va =
      if (4194304 <=? va) && (va <? 8388608) then Some (va, false)
      else if (753664 <=? va) && (va <? 770048) then Some (va, true) else None).
  { intros va Hva. destruct (decide (134217728 <= va < 138412032)) as [Hu|];
      [|by apply kernel_walk].
    rewrite (walk_absent pd_addr pt_addr g' (proj1 K) va READWRITE); [|lia| |done].
    - destruct (Z.leb_spec 4194304 va), (Z.ltb_spec va 8388608),
        (Z.leb_spec 753664 va), (Z.ltb_spec va 770048); cbn; (done || lia).
    - rewrite D by zdm. unfold boot_pd.
      destruct (Z.eqb_spec (va / 4194304) 0), (Z.eqb_spec (va / 4194304) 1);
        (done || (exfalso; zdm)). }
  exists g'. split_and!; [done|done|by rewrite W|done].
Qed.

(** C2 Process isolation: mapping process [n] (1 to 6) gives user mode the
    4 MB window at 128 MB backed by its own page and leaves every other
    translation alone; the pages of two processes, and the kernel's memory
    below 8 MB, never share a byte. *)
Theorem process_isolation (pd_addr pt_addr n n' : Z) (g : paging) :
  kernel_map pd_addr pt_addr g -> 1 <= n <= 6 -> 1 <= n' <= 6 ->
  exists g', map_user pd_addr (user_base n) g = Ok g' /\ kernel_map pd_addr pt_addr g' /\
    (forall va, 134217728 <= va < 138412032 ->
       walk pd_addr pt_addr g' va = Some (user_base n + (va - 134217728), true)) /\
    (forall va, 0 <= va < 4294967296 -> ~ (134217728 <= va < 138412032) ->
       walk pd_addr pt_addr g' va = walk pd_addr pt_addr g va) /\
    8388608 <= user_base n /\
    (n <> n' -> user_base n + 4194304 <= user_base n' \/ user_base n' + 4194304 <= user_base n).
Proof.
  intros K Hn Hn'. destruct (map_user_ok pd_addr pt_addr n g K ltac:(lia)) as (g' & E & K' & W).
  exists g'. split_and!; [done|done|done| | |].
  - intros va Hva Hu. by rewrite !(kernel_walk _ _ _ _) by done.
  - unfold user_base, ADDR_4MB. rewrite u32_small; lia.
  - intros Hne. unfold user_base, ADDR_4MB. rewrite !u32_small; lia.
Qed.

(** ** Witnesses *)

Definition paging0 : paging := Paging (replicate 1024 0) (replicate 1024 0) 1 0 0.

Lemma init_page_map_witness :
  exists g', init_page 4202496 4206592 paging0 = Ok g' /\
    walk 4202496 4206592 g' 0 = None /\ walk 4202496 4206592 g' 753664 = Some (753664, true).
Proof.
  destruct (init_page_map 4202496 4206592 paging0 eq_refl eq_refl ltac:(by split))
    as (g' & H1 & _ & H2 & H3).
  exists g'. split; [exact H1|]. split; [exact H2|]. rewrite H3; [reflexivity|lia].
Defined.

Definition paging1 : paging :=
  match init_page 4202496 4206592 paging0 with Ok g => g | _ => paging0 end.

Lemma paging1_map : kernel_map 4202496 4206592 paging1.
Proof.
  destruct (init_page_tables 4202496 4206592 paging0) as (g' & E & L1 & L2 & H3 & H0 & H4 & D & T);
    [reflexivity|reflexivity|by split|].
  unfold paging1. rewrite E. clear E. split_and!; try done. intros i Hi _. by apply D.
Qed.

Lemma process_isolation_witness :
  exists g', map_user 4202496 (user_base 3) paging1 = Ok g' /\
    walk 4202496 4206592 g' 134512640 = Some (17072128, true).
Proof.
  destruct (process_isolation 4202496 4206592 3 2 paging1 paging1_map ltac:(lia) ltac:(lia))
    as (g' & H1 & _ & H2 & _).
  exists g'. split; [exact H1|]. rewrite H2; [reflexivity|lia].
Defined.
