(* ===== verification/Pcb.v ===== *)
(** * syscalls.h, idt.h: process control blocks and register frames

    The scalar fields of a PCB are a record; the kernel's PCBs live in a typed
    heap indexed by their address, [8 MB - n * 8 KB] for process [n].  Its two
    kinds of byte arrays, the [file_name] of each descriptor and the
    [argument_buffer], are in the byte memory at their offsets in the
    structure, because the string routines work on them.  A pointer that is no
    PCB (NULL, or the unmapped address 8 MB of a process 0) faults. *)

From S2P Require Import Prelude.

Definition NULL : Z := 0.
Definition ADDR_8MB : Z := 8388608.
Definition ADDR_8KB : Z := 8192.
Definition OPS_SIZE : Z := 8.
Definition FNAME_LENGTH : Z := 32.
Definition ARG_BUFF_SIZE : Z := 128.
Definition USE : Z := 1.
Definition FAIL : Z := -1.
Definition SUCCESS : Z := 0.
Definition MAX_PROCESSES : Z := 6.
Definition NUM_TERMINALS : Z := 3.

(** The four tables of driver functions, and a pointer to one of them; the
    pointer of a descriptor that was never assigned is [FopsBad]. *)
Inductive fops_table : Type :=
| fops_directory_functions
| fops_file_functions
| fops_rtc_functions
| fops_terminal_functions.

Inductive fops_ptr : Type :=
| FopsNull
| Fops (t : fops_table)
| FopsBad.

#[export] Instance fops_table_eq_dec : EqDecision fops_table.
Proof. solve_decision. Defined.
#[export] Instance fops_ptr_eq_dec : EqDecision fops_ptr.
Proof. solve_decision. Defined.

Record fd_entry : Type := FdEntry {
  fop_ptr : fops_ptr; inode : Z; file_pos : Z; in_use : Z }.

Record pcb : Type := Pcb {
  eip : Z; esp : Z; ebp : Z; edi : Z; esi : Z; ebx : Z; edx : Z; ecx : Z; eax : Z;
  cs : Z; eflags : Z; user_esp : Z; ss : Z; pid : Z; parent_ptr : Z; terminal_num : Z;
  fde : list fd_entry; argument_length : Z }.

(** Offsets in the structure: sixteen words, eight descriptors of 48 bytes
    with the name at 8, the argument length, the argument buffer. *)
Definition SIZEOF_PCB : Z := 580.
Definition fname_addr (p fd : Z) : Z := u32 (p + 64 + 48 * fd + 8).
Definition argbuf_addr (p : Z) : Z := u32 (p + 452).

(** The frame the interrupt stubs push. *)
Record registers : Type := Registers {
  r_edi : Z; r_esi : Z; r_ebp : Z; r_esp : Z; r_ebx : Z; r_edx : Z; r_ecx : Z; r_eax : Z;
  r_int_num : Z; r_error_code : Z;
  r_eip : Z; r_cs : Z; r_eflags : Z; r_useresp : Z; r_ss : Z }.

Abbreviation heap := (gmap Z pcb).

Definition pcb_addr (n : Z) : Z := u32 (ADDR_8MB - n * ADDR_8KB).

Definition pcb_at (h : heap) (p : Z) : res pcb := of_opt (h !! p).

(** An assignment through a PCB pointer. *)
Definition pcb_upd (h : heap) (p : Z) (f : pcb -> pcb) : res heap :=
  b ← pcb_at h p; Ok (<[p := f b]> h).

Definition set_fde (l : list fd_entry) (b : pcb) : pcb :=
  Pcb (eip b) (esp b) (ebp b) (edi b) (esi b) (ebx b) (edx b) (ecx b) (eax b) (cs b)
    (eflags b) (user_esp b) (ss b) (pid b) (parent_ptr b) (terminal_num b) l
    (argument_length b).

Definition save_pcb_regs (curr : pcb) (regs : registers) : pcb :=
  Pcb (r_eip regs) (r_esp regs) (r_ebp regs) (r_edi regs) (r_esi regs) (r_ebx regs)
    (r_edx regs) (r_ecx regs) (r_eax regs) (r_cs regs) (r_eflags regs) (r_useresp regs)
    (r_ss regs) (pid curr) (parent_ptr curr) (terminal_num curr) (fde curr)
    (argument_length curr).

Lemma pcb_addr_eq n : 0 <= n <= 1024 -> pcb_addr n = 8388608 - n * 8192.
Proof. intros. unfold pcb_addr, ADDR_8MB, ADDR_8KB. rewrite u32_small; lia. Qed.

Lemma pcb_addr_inj n n' :
  0 <= n <= 1024 -> 0 <= n' <= 1024 -> pcb_addr n = pcb_addr n' -> n = n'.
Proof. intros Hn Hn'. rewrite !pcb_addr_eq by done. lia. Qed.
