(* ===== verification/Sched.v ===== *)
(** * sched.c: the process queue and the task switch

    The queue is a ring of six PCB pointers with the indices of its first and
    last element.  [deque] relates it to the list it holds; [pq_rotate] steps
    [rear] without wrapping it, so it leaves the array after at most five
    turns. *)

From S2P Require Import Prelude Mem Lib Ports I8259 Paging Pcb.

Record process_queue : Type := ProcessQueue { pcbs : list Z; front : Z; rear : Z }.

Definition pq_init (q : process_queue) : res process_queue :=
  pcbs ← forM (seqZ 0 MAX_PROCESSES) (fun l i => set_at l i NULL) (pcbs q);
  Ok (ProcessQueue pcbs 1 0).

Definition pq_enqueue (q : process_queue) (process_num : Z) : res (process_queue * Z) :=
  if MAX_PROCESSES <? u32 process_num then Ok (q, FAIL)
  else
    let this_pcb := pcb_addr process_num in
    let rear := if MAX_PROCESSES - 1 <=? rear q then 0 else rear q + 1 in
    pcbs ← set_at (pcbs q) rear this_pcb;
    Ok (ProcessQueue pcbs (front q) rear, SUCCESS).

Definition pq_enqueue_front (q : process_queue) (this_pcb : Z) : res (process_queue * Z) :=
  let front := front q - 1 in
  let front := if front <? 0 then MAX_PROCESSES - 1 else front in
  pcbs ← set_at (pcbs q) front this_pcb;
  Ok (ProcessQueue pcbs front (rear q), SUCCESS).

Definition pq_peak (q : process_queue) : res Z := get_at (pcbs q) (front q).

Definition pq_dequeue (q : process_queue) : res (process_queue * Z) :=
  ret_block ← get_at (pcbs q) (front q);
  let front := front q + 1 in
  let front := if MAX_PROCESSES <=? front then 0 else front in
  Ok (ProcessQueue (pcbs q) front (rear q), ret_block).

Definition pq_rotate (q : process_queue) : res process_queue :=
  '(q, old_front) ← pq_dequeue q;
  let rear := rear q + 1 in
  pcbs ← set_at (pcbs q) rear old_front;
  Ok (ProcessQueue pcbs (front q) rear).

(** ** The scheduler's globals *)

Record sched : Type := Sched { process_q : process_queue; process_count : Z; pcb_heap : heap }.

Definition pq_get_active_term (s : sched) : res Z :=
  if 0 <? process_count s then
    p ← pq_peak (process_q s);
    b ← pcb_at (pcb_heap s) p;
    Ok (terminal_num b)
  else Ok 0.

Definition KERNEL_CS : Z := 16.
Definition KERNEL_DS : Z := 24.
Definition USER_CS : Z := 35.
Definition USER_DS : Z := 43.

(** The registers at the [iret] of [change_task], and the frame it pops. *)
Record context : Type := Context_ {
  c_edi : Z; c_esi : Z; c_ebp : Z; c_ebx : Z; c_edx : Z; c_ecx : Z; c_eax : Z;
  f_eip : Z; f_cs : Z; f_eflags : Z; f_esp : Z; f_ss : Z }.

(** The flags pushed for [iret] go through [eax], which keeps them.  The load of
    [ebp] is commented out: it is still [own_ebp], the frame of [change_task]. *)
Definition IRET_FLAGS : Z := 646.  (* 0x286 *)
Definition resume (own_ebp : Z) (b : pcb) : context :=
  let kernel := cs b =? KERNEL_CS in
  let flags := Z.lor (eflags b) IRET_FLAGS in
  Context_ (edi b) (esi b) own_ebp (ebx b) (edx b) (ecx b) flags
    (eip b) (if kernel then KERNEL_CS else USER_CS) flags
    (if kernel then esp b else user_esp b) (if kernel then KERNEL_DS else USER_DS).

(** [own_ebp]: the frame pointer in the body of [change_task].  The result
    carries the new address space, [tss.esp0] and the port trace;
    the [sti] after the [iret] is not reached. *)
Definition change_task (pd_addr own_ebp : Z) (regs : registers) (s : sched) (g : paging) (tr : trace)
    : res (sched * paging * Z * trace * context) :=
  let tr := cli tr in
  curr_pcb ← pq_peak (process_q s);
  h ← pcb_upd (pcb_heap s) curr_pcb (fun b => save_pcb_regs b regs);
  q ← pq_rotate (process_q s);
  next_pcb ← pq_peak q;
  b ← pcb_at h next_pcb;
  let esp0 := u32 (ADDR_8MB - pid b * ADDR_8KB - 4) in
  g ← map_user pd_addr (ADDR_4MB + pid b * ADDR_4MB) g;
  let tr := send_eoi 0 tr in
  Ok (Sched q (process_count s) h, g, esp0, tr, resume own_ebp b).

(** ** The queue as a deque *)

Definition slot (q : process_queue) (k : Z) : option Z :=
  aget (pcbs q) ((front q + k) mod MAX_PROCESSES).

Definition deque (q : process_queue) (l : list Z) : Prop :=
  length (pcbs q) = 6%nat /\ 0 <= front q < 6 /\ Z.of_nat (length l) <= 6 /\
  rear q = (front q + Z.of_nat (length l) - 1) mod 6 /\
  forall k, 0 <= k < Z.of_nat (length l) -> slot q k = aget l k.

Lemma deque_init q : length (pcbs q) = 6%nat -> exists q', pq_init q = Ok q' /\ deque q' [].
Proof.
  intros Hl. unfold pq_init, MAX_PROCESSES.
  destruct (forM_fill NULL (pcbs q)) as (l' & E & L & _). rewrite Hl in E.
  change (Z.of_nat 6) with 6 in E. rewrite E. eexists. split; [reflexivity|].
  split_and!; cbn [pcbs front rear length]; try done; try lia; try congruence.
Qed.

Lemma deque_peak q p l : deque q (p :: l) -> pq_peak q = Ok p.
Proof.
  intros (Hp & Hf & Hl & Hr & Hs). specialize (Hs 0 ltac:(cbn [length]; lia)).
  unfold slot, MAX_PROCESSES in Hs. rewrite Z.add_0_r, Z.mod_small in Hs by done.
  unfold pq_peak. by apply get_at_ok.
Qed.

Lemma deque_dequeue q p l :
  deque q (p :: l) -> exists q', pq_dequeue q = Ok (q', p) /\ deque q' l /\ rear q' = rear q.
Proof.
  intros D. pose proof (deque_peak _ _ _ D) as Hp. unfold pq_peak in Hp.
  destruct D as (Hl1 & Hf & Hl & Hr & Hs). unfold pq_dequeue. rewrite Hp, bind_ok.
  eexists. split; [reflexivity|]. split; [|done].
  cbn [length] in *. unfold MAX_PROCESSES.
  assert (Hfr : (if 6 <=? front q + 1 then 0 else front q + 1) = (front q + 1) mod 6).
  { destruct (Z.leb_spec 6 (front q + 1)); zdm. }
  split_and!; cbn [pcbs front rear]; rewrite ?Hfr; try done; try lia; try zdm.
  - intros k Hk. specialize (Hs (k + 1) ltac:(lia)). unfold slot, MAX_PROCESSES in *.
    cbn [pcbs front].
    replace (((front q + 1) mod 6 + k) mod 6) with ((front q + (k + 1)) mod 6) by zdm.
    rewrite Hs, !aget_lookup by lia. replace (Z.to_nat (k + 1)) with (S (Z.to_nat k)) by lia. done.
Qed.

Lemma deque_enqueue_front q p l :
  deque q l -> Z.of_nat (length l) < 6 ->
  exists q', pq_enqueue_front q p = Ok (q', 0) /\ deque q' (p :: l).
Proof.
  intros (Hl1 & Hf & Hl & Hr & Hs) Hlt. unfold pq_enqueue_front, MAX_PROCESSES.
  assert (Hfr : (if front q - 1 <? 0 then 6 - 1 else front q - 1) = (front q - 1) mod 6).
  { destruct (Z.ltb_spec (front q - 1) 0); zdm. }
  rewrite Hfr, set_at_ok by (rewrite Hl1; zdm). eexists. split; [reflexivity|].
  split_and!; cbn [pcbs front rear length]; rewrite ?length_insert; try done; try lia; try zdm.
  - intros k Hk. unfold slot, MAX_PROCESSES in *. cbn [pcbs front].
    rewrite aget_insert by (rewrite Hl1; zdm).
    destruct (Z.eqb_spec ((front q - 1) mod 6) (((front q - 1) mod 6 + k) mod 6)) as [E|E].
    + replace k with 0 by zdm. done.
    + assert (k <> 0) by (intros ->; apply E; zdm).
      replace (((front q - 1) mod 6 + k) mod 6) with ((front q + (k - 1)) mod 6) by zdm.
      rewrite Hs by lia. rewrite !aget_lookup by lia.
      replace (Z.to_nat k) with (S (Z.to_nat (k - 1))) by lia. done.
Qed.

(** Writing the slot after the last element. *)
Lemma deque_snoc q p l r' :
  deque q l -> Z.of_nat (length l) < 6 -> r' = (rear q + 1) mod 6 ->
  set_at (pcbs q) r' p = Ok (<[Z.to_nat r' := p]> (pcbs q)) /\
  deque (ProcessQueue (<[Z.to_nat r' := p]> (pcbs q)) (front q) r') (l ++ [p]).
Proof.
  intros (Hl1 & Hf & Hl & Hr & Hs) Hlt ->. split; [apply set_at_ok; rewrite Hl1; zdm|].
  assert (Hr' : (rear q + 1) mod 6 = (front q + Z.of_nat (length l)) mod 6) by (rewrite Hr; zdm).
  split_and!; cbn [pcbs front rear]; rewrite ?length_insert, ?length_app; cbn [length];
    try done; try lia; try (rewrite Hr'; f_equal; lia).
  intros k Hk. unfold slot, MAX_PROCESSES in *. cbn [pcbs front].
  rewrite aget_insert by (rewrite Hl1; zdm). rewrite Hr', aget_snoc.
  destruct (Z.eqb_spec ((front q + Z.of_nat (length l)) mod 6) ((front q + k) mod 6)),
    (Z.eqb_spec k (Z.of_nat (length l))); subst; try done; try (exfalso; zdm).
  apply Hs. lia.
Qed.

Lemma deque_enqueue q n l :
  deque q l -> Z.of_nat (length l) < 6 -> 0 <= n <= 6 ->
  exists q', pq_enqueue q n = Ok (q', 0) /\ deque q' (l ++ [pcb_addr n]).
Proof.
  intros D Hlt Hn. unfold pq_enqueue, MAX_PROCESSES. rewrite u32_small by lia.
  destruct (Z.ltb_spec 6 n); [lia|].
  assert (Hr : (if 6 - 1 <=? rear q then 0 else rear q + 1) = (rear q + 1) mod 6).
  { destruct D as (_ & _ & _ & Hr & _). destruct (Z.leb_spec (6 - 1) (rear q)); zdm. }
  rewrite Hr. destruct (deque_snoc q (pcb_addr n) l _ D Hlt eq_refl) as [E D'].
  rewrite E. eexists. by split.
Qed.

Lemma deque_rotate q p l :
  deque q (p :: l) ->
  if rear q =? 5 then pq_rotate q = Fault
  else exists q', pq_rotate q = Ok q' /\ deque q' (l ++ [p]) /\ rear q' = rear q + 1.
Proof.
  intros D. destruct (deque_dequeue q p l D) as (q1 & E & D1 & Hr).
  unfold pq_rotate. rewrite E, bind_ok.
  assert (Hrange : 0 <= rear q < 6) by (destruct D as (_ & _ & _ & H & _); rewrite H; zdm).
  assert (Hlen : Z.of_nat (length l) < 6).
  { destruct D as (_ & _ & H & _). cbn [length] in H. lia. }
  destruct (Z.eqb_spec (rear q) 5) as [H5|H5].
  - unfold set_at. destruct D1 as (Hl1 & _). by rewrite aset_None by (rewrite Hl1, Hr, H5; cbn; lia).
  - destruct (deque_snoc q1 p l (rear q1 + 1) D1 Hlen ltac:(rewrite Hr; zdm)) as [E1 D2].
    rewrite E1, bind_ok. eexists. split; [reflexivity|]. split; [done|]. cbn. lia.
Qed.

(** [n] turns of the queue. *)
Fixpoint pq_rotations (n : nat) (q : process_queue) : res process_queue :=
  match n with
  | O => Ok q
  | S n => q ← pq_rotate q; pq_rotations n q
  end.
Fixpoint turn (n : nat) (l : list Z) : list Z :=
  match n, l with
  | S n, p :: l => turn n (l ++ [p])
  | _, _ => l
  end.

Lemma rotations_spec n q l :
  deque q l -> l <> [] ->
  if Z.of_nat n <=? 5 - rear q
  then exists q', pq_rotations n q = Ok q' /\ deque q' (turn n l)
  else pq_rotations n q = Fault.
Proof.
  revert q l. induction n as [|n IH]; intros q l D Hl.
  - assert (0 <= rear q < 6) by (destruct D as (_ & _ & _ & -> & _); zdm).
    destruct (Z.leb_spec (Z.of_nat 0) (5 - rear q)); [|lia]. by exists q.
  - destruct l as [|p l]; [done|]. pose proof (deque_rotate q p l D) as R. cbn [pq_rotations turn].
    assert (0 <= rear q < 6) by (destruct D as (_ & _ & _ & -> & _); zdm).
    destruct (Z.eqb_spec (rear q) 5) as [H5|H5].
    + rewrite R. destruct (Z.leb_spec (Z.of_nat (S n)) (5 - rear q)); [lia|done].
    + destruct R as (q1 & E & D1 & Hr). rewrite E, bind_ok.
      specialize (IH q1 (l ++ [p]) D1 ltac:(by destruct l)). rewrite Hr in IH.
      destruct (Z.leb_spec (Z.of_nat n) (5 - (rear q + 1))),
        (Z.leb_spec (Z.of_nat (S n)) (5 - rear q)); (done || lia).
Qed.

Lemma rotate_two q p p2 :
  deque q [p; p2] -> rear q < 5 ->
  exists q', pq_rotate q = Ok q' /\ deque q' [p2; p] /\ rear q' = rear q + 1.
Proof.
  intros D Hr. pose proof (deque_rotate q p [p2] D) as R.
  destruct (Z.eqb_spec (rear q) 5); [lia|]. exact R.
Qed.

(** One switch between the two processes of a queue. *)
Lemma change_task_step pd_addr pt_addr own_ebp regs s g tr p p2 b b2 :
  deque (process_q s) [p; p2] -> rear (process_q s) < 5 -> p <> p2 ->
  pcb_heap s !! p = Some b -> pcb_heap s !! p2 = Some b2 -> 0 <= pid b2 < 1023 ->
  kernel_map pd_addr pt_addr g ->
  exists q' g', change_task pd_addr own_ebp regs s g tr =
    Ok (Sched q' (process_count s) (<[p := save_pcb_regs b regs]> (pcb_heap s)), g',
        u32 (ADDR_8MB - pid b2 * ADDR_8KB - 4), send_eoi 0 (cli tr), resume own_ebp b2) /\
    deque q' [p2; p] /\ rear q' = rear (process_q s) + 1 /\ kernel_map pd_addr pt_addr g' /\
    (forall va, 134217728 <= va < 138412032 ->
       walk pd_addr pt_addr g' va = Some (user_base (pid b2) + (va - 134217728), true)).
Proof.
  intros D Hr Hne Hb Hb2 Hpid K.
  destruct (rotate_two _ _ _ D Hr) as (q' & E & D' & Hr').
  destruct (map_user_ok pd_addr pt_addr (pid b2) g K Hpid) as (g' & Eg & K' & W).
  exists q', g'. split; [|done].
  unfold change_task, pcb_upd, pcb_at. rewrite (deque_peak _ _ _ D), bind_ok, Hb. cbn [of_opt].
  rewrite !bind_ok, E, bind_ok, (deque_peak _ _ _ D'), bind_ok, lookup_insert_ne, Hb2 by done.
  cbn [of_opt]. rewrite bind_ok.
  assert (Hbase : forall x y, map_user pd_addr (u32 x) y = map_user pd_addr x y).
  { intros. unfold map_user, init_4mb_user_pde. by rewrite u32_u32. }
  unfold user_base in Eg. rewrite Hbase in Eg. by rewrite Eg.
Qed.

(** ** Properties *)

(** C21 The process queue implements a double-ended queue of at most six PCB
    pointers: starting empty from [pq_init], [pq_enqueue] appends the PCB of a
    process (and refuses a process number above six without touching the
    queue), [pq_enqueue_front] pushes, [pq_peak] reads the first element and
    [pq_dequeue] removes it. *)
Theorem pq_refines_deque (q : process_queue) (l : list Z) (p n big : Z) :
  deque q l -> Z.of_nat (length l) < 6 -> 0 <= n <= 6 -> 6 < u32 big ->
  (exists q0, pq_init q = Ok q0 /\ deque q0 []) /\
  (exists q', pq_enqueue q n = Ok (q', SUCCESS) /\ deque q' (l ++ [pcb_addr n])) /\
  pq_enqueue q big = Ok (q, FAIL) /\
  (exists q', pq_enqueue_front q p = Ok (q', SUCCESS) /\ deque q' (p :: l) /\
     pq_peak q' = Ok p /\ exists q'', pq_dequeue q' = Ok (q'', p) /\ deque q'' l).
Proof.
  intros D Hlt Hn Hbig. split_and!.
  - apply deque_init, D.
  - apply deque_enqueue; [done|done|lia].
  - unfold pq_enqueue, MAX_PROCESSES. destruct (Z.ltb_spec 6 (u32 big)); [done|lia].
  - destruct (deque_enqueue_front q p l D Hlt) as (q' & E & D').
    destruct (deque_dequeue q' p l D') as (q'' & E2 & D2 & _).
    exists q'. split_and!; [done|done|by eapply deque_peak|by exists q''].
Qed.

(** [pq_rotate] turns the queue (first to last) as long as [rear] has not
    reached the end of the array: from a queue whose last element is in slot
    [rear], exactly [5 - rear] rotations work and the next one writes past the
    array, over [front].  From the boot state with three shells that is five
    rotations. *)
Theorem pq_rotate_bound (q : process_queue) (l : list Z) (n : nat) :
  deque q l -> l <> [] ->
  (if Z.of_nat n <=? 5 - rear q
   then exists q', pq_rotations n q = Ok q' /\ deque q' (turn n l)
   else pq_rotations n q = Fault) /\
  (let boot := (q0 ← pq_init (ProcessQueue (replicate 6 NULL) 0 0);
                '(q1, _) ← pq_enqueue_front q0 (pcb_addr 1);
                '(q2, _) ← pq_enqueue_front q1 (pcb_addr 2);
                '(q3, _) ← pq_enqueue_front q2 (pcb_addr 3); Ok q3) in
   (q3 ← boot; pq_rotations 5 q3) <> Fault /\ (q3 ← boot; pq_rotations 6 q3) = Fault).
Proof.
  intros D Hl. split; [by apply rotations_spec|]. vm_compute. by split.
Qed.


(** ** Witnesses *)

Lemma pq_refines_deque_witness :
  deque (ProcessQueue (replicate 6 0) 1 0) [] /\
  exists q', pq_enqueue (ProcessQueue (replicate 6 0) 1 0) 2 = Ok (q', SUCCESS) /\
    deque q' [8372224].
Proof.
  assert (D : deque (ProcessQueue (replicate 6 0) 1 0) []).
  { split_and!; cbn; try done. intros k Hk. lia. }
  split; [exact D|].
  destruct (pq_refines_deque _ [] 0 2 7 D ltac:(cbn; lia) ltac:(lia) eq_refl)
    as (_ & H & _). exact H.
Defined.

Definition demo_queue : process_queue := ProcessQueue [0; 8380416; 8372224; 0; 0; 0] 1 2.
Lemma demo_deque : deque demo_queue [8380416; 8372224].
Proof.
  split_and!; cbn; try done. intros k Hk.
  assert (k = 0 \/ k = 1) as [-> | ->] by lia; done.
Qed.

Lemma pq_rotate_bound_witness :
  exists q', pq_rotations 3 demo_queue = Ok q' /\ deque q' [8372224; 8380416].
Proof. exact (proj1 (pq_rotate_bound demo_queue _ 3 demo_deque ltac:(done))). Defined.

Definition demo_pcb (n : Z) : pcb :=
  Pcb 0 0 0 0 0 0 0 0 0 USER_CS 0 0 0 n 0 0 [] 0.
Definition demo_regs : registers :=
  Registers 1 2 3 4 5 6 7 8 32 0 134512640 USER_CS 70 138412028 USER_DS.
Definition demo_sched : sched :=
  Sched demo_queue 2 (<[8380416 := demo_pcb 1]> {[8372224 := demo_pcb 2]}).

