(* ===== verification/Idt.v ===== *)
(** * idt.c, x86_desc.h: the interrupt descriptor table and the exceptions

    A descriptor is the record of its bit-fields; [gate_of] reads it the way
    the processor does.  The addresses of the handlers of handler.S come from
    the linker: [handler n], [handler_irq n] and [handler_syscall] are
    parameters. *)

From S2P Require Import Prelude Mem Lib Screen Ports Pcb Sched.

Definition USER_DPL : Z := 3.
Definition KERNEL_DPL : Z := 0.
Definition SYSCALL : Z := 128.
Definition NUM_VEC : Z := 256.
Definition SUPPORTED_INT : Z := 18.

Record idt_desc : Type := IdtDesc {
  offset_15_00 : Z; seg_selector : Z; reserved4 : Z; reserved3 : Z; reserved2 : Z;
  reserved1 : Z; size : Z; reserved0 : Z; dpl : Z; present : Z; offset_31_16 : Z }.

(** [SET_IDT_ENTRY] only writes the two halves of the offset. *)
Definition SET_IDT_ENTRY (str : idt_desc) (handler : Z) : idt_desc :=
  IdtDesc (Z.land handler 65535) (seg_selector str) (reserved4 str) (reserved3 str)
    (reserved2 str) (reserved1 str) (size str) (reserved0 str) (dpl str) (present str)
    (Z.shiftr (Z.land handler 4294901760) 16).

Definition idt_set_vector (idt : list idt_desc) (vec dpl handler_address : Z)
    : res (list idt_desc) :=
  d ← get_at idt vec;
  let d := SET_IDT_ENTRY d handler_address in
  set_at idt vec
    (IdtDesc (offset_15_00 d) KERNEL_CS 0 (if vec =? SYSCALL then 0 else 1) 1 1 1 0
       (Z.land dpl 3) 1 (offset_31_16 d)).

Section Table.
Context (handler handler_irq : Z -> Z) (handler_syscall : Z).

(** The calls of [idt_init], in order: vector, privilege, handler. *)
Definition idt_vectors : list (Z * Z * Z) :=
  [(0, KERNEL_DPL, handler 0); (1, KERNEL_DPL, handler 1); (2, KERNEL_DPL, handler 2);
   (3, KERNEL_DPL, handler 3); (4, USER_DPL, handler 4); (5, USER_DPL, handler 5);
   (6, KERNEL_DPL, handler 6); (7, KERNEL_DPL, handler 7); (8, KERNEL_DPL, handler 8);
   (9, KERNEL_DPL, handler 9); (10, KERNEL_DPL, handler 10); (11, KERNEL_DPL, handler 11);
   (12, KERNEL_DPL, handler 12); (13, KERNEL_DPL, handler 13); (14, KERNEL_DPL, handler 14);
   (15, KERNEL_DPL, handler 15); (16, KERNEL_DPL, handler 16); (17, KERNEL_DPL, handler 17);
   (18, KERNEL_DPL, handler 18); (19, KERNEL_DPL, handler 19); (20, KERNEL_DPL, handler 20);
   (21, KERNEL_DPL, handler 21); (22, KERNEL_DPL, handler 22); (23, KERNEL_DPL, handler 23);
   (24, KERNEL_DPL, handler 24); (25, KERNEL_DPL, handler 25); (26, KERNEL_DPL, handler 26);
   (27, KERNEL_DPL, handler 27); (28, KERNEL_DPL, handler 28); (29, KERNEL_DPL, handler 29);
   (30, KERNEL_DPL, handler 30); (31, KERNEL_DPL, handler 31);
   (32, KERNEL_DPL, handler_irq 0); (33, KERNEL_DPL, handler_irq 1);
   (34, KERNEL_DPL, handler_irq 2); (35, KERNEL_DPL, handler_irq 3);
   (36, KERNEL_DPL, handler_irq 4); (38, KERNEL_DPL, handler_irq 6);
   (40, KERNEL_DPL, handler_irq 8); (42, KERNEL_DPL, handler_irq 10);
   (43, KERNEL_DPL, handler_irq 11); (44, KERNEL_DPL, handler_irq 12);
   (45, KERNEL_DPL, handler_irq 13); (46, KERNEL_DPL, handler_irq 14);
   (47, KERNEL_DPL, handler_irq 15); (SYSCALL, USER_DPL, handler_syscall)].

Fixpoint set_vectors (l : list (Z * Z * Z)) (idt : list idt_desc) : res (list idt_desc) :=
  match l with
  | [] => Ok idt
  | (v, d, h) :: l => idt ← idt_set_vector idt v d h; set_vectors l idt
  end.

Definition idt_init (idt : list idt_desc) : res (list idt_desc) := set_vectors idt_vectors idt.
End Table.

(** ** Exceptions *)

Definition int_desc : list String.string :=
  ["divide by zero"; "debug"; "non maskable interrupt"; "breakpoint"; "overflow";
   "bounds check"; "invalid opcode"; "coprocessor not available"; "double fault";
   "reserved"; "ece391invalid TSS"; "segment not present"; "stack exception";
   "general protection fault"; "page fault"; "reserved"; "coprocessor error";
   "alignment error"]%string.

(** [cb]: the stack array of [printf]; [descs]: where the linker puts the
    strings of [int_desc]. *)
Definition idt_report (cb : Z) (descs : list Z) (regs : registers) (s : screen) : res screen :=
  if r_int_num regs <? SUPPORTED_INT then
    '(_, s) ← printf cb (bytes "Error Code: %d" ++ [10]) [r_error_code regs] s;
    d ← get_at descs (r_int_num regs);
    '(_, s) ← printf cb (bytes "Int Num %d: %s" ++ [10]) [r_int_num regs; d] s;
    Ok s
  else
    '(_, s) ← printf cb (bytes "Int Num: %d") [r_int_num regs] s;
    Ok s.

(** [i]: the interrupt flag before the trace.  Every exception but 3 and 4
    ends in the [hlt] loop. *)
Definition idt_handler (i : bool) (cb : Z) (descs : list Z) (regs : registers)
    (s : screen) (tr : trace) : res (screen * trace) :=
  let flags := if_flag i tr in
  let tr := cli tr in
  s ← idt_report cb descs regs s;
  if negb (r_int_num regs =? 3) && negb (r_int_num regs =? 4) then Hang
  else Ok (s, if flags : bool then sti tr else cli tr).

(** ** What the processor reads *)

Record gate : Type := Gate {
  g_target : Z; g_selector : Z; g_dpl : Z; g_present : bool; g_type : Z }.

(** Type 14 is a 32-bit interrupt gate (it clears the interrupt flag), 15 a
    trap gate. *)
Definition gate_of (d : idt_desc) : gate :=
  Gate (offset_31_16 d * 65536 + offset_15_00 d) (seg_selector d) (dpl d) (present d =? 1)
    (reserved3 d + 2 * reserved2 d + 4 * reserved1 d + 8 * size d + 16 * reserved0 d).

Lemma idt_set_vector_gate idt vec dpl h :
  0 <= vec < Z.of_nat (length idt) -> 0 <= h < 4294967296 -> 0 <= dpl < 4 ->
  exists idt', idt_set_vector idt vec dpl h = Ok idt' /\ length idt' = length idt /\
    (forall v, v <> vec -> aget idt' v = aget idt v) /\
    gate_of <$> aget idt' vec =
      Some (Gate h KERNEL_CS dpl true (if vec =? SYSCALL then 14 else 15)).
Proof.
  intros Hv Hh Hd. destruct (aget_is_Some idt vec Hv) as [d E].
  unfold idt_set_vector. rewrite (get_at_ok _ _ _ E), bind_ok, set_at_ok by done.
  eexists. split; [reflexivity|]. split; [by rewrite length_insert|]. split.
  - intros v Hne. rewrite aget_insert by done. by destruct (Z.eqb_spec vec v); [congruence|].
  - rewrite aget_insert, Z.eqb_refl by done. cbn [fmap option_fmap option_map]. f_equal.
    unfold gate_of, SET_IDT_ENTRY. cbn [offset_31_16 offset_15_00 seg_selector Idt.dpl present
      reserved3 reserved2 reserved1 reserved0 size]. f_equal.
    + change 65535 with (Z.ones 16). rewrite Z.land_ones by lia.
      rewrite Z.shiftr_land. change (Z.shiftr 4294901760 16) with (Z.ones 16).
      rewrite Z.land_ones, Z.shiftr_div_pow2 by lia. change (2 ^ 16) with 65536.
      clear - Hh. zdm.
    + change 3 with (Z.ones 2). rewrite Z.land_ones by lia. apply Z.mod_small. done.
    + by destruct (vec =? SYSCALL).
Qed.

Lemma set_vectors_gates l idt :
  NoDup (l.*1.*1) ->
  Forall (fun '(v, d, h) => 0 <= v < Z.of_nat (length idt) /\ 0 <= d < 4 /\ 0 <= h < 4294967296) l ->
  exists idt', set_vectors l idt = Ok idt' /\ length idt' = length idt /\
    (forall v, v ∉ l.*1.*1 -> aget idt' v = aget idt v) /\
    Forall (fun '(v, d, h) => gate_of <$> aget idt' v =
      Some (Gate h KERNEL_CS d true (if v =? SYSCALL then 14 else 15))) l.
Proof.
  revert idt. induction l as [|[[v d] h] l IH]; intros idt Hnd Hf.
  - exists idt. by split_and!.
  - apply Forall_cons in Hf. destruct Hf as [(Hv & Hd & Hh) Hf]. cbn [fmap list_fmap fst] in *.
    apply NoDup_cons in Hnd as [Hnin Hnd].
    destruct (idt_set_vector_gate idt v d h Hv Hh Hd) as (idt1 & E1 & L1 & O1 & G1).
    destruct (IH idt1 Hnd) as (idt2 & E2 & L2 & O2 & G2); [by rewrite L1|].
    exists idt2. cbn [set_vectors]. rewrite E1, bind_ok. split_and!; [done|congruence| |].
    + intros w Hw. apply not_elem_of_cons in Hw. destruct Hw as [Hw1 Hw2]. rewrite O2, O1; done.
    + constructor; [|done]. by rewrite O2.
Qed.

(** ** Properties *)

(** [idt_init] does not fail, and every vector of its list is set. *)
Lemma idt_init_ok (handler handler_irq : Z -> Z) (handler_syscall : Z) (idt : list idt_desc) :
  length idt = 256%nat ->
  (forall n, 0 <= handler n < 4294967296) -> (forall n, 0 <= handler_irq n < 4294967296) ->
  0 <= handler_syscall < 4294967296 ->
  let l := idt_vectors handler handler_irq handler_syscall in
  exists idt', idt_init handler handler_irq handler_syscall idt = Ok idt' /\
    length idt' = length idt /\ (forall v, v ∉ l.*1.*1 -> aget idt' v = aget idt v) /\
    Forall (fun '(v, d, h) => gate_of <$> aget idt' v =
      Some (Gate h KERNEL_CS d true (if v =? SYSCALL then 14 else 15))) l.
Proof.
  intros Hl Hh Hi Hs l. apply set_vectors_gates.
  - cbn -[Z.add]. apply (bool_decide_unpack _). vm_compute. reflexivity.
  - unfold l, idt_vectors, USER_DPL, KERNEL_DPL, SYSCALL.
    repeat constructor; rewrite ?Hl; try apply Hh; try apply Hi; try apply Hs; done.
Qed.

(** [idt_init] on a table of 256 entries installs, for each vector it
    names, a present gate into the kernel's code segment that leads to that
    vector's handler: an interrupt gate callable from user mode for the system
    call, trap gates for the exceptions and the interrupt lines, callable from
    user mode for 4 and 5 only; it leaves every other vector alone (37, 39 and
    41 among the interrupt lines). *)
Theorem idt_init_gates (handler handler_irq : Z -> Z) (handler_syscall : Z)
    (idt : list idt_desc) :
  length idt = 256%nat ->
  (forall n, 0 <= handler n < 4294967296) -> (forall n, 0 <= handler_irq n < 4294967296) ->
  0 <= handler_syscall < 4294967296 ->
  exists idt', idt_init handler handler_irq handler_syscall idt = Ok idt' /\
    (forall v, 0 <= v < 32 -> gate_of <$> aget idt' v =
       Some (Gate (handler v) KERNEL_CS (if (v =? 4) || (v =? 5) then 3 else 0) true 15)) /\
    (forall n, 0 <= n < 16 -> negb ((n =? 5) || (n =? 7) || (n =? 9)) = true ->
       gate_of <$> aget idt' (32 + n) = Some (Gate (handler_irq n) KERNEL_CS 0 true 15)) /\
    gate_of <$> aget idt' SYSCALL = Some (Gate handler_syscall KERNEL_CS 3 true 14) /\
    (forall v, 48 <= v -> v <> SYSCALL -> aget idt' v = aget idt v) /\
    (forall v, v = 37 \/ v = 39 \/ v = 41 -> aget idt' v = aget idt v).
Proof.
  intros Hl Hh Hi Hs.
  destruct (idt_init_ok handler handler_irq handler_syscall idt Hl Hh Hi Hs) as (idt' & E & _ & O & G).
  exists idt'. split; [exact E|]. unfold idt_vectors in G.
  repeat (apply Forall_cons in G as [? G]). clear G E.
  split_and!.
  - intros v Hv. range_cases v 32; done.
  - intros n Hn Hx. range_cases n 16; done.
  - done.
  - intros v Hv Hne. apply O. cbn. unfold SYSCALL in *. rewrite !elem_of_cons, elem_of_nil. lia.
  - intros v Hv. apply O. cbn. unfold SYSCALL. rewrite !elem_of_cons, elem_of_nil. lia.
Qed.

(** The text of a report. *)
Definition report (n err : Z) : list Z :=
  if n <? SUPPORTED_INT then
    bytes "Error Code: " ++ dec32 err ++ [10] ++ bytes "Int Num " ++ dec32 n ++ bytes ": "
    ++ bytes (default "" (aget int_desc n))%string ++ [10]
  else bytes "Int Num: " ++ dec32 n.

(** The linker's strings are where [descs] says, as [strs] reads them. *)
Definition descs_ok (descs : list Z) (strs : Z -> option (list Z)) : Prop :=
  forall n, 0 <= n < SUPPORTED_INT -> exists d str,
    aget descs n = Some d /\ aget int_desc n = Some str /\ strs d = Some (bytes str) /\
    0 <= d < 4294967296.

Lemma idt_report_prints cb descs strs regs s :
  in_space cb 64 -> off_screen cb 64 -> scr_cursor s -> strings_at cb strs (vram s) ->
  descs_ok descs strs -> 0 <= r_int_num regs < 4294967296 ->
  0 <= r_error_code regs < 4294967296 ->
  exists s', idt_report cb descs regs s = Ok s' /\
    scr_eq (fun a => ~ (cb <= a < cb + 64)) s'
      (foldl putc s (report (r_int_num regs) (r_error_code regs))).
Proof.
  intros Hcb Hoff Hc Hstr Hd Hn He. unfold idt_report, report.
  destruct (Z.ltb_spec (r_int_num regs) SUPPORTED_INT) as [Hlt|].
  - destruct (Hd (r_int_num regs) ltac:(lia)) as (d & str & E1 & E2 & E3 & E4).
    destruct (printf_step cb strs (bytes "Error Code: %d" ++ [10]) [r_error_code regs]
      (bytes "Error Code: " ++ dec32 (r_error_code regs) ++ [10]) s s
      Hcb Hoff Hc ltac:(reflexivity) Hstr ltac:(by rewrite ?Forall_cons, ?Forall_nil))
      as (s1 & P1 & Q1 & C1 & S1); [by expand_fmt|].
    rewrite P1, bind_ok, (get_at_ok _ _ _ E1), bind_ok.
    destruct (printf_step cb strs (bytes "Int Num %d: %s" ++ [10]) [r_int_num regs; d]
      (bytes "Int Num " ++ dec32 (r_int_num regs) ++ bytes ": " ++ bytes str ++ [10]) s1 _
      Hcb Hoff C1 Q1 S1 ltac:(by rewrite ?Forall_cons, ?Forall_nil))
      as (s2 & P2 & Q2 & _); [expand_fmt; by rewrite E3|].
    rewrite P2, bind_ok. eexists. split; [reflexivity|].
    rewrite Q2, E2, <- foldl_app, <- !app_assoc. reflexivity.
  - destruct (printf_step cb strs (bytes "Int Num: %d") [r_int_num regs]
      (bytes "Int Num: " ++ dec32 (r_int_num regs)) s s
      Hcb Hoff Hc ltac:(reflexivity) Hstr ltac:(by rewrite ?Forall_cons, ?Forall_nil))
      as (s1 & P1 & Q1 & _); [expand_fmt; cbn [mbind option_bind fmap option_fmap option_map]; by rewrite app_nil_r|].
    rewrite P1, bind_ok. by exists s1.
Qed.

(** [idt_handler] reports the exception (error code, number and name; the
    number alone from 18 on) and then stops the machine for every exception
    but the breakpoint (3) and the overflow (4), which it returns from with
    the interrupt flag restored. *)
Theorem idt_handler_reports (i : bool) (cb : Z) (descs : list Z)
    (strs : Z -> option (list Z)) (regs : registers) (s : screen) (tr : trace) :
  in_space cb 64 -> off_screen cb 64 -> scr_cursor s -> strings_at cb strs (vram s) ->
  descs_ok descs strs -> 0 <= r_int_num regs < 4294967296 ->
  0 <= r_error_code regs < 4294967296 ->
  exists s', idt_report cb descs regs s = Ok s' /\
    scr_eq (fun a => ~ (cb <= a < cb + 64)) s'
      (foldl putc s (report (r_int_num regs) (r_error_code regs))) /\
    if (r_int_num regs =? 3) || (r_int_num regs =? 4)
    then exists tr', idt_handler i cb descs regs s tr = Ok (s', tr') /\ if_flag i tr' = if_flag i tr
    else idt_handler i cb descs regs s tr = Hang.
Proof.
  intros Hcb Hoff Hc Hstr Hd Hn He.
  destruct (idt_report_prints cb descs strs regs s Hcb Hoff Hc Hstr Hd Hn He) as (s' & E & Q).
  exists s'. split_and!; [done|done|]. unfold idt_handler. rewrite E, bind_ok.
  destruct (r_int_num regs =? 3), (r_int_num regs =? 4); cbn; try done;
    eexists; (split; [reflexivity|]); by destruct (if_flag i tr).
Qed.

(** ** Witnesses *)

Lemma idt_init_gates_witness :
  exists idt', idt_init (fun n => 4194304 + 16 * (n mod 32)) (fun n => 4198400 + n mod 16) 4202496
      (replicate 256 (IdtDesc 0 0 0 0 0 0 0 0 0 0 0)) = Ok idt' /\
    gate_of <$> aget idt' 14 = Some (Gate 4194528 KERNEL_CS 0 true 15).
Proof.
  destruct (idt_init_gates (fun n => 4194304 + 16 * (n mod 32)) (fun n => 4198400 + n mod 16)
    4202496 (replicate 256 (IdtDesc 0 0 0 0 0 0 0 0 0 0 0)) eq_refl
    ltac:(intros; cbv beta; zdm) ltac:(intros; cbv beta; zdm) ltac:(lia)) as (idt' & H1 & H2 & _).
  exists idt'. split; [exact H1|]. exact (H2 14 ltac:(lia)).
Defined.

(** The eighteen strings, 32 bytes apart, from address 5000. *)
Definition demo_descs : list Z := (fun k => 5000 + 32 * k) <$> seqZ 0 18.
Definition demo_desc_strs (a : Z) : option (list Z) :=
  if ((a - 5000) mod 32 =? 0) && (5000 <=? a) then bytes <$> aget int_desc ((a - 5000) / 32) else None.
Definition demo_desc_mem : mem :=
  foldl (fun m k => store_list m (5000 + 32 * k) (bytes (default ""%string (aget int_desc k)) ++ [0]))
    ∅ (seqZ 0 18).

Lemma demo_descs_ok : descs_ok demo_descs demo_desc_strs.
Proof.
  intros n Hn. unfold SUPPORTED_INT in Hn.
  range_cases n 18; (eexists _, _; split_and!; [reflexivity..|vm_compute; congruence|vm_compute; reflexivity]).
Qed.
Lemma demo_strings : strings_at 2000 demo_desc_strs demo_desc_mem.
Proof.
  intros a l. unfold demo_desc_strs.
  destruct (Z.eqb_spec ((a - 5000) mod 32) 0), (Z.leb_spec 5000 a); cbn [andb]; try done.
  intros E. destruct (aget int_desc ((a - 5000) / 32)) as [str|] eqn:E2; [|done].
  pose proof (aget_Some_lt _ _ _ E2) as Hr. change (Z.of_nat (length int_desc)) with 18 in Hr.
  set (k := (a - 5000) / 32) in *. assert (Ha : a = 5000 + 32 * k) by (unfold k; zdm).
  clearbody k. subst a. cbn in E. injection E as <-.
  range_cases k 18; injection E2 as <-; unfold in_space, off_screen, VIDEO;
    (split_and!; [apply is_cstr_dec; vm_compute; reflexivity|cbn; lia..]).
Qed.

Lemma idt_handler_reports_witness :
  exists s', idt_report 2000 demo_descs
      (Registers 0 0 0 0 0 0 0 0 14 2 134512640 USER_CS 0 0 0) (Screen demo_desc_mem 0 0) = Ok s' /\
    idt_handler true 2000 demo_descs
      (Registers 0 0 0 0 0 0 0 0 14 2 134512640 USER_CS 0 0 0) (Screen demo_desc_mem 0 0) [] = Hang.
Proof.
  destruct (idt_handler_reports true 2000 demo_descs demo_desc_strs
    (Registers 0 0 0 0 0 0 0 0 14 2 134512640 USER_CS 0 0 0) (Screen demo_desc_mem 0 0) [])
    as (s' & H1 & _ & H2).
  - unfold in_space; lia.
  - unfold off_screen, VIDEO; lia.
  - unfold scr_cursor, cursor_ok, in_grid; cbn; lia.
  - exact demo_strings.
  - exact demo_descs_ok.
  - cbn; lia.
  - cbn; lia.
  - exists s'. split; [exact H1|exact H2].
Defined.
