(* ===== verification/Filesys.v ===== *)
(** * filesys_mod.c: the read-only file system image

    The boot block is read once by [filesys_init]; lookups and reads walk the
    image in memory.  A [dentry_t] is a region of memory (name at 0, type at
    33, inode number at 36).  [file_byte] is the abstract content of a file
    through its table of data blocks; [read_data] is shown to copy it. *)

From S2P Require Import Prelude Mem Lib Pcb.

Definition DENTRY_SIZE : Z := 64.
Definition FS_FIELD_SIZE : Z := 4.
Definition KB4 : Z := 4096.
Definition MAX_DBLOCKS_PER_FILE : Z := 1023.
Definition MAX_DENTRIES : Z := 63.

Record boot_block : Type := BootBlock {
  filesys_ptr : Z; num_dir_entries : Z; num_inodes : Z; num_data_blocks : Z;
  dir_entries : list Z; inode_blocks : Z; data_blocks : Z }.

(** [d_idx] walks the array [dir_entries], [filename_ptr] the image. *)
Definition filesys_init (m : mem) (file_sys_start : Z) (fs : boot_block) : res boot_block :=
  let p := file_sys_start in
  let n_dir := load32 m p in
  let p := u32 (p + 4) in
  let n_inodes := load32 m p in
  let p := u32 (p + 4) in
  let n_blocks := load32 m p in
  let p := u32 (p + 4) in
  let p := u32 (p + 52) in
  '(dirs, filename_ptr) ← forM (seqZ 0 MAX_DENTRIES)
    (fun '(dirs, filename_ptr) d_idx =>
       dirs ← set_at dirs d_idx filename_ptr;
       Ok (dirs, u32 (filename_ptr + DENTRY_SIZE))) (dir_entries fs, p);
  Ok (BootBlock file_sys_start n_dir n_inodes n_blocks dirs filename_ptr
        (u32 (filename_ptr + n_inodes * KB4))).

(** ** Directory entries *)

Definition DE_TYPE : Z := 33.
Definition DE_INODE : Z := 36.

(** The copy of the entry at [fs_dentry_ptr] into [*dentry], its name taken
    from [name]. *)
Definition fill_dentry (m : mem) (dentry name fs_dentry_ptr : Z) : res mem :=
  m ← strcpy m dentry name;
  let p := u32 (fs_dentry_ptr + FNAME_LENGTH) in
  let m := store8 m (dentry + DE_TYPE) (load8 m p) in
  let p := u32 (p + FS_FIELD_SIZE) in
  Ok (store32 m (dentry + DE_INODE) (load32 m p)).

(** The comparison of one turn of the search loop. *)
Definition dentry_compare (m : mem) (fname fname_len dentry_filename : Z) : res Z :=
  len ← strlen m dentry_filename;
  if u8 len =? fname_len then strncmp m fname dentry_filename fname_len else Ok 1.

Definition read_dentry_by_name (fs : boot_block) (m : mem) (fname dentry : Z) : res (mem * Z) :=
  if (fname =? NULL) || (dentry =? NULL) then Ok (m, -1)
  else
    len ← strlen m fname;
    let fname_len := u8 len in
    while (fun check =>
      if check <? num_dir_entries fs then
        match (e ← get_at (dir_entries fs) check;
               compare ← dentry_compare m fname fname_len e; Ok (e, compare)) with
        | Ok (e, compare) =>
          if compare =? 0
          then inr (m ← fill_dentry m dentry fname e; Ok (m, 0))
          else inl (check + 1)
        | Fault => inr Fault
        | Hang => inr Hang
        end
      else inr (Ok (m, -1))) 0.

Definition read_dentry_by_index (fs : boot_block) (m : mem) (index dentry : Z) : res (mem * Z) :=
  if (num_dir_entries fs <=? index) || (dentry =? NULL) then Ok (m, -1)
  else
    e ← get_at (dir_entries fs) index;
    m ← fill_dentry m dentry e e;
    Ok (m, 0).

(** ** Data *)

Definition inode_ptr (fs : boot_block) (inode : Z) : Z :=
  u32 (filesys_ptr fs + KB4 * (inode + 1)).

(** [inode->dblock_numbers[check]], and the address of byte [offset] of that
    block. *)
Definition block_byte (fs : boot_block) (m : mem) (ino check offset : Z) : res Z :=
  if (0 <=? check) && (check <? MAX_DBLOCKS_PER_FILE)
  then Ok (u32 (data_blocks fs + KB4 * load32 m (ino + 4 + 4 * check) + offset))
  else Fault.

Record cursor : Type := Cursor {
  cu_m : mem; cu_buffer : Z; cu_read_bytes : Z; cu_offset : Z; cu_check : Z; cu_block_ct : Z }.

(** One turn of the copy loop. *)
Definition copy_turn (fs : boot_block) (ino : Z) (c : cursor) : cursor + res mem :=
  if 0 <? cu_read_bytes c then
    match block_byte fs (cu_m c) ino (cu_check c) (cu_offset c) with
    | Ok p =>
      if cu_block_ct c <=? 0 then
        inl (Cursor (memcpy (cu_m c) (cu_buffer c) p (cu_read_bytes c)) (cu_buffer c) 0
               (cu_offset c) (cu_check c) (cu_block_ct c))
      else
        let n := u32 (KB4 - cu_offset c) in
        inl (Cursor (memcpy (cu_m c) (cu_buffer c) p n) (u32 (cu_buffer c + n))
               (u32 (cu_read_bytes c - n)) 0 (cu_check c + 1) (cu_block_ct c - 1))
    | _ => inr Fault
    end
  else inr (Ok (cu_m c)).

(** The loop that skips whole blocks of the offset. *)
Definition skip_blocks (offset block_ct : Z) : res (Z * Z * Z) :=
  while (fun '(offset, check, block_ct) =>
    if KB4 <? offset then inl (offset - KB4, check + 1, block_ct - 1)
    else inr (Ok (offset, check, block_ct))) (offset, 0, block_ct).

Definition read_data (fs : boot_block) (m : mem) (inode offset buf length : Z)
    : res (mem * Z) :=
  let ino := inode_ptr fs inode in
  let file_length := load32 m ino in
  let length_check := u32 (file_length - offset) in
  let size_check := KB4 * MAX_DBLOCKS_PER_FILE in
  if size_check <? file_length then Ok (m, -1)
  else
    let trim := file_length <? u32 (offset + length) in
    let adjusted_length := if trim then u32 (file_length - offset) else length in
    let size_total := if trim then u32 (offset + adjusted_length) else u32 (offset + length) in
    if length_check <=? 0 then Ok (m, 0)
    else
      let read_bytes := adjusted_length in
      let block_ct := size_total / KB4 in
      '(offset, check, block_ct) ← skip_blocks offset block_ct;
      m ← while (copy_turn fs ino) (Cursor m buf read_bytes offset check block_ct);
      Ok (m, s32 read_bytes).

(** The image is read through the C structure [boot_block_t], whose
    [num_inodes] is its third word. *)
Definition inode_address (fs : boot_block) (m : mem) (inode : Z) : Z :=
  let start_address := filesys_ptr fs in
  let temporary := u32 (start_address + KB4 + inode * KB4) in
  if load32 m (start_address + 8) <=? inode then NULL else temporary.

(** ** The driver functions *)

Definition open_file : Z := 0.
Definition open_directory : Z := 0.
Definition write_file : Z := -1.
Definition write_directory : Z := -1.
Definition close_file : Z := 0.
Definition close_directory : Z := 0.

(** [de]: the stack address of [dentry_one]; [p] the PCB of the process.  The
    result of the lookup is ignored by the code. *)
Definition read_file (fs : boot_block) (de p : Z) (h : heap) (m : mem) (fd buf nbytes : Z)
    : res (heap * mem * Z) :=
  b ← pcb_at h p;
  e ← get_at (fde b) fd;
  let fname := fname_addr p fd in
  let offset := file_pos e in
  '(m, _) ← read_dentry_by_name fs m fname de;
  '(m, ret_val) ← read_data fs m (load32 m (de + DE_INODE)) offset buf (u32 nbytes);
  let e := FdEntry (fop_ptr e) (inode e) (u32 (offset + ret_val)) (in_use e) in
  l ← set_at (fde b) fd e;
  Ok (<[p := set_fde l b]> h, m, ret_val).

(** [dir_read_count] is a static variable: it is shared by all readers. *)
Definition read_directory (fs : boot_block) (de dir_read_count : Z) (m : mem) (buf : Z)
    : res (mem * Z * Z) :=
  '(m, ret_value) ← read_dentry_by_index fs m dir_read_count de;
  if ret_value =? -1 then Ok (m, 0, 0)
  else
    let dir_read_count := u32 (dir_read_count + 1) in
    m ← strcpy m buf de;
    bytes_read ← strlen m buf;
    Ok (m, dir_read_count, s32 bytes_read).

(** ** The content of a file *)

Definition block_addr (fs : boot_block) (m : mem) (ino k : Z) : Z :=
  data_blocks fs + KB4 * load32 m (ino + 4 + 4 * k).
Definition file_byte (fs : boot_block) (m : mem) (ino i : Z) : Z :=
  load8 m (block_addr fs m ino (i / KB4) + i mod KB4).

(** [a, a + n) and [b, b + k) have no byte in common. *)
Definition apart (a n b k : Z) : Prop := a + n <= b \/ b + k <= a.

Section ReadData.
Context (fs : boot_block) (m : mem) (ino flen : Z).

(** The inode and the blocks of the file are in the address space. *)
Record file_ok : Prop := FileOk {
  fo_ino : 0 <= ino /\ ino + KB4 <= 4294967296;
  fo_len : flen = load32 m ino /\ flen <= KB4 * MAX_DBLOCKS_PER_FILE;
  fo_blocks : forall k, 0 <= k -> k * KB4 < flen ->
    0 <= block_addr fs m ino k /\ block_addr fs m ino k + KB4 <= 4294967296 }.

(** The destination [buf, buf + n) touches neither. *)
Definition dest_ok (buf n : Z) : Prop :=
  in_space buf n /\ apart buf n ino KB4 /\
  forall k, 0 <= k -> k * KB4 < flen -> apart buf n (block_addr fs m ino k) KB4.

Context (buf off0 n : Z).
Hypothesis Hf : file_ok.
Hypothesis Hd : dest_ok buf n.
Hypothesis Hoff : 0 <= off0.
Hypothesis Hn : 0 <= n.
Hypothesis Hend : off0 + n <= flen.

Definition copied (c : cursor) (pos : Z) : Prop :=
  writes m (cu_m c) buf (pos - off0) (fun i => file_byte fs m ino (off0 + i)).

(** The invariant of the copy loop: the file position is
    [cu_check * 4096 + cu_offset]. *)
Definition copy_inv (c : cursor) : Prop :=
  let pos := cu_check c * KB4 + cu_offset c in
  (cu_read_bytes c = 0 /\ copied c (off0 + n)) \/
  (0 < cu_read_bytes c /\ cu_read_bytes c = off0 + n - pos /\ 0 <= cu_check c /\
   0 <= cu_offset c <= KB4 /\ off0 <= pos /\
   cu_block_ct c = (off0 + n) / KB4 - cu_check c /\
   cu_buffer c = u32 (buf + (pos - off0)) /\ copied c pos).

(** A block copy from the file to the buffer extends the copied prefix. *)
Lemma copy_extend c k :
  0 <= k -> 0 <= cu_check c -> 0 <= cu_offset c -> cu_offset c + k <= KB4 ->
  off0 <= cu_check c * KB4 + cu_offset c -> cu_check c * KB4 + cu_offset c + k <= off0 + n ->
  cu_check c * KB4 < flen -> copied c (cu_check c * KB4 + cu_offset c) ->
  exists p, block_byte fs (cu_m c) ino (cu_check c) (cu_offset c) = Ok p /\
    writes m (memcpy (cu_m c) (u32 (buf + (cu_check c * KB4 + cu_offset c - off0))) p k)
      buf (cu_check c * KB4 + cu_offset c + k - off0) (fun i => file_byte fs m ino (off0 + i)).
Proof.
  intros Hk Hc Ho Hok Hpos Hle Hlt W. unfold copied in W.
  destruct Hf as [[I1 I2] [L1 L2] B]. destruct Hd as ((S1 & _ & S2) & A1 & A2).
  destruct (B _ Hc Hlt) as [B1 B2]. specialize (A2 _ Hc Hlt).
  set (pos := cu_check c * KB4 + cu_offset c) in *.
  unfold apart, block_addr, KB4, MAX_DBLOCKS_PER_FILE in *.
  unfold block_byte, KB4, MAX_DBLOCKS_PER_FILE.
  destruct (Z.leb_spec 0 (cu_check c)), (Z.ltb_spec (cu_check c) 1023); try lia. cbn [andb].
  assert (Hld : load32 (cu_m c) (ino + 4 + 4 * cu_check c) = load32 m (ino + 4 + 4 * cu_check c)).
  { apply load32_ext. intros i Hi. apply (writes_out _ _ _ _ _ _ W); unfold addr; lia. }
  rewrite Hld. eexists. split; [reflexivity|].
  set (b := data_blocks fs + 4096 * load32 m (ino + 4 + 4 * cu_check c)) in *.
  destruct (Z.eq_dec k 0) as [->|Hk0].
  { eapply writes_ext; [|replace (pos + 0 - off0) with (pos - off0) by lia;
      unfold memcpy; cbn; exact W]. done. }
  replace (u32 (b + cu_offset c)) with (b + cu_offset c)
    by (rewrite u32_small; [done|lia]).
  rewrite (u32_small (buf + (pos - off0))) by lia.
  assert (W2 := memcpy_writes (cu_m c) (buf + (pos - off0)) (b + cu_offset c) k).
  unfold in_space, fwd_ok in W2. do 4 (specialize (W2 ltac:(lia))).
  replace (pos + k - off0) with ((pos - off0) + k) by lia.
  assert (W3 := writes_app _ _ _ _ _ _ _ _ (proj2 (Z.le_0_sub _ _) Hpos) Hk W W2).
  eapply writes_ext; [|exact W3]. intros i Hi. cbv beta.
  destruct (Z.ltb_spec i (pos - off0)); [done|].
  rewrite (writes_out _ _ _ _ _ _ W) by (unfold addr; lia).
  unfold file_byte, block_addr, KB4.
  replace ((off0 + i) / 4096) with (cu_check c) by (subst pos; zdm).
  fold b. f_equal. subst pos. zdm.
Qed.

Lemma copy_turn_spec c :
  copy_inv c ->
  match copy_turn fs ino c with
  | inl c' => copy_inv c' /\
      0 <= 2 * cu_read_bytes c' + (if cu_offset c' =? 0 then 0 else 1)
        < 2 * cu_read_bytes c + (if cu_offset c =? 0 then 0 else 1)
  | inr r => exists m', r = Ok m' /\ writes m m' buf n (fun i => file_byte fs m ino (off0 + i))
  end.
Proof.
  intros [[H0 W]|(Hr & Hrb & Hc & Ho & Hpos & Hb & Hbuf & W)].
  - unfold copy_turn. rewrite H0. cbn. exists (cu_m c). split; [done|].
    unfold copied in W. by replace (off0 + n - off0) with n in W by lia.
  - unfold copy_turn. destruct (Z.ltb_spec 0 (cu_read_bytes c)); [|lia].
    pose proof (fo_len Hf) as HL. unfold KB4, MAX_DBLOCKS_PER_FILE in HL.
    assert (Hlt : cu_check c * KB4 < flen) by (unfold KB4 in *; lia).
    destruct (Z.leb_spec (cu_block_ct c) 0) as [Hlast|Hmore].
    + destruct (copy_extend c (cu_read_bytes c)) as (p & E & W'); try done; try lia.
      { unfold KB4 in *. zdm. }
      rewrite E. split; [|cbn; case_match; lia]. left. cbn. split; [done|].
      unfold copied. cbn. rewrite Hbuf.
      replace (off0 + n - off0) with (cu_check c * KB4 + cu_offset c + cu_read_bytes c - off0)
        by lia. exact W'.
    + assert (Hfull : KB4 - cu_offset c <= cu_read_bytes c) by (unfold KB4 in *; zdm).
      destruct (copy_extend c (KB4 - cu_offset c)) as (p & E & W'); try done; try lia.
      rewrite E. rewrite (u32_small (KB4 - cu_offset c)) by (unfold KB4 in *; lia).
      rewrite (u32_small (cu_read_bytes c - _)) by (unfold KB4 in *; lia).
      split; [|cbn; unfold KB4 in *; destruct (Z.eqb_spec (cu_offset c) 0); lia].
      assert (Hnext : (cu_check c + 1) * KB4 + 0 = cu_check c * KB4 + cu_offset c + (KB4 - cu_offset c))
        by lia.
      destruct (Z.eq_dec (cu_read_bytes c) (KB4 - cu_offset c)) as [Heq|Hne].
      * left. cbn. split; [lia|]. unfold copied. cbn. rewrite Hbuf.
        replace (off0 + n - off0) with (cu_check c * KB4 + cu_offset c + (KB4 - cu_offset c) - off0)
          by lia. exact W'.
      * right. cbn. rewrite Hnext. split_and!; try lia; unfold KB4 in *; try lia.
        -- rewrite Hbuf, u32_add_l. f_equal. lia.
        -- unfold copied. cbn. rewrite Hbuf. exact W'.
Qed.

Lemma copy_loop c :
  copy_inv c -> cu_read_bytes c <= n ->
  exists m', while (copy_turn fs ino) c = Ok m' /\
    writes m m' buf n (fun i => file_byte fs m ino (off0 + i)).
Proof.
  intros Hc Hle. pose proof (fo_len Hf) as HL. unfold KB4, MAX_DBLOCKS_PER_FILE in HL.
  apply (while_rule _ copy_inv
    (fun c => 2 * cu_read_bytes c + (if cu_offset c =? 0 then 0 else 1))); [done| |].
  - assert (0 <= cu_read_bytes c) by (destruct Hc as [[-> _]|[? _]]; lia).
    case_match; lia.
  - intros s Hs. pose proof (copy_turn_spec s Hs) as H. destruct (copy_turn fs ino s); exact H.
Qed.
End ReadData.

Lemma skip_blocks_spec offset block_ct :
  0 <= offset < 4294967296 ->
  exists o c, skip_blocks offset block_ct = Ok (o, c, block_ct - c) /\
    offset = c * KB4 + o /\ 0 <= c /\ 0 <= o <= KB4 /\ (c = 0 \/ 0 < o).
Proof.
  intros Ho. unfold skip_blocks, KB4.
  apply (while_rule _ (fun '(o, c, b) => offset = c * 4096 + o /\ 0 <= c /\ 0 <= o /\
                          b = block_ct - c /\ (c = 0 \/ 0 < o)) (fun '(o, _, _) => o));
    [lia|lia|].
  intros [[o c] b] (E & Hc & Hop & -> & Hx).
  destruct (Z.ltb_spec 4096 o); [lia|].
  exists o, c. split_and!; lia || done.
Qed.

Lemma read_data_spec fs m inode off buf len flen :
  file_ok fs m (inode_ptr fs inode) flen -> 0 <= off <= flen -> 0 <= len ->
  off + len < 4294967296 ->
  dest_ok fs m (inode_ptr fs inode) flen buf (Z.min len (flen - off)) ->
  exists m', read_data fs m inode off buf len = Ok (m', Z.min len (flen - off)) /\
    writes m m' buf (Z.min len (flen - off))
      (fun i => file_byte fs m (inode_ptr fs inode) (off + i)).
Proof.
  intros Hf Ho Hl Hsum Hd. set (n := Z.min len (flen - off)) in *.
  pose proof Hf as [_ [HL1 HL2] _]. unfold KB4, MAX_DBLOCKS_PER_FILE in HL2.
  unfold read_data. rewrite <- HL1. unfold MAX_DBLOCKS_PER_FILE.
  destruct (Z.ltb_spec (KB4 * 1023) flen); [unfold KB4 in *; lia|].
  rewrite (u32_small (off + len)), (u32_small (flen - off)) by lia.
  replace (if flen <? off + len then flen - off else len) with n
    by (destruct (Z.ltb_spec flen (off + len)); lia).
  replace (if flen <? off + len then u32 (off + n) else off + len) with (off + n)
    by (destruct (Z.ltb_spec flen (off + len)); [rewrite u32_small|]; lia).
  destruct (Z.leb_spec (flen - off) 0) as [He|He].
  { exists m. replace n with 0 by lia. split; [done|]. by apply writes_nil. }
  destruct (skip_blocks_spec off ((off + n) / KB4) ltac:(lia)) as (o & c & E & Hoc & Hc & Hop & Hx).
  rewrite E, bind_ok.
  destruct (copy_loop fs m (inode_ptr fs inode) flen buf off n Hf Hd ltac:(lia) ltac:(lia) ltac:(lia)
    (Cursor m buf n o c ((off + n) / KB4 - c))) as (m' & E' & W); [|cbn; lia|].
  - destruct (Z.eq_dec n 0) as [H0|H0].
    + left. cbn. split; [done|]. unfold copied. cbn. apply writes_nil. lia.
    + right. cbn. rewrite <- Hoc. split_and!; try lia; try done.
      * destruct Hd as ((S1 & _ & S2) & _). rewrite u32_small; lia.
      * unfold copied. cbn. apply writes_nil. lia.
  - rewrite E', bind_ok, s32_small by lia. by exists m'.
Qed.

(** ** Lookups *)

Section Lookup.
Context (fs : boot_block) (m : mem) (dentry : Z).

(** The 40 bytes of [*dentry] that are assigned. *)
Definition dentry_at (m' : mem) (l : list Z) (e : Z) : Prop :=
  is_cstr m' dentry l /\
  load8 m' (dentry + DE_TYPE) = load8 m (e + FNAME_LENGTH) /\
  load32 m' (dentry + DE_INODE) = load32 m (e + FNAME_LENGTH + FS_FIELD_SIZE) /\
  same_outside dentry (dentry + 40) m m'.

Hypothesis Hde : in_space dentry 40.

Lemma fill_dentry_spec name e l :
  is_cstr m name l -> Z.of_nat (length l) <= FNAME_LENGTH ->
  in_space name (Z.of_nat (length l) + 1) -> apart dentry 40 name (Z.of_nat (length l) + 1) ->
  in_space e DENTRY_SIZE -> apart dentry 40 e DENTRY_SIZE ->
  exists m', fill_dentry m dentry name e = Ok m' /\ dentry_at m' l e.
Proof.
  unfold apart, in_space, FNAME_LENGTH, DENTRY_SIZE in *.
  intros Hn Hl Hsn Han Hse Hae. unfold fill_dentry.
  destruct (strcpy_cstr m dentry name l) as (m1 & E & W); try done;
    unfold in_space, fwd_ok; try lia.
  rewrite E, bind_ok. eexists. split; [reflexivity|].
  unfold dentry_at, FNAME_LENGTH, FS_FIELD_SIZE, DE_TYPE, DE_INODE.
  rewrite (u32_small (e + 32)), (u32_small (e + 32 + 4)) by lia.
  set (m2 := store8 m1 (dentry + 33) _).
  assert (H1 : forall a, addr a -> a < dentry \/ dentry + 40 <= a -> load8 m1 a = load8 m a).
  { intros a Ha Hout. apply (writes_out _ _ _ _ _ _ W Ha). lia. }
  assert (H2 : forall a, addr a -> a <> dentry + 33 -> load8 m2 a = load8 m1 a).
  { intros a Ha Hne. unfold m2. by apply load8_store8_ne; try (unfold addr; lia). }
  assert (Hino : load32 m2 (e + 32 + 4) = load32 m (e + 32 + 4)).
  { apply load32_ext. intros i Hi. rewrite H2, H1 by (unfold addr; lia). done. }
  rewrite Hino. set (v := load32 m (e + 32 + 4)).
  pose proof (writes_store32 m2 (dentry + 36) v ltac:(lia) ltac:(lia)) as W3.
  split_and!.
  - eapply is_cstr_move; [|exact Hn]. intros i Hi.
    rewrite (writes_out _ _ _ _ _ _ W3) by (unfold addr; lia).
    rewrite H2 by (unfold addr; lia). by rewrite (writes_in _ _ _ _ _ _ W) by lia.
  - rewrite (writes_out _ _ _ _ _ _ W3) by (unfold addr; lia).
    unfold m2. rewrite load8_store8_eq. rewrite H1 by (unfold addr; lia).
    apply u8_small, load8_range.
  - rewrite load32_store32 by lia. apply u32_small. apply load32_range.
  - intros a Ha Hout. rewrite (writes_out _ _ _ _ _ _ W3) by (done || lia).
    rewrite H2, H1 by (done || lia). done.
Qed.

(** The directory: the names of its [num_dir_entries] entries. *)
Context (names : Z -> list Z).
Record dir_ok : Prop := DirOk {
  do_count : 0 <= num_dir_entries fs <= MAX_DENTRIES;
  do_entry : forall k, 0 <= k < num_dir_entries fs -> exists e,
    aget (dir_entries fs) k = Some e /\ in_space e DENTRY_SIZE /\ apart dentry 40 e DENTRY_SIZE /\
    is_cstr m e (names k) /\ Z.of_nat (length (names k)) < 256 }.
Hypothesis Hdir : dir_ok.

Lemma dentry_compare_spec fname l k e :
  is_cstr m fname l -> Z.of_nat (length l) < 256 -> is_cstr m e (names k) ->
  Z.of_nat (length (names k)) < 256 ->
  exists c, dentry_compare m fname (Z.of_nat (length l)) e = Ok c /\ (c = 0 <-> names k = l).
Proof.
  intros Hl Hll He Hle. unfold dentry_compare.
  rewrite (strlen_cstr _ _ _ He), bind_ok by lia. rewrite u8_small by lia.
  destruct (Z.eqb_spec (Z.of_nat (length (names k))) (Z.of_nat (length l))) as [E|E].
  - rewrite (strncmp_cstr _ _ _ _ _ _ Hl He) by lia. eexists. split; [reflexivity|].
    rewrite Nat2Z.id, ncmp_zero by (by eapply is_cstr_chars).
    rewrite !firstn_all2 by lia. split; congruence.
  - exists 1. split; [done|]. split; [lia|]. intros <-. lia.
Qed.

Lemma read_dentry_by_name_spec fname l :
  is_cstr m fname l -> Z.of_nat (length l) <= FNAME_LENGTH -> fname <> NULL -> dentry <> NULL ->
  in_space fname (Z.of_nat (length l) + 1) -> apart dentry 40 fname (Z.of_nat (length l) + 1) ->
  (exists k e m', 0 <= k < num_dir_entries fs /\ names k = l /\
     (forall j, 0 <= j < k -> names j <> l) /\ aget (dir_entries fs) k = Some e /\
     read_dentry_by_name fs m fname dentry = Ok (m', 0) /\ dentry_at m' l e) \/
  ((forall k, 0 <= k < num_dir_entries fs -> names k <> l) /\
   read_dentry_by_name fs m fname dentry = Ok (m, -1)).
Proof.
  intros Hl Hll Hfn Hdn Hsp Hap. unfold FNAME_LENGTH, NULL in *.
  unfold read_dentry_by_name, NULL.
  destruct (Z.eqb_spec fname 0), (Z.eqb_spec dentry 0); try done. cbn [orb].
  rewrite (strlen_cstr _ _ _ Hl), bind_ok, u8_small by lia.
  pose proof (do_count Hdir) as HN. unfold MAX_DENTRIES in HN.
  apply (while_rule _
    (fun check => 0 <= check <= num_dir_entries fs /\ forall j, 0 <= j < check -> names j <> l)
    (fun check => num_dir_entries fs - check)); [split; lia|lia|].
  intros check [Hc Hbefore].
  destruct (Z.ltb_spec check (num_dir_entries fs)) as [Hlt|];
    [|right; split; [intros k Hk; apply Hbefore; lia|done]].
  destruct (do_entry Hdir check ltac:(lia)) as (e & E & Hse & Hae & He & Hle).
  destruct (dentry_compare_spec fname l check e Hl ltac:(lia) He Hle) as (c & Ec & Hz).
  rewrite (get_at_ok _ _ _ E), bind_ok, Ec, bind_ok.
  destruct (Z.eqb_spec c 0) as [H0|H0].
  - left. destruct (fill_dentry_spec fname e l Hl Hll Hsp Hap Hse Hae) as (m' & Em & Hd).
    exists check, e, m'. rewrite Em. split_and!; try done; try lia. by apply Hz.
  - split; [|lia]. split; [lia|]. intros j Hj.
    destruct (Z.eq_dec j check) as [->|]; [|apply Hbefore; lia]. by rewrite <- Hz.
Qed.

(** A name of up to 255 characters that no entry has. *)
Lemma read_dentry_absent fname l :
  is_cstr m fname l -> Z.of_nat (length l) < 256 ->
  (forall k, 0 <= k < num_dir_entries fs -> names k <> l) ->
  read_dentry_by_name fs m fname dentry = Ok (m, -1).
Proof.
  intros Hl Hll Hno. unfold read_dentry_by_name. destruct (_ || _); [done|].
  rewrite (strlen_cstr _ _ _ Hl), bind_ok, u8_small by lia.
  pose proof (do_count Hdir) as HN. unfold MAX_DENTRIES in HN.
  apply (while_rule _ (fun check => 0 <= check <= num_dir_entries fs)
    (fun check => num_dir_entries fs - check)); [lia|lia|].
  intros check Hc. destruct (Z.ltb_spec check (num_dir_entries fs)) as [Hlt|]; [|done].
  destruct (do_entry Hdir check ltac:(lia)) as (e & E & _ & _ & He & Hle).
  destruct (dentry_compare_spec fname l check e Hl ltac:(lia) He Hle) as (c & Ec & Hz).
  rewrite (get_at_ok _ _ _ E), bind_ok, Ec, bind_ok.
  destruct (Z.eqb_spec c 0) as [H0|H0]; [|split; lia].
  exfalso. apply (Hno check); [lia|]. by apply Hz.
Qed.
End Lookup.

(** ** Properties *)

(** C11 [read_data] reads a file whose blocks are scattered over the image:
    from any offset up to the end of the file it returns the number of bytes
    that remain, capped by [length], and stores exactly those bytes of the
    file, in order, at the destination, writing nothing else.  The file has at
    most 1023 blocks, the destination touches neither its inode nor its
    blocks, and [offset + length] does not wrap. *)
Theorem read_data_correct (fs : boot_block) (m : mem) (inode off buf len flen : Z) :
  file_ok fs m (inode_ptr fs inode) flen -> 0 <= off <= flen -> 0 <= len ->
  off + len < 4294967296 ->
  dest_ok fs m (inode_ptr fs inode) flen buf (Z.min len (flen - off)) ->
  exists m', read_data fs m inode off buf len = Ok (m', Z.min len (flen - off)) /\
    (forall i, 0 <= i < Z.min len (flen - off) ->
       load8 m' (buf + i) = file_byte fs m (inode_ptr fs inode) (off + i)) /\
    same_outside buf (buf + Z.min len (flen - off)) m m'.
Proof.
  intros Hf Ho Hl Hsum Hd.
  destruct (read_data_spec fs m inode off buf len flen Hf Ho Hl Hsum Hd) as (m' & E & W).
  destruct Hd as ((S1 & _ & S2) & _).
  exists m'. split_and!; [done| |by eapply writes_same_outside].
  intros i Hi. by apply (writes_in _ _ _ _ _ i W).
Qed.

(** The bounds checks of [read_data]: a file longer than 1023 blocks is
    refused with -1.  An offset past the end is not refused, because the
    remaining length is computed without a sign: if the offset is in a later
    block than the end, the call copies [file_length - offset] modulo 2^32
    bytes, almost the whole address space, and returns a negative count. *)
Theorem read_data_bounds (fs : boot_block) (m : mem) (inode off buf len : Z) :
  let ino := inode_ptr fs inode in
  let flen := load32 m ino in
  (KB4 * MAX_DBLOCKS_PER_FILE < flen -> read_data fs m inode off buf len = Ok (m, -1)) /\
  (flen <= KB4 * MAX_DBLOCKS_PER_FILE -> flen / KB4 * KB4 + KB4 < off ->
   off <= KB4 * MAX_DBLOCKS_PER_FILE -> flen < u32 (off + len) ->
   exists p, read_data fs m inode off buf len =
     Ok (memcpy m buf p (u32 (flen - off)), flen - off) /\ flen - off < 0 /\
     4290772992 <= u32 (flen - off)).
Proof.
  cbn zeta. set (ino := inode_ptr fs inode). set (flen := load32 m ino).
  assert (HF : 0 <= flen) by apply load32_range.
  unfold KB4, MAX_DBLOCKS_PER_FILE. split.
  - intros Hbig. unfold read_data, KB4, MAX_DBLOCKS_PER_FILE. fold ino. fold flen.
    by destruct (Z.ltb_spec (4096 * 1023) flen); [|lia].
  - intros Hle Hoff Hmax Hsum. unfold read_data, MAX_DBLOCKS_PER_FILE. fold ino. fold flen.
    destruct (Z.ltb_spec (KB4 * 1023) flen); [unfold KB4 in *; lia|].
    destruct (Z.ltb_spec flen (u32 (off + len))); [|lia].
    assert (Hneg : u32 (flen - off) = flen - off + 4294967296) by words.
    assert (Htot : u32 (off + u32 (flen - off)) = flen) by words.
    rewrite Htot. destruct (Z.leb_spec (u32 (flen - off)) 0); [lia|].
    destruct (skip_blocks_spec off (flen / KB4) ltac:(zdm)) as (o & c & E & Hoc & Hc & Hop & Hx).
    rewrite E, bind_ok. unfold KB4 in *.
    assert (Hcb : flen / 4096 - c <= 0 /\ c < 1023) by (split; zdm).
    assert (Hpos : 0 < u32 (flen - off)) by lia.
    set (p := u32 (data_blocks fs + 4096 * load32 m (ino + 4 + 4 * c) + o)).
    exists p. split; [|zdm].
    assert (Hs : s32 (u32 (flen - off)) = flen - off) by words. rewrite Hs.
    assert (Hrun : while (copy_turn fs ino) (Cursor m buf (u32 (flen - off)) o c (flen / 4096 - c))
              = Ok (memcpy m buf p (u32 (flen - off)))); [|by rewrite Hrun].
    apply (while_rule _
      (fun s => s = Cursor m buf (u32 (flen - off)) o c (flen / 4096 - c) \/
         (cu_m s = memcpy m buf p (u32 (flen - off)) /\ cu_read_bytes s = 0))
      (fun s => if 0 <? cu_read_bytes s then 1 else 0)); [by left|case_match; lia|].
    intros s [-> |[Hm Hz]]; unfold copy_turn.
    + cbn [cu_read_bytes cu_m cu_check cu_offset cu_block_ct cu_buffer].
      destruct (Z.ltb_spec 0 (u32 (flen - off))); [|lia].
      unfold block_byte, MAX_DBLOCKS_PER_FILE, KB4.
      destruct (Z.leb_spec 0 c), (Z.ltb_spec c 1023); try lia. cbn [andb].
      destruct (Z.leb_spec (flen / 4096 - c) 0); [|lia]. fold p.
      split; [right; done|cbn; lia].
    + rewrite Hz. cbn. by rewrite Hm.
Qed.

(** ** Files under a change of memory elsewhere *)

Section Transfer.
Context (fs : boot_block) (m m1 : mem) (ino flen lo n : Z).
Hypothesis Hf : file_ok fs m ino flen.
Hypothesis Hsame : same_outside lo (lo + n) m m1.
Hypothesis Hino : apart lo n ino KB4.
Hypothesis Hblocks : forall k, 0 <= k -> k * KB4 < flen -> apart lo n (block_addr fs m ino k) KB4.

Lemma transfer_ino a : ino <= a < ino + KB4 -> load8 m1 a = load8 m a.
Proof.
  intros Ha. destruct (fo_ino _ _ _ _ Hf) as [I1 I2]. unfold apart in Hino.
  apply Hsame; [unfold addr; lia|lia].
Qed.
Lemma transfer_block k : 0 <= k -> k * KB4 < flen -> block_addr fs m1 ino k = block_addr fs m ino k.
Proof.
  intros Hk Hlt. destruct (fo_len _ _ _ _ Hf) as [_ L2]. unfold block_addr. do 2 f_equal.
  apply load32_ext. intros i Hi. apply transfer_ino. unfold KB4, MAX_DBLOCKS_PER_FILE in *. lia.
Qed.
Lemma transfer_byte i : 0 <= i < flen -> file_byte fs m1 ino i = file_byte fs m ino i.
Proof.
  intros Hi. unfold file_byte. assert (Hk : 0 <= i / KB4 /\ i / KB4 * KB4 < flen) by (unfold KB4; zdm).
  rewrite transfer_block by apply Hk.
  destruct (fo_blocks _ _ _ _ Hf _ (proj1 Hk) (proj2 Hk)) as [B1 B2].
  pose proof (Hblocks _ (proj1 Hk) (proj2 Hk)) as A. unfold apart, KB4 in *.
  apply Hsame; [unfold addr; zdm|zdm].
Qed.
Lemma transfer_file : file_ok fs m1 ino flen.
Proof.
  pose proof Hf as [H1 [H2 H3] H4]. split; [done| |].
  - split; [|done]. rewrite H2. apply load32_ext. intros i Hi. symmetry. apply transfer_ino.
    unfold KB4. lia.
  - intros k Hk Hlt. rewrite transfer_block by done. by apply H4.
Qed.
Lemma transfer_dest buf k : dest_ok fs m ino flen buf k -> dest_ok fs m1 ino flen buf k.
Proof.
  intros (H1 & H2 & H3). split_and!; [done|done|]. intros j Hj Hlt.
  rewrite transfer_block by done. by apply H3.
Qed.
End Transfer.

(** One read of an open file through its descriptor. *)
Lemma read_file_spec fs de p h m fd buf nbytes b e names l idx ent flen :
  h !! p = Some b -> get_at (fde b) fd = Ok e ->
  dir_ok fs m de names -> in_space de 40 -> de <> NULL ->
  fname_addr p fd <> NULL -> is_cstr m (fname_addr p fd) l -> Z.of_nat (length l) <= FNAME_LENGTH ->
  in_space (fname_addr p fd) (Z.of_nat (length l) + 1) ->
  apart de 40 (fname_addr p fd) (Z.of_nat (length l) + 1) ->
  0 <= idx < num_dir_entries fs -> names idx = l -> (forall j, 0 <= j < idx -> names j <> l) ->
  aget (dir_entries fs) idx = Some ent ->
  let ino := inode_ptr fs (load32 m (ent + FNAME_LENGTH + FS_FIELD_SIZE)) in
  file_ok fs m ino flen -> apart de 40 ino KB4 ->
  (forall k, 0 <= k -> k * KB4 < flen -> apart de 40 (block_addr fs m ino k) KB4) ->
  0 <= file_pos e <= flen -> 0 <= nbytes -> file_pos e + nbytes < 4294967296 ->
  let n := Z.min nbytes (flen - file_pos e) in
  dest_ok fs m ino flen buf n ->
  exists m', read_file fs de p h m fd buf nbytes =
      Ok (<[p := set_fde (<[Z.to_nat fd := FdEntry (fop_ptr e) (inode e) (file_pos e + n) (in_use e)]>
                           (fde b)) b]> h, m', n) /\
    (forall i, 0 <= i < n -> load8 m' (buf + i) = file_byte fs m ino (file_pos e + i)) /\
    (forall a, addr a -> ~ (de <= a < de + 40) -> ~ (buf <= a < buf + n) -> load8 m' a = load8 m a).
Proof.
  intros Hb He Hdir Hde Hden Hfn Hl Hll Hsp Hap Hidx Hname Hfirst Hent ino Hf Ha1 Ha2 Hpos Hn Hsum n Hd.
  destruct (get_at_Ok_inv _ _ _ He) as [Hfd _].
  unfold read_file, pcb_at. rewrite Hb. cbn [of_opt]. rewrite bind_ok, He, bind_ok.
  destruct (read_dentry_by_name_spec fs m de Hde names Hdir _ l Hl Hll Hfn Hden Hsp Hap)
    as [(k & en & m1 & Hk & Hnk & Hkf & Hen & E1 & D1)|[Hno _]];
    [|exfalso; by apply (Hno idx)].
  assert (k = idx) as ->.
  { destruct (Z.lt_trichotomy k idx) as [?|[?|?]]; [|done|].
    - exfalso. exact (Hfirst k ltac:(lia) Hnk).
    - exfalso. exact (Hkf idx ltac:(lia) Hname). }
  rewrite Hent in Hen. injection Hen as ->.
  rewrite E1, bind_ok. destruct D1 as (_ & _ & Dino & Dsame). rewrite Dino. fold ino.
  pose proof (transfer_file fs m m1 ino flen de 40 Hf Dsame Ha1 ) as Hf1.
  pose proof (transfer_dest fs m m1 ino flen de 40 Hf Dsame Ha1 buf n Hd) as Hd1.
  rewrite u32_small by lia.
  destruct (read_data_spec fs m1 _ (file_pos e) buf nbytes flen Hf1 Hpos Hn Hsum Hd1) as (m' & E2 & W).
  fold ino n in E2, W. pose proof (fo_len _ _ _ _ Hf) as [_ L2]. unfold KB4, MAX_DBLOCKS_PER_FILE in L2.
  rewrite E2, bind_ok, u32_small by lia. rewrite set_at_ok, bind_ok by done.
  exists m'. split; [done|]. destruct Hd as ((S1 & _ & S2) & _). split.
  - intros i Hi. rewrite (writes_in _ _ _ _ _ i W) by lia.
    apply (transfer_byte fs m m1 ino flen de 40 Hf Dsame Ha1 Ha2). lia.
  - intros a Ha Hna Hnb. rewrite (writes_out _ _ _ _ _ _ W Ha) by lia. apply Dsame; [done|lia].
Qed.

(** The layout [filesys_init] computes: entry [k] of the boot block, the
    inodes after it, the data blocks after the inodes. *)
Lemma filesys_init_spec m start fs :
  length (dir_entries fs) = 63%nat -> 0 <= start -> start + 4096 <= 4294967296 ->
  exists fs', filesys_init m start fs = Ok fs' /\
    filesys_ptr fs' = start /\ num_dir_entries fs' = load32 m start /\
    num_inodes fs' = load32 m (start + 4) /\ num_data_blocks fs' = load32 m (start + 8) /\
    length (dir_entries fs') = 63%nat /\
    (forall k, 0 <= k < 63 -> aget (dir_entries fs') k = Some (start + 64 + DENTRY_SIZE * k)) /\
    inode_blocks fs' = u32 (start + 4096) /\
    data_blocks fs' = u32 (start + 4096 + num_inodes fs' * KB4).
Proof.
  intros Hl Hs Hs2. unfold filesys_init, MAX_DENTRIES, DENTRY_SIZE.
  rewrite !u32_add_l.
  rewrite (u32_small (start + 4)), (u32_small (start + 4 + 4)),
    (u32_small (start + 4 + 4 + 4 + 52)) by lia.
  replace (start + 4 + 4 + 4 + 52) with (start + 64) by lia.
  replace (start + 4 + 4) with (start + 8) by lia.
  destruct (forM_inv 63 (fun '(dirs, filename_ptr) d_idx =>
       dirs ← set_at dirs d_idx filename_ptr; Ok (dirs, u32 (filename_ptr + 64)))
    (fun i '(dirs, p) => length dirs = 63%nat /\ p = u32 (start + 64 + 64 * i) /\
       forall k, 0 <= k < i -> aget dirs k = Some (start + 64 + 64 * k))
    (dir_entries fs, start + 64)) as ([dirs p] & E & Hd & -> & Hk); [lia| | |].
  - split_and!; [done|rewrite u32_small; lia|lia].
  - intros i [d p] Hi (Hld & -> & Hk).
    rewrite set_at_ok, bind_ok by lia. eexists. split; [reflexivity|]. split_and!.
    + by rewrite length_insert.
    + rewrite u32_add_l. f_equal. lia.
    + intros k Hki. rewrite aget_insert by lia. destruct (Z.eqb_spec i k) as [->|].
      * rewrite u32_small by lia. done.
      * apply Hk. lia.
  - rewrite E, bind_ok. eexists. split; [reflexivity|]. cbn [filesys_ptr num_dir_entries
      num_inodes num_data_blocks dir_entries inode_blocks data_blocks].
    replace (start + 64 + 64 * 63) with (start + 4096) by lia.
    rewrite u32_add_l. split_and!; done.
Qed.

(** [filesys_init] parses the boot block of an image: the three counts,
    the 63 directory slots 64 bytes apart from byte 64, the inodes from byte
    4096 on (so [inode_ptr] of inode 0 is where [inode_blocks] points) and the
    data blocks after the last inode. *)
Theorem filesys_init_layout (m : mem) (start : Z) (fs : boot_block) :
  length (dir_entries fs) = 63%nat -> 0 <= start -> start + 4096 <= 4294967296 ->
  exists fs', filesys_init m start fs = Ok fs' /\
    num_dir_entries fs' = load32 m start /\
    (forall k, 0 <= k < 63 -> aget (dir_entries fs') k = Some (start + 64 + DENTRY_SIZE * k)) /\
    inode_ptr fs' 0 = inode_blocks fs' /\
    inode_ptr fs' (load32 m (start + 4)) = data_blocks fs' /\
    (forall inode, inode_address fs' m inode =
       if num_data_blocks fs' <=? inode then NULL else inode_ptr fs' inode).
Proof.
  intros Hl Hs Hs2.
  destruct (filesys_init_spec m start fs Hl Hs Hs2)
    as (fs' & E & Hp & Hn & Hi & Hb & _ & Hd & Hib & Hdb).
  exists fs'. split_and!; [done|done|done| | |].
  - unfold inode_ptr. rewrite Hp, Hib. unfold KB4. f_equal; lia.
  - unfold inode_ptr. rewrite Hp, Hdb, Hi. unfold KB4. f_equal; lia.
  - intros inode. unfold inode_address, inode_ptr. rewrite Hp, Hb.
    replace (start + KB4 * (inode + 1)) with (start + KB4 + inode * KB4) by lia. done.
Qed.

(** C27 [read_dentry_by_name] finds the first directory entry with the given
    name (up to 32 characters, entries with NUL-terminated names): it returns
    0 with the name, type and inode number of that entry in [*dentry] and
    nothing else changed, and -1 without touching memory exactly when no entry
    has the name. *)
Theorem read_dentry_by_name_correct (fs : boot_block) (m : mem) (dentry fname : Z)
    (names : Z -> list Z) (l : list Z) :
  dir_ok fs m dentry names -> in_space dentry 40 -> dentry <> NULL -> fname <> NULL ->
  is_cstr m fname l -> Z.of_nat (length l) <= FNAME_LENGTH ->
  in_space fname (Z.of_nat (length l) + 1) -> apart dentry 40 fname (Z.of_nat (length l) + 1) ->
  (exists k e m', 0 <= k < num_dir_entries fs /\ names k = l /\
     (forall j, 0 <= j < k -> names j <> l) /\ aget (dir_entries fs) k = Some e /\
     read_dentry_by_name fs m fname dentry = Ok (m', 0) /\ dentry_at m dentry m' l e) \/
  ((forall k, 0 <= k < num_dir_entries fs -> names k <> l) /\
   read_dentry_by_name fs m fname dentry = Ok (m, -1)).
Proof. intros. by apply (read_dentry_by_name_spec fs m dentry). Qed.

(** [read_directory] and what it leaves alone. *)
Lemma read_directory_spec (fs : boot_block) (m : mem) (de buf k : Z)
    (names : Z -> list Z) :
  dir_ok fs m de names -> in_space de 40 -> de <> NULL -> 0 <= k ->
  (forall j, 0 <= j < num_dir_entries fs -> Z.of_nat (length (names j)) < FNAME_LENGTH) ->
  in_space buf FNAME_LENGTH -> apart buf FNAME_LENGTH de 40 ->
  if k <? num_dir_entries fs
  then exists m', read_directory fs de k m buf = Ok (m', k + 1, Z.of_nat (length (names k))) /\
         is_cstr m' buf (names k) /\
         forall a, addr a -> ~ (de <= a < de + 40) ->
           ~ (buf <= a < buf + Z.of_nat (length (names k)) + 1) -> load8 m' a = load8 m a
  else read_directory fs de k m buf = Ok (m, 0, 0).
Proof.
  intros Hdir Hde Hdn Hk Hlen Hb Hap. unfold FNAME_LENGTH, NULL, apart, in_space in *.
  pose proof (do_count _ _ _ _ Hdir) as HN. unfold MAX_DENTRIES in HN.
  unfold read_directory, read_dentry_by_index, NULL.
  destruct (Z.ltb_spec k (num_dir_entries fs)), (Z.leb_spec (num_dir_entries fs) k); try lia;
    [|done].
  destruct (Z.eqb_spec de 0); [done|]. cbn [orb].
  destruct (do_entry _ _ _ _ Hdir k ltac:(lia)) as (e & E & Hse & Hae & He & _).
  specialize (Hlen k ltac:(lia)). rewrite (get_at_ok _ _ _ E), bind_ok.
  destruct (fill_dentry_spec m de Hde e e (names k) He) as (m1 & E1 & Hd1 & _ & _ & Hd2);
    unfold FNAME_LENGTH, in_space, apart, DENTRY_SIZE in *; try done; try lia.
  rewrite E1, !bind_ok. cbn [Z.eqb Pos.eqb].
  destruct (strcpy_cstr m1 buf de (names k) Hd1) as (m2 & E2 & W2);
    unfold in_space, fwd_ok; try lia.
  rewrite E2, bind_ok. assert (H2 : is_cstr m2 buf (names k)).
  { eapply is_cstr_move; [|exact Hd1]. intros i Hi. by rewrite (writes_in _ _ _ _ _ _ W2) by lia. }
  rewrite (strlen_cstr _ _ _ H2), bind_ok, s32_small, u32_small by lia. exists m2.
  split; [done|]. split; [done|]. intros a Ha H3 H4.
  rewrite (writes_out _ _ _ _ _ _ W2) by (done || lia). apply Hd2; [done|lia].
Qed.

(** [read_directory] enumerates the directory: with the shared counter at
    [k] it stores the [k]-th name as a C string, returns its length and steps
    the counter; past the last entry it returns 0 and starts over.  Names have
    at most 31 characters. *)
Theorem read_directory_enumerates (fs : boot_block) (m : mem) (de buf k : Z)
    (names : Z -> list Z) :
  dir_ok fs m de names -> in_space de 40 -> de <> NULL -> 0 <= k ->
  (forall j, 0 <= j < num_dir_entries fs -> Z.of_nat (length (names j)) < FNAME_LENGTH) ->
  in_space buf FNAME_LENGTH -> apart buf FNAME_LENGTH de 40 ->
  if k <? num_dir_entries fs
  then exists m', read_directory fs de k m buf = Ok (m', k + 1, Z.of_nat (length (names k))) /\
         is_cstr m' buf (names k)
  else read_directory fs de k m buf = Ok (m, 0, 0).
Proof.
  intros Hdir Hde Hdn Hk Hlen Hb Hap.
  pose proof (read_directory_spec fs m de buf k names Hdir Hde Hdn Hk Hlen Hb Hap) as R.
  destruct (k <? num_dir_entries fs); [|exact R]. destruct R as (m' & E & C & _). by exists m'.
Qed.

(** ** Witnesses: an image with two entries and a file of 5000 bytes whose
    blocks are stored in reverse order *)

Definition demo_start : Z := 4247552.
Definition demo_image : mem :=
  let m := store32 (store32 (store32 ∅ demo_start 2) (demo_start + 4) 1) (demo_start + 8) 2 in
  let m := store_list m (demo_start + 64) (bytes "." ++ [0]) in
  let m := store8 m (demo_start + 64 + 32) 1 in
  let m := store_list m (demo_start + 128) (bytes "frame0.txt" ++ [0]) in
  let m := store8 m (demo_start + 128 + 32) 2 in
  let m := store32 (store32 (store32 m (demo_start + 4096) 5000) (demo_start + 4100) 1)
             (demo_start + 4104) 0 in
  let m := store_list m (demo_start + 8192) (bytes "second block") in
  let m := store_list m (demo_start + 12288 + 4090) (bytes "first ") in
  store_list m 1000 (bytes "frame0.txt" ++ [0]).
Definition demo_fs0 : boot_block := BootBlock 0 0 0 0 (replicate 63 0) 0 0.
Definition demo_fs : boot_block :=
  match filesys_init demo_image demo_start demo_fs0 with Ok fs => fs | _ => demo_fs0 end.
Definition demo_names (k : Z) : list Z := if k =? 0 then bytes "." else bytes "frame0.txt".

Lemma filesys_init_layout_witness :
  exists fs', filesys_init demo_image demo_start demo_fs0 = Ok fs' /\ num_dir_entries fs' = 2.
Proof.
  destruct (filesys_init_layout demo_image demo_start demo_fs0 eq_refl ltac:(unfold demo_start; lia)
    ltac:(unfold demo_start; lia)) as (fs' & H1 & H2 & _).
  exists fs'. split; [exact H1|]. rewrite H2. vm_compute. reflexivity.
Defined.

Lemma demo_dir_ok de : 2000 <= de < 3000 -> dir_ok demo_fs demo_image de demo_names.
Proof.
  intros Hde. split; [vm_compute; split; congruence|].
  change (num_dir_entries demo_fs) with 2. intros k Hk.
  range_cases k 2; (eexists; split_and!; [vm_compute; reflexivity| | |apply is_cstr_dec; vm_compute;
    reflexivity|cbn; lia]); unfold in_space, apart, DENTRY_SIZE; lia.
Qed.

Lemma read_dentry_by_name_correct_witness :
  exists m', read_dentry_by_name demo_fs demo_image 1000 2000 = Ok (m', 0) /\
    is_cstr m' 2000 (bytes "frame0.txt").
Proof.
  destruct (read_dentry_by_name_correct demo_fs demo_image 2000 1000 demo_names
    (bytes "frame0.txt")) as [(k & e & m' & _ & _ & _ & _ & H1 & H2 & _)|[H _]].
  - apply demo_dir_ok. lia.
  - unfold in_space; lia.
  - unfold NULL; lia.
  - unfold NULL; lia.
  - apply is_cstr_dec. vm_compute. reflexivity.
  - cbn. unfold FNAME_LENGTH. lia.
  - unfold in_space; cbn; lia.
  - unfold apart; cbn; lia.
  - exists m'. by split.
  - exfalso. refine (H 1 _ eq_refl). change (num_dir_entries demo_fs) with 2. lia.
Defined.

Lemma read_directory_enumerates_witness :
  exists m', read_directory demo_fs 2000 1 demo_image 2500 = Ok (m', 2, 10) /\
    is_cstr m' 2500 (bytes "frame0.txt").
Proof.
  refine (read_directory_enumerates demo_fs demo_image 2000 2500 1 demo_names _ _ _ _ _ _ _).
  - apply demo_dir_ok. lia.
  - unfold in_space; lia.
  - unfold NULL; lia.
  - lia.
  - intros j _. unfold demo_names. case_match; cbn; unfold FNAME_LENGTH; lia.
  - unfold in_space, FNAME_LENGTH; lia.
  - unfold apart, FNAME_LENGTH; lia.
Defined.

Lemma demo_file_ok : file_ok demo_fs demo_image (inode_ptr demo_fs 0) 5000.
Proof.
  split.
  - vm_compute. split; congruence.
  - split; vm_compute; congruence.
  - unfold KB4. intros k Hk Hlt. assert (0 <= k < 2) as Hk2 by lia. clear Hk Hlt.
    range_cases k 2; vm_compute; split; congruence.
Qed.

Lemma read_data_correct_witness :
  exists m', read_data demo_fs demo_image 0 4090 3000 18 = Ok (m', 18) /\
    load8 m' 3005 = 32 /\ load8 m' 3006 = 115.
Proof.
  destruct (read_data_correct demo_fs demo_image 0 4090 3000 18 5000 demo_file_ok
    ltac:(lia) ltac:(lia) ltac:(lia)) as (m' & H1 & H2 & _).
  - split; [unfold in_space; lia|]. split; [unfold apart; left; vm_compute; congruence|].
    unfold KB4. intros k Hk Hlt. assert (0 <= k < 2) as Hk2 by lia. clear Hk Hlt.
    range_cases k 2; left; vm_compute; congruence.
  - exists m'. split; [exact H1|]. split.
    + refine (eq_trans (H2 5 ltac:(lia)) _). vm_compute. reflexivity.
    + refine (eq_trans (H2 6 ltac:(lia)) _). vm_compute. reflexivity.
Defined.

Lemma read_data_bounds_witness :
  exists p, read_data demo_fs demo_image 0 20000 3000 10 =
    Ok (memcpy demo_image 3000 p (u32 (5000 - 20000)), 5000 - 20000).
Proof.
  destruct (proj2 (read_data_bounds demo_fs demo_image 0 20000 3000 10))
    as (p & H1 & _);
    [vm_compute; congruence|vm_compute; reflexivity|vm_compute; congruence|
     vm_compute; reflexivity|].
  exists p. exact H1.
Defined.
