(* ===== verification/Console.v ===== *)
(** * terminal.c: terminals and the display switch

    Three terminals share the screen: the displayed one is video memory, the
    others are their backing pages.  The state of the whole console (screen,
    keyboard, devices, terminals) is one record, because the keyboard driver
    and the terminal driver call each other. *)

From S2P Require Import Prelude Mem Lib Screen Ports I8259 Rtc Paging Pcb Sched.

(** The keyboard driver's globals; the bytes of [kb_buf] are in memory. *)
Record keyboard : Type := Keyboard {
  alt_on : Z; caps_on : Z; ctrl_on : Z; shift_on : Z;
  ready_to_read : list Z; kb_buf_index : list Z }.

Record console : Type := Console {
  scr : screen; tr : trace; k_pic : pic; k_rtc : rtc; kbd : keyboard;
  virtual_x : list Z; virtual_y : list Z; active_terminal : Z; display_terminal : Z }.

Definition with_scr (c : console) (s : screen) : console :=
  Console s (tr c) (k_pic c) (k_rtc c) (kbd c) (virtual_x c) (virtual_y c)
    (active_terminal c) (display_terminal c).
Definition with_tr (c : console) (t : trace) : console :=
  Console (scr c) t (k_pic c) (k_rtc c) (kbd c) (virtual_x c) (virtual_y c)
    (active_terminal c) (display_terminal c).
Definition with_pic (c : console) (p : pic) (t : trace) : console :=
  Console (scr c) t p (k_rtc c) (kbd c) (virtual_x c) (virtual_y c)
    (active_terminal c) (display_terminal c).
Definition with_rtc (c : console) (r : rtc) (t : trace) : console :=
  Console (scr c) t (k_pic c) r (kbd c) (virtual_x c) (virtual_y c)
    (active_terminal c) (display_terminal c).
Definition with_kbd (c : console) (k : keyboard) : console :=
  Console (scr c) (tr c) (k_pic c) (k_rtc c) k (virtual_x c) (virtual_y c)
    (active_terminal c) (display_terminal c).
Definition with_virtual (c : console) (x y : list Z) : console :=
  Console (scr c) (tr c) (k_pic c) (k_rtc c) (kbd c) x y
    (active_terminal c) (display_terminal c).
Definition with_display (c : console) (d : Z) : console :=
  Console (scr c) (tr c) (k_pic c) (k_rtc c) (kbd c) (virtual_x c) (virtual_y c)
    (active_terminal c) d.

Definition set_cursor (c : console) (x y : Z) : console :=
  with_scr c (Screen (vram (scr c)) x y).

(** The position is a [uint16_t]. *)
Definition update_cursor (c : console) (x_pos y_pos : Z) : console :=
  let position := u16 (y_pos * NUM_COLS + x_pos) in
  let t := outb 15 980 (tr c) in
  let t := outb (u8 (Z.land position 255)) 981 t in
  let t := outb 14 980 t in
  let t := outb (u8 (Z.land (Z.shiftr position 8) 255)) 981 t in
  with_tr c t.

Definition put_screen (c : console) (ch : Z) : console := with_scr c (putc (scr c) ch).
Definition cursor_here (c : console) : console :=
  update_cursor c (screen_x (scr c)) (screen_y (scr c)).

Definition term_clear (c : console) : console :=
  let c := with_scr c (clear (scr c)) in
  update_cursor (set_cursor c 0 0) 0 0.

Definition term_mem : list Z := [757760; 761856; 765952].  (* 0xB9000, 0xBA000, 0xBB000 *)

(** [term_putc] and [term_scroll_down] for the terminal [active_term] that
    [pq_get_active_term] gives; they are [putc] and [scroll_down] over the
    backing page and the virtual cursor. *)
Definition term_scroll_down (active_term : Z) (c : console) : res console :=
  base ← get_at term_mem active_term;
  Ok (with_scr c (set_vram (scr c) (scroll_at base (vram (scr c))))).

Definition term_putc (s : sched) (ch : Z) (c : console) : res console :=
  active ← pq_get_active_term s;
  let active_term := s32 active in
  base ← get_at term_mem active_term;
  x ← get_at (virtual_x c) active_term;
  y ← get_at (virtual_y c) active_term;
  let '(m, x, y) := put_at base (vram (scr c)) x y (u8 ch) in
  vx ← set_at (virtual_x c) active_term x;
  vy ← set_at (virtual_y c) active_term y;
  Ok (with_virtual (with_scr c (set_vram (scr c) m)) vx vy).

Definition change_display_term (next : Z) (c : console) : console :=
  let next_terminal := u8 next in
  let curr_backing_page := get_backing_page (display_terminal c) in
  let '(m, _) := copy_4kb_page (vram (scr c)) VIDEO curr_backing_page in
  let next_backing_page := get_backing_page next_terminal in
  let '(m, _) := copy_4kb_page m next_backing_page VIDEO in
  with_display (with_scr c (set_vram (scr c) m)) next_terminal.

(** ** The content of a terminal *)

Definition term_ok (t : Z) : Prop := 0 <= t < 3.
Definition backing (t : Z) : Z := 757760 + 4096 * t.

(** Where the 4 KB of terminal [t] are: video memory or its backing page. *)
Definition term_page (c : console) (t : Z) : Z :=
  if t =? display_terminal c then VIDEO else backing t.
Definition term_byte (c : console) (t i : Z) : Z := load8 (vram (scr c)) (term_page c t + i).

Lemma get_backing_page_eq t : term_ok t -> get_backing_page t = backing t.
Proof.
  unfold term_ok, get_backing_page, backing, BACKING_PAGES_START, BYTES_4KB. intros.
  rewrite u32_small; lia.
Qed.
Lemma term_mem_get t : term_ok t -> get_at term_mem t = Ok (backing t).
Proof.
  unfold term_ok. intros Ht. range_cases t 3; reflexivity.
Qed.

Lemma copy_page m src dst :
  0 <= src -> src + 4096 <= 4294967296 -> 0 <= dst -> dst + 4096 <= 4294967296 ->
  src + 4096 <= dst \/ dst + 4096 <= src ->
  exists m', copy_4kb_page m src dst = (m', 0) /\
    writes m m' dst 4096 (fun i => load8 m (src + i)).
Proof.
  intros. eexists. split; [reflexivity|]. apply memcpy_writes; unfold in_space, fwd_ok, BYTES_4KB; lia.
Qed.

Lemma term_byte_display c t i :
  t = display_terminal c -> term_byte c t i = load8 (vram (scr c)) (VIDEO + i).
Proof. intros ->. unfold term_byte, term_page. by rewrite Z.eqb_refl. Qed.

(** The switch moves no byte of any terminal. *)
Lemma change_display_term_spec next c :
  term_ok (display_terminal c) -> term_ok next ->
  display_terminal (change_display_term next c) = next /\
  (forall t i, term_ok t -> 0 <= i < 4096 ->
     term_byte (change_display_term next c) t i = term_byte c t i) /\
  same_outside VIDEO (VIDEO + 16384) (vram (scr c)) (vram (scr (change_display_term next c))).
Proof.
  intros Hd Hn. unfold change_display_term. rewrite (u8_small next) by (unfold term_ok in *; lia).
  rewrite !get_backing_page_eq by done. unfold term_ok, VIDEO in *.
  destruct (copy_page (vram (scr c)) 753664 (backing (display_terminal c))) as (m1 & E1 & W1);
    [unfold backing; lia..|].
  destruct (copy_page m1 (backing next) 753664) as (m2 & E2 & W2); [unfold backing; lia..|].
  rewrite E1, E2. split; [done|]. split.
  - intros t i Ht Hi. unfold term_byte, term_page, VIDEO. cbn.
    destruct (Z.eqb_spec t next) as [->|Hne].
    + rewrite (writes_in _ _ _ _ _ _ W2) by lia.
      destruct (Z.eqb_spec next (display_terminal c)) as [E|Hne].
      * rewrite E. by rewrite (writes_in _ _ _ _ _ _ W1) by (unfold backing; lia).
      * by rewrite (writes_out _ _ _ _ _ _ W1) by (unfold addr, backing; lia).
    + rewrite (writes_out _ _ _ _ _ _ W2) by (unfold addr, backing; lia).
      destruct (Z.eqb_spec t (display_terminal c)) as [->|Hne2].
      * by rewrite (writes_in _ _ _ _ _ _ W1) by (unfold backing; lia).
      * by rewrite (writes_out _ _ _ _ _ _ W1) by (unfold addr, backing; lia).
  - intros a Ha Hout. cbn.
    rewrite (writes_out _ _ _ _ _ _ W2 Ha) by lia.
    rewrite (writes_out _ _ _ _ _ _ W1 Ha) by (unfold backing; lia). reflexivity.
Qed.

(** C18 Switching the display to terminal [next] preserves the content of all
    three terminals (4096 bytes each, wherever they are stored before and
    after) and nothing outside the four video pages changes; so switching away
    and back restores the screen. *)
Theorem change_display_term_preserves (next : Z) (c : console) :
  term_ok (display_terminal c) -> term_ok next ->
  display_terminal (change_display_term next c) = next /\
  (forall t i, term_ok t -> 0 <= i < 4096 ->
     term_byte (change_display_term next c) t i = term_byte c t i) /\
  same_outside VIDEO (VIDEO + 16384) (vram (scr c)) (vram (scr (change_display_term next c))) /\
  (forall i, 0 <= i < 4096 ->
     load8 (vram (scr (change_display_term (display_terminal c) (change_display_term next c))))
       (VIDEO + i) = load8 (vram (scr c)) (VIDEO + i)).
Proof.
  intros Hd Hn. destruct (change_display_term_spec next c Hd Hn) as (H1 & H2 & H3).
  split; [exact H1|]. split; [exact H2|]. split; [exact H3|]. intros i Hi.
  pose proof (H2 _ i Hd Hi) as E. rewrite <- (term_byte_display c (display_terminal c)) by done.
  rewrite <- E. clear E H2 H3. generalize dependent (change_display_term next c). intros c1 H1.
  destruct (change_display_term_spec (display_terminal c) c1 ltac:(by rewrite H1) Hd) as (G1 & G2 & _).
  rewrite <- (G2 (display_terminal c) i Hd Hi). symmetry. by apply term_byte_display.
Qed.

(** ** Well-formed consoles *)

Record con_ok (c : console) : Prop := ConOk {
  co_vx : length (virtual_x c) = 3%nat;
  co_vy : length (virtual_y c) = 3%nat;
  co_virtual : forall t x y, aget (virtual_x c) t = Some x -> aget (virtual_y c) t = Some y ->
    in_grid x y;
  co_ready : length (ready_to_read (kbd c)) = 3%nat;
  co_index : length (kb_buf_index (kbd c)) = 3%nat;
  co_range : Forall (fun i => 0 <= i <= 128) (kb_buf_index (kbd c));
  co_display : term_ok (display_terminal c);
  co_cursor : scr_cursor (scr c) }.

(** The parts of a console that the invariant reads. *)
Lemma con_ok_same c c' :
  virtual_x c' = virtual_x c -> virtual_y c' = virtual_y c -> kbd c' = kbd c ->
  display_terminal c' = display_terminal c -> scr_cursor (scr c') -> con_ok c -> con_ok c'.
Proof. intros E1 E2 E3 E4 Hc []. by split; rewrite ?E1, ?E2, ?E3, ?E4. Qed.

Lemma con_ok_tr c t : con_ok c -> con_ok (with_tr c t).
Proof. intros H. by apply (con_ok_same c); try done; apply H. Qed.
Lemma con_ok_pic c p t : con_ok c -> con_ok (with_pic c p t).
Proof. intros H. by apply (con_ok_same c); try done; apply H. Qed.
Lemma con_ok_scr c s : scr_cursor s -> con_ok c -> con_ok (with_scr c s).
Proof. intros Hs H. by apply (con_ok_same c). Qed.
Lemma con_ok_cursor_here c : con_ok c -> con_ok (cursor_here c).
Proof. apply con_ok_tr. Qed.
Lemma con_ok_put c ch : con_ok c -> con_ok (put_screen c ch).
Proof. intros H. apply con_ok_scr; [apply putc_cursor, H|done]. Qed.

Lemma con_ok_kbd c k :
  length (ready_to_read k) = 3%nat -> length (kb_buf_index k) = 3%nat ->
  Forall (fun i => 0 <= i <= 128) (kb_buf_index k) -> con_ok c -> con_ok (with_kbd c k).
Proof. intros H1 H2 H3 []. by split. Qed.

Lemma con_ok_virtual c x y t :
  term_ok t -> in_grid x y -> con_ok c ->
  con_ok (with_virtual c (<[Z.to_nat t := x]> (virtual_x c)) (<[Z.to_nat t := y]> (virtual_y c))).
Proof.
  intros Ht Hg []. unfold term_ok in Ht.
  split; cbn [with_virtual virtual_x virtual_y kbd display_terminal scr];
    rewrite ?length_insert; try done.
  intros t' x' y'. rewrite !aget_insert by lia.
  destruct (Z.eqb_spec t t') as [->|]; [|apply co_virtual0].
  intros [= <-] [= <-]. done.
Qed.

Lemma con_ok_get c t :
  con_ok c -> term_ok t ->
  exists x y, get_at (virtual_x c) t = Ok x /\ get_at (virtual_y c) t = Ok y /\ in_grid x y.
Proof.
  intros [] Ht. unfold term_ok in Ht.
  destruct (aget_is_Some (virtual_x c) t) as [x Ex]; [lia|].
  destruct (aget_is_Some (virtual_y c) t) as [y Ey]; [lia|].
  exists x, y. split_and!; [by apply get_at_ok..|]. by apply (co_virtual0 t).
Qed.
Create HintDb con discriminated.
#[export] Hint Resolve con_ok_tr con_ok_pic con_ok_scr con_ok_cursor_here con_ok_put
  con_ok_kbd con_ok_virtual : con.

Lemma change_display_scr next c :
  screen_x (scr (change_display_term next c)) = screen_x (scr c) /\
  screen_y (scr (change_display_term next c)) = screen_y (scr c) /\
  virtual_x (change_display_term next c) = virtual_x c /\
  virtual_y (change_display_term next c) = virtual_y c /\
  kbd (change_display_term next c) = kbd c /\
  display_terminal (change_display_term next c) = u8 next.
Proof. by split_and!. Qed.

Lemma con_ok_change next c : term_ok next -> con_ok c -> con_ok (change_display_term next c).
Proof.
  intros Hn []. pose proof (change_display_scr next c) as (E1 & E2 & E3 & E4 & E5 & E6).
  rewrite u8_small in E6 by (unfold term_ok in *; lia).
  split; rewrite ?E3, ?E4, ?E5, ?E6; try done.
Qed.

(** ** Witness *)

Definition demo_console : console :=
  Console (Screen ∅ 0 0) [] (Pic 0 0) (Rtc 0 0 2 0) (Keyboard 0 0 0 0 [0; 0; 0] [0; 0; 0])
    [0; 0; 0] [0; 0; 0] 0 0.

Lemma demo_console_ok : con_ok demo_console.
Proof.
  split; try done.
  - intros t x y Hx Hy. cbn in *. pose proof (aget_Some_lt _ _ _ Hx) as Ht. cbn in Ht.
    range_cases t 3; cbn in Hx, Hy; injection Hx as <-; injection Hy as <-; unfold in_grid; lia.
  - cbn. rewrite !Forall_cons, Forall_nil. lia.
Qed.

Lemma change_display_term_preserves_witness :
  display_terminal (change_display_term 2 demo_console) = 2 /\
  term_byte (change_display_term 2 demo_console) 0 5 = term_byte demo_console 0 5.
Proof.
  destruct (change_display_term_preserves 2 demo_console ltac:(unfold term_ok; cbn; lia)
    ltac:(unfold term_ok; lia)) as (H1 & H2 & _).
  split; [exact H1|]. apply H2; [unfold term_ok; lia|lia].
Defined.
