(* ===== verification/Keyboard.v ===== *)
(** * keyboard.c: the keyboard driver

    One turn of the handler's loop is [kb_step]; the loop ends with the
    controller's status bit or an early return.  The bytes of [kb_buf] are at
    the address [kb_base], 128 per terminal. *)

From S2P Require Import Prelude Mem Lib Screen Ports I8259 Rtc Paging Pcb Sched Console.

Definition KB_DATA : Z := 96.
Definition KB_STATUS : Z := 100.
Definition INPUT_BUFFER_MASK : Z := 2.
Definition MAX_KB_BUF : Z := 128.
Definition CAPS : Z := 58.
Definition L_SHIFT_MAKE : Z := 42.
Definition R_SHIFT_MAKE : Z := 54.
Definition L_SHIFT_BREAK : Z := 170.
Definition R_SHIFT_BREAK : Z := 182.
Definition L_CTRL_MAKE : Z := 29.
Definition L_CTRL_BREAK : Z := 157.
Definition L_ALT_MAKE : Z := 56.
Definition L_ALT_BREAK : Z := 184.
Definition L_KEY : Z := 38.
Definition ENTER : Z := 28.
Definition BACKSPACE : Z := 14.
Definition F1 : Z := 59.
Definition F2 : Z := 60.
Definition F3 : Z := 61.
Definition SUPPORTED_KEYS : Z := 69.

Definition key_press : list Z :=
  [0; 0; 49; 50; 51; 52; 53; 54; 55; 56; 57; 48; 45; 61; 0; 0; 113; 119; 101; 114; 116;
   121; 117; 105; 111; 112; 91; 93; 10; 0; 97; 115; 100; 102; 103; 104; 106; 107; 108; 59;
   39; 96; 0; 92; 122; 120; 99; 118; 98; 110; 109; 44; 46; 47; 0; 42; 0; 32; 0; 0; 0; 0;
   0; 0; 0; 0; 0; 0; 0].
Definition caps_key_press : list Z :=
  [0; 0; 49; 50; 51; 52; 53; 54; 55; 56; 57; 48; 45; 61; 0; 0; 81; 87; 69; 82; 84; 89; 85;
   73; 79; 80; 91; 93; 10; 0; 65; 83; 68; 70; 71; 72; 74; 75; 76; 59; 39; 96; 0; 92; 90;
   88; 67; 86; 66; 78; 77; 44; 46; 47; 0; 42; 0; 32; 0; 0; 0; 0; 0; 0; 0; 0; 0; 0; 0].
Definition shift_key_press : list Z :=
  [0; 0; 33; 64; 35; 36; 37; 94; 38; 42; 40; 41; 95; 43; 0; 0; 81; 87; 69; 82; 84; 89; 85;
   73; 79; 80; 123; 125; 10; 0; 65; 83; 68; 70; 71; 72; 74; 75; 76; 58; 34; 126; 0; 124;
   90; 88; 67; 86; 66; 78; 77; 60; 62; 63; 0; 42; 0; 32; 0; 0; 0; 0; 0; 0; 0; 0; 0; 0; 0].
Definition caps_shift_key_press : list Z :=
  [0; 0; 33; 64; 35; 36; 37; 94; 38; 42; 40; 41; 95; 43; 0; 0; 113; 119; 101; 114; 116;
   121; 117; 105; 111; 112; 123; 125; 10; 0; 97; 115; 100; 102; 103; 104; 106; 107; 108;
   58; 34; 126; 0; 124; 122; 120; 99; 118; 98; 110; 109; 60; 62; 63; 0; 42; 0; 32; 0; 0;
   0; 0; 0; 0; 0; 0; 0; 0; 0].

Definition set_flags (k : keyboard) (alt caps ctrl shift : Z) : keyboard :=
  Keyboard alt caps ctrl shift (ready_to_read k) (kb_buf_index k).
Definition set_index (k : keyboard) (l : list Z) : keyboard :=
  Keyboard (alt_on k) (caps_on k) (ctrl_on k) (shift_on k) (ready_to_read k) l.
Definition set_ready (k : keyboard) (l : list Z) : keyboard :=
  Keyboard (alt_on k) (caps_on k) (ctrl_on k) (shift_on k) l (kb_buf_index k).

Section Driver.
Context `{Device} (kb_base : Z).

Definition clear_keyboard_buf (k : keyboard) : res keyboard :=
  forM (seqZ 0 NUM_TERMINALS) (fun k i =>
    r ← set_at (ready_to_read k) i 0;
    x ← set_at (kb_buf_index k) i 0;
    Ok (set_index (set_ready k r) x)) k.

Definition keyboard_init (c : console) : res console :=
  let '(p, t) := enable_irq 1 (k_pic c) (tr c) in
  let c := with_pic c p t in
  let k := set_flags (kbd c) (alt_on (kbd c)) 0 0 0 in
  k ← clear_keyboard_buf k;
  Ok (with_kbd c k).

Definition keyboard_disable (c : console) : res console :=
  let '(p, t) := disable_irq 1 (k_pic c) (tr c) in
  let c := with_pic c p t in
  k ← clear_keyboard_buf (kbd c);
  Ok (with_kbd c k).

Definition kb_index (c : console) : res Z := get_at (kb_buf_index (kbd c)) (display_terminal c).
Definition set_kb_index (c : console) (i : Z) : res console :=
  l ← set_at (kb_buf_index (kbd c)) (display_terminal c) i;
  Ok (with_kbd c (set_index (kbd c) l)).

(** [kb_buf[display_terminal][kb_buf_index[display_terminal]] = ch;
    kb_buf_index[display_terminal]++;] *)
Definition kb_slot (t i : Z) : Z := kb_base + MAX_KB_BUF * t + i.
Definition kb_push (c : console) (ch : Z) : res console :=
  i ← kb_index c;
  if (0 <=? i) && (i <? MAX_KB_BUF) then
    let m := store8 (vram (scr c)) (kb_slot (display_terminal c) i) ch in
    set_kb_index (with_scr c (set_vram (scr c) m)) (i + 1)
  else Fault.

(** Alt with a function key: the cursor is saved, the display switched, the
    cursor restored. *)
Definition switch_keys (pressed : Z) (c : console) : res console :=
  let c := with_tr c (cli (tr c)) in
  vx ← set_at (virtual_x c) (display_terminal c) (screen_x (scr c));
  vy ← set_at (virtual_y c) (display_terminal c) (screen_y (scr c));
  let c := with_virtual c vx vy in
  let c := if pressed =? F1 then change_display_term 0 c
           else if pressed =? F2 then change_display_term 1 c
           else if pressed =? F3 then change_display_term 2 c
           else c in
  x ← get_at (virtual_x c) (display_terminal c);
  y ← get_at (virtual_y c) (display_terminal c);
  let c := cursor_here (set_cursor c x y) in
  Ok (with_tr c (sti (tr c))).

Definition key_table (k : keyboard) : list Z :=
  if negb (caps_on k =? 0) && negb (shift_on k =? 0) then caps_shift_key_press
  else if negb (caps_on k =? 0) then caps_key_press
  else if negb (shift_on k =? 0) then shift_key_press
  else key_press.

(** The [default:] case; [true] is the early return of the handler. *)
Definition other_key (pressed : Z) (c : console) : res (console * bool) :=
  if pressed <? SUPPORTED_KEYS then
    c ← (if negb (alt_on (kbd c) =? 0) && (F1 <=? pressed) then switch_keys pressed c else Ok c);
    if negb (ctrl_on (kbd c) =? 0) && (pressed =? L_KEY) then Ok (term_clear c, true)
    else
      i ← kb_index c;
      if i =? MAX_KB_BUF - 1 then Ok (c, true)
      else
        value ← get_at (key_table (kbd c)) pressed;
        if negb (u8 value =? 0) then
          c ← kb_push c (u8 value);
          Ok (cursor_here (put_screen c (u8 value)), false)
        else Ok (c, false)
  else Ok (c, false).

(** One turn of the loop, for the scan code [pressed]. *)
Definition kb_step (pressed : Z) (c : console) : res (console * bool) :=
  i ← kb_index c;
  c ← (if i =? MAX_KB_BUF then set_kb_index c 0 else Ok c);
  let k := kbd c in
  let flags a p t s := Ok (with_kbd c (set_flags k a p t s), false) in
  if pressed =? CAPS then
    flags (alt_on k) (if caps_on k =? 1 then 0 else 1) (ctrl_on k) (shift_on k)
  else if (pressed =? L_SHIFT_MAKE) || (pressed =? R_SHIFT_MAKE) then
    flags (alt_on k) (caps_on k) (ctrl_on k) 1
  else if (pressed =? L_SHIFT_BREAK) || (pressed =? R_SHIFT_BREAK) then
    flags (alt_on k) (caps_on k) (ctrl_on k) 0
  else if pressed =? L_CTRL_MAKE then flags (alt_on k) (caps_on k) 1 (shift_on k)
  else if pressed =? L_CTRL_BREAK then flags (alt_on k) (caps_on k) 0 (shift_on k)
  else if pressed =? L_ALT_MAKE then flags 1 (caps_on k) (ctrl_on k) (shift_on k)
  else if pressed =? L_ALT_BREAK then flags (alt_on k) (caps_on k) 0 (shift_on k)
  else if pressed =? BACKSPACE then
    if 0 <? screen_x (scr c) then
      let c := set_cursor c (screen_x (scr c) - 1) (screen_y (scr c)) in
      let c := put_screen c 32 in
      let c := set_cursor c (screen_x (scr c) - 1) (screen_y (scr c)) in
      i ← kb_index c;
      c ← (if 0 <? i then set_kb_index c (i - 1) else Ok c);
      Ok (cursor_here c, false)
    else Ok (c, false)
  else if pressed =? ENTER then
    c ← kb_push c 10;
    let c := cursor_here (put_screen c 10) in
    r ← set_at (ready_to_read (kbd c)) (display_terminal c) 1;
    Ok (with_kbd c (set_ready (kbd c) r), false)
  else other_key pressed c.

(** [do ... while (inb(KB_STATUS) & INPUT_BUFFER_MASK)], at most [fuel]
    turns. *)
Fixpoint keyboard_loop (fuel : nat) (c : console) : res console :=
  match fuel with
  | O => Hang
  | S fuel =>
    let '(pressed, t) := inb KB_DATA (tr c) in
    '(c, returned) ← kb_step pressed (with_tr c t);
    if returned : bool then Ok c
    else
      let '(status, t) := inb KB_STATUS (tr c) in
      let c := with_tr c t in
      if Z.land status INPUT_BUFFER_MASK =? 0 then Ok c else keyboard_loop fuel c
  end.

End Driver.

(** ** Safety *)

Section Safety.
Context `{Device} (kb_base : Z).
(** The buffers are 384 bytes apart from the video pages. *)
Hypothesis Hkb : 0 <= kb_base /\ kb_base + 384 <= 4294967296.
Hypothesis Hkb_off : kb_base + 384 <= VIDEO \/ VIDEO + 16384 <= kb_base.

(** The memory a keyboard interrupt may change. *)
Definition kb_frame (m m' : mem) : Prop :=
  forall a, addr a -> ~ (VIDEO <= a < VIDEO + 16384) -> ~ (kb_base <= a < kb_base + 384) ->
    load8 m' a = load8 m a.
#[local] Instance kb_frame_pre : PreOrder kb_frame.
Proof.
  split; [done|]. intros m1 m2 m3 H1 H2 a Ha Hv Hk. by rewrite H2, H1.
Qed.
Lemma kb_frame_video lo hi m m' :
  VIDEO <= lo -> hi <= VIDEO + 16384 -> same_outside lo hi m m' -> kb_frame m m'.
Proof. intros H1 H2 Hs a Ha Hv Hk. apply Hs; [done|lia]. Qed.

(** What one operation of the driver guarantees. *)
Definition safe (c c' : console) : Prop :=
  con_ok c' /\ kb_frame (vram (scr c)) (vram (scr c')).

Lemma safe_trans c1 c2 c3 : safe c1 c2 -> safe c2 c3 -> safe c1 c3.
Proof. intros [_ F1] [H2 F2]. split; [done|]. by etrans. Qed.
Lemma safe_same_mem c c' : con_ok c' -> vram (scr c') = vram (scr c) -> safe c c'.
Proof. intros Hc E. split; [done|]. by rewrite E. Qed.

Lemma kb_index_ok c :
  con_ok c -> exists i, kb_index c = Ok i /\ 0 <= i <= 128.
Proof.
  intros Hc. pose proof (co_display _ Hc) as Hd. unfold term_ok in Hd.
  destruct (aget_is_Some (kb_buf_index (kbd c)) (display_terminal c)) as [i E].
  { rewrite (co_index _ Hc). lia. }
  exists i. split; [by apply get_at_ok|].
  pose proof (co_range _ Hc) as Hr. rewrite Forall_lookup in Hr.
  rewrite aget_lookup in E by lia. exact (Hr _ _ E).
Qed.

Lemma set_kb_index_ok c i :
  con_ok c -> 0 <= i <= 128 ->
  exists c', set_kb_index c i = Ok c' /\ con_ok c' /\ scr c' = scr c /\ tr c' = tr c /\
    kb_index c' = Ok i /\ display_terminal c' = display_terminal c /\
    kbd c' = set_index (kbd c) (<[Z.to_nat (display_terminal c) := i]> (kb_buf_index (kbd c))).
Proof.
  intros Hc Hi. pose proof (co_display _ Hc) as Hd. unfold term_ok in Hd.
  pose proof (co_index _ Hc) as Hl. unfold set_kb_index.
  rewrite set_at_ok, bind_ok by (rewrite Hl; lia). eexists. split; [reflexivity|].
  split; [|split_and!; try done].
  - apply con_ok_kbd; cbn; rewrite ?length_insert; try done; [apply Hc|].
    apply Forall_insert; [apply Hc|done].
  - unfold kb_index. cbn. apply get_at_ok. rewrite aget_insert by (rewrite Hl; lia).
    by rewrite Z.eqb_refl.
Qed.

Lemma kb_push_ok c ch i :
  con_ok c -> kb_index c = Ok i -> 0 <= i < 128 ->
  exists c', kb_push kb_base c ch = Ok c' /\ safe c c' /\ kb_index c' = Ok (i + 1) /\
    display_terminal c' = display_terminal c /\ tr c' = tr c /\
    vram (scr c') = store8 (vram (scr c)) (kb_slot kb_base (display_terminal c) i) ch /\
    kbd c' = set_index (kbd c) (<[Z.to_nat (display_terminal c) := i + 1]> (kb_buf_index (kbd c))).
Proof.
  intros Hc Hi Hr. pose proof (co_display _ Hc) as Hd. unfold term_ok in Hd.
  unfold kb_push, MAX_KB_BUF. rewrite Hi, bind_ok.
  destruct (Z.leb_spec 0 i), (Z.ltb_spec i 128); try lia. cbn [andb].
  set (c1 := with_scr c _).
  assert (Hc1 : con_ok c1) by (apply con_ok_scr; [apply Hc|done]).
  destruct (set_kb_index_ok c1 (i + 1) Hc1 ltac:(lia)) as (c' & E & Hc' & Es & Et & Ei & Ed & Ek).
  exists c'. rewrite E, Es. split_and!; try done. split; [done|].
  rewrite Es. intros a Ha Hv Hk. unfold c1. cbn [with_scr scr set_vram vram].
  apply load8_store8_ne; try done; unfold addr, kb_slot, MAX_KB_BUF in *; lia.
Qed.

Lemma put_screen_safe c ch : con_ok c -> safe c (put_screen c ch).
Proof.
  intros Hc. split; [by apply con_ok_put|].
  eapply kb_frame_video; [reflexivity| |apply putc_outside, Hc]. unfold VIDEO. lia.
Qed.
Lemma cursor_here_safe c : con_ok c -> safe c (cursor_here c).
Proof. intros Hc. apply safe_same_mem; [by apply con_ok_cursor_here|done]. Qed.
Lemma set_cursor_safe c x y : in_grid x y -> con_ok c -> safe c (set_cursor c x y).
Proof. intros Hg Hc. apply safe_same_mem; [by apply con_ok_scr|done]. Qed.
Lemma term_clear_safe c : con_ok c -> safe c (term_clear c).
Proof.
  intros Hc. split.
  - apply con_ok_tr, con_ok_scr; [unfold scr_cursor, cursor_ok, in_grid; cbn; lia|].
    apply con_ok_scr; [apply Hc|done].
  - cbn. eapply kb_frame_video; [reflexivity| |eapply writes_same_outside, clear_spec].
    unfold VIDEO. lia.
Qed.

Lemma switch_keys_ok pressed c :
  con_ok c -> exists c', switch_keys pressed c = Ok c' /\ safe c c' /\ kbd c' = kbd c.
Proof.
  intros Hc. pose proof (co_display _ Hc) as Hd. pose proof (co_cursor _ Hc) as Hcur.
  unfold switch_keys. cbn [with_tr virtual_x virtual_y display_terminal scr].
  rewrite !set_at_ok by (rewrite ?(co_vx _ Hc), ?(co_vy _ Hc); unfold term_ok in *; lia).
  rewrite !bind_ok. set (c0 := with_virtual _ _ _).
  assert (Hc0 : con_ok c0).
  { apply (con_ok_virtual (with_tr c (cli (tr c)))); [done|done|by apply con_ok_tr]. }
  set (c1 := if pressed =? F1 then _ else _).
  assert (Hc1 : safe c0 c1 /\ kbd c1 = kbd c0).
  { assert (Hch : forall n, term_ok n ->
      safe c0 (change_display_term n c0) /\ kbd (change_display_term n c0) = kbd c0).
    { intros n Hn. destruct (change_display_term_spec n c0 (co_display _ Hc0) Hn) as (_ & _ & Hs).
      split; [split; [by apply con_ok_change|]|apply change_display_scr].
      eapply kb_frame_video; [| |exact Hs]; lia. }
    unfold c1. repeat case_match; try (apply Hch; unfold term_ok; lia).
    split; [by apply safe_same_mem|done]. }
  destruct Hc1 as [[Hc1 F1'] K1].
  destruct (con_ok_get c1 (display_terminal c1) Hc1 (co_display _ Hc1)) as (x & y & Ex & Ey & Hg).
  rewrite Ex, bind_ok, Ey, bind_ok. eexists. split; [reflexivity|]. split; [|exact K1].
  split; [|exact F1'].
  apply con_ok_tr, con_ok_cursor_here. by apply con_ok_scr.
Qed.

Lemma key_table_get k pressed :
  0 <= pressed < SUPPORTED_KEYS ->
  exists v, get_at (key_table k) pressed = Ok v /\ aget (key_table k) pressed = Some v.
Proof.
  intros Hp. unfold SUPPORTED_KEYS in Hp.
  destruct (aget_is_Some (key_table k) pressed) as [v E].
  { unfold key_table. repeat case_match; cbn; lia. }
  exists v. split; [by apply get_at_ok|done].
Qed.

(** The function keys print nothing. *)
Lemma key_table_fkeys k pressed :
  F1 <= pressed < SUPPORTED_KEYS -> aget (key_table k) pressed = Some 0.
Proof.
  unfold F1, SUPPORTED_KEYS. intros Hp.
  replace pressed with (59 + (pressed - 59)) by lia.
  assert (Hq : 0 <= pressed - 59 < 10) by lia. generalize dependent (pressed - 59).
  intros q Hq. unfold key_table. range_cases q 10; repeat case_match; reflexivity.
Qed.

(** The display may switch to a terminal whose buffer is full, but then the
    key prints nothing. *)
Lemma other_key_ok pressed c i :
  con_ok c -> kb_index c = Ok i -> 0 <= i <= 127 -> 0 <= pressed ->
  exists c' b, other_key kb_base pressed c = Ok (c', b) /\ safe c c'.
Proof.
  intros Hc Hi Hr Hp. unfold other_key.
  destruct (Z.ltb_spec pressed SUPPORTED_KEYS) as [Hlt|];
    [|exists c, false; split; [done|by apply safe_same_mem]].
  assert (H1 : exists c1, (if negb (alt_on (kbd c) =? 0) && (F1 <=? pressed)
            then switch_keys pressed c else Ok c) = Ok c1 /\ safe c c1 /\
            (F1 <= pressed \/ c1 = c)).
  { destruct (negb (alt_on (kbd c) =? 0)), (Z.leb_spec F1 pressed); cbn [andb].
    - destruct (switch_keys_ok pressed c Hc) as (c1 & E & S1 & _). exists c1. auto.
    - exists c. split; [done|]. split; [by apply safe_same_mem|auto].
    - exists c. split; [done|]. split; [by apply safe_same_mem|auto].
    - exists c. split; [done|]. split; [by apply safe_same_mem|auto]. }
  destruct H1 as (c1 & -> & S1 & Hsw). rewrite bind_ok. pose proof (proj1 S1) as Hc1.
  destruct (negb (ctrl_on (kbd c1) =? 0) && (pressed =? L_KEY)).
  { eexists _, _. split; [reflexivity|]. eapply safe_trans; [exact S1|by apply term_clear_safe]. }
  destruct (kb_index_ok c1 Hc1) as (j & Hj & Hjr). rewrite Hj, bind_ok. unfold MAX_KB_BUF.
  destruct (Z.eqb_spec j (128 - 1)) as [E|E]; [eexists _, _; by split|].
  destruct (key_table_get (kbd c1) pressed ltac:(lia)) as (v & -> & Ev). rewrite bind_ok.
  destruct (Z.eqb_spec (u8 v) 0) as [Hv|Hv]; cbn [negb]; [eexists _, _; by split|].
  assert (Hj127 : j < 128).
  { destruct Hsw as [Hf | ->]; [|rewrite Hj in Hi; injection Hi as ->; lia].
    rewrite key_table_fkeys in Ev by lia. by injection Ev as <-. }
  destruct (kb_push_ok c1 (u8 v) j Hc1 Hj ltac:(lia)) as (c2 & -> & S2 & _). rewrite bind_ok.
  eexists _, _. split; [reflexivity|]. eapply safe_trans; [exact S1|].
  eapply safe_trans; [exact S2|]. eapply safe_trans; [apply put_screen_safe, S2|].
  apply cursor_here_safe. apply con_ok_put, S2.
Qed.

Lemma flags_safe c a p t s : con_ok c -> safe c (with_kbd c (set_flags (kbd c) a p t s)).
Proof. intros Hc. apply safe_same_mem; [apply con_ok_kbd; try done; apply Hc|done]. Qed.

Lemma backspace_safe c :
  con_ok c -> 0 < screen_x (scr c) ->
  let c1 := set_cursor c (screen_x (scr c) - 1) (screen_y (scr c)) in
  let c2 := put_screen c1 32 in
  let c3 := set_cursor c2 (screen_x (scr c2) - 1) (screen_y (scr c2)) in
  safe c c3.
Proof.
  intros Hc Hx. cbn zeta. pose proof (co_cursor _ Hc) as Hcur.
  unfold scr_cursor, cursor_ok, in_grid in Hcur.
  set (c1 := set_cursor c _ _).
  assert (S1 : safe c c1) by (apply set_cursor_safe; [unfold in_grid; lia|done]).
  eapply safe_trans; [exact S1|]. eapply safe_trans; [apply put_screen_safe, S1|].
  apply set_cursor_safe; [|apply con_ok_put, S1].
  assert (E : screen_x (scr (put_screen c1 32)) = screen_x (scr c) /\
              screen_y (scr (put_screen c1 32)) = screen_y (scr c)).
  { unfold put_screen, putc, put_at, c1. cbn [set_cursor with_scr scr vram screen_x screen_y].
    change (u8 32 =? 10) with false. change (u8 32 =? 13) with false. cbn [orb].
    unfold NUM_COLS. destruct (Z.leb_spec 80 (screen_x (scr c) - 1 + 1)); [lia|].
    cbn. lia. }
  unfold in_grid. lia.
Qed.

Lemma kb_step_ok pressed c :
  con_ok c -> 0 <= pressed ->
  exists c' b, kb_step kb_base pressed c = Ok (c', b) /\ safe c c'.
Proof.
  intros Hc Hp. unfold kb_step.
  destruct (kb_index_ok c Hc) as (i0 & Hi0 & Hr0). rewrite Hi0, bind_ok.
  assert (H1 : exists c1 i, (if i0 =? MAX_KB_BUF then set_kb_index c 0 else Ok c) = Ok c1 /\
            safe c c1 /\ kb_index c1 = Ok i /\ 0 <= i <= 127).
  { unfold MAX_KB_BUF. destruct (Z.eqb_spec i0 128).
    - destruct (set_kb_index_ok c 0 Hc ltac:(lia)) as (c1 & E & Hc1 & Es & _ & Ei & _).
      exists c1, 0. split; [done|]. split; [apply safe_same_mem; [done|by rewrite Es]|]. split; [done|lia].
    - exists c, i0. split; [done|]. split; [by apply safe_same_mem|]. split; [done|lia]. }
  destruct H1 as (c1 & i & -> & S1 & Hi & Hr). rewrite bind_ok. pose proof (proj1 S1) as Hc1.
  assert (Hfl : forall a p t s, exists c' b,
    Ok (with_kbd c1 (set_flags (kbd c1) a p t s), false) = Ok (c', b) /\ safe c c').
  { intros. eexists _, _. split; [reflexivity|]. eapply safe_trans; [exact S1|by apply flags_safe]. }
  repeat match goal with |- context [if ?b then Ok (with_kbd _ _, false) else _] =>
    destruct b; [apply Hfl|] end.
  destruct (pressed =? BACKSPACE).
  { destruct (Z.ltb_spec 0 (screen_x (scr c1))) as [Hx|]; [|eexists _, _; by split].
    pose proof (backspace_safe c1 Hc1 Hx) as S2. cbn zeta in S2.
    set (c2 := set_cursor (put_screen _ _) _ _) in *. pose proof (proj1 S2) as Hc2.
    destruct (kb_index_ok c2 Hc2) as (j & -> & Hjr). rewrite bind_ok.
    assert (H3 : exists c3, (if 0 <? j then set_kb_index c2 (j - 1) else Ok c2) = Ok c3 /\ safe c2 c3).
    { destruct (Z.ltb_spec 0 j); [|exists c2; split; [done|by apply safe_same_mem]].
      destruct (set_kb_index_ok c2 (j - 1) Hc2 ltac:(lia)) as (c3 & E & Hc3 & Es & _).
      exists c3. split; [done|]. apply safe_same_mem; [done|by rewrite Es]. }
    destruct H3 as (c3 & -> & S3). rewrite bind_ok. eexists _, _. split; [reflexivity|].
    eapply safe_trans; [exact S1|]. eapply safe_trans; [exact S2|].
    eapply safe_trans; [exact S3|]. apply cursor_here_safe, S3. }
  destruct (pressed =? ENTER).
  { destruct (kb_push_ok c1 10 i Hc1 Hi ltac:(lia)) as (c2 & -> & S2 & _). rewrite bind_ok.
    set (c3 := cursor_here (put_screen c2 10)).
    assert (S3 : safe c2 c3).
    { eapply safe_trans; [apply put_screen_safe, S2|]. apply cursor_here_safe, con_ok_put, S2. }
    pose proof (proj1 S3) as Hc3. pose proof (co_display _ Hc3) as Hd. unfold term_ok in Hd.
    rewrite set_at_ok, bind_ok by (rewrite (co_ready _ Hc3); lia).
    eexists _, _. split; [reflexivity|]. eapply safe_trans; [exact S1|].
    eapply safe_trans; [exact S2|]. eapply safe_trans; [exact S3|].
    apply safe_same_mem; [|done].
    apply con_ok_kbd; cbn [set_ready ready_to_read kb_buf_index]; rewrite ?length_insert;
      try done; apply Hc3. }
  destruct (other_key_ok pressed c1 i Hc1 Hi Hr Hp) as (c2 & b & -> & S2).
  eexists _, _. split; [reflexivity|]. by eapply safe_trans.
Qed.
End Safety.

(** ** Typing *)

Section Typing.
Context `{Device} (kb_base : Z).
Hypothesis Hkb : 0 <= kb_base /\ kb_base + 384 <= 4294967296.
Hypothesis Hkb_off : kb_base + 384 <= VIDEO \/ VIDEO + 16384 <= kb_base.

(** A key that prints [v] when no modifier is on. *)
Definition plain (p v : Z) : Prop := aget key_press p = Some v /\ v <> 0 /\ p <> ENTER.

Lemma plain_code p v :
  plain p v -> 0 <= p < F1 /\ 0 < v < 256 /\
  Forall (fun code => p <> code)
    [CAPS; L_SHIFT_MAKE; R_SHIFT_MAKE; L_SHIFT_BREAK; R_SHIFT_BREAK; L_CTRL_MAKE; L_CTRL_BREAK;
     L_ALT_MAKE; L_ALT_BREAK; BACKSPACE; ENTER].
Proof.
  intros (Hv & Hnz & He). pose proof (aget_Some_lt _ _ _ Hv) as Hp.
  change (Z.of_nat (length key_press)) with 69 in Hp. unfold ENTER in He.
  range_cases p 69; vm_compute in Hv; injection Hv as <-; try done;
    (split; [unfold F1; lia|split; [lia|]]);
    repeat constructor; vm_compute; congruence.
Qed.

(** No modifier is on, the line typed so far is [l] and the screen shows [t]. *)
Record typing (c : console) (l : list Z) (t : tty) : Prop := Typing {
  ty_ok : con_ok c;
  ty_flags : alt_on (kbd c) = 0 /\ caps_on (kbd c) = 0 /\ ctrl_on (kbd c) = 0 /\ shift_on (kbd c) = 0;
  ty_index : kb_index c = Ok (Z.of_nat (length l));
  ty_len : Z.of_nat (length l) <= 127;
  ty_bytes : bytes_at (vram (scr c)) (kb_slot kb_base (display_terminal c) 0) l;
  ty_screen : scr_shows (scr c) t }.

(** The bytes read from the data port so far. *)
Fixpoint kb_reads (tr : trace) : nat :=
  match tr with
  | [] => O
  | In p _ :: tr => if p =? KB_DATA then S (kb_reads tr) else kb_reads tr
  | _ :: tr => kb_reads tr
  end.

(** The controller delivers the codes [ps], one per read, from the read number
    [n] on; it is never busy, so that an interrupt is one turn of the loop. *)
Definition delivers (ps : list Z) (n : nat) : Prop :=
  forall t k p, ps !! k = Some p -> kb_reads t = (n + k)%nat -> u8 (device_in t KB_DATA) = p.
Definition never_busy : Prop :=
  forall t, Z.land (u8 (device_in t KB_STATUS)) INPUT_BUFFER_MASK = 0.

Lemma delivers_head p ps n t : delivers (p :: ps) n -> kb_reads t = n -> u8 (device_in t KB_DATA) = p.
Proof. intros D E. apply (D t 0%nat); [done|]. by rewrite Nat.add_0_r. Qed.
Lemma delivers_tail p ps n : delivers (p :: ps) n -> delivers ps (S n).
Proof. intros D t k q Hk E. apply (D t (S k)); [done|]. rewrite E. lia. Qed.
Lemma delivers_take ps n j : delivers ps n -> delivers (take j ps) n.
Proof.
  intros D t k q Hk E. apply (D t k); [|done]. apply lookup_take_Some in Hk. apply Hk.
Qed.

Lemma typing_tr c l t tr' : typing c l t -> typing (with_tr c tr') l t.
Proof. intros [H1 H2 H3 H4 H5 H6]. split; try done. by apply con_ok_tr. Qed.

(** Storing a byte of the buffer and echoing it. *)
Lemma push_echo c l t v c' :
  typing c l t -> 0 < v < 256 -> kb_push kb_base c v = Ok c' ->
  let c2 := cursor_here (put_screen c' v) in
  con_ok c2 /\ kb_index c2 = Ok (Z.of_nat (length l) + 1) /\
  display_terminal c2 = display_terminal c /\
  bytes_at (vram (scr c2)) (kb_slot kb_base (display_terminal c) 0) (l ++ [v]) /\
  scr_shows (scr c2) (tty_putc t v) /\
  kbd c2 = set_index (kbd c)
    (<[Z.to_nat (display_terminal c) := Z.of_nat (length l) + 1]> (kb_buf_index (kbd c))) /\
  kb_reads (tr c2) = kb_reads (tr c).
Proof.
  intros [Hc Hf Hi Hl Hb Hs] Hv E.
  destruct (kb_push_ok kb_base Hkb Hkb_off c v _ Hc Hi ltac:(lia))
    as (c1 & E1 & S1 & I1 & D1 & T1 & V1 & K1).
  rewrite E1 in E. injection E as ->. cbn zeta.
  pose proof (co_display _ Hc) as Hd. unfold term_ok in Hd.
  assert (Hcur : scr_cursor (scr c')) by apply S1.
  assert (Hshow : scr_shows (scr c') t).
  { assert (E3 : screen_x (scr c') = screen_x (scr c) /\ screen_y (scr c') = screen_y (scr c)).
    { unfold kb_push, set_kb_index in E1. rewrite Hi in E1. cbn [mbind res_bind] in E1.
      case_match; [|done]. destruct (set_at _ _ _); [|done..]. cbn in E1. by injection E1 as <-. }
    destruct Hs as (G1 & G2 & G3 & G4). destruct E3 as [X3 Y3].
    split; [by rewrite X3|]. split; [by rewrite Y3|]. split; [by rewrite X3, Y3|].
    intros x' y' Hin. rewrite V1, <- G4 by done. pose proof (cell_addr VIDEO x' y' page_ok_video Hin).
    pose proof (cell_range VIDEO x' y' Hin). unfold kb_slot, MAX_KB_BUF, VIDEO in *.
    apply load8_store8_ne; unfold addr in *; try lia. }
  split_and!; [apply con_ok_cursor_here, con_ok_put, S1|exact I1|exact D1| | |exact K1|by cbn; rewrite T1].
  - cbn. apply bytes_at_snoc.
    + eapply bytes_at_ext; [|exact Hb]. intros i Hi2. unfold kb_slot, MAX_KB_BUF, VIDEO in *.
      rewrite (putc_outside (scr c') v Hcur) by (unfold addr, VIDEO; lia). rewrite V1.
      apply load8_store8_ne; unfold addr; lia.
    + unfold kb_slot, MAX_KB_BUF, VIDEO in *.
      rewrite (putc_outside (scr c') v Hcur) by (unfold addr, VIDEO; lia). rewrite V1.
      replace (kb_base + 128 * display_terminal c + 0 + Z.of_nat (length l))
        with (kb_base + 128 * display_terminal c + Z.of_nat (length l)) by lia.
      rewrite load8_store8_eq. apply u8_small. lia.
  - cbn. apply putc_shows; [lia|done].
Qed.

Lemma step_plain c l t p v :
  typing c l t -> plain p v -> Z.of_nat (length l) < 127 ->
  exists c', kb_step kb_base p c = Ok (c', false) /\ typing c' (l ++ [v]) (tty_putc t v) /\
    display_terminal c' = display_terminal c /\ ready_to_read (kbd c') = ready_to_read (kbd c) /\
    kb_reads (tr c') = kb_reads (tr c).
Proof.
  intros Hty Hp Hlt. destruct (plain_code p v Hp) as (Hr & Hv & Hcodes).
  destruct Hp as (Hget & _ & _). pose proof Hty as [Hc (F1' & F2' & F3' & F4') Hi Hl Hb Hs].
  destruct (kb_push_ok kb_base Hkb Hkb_off c v _ Hc Hi ltac:(lia)) as (c1 & E1 & _).
  pose proof (push_echo c l t v c1 Hty Hv E1) as (P1 & P2 & P3 & P4 & P5 & P6 & P7).
  exists (cursor_here (put_screen c1 v)). split; [|split; [|split; [exact P3|split; [by rewrite P6|exact P7]]]].
  - rewrite !Forall_cons in Hcodes. destruct Hcodes as (N1 & N2 & N3 & N4 & N5 & N6 & N7 & N8 & N9 & N10 & N11 & _).
    unfold kb_step. rewrite Hi, bind_ok. unfold MAX_KB_BUF.
    destruct (Z.eqb_spec (Z.of_nat (length l)) 128); [lia|]. rewrite bind_ok.
    repeat match goal with N : p <> ?k |- context [p =? ?k] => rewrite (proj2 (Z.eqb_neq p k) N) end.
    cbn [orb]. unfold other_key, SUPPORTED_KEYS. unfold F1 in *.
    destruct (Z.ltb_spec p 69); [|lia].
    destruct (Z.leb_spec 59 p); [lia|]. rewrite andb_false_r, bind_ok, F3'.
    change (negb (0 =? 0)) with false. cbn [andb]. rewrite Hi, bind_ok. unfold MAX_KB_BUF.
    destruct (Z.eqb_spec (Z.of_nat (length l)) (128 - 1)); [lia|].
    unfold key_table. rewrite F2', F4'. change (negb (0 =? 0)) with false. cbn [andb].
    rewrite (get_at_ok _ _ _ Hget), bind_ok, u8_small by lia.
    destruct (Z.eqb_spec v 0); [lia|]. cbn [negb]. by rewrite E1, bind_ok.
  - split; [exact P1| | | | |exact P5].
    + rewrite P6. done.
    + rewrite P2, length_app. f_equal. cbn [length]. lia.
    + rewrite length_app. cbn [length]. lia.
    + rewrite P3. exact P4.
Qed.

Fixpoint kb_steps (ps : list Z) (c : console) : res console :=
  match ps with
  | [] => Ok c
  | p :: ps => '(c, _) ← kb_step kb_base p c; kb_steps ps c
  end.

Lemma steps_plain ps vs c l t :
  typing c l t -> Forall2 plain ps vs -> Z.of_nat (length l) + Z.of_nat (length vs) <= 127 ->
  exists c', kb_steps ps c = Ok c' /\ typing c' (l ++ vs) (foldl tty_putc t vs) /\
    display_terminal c' = display_terminal c.
Proof.
  intros Hty Hps. revert c l t Hty. induction Hps as [|p v ps vs Hp Hps IH]; intros c l t Hty Hlen.
  - exists c. rewrite app_nil_r. by split_and!.
  - cbn [length] in Hlen. destruct (step_plain c l t p v Hty Hp ltac:(lia)) as (c1 & E1 & T1 & D1 & _).
    destruct (IH c1 (l ++ [v]) (tty_putc t v) T1) as (c2 & E2 & T2 & D2).
    { rewrite length_app. cbn [length]. lia. }
    exists c2. cbn [kb_steps foldl]. rewrite E1, bind_ok.
    split; [exact E2|]. split; [|congruence]. by rewrite <- app_assoc in T2.
Qed.

(** Enter ends the line and makes it readable. *)
Lemma step_enter c l t :
  typing c l t ->
  exists c', kb_step kb_base ENTER c = Ok (c', false) /\ con_ok c' /\
    kb_index c' = Ok (Z.of_nat (length l) + 1) /\ display_terminal c' = display_terminal c /\
    get_at (ready_to_read (kbd c')) (display_terminal c) = Ok 1 /\
    bytes_at (vram (scr c')) (kb_slot kb_base (display_terminal c) 0) (l ++ [10]) /\
    scr_shows (scr c') (tty_putc t 10) /\ kb_reads (tr c') = kb_reads (tr c).
Proof.
  intros Hty. pose proof Hty as [Hc (F1' & F2' & F3' & F4') Hi Hl Hb Hs].
  destruct (kb_push_ok kb_base Hkb Hkb_off c 10 _ Hc Hi ltac:(lia)) as (c1 & E1 & _).
  pose proof (push_echo c l t 10 c1 Hty ltac:(lia) E1) as (P1 & P2 & P3 & P4 & P5 & P6 & P7).
  set (c2 := cursor_here (put_screen c1 10)) in *.
  pose proof (co_display _ Hc) as Hd. unfold term_ok in Hd.
  eexists. split.
  - unfold kb_step. rewrite Hi, bind_ok. unfold MAX_KB_BUF.
    destruct (Z.eqb_spec (Z.of_nat (length l)) 128); [lia|]. rewrite bind_ok.
    cbn -[kb_push cursor_here put_screen set_at]. rewrite E1, bind_ok. fold c2.
    rewrite set_at_ok, bind_ok by (rewrite (co_ready _ P1), P3; lia). reflexivity.
  - split_and!; [|exact P2|exact P3| |exact P4|exact P5|exact P7].
    + apply con_ok_kbd; cbn [set_ready ready_to_read kb_buf_index]; rewrite ?length_insert;
        try done; apply P1.
    + cbn [with_kbd kbd set_ready ready_to_read]. apply get_at_ok.
      rewrite P3, aget_insert by (rewrite (co_ready _ P1); lia). by rewrite Z.eqb_refl.
Qed.
End Typing.

(** ** Properties *)

Lemma keyboard_loop_safe `{Device} kb_base fuel c :
  0 <= kb_base /\ kb_base + 384 <= 4294967296 ->
  kb_base + 384 <= VIDEO \/ VIDEO + 16384 <= kb_base -> con_ok c ->
  match keyboard_loop kb_base fuel c with
  | Ok c' => safe kb_base c c'
  | Fault => False
  | Hang => forall f, (forall t, Z.land (u8 (device_in t KB_STATUS)) INPUT_BUFFER_MASK = f) ->
      f = 0 -> fuel = O
  end.
Proof.
  intros Hkb Hoff. revert c. induction fuel as [|fuel IH]; intros c Hc; [done|].
  cbn [keyboard_loop]. unfold inb at 1.
  set (c0 := with_tr c _).
  destruct (kb_step_ok kb_base Hkb Hoff (u8 (device_in (tr c) KB_DATA)) c0)
    as (c1 & b & -> & S1); [by apply con_ok_tr|apply u8_range|].
  rewrite bind_ok. assert (Sc : safe kb_base c c1) by exact S1.
  destruct b; [done|]. unfold inb.
  destruct (Z.eqb_spec (Z.land (u8 (device_in (tr c1) KB_STATUS)) INPUT_BUFFER_MASK) 0) as [E|E].
  - split; [by apply con_ok_tr, Sc|apply Sc].
  - set (c2 := with_tr c1 _). assert (Hc2 : con_ok c2) by (apply con_ok_tr, Sc).
    specialize (IH c2 Hc2). destruct (keyboard_loop kb_base fuel c2) as [c3| |]; [|done|].
    + eapply safe_trans; [exact Sc|]. exact IH.
    + intros f Hf ->. exfalso. by apply E.
Qed.

(** C14 The keyboard handler never leaves the bounds of its arrays: from a
    well-formed console, whatever scan codes the controller delivers and
    however often it asks for another turn, the handler does not fault, keeps
    the console well-formed (buffer indices 0 to 128, cursors inside the grid,
    displayed terminal 0 to 2) and writes only the four video pages and the
    three line buffers; it returns after one turn when the status bit it polls
    is clear. *)
Theorem keyboard_handler_safe `{Device} (kb_base : Z) (fuel : nat) (c : console) :
  0 <= kb_base /\ kb_base + 384 <= 4294967296 ->
  kb_base + 384 <= VIDEO \/ VIDEO + 16384 <= kb_base -> con_ok c ->
  keyboard_loop kb_base fuel c <> Fault /\
  (forall c', keyboard_loop kb_base fuel c = Ok c' ->
     con_ok c' /\ kb_frame kb_base (vram (scr c)) (vram (scr c'))) /\
  ((forall t, Z.land (u8 (device_in t KB_STATUS)) INPUT_BUFFER_MASK = 0) -> (0 < fuel)%nat ->
     exists c', keyboard_loop kb_base fuel c = Ok c').
Proof.
  intros Hkb Hoff Hc. pose proof (keyboard_loop_safe kb_base fuel c Hkb Hoff Hc) as S.
  destruct (keyboard_loop kb_base fuel c) as [c'| |].
  - split_and!; [done|by intros c2 [= <-]|by exists c'].
  - done.
  - split_and!; [done..|]. intros Hz Hf. specialize (S 0 Hz eq_refl). lia.
Qed.

(** C15 Typing a line: from an empty buffer with no modifier on, any sequence
    of at most 127 printing keys followed by Enter leaves in the displayed
    terminal's buffer exactly the typed characters and a newline, marks it
    ready, and echoes the same characters on the screen. *)
Theorem typed_line (kb_base : Z) (ps vs : list Z) (c : console) (t : tty) :
  0 <= kb_base /\ kb_base + 384 <= 4294967296 ->
  kb_base + 384 <= VIDEO \/ VIDEO + 16384 <= kb_base ->
  typing kb_base c [] t -> Forall2 plain ps vs -> Z.of_nat (length vs) <= 127 ->
  exists c', kb_steps kb_base (ps ++ [ENTER]) c = Ok c' /\ con_ok c' /\
    display_terminal c' = display_terminal c /\
    kb_index c' = Ok (Z.of_nat (length vs) + 1) /\
    get_at (ready_to_read (kbd c')) (display_terminal c) = Ok 1 /\
    bytes_at (vram (scr c')) (kb_slot kb_base (display_terminal c) 0) (vs ++ [10]) /\
    scr_shows (scr c') (foldl tty_putc t (vs ++ [10])).
Proof.
  intros Hkb Hoff Hty Hps Hlen.
  destruct (steps_plain kb_base Hkb Hoff ps vs c [] t Hty Hps ltac:(cbn; lia)) as (c1 & E1 & T1 & D1).
  destruct (step_enter kb_base Hkb Hoff c1 vs (foldl tty_putc t vs) T1)
    as (c2 & E2 & H1 & H2 & H3 & H4 & H5 & H6 & _).
  assert (Happ : forall l2 l1 c0 ca, kb_steps kb_base l1 c0 = Ok ca ->
    kb_steps kb_base (l1 ++ l2) c0 = kb_steps kb_base l2 ca).
  { intros l2 l1. induction l1 as [|p l1 IH]; intros c0 ca; cbn [kb_steps app].
    - by intros [= ->].
    - destruct (kb_step kb_base p c0) as [[c3 b]| |]; cbn [mbind res_bind]; try done. apply IH. }
  exists c2. rewrite (Happ _ _ _ _ E1). cbn [kb_steps]. rewrite E2, bind_ok.
  rewrite D1 in *. split_and!; try done. by rewrite foldl_app.
Qed.

(** ** Witnesses *)

Definition quiet : Device := fun _ _ => 0.

Lemma demo_typing : typing 4300000 demo_console [] (tty_of (scr demo_console)).
Proof.
  split; [apply demo_console_ok|done|done|cbn; lia|apply bytes_at_nil|].
  apply tty_of_shows, (co_cursor _ demo_console_ok).
Qed.

Lemma keyboard_handler_safe_witness :
  exists c', @keyboard_loop quiet 4300000 1 demo_console = Ok c'.
Proof.
  apply (@keyboard_handler_safe quiet 4300000 1 demo_console ltac:(lia)
    ltac:(unfold VIDEO; lia) demo_console_ok); [|lia].
  intros t. reflexivity.
Defined.

(** The keys l, s and Enter. *)
Lemma typed_line_witness :
  exists c', kb_steps 4300000 [38; 31; 28] demo_console = Ok c' /\
    bytes_at (vram (scr c')) 4300000 [108; 115; 10].
Proof.
  destruct (typed_line 4300000 [38; 31] [108; 115] demo_console
    (tty_of (scr demo_console)) ltac:(lia) ltac:(unfold VIDEO; lia) demo_typing)
    as (c' & H1 & _ & _ & _ & _ & H2 & _).
  - repeat constructor; try reflexivity; vm_compute; congruence.
  - cbn; lia.
  - exists c'. split; [exact H1|exact H2].
Defined.

