(* ===== verification/Irq.v ===== *)
(** * idt.c: interrupts of the PIC lines

    [pic_handler] dispatches on the line, acknowledges it and restores the
    interrupt flag.  [pit_handler] is empty: its call of [change_task] is
    commented out, so the queue is never rotated by the timer. *)

From S2P Require Import Prelude Mem Lib Screen Ports I8259 Rtc Paging Pcb Sched Console Keyboard.

Definition IRQ_0 : Z := 0.
Definition IRQ_1 : Z := 1.
Definition IRQ_8 : Z := 8.

Definition cli_and_save (i : bool) (t : trace) : bool * trace := (if_flag i t, cli t).
Definition restore_flags (flags : bool) (t : trace) : trace := if flags then sti t else cli t.

Section Irq.
Context `{Device} (kb_base : Z).

Definition pit_handler (c : console) : console := c.

(** [i] is the interrupt flag before the trace, [fuel] bounds the turns of the
    keyboard handler. *)
Definition pic_handler (fuel : nat) (i : bool) (int_num : Z) (c : console) : res console :=
  let '(flags, t) := cli_and_save i (tr c) in
  let c := with_tr c t in
  c ← (if int_num =? IRQ_0 then Ok (pit_handler c)
       else if int_num =? IRQ_1 then keyboard_loop kb_base fuel c
       else if int_num =? IRQ_8 then
         let '(r, t) := rtc_handler (k_rtc c) (tr c) in Ok (with_rtc c r t)
       else Ok c);
  let c := with_tr c (send_eoi int_num (tr c)) in
  Ok (with_tr c (restore_flags flags (tr c))).
End Irq.

Lemma pic_handler_flag `{Device} kb_base fuel i n c c' :
  pic_handler kb_base fuel i n c = Ok c' -> if_flag i (tr c') = if_flag i (tr c).
Proof.
  unfold pic_handler, cli_and_save. intros E. apply bind_Ok_inv in E as (c1 & _ & [= <-]).
  cbn. by destruct (if_flag i (tr c)).
Qed.

Lemma pic_handler_safe `{Device} kb_base fuel i n c :
  0 <= kb_base /\ kb_base + 384 <= 4294967296 ->
  kb_base + 384 <= VIDEO \/ VIDEO + 16384 <= kb_base -> con_ok c ->
  match pic_handler kb_base fuel i n c with
  | Ok c' => safe kb_base c c'
  | Fault => False
  | Hang => n = IRQ_1
  end.
Proof.
  intros Hkb Hoff Hc. unfold pic_handler, cli_and_save.
  assert (Hdone : forall c1, safe kb_base c c1 ->
    safe kb_base c (with_tr (with_tr c1 (send_eoi n (tr c1)))
       (restore_flags (if_flag i (tr c)) (tr (with_tr c1 (send_eoi n (tr c1))))))).
  { intros c1 [S1 F1]. split; [by apply con_ok_tr, con_ok_tr|exact F1]. }
  assert (Hsame : forall c1, con_ok c1 -> vram (scr c1) = vram (scr c) -> safe kb_base c c1).
  { intros. by apply safe_same_mem. }
  destruct (Z.eqb_spec n IRQ_0) as [->|N0].
  { rewrite bind_ok. apply Hdone, Hsame; [by apply con_ok_tr|done]. }
  destruct (Z.eqb_spec n IRQ_1) as [->|N1].
  { pose proof (keyboard_loop_safe kb_base fuel (with_tr c (cli (tr c))) Hkb Hoff
      ltac:(by apply con_ok_tr)) as S.
    destruct (keyboard_loop kb_base fuel (with_tr c (cli (tr c)))); cbn [mbind res_bind]; try done.
    apply Hdone. exact S. }
  destruct (n =? IRQ_8).
  - destruct (rtc_handler _ _) as [r t]. rewrite bind_ok.
    apply Hdone, Hsame; [|done]. apply (con_ok_same c); try done. apply Hc.
  - rewrite bind_ok. apply Hdone, Hsame; [by apply con_ok_tr|done].
Qed.

(** ** The clock line *)

(** The test mode doubles the frequency at these counts. *)
Definition rtc_steps (r : rtc) : bool :=
  negb (rtc_test_flag r =? 0) && (rtc_freq r <? 1024)
  && bool_decide (rtc_count r ∈ [10; 30; 70; 100; 200]).

Lemma clear_rtc_read_eq `{Device} r t :
  clear_rtc_read r t =
  if rtc_steps r
  then let freq := u32 (rtc_freq r * 2) in
       (Rtc 0 (rtc_count r) freq (rtc_test_flag r), snd (rtc_write_freq freq t))
  else (Rtc 0 (rtc_count r) (rtc_freq r) (rtc_test_flag r), t).
Proof.
  unfold clear_rtc_read, rtc_steps. cbn [rtc_test_flag rtc_count rtc_freq].
  destruct (negb (rtc_test_flag r =? 0)); cbn [andb]; [|done].
  replace (bool_decide _) with ((rtc_count r =? 10) || (rtc_count r =? 30) || (rtc_count r =? 70)
    || (rtc_count r =? 100) || (rtc_count r =? 200)).
  2:{ apply Bool.eq_iff_eq_true. rewrite bool_decide_eq_true, !orb_true_iff, !Z.eqb_eq. set_solver. }
  rewrite andb_comm. destruct (_ && _); [|done].
  by destruct (rtc_write_freq _ _).
Qed.

Lemma rtc_handler_reads `{Device} r t : kb_reads (snd (rtc_handler r t)) = kb_reads t.
Proof.
  assert (Hw : forall freq, kb_reads (snd (rtc_write_freq freq t)) = kb_reads t).
  { intros freq. unfold rtc_write_freq. destruct (_ <? _); [done|]. by destruct (rtc_rate freq). }
  unfold rtc_handler. rewrite clear_rtc_read_eq. destruct (rtc_steps r); [|done]. exact (Hw _).
Qed.

(** ** The keyboard line *)

Section Keys.
Context `{Device} (kb_base : Z).
Hypothesis Hkb : 0 <= kb_base /\ kb_base + 384 <= 4294967296.
Hypothesis Hkb_off : kb_base + 384 <= VIDEO \/ VIDEO + 16384 <= kb_base.
Context (fuel : nat) (i : bool).
Hypothesis Hbusy : never_busy.

Lemma restore_reads flags t : kb_reads (restore_flags flags t) = kb_reads t.
Proof. by destruct flags. Qed.
Lemma send_eoi_reads n t : kb_reads (send_eoi n t) = kb_reads t.
Proof. unfold send_eoi, send_eoi_rec. by repeat case_match. Qed.

(** One interrupt is one turn of the handler's loop. *)
Lemma keyboard_turn c p c1 :
  u8 (device_in (tr c) KB_DATA) = p -> kb_step kb_base p (with_tr c (In KB_DATA p :: tr c)) = Ok (c1, false) ->
  exists s, keyboard_loop kb_base (S fuel) c = Ok (with_tr c1 (In KB_STATUS s :: tr c1)).
Proof.
  intros Hp E. cbn [keyboard_loop]. unfold inb at 1. rewrite Hp, E, bind_ok. unfold inb.
  rewrite (Hbusy _), Z.eqb_refl. by eexists.
Qed.

Lemma pic_keyboard c c1 :
  keyboard_loop kb_base (S fuel) (with_tr c (cli (tr c))) = Ok c1 ->
  pic_handler kb_base (S fuel) i IRQ_1 c =
    Ok (with_tr c1 (restore_flags (if_flag i (tr c)) (send_eoi IRQ_1 (tr c1)))).
Proof.
  intros E. unfold pic_handler. cbn [cli_and_save].
  change (IRQ_1 =? IRQ_0) with false. change (IRQ_1 =? IRQ_1) with true. cbv iota. by rewrite E.
Qed.

(** A printing key extends the line and the screen. *)
Lemma pic_key c l t p v n :
  typing kb_base c l t -> plain p v -> Z.of_nat (length l) < 127 -> delivers [p] n -> kb_reads (tr c) = n ->
  exists c', pic_handler kb_base (S fuel) i IRQ_1 c = Ok c' /\ typing kb_base c' (l ++ [v]) (tty_putc t v) /\
    display_terminal c' = display_terminal c /\ ready_to_read (kbd c') = ready_to_read (kbd c) /\
    kb_reads (tr c') = S n.
Proof.
  intros Hty Hp Hl Hd Hn.
  assert (Hin : u8 (device_in (cli (tr c)) KB_DATA) = p) by (by eapply delivers_head; [exact Hd|]).
  destruct (step_plain kb_base Hkb Hkb_off (with_tr c (In KB_DATA p :: cli (tr c))) l t p v)
    as (c1 & E1 & T1 & D1 & R1 & N1); [by apply typing_tr|done|done|].
  destruct (keyboard_turn (with_tr c (cli (tr c))) p c1 Hin E1) as (s & E).
  rewrite (pic_keyboard _ _ E). eexists. split; [reflexivity|]. split; [by do 2 apply typing_tr|].
  split; [exact D1|]. split; [exact R1|]. cbn [with_tr tr].
  rewrite restore_reads, send_eoi_reads. change (kb_reads (tr c1) = S n). rewrite N1. by cbn; rewrite Hn.
Qed.

(** Enter finishes the line. *)
Lemma pic_enter c l t n :
  typing kb_base c l t -> delivers [ENTER] n -> kb_reads (tr c) = n ->
  exists c', pic_handler kb_base (S fuel) i IRQ_1 c = Ok c' /\ con_ok c' /\
    kb_index c' = Ok (Z.of_nat (length l) + 1) /\ display_terminal c' = display_terminal c /\
    get_at (ready_to_read (kbd c')) (display_terminal c) = Ok 1 /\
    bytes_at (vram (scr c')) (kb_slot kb_base (display_terminal c) 0) (l ++ [10]) /\
    scr_shows (scr c') (tty_putc t 10).
Proof.
  intros Hty Hd Hn.
  assert (Hin : u8 (device_in (cli (tr c)) KB_DATA) = ENTER) by (by eapply delivers_head; [exact Hd|]).
  destruct (step_enter kb_base Hkb Hkb_off (with_tr c (In KB_DATA ENTER :: cli (tr c))) l t)
    as (c1 & E1 & H1 & H2 & H3 & H4 & H5 & H6 & _); [by apply typing_tr|].
  destruct (keyboard_turn (with_tr c (cli (tr c))) ENTER c1 Hin E1) as (s & E).
  rewrite (pic_keyboard _ _ E). eexists. split; [reflexivity|]. split; [by do 2 apply con_ok_tr|]. by split_and!.
Qed.

(** The other lines leave the keyboard, the screen and the terminals alone. *)
Lemma pic_other n c :
  n <> IRQ_1 ->
  exists c', pic_handler kb_base fuel i n c = Ok c' /\ (exists r t, c' = with_rtc c r t) /\
    kb_reads (tr c') = kb_reads (tr c).
Proof.
  intros Hn. unfold pic_handler, cli_and_save.
  destruct (Z.eqb_spec n IRQ_0); [|destruct (Z.eqb_spec n IRQ_1); [done|destruct (n =? IRQ_8)]].
  - rewrite bind_ok. eexists. split; [reflexivity|]. split; [by exists (k_rtc c); eexists|].
    cbn [with_tr tr]. by rewrite restore_reads, send_eoi_reads.
  - destruct (rtc_handler _ _) as [r t] eqn:E. rewrite bind_ok. eexists. split; [reflexivity|].
    split; [by exists r; eexists|]. cbn [with_tr with_rtc tr]. rewrite restore_reads, send_eoi_reads.
    change t with (snd (r, t)). rewrite <- E. by rewrite rtc_handler_reads.
  - rewrite bind_ok. eexists. split; [reflexivity|]. split; [by exists (k_rtc c); eexists|].
    cbn [with_tr tr]. by rewrite restore_reads, send_eoi_reads.
Qed.
End Keys.

(** C36 Interrupt dispatch.  Whatever line fires, the handler does not fault,
    keeps the console well-formed, writes only the video pages and the line
    buffers, and restores the interrupt flag.  Line 1 runs the keyboard
    handler: the key that the controller holds is typed, in the buffer and on
    the screen, and Enter makes the line readable.  Line 8 clears [RTC_READ],
    selects and reads register C of the clock, which allows its next interrupt
    (and in the test mode doubles the rate first).  Every other line, the
    timer's too, changes nothing but the port trace.  All end with the end of
    interrupt of the line: at the master, or at the slave and then for the
    cascade line at the master. *)
Theorem pic_handler_correct `{Device} (kb_base : Z) (fuel : nat) (i : bool) (n : Z) (c : console) :
  0 <= kb_base /\ kb_base + 384 <= 4294967296 ->
  kb_base + 384 <= VIDEO \/ VIDEO + 16384 <= kb_base -> con_ok c -> 0 <= n < 16 ->
  let run := pic_handler kb_base (S fuel) i n c in
  let flag := if if_flag i (tr c) then Sti else Cli in
  let eoi t := if n <? 8 then Out 32 (96 + n) :: t else Out 32 98 :: Out 160 (96 + (n - 8)) :: t in
  run <> Fault /\
  (forall c', run = Ok c' -> safe kb_base c c' /\ if_flag i (tr c') = if_flag i (tr c) /\
     exists t1, tr c' = flag :: eoi t1) /\
  (forall l t, n = IRQ_1 -> typing kb_base c l t -> never_busy ->
     let n0 := kb_reads (tr c) in
     (forall p v, plain p v -> Z.of_nat (length l) < 127 -> delivers [p] n0 ->
        exists c', run = Ok c' /\ typing kb_base c' (l ++ [v]) (tty_putc t v) /\
          display_terminal c' = display_terminal c /\ kb_reads (tr c') = S n0) /\
     (delivers [ENTER] n0 ->
        exists c', run = Ok c' /\ display_terminal c' = display_terminal c /\
          get_at (ready_to_read (kbd c')) (display_terminal c') = Ok 1 /\
          kb_index c' = Ok (Z.of_nat (length l) + 1) /\
          bytes_at (vram (scr c')) (kb_slot kb_base (display_terminal c') 0) (l ++ [10]) /\
          scr_shows (scr c') (tty_putc t 10))) /\
  (n = IRQ_8 ->
     let r := k_rtc c in
     let freq := if rtc_steps r then u32 (rtc_freq r * 2) else rtc_freq r in
     let t := if rtc_steps r then snd (rtc_write_freq freq (Cli :: tr c)) else Cli :: tr c in
     let t := Out RTC_INDEX REG_C :: t in
     run = Ok (with_rtc c (Rtc 0 (rtc_count r) freq (rtc_test_flag r))
                 (flag :: eoi (In RTC_DATA (u8 (device_in t RTC_DATA)) :: t)))) /\
  (n <> IRQ_1 -> n <> IRQ_8 -> run = Ok (with_tr c (flag :: eoi (Cli :: tr c)))).
Proof.
  intros Hkb Hoff Hc Hn run flag eoi.
  pose proof (pic_handler_safe kb_base (S fuel) i n c Hkb Hoff Hc) as S. fold run in S.
  assert (He : forall t, restore_flags (if_flag i (tr c)) (send_eoi n t) = flag :: eoi t).
  { intros t. rewrite send_eoi_trace by done. unfold flag, eoi, slave_line, line_bit, slave_line, IRQ_SLAVE.
    destruct (if_flag i (tr c)), (Z.leb_spec 8 n), (Z.ltb_spec n 8); (done || lia). }
  split_and!.
  - intros E. by rewrite E in S.
  - intros c' E. rewrite E in S. split; [exact S|]. split; [by eapply pic_handler_flag|].
    unfold run, pic_handler, cli_and_save in E. apply bind_Ok_inv in E as (c1 & _ & [= <-]).
    exists (tr c1). apply He.
  - intros l t -> Hty Hb n0. split.
    + intros p v Hp Hl Hd.
      destruct (pic_key kb_base Hkb Hoff fuel i Hb c l t p v n0 Hty Hp Hl Hd eq_refl) as (c' & E & T & D & _ & N).
      exists c'. by split_and!.
    + intros Hd. destruct (pic_enter kb_base Hkb Hoff fuel i Hb c l t n0 Hty Hd eq_refl)
        as (c' & E & _ & H2 & H3 & H4 & H5 & H6).
      exists c'. rewrite H3. by split_and!.
  - intros ->. cbv zeta. unfold run, pic_handler, cli_and_save.
    change (IRQ_8 =? IRQ_0) with false. change (IRQ_8 =? IRQ_1) with false. change (IRQ_8 =? IRQ_8) with true.
    cbv iota. unfold rtc_handler. rewrite clear_rtc_read_eq. cbn [with_tr k_rtc tr]. rewrite <- He.
    by destruct (rtc_steps (k_rtc c)).
  - intros H1 H8. unfold run, pic_handler, cli_and_save. rewrite <- He.
    destruct (Z.eqb_spec n IRQ_0); [done|]. destruct (Z.eqb_spec n IRQ_1); [done|].
    by destruct (Z.eqb_spec n IRQ_8).
Qed.

(** ** Witnesses *)

(** A controller that delivers [codes] and then zeros. *)
Definition keys_sim (codes : list Z) : Device :=
  fun t p => if p =? KB_DATA then default 0 (codes !! kb_reads t) else 0.

Lemma keys_sim_delivers codes : Forall (fun p => 0 <= p < 256) codes -> delivers (H := keys_sim codes) codes 0.
Proof.
  intros Hc t k p Hk E. unfold device_in, keys_sim. change (KB_DATA =? KB_DATA) with true. cbv iota.
  rewrite E, Nat.add_0_l, Hk. cbn. apply u8_small. rewrite Forall_forall in Hc.
  by apply Hc, (list_elem_of_lookup_2 _ _ _ Hk).
Qed.
Lemma keys_sim_idle codes : never_busy (H := keys_sim codes).
Proof. done. Qed.

Lemma pic_handler_correct_witness :
  (exists c', @pic_handler (keys_sim [38]) 4300000 1 true 1 demo_console = Ok c' /\
     Some 108 = Some (load8 (vram (scr c')) 4300000)) /\
  @pic_handler quiet 4300000 1 true 8 demo_console =
    Ok (with_rtc demo_console (Rtc 0 0 2 0) [Sti; Out 32 98; Out 160 96; In 113 0; Out 112 12; Cli]).
Proof.
  split.
  - destruct (@pic_handler_correct (keys_sim [38]) 4300000 0 true 1 demo_console ltac:(lia)
      ltac:(unfold VIDEO; lia) demo_console_ok ltac:(lia)) as (_ & _ & H & _).
    destruct (H [] (tty_of (scr demo_console)) eq_refl demo_typing (keys_sim_idle _)) as [Hk _].
    destruct (Hk 38 108) as (c' & E & T & D & _).
    + split; [reflexivity|]. split; [lia|unfold ENTER; lia].
    + cbn. lia.
    + apply (keys_sim_delivers [38]). repeat constructor; lia.
    + exists c'. split; [exact E|]. pose proof (ty_bytes _ _ _ _ T 0 ltac:(cbn; lia)) as B.
      rewrite D in B. exact B.
  - destruct (@pic_handler_correct quiet 4300000 0 true 8 demo_console ltac:(lia)
      ltac:(unfold VIDEO; lia) demo_console_ok ltac:(lia)) as (_ & _ & _ & H & _).
    exact (H eq_refl).
Defined.
