(* ===== verification/Terminal.v ===== *)
(** * terminal.c: the terminal driver of the system calls *)

From S2P Require Import Prelude Mem Lib Screen Ports I8259 Rtc Paging Pcb Sched Console Keyboard Irq.

Section Driver.
Context `{Device} (kb_base : Z).

Definition term_open (c : console) : res (console * Z) :=
  c ← keyboard_init c;
  let c := term_clear c in
  '(vx, vy) ← forM (seqZ 0 NUM_TERMINALS) (fun '(vx, vy) i =>
      vx ← set_at vx i 0; vy ← set_at vy i 0; Ok (vx, vy)) (virtual_x c, virtual_y c);
  Ok (with_virtual c vx vy, 0).

Definition term_close (c : console) : res (console * Z) :=
  c ← keyboard_disable c; Ok (c, 0).

(** [while (!ready_to_read[display_terminal]) {}]: each event is an interrupt
    of the given line; when no event is left the loop spins for ever. *)
Fixpoint term_wait (fuel : nat) (i : bool) (evs : list Z) (c : console) : res (console * list Z) :=
  r ← get_at (ready_to_read (kbd c)) (display_terminal c);
  if negb (r =? 0) then Ok (c, evs)
  else match evs with
       | [] => Hang
       | n :: evs => c ← pic_handler kb_base fuel i n c; term_wait fuel i evs c
       end.

Definition term_read (fuel : nat) (i : bool) (evs : list Z) (buf nbytes : Z) (c : console)
    : res (console * list Z * Z) :=
  if buf =? 0 then Ok (c, evs, -1)
  else
    '(c, evs) ← term_wait fuel i evs c;
    idx ← kb_index c;
    let src := kb_slot kb_base (display_terminal c) 0 in
    let m := vram (scr c) in
    let '(m, num_bytes_read) :=
      if idx <? nbytes then
        let m := memcpy m buf src idx in
        (for_ (nbytes - idx) (fun m k => store8 m (buf + (idx + k)) 0) m, idx)
      else (memcpy m buf src (u32 nbytes), 0) in
    k ← clear_keyboard_buf (kbd c);
    Ok (with_kbd (with_scr c (set_vram (scr c) m)) k, evs, num_bytes_read).

Definition term_write (s : sched) (buf nbytes : Z) (c : console) : res (console * Z) :=
  if buf =? 0 then Ok (c, -1)
  else
    active ← pq_get_active_term s;
    if active =? u32 (display_terminal c) then
      let c := for_ nbytes (fun c i => put_screen c (load8 (vram (scr c)) (buf + i))) c in
      Ok (cursor_here c, 0)
    else
      c ← forM (seqZ 0 nbytes) (fun c i => term_putc s (load8 (vram (scr c)) (buf + i)) c) c;
      Ok (c, 0).
End Driver.

(** ** Reading *)

Lemma clear_keyboard_buf_ok k :
  length (ready_to_read k) = 3%nat -> length (kb_buf_index k) = 3%nat ->
  clear_keyboard_buf k =
    Ok (Keyboard (alt_on k) (caps_on k) (ctrl_on k) (shift_on k) [0; 0; 0] [0; 0; 0]).
Proof.
  destruct k as [al ca ct sh r x]; cbn [ready_to_read kb_buf_index]. intros Hr Hx.
  destruct r as [|r0 [|r1 [|r2 [|? ?]]]]; try done.
  destruct x as [|x0 [|x1 [|x2 [|? ?]]]]; done.
Qed.

Lemma zero_fill m a n :
  0 <= n -> in_space a n ->
  writes m (for_ n (fun m k => store8 m (a + k) 0) m) a n (fun _ => 0).
Proof.
  intros Hn Ha. unfold in_space in Ha.
  apply (for_inv n _ (fun k mk => writes m mk a k (fun _ => 0))); [done|by apply writes_nil|].
  intros i mi Hi W. apply writes_snoc; [lia|unfold in_space; lia|done|done].
Qed.

Section Read.
Context `{Device} (kb_base : Z).

(** A line that is finished is copied out: padded with NULs when the request
    is longer; for a shorter request that prefix, but the value 0. *)
Lemma term_read_ready (fuel : nat) (i : bool) (evs : list Z) (buf nbytes r : Z) (l : list Z)
    (c : console) :
  con_ok c -> get_at (ready_to_read (kbd c)) (display_terminal c) = Ok r -> r <> 0 ->
  kb_index c = Ok (Z.of_nat (length l)) ->
  bytes_at (vram (scr c)) (kb_slot kb_base (display_terminal c) 0) l ->
  0 <= kb_base -> kb_base + 384 <= 4294967296 -> buf <> 0 -> 0 <= nbytes ->
  in_space buf nbytes -> buf + nbytes <= kb_base \/ kb_base + 384 <= buf ->
  exists c', term_read kb_base fuel i evs buf nbytes c =
      Ok (c', evs, if Z.of_nat (length l) <? nbytes then Z.of_nat (length l) else 0) /\
    (forall j, 0 <= j < nbytes -> load8 (vram (scr c')) (buf + j) = default 0 (aget l j)) /\
    same_outside buf (buf + nbytes) (vram (scr c)) (vram (scr c')) /\
    ready_to_read (kbd c') = [0; 0; 0] /\ kb_buf_index (kbd c') = [0; 0; 0] /\
    display_terminal c' = display_terminal c /\
    screen_x (scr c') = screen_x (scr c) /\ screen_y (scr c') = screen_y (scr c).
Proof.
  intros Hc Hr Hr0 Hi Hb Hk1 Hk2 Hbuf Hn Hsp Hap. unfold in_space in Hsp.
  assert (Hlen : Z.of_nat (length l) <= 128).
  { destruct (kb_index_ok c Hc) as (j & Ej & Hj). rewrite Hi in Ej. injection Ej as <-. lia. }
  pose proof (co_display _ Hc) as Hd. unfold term_ok in Hd.
  unfold term_read. destruct (Z.eqb_spec buf 0); [done|].
  assert (Hw : forall evs, term_wait kb_base fuel i evs c = Ok (c, evs)).
  { intros []; cbn [term_wait]; rewrite Hr, bind_ok;
      destruct (Z.eqb_spec r 0); done. }
  rewrite Hw, bind_ok, Hi, bind_ok. unfold kb_slot, MAX_KB_BUF in *.
  set (src := kb_base + 128 * display_terminal c + 0) in *.
  rewrite (clear_keyboard_buf_ok (kbd c) (co_ready _ Hc) (co_index _ Hc)).
  assert (Hcopy : forall k, 0 <= k <= Z.of_nat (length l) -> k <= nbytes ->
    writes (vram (scr c)) (memcpy (vram (scr c)) buf src k) buf k
      (fun j => default 0 (aget l j))).
  { intros k Hk1' Hk2'. eapply writes_ext; [|apply memcpy_writes; unfold in_space, fwd_ok; lia].
    intros j Hj. cbv beta. by rewrite (Hb j) by lia. }
  destruct (Z.ltb_spec (Z.of_nat (length l)) nbytes) as [Hlt|Hge].
  - eexists. split; [reflexivity|]. cbn [with_kbd with_scr scr set_vram vram kbd ready_to_read
      kb_buf_index display_terminal].
    pose proof (Hcopy (Z.of_nat (length l)) ltac:(lia) ltac:(lia)) as W1.
    set (m1 := memcpy _ _ _ _) in *. clearbody m1.
    assert (W2 : writes m1 (for_ (nbytes - Z.of_nat (length l))
        (fun m k => store8 m (buf + (Z.of_nat (length l) + k)) 0) m1)
        (buf + Z.of_nat (length l)) (nbytes - Z.of_nat (length l)) (fun _ => 0)).
    { pose proof (zero_fill m1 (buf + Z.of_nat (length l)) (nbytes - Z.of_nat (length l))
        ltac:(lia) ltac:(unfold in_space; lia)) as W.
      assert (Hext : forall (f g : mem -> Z -> mem) n s, (forall m k, f m k = g m k) ->
        for_ n f s = for_ n g s).
      { intros f g n' s Hfg. unfold for_. revert s. induction (seqZ 0 n') as [|z zs IH]; cbn;
          [done|]. intros s. by rewrite Hfg. }
      erewrite Hext; [exact W|]. intros m k. cbv beta. by rewrite Z.add_assoc. }
    assert (W3 := fun H1 H2 => writes_app _ _ _ _ _ _ _ _ H1 H2 W1 W2).
    do 2 (specialize (W3 ltac:(lia))).
    replace (Z.of_nat (length l) + (nbytes - Z.of_nat (length l))) with nbytes in W3 by lia.
    split_and!; try done; [|by eapply writes_same_outside].
    intros j Hj. rewrite (writes_in _ _ _ _ _ j W3) by lia.
    destruct (Z.ltb_spec j (Z.of_nat (length l))); [done|]. by rewrite aget_None by lia.
  - rewrite u32_small by lia. eexists. split; [reflexivity|].
    cbn [with_kbd with_scr scr set_vram vram kbd ready_to_read kb_buf_index display_terminal].
    pose proof (Hcopy nbytes ltac:(lia) ltac:(lia)) as W1.
    set (m1 := memcpy _ _ _ _) in *. clearbody m1.
    split_and!; try done; [|by eapply writes_same_outside].
    intros j Hj. by rewrite (writes_in _ _ _ _ _ j W1) by lia.
Qed.
End Read.

(** ** Waiting *)

(** The keyboard's interrupts among those to come. *)
Definition keys_of (evs : list Z) : nat := length (filter (fun n => n = IRQ_1) evs).

Lemma keys_of_cons n evs : keys_of (n :: evs) = if decide (n = IRQ_1) then S (keys_of evs) else keys_of evs.
Proof. unfold keys_of. cbn [filter list_filter]. by destruct (decide (n = IRQ_1)). Qed.
Lemma keys_of_app evs1 evs2 : keys_of (evs1 ++ evs2) = (keys_of evs1 + keys_of evs2)%nat.
Proof. unfold keys_of. by rewrite filter_app, length_app. Qed.

Section Wait.
Context `{Device} (kb_base : Z).
Hypothesis Hkb : 0 <= kb_base /\ kb_base + 384 <= 4294967296.
Hypothesis Hkb_off : kb_base + 384 <= VIDEO \/ VIDEO + 16384 <= kb_base.
Context (fuel : nat) (i : bool).
Hypothesis Hbusy : never_busy.

(** The line [l] is typed, not yet Enter; [n] codes have been read. *)
Definition waiting (c : console) (l : list Z) (t : tty) (n : nat) : Prop :=
  typing kb_base c l t /\ get_at (ready_to_read (kbd c)) (display_terminal c) = Ok 0 /\ kb_reads (tr c) = n.

Lemma wait_step n evs c c' l t k :
  waiting c l t k -> pic_handler kb_base (S fuel) i n c = Ok c' ->
  term_wait kb_base (S fuel) i (n :: evs) c = term_wait kb_base (S fuel) i evs c' /\ safe kb_base c c'.
Proof.
  intros (Hty & Hr & _) E. split; [cbn [term_wait]; rewrite Hr, bind_ok; cbn [Z.eqb negb]; by rewrite E|].
  pose proof (pic_handler_safe kb_base (S fuel) i n c Hkb Hkb_off (ty_ok _ _ _ _ Hty)) as S. by rewrite E in S.
Qed.

(** As long as the keys are not Enter the loop goes on, whatever else
    interrupts. *)
Lemma wait_typing pre rest ps vs c l t n :
  waiting c l t n -> Forall2 plain ps vs -> delivers ps n ->
  Z.of_nat (length l) + Z.of_nat (length vs) <= 127 -> keys_of pre = length ps ->
  exists c1, waiting c1 (l ++ vs) (foldl tty_putc t vs) (n + length ps) /\
    display_terminal c1 = display_terminal c /\ safe kb_base c c1 /\
    term_wait kb_base (S fuel) i (pre ++ rest) c = term_wait kb_base (S fuel) i rest c1.
Proof.
  revert ps vs c l t n. induction pre as [|e pre IH]; intros ps vs c l t n Hw Hps Hd Hlen Hk.
  - destruct ps; [|done]. apply Forall2_nil_inv_l in Hps as ->. exists c. rewrite app_nil_r, Nat.add_0_r.
    split; [done|]. split; [done|]. split; [|done]. apply safe_same_mem; [apply Hw|done].
  - rewrite keys_of_cons in Hk. pose proof Hw as (Hty & Hr & Hn). cbn [app].
    destruct (decide (e = IRQ_1)) as [->|Hne].
    + destruct ps as [|p ps]; [done|]. apply Forall2_cons_inv_l in Hps as (v & vs' & Hp & Hps & ->).
      cbn [length] in *. injection Hk as Hk.
      destruct (pic_key kb_base Hkb Hkb_off fuel i Hbusy c l t p v n Hty Hp ltac:(lia)) as (c' & E & T & D & R & N);
        [exact (delivers_take _ _ 1 Hd)|done|].
      destruct (wait_step IRQ_1 (pre ++ rest) c c' l t n Hw E) as [-> S1].
      destruct (IH ps vs' c' (l ++ [v]) (tty_putc t v) (S n)) as (c1 & W1 & D1 & S2 & E1); try done.
      { split; [exact T|]. by rewrite D, R. }
      { by eapply delivers_tail. }
      { rewrite length_app. cbn [length]. lia. }
      exists c1. rewrite <- app_assoc in W1. split; [by replace (n + S (length ps))%nat with (S n + length ps)%nat by lia|].
      split; [congruence|]. split; [exact (safe_trans _ _ _ _ S1 S2)|exact E1].
    + destruct (pic_other kb_base (S fuel) i e c Hne) as (c' & E & (r & t' & ->) & N).
      destruct (wait_step e (pre ++ rest) c _ l t n Hw E) as [-> S1].
      destruct (IH ps vs (with_rtc c r t') l t n) as (c1 & W1 & D1 & S2 & E1); try done.
      { split; [|split; [exact Hr|congruence]]. destruct Hty as [G1 G2 G3 G4 G5 G6].
        split; [apply S1|exact G2|exact G3|exact G4|exact G5|exact G6]. }
      exists c1. split; [exact W1|]. split; [exact D1|]. split; [exact (safe_trans _ _ _ _ S1 S2)|exact E1].
Qed.

Lemma wait_enter rest c l t n :
  waiting c l t n -> delivers [ENTER] n ->
  exists c', term_wait kb_base (S fuel) i (IRQ_1 :: rest) c = Ok (c', rest) /\ con_ok c' /\
    safe kb_base c c' /\ kb_index c' = Ok (Z.of_nat (length (l ++ [10]))) /\
    display_terminal c' = display_terminal c /\
    get_at (ready_to_read (kbd c')) (display_terminal c') = Ok 1 /\
    bytes_at (vram (scr c')) (kb_slot kb_base (display_terminal c') 0) (l ++ [10]) /\
    scr_shows (scr c') (tty_putc t 10).
Proof.
  intros Hw Hd. pose proof Hw as (Hty & Hr & Hn).
  destruct (pic_enter kb_base Hkb Hkb_off fuel i Hbusy c l t n Hty Hd Hn)
    as (c' & E & H1 & H2 & H3 & H4 & H5 & H6).
  destruct (wait_step IRQ_1 rest c c' l t n Hw E) as [-> S1]. exists c'. rewrite H3, length_app. split.
  { destruct rest; cbn [term_wait]; by rewrite H3, H4. }
  split; [exact H1|]. split; [exact S1|]. split; [rewrite H2; f_equal; cbn [length]; lia|]. by split_and!.
Qed.

(** C16 [term_read] waits for the line.  From an empty buffer, while the
    controller delivers printing keys and then Enter, one per keyboard
    interrupt, and any other lines interrupt in between: as long as Enter has
    not come the call does not return; with Enter it does, at once.  A request
    for more bytes than the line has, its newline included, returns their
    number, with the line and then NULs up to the request in the caller's
    buffer; a shorter request gets that prefix of the line but the value 0.
    The line is on the screen, nothing is written but the caller's buffer, the
    video pages and the line buffers, and these are emptied for all three
    terminals. *)
Theorem term_read_correct (buf nbytes : Z) (ps vs : list Z) (c : console) (t : tty) :
  typing kb_base c [] t -> get_at (ready_to_read (kbd c)) (display_terminal c) = Ok 0 ->
  Forall2 plain ps vs -> Z.of_nat (length vs) <= 127 -> delivers (ps ++ [ENTER]) (kb_reads (tr c)) ->
  buf <> 0 -> 0 <= nbytes -> in_space buf nbytes -> off_screen buf nbytes ->
  buf + nbytes <= kb_base \/ kb_base + 384 <= buf ->
  let line := vs ++ [10] in
  let len := Z.of_nat (length line) in
  (forall evs, (keys_of evs <= length ps)%nat -> term_read kb_base (S fuel) i evs buf nbytes c = Hang) /\
  (forall evs rest, keys_of evs = length ps ->
   exists c', term_read kb_base (S fuel) i (evs ++ IRQ_1 :: rest) buf nbytes c =
       Ok (c', rest, if len <? nbytes then len else 0) /\
     (forall j, 0 <= j < nbytes -> load8 (vram (scr c')) (buf + j) = default 0 (aget line j)) /\
     scr_shows (scr c') (foldl tty_putc t line) /\
     (forall a, addr a -> ~ (buf <= a < buf + nbytes) -> ~ (VIDEO <= a < VIDEO + 16384) ->
        ~ (kb_base <= a < kb_base + 384) -> load8 (vram (scr c')) a = load8 (vram (scr c)) a) /\
     ready_to_read (kbd c') = [0; 0; 0] /\ kb_buf_index (kbd c') = [0; 0; 0] /\
     display_terminal c' = display_terminal c).
Proof.
  intros Hty Hr Hps Hlen Hd Hbuf Hn Hsp Hoff Hap line len.
  assert (Hw : waiting c [] t (kb_reads (tr c))) by done. split.
  - intros evs Hk. unfold term_read. destruct (Z.eqb_spec buf 0); [done|].
    destruct (wait_typing evs [] (take (keys_of evs) ps) (take (keys_of evs) vs) c [] t _ Hw)
      as (c1 & (_ & R1 & _) & _ & _ & E).
    + by apply Forall2_take.
    + rewrite <- (take_app_le ps [ENTER]) by done. by apply delivers_take.
    + rewrite length_take. cbn [length]. lia.
    + rewrite length_take. lia.
    + rewrite app_nil_r in E. rewrite E. cbn [term_wait]. by rewrite R1.
  - intros evs rest Hk.
    destruct (wait_typing evs (IRQ_1 :: rest) ps vs c [] t _ Hw Hps) as (c1 & W1 & D1 & S1 & E1);
      [|cbn [length]; lia|done|].
    { rewrite <- (take_app_length ps [ENTER]). by apply delivers_take. }
    destruct (wait_enter rest c1 vs (foldl tty_putc t vs) _ W1) as (c2 & E2 & O2 & S2 & I2 & D2 & R2 & B2 & X2).
    { intros t' k p Hp E. apply (Hd t' (length ps + k)%nat); [|lia].
      by rewrite lookup_app_r, Nat.add_sub_swap, Nat.sub_diag by lia. }
    fold line in I2, B2. rewrite <- D1, <- D2.
    destruct (term_read_ready kb_base (S fuel) i rest buf nbytes 1 line c2) as (c' & E & C1 & C2 & C3 & C4 & C5 & C6 & C7);
      try done; try lia.
    assert (Ew : term_wait kb_base (S fuel) i rest c2 = Ok (c2, rest)).
    { destruct rest; cbn [term_wait]; by rewrite R2. }
    assert (Et : term_read kb_base (S fuel) i (evs ++ IRQ_1 :: rest) buf nbytes c =
                 term_read kb_base (S fuel) i rest buf nbytes c2).
    { unfold term_read. destruct (Z.eqb_spec buf 0); [done|]. by rewrite E1, E2, Ew. }
    exists c'. rewrite Et. split; [exact E|]. split; [exact C1|]. split.
    + unfold line. rewrite foldl_app. destruct X2 as (G1 & G2 & G3 & G4). unfold scr_shows.
      rewrite C6, C7. split_and!; [done..|]. intros x' y' Hin. rewrite <- G4 by done.
      apply C2; [by apply cell_addr; [apply page_ok_video|]|].
      pose proof (cell_range VIDEO x' y' Hin). unfold off_screen, VIDEO in *. lia.
    + split; [|by split_and!]. intros a Ha O1 O3 O4. rewrite C2 by (done || lia).
      rewrite (proj2 (safe_trans _ _ _ _ S1 S2)) by done. done.
Qed.
End Wait.

(** ** Writing *)

(** The backing page of terminal [a] with its virtual cursor shows [t]. *)
Definition shows_term (c : console) (a : Z) (t : tty) : Prop :=
  exists x y, get_at (virtual_x c) a = Ok x /\ get_at (virtual_y c) a = Ok y /\
    shows (backing a) (vram (scr c)) x y t.

Lemma page_ok_backing a : term_ok a -> page_ok (backing a).
Proof. unfold term_ok, page_ok, backing. lia. Qed.

Lemma term_putc_spec s a ch c t :
  con_ok c -> pq_get_active_term s = Ok a -> term_ok a -> 0 <= ch < 256 -> shows_term c a t ->
  exists c', term_putc s ch c = Ok c' /\ con_ok c' /\ shows_term c' a (tty_putc t ch) /\
    same_outside (backing a) (backing a + 4000) (vram (scr c)) (vram (scr c')) /\
    display_terminal c' = display_terminal c /\ screen_x (scr c') = screen_x (scr c) /\
    screen_y (scr c') = screen_y (scr c).
Proof.
  intros Hc Ha Hta Hch (x & y & Ex & Ey & Hs).
  assert (Ha' : s32 a = a) by (unfold term_ok in Hta; apply s32_small; lia).
  unfold term_putc. rewrite Ha, bind_ok, Ha', term_mem_get, bind_ok, Ex, bind_ok, Ey, bind_ok by done.
  rewrite (u8_small ch) by done.
  pose proof (put_at_shows (backing a) _ _ _ ch t (page_ok_backing a Hta) Hch Hs) as Hs'.
  pose proof (put_at_outside (backing a) (vram (scr c)) x y ch (page_ok_backing a Hta)) as Ho.
  destruct Hs as (_ & _ & Hcur & _). specialize (Ho Hcur).
  destruct (put_at (backing a) (vram (scr c)) x y ch) as [[m x'] y']. cbn [fst] in Ho.
  unfold term_ok in Hta.
  rewrite !set_at_ok, !bind_ok by (rewrite ?(co_vx _ Hc), ?(co_vy _ Hc); lia).
  eexists. split; [reflexivity|]. split; [|split; [|done]].
  - apply (con_ok_virtual (with_scr c (set_vram (scr c) m))); [done| |].
    + destruct Hs' as (_ & _ & H & _). exact H.
    + apply con_ok_scr; [apply Hc|done].
  - exists x', y'. split; [|split; [|exact Hs']]; apply get_at_ok;
      cbn [with_virtual virtual_x virtual_y];
      rewrite aget_insert, Z.eqb_refl by (rewrite ?(co_vx _ Hc), ?(co_vy _ Hc); lia); done.
Qed.

Section Write.
Context (s : sched) (buf : Z) (l : list Z).
Hypothesis Hbuf : in_space buf (Z.of_nat (length l)).

(** The bytes to print stay in memory while a page is written. *)
Lemma write_background a c t :
  con_ok c -> pq_get_active_term s = Ok a -> term_ok a -> shows_term c a t ->
  bytes_at (vram (scr c)) buf l ->
  buf + Z.of_nat (length l) <= backing a \/ backing a + 4000 <= buf ->
  exists c', forM (seqZ 0 (Z.of_nat (length l)))
      (fun c i => term_putc s (load8 (vram (scr c)) (buf + i)) c) c = Ok c' /\
    con_ok c' /\ shows_term c' a (foldl tty_putc t l) /\
    same_outside (backing a) (backing a + 4000) (vram (scr c)) (vram (scr c')) /\
    display_terminal c' = display_terminal c /\ screen_x (scr c') = screen_x (scr c) /\
    screen_y (scr c') = screen_y (scr c).
Proof.
  intros Hc Ha Hta Hs Hb Hap. unfold in_space in Hbuf.
  pose (I k c' := con_ok c' /\ shows_term c' a (foldl tty_putc t (take (Z.to_nat k) l)) /\
    same_outside (backing a) (backing a + 4000) (vram (scr c)) (vram (scr c')) /\
    display_terminal c' = display_terminal c /\ screen_x (scr c') = screen_x (scr c) /\
    screen_y (scr c') = screen_y (scr c)).
  destruct (forM_inv (Z.of_nat (length l))
    (fun c i => term_putc s (load8 (vram (scr c)) (buf + i)) c) I c) as (c' & E & HI); [lia| | |].
  - split_and!; done.
  - intros i ci Hi (Hci & Hsi & Hoi & Hd & Hx & Hy).
    assert (Hv : aget l i = Some (load8 (vram (scr ci)) (buf + i))).
    { rewrite Hoi by (unfold addr; lia). by apply Hb. }
    rewrite aget_lookup in Hv by lia.
    destruct (term_putc_spec s a (load8 (vram (scr ci)) (buf + i)) ci _ Hci Ha Hta
      (load8_range _ _) Hsi) as (c2 & E & H1 & H2 & H3 & H4 & H5 & H6).
    exists c2. split; [exact E|]. unfold I. split_and!; try congruence.
    + replace (Z.to_nat (i + 1)) with (S (Z.to_nat i)) by lia.
      rewrite (take_S_r _ _ _ Hv), foldl_app. exact H2.
    + by eapply same_outside_trans.
  - exists c'. split; [exact E|]. unfold I in HI. rewrite Nat2Z.id, firstn_all in HI. exact HI.
Qed.

Lemma write_foreground c t :
  con_ok c -> scr_shows (scr c) t -> bytes_at (vram (scr c)) buf l ->
  off_screen buf (Z.of_nat (length l)) ->
  let c' := for_ (Z.of_nat (length l))
    (fun c i => put_screen c (load8 (vram (scr c)) (buf + i))) c in
  con_ok c' /\ scr_shows (scr c') (foldl tty_putc t l) /\
  same_outside VIDEO (VIDEO + 4000) (vram (scr c)) (vram (scr c')) /\
  display_terminal c' = display_terminal c /\ virtual_x c' = virtual_x c /\
  virtual_y c' = virtual_y c.
Proof.
  intros Hc Hs Hb Hoff. unfold in_space, off_screen in *. cbn zeta.
  pose (I k c' := con_ok c' /\ scr_shows (scr c') (foldl tty_putc t (take (Z.to_nat k) l)) /\
    same_outside VIDEO (VIDEO + 4000) (vram (scr c)) (vram (scr c')) /\
    display_terminal c' = display_terminal c /\ virtual_x c' = virtual_x c /\
    virtual_y c' = virtual_y c).
  assert (HI : I (Z.of_nat (length l)) (for_ (Z.of_nat (length l))
    (fun c i => put_screen c (load8 (vram (scr c)) (buf + i))) c)).
  { apply (for_inv (Z.of_nat (length l)) _ I); [lia|by split_and!|].
    intros i ci Hi (Hci & Hsi & Hoi & Hd & Hx & Hy).
    assert (Hv : aget l i = Some (load8 (vram (scr ci)) (buf + i))).
    { rewrite Hoi by (unfold addr; lia). by apply Hb. }
    rewrite aget_lookup in Hv by lia.
    unfold I. split_and!; try done.
    - by apply con_ok_put.
    - replace (Z.to_nat (i + 1)) with (S (Z.to_nat i)) by lia.
      rewrite (take_S_r _ _ _ Hv), foldl_app. cbn. apply putc_shows; [apply load8_range|done].
    - eapply same_outside_trans; [exact Hoi|]. apply putc_outside, Hci. }
  unfold I in HI. rewrite Nat2Z.id, firstn_all in HI. exact HI.
Qed.
End Write.

(** C17 [term_write] prints on the caller's own terminal.  When it is the one
    displayed, the screen shows the bytes after the text it showed before;
    when it is in the background, its backing page and virtual cursor do, and
    the screen, its cursor and every other terminal are untouched. *)
Theorem term_write_correct (s : sched) (buf a : Z) (l : list Z) (c : console) (t : tty) :
  con_ok c -> pq_get_active_term s = Ok a -> term_ok a -> buf <> 0 ->
  in_space buf (Z.of_nat (length l)) -> bytes_at (vram (scr c)) buf l ->
  (if a =? display_terminal c
   then scr_shows (scr c) t /\ off_screen buf (Z.of_nat (length l))
   else shows_term c a t /\
        (buf + Z.of_nat (length l) <= backing a \/ backing a + 4000 <= buf)) ->
  exists c', term_write s buf (Z.of_nat (length l)) c = Ok (c', 0) /\ con_ok c' /\
    display_terminal c' = display_terminal c /\
    if a =? display_terminal c
    then scr_shows (scr c') (foldl tty_putc t l) /\
         same_outside VIDEO (VIDEO + 4000) (vram (scr c)) (vram (scr c'))
    else shows_term c' a (foldl tty_putc t l) /\
         screen_x (scr c') = screen_x (scr c) /\ screen_y (scr c') = screen_y (scr c) /\
         same_outside (backing a) (backing a + 4000) (vram (scr c)) (vram (scr c')).
Proof.
  intros Hc Ha Hta Hbuf Hsp Hb Hs. unfold term_write.
  destruct (Z.eqb_spec buf 0); [done|]. rewrite Ha, bind_ok.
  pose proof (co_display _ Hc) as Hd. unfold term_ok in Hd. rewrite u32_small by lia.
  destruct (Z.eqb_spec a (display_terminal c)).
  - destruct Hs as [Hs Hoff].
    destruct (write_foreground buf l Hsp c t Hc Hs Hb Hoff) as (H1 & H2 & H3 & H4 & _).
    eexists. split; [reflexivity|]. split_and!; [by apply con_ok_cursor_here|exact H4|exact H2|exact H3].
  - destruct Hs as [Hs Hap].
    destruct (write_background s buf l Hsp a c t Hc Ha Hta Hs Hb Hap)
      as (c' & E & H1 & H2 & H3 & H4 & H5 & H6).
    exists c'. rewrite E, bind_ok. split_and!; done.
Qed.

(** ** Witnesses *)

Definition demo_line : console :=
  Console (Screen (store_list ∅ 4300000 [108; 115; 10]) 0 1) [] (Pic 0 0) (Rtc 0 0 2 0)
    (Keyboard 0 0 0 0 [1; 0; 0] [3; 0; 0]) [0; 0; 0] [0; 0; 0] 0 0.
Lemma demo_line_ok : con_ok demo_line.
Proof.
  split; try done.
  - intros t x y Hx Hy. cbn in *. pose proof (aget_Some_lt _ _ _ Hx) as Ht. cbn in Ht.
    range_cases t 3; cbn in Hx, Hy; injection Hx as <-; injection Hy as <-; unfold in_grid; lia.
  - cbn. rewrite !Forall_cons, Forall_nil. lia.
Qed.

Lemma demo_line_bytes : bytes_at (vram (scr demo_line)) 4300000 [108; 115; 10].
Proof. intros i Hi. cbn in Hi. range_cases i 3; vm_compute; reflexivity. Qed.

(** The keys l, s and Enter, with the timer's and the clock's interrupts in
    between; without the Enter the call waits. *)
Lemma term_read_correct_witness :
  (exists c', @term_read (keys_sim [38; 31; 28]) 4300000 1 true [8; 1; 0; 1; 1; 0] 5000000 8 demo_console =
     Ok (c', [0], 3) /\ load8 (vram (scr c')) 5000001 = 115) /\
  @term_read (keys_sim [38; 31; 28]) 4300000 1 true [8; 1; 0; 1; 0] 5000000 8 demo_console = Hang.
Proof.
  destruct (@term_read_correct (keys_sim [38; 31; 28]) 4300000 ltac:(lia) ltac:(unfold VIDEO; lia) 0 true
    (keys_sim_idle _) 5000000 8 [38; 31] [108; 115] demo_console (tty_of (scr demo_console))
    demo_typing eq_refl) as [H1 H2].
  - repeat constructor; try reflexivity; vm_compute; congruence.
  - cbn; lia.
  - apply (keys_sim_delivers [38; 31; 28]). repeat constructor; lia.
  - lia.
  - lia.
  - unfold in_space; lia.
  - unfold off_screen, VIDEO; lia.
  - lia.
  - split; [|exact (H1 [8; 1; 0; 1; 0] ltac:(apply Nat.le_refl))].
    destruct (H2 [8; 1; 0; 1] [0] eq_refl) as (c' & E & B & _).
    exists c'. split; [exact E|]. exact (B 1 ltac:(lia)).
Defined.

(** Terminal 2 runs in the background of terminal 0. *)
Definition demo_background : sched :=
  Sched (ProcessQueue [0; 0; 0; 0; 8380416; 0] 4 0) 1
    {[8380416 := Pcb 0 0 0 0 0 0 0 0 0 0 0 0 0 1 0 2 [] 0]}.

Lemma term_write_correct_witness :
  exists c', term_write demo_background 4300000 3 demo_line = Ok (c', 0) /\
    screen_y (scr c') = 1.
Proof.
  destruct (term_write_correct demo_background 4300000 2 [108; 115; 10] demo_line
    (Tty (fun x y => load8 (vram (scr demo_line)) (cell (backing 2) x y)) 0 0)
    demo_line_ok eq_refl ltac:(unfold term_ok; lia) ltac:(lia)
    ltac:(unfold in_space; cbn; lia) demo_line_bytes) as (c' & H1 & _ & _ & _ & _ & H2 & _).
  - split; [|right; unfold backing; lia].
    exists 0, 0. split; [reflexivity|]. split; [reflexivity|].
    split_and!; try done; unfold cursor_ok, in_grid; lia.
  - exists c'. split; [exact H1|exact H2].
Defined.
