(* ===== verification/Kstate.v ===== *)
(** * The kernel's state as a whole

    The globals of every component in one record, and the access to a
    process's memory through the page tables: user pointers are translated
    when they are used, with [walk]. *)

From S2P Require Import Prelude Mem Lib Screen Ports I8259 Rtc Paging.
From S2P Require Import Pcb Sched Filesys Console Keyboard Irq Terminal.

(** The functions a table of driver functions may hold. *)
Inductive fop_fn : Type :=
| Fn_read_file | Fn_write_file | Fn_open_file | Fn_close_file
| Fn_read_directory | Fn_write_directory | Fn_open_directory | Fn_close_directory
| Fn_rtc_read | Fn_rtc_write | Fn_rtc_open | Fn_rtc_close
| Fn_term_read | Fn_term_write | Fn_term_open | Fn_term_close.

(** [None] is a NULL function pointer. *)
Record fops_functions : Type := FopsFunctions {
  function_read : option fop_fn; function_write : option fop_fn;
  function_open : option fop_fn; function_close : option fop_fn }.

(** [irqs]: the interrupts still to come, by line. *)
Record kernel : Type := Kernel {
  con : console; sch : sched; pgs : paging; esp0 : Z; fs_info : boot_block;
  primary_shell_count : Z; dir_read_count : Z; fops : fops_table -> fops_functions;
  irqs : list Z }.

Definition with_con (k : kernel) (c : console) : kernel :=
  Kernel c (sch k) (pgs k) (esp0 k) (fs_info k) (primary_shell_count k) (dir_read_count k)
    (fops k) (irqs k).
Definition with_sch (k : kernel) (s : sched) : kernel :=
  Kernel (con k) s (pgs k) (esp0 k) (fs_info k) (primary_shell_count k) (dir_read_count k)
    (fops k) (irqs k).
Definition with_pgs (k : kernel) (g : paging) : kernel :=
  Kernel (con k) (sch k) g (esp0 k) (fs_info k) (primary_shell_count k) (dir_read_count k)
    (fops k) (irqs k).
Definition with_esp0 (k : kernel) (e : Z) : kernel :=
  Kernel (con k) (sch k) (pgs k) e (fs_info k) (primary_shell_count k) (dir_read_count k)
    (fops k) (irqs k).
Definition with_fs (k : kernel) (fs : boot_block) : kernel :=
  Kernel (con k) (sch k) (pgs k) (esp0 k) fs (primary_shell_count k) (dir_read_count k)
    (fops k) (irqs k).
Definition with_shells (k : kernel) (n : Z) : kernel :=
  Kernel (con k) (sch k) (pgs k) (esp0 k) (fs_info k) n (dir_read_count k) (fops k) (irqs k).
Definition with_dir (k : kernel) (n : Z) : kernel :=
  Kernel (con k) (sch k) (pgs k) (esp0 k) (fs_info k) (primary_shell_count k) n (fops k) (irqs k).
Definition with_fops (k : kernel) (f : fops_table -> fops_functions) : kernel :=
  Kernel (con k) (sch k) (pgs k) (esp0 k) (fs_info k) (primary_shell_count k) (dir_read_count k)
    f (irqs k).
Definition with_irqs (k : kernel) (l : list Z) : kernel :=
  Kernel (con k) (sch k) (pgs k) (esp0 k) (fs_info k) (primary_shell_count k) (dir_read_count k)
    (fops k) l.

Definition kmem (k : kernel) : mem := vram (scr (con k)).
Definition with_mem (k : kernel) (m : mem) : kernel :=
  with_con k (with_scr (con k) (set_vram (scr (con k)) m)).
Definition with_screen (k : kernel) (s : screen) : kernel := with_con k (with_scr (con k) s).

Definition with_queue (s : sched) (q : process_queue) : sched :=
  Sched q (process_count s) (pcb_heap s).
Definition with_count (s : sched) (n : Z) : sched := Sched (process_q s) n (pcb_heap s).
Definition with_heap (s : sched) (h : heap) : sched := Sched (process_q s) (process_count s) h.

(** The PCB every system call starts from:
    [(process_control_block_t* )(ADDR_8MB - process_count*ADDR_8KB)]. *)
Definition current_pblock (k : kernel) : Z := pcb_addr (process_count (sch k)).

(** ** User memory *)

Section Xlate.
Context (pd_addr pt_addr : Z).

(** The physical address behind a pointer, and the check that the [n] bytes
    from it, which the code has accessed, are mapped (they lie in one 4 MB
    page, whose mapped part is contiguous). *)
Definition xlate (g : paging) (p : Z) : Z :=
  match walk pd_addr pt_addr g p with Some (a, _) => a | None => p end.
Definition mapped (g : paging) (p : Z) : bool :=
  match walk pd_addr pt_addr g p with Some _ => true | None => false end.
Definition touch (g : paging) (p n : Z) : res unit :=
  if n <=? 0 then Ok ()
  else if (p + n <=? 4294967296) && (p / 4194304 =? (p + n - 1) / 4194304)
          && mapped g p && mapped g (p + n - 1)
       then Ok () else Fault.

(** A string argument: its bytes up to the terminator are accessed. *)
Definition user_str (g : paging) (m : mem) (p : Z) : res Z :=
  _ ← touch g p 1;
  len ← strlen m (xlate g p);
  _ ← touch g p (len + 1);
  Ok (xlate g p).

(** The window of process [n] is mapped to its page. *)
Definition user_window (n : Z) (g : paging) : Prop :=
  forall va, 134217728 <= va < 138412032 ->
    walk pd_addr pt_addr g va = Some (user_base n + (va - 134217728), true).

Lemma touch_user g n p k :
  user_window n g -> 134217728 <= p -> p + k <= 138412032 ->
  touch g p k = Ok () /\ (p < 138412032 -> xlate g p = user_base n + (p - 134217728)).
Proof.
  intros W Hp Hpk. split; [|intros Hlt; unfold xlate; by rewrite W].
  unfold touch, mapped. destruct (Z.leb_spec k 0); [done|].
  rewrite !W by lia.
  destruct (Z.leb_spec (p + k) 4294967296), (Z.eqb_spec (p / 4194304) ((p + k - 1) / 4194304));
    cbn [andb]; done || (exfalso; zdm).
Qed.
End Xlate.
