(* ===== verification/Syscalls.v ===== *)
(** * syscalls.c: the ten system calls

    Every call works on the PCB that [process_count] designates.  The stack
    arrays of the calls ([command], [program_name], [exe_buff], the local
    [pcb], a [dentry_t], the buffer of [printf]) are in memory at addresses
    that are parameters, like the addresses the linker chooses. *)

From S2P Require Import Prelude Mem Lib Screen Ports I8259 Rtc Paging.
From S2P Require Import Pcb Sched Filesys Console Keyboard Irq Terminal Kstate.

Definition ASCII_SPACE : Z := 32.
Definition ADDR_128MB : Z := 134217728.
Definition PROG_IMG_OFFSET : Z := 294912.   (* 0x48000 *)
Definition INDEX : Z := 1.
Definition TOP_PAGE : Z := 134217728.       (* 0x08000000 *)
Definition BOTTOM_PAGE : Z := 138412032.    (* 0x08400000 *)
Definition VID_MEM : Z := 753664.           (* 0x000B8000 *)
Definition MAX_ARGS : Z := 100.             (* char_space_indices[100] *)

Definition systemcalls_initialize (f : fops_table -> fops_functions) : fops_table -> fops_functions :=
  fun t => match t with
  | fops_file_functions =>
    FopsFunctions (Some Fn_read_file) (Some Fn_write_file) (Some Fn_open_file) (Some Fn_close_file)
  | fops_directory_functions =>
    FopsFunctions (Some Fn_read_directory) (Some Fn_write_directory) (Some Fn_open_directory)
      (Some Fn_close_directory)
  | fops_rtc_functions =>
    FopsFunctions (Some Fn_rtc_read) (Some Fn_rtc_write) (Some Fn_rtc_open) (Some Fn_rtc_close)
  | fops_terminal_functions =>
    FopsFunctions (Some Fn_term_read) (Some Fn_term_write) (Some Fn_term_open) (Some Fn_term_close)
  end.

Definition init_process_ct (s : sched) : sched := with_count s 0.

(** [init_fd] gets the structure by value: the caller's copy is unchanged. *)
Definition init_fd (b : pcb) : pcb :=
  set_fde ((fun e => FdEntry FopsNull NULL 0 0) <$> fde b) b.

(** A call through a table pointer: NULL, an unassigned pointer and a NULL
    function all fault. *)
Definition fop_call (f : fops_table -> fops_functions) (p : fops_ptr)
    (sel : fops_functions -> option fop_fn) : res fop_fn :=
  match p with Fops t => of_opt (sel (f t)) | _ => Fault end.

Section Syscalls.
Context `{Device}.
Context (pd_addr pt_addr kb_base : Z).
(** Stack locals. *)
Context (cb de cmd prog exe lpcb : Z).
(** The strings ["shell"] and [""], and the registers [execute] saves. *)
Context (shell_str empty_str k_esp k_ebp : Z).
(** What the uninitialised local [pcb] holds, the interrupt flag before the
    trace, the turns of one keyboard interrupt. *)
Context (pcb0 : pcb) (iflag : bool) (fuel : nat).

(** ** Descriptors *)

Definition fd_of (k : kernel) (fd : Z) : res fd_entry :=
  b ← pcb_at (pcb_heap (sch k)) (current_pblock k); get_at (fde b) fd.

Definition check_use (k : kernel) (fd : Z) : res Z := e ← fd_of k fd; Ok (in_use e).

Definition set_fd (k : kernel) (fd : Z) (e : fd_entry) : res kernel :=
  b ← pcb_at (pcb_heap (sch k)) (current_pblock k);
  l ← set_at (fde b) fd e;
  Ok (with_sch k (with_heap (sch k) (<[current_pblock k := set_fde l b]> (pcb_heap (sch k))))).

(** [while(RTC_READ){}] among the coming interrupts. *)
Fixpoint rtc_spin (evs : list Z) (c : console) : res (console * list Z) :=
  if RTC_READ (k_rtc c) =? 0 then Ok (c, evs)
  else match evs with
       | [] => Hang
       | n :: evs => c ← pic_handler kb_base fuel iflag n c; rtc_spin evs c
       end.

Definition call_read (fn : fop_fn) (fd buf nbytes : Z) (k : kernel) : res (kernel * Z) :=
  let p := xlate pd_addr pt_addr (pgs k) buf in
  let touch := touch pd_addr pt_addr (pgs k) buf in
  match fn with
  | Fn_read_file =>
    '(h, m, ret) ← read_file (fs_info k) de (current_pblock k) (pcb_heap (sch k)) (kmem k) fd p nbytes;
    _ ← touch ret;
    Ok (with_mem (with_sch k (with_heap (sch k) h)) m, ret)
  | Fn_read_directory =>
    '(m, count, ret) ← read_directory (fs_info k) de (dir_read_count k) (kmem k) p;
    _ ← touch (if count =? 0 then 0 else ret + 1);
    Ok (with_dir (with_mem k m) count, ret)
  | Fn_rtc_read =>
    let c := con k in
    let r := k_rtc c in
    '(c, evs) ← rtc_spin (irqs k) (with_rtc c (Rtc 1 (rtc_count r) (rtc_freq r) (rtc_test_flag r)) (tr c));
    Ok (with_irqs (with_con k c) evs, 0)
  | Fn_term_read =>
    '(c, evs, ret) ← term_read kb_base fuel iflag (irqs k) p nbytes (con k);
    _ ← touch (u32 nbytes);
    Ok (with_irqs (with_con k c) evs, ret)
  | _ => Fault
  end.

Definition call_write (fn : fop_fn) (buf nbytes : Z) (k : kernel) : res (kernel * Z) :=
  let p := xlate pd_addr pt_addr (pgs k) buf in
  let touch := touch pd_addr pt_addr (pgs k) buf in
  match fn with
  | Fn_write_file => Ok (k, write_file)
  | Fn_write_directory => Ok (k, write_directory)
  | Fn_rtc_write =>
    _ ← touch 4;
    let '(ret, t) := rtc_write 0 (kmem k) p (tr (con k)) in
    Ok (with_con k (with_tr (con k) t), ret)
  | Fn_term_write =>
    _ ← touch nbytes;
    '(c, ret) ← term_write (sch k) p nbytes (con k);
    Ok (with_con k c, ret)
  | _ => Fault
  end.

Definition call_open (fn : fop_fn) (k : kernel) : res kernel :=
  match fn with
  | Fn_open_file | Fn_open_directory => Ok k
  | Fn_rtc_open => let '(_, t) := rtc_open (tr (con k)) in Ok (with_con k (with_tr (con k) t))
  | Fn_term_open => '(c, _) ← term_open (con k); Ok (with_con k c)
  | _ => Fault
  end.

Definition call_close (fn : fop_fn) (k : kernel) : res kernel :=
  match fn with
  | Fn_close_file | Fn_close_directory | Fn_rtc_close => Ok k
  | Fn_term_close => '(c, _) ← term_close (con k); Ok (with_con k c)
  | _ => Fault
  end.

(** ** read, write, open, close *)

Definition read (fd buf nbytes : Z) (k : kernel) : res (kernel * Z) :=
  if (0 <=? fd) && (fd <? OPS_SIZE) then
    if negb (current_pblock k =? NULL) && negb (buf =? NULL) then
      use ← check_use k fd;
      if negb (Z.land use USE =? 0) then
        if negb (fd =? 1) then
          e ← fd_of k fd;
          fn ← fop_call (fops k) (fop_ptr e) function_read;
          call_read fn fd buf nbytes k
        else Ok (k, FAIL)
      else Ok (k, FAIL)
    else Ok (k, FAIL)
  else Ok (k, FAIL).

Definition write (fd buf nbytes : Z) (k : kernel) : res (kernel * Z) :=
  if (0 <=? fd) && (fd <? OPS_SIZE) then
    if negb (current_pblock k =? NULL) && negb (buf =? NULL) then
      use ← check_use k fd;
      if negb (Z.land use USE =? 0) then
        if negb (fd =? 0) then
          e ← fd_of k fd;
          fn ← fop_call (fops k) (fop_ptr e) function_write;
          call_write fn buf nbytes k
        else Ok (k, FAIL)
      else Ok (k, FAIL)
    else Ok (k, FAIL)
  else Ok (k, FAIL).

(** The search for a free descriptor: [n] locations are left from
    [location]; [OPS_SIZE] when there is none. *)
Fixpoint find_fd (n : nat) (location : Z) (k : kernel) : res Z :=
  match n with
  | O => Ok location
  | S n =>
    use ← check_use k location;
    if Z.land use USE =? 0 then Ok location else find_fd n (location + 1) k
  end.

Definition open (filename : Z) (k : kernel) : res (kernel * Z) :=
  if (filename =? NULL) || (current_pblock k =? NULL) then Ok (k, FAIL)
  else
    location ← find_fd 8 0 k;
    if location =? OPS_SIZE then Ok (k, FAIL)
    else
      name ← user_str pd_addr pt_addr (pgs k) (kmem k) filename;
      '(m, ret) ← read_dentry_by_name (fs_info k) (kmem k) name de;
      let k := with_mem k m in
      if ret =? FAIL then Ok (k, FAIL)
      else
        e ← fd_of k location;
        fname_len ← strlen m name;
        if FNAME_LENGTH <? fname_len + 1 then Fault
        else
          let k := with_mem k (memcpy m (fname_addr (current_pblock k) location) name (fname_len + 1)) in
          let type := load8 (kmem k) (de + DE_TYPE) in
          let e := FdEntry (fop_ptr e) NULL 0 USE in
          let e :=
            if type =? 0 then FdEntry (Fops fops_rtc_functions) NULL 0 USE
            else if type =? 1 then FdEntry (Fops fops_directory_functions) NULL 0 USE
            else if type =? 2 then
              FdEntry (Fops fops_file_functions)
                (inode_address (fs_info k) (kmem k) (load32 (kmem k) (de + DE_INODE))) 0 USE
            else e in
          k ← set_fd k location e;
          fn ← fop_call (fops k) (fop_ptr e) function_open;
          k ← call_open fn k;
          Ok (k, location).

Definition close (fd : Z) (k : kernel) : res (kernel * Z) :=
  use ← check_use k fd;
  if Z.land use USE =? 0 then Ok (k, FAIL)
  else if (fd <=? INDEX) || (OPS_SIZE <=? fd) || (current_pblock k =? NULL) then Ok (k, FAIL)
  else
    e ← fd_of k fd;
    match fop_ptr e with
    | FopsNull => Ok (k, FAIL)
    | p =>
      fn ← fop_call (fops k) p function_close;
      k ← call_close fn k;
      k ← set_fd k fd (FdEntry FopsNull NULL 0 0);
      Ok (k, SUCCESS)
    end.

(** ** getargs, vidmap, set_handler, sigreturn *)

Definition getargs (buf nbytes : Z) (k : kernel) : res (kernel * Z) :=
  if buf =? NULL then Ok (k, FAIL)
  else
    b ← pcb_at (pcb_heap (sch k)) (current_pblock k);
    if argument_length b <=? 1 then Ok (k, FAIL)
    else if u32 nbytes <? argument_length b then Ok (k, FAIL)
    else
      _ ← touch pd_addr pt_addr (pgs k) buf (u32 nbytes);
      let m := memcpy (kmem k) (xlate pd_addr pt_addr (pgs k) buf)
                 (argbuf_addr (current_pblock k)) (u32 nbytes) in
      Ok (with_mem k m, SUCCESS).

Definition vidmap (screen_start : Z) (k : kernel) : res (kernel * Z) :=
  let screen_test := u32 screen_start in
  if screen_test <? TOP_PAGE then Ok (k, FAIL)
  else if BOTTOM_PAGE <=? screen_test then Ok (k, FAIL)
  else if screen_test =? NULL then Ok (k, FAIL)
  else
    _ ← touch pd_addr pt_addr (pgs k) screen_test 4;
    Ok (with_mem k (store32 (kmem k) (xlate pd_addr pt_addr (pgs k) screen_test) VID_MEM), SUCCESS).

Definition set_handler : Z := FAIL.
Definition sigreturn : Z := FAIL.
End Syscalls.

(** ** The descriptor table *)

(** The first location at or after [i] whose descriptor is free; [OPS_SIZE]
    when there is none. *)
Fixpoint first_free (l : list fd_entry) (i : Z) : Z :=
  match l with
  | [] => i
  | e :: l => if Z.land (in_use e) USE =? 0 then i else first_free l (i + 1)
  end.

Lemma find_fd_spec k b :
  pcb_heap (sch k) !! current_pblock k = Some b -> length (fde b) = 8%nat ->
  find_fd 8 0 k = Ok (first_free (fde b) 0).
Proof.
  intros Hb Hl.
  assert (Hgen : forall n i, (n + i = 8)%nat ->
    find_fd n (Z.of_nat i) k = Ok (first_free (drop i (fde b)) (Z.of_nat i))).
  { induction n as [|n IH]; intros i Hi.
    - rewrite drop_ge by lia. done.
    - cbn [find_fd]. unfold check_use, fd_of, pcb_at. rewrite Hb. cbn [of_opt]. rewrite bind_ok.
      destruct (lookup_lt_is_Some_2 (fde b) i) as [e He]; [lia|].
      rewrite (get_at_ok _ _ e) by (by rewrite aget_of_nat). rewrite !bind_ok.
      rewrite (drop_S _ _ _ He). cbn [first_free]. destruct (_ =? 0); [done|].
      replace (Z.of_nat i + 1) with (Z.of_nat (S i)) by lia. apply IH. lia. }
  apply (Hgen 8%nat 0%nat). done.
Qed.

Lemma first_free_bound l i : i <= first_free l i <= i + Z.of_nat (length l).
Proof.
  revert i. induction l as [|e l IH]; intros i; cbn [first_free length]; [lia|].
  destruct (_ =? 0); [lia|]. specialize (IH (i + 1)). lia.
Qed.

(** The kernel with descriptor [fd] of the current process, [b], set to [e];
    one with other memory and another trace. *)
Definition put_fd (k : kernel) (b : pcb) (fd : Z) (e : fd_entry) : kernel :=
  with_sch k (with_heap (sch k)
    (<[current_pblock k := set_fde (<[Z.to_nat fd := e]> (fde b)) b]> (pcb_heap (sch k)))).
Definition moved (k : kernel) (m : mem) (t : list io) : kernel :=
  with_con k (with_tr (with_scr (con k) (set_vram (scr (con k)) m)) t).

Lemma moved_mem k m : with_mem k m = moved k m (tr (con k)).
Proof. by destruct k as [[]]. Qed.

Lemma set_fd_ok k b fd e :
  pcb_heap (sch k) !! current_pblock k = Some b -> 0 <= fd < Z.of_nat (length (fde b)) ->
  set_fd k fd e = Ok (put_fd k b fd e).
Proof.
  intros Hb Hfd. unfold set_fd, pcb_at. rewrite Hb. cbn [of_opt].
  by rewrite bind_ok, set_at_ok, bind_ok.
Qed.

(** ** Kernels with one process running *)

Section Running.
Context (pd_addr pt_addr de : Z) (names : Z -> list Z).

(** Process [process_count] runs: its page is mapped, the tables of driver
    functions are set, the file system's directory is readable, and the stack
    local at [de] is apart from the PCB. *)
Record running (k : kernel) (b : pcb) : Prop := Running {
  ru_count : 1 <= process_count (sch k) <= 6;
  ru_pcb : pcb_heap (sch k) !! current_pblock k = Some b;
  ru_fde : length (fde b) = 8%nat;
  ru_window : user_window pd_addr pt_addr (process_count (sch k)) (pgs k);
  ru_fops : exists f, fops k = systemcalls_initialize f;
  ru_dir : dir_ok (fs_info k) (kmem k) de names;
  ru_de : in_space de 40 /\ de <> NULL;
  ru_apart : apart de 40 (current_pblock k) SIZEOF_PCB }.

Lemma current_eq k b :
  running k b -> current_pblock k = 8388608 - process_count (sch k) * 8192.
Proof. intros R. unfold current_pblock. apply pcb_addr_eq. pose proof (ru_count _ _ R). lia. Qed.

Lemma fname_eq k b fd :
  running k b -> 0 <= fd < 8 -> fname_addr (current_pblock k) fd = current_pblock k + 72 + 48 * fd.
Proof.
  intros R Hfd. unfold fname_addr. rewrite (current_eq k b R). pose proof (ru_count _ _ R).
  rewrite u32_small; lia.
Qed.
End Running.

(** The file behind an open descriptor: entry [idx] at [ent] is the first with
    the name stored in the PCB; the file lies in the kernel's page, away from
    the stack local. *)
Record open_reg (de : Z) (names : Z -> list Z) (k : kernel) (b : pcb) (fd : Z) (e : fd_entry)
    (ent flen : Z) : Prop := OpenReg {
  or_fd : get_at (fde b) fd = Ok e;
  or_use : in_use e = USE /\ fop_ptr e = Fops fops_file_functions;
  or_name : exists l idx, is_cstr (kmem k) (current_pblock k + 72 + 48 * fd) l /\
    Z.of_nat (length l) < FNAME_LENGTH /\ 0 <= idx < num_dir_entries (fs_info k) /\
    names idx = l /\ (forall j, 0 <= j < idx -> names j <> l) /\
    aget (dir_entries (fs_info k)) idx = Some ent;
  or_file : let ino := inode_ptr (fs_info k) (load32 (kmem k) (ent + FNAME_LENGTH + FS_FIELD_SIZE)) in
    file_ok (fs_info k) (kmem k) ino flen /\ apart de 40 ino KB4 /\ ino + KB4 <= ADDR_8MB /\
    forall j, 0 <= j -> j * KB4 < flen ->
      apart de 40 (block_addr (fs_info k) (kmem k) ino j) KB4 /\
      block_addr (fs_info k) (kmem k) ino j + KB4 <= ADDR_8MB;
  or_pos : 0 <= file_pos e <= flen }.

Lemma user_base_eq n : 1 <= n <= 6 -> user_base n = 4194304 + n * 4194304.
Proof. intros. unfold user_base, ADDR_4MB. rewrite u32_small; lia. Qed.

(** The call, and the kernel it leaves. *)
Lemma read_file_call `{Device} (pd_addr pt_addr kb_base de : Z) (iflag : bool) (fuel : nat)
    (names : Z -> list Z) (k : kernel) (b : pcb) (fd buf nbytes ent flen : Z) (e : fd_entry) :
  running pd_addr pt_addr de names k b -> open_reg de names k b fd e ent flen ->
  2 <= fd < 8 -> 0 <= nbytes -> file_pos e + nbytes < 4294967296 ->
  134217728 <= buf < 138412032 -> buf + nbytes <= 138412032 ->
  let ino := inode_ptr (fs_info k) (load32 (kmem k) (ent + FNAME_LENGTH + FS_FIELD_SIZE)) in
  let n := Z.min nbytes (flen - file_pos e) in
  let p := user_base (process_count (sch k)) + (buf - 134217728) in
  exists m, read pd_addr pt_addr kb_base de iflag fuel fd buf nbytes k =
      Ok (moved (put_fd k b fd (FdEntry (fop_ptr e) (inode e) (file_pos e + n) (in_use e))) m (tr (con k)), n) /\
    (forall i, 0 <= i < n ->
       load8 m (p + i) = file_byte (fs_info k) (kmem k) ino (file_pos e + i)) /\
    (forall a, addr a -> ~ (de <= a < de + 40) -> ~ (p <= a < p + n) ->
       load8 m a = load8 (kmem k) a).
Proof.
  intros R O Hfd Hn Hsum Hbuf Hend ino n p.
  pose proof (ru_pcb _ _ _ _ _ _ R) as Hb. pose proof (ru_count _ _ _ _ _ _ R) as Hc.
  pose proof (current_eq _ _ _ _ _ _ R) as Hcur. pose proof (ru_fde _ _ _ _ _ _ R) as Hl8.
  destruct (ru_de _ _ _ _ _ _ R) as [Hde Hden].
  destruct O as [He [Huse Hfop] (l & idx & Hl & Hll & Hidx & Hname & Hfirst & Hent)
    (Hf & A1 & A1b & A2) Hpos]. cbv zeta in Hf, A1, A1b, A2. fold ino in Hf, A1, A1b, A2.
  assert (Hbase : user_base (process_count (sch k)) = 4194304 + process_count (sch k) * 4194304)
    by (by apply user_base_eq).
  destruct (touch_user pd_addr pt_addr (pgs k) (process_count (sch k)) buf n
    (ru_window _ _ _ _ _ _ R) ltac:(lia) ltac:(lia)) as [Ht Hx].
  pose proof (ru_apart _ _ _ _ _ _ R) as Hap. unfold apart, in_space, SIZEOF_PCB, ADDR_8MB in *.
  destruct (read_file_spec (fs_info k) de (current_pblock k) (pcb_heap (sch k)) (kmem k) fd p nbytes
    b e names l idx ent flen Hb He (ru_dir _ _ _ _ _ _ R))
    as (m' & E & Hm1 & Hm2); try rewrite (fname_eq _ _ _ _ _ _ fd R) by lia;
    unfold apart, in_space, NULL, FNAME_LENGTH in *; try done; try lia.
  { intros j Hj Hlt. apply (A2 j Hj Hlt). }
  { fold ino. destruct Hpos as [P1 P2]. unfold dest_ok, in_space, apart, p.
    split; [lia|]. split; [lia|]. intros j Hj Hlt. destruct (A2 j Hj Hlt). lia. }
  fold ino n in E, Hm1, Hm2.
  assert (Hfdk : forall fd', fd_of k fd' = get_at (fde b) fd').
  { intros fd'. unfold fd_of, pcb_at. rewrite Hb. done. }
  unfold read, OPS_SIZE, check_use, NULL. rewrite !Hfdk, He, !bind_ok, Huse, Hfop, Hcur.
  destruct (Z.leb_spec 0 fd), (Z.ltb_spec fd 8), (Z.eqb_spec (8388608 - process_count (sch k) * 8192) 0),
    (Z.eqb_spec buf 0), (Z.eqb_spec fd 1); try lia.
  change (Z.land USE USE =? 0) with false. cbn [andb negb].
  destruct (ru_fops _ _ _ _ _ _ R) as [f0 Hfops]. rewrite Hfops.
  cbn [fop_call systemcalls_initialize function_read of_opt]. rewrite bind_ok.
  unfold call_read. rewrite Hx by lia. fold p. rewrite E, bind_ok, Ht, bind_ok.
  exists m'. split; [|split; [exact Hm1|exact Hm2]]. rewrite Huse, Hfop.
  rewrite moved_mem. reflexivity.
Qed.

(** C10 Reading an open file: [read] on a descriptor of a regular file stores
    the next bytes of the file in the caller's buffer through its page, returns
    how many there were (the request, capped by what is left of the file, so 0
    at its end), and advances the position of that descriptor by as much; no
    other descriptor and no other memory changes. *)
Theorem read_file_syscall `{Device} (pd_addr pt_addr kb_base de : Z) (iflag : bool) (fuel : nat)
    (names : Z -> list Z) (k : kernel) (b : pcb) (fd buf nbytes ent flen : Z) (e : fd_entry) :
  running pd_addr pt_addr de names k b -> open_reg de names k b fd e ent flen ->
  2 <= fd < 8 -> 0 <= nbytes -> file_pos e + nbytes < 4294967296 ->
  134217728 <= buf < 138412032 -> buf + nbytes <= 138412032 ->
  let ino := inode_ptr (fs_info k) (load32 (kmem k) (ent + FNAME_LENGTH + FS_FIELD_SIZE)) in
  let n := Z.min nbytes (flen - file_pos e) in
  let p := user_base (process_count (sch k)) + (buf - 134217728) in
  exists k', read pd_addr pt_addr kb_base de iflag fuel fd buf nbytes k = Ok (k', n) /\
    (forall i, 0 <= i < n ->
       load8 (kmem k') (p + i) = file_byte (fs_info k) (kmem k) ino (file_pos e + i)) /\
    (forall fd', fd_of k' fd' = if fd =? fd'
       then Ok (FdEntry (fop_ptr e) (inode e) (file_pos e + n) (in_use e)) else fd_of k fd') /\
    (forall a, addr a -> ~ (de <= a < de + 40) -> ~ (p <= a < p + n) ->
       load8 (kmem k') a = load8 (kmem k) a).
Proof.
  intros R O Hfd Hn Hsum Hbuf Hend ino n p. pose proof (ru_pcb _ _ _ _ _ _ R) as Hb.
  pose proof (ru_fde _ _ _ _ _ _ R) as Hl8.
  destruct (read_file_call pd_addr pt_addr kb_base de iflag fuel names k b fd buf nbytes ent flen e
    R O Hfd Hn Hsum Hbuf Hend) as (m & E & Hm1 & Hm2).
  eexists. split; [exact E|]. split; [exact Hm1|]. split; [|exact Hm2].
  intros fd'. unfold fd_of, pcb_at, current_pblock.
  cbn [moved put_fd with_con with_sch sch with_heap process_count pcb_heap].
  fold (current_pblock k). rewrite lookup_insert_eq, Hb. cbn [of_opt]. rewrite !bind_ok.
  cbn [set_fde fde]. unfold get_at. rewrite aget_insert by lia. destruct (fd =? fd'); cbn [of_opt]; done.
Qed.

(** ** Witnesses: process 1 with frame0.txt open on descriptor 2 *)

Definition demo_term_fd : fd_entry := FdEntry (Fops fops_terminal_functions) 0 0 1.
Definition demo_free_fd : fd_entry := FdEntry FopsNull 0 0 0.
Definition demo_file_fd : fd_entry := FdEntry (Fops fops_file_functions) 4251648 4090 1.
Definition demo_proc (fds : list fd_entry) (arg_length : Z) : pcb :=
  Pcb 0 0 0 0 0 0 0 0 0 0 0 138412028 0 1 0 2 fds arg_length.
Definition demo_fds : list fd_entry :=
  [demo_term_fd; demo_term_fd; demo_file_fd] ++ replicate 5 demo_free_fd.
Definition demo_kmem : mem := store_list demo_image 8380584 (bytes "frame0.txt" ++ [0]).
Definition demo_paging : paging :=
  match map_user 4202496 (user_base 1) paging1 with Ok g => g | _ => paging1 end.
Definition demo_kernel (b : pcb) (m : mem) : kernel :=
  Kernel (Console (Screen m 0 0) [] (Pic 0 0) (Rtc 0 0 2 0)
            (Keyboard 0 0 0 0 [0; 0; 0] [0; 0; 0]) [0; 0; 0] [0; 0; 0] 0 0)
    (Sched (ProcessQueue [8380416; 0; 0; 0; 0; 0] 0 0) 1 {[8380416 := b]})
    demo_paging 8380412 demo_fs 3 0
    (systemcalls_initialize (fun _ => FopsFunctions None None None None)) [].

Lemma demo_window : user_window 4202496 4206592 1 demo_paging.
Proof.
  destruct (map_user_ok 4202496 4206592 1 paging1 paging1_map ltac:(lia)) as (g' & E & _ & W).
  unfold demo_paging. rewrite E. exact W.
Qed.

Lemma demo_kmem_dir : dir_ok demo_fs demo_kmem 2000 demo_names.
Proof.
  split; [vm_compute; split; congruence|].
  change (num_dir_entries demo_fs) with 2. intros k Hk.
  range_cases k 2; (eexists; split_and!; [vm_compute; reflexivity| | |apply is_cstr_dec; vm_compute;
    reflexivity|cbn; lia]); unfold in_space, apart, DENTRY_SIZE; lia.
Qed.

Lemma demo_running fds al m :
  length fds = 8%nat -> dir_ok demo_fs m 2000 demo_names ->
  running 4202496 4206592 2000 demo_names (demo_kernel (demo_proc fds al) m) (demo_proc fds al).
Proof.
  intros Hl Hdir. split.
  - cbn [demo_kernel sch process_count]. lia.
  - change (current_pblock _) with 8380416. apply lookup_singleton_eq.
  - exact Hl.
  - exact demo_window.
  - by exists (fun _ => FopsFunctions None None None None).
  - exact Hdir.
  - unfold in_space, NULL. lia.
  - change (current_pblock _) with 8380416. unfold apart, SIZEOF_PCB. lia.
Qed.

Lemma demo_kmem_file : file_ok demo_fs demo_kmem (inode_ptr demo_fs 0) 5000.
Proof.
  split.
  - vm_compute. split; congruence.
  - split; vm_compute; congruence.
  - unfold KB4. intros k Hk Hlt. assert (0 <= k < 2) as Hk2 by lia. clear Hk Hlt.
    range_cases k 2; vm_compute; split; congruence.
Qed.

Lemma demo_open_reg al :
  open_reg 2000 demo_names (demo_kernel (demo_proc demo_fds al) demo_kmem) (demo_proc demo_fds al)
    2 demo_file_fd 4247680 5000.
Proof.
  assert (E : load32 demo_kmem (4247680 + FNAME_LENGTH + FS_FIELD_SIZE) = 0)
    by (vm_compute; reflexivity).
  split.
  - reflexivity.
  - done.
  - exists (bytes "frame0.txt"), 1. change (current_pblock _) with 8380416. split_and!.
    + apply is_cstr_dec. vm_compute. reflexivity.
    + cbn. unfold FNAME_LENGTH. lia.
    + lia.
    + vm_compute. reflexivity.
    + reflexivity.
    + intros j Hj. assert (j = 0) as -> by lia. vm_compute. congruence.
    + vm_compute. reflexivity.
  - change (kmem _) with demo_kmem. change (fs_info _) with demo_fs. rewrite E. cbv zeta.
    split; [exact demo_kmem_file|]. unfold apart, KB4, ADDR_8MB.
    split; [left; vm_compute; congruence|]. split; [vm_compute; congruence|].
    intros k Hk Hlt. assert (0 <= k < 2) as Hk2 by lia. clear Hk Hlt.
    range_cases k 2; (split; [left|]; vm_compute; congruence).
  - cbn [demo_file_fd file_pos]. lia.
Qed.

Lemma read_file_syscall_witness :
  exists k', @read quiet 4202496 4206592 0 2000 true 0 2 134300000 18
      (demo_kernel (demo_proc demo_fds 1) demo_kmem) = Ok (k', 18) /\
    load8 (kmem k') 8470885 = 32 /\
    fd_of k' 2 = Ok (FdEntry (Fops fops_file_functions) 4251648 4108 1).
Proof.
  destruct (@read_file_syscall quiet 4202496 4206592 0 2000 true 0 demo_names
    (demo_kernel (demo_proc demo_fds 1) demo_kmem) (demo_proc demo_fds 1) 2 134300000 18
    4247680 5000 demo_file_fd) as (k' & H1 & H2 & H3 & _).
  - apply demo_running; [done|exact demo_kmem_dir].
  - apply demo_open_reg.
  - lia.
  - lia.
  - cbn [demo_file_fd file_pos]. lia.
  - lia.
  - lia.
  - exists k'. split; [exact H1|]. split; [|exact (H3 2)].
    refine (eq_trans (H2 5 ltac:(cbn [demo_file_fd file_pos]; lia)) _). vm_compute. reflexivity.
Defined.
