(* ===== verification/Files.v ===== *)
(** * syscalls.c: the descriptor table through open and close

    What [open] and [close] do to the descriptor table of the running process,
    and how the two meet: a descriptor that is closed is the next one that is
    handed out when all below it are taken. *)

From S2P Require Import Prelude Mem Lib Screen Ports I8259 Rtc Paging.
From S2P Require Import Pcb Sched Filesys Console Keyboard Irq Terminal Kstate.
From S2P Require Import Syscalls.

(** The driver table of a file type. *)
Definition table_of (type : Z) : fops_table :=
  if type =? 0 then fops_rtc_functions
  else if type =? 1 then fops_directory_functions else fops_file_functions.

Definition free_fd : fd_entry := FdEntry FopsNull NULL 0 0.

(** ** The first free descriptor *)

Lemma first_free_taken l i k e :
  i <= k < first_free l i -> aget l (k - i) = Some e -> Z.land (in_use e) USE <> 0.
Proof.
  revert i. induction l as [|e0 l IH]; intros i Hk Ha; cbn [first_free] in Hk; [lia|].
  destruct (Z.eqb_spec (Z.land (in_use e0) USE) 0) as [|Hne]; [lia|].
  destruct (Z.eq_dec k i) as [->|Hki].
  - rewrite Z.sub_diag in Ha. cbn in Ha. by injection Ha as <-.
  - apply (IH (i + 1)); [lia|]. rewrite aget_lookup in * by lia.
    replace (Z.to_nat (k - i)) with (S (Z.to_nat (k - (i + 1)))) in Ha by lia. exact Ha.
Qed.

(** Freeing [fd] makes it, or a lower one, the first free descriptor. *)
Lemma first_free_insert l i n e :
  (n < length l)%nat -> Z.land (in_use e) USE = 0 ->
  first_free (<[n := e]> l) i = Z.min (i + Z.of_nat n) (first_free l i).
Proof.
  intros Hn He. revert i n Hn. induction l as [|e0 l IH]; intros i n Hn; cbn [length] in Hn; [lia|].
  pose proof (first_free_bound l (i + 1)).
  destruct n as [|n]; cbn [insert list_insert first_free].
  - rewrite He. cbn. destruct (_ =? 0); lia.
  - destruct (Z.eqb_spec (Z.land (in_use e0) USE) 0); [lia|].
    rewrite IH by lia. lia.
Qed.

(** ** States *)

Lemma with_mem_same k : with_mem k (kmem k) = k.
Proof. by destruct k as [[[] ] ]. Qed.

Lemma fd_of_pcb k b fd :
  pcb_heap (sch k) !! current_pblock k = Some b -> fd_of k fd = get_at (fde b) fd.
Proof. intros Hb. unfold fd_of, pcb_at. by rewrite Hb. Qed.

Lemma fd_of_set k k' b loc e fd :
  pcb_heap (sch k) !! current_pblock k = Some b -> 0 <= loc < Z.of_nat (length (fde b)) ->
  sch k' = with_heap (sch k)
    (<[current_pblock k := set_fde (<[Z.to_nat loc := e]> (fde b)) b]> (pcb_heap (sch k))) ->
  fd_of k' fd = if fd =? loc then Ok e else fd_of k fd.
Proof.
  intros Hb Hl E. rewrite (fd_of_pcb k b) by done. unfold fd_of, current_pblock. rewrite E.
  cbn [with_heap process_count pcb_heap]. fold (current_pblock k). unfold pcb_at.
  rewrite lookup_insert_eq. cbn [of_opt]. rewrite bind_ok. cbn [set_fde fde].
  unfold get_at. rewrite aget_insert by lia. rewrite Z.eqb_sym. by destruct (fd =? loc).
Qed.

Section Table.
Context (pd_addr pt_addr : Z).

Lemma user_str_ok g m n p l :
  user_window pd_addr pt_addr n g -> 134217728 <= p ->
  p + Z.of_nat (length l) + 1 <= 138412032 ->
  is_cstr m (user_base n + (p - 134217728)) l ->
  user_str pd_addr pt_addr g m p = Ok (user_base n + (p - 134217728)).
Proof.
  intros W Hp Hle Hl. destruct (touch_user pd_addr pt_addr g n p 1 W Hp ltac:(lia)) as [T1 X].
  destruct (touch_user pd_addr pt_addr g n p (Z.of_nat (length l) + 1) W Hp ltac:(lia)) as [T2 _].
  unfold user_str. rewrite T1, bind_ok, X, (strlen_cstr _ _ _ Hl), bind_ok by lia.
  by rewrite T2, bind_ok.
Qed.
End Table.

(** ** open *)

Section Open.
Context `{Device} (pd_addr pt_addr de : Z) (names : Z -> list Z).
Context (k : kernel) (b : pcb) (filename : Z) (l : list Z).
Hypothesis R : running pd_addr pt_addr de names k b.
Hypothesis Hstack : de + 40 <= ADDR_8MB.

Definition user_phys (k : kernel) (p : Z) : Z :=
  user_base (process_count (sch k)) + (p - 134217728).

(** The argument: a string of at most 31 characters in the user page. *)
Definition user_name : Prop :=
  134217728 <= filename /\ filename + Z.of_nat (length l) + 1 <= 138412032 /\
  is_cstr (kmem k) (user_phys k filename) l /\ Z.of_nat (length l) < FNAME_LENGTH.
Hypothesis Hname : user_name.

Lemma name_facts :
  user_phys k filename = 4194304 + process_count (sch k) * 4194304 + (filename - 134217728) /\
  in_space (user_phys k filename) (Z.of_nat (length l) + 1) /\
  apart de 40 (user_phys k filename) (Z.of_nat (length l) + 1) /\
  user_phys k filename <> NULL /\ filename <> NULL /\ current_pblock k <> NULL.
Proof.
  destruct Hname as (H1 & H2 & _ & H3). pose proof (ru_count _ _ _ _ _ _ R).
  pose proof (current_eq _ _ _ _ _ _ R).
  unfold user_phys, in_space, apart, NULL, ADDR_8MB in *. rewrite user_base_eq by done. lia.
Qed.

(** What [open] comes to once its checks have passed. *)
Lemma open_lookup :
  first_free (fde b) 0 < 8 ->
  let p := user_phys k filename in
  let slot := fname_addr (current_pblock k) (first_free (fde b) 0) in
  open pd_addr pt_addr de filename k =
    ('(m, ret) ← read_dentry_by_name (fs_info k) (kmem k) p de;
     let k := with_mem k m in
     if ret =? FAIL then Ok (k, FAIL)
     else
       e ← fd_of k (first_free (fde b) 0);
       fname_len ← strlen m p;
       if FNAME_LENGTH <? fname_len + 1 then Fault
       else
         let k := with_mem k (memcpy m slot p (fname_len + 1)) in
         let type := load8 (kmem k) (de + DE_TYPE) in
         let e := FdEntry (fop_ptr e) NULL 0 USE in
         let e :=
           if type =? 0 then FdEntry (Fops fops_rtc_functions) NULL 0 USE
           else if type =? 1 then FdEntry (Fops fops_directory_functions) NULL 0 USE
           else if type =? 2 then
             FdEntry (Fops fops_file_functions)
               (inode_address (fs_info k) (kmem k) (load32 (kmem k) (de + DE_INODE))) 0 USE
           else e in
         k ← set_fd k (first_free (fde b) 0) e;
         fn ← fop_call (fops k) (fop_ptr e) function_open;
         k ← call_open fn k;
         Ok (k, first_free (fde b) 0)).
Proof.
  intros Hlt p slot. destruct Hname as (H1 & H2 & H3 & H4), name_facts as (_ & _ & _ & _ & N1 & N2).
  unfold open. destruct (Z.eqb_spec filename NULL), (Z.eqb_spec (current_pblock k) NULL); try done.
  cbn [orb]. rewrite (find_fd_spec k b (ru_pcb _ _ _ _ _ _ R) (ru_fde _ _ _ _ _ _ R)), bind_ok.
  unfold OPS_SIZE. destruct (Z.eqb_spec (first_free (fde b) 0) 8); [lia|].
  rewrite (user_str_ok pd_addr pt_addr (pgs k) (kmem k) _ filename l (ru_window _ _ _ _ _ _ R) H1 H2)
    by exact H3.
  rewrite bind_ok. fold (user_phys k filename). reflexivity.
Qed.

(** The three tables' open functions touch neither memory nor processes. *)
Lemma call_open_ok k0 type :
  0 <= type <= 2 -> (exists f, fops k0 = systemcalls_initialize f) ->
  exists k1, (fn ← fop_call (fops k0) (Fops (table_of type)) function_open;
              k1 ← call_open fn k0; Ok (k1, first_free (fde b) 0)) =
      Ok (k1, first_free (fde b) 0) /\
    exists t, k1 = with_con k0 (with_tr (con k0) t).
Proof.
  intros Ht [f Hf]. rewrite Hf.
  assert (Hk : k0 = with_con k0 (with_tr (con k0) (tr (con k0)))) by (by destruct k0 as [[]]).
  assert (type = 0 \/ type = 1 \/ type = 2) as [-> |[-> | ->]] by lia; eexists; cbn;
    (split; [reflexivity|by eexists]).
Qed.

Lemma open_found idx ent :
  first_free (fde b) 0 < 8 ->
  0 <= idx < num_dir_entries (fs_info k) -> names idx = l ->
  (forall j, 0 <= j < idx -> names j <> l) -> aget (dir_entries (fs_info k)) idx = Some ent ->
  let loc := first_free (fde b) 0 in
  let type := load8 (kmem k) (ent + FNAME_LENGTH) in
  let slot := current_pblock k + 72 + 48 * loc in
  0 <= type <= 2 ->
  exists m t, open pd_addr pt_addr de filename k =
      Ok (moved (put_fd k b loc (FdEntry (Fops (table_of type))
            (if type =? 2 then inode_address (fs_info k) m
               (load32 (kmem k) (ent + FNAME_LENGTH + FS_FIELD_SIZE)) else NULL) 0 USE)) m t, loc) /\
    is_cstr m slot l /\
    (forall a, addr a -> ~ (de <= a < de + 40) -> ~ (slot <= a < slot + FNAME_LENGTH) ->
       load8 m a = load8 (kmem k) a).
Proof.
  intros Hlt Hidx Hn Hfirst Hent loc type slot Ht. rewrite open_lookup by done. fold loc.
  destruct Hname as (H1 & H2 & Hl & H4), name_facts as (Ep & N1 & N2 & N3 & N4 & _).
  destruct (ru_de _ _ _ _ _ _ R) as [Hde Hden]. pose proof (ru_count _ _ _ _ _ _ R) as Hc.
  pose proof (current_eq _ _ _ _ _ _ R) as Hcur. pose proof (ru_apart _ _ _ _ _ _ R) as Hap.
  pose proof (first_free_bound (fde b) 0) as Hb. pose proof (ru_fde _ _ _ _ _ _ R) as Hfde.
  rewrite Hfde in Hb. fold loc in Hb, Hlt.
  assert (Eslot : fname_addr (current_pblock k) loc = slot).
  { apply (fname_eq pd_addr pt_addr de names k b loc R). lia. }
  destruct (read_dentry_by_name_spec (fs_info k) (kmem k) de Hde names (ru_dir _ _ _ _ _ _ R)
    (user_phys k filename) l Hl ltac:(lia) N3 Hden N1 N2)
    as [(i & e & m1 & Hi & Hni & Hif & He & E1 & D1)|[Hno _]]; [|exfalso; by apply (Hno idx)].
  assert (i = idx) as ->.
  { destruct (Z.lt_trichotomy i idx) as [?|[?|?]]; [|done|].
    - exfalso. exact (Hfirst i ltac:(lia) Hni).
    - exfalso. exact (Hif idx ltac:(lia) Hn). }
  rewrite Hent in He. injection He as <-. rewrite E1, bind_ok.
  destruct D1 as (_ & Dty & Dino & Dsame). unfold apart, in_space, SIZEOF_PCB, ADDR_8MB, FNAME_LENGTH in *.
  assert (Hl1 : is_cstr m1 (user_phys k filename) l).
  { eapply is_cstr_ext; [|exact Hl]. intros j Hj. apply Dsame; unfold addr; lia. }
  change (0 =? FAIL) with false. cbv iota zeta.
  destruct (lookup_lt_is_Some_2 (fde b) (Z.to_nat loc)) as [e0 He0]; [lia|].
  rewrite (fd_of_pcb _ b) by apply (ru_pcb _ _ _ _ _ _ R).
  rewrite (get_at_ok _ _ e0) by (by rewrite aget_lookup by lia).
  rewrite bind_ok, (strlen_cstr _ _ _ Hl1), bind_ok by lia.
  destruct (Z.ltb_spec 32 (Z.of_nat (length l) + 1)); [lia|].
  rewrite Eslot.
  change (kmem (with_mem ?x ?y)) with y.
  set (m2 := memcpy m1 slot (user_phys k filename) (Z.of_nat (length l) + 1)).
  assert (W : writes m1 m2 slot (Z.of_nat (length l) + 1) (fun i => load8 m1 (user_phys k filename + i))).
  { apply memcpy_writes; unfold in_space, fwd_ok; lia. }
  assert (Hkeep : forall a, addr a -> ~ (slot <= a < slot + 32) -> load8 m2 a = load8 m1 a).
  { intros a Ha Hout. apply (writes_out _ _ _ _ _ _ W); [done|]. lia. }
  assert (Ety : load8 m2 (de + DE_TYPE) = type).
  { rewrite Hkeep by (unfold addr, DE_TYPE; lia). exact Dty. }
  assert (Eino : load32 m2 (de + DE_INODE) = load32 (kmem k) (ent + 32 + FS_FIELD_SIZE)).
  { rewrite <- Dino. apply load32_ext. intros j Hj. apply Hkeep; unfold addr, DE_INODE; lia. }
  rewrite Ety, Eino. change (fs_info (with_mem ?x ?y)) with (fs_info x).
  set (fe := FdEntry (Fops (table_of type))
    (if type =? 2 then inode_address (fs_info k) m2 (load32 (kmem k) (ent + 32 + FS_FIELD_SIZE))
     else NULL) 0 USE).
  match goal with |- context [set_fd _ loc ?x] => replace x with fe end.
  2:{ unfold fe, table_of. assert (type = 0 \/ type = 1 \/ type = 2) as [-> |[-> | ->]] by lia; done. }
  rewrite (set_fd_ok _ b) by (exact (ru_pcb _ _ _ _ _ _ R) || lia). rewrite bind_ok.
  change (fop_ptr fe) with (Fops (table_of type)).
  match goal with |- context [fops ?x] => set (k2 := x) end.
  destruct (call_open_ok k2 type Ht (ru_fops _ _ _ _ _ _ R)) as (k3 & E3 & t & ->).
  exists m2, t. split; [exact E3|]. split.
  - eapply is_cstr_move; [|exact Hl1]. intros j Hj. rewrite (writes_in _ _ _ _ _ j W) by lia. done.
  - intros a Ha Hout1 Hout2. rewrite Hkeep by done. by apply Dsame.
Qed.

(** A name that no directory entry has. *)
Lemma open_absent :
  (forall idx, 0 <= idx < num_dir_entries (fs_info k) -> names idx <> l) ->
  open pd_addr pt_addr de filename k = Ok (k, FAIL).
Proof.
  intros Hno. pose proof (ru_fde _ _ _ _ _ _ R) as Hl8. pose proof (first_free_bound (fde b) 0) as Hfb.
  destruct name_facts as (_ & N1 & N2 & N3 & N4 & N5).
  destruct (Z.eq_dec (first_free (fde b) 0) OPS_SIZE) as [E|E]; unfold OPS_SIZE in E.
  - unfold open. destruct (Z.eqb_spec filename NULL), (Z.eqb_spec (current_pblock k) NULL); try done.
    cbn [orb]. by rewrite (find_fd_spec k b (ru_pcb _ _ _ _ _ _ R) Hl8), bind_ok, E.
  - rewrite open_lookup by lia. destruct Hname as (H1 & H2 & Hl & H4).
    destruct (ru_de _ _ _ _ _ _ R) as [Hde Hden].
    destruct (read_dentry_by_name_spec (fs_info k) (kmem k) de Hde names (ru_dir _ _ _ _ _ _ R)
      (user_phys k filename) l Hl ltac:(unfold FNAME_LENGTH in *; lia) N3 Hden N1 N2)
      as [(i & _ & _ & Hi & Hni & _)|[_ E1]]; [exfalso; by apply (Hno i)|].
    rewrite E1, bind_ok. cbv zeta. by rewrite with_mem_same.
Qed.
End Open.

(** All eight descriptors are in use. *)
Lemma open_full `{Device} pd_addr pt_addr de k b filename :
  pcb_heap (sch k) !! current_pblock k = Some b -> length (fde b) = 8%nat ->
  first_free (fde b) 0 = OPS_SIZE -> open pd_addr pt_addr de filename k = Ok (k, FAIL).
Proof.
  intros Hb Hl E. unfold open. destruct ((filename =? NULL) || (current_pblock k =? NULL)); [done|].
  by rewrite (find_fd_spec k b Hb Hl), bind_ok, E.
Qed.

(** ** Properties *)

(** C12 [open] on a name of the calling process: with all eight descriptors in
    use, or when no directory entry has the name, it returns -1 and changes
    nothing.  Otherwise it returns the lowest free descriptor and makes it a
    fresh entry at position 0 with the driver table of the file's type (and
    the address of the inode of a regular file), with the name stored next to
    it; no other descriptor changes, and no memory but that name's slot and
    the stack local. *)
Theorem open_correct `{Device} (pd_addr pt_addr de : Z) (names : Z -> list Z) (k : kernel)
    (b : pcb) (filename : Z) (l : list Z) :
  running pd_addr pt_addr de names k b -> de + 40 <= ADDR_8MB -> user_name k filename l ->
  let fd := first_free (fde b) 0 in
  let p := current_pblock k + 72 + 48 * fd in
  (forall fd', 0 <= fd' < fd -> exists e, fd_of k fd' = Ok e /\ Z.land (in_use e) USE <> 0) /\
  (fd = OPS_SIZE \/ (forall idx, 0 <= idx < num_dir_entries (fs_info k) -> names idx <> l) ->
   open pd_addr pt_addr de filename k = Ok (k, FAIL)) /\
  (forall idx ent, fd < OPS_SIZE ->
   0 <= idx < num_dir_entries (fs_info k) -> names idx = l ->
   (forall j, 0 <= j < idx -> names j <> l) -> aget (dir_entries (fs_info k)) idx = Some ent ->
   let type := load8 (kmem k) (ent + FNAME_LENGTH) in
   0 <= type <= 2 ->
   exists k', open pd_addr pt_addr de filename k = Ok (k', fd) /\
     (forall fd', fd_of k' fd' = if fd' =? fd
        then Ok (FdEntry (Fops (table_of type))
               (if type =? 2 then inode_address (fs_info k) (kmem k')
                  (load32 (kmem k) (ent + FNAME_LENGTH + FS_FIELD_SIZE)) else NULL) 0 USE)
        else fd_of k fd') /\
     is_cstr (kmem k') p l /\
     (forall a, addr a -> ~ (de <= a < de + 40) -> ~ (p <= a < p + FNAME_LENGTH) ->
        load8 (kmem k') a = load8 (kmem k) a)).
Proof.
  intros R Hs Hname fd p. pose proof (ru_fde _ _ _ _ _ _ R) as Hl8.
  pose proof (first_free_bound (fde b) 0) as Hfb. fold fd in Hfb.
  split; [|split].
  - intros fd' Hfd. destruct (aget_is_Some (fde b) fd' ltac:(lia)) as [e He]. exists e.
    rewrite (fd_of_pcb k b) by apply (ru_pcb _ _ _ _ _ _ R). split; [by apply get_at_ok|].
    apply (first_free_taken (fde b) 0 fd' e); [exact Hfd|by rewrite Z.sub_0_r].
  - intros Hfail. destruct (Z.eq_dec fd OPS_SIZE) as [E|E].
    + apply (open_full pd_addr pt_addr de k b filename); [apply (ru_pcb _ _ _ _ _ _ R)|exact Hl8|exact E].
    + destruct Hfail as [|Hno]; [done|].
      by eapply (open_absent pd_addr pt_addr de names k b filename l).
  - intros idx ent Hlt Hidx Hn Hfirst Hent type Ht. unfold OPS_SIZE in Hlt.
    destruct (open_found pd_addr pt_addr de names k b filename l R Hs Hname idx ent)
      as (m & t & E & C & S); try done. eexists. split; [exact E|]. split; [|split; [exact C|exact S]].
    intros fd'. apply (fd_of_set k _ b fd _ fd' (ru_pcb _ _ _ _ _ _ R)); [lia|reflexivity].
Qed.

Lemma close_call `{Device} pd_addr pt_addr de names k b fd e type :
  running pd_addr pt_addr de names k b -> fd_of k fd = Ok e -> 0 <= type <= 2 ->
  fop_ptr e = Fops (table_of type) -> Z.land (in_use e) USE <> 0 -> 1 < fd < 8 ->
  close fd k = Ok (put_fd k b fd free_fd, SUCCESS).
Proof.
  intros R He Ht Hfop Huse Hfd. pose proof (ru_pcb _ _ _ _ _ _ R) as Hb. pose proof (ru_fde _ _ _ _ _ _ R) as Hl8.
  pose proof (ru_count _ _ _ _ _ _ R) as Hc. pose proof (current_eq _ _ _ _ _ _ R) as Hcur.
  unfold close, check_use. rewrite He, !bind_ok. unfold INDEX, OPS_SIZE, NULL. rewrite Hcur.
  destruct (Z.leb_spec 8 fd), (Z.eqb_spec (8388608 - process_count (sch k) * 8192) 0); try lia.
  destruct (ru_fops _ _ _ _ _ _ R) as [f Hf].
  destruct (Z.eqb_spec (Z.land (in_use e) USE) 0); [done|]. destruct (Z.leb_spec fd 1); [lia|].
  cbn [orb]. rewrite Hfop, Hf.
  assert (E : (fn ← fop_call (systemcalls_initialize f) (Fops (table_of type)) function_close;
               call_close fn k) = Ok k).
  { assert (type = 0 \/ type = 1 \/ type = 2) as [-> |[-> | ->]] by lia; reflexivity. }
  apply bind_Ok_inv in E as (fn & E1 & E2). rewrite E1, bind_ok, E2, bind_ok.
  by rewrite (set_fd_ok k b) by (exact Hb || lia).
Qed.

(** C13 [close] on a descriptor of the running process: a free descriptor, the
    standard two, and one without a driver table are refused with -1 and no
    change; a descriptor of the RTC, the directory or a file is freed, with
    nothing else changed, and is then the descriptor the next [open] uses
    unless a lower one is free. *)
Theorem close_correct `{Device} (pd_addr pt_addr de : Z) (names : Z -> list Z) (k : kernel)
    (b : pcb) (fd : Z) (e : fd_entry) :
  running pd_addr pt_addr de names k b -> fd_of k fd = Ok e ->
  (Z.land (in_use e) USE = 0 \/ fd <= 1 \/ fop_ptr e = FopsNull -> close fd k = Ok (k, FAIL)) /\
  (forall type, 0 <= type <= 2 -> fop_ptr e = Fops (table_of type) ->
   Z.land (in_use e) USE <> 0 -> 1 < fd ->
   exists k' b', close fd k = Ok (k', SUCCESS) /\
     (forall fd', fd_of k' fd' = if fd' =? fd then Ok free_fd else fd_of k fd') /\
     kmem k' = kmem k /\ pcb_heap (sch k') !! current_pblock k' = Some b' /\
     first_free (fde b') 0 = Z.min fd (first_free (fde b) 0)).
Proof.
  intros R He. pose proof (ru_pcb _ _ _ _ _ _ R) as Hb. pose proof (ru_fde _ _ _ _ _ _ R) as Hl8.
  pose proof (ru_count _ _ _ _ _ _ R) as Hc. pose proof (current_eq _ _ _ _ _ _ R) as Hcur.
  pose proof He as He'. rewrite (fd_of_pcb k b fd Hb) in He'.
  destruct (get_at_Ok_inv _ _ _ He') as [Hfd _]. rewrite Hl8 in Hfd.
  split.
  - unfold close, check_use. rewrite He, !bind_ok. unfold INDEX, OPS_SIZE, NULL. rewrite Hcur.
    destruct (Z.leb_spec 8 fd), (Z.eqb_spec (8388608 - process_count (sch k) * 8192) 0); try lia.
    rewrite !orb_false_r.
    destruct (Z.eqb_spec (Z.land (in_use e) USE) 0); [done|].
    destruct (Z.leb_spec fd 1); [done|]. intros [?|[?| ->]]; [done|lia|done].
  - intros type Ht Hfop Huse Hfd1. eexists _, _.
    split; [apply (close_call pd_addr pt_addr de names k b fd e type); try done; lia|]. split; [|split; [done|split]].
    + intros fd'. apply (fd_of_set k _ b fd free_fd fd' Hb); [lia|reflexivity].
    + unfold current_pblock. cbn [put_fd with_sch sch with_heap process_count pcb_heap].
      apply lookup_insert_eq.
    + cbn [set_fde fde]. rewrite first_free_insert by (done || lia). lia.
Qed.

(** ** Witnesses *)

Definition demo_umem : mem := store_list demo_kmem 8388880 (bytes "frame0.txt" ++ [0]).

Lemma demo_umem_dir : dir_ok demo_fs demo_umem 2000 demo_names.
Proof.
  split; [vm_compute; split; congruence|].
  change (num_dir_entries demo_fs) with 2. intros k Hk.
  range_cases k 2; (eexists; split_and!; [vm_compute; reflexivity| | |apply is_cstr_dec; vm_compute;
    reflexivity|cbn; lia]); unfold in_space, apart, DENTRY_SIZE; lia.
Qed.

Lemma demo_user_name b : user_name (demo_kernel b demo_umem) 134218000 (bytes "frame0.txt").
Proof.
  split; [lia|]. split; [cbn; lia|]. split; [|cbn; unfold FNAME_LENGTH; lia].
  apply is_cstr_dec. vm_compute. reflexivity.
Qed.

Lemma open_correct_witness :
  exists k', @open quiet 4202496 4206592 2000 134218000
      (demo_kernel (demo_proc demo_fds 1) demo_umem) = Ok (k', 3) /\
    fd_of k' 2 = Ok demo_file_fd.
Proof.
  destruct (@open_correct quiet 4202496 4206592 2000 demo_names
    (demo_kernel (demo_proc demo_fds 1) demo_umem) (demo_proc demo_fds 1) 134218000
    (bytes "frame0.txt")) as (_ & _ & H3).
  - apply demo_running; [reflexivity|exact demo_umem_dir].
  - unfold ADDR_8MB. lia.
  - apply demo_user_name.
  - destruct (H3 1 4247680) as (k' & H & Hfd & _).
    + vm_compute. reflexivity.
    + vm_compute. split; congruence.
    + reflexivity.
    + intros j Hj. assert (j = 0) as -> by lia. vm_compute. congruence.
    + vm_compute. reflexivity.
    + vm_compute. split; congruence.
    + exists k'. split; [exact H|exact (Hfd 2)].
Defined.

Lemma close_correct_witness :
  exists k', @close quiet 2 (demo_kernel (demo_proc demo_fds 1) demo_kmem) = Ok (k', SUCCESS) /\
    fd_of k' 2 = Ok free_fd.
Proof.
  destruct (proj2 (@close_correct quiet 4202496 4206592 2000 demo_names
    (demo_kernel (demo_proc demo_fds 1) demo_kmem) (demo_proc demo_fds 1) 2 demo_file_fd
    (demo_running demo_fds 1 demo_kmem eq_refl demo_kmem_dir) eq_refl) 2)
    as (k' & b' & H & Hfd & _); [lia|reflexivity|vm_compute; congruence|lia|].
  exists k'. split; [exact H|exact (Hfd 2)].
Defined.
