(* ===== verification/Process.v ===== *)
(** * syscalls.c: execute and halt

    [execute] is its steps: parse the command, check the file, then launch
    (page, program image, PCB, queue) as often as the do-while loop asks, then
    the switch to user mode.  Its outcome is a return value or the entry into
    user mode; the outcome of [halt] is where its final [leave] puts the stack
    and base pointers. *)

From S2P Require Import Prelude Mem Lib Screen Ports I8259 Rtc Paging.
From S2P Require Import Pcb Sched Filesys Console Keyboard Irq Terminal Kstate.
From S2P Require Import Syscalls.

(** The frame of the final [iret] of [execute]. *)
Record user_entry : Type := UserEntry {
  ue_eip : Z; ue_cs : Z; ue_eflags : Z; ue_esp : Z; ue_ss : Z }.

(** The flags [execute] pushes: those after its [cli], with 0x286 set. *)
Definition IF_BIT : Z := 512.
Definition user_flags (flags : Z) : Z := Z.lor (Z.ldiff flags IF_BIT) IRET_FLAGS.

Inductive exec_outcome : Type :=
| Returned (v : Z)
| Entered (u : user_entry).

Section Process.
Context (pd_addr pt_addr : Z).
(** Stack locals: [conv_buf] of printf, [program_dentry], [command],
    [program_name], [exe_buff], [pcb]; the literals ["shell"] and [""]; the
    stack and base pointers that [execute] saves and its flags; the stack and
    base pointers in the body of [halt]; the uninitialised [pcb]. *)
Context (cb de cmd prog exe lpcb : Z).
Context (shell_str empty_str k_esp k_ebp k_flags h_esp h_ebp : Z).
Context (pcb0 : pcb).

Definition kprintf (fmt args : list Z) (k : kernel) : res kernel :=
  '(_, s) ← printf cb fmt args (scr (con k)); Ok (with_screen k s).

(** ** args_initialize *)

(** The argument's length and the memory with the argument buffer filled. *)
Definition args_initialize (m : mem) (command : Z) (char_space_indices : list Z)
    (num_spaces current_pblock : Z) : res (mem * Z) :=
  if num_spaces =? 0 then Ok (store8 m (argbuf_addr current_pblock) 0, 1)
  else
    count ← get_at char_space_indices 0;
    let start := count + 1 in
    count ← while (fun count => if load8 m (command + count) =? 0 then inr (Ok count)
                                else inl (count + 1)) start;
    let mem_length := count - start in
    let m := memcpy m (argbuf_addr current_pblock) (u32 (command + start)) mem_length in
    if ARG_BUFF_SIZE <=? mem_length then Fault
    else Ok (store8 m (argbuf_addr current_pblock + mem_length) 0, mem_length + 1).

(** ** Parsing *)

(** The scan for spaces: [char_space_indices] is the list of the indices
    recorded so far. *)
Definition find_spaces (m : mem) (c_len : Z) : res (list Z) :=
  forM (seqZ 0 c_len) (fun spaces i =>
    if load8 m (cmd + i) =? ASCII_SPACE then
      if Z.of_nat (length spaces) <? MAX_ARGS then Ok (spaces ++ [u8 i]) else Fault
    else Ok spaces) [].

(** Step 1.  [None]: the command is refused.  [Some spaces]: [program_name] is
    in memory. *)
Definition parse_command (command_param : Z) (k : kernel) : res (kernel * option (list Z)) :=
  p ← user_str pd_addr pt_addr (pgs k) (kmem k) command_param;
  cmp ← strncmp (kmem k) p empty_str 2;
  if cmp =? 0 then Ok (k, None)
  else
    c_len ← strlen (kmem k) p;
    if MAX_KB_BUF <? c_len + 1 then Fault
    else
      let m := memcpy (kmem k) cmd p (c_len + 1) in
      let k := with_mem k m in
      spaces ← find_spaces m c_len;
      let num_spaces := Z.of_nat (length spaces) in
      let prog_name_len := match spaces with [] => c_len | i :: _ => i end in
      if prog_name_len =? 0 then Ok (k, None)
      else if 1 <? num_spaces then
        k ← kprintf (bytes "ERROR: Command contains too many spaces and/or too many arguments."
                     ++ [10]) [] k;
        Ok (k, None)
      else if FNAME_LENGTH <? prog_name_len then Fault
      else
        m ← strncpy m prog cmd prog_name_len;
        Ok (with_mem k (store8 m (prog + prog_name_len) 0), Some spaces).

(** Step 2.  [None]: there is no such executable.  [Some inode] otherwise. *)
Definition check_program (k : kernel) : res (kernel * option Z) :=
  '(m, ret_val) ← read_dentry_by_name (fs_info k) (kmem k) prog de;
  let k := with_mem k m in
  if ret_val =? -1 then Ok (k, None)
  else
    let inode := load32 (kmem k) (de + DE_INODE) in
    '(m, ret) ← read_data (fs_info k) (kmem k) inode 0 exe 4;
    let k := with_mem k m in
    if ret =? -1 then Ok (k, None)
    else if (load8 m exe =? 127) && (load8 m (exe + 1) =? 69) && (load8 m (exe + 2) =? 76)
            && (load8 m (exe + 3) =? 70)
    then Ok (k, Some inode)
    else
      k ← kprintf (bytes "ERROR.  %s is not an executable file." ++ [10]) [prog] k;
      Ok (k, None).

(** ** Launching: the body of the do-while loop (steps 3 to 5) *)

(** [b] is the local [pcb] with what the previous turn left in it. *)
Definition launch (inode : Z) (spaces : list Z) (k : kernel) (b : pcb) : res (kernel * pcb) :=
  let n := u32 (process_count (sch k) + 1) in
  g ← map_user pd_addr (ADDR_4MB + n * ADDR_4MB) (pgs k);
  let k := with_pgs (with_sch k (with_count (sch k) n)) g in
  let prog_buf := ADDR_128MB + PROG_IMG_OFFSET in
  let image := xlate pd_addr pt_addr g prog_buf in
  let file_length := load32 (kmem k) (inode_ptr (fs_info k) inode) in
  '(m, ret) ← read_data (fs_info k) (kmem k) inode 0 image file_length;
  _ ← touch pd_addr pt_addr g prog_buf ret;
  '(m, arg_length) ← args_initialize m cmd spaces (Z.of_nat (length spaces)) lpcb;
  parent ← (if NUM_TERMINALS <=? primary_shell_count k then pq_peak (process_q (sch k)) else Ok NULL);
  term ← (if parent =? NULL then Ok (u32 (NUM_TERMINALS - primary_shell_count k - 1))
          else b ← pcb_at (pcb_heap (sch k)) parent; Ok (terminal_num b));
  let entry := u32 (load8 m (image + 24) + Z.shiftl (load8 m (image + 25)) 8
                    + Z.shiftl (load8 m (image + 26)) 16 + Z.shiftl (load8 m (image + 27)) 24) in
  fds ← set_at (fde b) 0 (FdEntry (Fops fops_terminal_functions) NULL 0 USE);
  fds ← set_at fds 1 (FdEntry (Fops fops_terminal_functions) NULL 0 USE);
  let b := Pcb entry k_esp k_ebp (edi b) (esi b) (ebx b) (edx b) (ecx b) (eax b) (cs b)
             (eflags b) (BOTTOM_PAGE - 4) (ss b) n parent term fds arg_length in
  let address_of_pcb := pcb_addr n in
  let m := memcpy m address_of_pcb lpcb SIZEOF_PCB in
  let h := <[address_of_pcb := b]> (pcb_heap (sch k)) in
  '(q, _) ← pq_enqueue_front (process_q (sch k)) address_of_pcb;
  let k := with_mem (with_sch k (Sched q n h)) m in
  let k := if primary_shell_count k <? NUM_TERMINALS
           then with_shells k (primary_shell_count k + 1) else k in
  Ok (k, b).

Definition launch_loop (inode : Z) (spaces : list Z) (k : kernel) (b : pcb) : res (kernel * pcb) :=
  while (fun '(k, b) =>
    match launch inode spaces k b with
    | Ok (k, b) => if primary_shell_count k <? NUM_TERMINALS then inl (k, b) else inr (Ok (k, b))
    | Fault => inr Fault
    | Hang => inr Hang
    end) (k, b).

Definition execute (command_param : Z) (k : kernel) : res (kernel * exec_outcome) :=
  if MAX_PROCESSES <=? process_count (sch k) then
    k ← kprintf (bytes "Command refused.  Attempting to exceed max processes." ++ [10]) [] k;
    Ok (k, Returned (-1))
  else
    '(k, parsed) ← parse_command command_param k;
    match parsed with
    | None => Ok (k, Returned FAIL)
    | Some spaces =>
      '(k, checked) ← check_program k;
      match checked with
      | None => Ok (k, Returned FAIL)
      | Some inode =>
        '(k, b) ← launch_loop inode spaces k pcb0;
        let k := with_esp0 k (u32 (ADDR_8MB - process_count (sch k) * ADDR_8KB - 4)) in
        let k := with_con k (with_tr (con k) (cli (tr (con k)))) in
        Ok (k, Entered (UserEntry (eip b) USER_CS (user_flags k_flags) (user_esp b) USER_DS))
      end
    end.

(** ** halt *)

(** [Leave esp ebp]: the two pointers after the [leave] at the end of [halt]. *)
Inductive halt_outcome : Type :=
| Restarted (o : exec_outcome)
| Leave (esp ebp : Z).

(** The two [pushl] and the [leave]: the words go below the stack pointer, then
    [leave] takes the stack pointer from [ebp] and pops [ebp]. *)
Definition push_and_leave (esp_parent ebp_parent : Z) (m : mem) : mem * halt_outcome :=
  let m := store32 m (u32 (h_esp - 4)) esp_parent in
  let m := store32 m (u32 (h_esp - 8)) ebp_parent in
  (m, Leave (u32 (h_ebp + 4)) (load32 m h_ebp)).

(** The second half: back to the parent of the current process. *)
Definition halt_to_parent (k : kernel) : res (kernel * halt_outcome) :=
  q ← (if 1 <? process_count (sch k)
       then '(q, _) ← pq_dequeue (process_q (sch k)); Ok q else Ok (process_q (sch k)));
  let n := process_count (sch k) in
  curr ← pcb_at (pcb_heap (sch k)) (pcb_addr n);
  parent ← pcb_at (pcb_heap (sch k)) (parent_ptr curr);
  g ← map_user pd_addr (ADDR_4MB + (n - 1) * ADDR_4MB) (pgs k);
  let n := u32 (n - 1) in
  let k := with_pgs (with_sch k (Sched q n (pcb_heap (sch k)))) g in
  let k := with_esp0 k (u32 (ADDR_8MB - n * ADDR_8KB - 4)) in
  let '(m, o) := push_and_leave (esp parent) (ebp parent) (kmem k) in
  Ok (with_mem k m, o).

(** With at most one process a shell is started instead; if that returns, the
    code goes on to the second half. *)
Definition halt (k : kernel) : res (kernel * halt_outcome) :=
  if process_count (sch k) <=? 1 then
    k ← kprintf (bytes "Command refused.  Cannot exit last remaining process." ++ [10]) [] k;
    q ← pq_init (process_q (sch k));
    let k := with_sch k (Sched q 0 (pcb_heap (sch k))) in
    '(k, o) ← execute shell_str k;
    match o with
    | Entered u => Ok (k, Restarted (Entered u))
    | Returned _ => halt_to_parent k
    end
  else halt_to_parent k.
End Process.
