(* ===== verification/Launch.v ===== *)
(** * syscalls.c: starting and ending processes

    What one turn of the loop of [execute] builds (the address space, the
    program image, the argument, the PCB, the queue), what the whole call
    enters, and how [halt] gives the machine back to the parent. *)

From S2P Require Import Prelude Mem Lib Screen Ports I8259 Rtc Paging.
From S2P Require Import Pcb Sched Filesys Console Keyboard Irq Terminal Kstate.
From S2P Require Import Syscalls Files Process.

(** The argument of a command: what follows its only space. *)
Definition arg_of (l : list Z) (spaces : list Z) : list Z :=
  match spaces with [] => [] | i :: _ => drop (S (Z.to_nat i)) l end.

(** At most one space was found, inside the command. *)
Definition spaces_ok (l spaces : list Z) : Prop :=
  spaces = [] \/ exists i, spaces = [i] /\ 0 <= i < Z.of_nat (length l).

(** [args_initialize] stores the argument as a string, with its length counted
    with the terminator. *)
Lemma args_spec m cmd l spaces p :
  is_cstr m cmd l -> spaces_ok l spaces -> Z.of_nat (length (arg_of l spaces)) < ARG_BUFF_SIZE ->
  in_space cmd (Z.of_nat (length l) + 1) -> in_space (argbuf_addr p) ARG_BUFF_SIZE ->
  apart (argbuf_addr p) ARG_BUFF_SIZE cmd (Z.of_nat (length l) + 1) ->
  exists m', args_initialize m cmd spaces (Z.of_nat (length spaces)) p =
      Ok (m', Z.of_nat (length (arg_of l spaces)) + 1) /\
    is_cstr m' (argbuf_addr p) (arg_of l spaces) /\
    same_outside (argbuf_addr p) (argbuf_addr p + ARG_BUFF_SIZE) m m'.
Proof.
  intros Hl Hs Harg Hc Hp Ha. unfold in_space, apart, ARG_BUFF_SIZE in *.
  destruct Hs as [-> |(i & -> & Hi)]; unfold args_initialize; cbn [length Z.of_nat].
  - eexists. split; [reflexivity|]. split.
    + split; cbn [arg_of length]; [intros i Hi; lia|]. rewrite Z.add_0_r.
      by rewrite load8_store8_addr, Z.eqb_refl by (unfold addr; lia).
    + apply same_outside_store8; [unfold addr|]; lia.
  - cbn [arg_of] in *. rewrite length_drop in Harg. change (Z.of_nat 1 =? 0) with false.
    change (get_at [i] 0) with (Ok i). rewrite bind_ok. cbv iota zeta.
    set (e := Z.of_nat (length l)) in *.
    assert (E : while (fun count => if load8 m (cmd + count) =? 0 then inr (Ok count)
                                    else inl (count + 1)) (i + 1) = Ok e).
    { apply (while_rule _ (fun c => i + 1 <= c <= e) (fun c => e - c)); [lia|lia|].
      intros c Hcr. destruct (Z.eqb_spec (load8 m (cmd + c)) 0) as [E0|E0].
      - f_equal. destruct (Z.eq_dec c e) as [|Hne]; [done|].
        exfalso. exact (is_cstr_nz _ _ _ c Hl ltac:(subst e; lia) E0).
      - assert (c <> e) by (intros ->; apply E0, (is_cstr_end _ _ _ Hl)). lia. }
    rewrite E, bind_ok. rewrite u32_small by lia. unfold ARG_BUFF_SIZE.
    destruct (Z.leb_spec 128 (e - (i + 1))); [subst e; lia|].
    assert (W := memcpy_writes m (argbuf_addr p) (cmd + (i + 1)) (e - (i + 1))).
    unfold in_space, fwd_ok in W. do 4 (specialize (W ltac:(lia))).
    eexists. rewrite length_drop. split; [f_equal; f_equal; subst e; lia|].
    assert (Hd := is_cstr_drop _ _ _ (S (Z.to_nat i)) Hl ltac:(lia)).
    replace (Z.of_nat (S (Z.to_nat i))) with (i + 1) in Hd by lia. split.
    + split; rewrite length_drop.
      * intros j Hj. rewrite load8_store8_ne by (unfold addr; subst e; lia).
        rewrite (writes_in _ _ _ _ _ j W) by (subst e; lia).
        apply Hd. by rewrite length_drop.
      * replace (argbuf_addr p + Z.of_nat (length l - S (Z.to_nat i)))
          with (argbuf_addr p + (e - (i + 1))) by (subst e; lia).
        by rewrite load8_store8_addr, Z.eqb_refl by (unfold addr; lia).
    + intros a Haa Hout. rewrite load8_store8_ne by (unfold addr in *; lia).
      apply (writes_out _ _ _ _ _ _ W); [done|lia].
Qed.

Lemma map_user_raw pd_addr pt_addr n g :
  kernel_map pd_addr pt_addr g -> 0 <= n < 1023 ->
  exists g', map_user pd_addr (ADDR_4MB + n * ADDR_4MB) g = Ok g' /\ kernel_map pd_addr pt_addr g' /\
    user_window pd_addr pt_addr n g'.
Proof.
  intros K Hn. destruct (map_user_ok pd_addr pt_addr n g K Hn) as (g' & E & K' & W).
  exists g'. split_and!; [|done|done]. rewrite <- E. unfold user_base, map_user, init_4mb_user_pde.
  by rewrite u32_u32.
Qed.

(** ** One turn of the launch loop *)

(** The kernel stacks and PCBs of processes 1 to 6 lie in the top 48 KB of the
    kernel's page; a local is there, apart from the PCBs. *)
Definition stacks : Z := 8339456.
Definition on_stack (a n : Z) : Prop :=
  stacks <= a /\ 0 <= n /\ a + n <= ADDR_8MB /\
  forall j, 1 <= j <= 6 -> apart (pcb_addr j) SIZEOF_PCB a n.

(** A program file: it holds its entry point, fits its page, and lies below
    the kernel stacks. *)
Record program (fs : boot_block) (m : mem) (inode flen : Z) : Prop := Program {
  pr_file : file_ok fs m (inode_ptr fs inode) flen;
  pr_size : 28 <= flen /\ PROG_IMG_OFFSET + flen <= 4194304;
  pr_ino : inode_ptr fs inode + KB4 <= stacks;
  pr_blocks : forall j, 0 <= j -> j * KB4 < flen ->
    block_addr fs m (inode_ptr fs inode) j + KB4 <= stacks }.

Definition program_byte (fs : boot_block) (m : mem) (inode i : Z) : Z :=
  file_byte fs m (inode_ptr fs inode) i.

(** A change of memory above [stacks] does not touch a program. *)
Lemma program_same fs m m' inode flen :
  program fs m inode flen -> same_outside stacks 4294967296 m m' ->
  program fs m' inode flen /\
  forall i, 0 <= i < flen -> program_byte fs m' inode i = program_byte fs m inode i.
Proof.
  intros [Hf Hs Hi Hb] Hsame. unfold apart in *.
  assert (Hsame' : same_outside stacks (stacks + (4294967296 - stacks)) m m')
    by (by replace (stacks + (4294967296 - stacks)) with 4294967296 by lia).
  assert (Ha : apart stacks (4294967296 - stacks) (inode_ptr fs inode) KB4) by (right; done).
  assert (Hab : forall k, 0 <= k -> k * KB4 < flen ->
    apart stacks (4294967296 - stacks) (block_addr fs m (inode_ptr fs inode) k) KB4)
    by (intros k Hk Hlt; right; by apply Hb).
  split; [split|].
  - by apply (transfer_file fs m m' _ flen stacks (4294967296 - stacks)).
  - done.
  - done.
  - intros j Hj Hlt.
    rewrite (transfer_block fs m m' _ flen stacks (4294967296 - stacks) Hf Hsame' Ha) by done.
    by apply Hb.
  - intros i Hir. by apply (transfer_byte fs m m' _ flen stacks (4294967296 - stacks) Hf Hsame' Ha Hab).
Qed.

(** The entry point of a program: bytes 24 to 27, least significant first. *)
Definition entry_point (fs : boot_block) (m : mem) (inode : Z) : Z :=
  program_byte fs m inode 24 + 256 * program_byte fs m inode 25
  + 65536 * program_byte fs m inode 26 + 16777216 * program_byte fs m inode 27.

Lemma entry_bytes a b c d :
  0 <= a < 256 -> 0 <= b < 256 -> 0 <= c < 256 -> 0 <= d < 256 ->
  u32 (a + Z.shiftl b 8 + Z.shiftl c 16 + Z.shiftl d 24)
  = a + 256 * b + 65536 * c + 16777216 * d.
Proof.
  intros. rewrite !Z.shiftl_mul_pow2 by lia.
  change (2 ^ 8) with 256. change (2 ^ 16) with 65536. change (2 ^ 24) with 16777216.
  rewrite u32_small; lia.
Qed.

(** The entry point is read from the image, which stack memory does not hold. *)
Lemma entry_point_same fs m m' inode flen :
  program fs m inode flen -> same_outside stacks 4294967296 m m' ->
  entry_point fs m' inode = entry_point fs m inode.
Proof.
  intros Hp Hs. destruct (program_same _ _ _ _ _ Hp Hs) as [_ H].
  pose proof (pr_size _ _ _ _ Hp) as [? _]. unfold entry_point. by rewrite !H by lia.
Qed.

Section Launch.
Context (pd_addr pt_addr cmd lpcb k_esp k_ebp : Z).
Context (l spaces : list Z) (inode flen : Z).

(** What a turn starts from: [lq] is the queue. *)
Record ready (k : kernel) (lq : list Z) : Prop := Ready {
  rd_map : kernel_map pd_addr pt_addr (pgs k);
  rd_count : 0 <= process_count (sch k) < 6;
  rd_queue : deque (process_q (sch k)) lq /\ Z.of_nat (length lq) < 6;
  rd_prog : program (fs_info k) (kmem k) inode flen;
  rd_cmd : is_cstr (kmem k) cmd l /\ on_stack cmd (Z.of_nat (length l) + 1);
  rd_args : spaces_ok l spaces /\ Z.of_nat (length (arg_of l spaces)) < ARG_BUFF_SIZE;
  rd_pcb : on_stack lpcb SIZEOF_PCB /\ apart lpcb SIZEOF_PCB cmd (Z.of_nat (length l) + 1);
  rd_shells : 0 <= primary_shell_count k;
  rd_parent : primary_shell_count k < 3 \/
    exists p lq' b, lq = p :: lq' /\ p <> NULL /\ pcb_heap (sch k) !! p = Some b }.

(** The parent and the terminal of the new process: a primary shell has no
    parent and takes the terminals from 2 down; any other process is the child
    of the process at the front of the queue, on its terminal. *)
Definition lineage (k : kernel) (lq : list Z) : Z * Z :=
  if primary_shell_count k <? 3 then (NULL, 2 - primary_shell_count k)
  else match lq with
       | p :: _ => (p, from_option terminal_num 0 (pcb_heap (sch k) !! p))
       | [] => (NULL, 0)
       end.

Definition new_pcb (k : kernel) (lq : list Z) (b : pcb) : pcb :=
  let term := FdEntry (Fops fops_terminal_functions) NULL 0 USE in
  Pcb (entry_point (fs_info k) (kmem k) inode) k_esp k_ebp (edi b) (esi b) (ebx b) (edx b) (ecx b)
    (eax b) (cs b) (eflags b) 138412028 (ss b) (process_count (sch k) + 1)
    (lineage k lq).1 (lineage k lq).2 (<[1%nat := term]> (<[0%nat := term]> (fde b)))
    (Z.of_nat (length (arg_of l spaces)) + 1).

(** The address of the image of process [n]. *)
Definition image_addr (n : Z) : Z := user_base n + PROG_IMG_OFFSET.

Record launched (k k' : kernel) (lq : list Z) (b : pcb) : Prop := Launched {
  la_count : process_count (sch k') = process_count (sch k) + 1;
  la_window : user_window pd_addr pt_addr (process_count (sch k) + 1) (pgs k');
  la_map : kernel_map pd_addr pt_addr (pgs k');
  la_heap : pcb_heap (sch k') = <[pcb_addr (process_count (sch k) + 1) := b]> (pcb_heap (sch k));
  la_queue : deque (process_q (sch k')) (pcb_addr (process_count (sch k) + 1) :: lq);
  la_image : forall i, 0 <= i < flen ->
    load8 (kmem k') (image_addr (process_count (sch k) + 1) + i) =
    program_byte (fs_info k) (kmem k) inode i;
  la_arg : is_cstr (kmem k') (argbuf_addr (pcb_addr (process_count (sch k) + 1)))
             (arg_of l spaces);
  la_shells : primary_shell_count k' = if primary_shell_count k <? 3 then primary_shell_count k + 1
                                    else primary_shell_count k;
  la_fs : fs_info k' = fs_info k /\ fops k' = fops k /\ esp0 k' = esp0 k;
  la_con : con k' = con (with_mem k (kmem k'));
  la_mem : forall a, addr a -> ~ (lpcb <= a < lpcb + SIZEOF_PCB) ->
    ~ (pcb_addr (process_count (sch k) + 1) <= a
       < pcb_addr (process_count (sch k) + 1) + SIZEOF_PCB) ->
    ~ (image_addr (process_count (sch k) + 1) <= a
       < image_addr (process_count (sch k) + 1) + flen) ->
    load8 (kmem k') a = load8 (kmem k) a }.
Lemma argbuf_eq a : on_stack a SIZEOF_PCB -> argbuf_addr a = a + 452.
Proof.
  intros (H1 & _ & H3 & _). unfold argbuf_addr, stacks, SIZEOF_PCB, ADDR_8MB in *.
  apply u32_small. lia.
Qed.

(** The three changes of memory of a turn: the image, the argument in the
    local [pcb], the copy of the local to the new PCB. *)
Lemma launch_memory fs m n :
  program fs m inode flen -> 1 <= n <= 6 ->
  is_cstr m cmd l -> on_stack cmd (Z.of_nat (length l) + 1) ->
  spaces_ok l spaces -> Z.of_nat (length (arg_of l spaces)) < ARG_BUFF_SIZE ->
  on_stack lpcb SIZEOF_PCB -> apart lpcb SIZEOF_PCB cmd (Z.of_nat (length l) + 1) ->
  exists m1 m2, read_data fs m inode 0 (image_addr n) flen = Ok (m1, flen) /\
    args_initialize m1 cmd spaces (Z.of_nat (length spaces)) lpcb =
      Ok (m2, Z.of_nat (length (arg_of l spaces)) + 1) /\
    let m3 := memcpy m2 (pcb_addr n) lpcb SIZEOF_PCB in
    (forall i, 0 <= i < flen -> load8 m2 (image_addr n + i) = program_byte fs m inode i /\
                                load8 m3 (image_addr n + i) = program_byte fs m inode i) /\
    is_cstr m3 (argbuf_addr (pcb_addr n)) (arg_of l spaces) /\
    (forall a, addr a -> ~ (lpcb <= a < lpcb + SIZEOF_PCB) ->
       ~ (pcb_addr n <= a < pcb_addr n + SIZEOF_PCB) ->
       ~ (image_addr n <= a < image_addr n + flen) -> load8 m3 a = load8 m a).
Proof.
  intros [Hf [Hs1 Hs2] Hi Hb] Hn Hl Hcmd Hsp Harg Hp Hap.
  pose proof (argbuf_eq lpcb Hp) as Eb.
  destruct Hcmd as (C1 & C2 & C3 & C4), Hp as (P1 & P2 & P3 & P4).
  specialize (C4 n Hn). specialize (P4 n Hn).
  assert (En : pcb_addr n = 8388608 - n * 8192) by (apply pcb_addr_eq; lia).
  assert (Ei : image_addr n = 4489216 + n * 4194304).
  { unfold image_addr, PROG_IMG_OFFSET. rewrite user_base_eq by done. lia. }
  rewrite En in *. rewrite Ei in *.
  unfold stacks, SIZEOF_PCB, ADDR_8MB, PROG_IMG_OFFSET, apart, ARG_BUFF_SIZE in *.
  assert (Hd : dest_ok fs m (inode_ptr fs inode) flen (4489216 + n * 4194304) (Z.min flen (flen - 0))).
  { unfold dest_ok, in_space, apart. split; [lia|]. split; [lia|].
    intros j Hj Hlt. specialize (Hb j Hj Hlt). lia. }
  destruct (read_data_spec fs m inode 0 _ flen flen Hf ltac:(lia) ltac:(lia) ltac:(lia) Hd)
    as (m1 & E1 & W1).
  replace (Z.min flen (flen - 0)) with flen in * by lia.
  assert (Hl1 : is_cstr m1 cmd l).
  { eapply is_cstr_ext; [|exact Hl]. intros i Hir. apply (writes_out _ _ _ _ _ _ W1); [unfold addr|]; lia. }
  destruct (args_spec m1 cmd l spaces lpcb Hl1 Hsp) as (m2 & E2 & A2 & S2);
    rewrite ?Eb; unfold in_space, ARG_BUFF_SIZE, apart; try lia.
  rewrite Eb in A2, S2. unfold ARG_BUFF_SIZE in *. exists m1, m2. split; [exact E1|].
  split; [exact E2|]. cbv zeta.
  assert (W3 := memcpy_writes m2 (8388608 - n * 8192) lpcb 580).
  unfold in_space, fwd_ok in W3. do 4 (specialize (W3 ltac:(lia))).
  set (m3 := memcpy m2 (8388608 - n * 8192) lpcb 580) in *.
  assert (Eb3 : argbuf_addr (8388608 - n * 8192) = 8388608 - n * 8192 + 452).
  { unfold argbuf_addr. apply u32_small. lia. }
  rewrite Eb3.
  assert (Himg : forall i, 0 <= i < flen ->
    load8 m2 (4489216 + n * 4194304 + i) = program_byte fs m inode i).
  { intros i Hir. rewrite S2 by (unfold addr; lia). unfold program_byte.
    rewrite (writes_in _ _ _ _ _ i W1) by lia. f_equal. }
  split; [|split].
  - intros i Hir. split; [by apply Himg|]. rewrite <- (Himg i Hir).
    apply (writes_out _ _ _ _ _ _ W3); [unfold addr|]; lia.
  - eapply is_cstr_move; [|exact A2]. intros i Hir.
    replace (8388608 - n * 8192 + 452 + i) with (8388608 - n * 8192 + (452 + i)) by lia.
    rewrite (writes_in _ _ _ _ _ _ W3) by lia. f_equal. lia.
  - intros a Ha O1 O2 O3. rewrite (writes_out _ _ _ _ _ _ W3) by (done || lia).
    rewrite S2 by (done || lia). apply (writes_out _ _ _ _ _ _ W1); [done|lia].
Qed.
Lemma lineage_ok k lq :
  ready k lq ->
  exists parent,
    (if NUM_TERMINALS <=? primary_shell_count k then pq_peak (process_q (sch k)) else Ok NULL)
      = Ok parent /\ parent = (lineage k lq).1 /\
    (if parent =? NULL then Ok (u32 (NUM_TERMINALS - primary_shell_count k - 1))
     else b ← pcb_at (pcb_heap (sch k)) parent; Ok (terminal_num b)) = Ok (lineage k lq).2.
Proof.
  intros [_ _ [Hq _] _ _ _ _ Hs Hp]. unfold lineage, NUM_TERMINALS.
  destruct (Z.leb_spec 3 (primary_shell_count k)), (Z.ltb_spec (primary_shell_count k) 3); try lia.
  - destruct Hp as [?|(p & lq' & b & -> & Hp & Hb)]; [lia|]. exists p.
    rewrite (deque_peak _ _ _ Hq). split; [done|]. split; [done|].
    destruct (Z.eqb_spec p NULL); [done|]. unfold pcb_at. by rewrite Hb.
  - exists NULL. split; [done|]. split; [done|]. cbn. f_equal. rewrite u32_small; lia.
Qed.

Lemma launch_spec k lq b :
  ready k lq -> (2 <= length (fde b))%nat ->
  exists k', launch pd_addr pt_addr cmd lpcb k_esp k_ebp inode spaces k b =
      Ok (k', new_pcb k lq b) /\ launched k k' lq (new_pcb k lq b).
Proof.
  intros R Hfde. destruct (lineage_ok k lq R) as (parent & L1 & L2 & L3).
  destruct R as [K [C0 C6] [Q Ql] Pr [Hl Hcmd] [Hsp Harg] [Hpcb Hap] Hsh _].
  set (n := process_count (sch k) + 1) in *.
  unfold launch. rewrite u32_small by lia. fold n.
  destruct (map_user_raw pd_addr pt_addr n (pgs k) K ltac:(lia)) as (g & Eg & Kg & W).
  rewrite Eg, bind_ok.
  destruct (touch_user pd_addr pt_addr g n (ADDR_128MB + PROG_IMG_OFFSET) flen W) as [T X];
    [unfold ADDR_128MB, PROG_IMG_OFFSET; lia| |].
  { destruct Pr as [_ [_ S2] _ _]. unfold ADDR_128MB, PROG_IMG_OFFSET in *. lia. }
  assert (Xi : xlate pd_addr pt_addr g (ADDR_128MB + PROG_IMG_OFFSET) = image_addr n).
  { rewrite X by (unfold ADDR_128MB, PROG_IMG_OFFSET; lia). unfold image_addr, ADDR_128MB. lia. }
  destruct (launch_memory (fs_info k) (kmem k) n Pr ltac:(lia) Hl Hcmd Hsp Harg Hpcb Hap)
    as (m1 & m2 & E1 & E2 & Himg & Ha & Hframe).
  cbv zeta in Himg, Ha, Hframe.
  change (fs_info (with_pgs ?x g)) with (fs_info k).
  change (kmem (with_pgs ?x g)) with (kmem k). rewrite Xi.
  pose proof (fo_len _ _ _ _ (pr_file _ _ _ _ Pr)) as [Hfl _].
  cbv zeta. rewrite <- Hfl, E1, bind_ok, T, bind_ok, E2, bind_ok.
  cbn [with_pgs with_sch with_count sch process_q process_count pcb_heap primary_shell_count].
  rewrite L1, bind_ok, L3, bind_ok.
  rewrite !set_at_ok, !bind_ok by (rewrite ?length_insert; lia).
  rewrite set_at_ok, bind_ok by (rewrite length_insert; lia).
  destruct (deque_enqueue_front _ (pcb_addr n) _ Q Ql) as (q & Eq & Dq). rewrite Eq, bind_ok.
  pose proof (pr_size _ _ _ _ Pr) as [F28 _].
  destruct (Himg 24 ltac:(lia)) as [I24 _], (Himg 25 ltac:(lia)) as [I25 _],
    (Himg 26 ltac:(lia)) as [I26 _], (Himg 27 ltac:(lia)) as [I27 _].
  rewrite entry_bytes by apply load8_range. rewrite I24, I25, I26, I27.
  subst parent. unfold NUM_TERMINALS.
  destruct (primary_shell_count k <? 3) eqn:Esh; (eexists; split; [reflexivity|]; split;
    cbn [with_shells with_mem with_con with_sch with_pgs sch pgs con fs_info fops esp0
      process_count process_q pcb_heap primary_shell_count kmem with_scr scr set_vram vram];
    rewrite ?Esh; try done; by intros i Hi; apply Himg).
Qed.
(** A turn keeps the kernel ready for the next one. *)
Lemma launched_same k k' lq b :
  ready k lq -> launched k k' lq b ->
  same_outside stacks 4294967296 (kmem k) (kmem k') /\ is_cstr (kmem k') cmd l.
Proof.
  intros [_ C _ Pr [Hl (C1 & C2 & C3 & C4)] _ [(P1 & P2 & P3 & P4) Hap] _ _] L.
  pose proof (la_mem _ _ _ _ L) as Hm. set (n := process_count (sch k) + 1) in *.
  specialize (C4 n ltac:(lia)). pose proof (pr_size _ _ _ _ Pr) as [_ S2].
  assert (En : pcb_addr n = 8388608 - n * 8192) by (apply pcb_addr_eq; lia).
  assert (Ei : image_addr n = 4489216 + n * 4194304).
  { unfold image_addr, PROG_IMG_OFFSET. rewrite user_base_eq by lia. lia. }
  rewrite En, Ei in *. unfold apart, stacks, SIZEOF_PCB, ADDR_8MB, PROG_IMG_OFFSET in *. split.
  - intros a Ha Ho. unfold addr in Ha. apply Hm; unfold addr; lia.
  - eapply is_cstr_ext; [|exact Hl]. intros i Hi. apply Hm; unfold addr; lia.
Qed.

Lemma launched_ready k k' lq b :
  ready k lq -> launched k k' lq b -> process_count (sch k) + 1 < 6 ->
  Z.of_nat (length lq) + 1 < 6 -> ready k' (pcb_addr (process_count (sch k) + 1) :: lq).
Proof.
  intros R L Hc Hq. destruct (launched_same _ _ _ _ R L) as [Hs Hl].
  destruct R as [_ C _ Pr [_ Hcmd] Ha Hp Hsh _]. destruct L as [L1 _ L3 L4 L5 _ _ L8 L9 _ _].
  destruct L9 as (Hfs & _). split; try done.
  - rewrite L1. lia.
  - cbn [length]. split; [exact L5|lia].
  - rewrite Hfs. by eapply program_same.
  - rewrite L8. case_match; lia.
  - right. eexists _, lq, b. split; [reflexivity|]. rewrite L4. split; [|by rewrite lookup_insert_eq].
    rewrite pcb_addr_eq by lia. unfold NULL. lia.
Qed.

(** One turn of the loop, as [while] sees it. *)
Definition launch_turn (s : kernel * pcb) : kernel * pcb + res (kernel * pcb) :=
  let '(k, b) := s in
  match launch pd_addr pt_addr cmd lpcb k_esp k_ebp inode spaces k b with
  | Ok (k, b) => if primary_shell_count k <? NUM_TERMINALS then inl (k, b) else inr (Ok (k, b))
  | Fault => inr Fault
  | Hang => inr Hang
  end.

Lemma launch_turn_spec k lq b :
  ready k lq -> (2 <= length (fde b))%nat ->
  exists k', launched k k' lq (new_pcb k lq b) /\
    launch_turn (k, b) =
      if primary_shell_count k <? 2 then inl (k', new_pcb k lq b)
      else inr (Ok (k', new_pcb k lq b)).
Proof.
  intros R Hf. destruct (launch_spec k lq b R Hf) as (k' & E & L). exists k'. split; [exact L|].
  unfold launch_turn. rewrite E, (la_shells _ _ _ _ L). unfold NUM_TERMINALS.
  destruct (Z.ltb_spec (primary_shell_count k) 3), (Z.ltb_spec (primary_shell_count k) 2); try lia.
  - destruct (Z.ltb_spec (primary_shell_count k + 1) 3); [done|lia].
  - destruct (Z.ltb_spec (primary_shell_count k + 1) 3); [lia|done].
  - destruct (Z.ltb_spec (primary_shell_count k) 3); [lia|done].
Qed.

Lemma launch_loop_eq k b :
  launch_loop pd_addr pt_addr cmd lpcb k_esp k_ebp inode spaces k b = while launch_turn (k, b).
Proof. reflexivity. Qed.

(** One process once the shells run. *)
Lemma launch_loop_one k lq b :
  ready k lq -> 2 <= primary_shell_count k -> (2 <= length (fde b))%nat ->
  exists k', launch_loop pd_addr pt_addr cmd lpcb k_esp k_ebp inode spaces k b =
      Ok (k', new_pcb k lq b) /\ launched k k' lq (new_pcb k lq b).
Proof.
  intros R Hs Hf. destruct (launch_turn_spec k lq b R Hf) as (k' & L & E). exists k'.
  split; [|exact L]. rewrite launch_loop_eq.
  apply (while_rule launch_turn (fun s => s = (k, b)) (fun _ => 0)); [done|lia|].
  intros s ->. rewrite E. by destruct (Z.ltb_spec (primary_shell_count k) 2); [lia|].
Qed.

Lemma new_pcb_fde k lq b : (2 <= length (fde b))%nat -> (2 <= length (fde (new_pcb k lq b)))%nat.
Proof. intros. cbn [new_pcb fde]. by rewrite !length_insert. Qed.

(** The three shells of the first [execute]. *)
Lemma launch_loop_boot k b :
  ready k [] -> primary_shell_count k = 0 -> process_count (sch k) = 0 ->
  (2 <= length (fde b))%nat ->
  let q1 := [pcb_addr 1] in
  let q2 := [pcb_addr 2; pcb_addr 1] in
  let b1 := new_pcb k [] b in
  exists k1 k2 k3,
    let b2 := new_pcb k1 q1 b1 in
    let b3 := new_pcb k2 q2 b2 in
    launched k k1 [] b1 /\ launched k1 k2 q1 b2 /\ launched k2 k3 q2 b3 /\
    launch_loop pd_addr pt_addr cmd lpcb k_esp k_ebp inode spaces k b = Ok (k3, b3).
Proof.
  intros R Hs Hc Hf q1 q2 b1.
  destruct (launch_turn_spec k [] b R Hf) as (k1 & L1 & E1). fold b1 in L1, E1.
  pose proof (launched_ready _ _ _ _ R L1 ltac:(lia) ltac:(cbn; lia)) as R1.
  pose proof (la_count _ _ _ _ L1) as C1. pose proof (la_shells _ _ _ _ L1) as S1.
  rewrite Hs in E1, S1. rewrite Hc in C1, R1.
  change (primary_shell_count k1 = 1) in S1. change (process_count (sch k1) = 1) in C1.
  change (launch_turn (k, b) = inl (k1, b1)) in E1. change (0 + 1) with 1 in R1.
  assert (F1 := new_pcb_fde k [] b Hf). fold b1 in F1. fold q1 in R1.
  destruct (launch_turn_spec k1 q1 b1 R1 F1) as (k2 & L2 & E2). set (b2 := new_pcb k1 q1 b1) in *.
  pose proof (launched_ready _ _ _ _ R1 L2 ltac:(lia) ltac:(cbn; lia)) as R2.
  pose proof (la_count _ _ _ _ L2) as C2. pose proof (la_shells _ _ _ _ L2) as S2.
  rewrite S1 in E2, S2. rewrite C1 in C2, R2.
  change (primary_shell_count k2 = 2) in S2. change (launch_turn (k1, b1) = inl (k2, b2)) in E2.
  change (1 + 1) with 2 in R2. fold q2 in R2.
  assert (F2 := new_pcb_fde k1 q1 b1 F1). fold b2 in F2.
  destruct (launch_turn_spec k2 q2 b2 R2 F2) as (k3 & L3 & E3). rewrite S2 in E3.
  change (launch_turn (k2, b2) = inr (Ok (k3, new_pcb k2 q2 b2))) in E3.
  exists k1, k2, k3. cbv zeta. split_and!; [done|done|done|]. rewrite launch_loop_eq.
  apply (while_rule launch_turn (fun s => s = (k, b) \/ s = (k1, b1) \/ s = (k2, b2))
    (fun s => 3 - primary_shell_count s.1)); [by left|cbn; lia|].
  intros s [-> |[-> | ->]]; rewrite ?E1, ?E2, ?E3; cbn [fst]; rewrite ?Hs, ?S1, ?S2.
  - split; [auto|lia].
  - split; [auto|lia].
  - reflexivity.
Qed.
(** A turn leaves the pages of the other processes alone. *)
Lemma launched_image k k' lq b j i :
  ready k lq -> launched k k' lq b -> 1 <= j <= 6 -> j <> process_count (sch k) + 1 ->
  0 <= i < flen -> load8 (kmem k') (image_addr j + i) = load8 (kmem k) (image_addr j + i).
Proof.
  intros [_ C _ Pr _ _ [(P1 & _ & P3 & _) _] _ _] L Hj Hne Hi.
  pose proof (la_mem _ _ _ _ L) as Hm. set (n := process_count (sch k) + 1) in *.
  pose proof (pr_size _ _ _ _ Pr) as [_ S2].
  assert (En : pcb_addr n = 8388608 - n * 8192) by (apply pcb_addr_eq; lia).
  assert (Ei : forall x, 1 <= x <= 6 -> image_addr x = 4489216 + x * 4194304).
  { intros x Hx. unfold image_addr, PROG_IMG_OFFSET. rewrite user_base_eq by lia. lia. }
  rewrite (Ei n) in Hm by lia. rewrite (Ei j) by lia. rewrite En in Hm.
  unfold stacks, SIZEOF_PCB, ADDR_8MB, PROG_IMG_OFFSET in *. apply Hm; unfold addr; lia.
Qed.
(** What one primary shell is. *)
Definition shell_pcb (k : kernel) (b : pcb) (n : Z) : Prop :=
  pid b = n /\ parent_ptr b = NULL /\ terminal_num b = 3 - n /\
  eip b = entry_point (fs_info k) (kmem k) inode.

Lemma new_shell k lq b :
  primary_shell_count k < 3 -> process_count (sch k) = primary_shell_count k ->
  shell_pcb k (new_pcb k lq b) (process_count (sch k) + 1).
Proof.
  intros Hs Hc. unfold shell_pcb, new_pcb, lineage.
  destruct (Z.ltb_spec (primary_shell_count k) 3); [|lia]. cbn. split_and!; done || lia.
Qed.

Lemma shell_pcb_same k k' lq b b' n :
  ready k lq -> launched k k' lq b -> shell_pcb k' b' n -> shell_pcb k b' n.
Proof.
  intros R L (H1 & H2 & H3 & H4). unfold shell_pcb. split_and!; try done. rewrite H4.
  destruct (la_fs _ _ _ _ L) as (-> & _).
  apply (entry_point_same _ _ _ _ flen (rd_prog _ _ R)), (launched_same _ _ _ _ R L).
Qed.

Lemma image_same k k' lq b i :
  ready k lq -> launched k k' lq b -> 0 <= i < flen ->
  program_byte (fs_info k') (kmem k') inode i = program_byte (fs_info k) (kmem k) inode i.
Proof.
  intros R L Hi. destruct (la_fs _ _ _ _ L) as (-> & _).
  by apply (program_same _ _ _ _ _ (rd_prog _ _ R) (proj1 (launched_same _ _ _ _ R L))).
Qed.

(** Turns keep the console but for its memory, the file system and the driver
    tables. *)
Definition only_memory (k k' : kernel) : Prop :=
  fs_info k' = fs_info k /\ fops k' = fops k /\ con k' = con (with_mem k (kmem k')).

Lemma launched_only_memory k k' lq b : launched k k' lq b -> only_memory k k'.
Proof.
  intros L. destruct (la_fs _ _ _ _ L) as (H1 & H2 & _). split; [done|]. split; [done|].
  exact (la_con _ _ _ _ L).
Qed.

Lemma only_memory_trans k1 k2 k3 : only_memory k1 k2 -> only_memory k2 k3 -> only_memory k1 k3.
Proof.
  intros (F1 & O1 & C1) (F2 & O2 & C2). split; [congruence|]. split; [congruence|].
  rewrite C2. unfold with_mem, with_con. cbn [con]. by rewrite C1.
Qed.

(** The kernel after the three turns of the boot. *)
Lemma boot_chain k k1 k2 k3 b :
  ready k [] -> primary_shell_count k = 0 -> process_count (sch k) = 0 ->
  let b1 := new_pcb k [] b in
  let b2 := new_pcb k1 [pcb_addr 1] b1 in
  let b3 := new_pcb k2 [pcb_addr 2; pcb_addr 1] b2 in
  launched k k1 [] b1 -> launched k1 k2 [pcb_addr 1] b2 ->
  launched k2 k3 [pcb_addr 2; pcb_addr 1] b3 ->
  shell_pcb k b1 1 /\ shell_pcb k b2 2 /\ shell_pcb k b3 3 /\
  process_count (sch k3) = 3 /\ primary_shell_count k3 = 3 /\
  user_window pd_addr pt_addr 3 (pgs k3) /\
  deque (process_q (sch k3)) [pcb_addr 3; pcb_addr 2; pcb_addr 1] /\
  pcb_heap (sch k3) = <[pcb_addr 3 := b3]> (<[pcb_addr 2 := b2]> (<[pcb_addr 1 := b1]>
    (pcb_heap (sch k)))) /\
  (forall n i, 1 <= n <= 3 -> 0 <= i < flen ->
     load8 (kmem k3) (image_addr n + i) = program_byte (fs_info k) (kmem k) inode i).
Proof.
  intros R Hs Hc b1 b2 b3 L1 L2 L3.
  pose proof (launched_ready _ _ _ _ R L1 ltac:(lia) ltac:(cbn; lia)) as R1.
  pose proof (la_count _ _ _ _ L1) as C1. pose proof (la_shells _ _ _ _ L1) as S1.
  rewrite Hs in S1. rewrite Hc in C1, R1. change (process_count (sch k1) = 1) in C1.
  change (primary_shell_count k1 = 1) in S1.
  pose proof (launched_ready _ _ _ _ R1 L2 ltac:(lia) ltac:(cbn; lia)) as R2.
  pose proof (la_count _ _ _ _ L2) as C2. pose proof (la_shells _ _ _ _ L2) as S2.
  rewrite S1 in S2. rewrite C1 in C2, R2. change (process_count (sch k2) = 2) in C2.
  change (primary_shell_count k2 = 2) in S2.
  pose proof (new_shell k [] b ltac:(lia) ltac:(lia)) as N1.
  pose proof (new_shell k1 [pcb_addr 1] b1 ltac:(lia) ltac:(lia)) as N2.
  pose proof (new_shell k2 [pcb_addr 2; pcb_addr 1] b2 ltac:(lia) ltac:(lia)) as N3.
  rewrite Hc in N1. rewrite C1 in N2. rewrite C2 in N3.
  apply (shell_pcb_same _ _ _ _ _ _ R1 L2), (shell_pcb_same _ _ _ _ _ _ R L1) in N3.
  apply (shell_pcb_same _ _ _ _ _ _ R L1) in N2.
  pose proof (la_heap _ _ _ _ L3) as H3. rewrite (la_heap _ _ _ _ L2), (la_heap _ _ _ _ L1) in H3.
  rewrite Hc, C1, C2 in H3. pose proof (la_window _ _ _ _ L3) as W3. rewrite C2 in W3.
  pose proof (la_queue _ _ _ _ L3) as Q3. rewrite C2 in Q3.
  split_and!; try done.
  - rewrite (la_count _ _ _ _ L3), C2. done.
  - rewrite (la_shells _ _ _ _ L3), S2. done.
  - intros n i Hn Hi. pose proof (la_image _ _ _ _ L1 i Hi) as I1. pose proof (la_image _ _ _ _ L2 i Hi) as I2.
    pose proof (la_image _ _ _ _ L3 i Hi) as I3.
    rewrite Hc in I1. rewrite C1 in I2. rewrite C2 in I3.
    rewrite (image_same _ _ _ _ i R L1 Hi) in I2.
    rewrite (image_same _ _ _ _ i R1 L2 Hi), (image_same _ _ _ _ i R L1 Hi) in I3.
    assert (n = 1 \/ n = 2 \/ n = 3) as [-> |[-> | ->]] by lia.
    + rewrite (launched_image _ _ _ _ 1 i R2 L3), (launched_image _ _ _ _ 1 i R1 L2) by lia. exact I1.
    + rewrite (launched_image _ _ _ _ 2 i R2 L3) by lia. exact I2.
    + exact I3.
Qed.
End Launch.
