(* ===== verification/Exec.v ===== *)
(** * syscalls.c: execute as a whole

    What the command line must be for [execute] to enter a program, what it
    enters, and what it refuses. *)

From S2P Require Import Prelude Mem Lib Screen Ports I8259 Rtc Paging.
From S2P Require Import Pcb Sched Filesys Console Keyboard Irq Terminal Kstate.
From S2P Require Import Syscalls Files Process Launch.

(** The positions of the spaces of a command, and the program's name. *)
Definition space_positions (l : list Z) : list Z :=
  filter (fun i => aget l i = Some ASCII_SPACE) (seqZ 0 (Z.of_nat (length l))).
Definition prog_of (l : list Z) : list Z :=
  match space_positions l with [] => l | i :: _ => take (Z.to_nat i) l end.

Lemma space_positions_ok l :
  (length (space_positions l) <= 1)%nat -> spaces_ok l (space_positions l).
Proof.
  intros Hlen. destruct (space_positions l) as [|i [|j r]] eqn:E; [by left| |cbn in Hlen; lia].
  right. exists i. split; [done|].
  assert (Hi : i ∈ space_positions l) by (rewrite E; set_solver).
  unfold space_positions in Hi. apply list_elem_of_filter in Hi as [_ Hi].
  apply elem_of_seqZ in Hi. lia.
Qed.

Section Parse.
Context (cmd : Z) (m : mem) (l : list Z).
Hypothesis Hl : is_cstr m cmd l.
Hypothesis Hlen : Z.of_nat (length l) < 128.
Hypothesis Hmax : (length (space_positions l) <= 100)%nat.

Lemma find_spaces_spec :
  find_spaces cmd m (Z.of_nat (length l)) = Ok (space_positions l).
Proof.
  unfold find_spaces.
  set (I := fun (i : Z) (s : list Z) =>
    s = filter (fun j => aget l j = Some ASCII_SPACE) (seqZ 0 i)).
  destruct (forM_inv (Z.of_nat (length l)) (fun spaces i =>
    if load8 m (cmd + i) =? ASCII_SPACE then
      if Z.of_nat (length spaces) <? MAX_ARGS then Ok (spaces ++ [u8 i]) else Fault
    else Ok spaces) I []) as (s & E & Hs); [lia|done| |unfold I in Hs; by rewrite E, Hs].
  intros i s Hi Hs. unfold I in *. rewrite seqZ_app by lia. change (seqZ (0 + i) 1) with [0 + i].
  rewrite filter_app, <- Hs. rewrite Z.add_0_l. pose proof (is_cstr_get _ _ _ i Hl Hi) as Hg.
  assert (Hsub : filter (fun j => aget l j = Some ASCII_SPACE) (seqZ 0 (i + 1))
                 `prefix_of` space_positions l).
  { unfold space_positions. exists (filter (fun j => aget l j = Some ASCII_SPACE)
      (seqZ (0 + (i + 1)) (Z.of_nat (length l) - (i + 1)))).
    rewrite <- filter_app. f_equal. rewrite <- seqZ_app by lia. f_equal. lia. }
  apply prefix_length in Hsub.
  destruct (Z.eqb_spec (load8 m (cmd + i)) ASCII_SPACE) as [E|E].
  - rewrite seqZ_app, filter_app, length_app in Hsub by lia. rewrite <- Hs in Hsub.
    change (seqZ (0 + i) 1) with [0 + i] in Hsub. rewrite Z.add_0_l in Hsub.
    rewrite filter_cons_True in Hsub |- * by (rewrite Hg; congruence).
    cbn [length filter list_filter] in *.
    unfold MAX_ARGS. destruct (Z.ltb_spec (Z.of_nat (length s)) 100); [|lia].
    eexists. split; [reflexivity|]. rewrite u8_small by lia. done.
  - rewrite filter_cons_False by (rewrite Hg; congruence). eexists. split; [reflexivity|].
    by rewrite app_nil_r.
Qed.
End Parse.

Lemma prog_of_length l : (length (prog_of l) <= length l)%nat.
Proof. unfold prog_of. case_match; [lia|]. rewrite length_take. lia. Qed.

Lemma prog_of_prefix l : prog_of l = take (length (prog_of l)) l.
Proof.
  unfold prog_of. case_match; [by rewrite firstn_all|].
  rewrite length_take. by rewrite <- take_take, firstn_all.
Qed.

Definition prog_len (l : list Z) : Z := match space_positions l with [] => Z.of_nat (length l) | i :: _ => i end.
Lemma prog_len_eq l : prog_len l = Z.of_nat (length (prog_of l)).
Proof.
  unfold prog_len, prog_of. destruct (space_positions l) as [|i r] eqn:E; [done|].
  assert (Hi : i ∈ space_positions l) by (rewrite E; set_solver).
  unfold space_positions in Hi. apply list_elem_of_filter in Hi as [_ Hi].
  apply elem_of_seqZ in Hi. rewrite length_take. lia.
Qed.

(** ** Parsing *)

Section Command.
Context (pd_addr pt_addr cb de cmd prog exe lpcb empty_str k_esp k_ebp shell_str : Z) (pcb0 : pcb).
Context (k : kernel) (param p : Z) (l : list Z).

(** The parameter: a string of 1 to 127 characters at [p], in the user page or
    below the kernel stacks; the literal [""]; the stack arrays. *)
Record command_ok : Prop := CommandOk {
  co_str : user_str pd_addr pt_addr (pgs k) (kmem k) param = Ok p;
  co_l : is_cstr (kmem k) p l /\ 0 < Z.of_nat (length l) < 128;
  co_space : (length (space_positions l) <= 100)%nat;
  co_p : 0 <= p /\ p + 128 <= 4294967296 /\ (p + 128 <= stacks \/ ADDR_8MB <= p);
  co_empty : is_cstr (kmem k) empty_str [];
  co_cmd : on_stack cmd 128;
  co_prog : on_stack prog 33 /\ apart cmd 128 prog 33 }.
Hypothesis C : command_ok.

(** The copy of the command. *)
Lemma command_copy :
  let m := memcpy (kmem k) cmd p (Z.of_nat (length l) + 1) in
  is_cstr m cmd l /\ same_outside cmd (cmd + 128) (kmem k) m.
Proof.
  destruct C as [_ [Hl Hlen] _ (P1 & P2 & P3) _ (S1 & _ & S3 & _) _].
  unfold stacks, ADDR_8MB in *.
  assert (W := memcpy_writes (kmem k) cmd p (Z.of_nat (length l) + 1)).
  unfold in_space, fwd_ok in W. do 4 (specialize (W ltac:(lia))). cbv zeta. split.
  - eapply is_cstr_move; [|exact Hl]. intros i Hi. by rewrite (writes_in _ _ _ _ _ _ W) by lia.
  - intros a Ha Ho. apply (writes_out _ _ _ _ _ _ W); [done|lia].
Qed.

(** Parsing up to the checks on the number of spaces. *)
Lemma parse_start :
  let m := memcpy (kmem k) cmd p (Z.of_nat (length l) + 1) in
  parse_command pd_addr pt_addr cb cmd prog empty_str param k =
  if prog_len l =? 0 then Ok (with_mem k m, None)
  else if 1 <? Z.of_nat (length (space_positions l)) then
    k ← kprintf cb (bytes "ERROR: Command contains too many spaces and/or too many arguments."
                 ++ [10]) [] (with_mem k m);
    Ok (k, None)
  else if FNAME_LENGTH <? prog_len l then Fault
  else
    m ← strncpy m prog cmd (prog_len l);
    Ok (with_mem k (store8 m (prog + prog_len l) 0), Some (space_positions l)).
Proof.
  cbv zeta. destruct command_copy as [Hc _]. pose proof C as [Hs [Hl Hlen] Hsp _ He _ _].
  unfold parse_command. rewrite Hs, bind_ok.
  rewrite (strncmp_cstr _ _ _ _ _ 2 Hl He), bind_ok by lia.
  destruct (Z.eqb_spec (ncmp (Z.to_nat 2) l []) 0) as [E|_].
  { exfalso. apply ncmp_zero in E; [|by eapply is_cstr_chars|done].
    destruct l; [cbn in Hlen; lia|done]. }
  rewrite (strlen_cstr _ _ _ Hl), bind_ok by lia. unfold MAX_KB_BUF.
  destruct (Z.ltb_spec 128 (Z.of_nat (length l) + 1)); [lia|].
  rewrite (find_spaces_spec cmd _ l Hc ltac:(lia) Hsp), bind_ok. reflexivity.
Qed.

Lemma parse_spec :
  (length (space_positions l) <= 1)%nat -> 0 < Z.of_nat (length (prog_of l)) <= FNAME_LENGTH ->
  exists m, parse_command pd_addr pt_addr cb cmd prog empty_str param k =
      Ok (with_mem k m, Some (space_positions l)) /\
    is_cstr m cmd l /\ is_cstr m prog (prog_of l) /\
    (forall a, addr a -> ~ (cmd <= a < cmd + 128) -> ~ (prog <= a < prog + 33) ->
       load8 m a = load8 (kmem k) a).
Proof.
  intros Hsp Hn. rewrite parse_start, prog_len_eq. unfold FNAME_LENGTH in *.
  destruct (Z.eqb_spec (Z.of_nat (length (prog_of l))) 0); [lia|].
  destruct (Z.ltb_spec 1 (Z.of_nat (length (space_positions l)))); [lia|].
  destruct (Z.ltb_spec 32 (Z.of_nat (length (prog_of l)))); [lia|].
  destruct command_copy as [Hc Hsame]. cbv zeta in Hc, Hsame.
  destruct C as [_ [Hl Hlen] _ _ _ (S1 & _ & S3 & _) [(P1 & _ & P3 & _) Hap]].
  unfold stacks, ADDR_8MB, apart in *.
  set (m1 := memcpy (kmem k) cmd p (Z.of_nat (length l) + 1)) in *.
  pose proof (prog_of_length l) as Hle.
  destruct (strncpy_cstr m1 prog cmd (Z.of_nat (length (prog_of l))) l Hc) as (m2 & E2 & W2);
    unfold in_space; try lia.
  rewrite E2, bind_ok. eexists. split; [reflexivity|].
  assert (Hk : forall a, addr a -> ~ (prog <= a < prog + 33) ->
    load8 (store8 m2 (prog + Z.of_nat (length (prog_of l))) 0) a = load8 m1 a).
  { intros a Ha Ho. unfold addr in Ha. rewrite load8_store8_ne by (unfold addr; lia).
    apply (writes_out _ _ _ _ _ _ W2); [done|lia]. }
  split; [|split].
  - eapply is_cstr_ext; [|exact Hc]. intros i Hi. apply Hk; [unfold addr|]; lia.
  - split.
    + intros i Hi. rewrite load8_store8_ne by (unfold addr; lia).
      rewrite (writes_in _ _ _ _ _ i W2) by lia.
      destruct (Z.ltb_spec i (Z.of_nat (length l))); [|lia].
      destruct Hc as [Hc1 _]. destruct (Hc1 i ltac:(lia)) as [Ha Hb]. split; [exact Ha|].
      rewrite prog_of_prefix. rewrite aget_lookup in * by lia. rewrite lookup_take_lt by lia. exact Hb.
    + by rewrite load8_store8_addr, Z.eqb_refl by (unfold addr; lia).
  - intros a Ha O1 O2. rewrite Hk by done. by apply Hsame.
Qed.
End Command.

(** ** Checking the file *)

(** The directory lies below the kernel stacks. *)
Definition directory (fs : boot_block) (m : mem) (de : Z) (names : Z -> list Z) : Prop :=
  dir_ok fs m de names /\
  forall j e, 0 <= j < num_dir_entries fs -> aget (dir_entries fs) j = Some e -> e + 256 <= stacks.

Lemma directory_same fs m m' de names :
  directory fs m de names -> same_outside stacks 4294967296 m m' -> directory fs m' de names.
Proof.
  intros [[Hc He] Hb] Hs. split; [|exact Hb]. split; [exact Hc|]. intros j Hj.
  destruct (He j Hj) as (e & E & Hsp & Hap & Hl & Hlen). specialize (Hb j e Hj E).
  unfold in_space, stacks in *. exists e. do 3 (split; [done|]). split; [|done].
  eapply is_cstr_ext; [|exact Hl]. intros i Hi. apply Hs; [unfold addr|]; lia.
Qed.

(** The file [name]: its directory entry is the first with the name, its
    content are [flen] bytes at inode [inode]; an executable starts with the
    ELF magic number. *)
Record file_named (fs : boot_block) (m : mem) (names : Z -> list Z) (name : list Z)
    (inode flen : Z) : Prop := FileNamed {
  fn_entry : exists idx ent, 0 <= idx < num_dir_entries fs /\ names idx = name /\
    (forall j, 0 <= j < idx -> names j <> name) /\ aget (dir_entries fs) idx = Some ent /\
    ent + 256 <= stacks /\ 0 <= ent /\ load32 m (ent + FNAME_LENGTH + FS_FIELD_SIZE) = inode;
  fn_program : program fs m inode flen }.

Definition is_elf (fs : boot_block) (m : mem) (inode : Z) : bool :=
  (program_byte fs m inode 0 =? 127) && (program_byte fs m inode 1 =? 69)
  && (program_byte fs m inode 2 =? 76) && (program_byte fs m inode 3 =? 70).

Lemma file_named_same fs m m' names name inode flen :
  file_named fs m names name inode flen -> same_outside stacks 4294967296 m m' ->
  file_named fs m' names name inode flen /\ is_elf fs m' inode = is_elf fs m inode.
Proof.
  intros [(idx & ent & H1 & H2 & H3 & H4 & H5 & H6 & H7) Hp] Hs.
  destruct (program_same _ _ _ _ _ Hp Hs) as [Hp' Hb]. pose proof (pr_size _ _ _ _ Hp) as [H28 _].
  split; [|unfold is_elf; by rewrite !Hb by lia]. split; [|exact Hp'].
  exists idx, ent. do 6 (split; [assumption|]). rewrite <- H7. apply load32_ext. intros i Hi.
  unfold stacks, FNAME_LENGTH, FS_FIELD_SIZE in *. apply Hs; [unfold addr|]; lia.
Qed.

Section Check.
Context (cb de prog exe : Z) (k : kernel) (names : Z -> list Z) (name : list Z) (inode flen : Z).
Hypothesis Hdir : directory (fs_info k) (kmem k) de names.
Hypothesis Hname : is_cstr (kmem k) prog name.
Hypothesis Hlen : Z.of_nat (length name) <= FNAME_LENGTH.
Hypothesis Hprog : on_stack prog 33.
Hypothesis Hde : on_stack de 40.
Hypothesis Hexe : on_stack exe 4.
Hypothesis Hap : apart de 40 prog 33 /\ apart de 40 exe 4 /\ apart exe 4 prog 33.

Lemma lookup_program :
  (exists i e m', 0 <= i < num_dir_entries (fs_info k) /\ names i = name /\
     (forall j, 0 <= j < i -> names j <> name) /\ aget (dir_entries (fs_info k)) i = Some e /\
     read_dentry_by_name (fs_info k) (kmem k) prog de = Ok (m', 0) /\ dentry_at (kmem k) de m' name e) \/
  ((forall i, 0 <= i < num_dir_entries (fs_info k) -> names i <> name) /\
   read_dentry_by_name (fs_info k) (kmem k) prog de = Ok (kmem k, -1)).
Proof.
  destruct Hprog as (P1 & _ & P3 & _), Hde as (D1 & _ & D3 & _).
  unfold FNAME_LENGTH, apart, stacks, ADDR_8MB in *.
  assert (Hs : in_space de 40) by (unfold in_space; lia).
  apply (read_dentry_by_name_spec (fs_info k) (kmem k) de Hs names (proj1 Hdir) prog name Hname);
    unfold NULL, FNAME_LENGTH, in_space, apart; lia.
Qed.

Lemma check_program_absent :
  (forall i, 0 <= i < num_dir_entries (fs_info k) -> names i <> name) ->
  check_program cb de prog exe k = Ok (k, None).
Proof.
  intros Hno. unfold check_program.
  destruct lookup_program as [(i & e & m1 & Hi & Hni & _)|[_ E]]; [exfalso; by apply (Hno i)|].
  rewrite E, bind_ok. cbv zeta. change (-1 =? -1) with true. cbv iota. by rewrite with_mem_same.
Qed.

Lemma check_program_spec :
  file_named (fs_info k) (kmem k) names name inode flen ->
  exists m, check_program cb de prog exe k =
      (if is_elf (fs_info k) (kmem k) inode then Ok (with_mem k m, Some inode)
       else k ← kprintf cb (bytes "ERROR.  %s is not an executable file." ++ [10]) [prog] (with_mem k m);
            Ok (k, None)) /\
    (forall a, addr a -> ~ (de <= a < de + 40) -> ~ (exe <= a < exe + 4) ->
       load8 m a = load8 (kmem k) a).
Proof.
  intros Hfn. pose proof Hfn as [(idx & ent & X1 & X2 & X3 & X4 & _ & _ & X7) _].
  destruct lookup_program as [(i & e & m1 & Hi & Hni & Hif & He & F1 & F2)|[Hno _]];
    [|exfalso; by apply (Hno idx)].
  assert (i = idx) as ->.
  { destruct (Z.lt_trichotomy i idx) as [?|[?|?]]; [|done|].
    - exfalso. exact (X3 i ltac:(lia) Hni).
    - exfalso. exact (Hif idx ltac:(lia) X2). }
  rewrite X4 in He. injection He as <-. destruct F2 as (_ & _ & Fi & Fs).
  unfold check_program. rewrite F1, bind_ok. cbv zeta. change (0 =? -1) with false. cbv iota.
  change (kmem (with_mem k m1)) with m1. change (fs_info (with_mem k m1)) with (fs_info k).
  rewrite Fi, X7. destruct Hprog as (P1 & _ & P3 & _), Hde as (D1 & _ & D3 & _),
    Hexe as (E1 & _ & E3 & _), Hap as (A1 & A2 & A3). unfold apart, stacks, ADDR_8MB in *.
  assert (Hs1 : same_outside stacks 4294967296 (kmem k) m1).
  { intros a Ha Ho. apply Fs; [done|]. unfold addr, stacks in *. lia. }
  destruct (file_named_same _ _ _ _ _ _ _ Hfn Hs1) as [[_ Pr] Mg]. rewrite <- Mg.
  pose proof Pr as [Pf [P28 _] Pi Pb].
  destruct (read_data_spec (fs_info k) m1 inode 0 exe 4 flen Pf) as (m2 & R1 & W2); try lia.
  { replace (Z.min 4 (flen - 0)) with 4 by lia. unfold dest_ok, in_space, apart, stacks in *.
    split; [lia|]. split; [lia|]. intros j Hj Hlt. specialize (Pb j Hj Hlt). lia. }
  replace (Z.min 4 (flen - 0)) with 4 in * by lia.
  rewrite R1, bind_ok. change (4 =? -1) with false. cbv iota.
  assert (Hb : forall i, 0 <= i < 4 -> load8 m2 (exe + i) = program_byte (fs_info k) m1 inode i).
  { intros i Hi2. unfold program_byte. by rewrite (writes_in _ _ _ _ _ i W2) by lia. }
  pose proof (Hb 0 ltac:(lia)) as B0. rewrite Z.add_0_r in B0.
  rewrite B0, (Hb 1), (Hb 2), (Hb 3) by lia. exists m2. split; [reflexivity|].
  intros a Ha O1 O2. rewrite (writes_out _ _ _ _ _ _ W2) by (done || lia). by apply Fs.
Qed.
End Check.

(** ** The whole call *)

Section Execute.
Context (pd_addr pt_addr cb de cmd prog exe lpcb empty_str k_esp k_ebp k_flags : Z) (pcb0 : pcb).
Context (names : Z -> list Z) (param p : Z) (l : list Z) (inode flen : Z).

(** The stack arrays: on the kernel stacks, apart from the PCBs and each
    other. *)
Record locals_ok : Prop := LocalsOk {
  lo_cmd : on_stack cmd 128;
  lo_prog : on_stack prog 33 /\ apart cmd 128 prog 33;
  lo_de : on_stack de 40 /\ apart de 40 cmd 128 /\ apart de 40 prog 33;
  lo_exe : on_stack exe 4 /\ apart exe 4 cmd 128 /\ apart de 40 exe 4 /\ apart exe 4 prog 33;
  lo_pcb : on_stack lpcb SIZEOF_PCB /\ apart lpcb SIZEOF_PCB cmd 128;
  lo_init : length (fde pcb0) = 8%nat }.

(** A command that names a program, in a kernel with room for one more
    process; [lq] is the process queue. *)
Record can_execute (k : kernel) (lq : list Z) : Prop := CanExecute {
  ce_command : command_ok pd_addr pt_addr cmd prog empty_str k param p l;
  ce_spaces : (length (space_positions l) <= 1)%nat;
  ce_prog : 0 < Z.of_nat (length (prog_of l)) <= FNAME_LENGTH;
  ce_dir : directory (fs_info k) (kmem k) de names;
  ce_exec : file_named (fs_info k) (kmem k) names (prog_of l) inode flen;
  ce_elf : is_elf (fs_info k) (kmem k) inode = true;
  ce_map : kernel_map pd_addr pt_addr (pgs k);
  ce_count : 0 <= process_count (sch k) < 6;
  ce_queue : deque (process_q (sch k)) lq /\ Z.of_nat (length lq) < 6;
  ce_shells : 0 <= primary_shell_count k;
  ce_parent : primary_shell_count k < 3 \/
    exists q lq' b, lq = q :: lq' /\ q <> NULL /\ pcb_heap (sch k) !! q = Some b }.

Context (k : kernel) (lq : list Z).
Hypothesis Hlo : locals_ok.
Hypothesis Hce : can_execute k lq.

(** The call up to the launch loop, which starts from a kernel that differs
    from [k] in stack memory only. *)
Lemma execute_start :
  exists m, same_outside stacks 4294967296 (kmem k) m /\
    ready pd_addr pt_addr cmd lpcb l (space_positions l) inode flen (with_mem k m) lq /\
    execute pd_addr pt_addr cb de cmd prog exe lpcb empty_str k_esp k_ebp k_flags pcb0 param k =
      ('(k, b) ← launch_loop pd_addr pt_addr cmd lpcb k_esp k_ebp inode (space_positions l)
                   (with_mem k m) pcb0;
       let k := with_esp0 k (u32 (ADDR_8MB - process_count (sch k) * ADDR_8KB - 4)) in
       let k := with_con k (with_tr (con k) (cli (tr (con k)))) in
       Ok (k, Entered (UserEntry (eip b) USER_CS (user_flags k_flags) (user_esp b) USER_DS))).
Proof.
  destruct Hlo as [L1 [L2 L2a] (L3 & L3a & L3b) (L4 & L4a & L4b & L4c) [L5 L5a] _].
  destruct Hce as [C1 C2 C3 C4 C5 Ce C6 C7 C8 C9 C10].
  destruct (parse_spec _ _ cb cmd prog empty_str k param p l C1 C2 C3)
    as (m1 & E1 & Hc1 & Hp1 & F1).
  assert (S1 : same_outside stacks 4294967296 (kmem k) m1).
  { intros a Ha Ho. destruct L1 as (? & _ & _), L2 as (? & _ & _).
    apply F1; unfold addr, stacks in *; lia. }
  destruct (file_named_same _ _ _ _ _ _ _ C5 S1) as [C5' Ce']. rewrite Ce in Ce'.
  destruct (check_program_spec cb de prog exe (with_mem k m1) names (prog_of l) inode flen
    (directory_same _ _ _ _ _ C4 S1) Hp1 (proj2 C3) L2 L3 L4 (conj L3b (conj L4b L4c)) C5')
    as (m2 & E2 & F2). change (is_elf _ _ inode) with (is_elf (fs_info k) m1 inode) in E2.
  rewrite Ce' in E2.
  change (kmem (with_mem k m1)) with m1 in F2. change (with_mem (with_mem k m1) m2) with (with_mem k m2) in E2.
  assert (S2 : same_outside stacks 4294967296 (kmem k) m2).
  { intros a Ha Ho. destruct L3 as (? & _ & _), L4 as (? & _ & _).
    rewrite F2 by (unfold addr, stacks in *; lia). by apply S1. }
  exists m2. split; [exact S2|]. split.
  - destruct (program_same _ _ _ _ _ (fn_program _ _ _ _ _ _ C5) S2) as [Pr _].
    pose proof (co_l _ _ _ _ _ _ _ _ _ C1) as [_ Hll].
    split; try done; change (kmem (with_mem k m2)) with m2.
    + split.
      * eapply is_cstr_ext; [|exact Hc1]. intros i Hi. destruct L1 as (? & _ & ? & _).
        unfold apart, stacks, ADDR_8MB in *. apply F2; unfold addr; lia.
      * destruct L1 as (A1 & A2 & A3 & A4). split; [lia|]. split; [lia|]. split; [lia|].
        intros j Hj. specialize (A4 j Hj). unfold apart in *. lia.
    + split; [by apply space_positions_ok|]. unfold ARG_BUFF_SIZE, arg_of.
      case_match; [cbn; lia|]. rewrite length_drop. lia.
    + split; [done|]. unfold apart in *. lia.
  - unfold execute, MAX_PROCESSES. destruct (Z.leb_spec 6 (process_count (sch k))); [lia|].
    rewrite E1, bind_ok, E2, bind_ok. reflexivity.
Qed.
End Execute.

Lemma user_term_fd k_esp k_ebp l spaces inode k lq b fd :
  length (fde b) = 8%nat -> 0 <= fd <= 1 ->
  get_at (fde (new_pcb k_esp k_ebp l spaces inode k lq b)) fd =
    Ok (FdEntry (Fops fops_terminal_functions) NULL 0 USE).
Proof.
  intros Hl Hfd. apply get_at_ok. cbn [new_pcb fde].
  change 1%nat with (Z.to_nat 1). change 0%nat with (Z.to_nat 0).
  rewrite aget_insert by (rewrite length_insert; lia).
  destruct (Z.eqb_spec 1 fd); [done|]. rewrite aget_insert by lia.
  destruct (Z.eqb_spec 0 fd); [done|lia].
Qed.

(** ** What is refused *)

(** [k'] is [k] with [out] printed, the array of [printf] at [cb] aside. *)
Definition shows (cb : Z) (k k' : kernel) (out : list Z) : Prop :=
  exists s, k' = with_screen k s /\
    scr_eq (fun a => ~ (cb <= a < cb + 64)) s (foldl putc (scr (con k)) out).

Lemma kprintf_shows cb strs fmt args out k :
  on_stack cb 64 -> scr_cursor (scr (con k)) -> strings_at cb strs (kmem k) ->
  Forall (fun v => 0 <= v < 4294967296) args -> expand strs None fmt args = Some out ->
  exists k', kprintf cb fmt args k = Ok k' /\ shows cb k k' out.
Proof.
  intros (S1 & _ & S3 & _) Hc Hs Ha He. unfold stacks, ADDR_8MB in *.
  destruct (printf_step cb strs fmt args out (scr (con k)) (scr (con k))) as (s & E & Q & _);
    unfold in_space, off_screen, VIDEO; try done; try lia.
  exists (with_screen k s). unfold kprintf. rewrite E, bind_ok. split; [done|]. by exists s.
Qed.

Lemma no_strings cb m : strings_at cb (fun _ => None) m.
Proof. intros a l H. done. Qed.

Section Refuse.
Context (pd_addr pt_addr cb de cmd prog exe lpcb empty_str k_esp k_ebp k_flags : Z) (pcb0 : pcb).
Context (names : Z -> list Z) (param p : Z) (l : list Z) (k : kernel).
Hypothesis Hlo : locals_ok de cmd prog exe lpcb pcb0.
Hypothesis Hcb : on_stack cb 64 /\ apart cb 64 prog 33.
Hypothesis Hscr : scr_cursor (scr (con k)).
Hypothesis Hcount : process_count (sch k) < 6.
Lemma refuse_empty :
  user_str pd_addr pt_addr (pgs k) (kmem k) param = Ok p ->
  is_cstr (kmem k) p [] -> is_cstr (kmem k) empty_str [] ->
  execute pd_addr pt_addr cb de cmd prog exe lpcb empty_str k_esp k_ebp k_flags pcb0 param k =
    Ok (k, Returned FAIL).
Proof.
  intros Hs Hl He. unfold execute, MAX_PROCESSES. destruct (Z.leb_spec 6 (process_count (sch k))); [lia|].
  unfold parse_command. by rewrite Hs, bind_ok, (strncmp_cstr _ _ _ _ _ 2 Hl He) by lia.
Qed.

Hypothesis C : command_ok pd_addr pt_addr cmd prog empty_str k param p l.

Abbreviation run :=
  (execute pd_addr pt_addr cb de cmd prog exe lpcb empty_str k_esp k_ebp k_flags pcb0 param k).

(** Only stack memory differs. *)
Definition stack_only (m : mem) : Prop := same_outside stacks 4294967296 (kmem k) m.

Lemma execute_parse :
  run = ('(k, parsed) ← parse_command pd_addr pt_addr cb cmd prog empty_str param k;
         match parsed with
         | None => Ok (k, Returned FAIL)
         | Some spaces =>
           '(k, checked) ← check_program cb de prog exe k;
           match checked with
           | None => Ok (k, Returned FAIL)
           | Some inode =>
             '(k, b) ← launch_loop pd_addr pt_addr cmd lpcb k_esp k_ebp inode spaces k pcb0;
             let k := with_esp0 k (u32 (ADDR_8MB - process_count (sch k) * ADDR_8KB - 4)) in
             let k := with_con k (with_tr (con k) (cli (tr (con k)))) in
             Ok (k, Entered (UserEntry (eip b) USER_CS (user_flags k_flags) (user_esp b) USER_DS))
           end
         end).
Proof. unfold execute, MAX_PROCESSES. destruct (Z.leb_spec 6 (process_count (sch k))); [lia|done]. Qed.

Lemma copy_stack_only : stack_only (memcpy (kmem k) cmd p (Z.of_nat (length l) + 1)).
Proof.
  destruct (command_copy _ _ _ _ _ _ _ _ _ C) as [_ H]. destruct (lo_cmd _ _ _ _ _ _ Hlo) as (S1 & _).
  intros a Ha Ho. apply H; [done|]. unfold addr, stacks in *. lia.
Qed.

Lemma refuse_no_name :
  prog_of l = [] -> exists m, stack_only m /\ run = Ok (with_mem k m, Returned FAIL).
Proof.
  intros Hp. eexists. split; [exact copy_stack_only|].
  rewrite execute_parse, (parse_start _ _ _ _ _ _ _ _ _ _ C), prog_len_eq, Hp. done.
Qed.

Lemma refuse_spaces :
  prog_of l <> [] -> (1 < length (space_positions l))%nat ->
  exists m k', stack_only m /\ run = Ok (k', Returned FAIL) /\
    shows cb (with_mem k m) k'
      (bytes "ERROR: Command contains too many spaces and/or too many arguments." ++ [10]).
Proof.
  intros Hp Hs. exists (memcpy (kmem k) cmd p (Z.of_nat (length l) + 1)).
  destruct (kprintf_shows cb (fun _ => None)
    (bytes "ERROR: Command contains too many spaces and/or too many arguments." ++ [10]) []
    (bytes "ERROR: Command contains too many spaces and/or too many arguments." ++ [10])
    (with_mem k (memcpy (kmem k) cmd p (Z.of_nat (length l) + 1))) (proj1 Hcb) Hscr
    (no_strings _ _) ltac:(by rewrite Forall_nil) eq_refl) as (k' & E & S).
  exists k'. split; [exact copy_stack_only|]. split; [|exact S].
  rewrite execute_parse, (parse_start _ _ _ _ _ _ _ _ _ _ C), prog_len_eq.
  destruct (Z.eqb_spec (Z.of_nat (length (prog_of l))) 0) as [E0|_].
  { destruct (prog_of l); [done|cbn in E0; lia]. }
  destruct (Z.ltb_spec 1 (Z.of_nat (length (space_positions l)))); [|lia].
  by rewrite E, !bind_ok.
Qed.

Hypothesis Hspaces : (length (space_positions l) <= 1)%nat.
Hypothesis Hprog : 0 < Z.of_nat (length (prog_of l)) <= FNAME_LENGTH.
Hypothesis Hdir : directory (fs_info k) (kmem k) de names.

Lemma parsed :
  exists m, stack_only m /\ is_cstr m prog (prog_of l) /\
    run = ('(k, checked) ← check_program cb de prog exe (with_mem k m);
           match checked with
           | None => Ok (k, Returned FAIL)
           | Some inode =>
             '(k, b) ← launch_loop pd_addr pt_addr cmd lpcb k_esp k_ebp inode (space_positions l) k pcb0;
             let k := with_esp0 k (u32 (ADDR_8MB - process_count (sch k) * ADDR_8KB - 4)) in
             let k := with_con k (with_tr (con k) (cli (tr (con k)))) in
             Ok (k, Entered (UserEntry (eip b) USER_CS (user_flags k_flags) (user_esp b) USER_DS))
           end).
Proof.
  destruct (parse_spec _ _ cb cmd prog empty_str k param p l C Hspaces Hprog) as (m & E & _ & Hp & F).
  exists m. split; [|split; [exact Hp|by rewrite execute_parse, E]].
  destruct (lo_cmd _ _ _ _ _ _ Hlo) as (S1 & _), (lo_prog _ _ _ _ _ _ Hlo) as [(S2 & _) _].
  intros a Ha Ho. unfold addr, stacks in *. apply F; unfold addr; lia.
Qed.

Lemma refuse_absent :
  (forall i, 0 <= i < num_dir_entries (fs_info k) -> names i <> prog_of l) ->
  exists m, stack_only m /\ run = Ok (with_mem k m, Returned FAIL).
Proof.
  intros Hno. destruct parsed as (m & S & Hp & ->). exists m. split; [exact S|].
  destruct Hlo as [_ [L2 _] (L3 & _ & L3b) (L4 & _ & L4b & L4c) _ _].
  rewrite (check_program_absent cb de prog exe (with_mem k m) names (prog_of l)
    (directory_same _ _ _ _ _ Hdir S) Hp (proj2 Hprog) L2 L3 (conj L3b (conj L4b L4c)) Hno).
  done.
Qed.

Lemma refuse_not_elf inode flen :
  file_named (fs_info k) (kmem k) names (prog_of l) inode flen ->
  is_elf (fs_info k) (kmem k) inode = false ->
  exists m k', stack_only m /\ run = Ok (k', Returned FAIL) /\
    shows cb (with_mem k m) k'
      (bytes "ERROR.  " ++ prog_of l ++ bytes " is not an executable file." ++ [10]).
Proof.
  intros Hfn Hne. destruct parsed as (m1 & S1 & Hp & ->).
  destruct Hlo as [_ [L2 _] (L3 & _ & L3b) (L4 & _ & L4b & L4c) _ _].
  destruct (file_named_same _ _ _ _ _ _ _ Hfn S1) as [Hfn1 He1]. rewrite Hne in He1.
  destruct (check_program_spec cb de prog exe (with_mem k m1) names (prog_of l) inode flen
    (directory_same _ _ _ _ _ Hdir S1) Hp (proj2 Hprog) L2 L3 L4 (conj L3b (conj L4b L4c)) Hfn1)
    as (m & E & F). change (is_elf _ _ inode) with (is_elf (fs_info k) m1 inode) in E.
  rewrite He1 in E. change (kmem (with_mem k m1)) with m1 in F.
  change (with_mem (with_mem k m1) m) with (with_mem k m) in E. exists m.
  destruct Hcb as [Hcb1 Hcb2], L2 as (P1 & _ & P3 & _), L3 as (D1 & _ & D3 & _), L4 as (X1 & _ & X3 & _).
  unfold stacks, ADDR_8MB, apart, FNAME_LENGTH in *.
  assert (Hpm : is_cstr m prog (prog_of l)).
  { eapply is_cstr_ext; [|exact Hp]. intros i Hi. apply F; unfold addr; lia. }
  destruct (kprintf_shows cb (fun a => if a =? prog then Some (prog_of l) else None)
    (bytes "ERROR.  %s is not an executable file." ++ [10]) [prog]
    (bytes "ERROR.  " ++ prog_of l ++ bytes " is not an executable file." ++ [10])
    (with_mem k m) Hcb1 Hscr) as (k' & E' & Sh).
  - intros a s Has. destruct (Z.eqb_spec a prog) as [->|]; [|done]. injection Has as <-.
    unfold in_space, off_screen, VIDEO. split; [exact Hpm|]. destruct Hcb1 as (? & ? & ? & ?). lia.
  - rewrite Forall_cons, Forall_nil. lia.
  - expand_fmt. by rewrite Z.eqb_refl.
  - exists k'. split; [|split; [by rewrite E, E', !bind_ok|exact Sh]].
    intros a Ha Ho. unfold addr, stacks in *. rewrite F by (unfold addr; lia). by apply S1.
Qed.
End Refuse.

(** ** halt *)

(** The frame of [halt] is above its stack pointer: [leave] does not see what
    was pushed. *)
Lemma push_and_leave_spec h_esp h_ebp x y m :
  8 <= h_esp <= h_ebp -> h_ebp + 4 < 4294967296 ->
  exists m', push_and_leave h_esp h_ebp x y m = (m', Leave (h_ebp + 4) (load32 m h_ebp)) /\
    load32 m' (h_esp - 4) = u32 x /\ load32 m' (h_esp - 8) = u32 y /\ same_outside (h_esp - 8) h_esp m m'.
Proof.
  intros H1 H2. unfold push_and_leave. rewrite !u32_small by lia.
  assert (S1 : same_outside (h_esp - 8) h_esp m (store32 m (h_esp - 4) x)).
  { eapply same_outside_weaken; [| |apply same_outside_store32]; lia. }
  set (m1 := store32 m (h_esp - 4) x) in *.
  assert (S2 : same_outside (h_esp - 8) (h_esp - 4) m1 (store32 m1 (h_esp - 8) y)).
  { eapply same_outside_weaken; [| |apply same_outside_store32]; lia. }
  assert (S : same_outside (h_esp - 8) h_esp m (store32 m1 (h_esp - 8) y)).
  { eapply same_outside_trans; [exact S1|]. eapply same_outside_weaken; [| |exact S2]; lia. }
  eexists. split; [f_equal; f_equal; apply load32_ext; intros i Hi; apply S; unfold addr; lia|].
  split; [|split; [by apply load32_store32; lia|exact S]].
  rewrite <- (load32_store32 m (h_esp - 4) x) by lia. apply load32_ext. intros i Hi.
  apply S2; unfold addr; lia.
Qed.

(** ** Properties *)

(** C4 [execute] starts a child: on a command that names an executable, with
    the shells running, it enters user mode at the entry point stored in the
    file with the stack at the top of the user page and interrupts enabled, as
    process [n], the number of processes plus one: the user page is mapped to the page of
    process [n], which holds the program at its load address; the PCB of [n]
    has the caller as parent, the caller's terminal, both standard descriptors
    on the terminal, and the argument; [n] is at the front of the queue, and
    [tss.esp0] is the top of its kernel stack.  No other PCB changes. *)
Theorem execute_enters (pd_addr pt_addr cb de cmd prog exe lpcb empty_str k_esp k_ebp k_flags : Z)
    (pcb0 : pcb) (names : Z -> list Z) (param p : Z) (l : list Z) (inode flen : Z)
    (k : kernel) (q : Z) (lq : list Z) (bq : pcb) :
  locals_ok de cmd prog exe lpcb pcb0 ->
  can_execute pd_addr pt_addr de cmd prog empty_str names param p l inode flen k (q :: lq) ->
  3 <= primary_shell_count k -> pcb_heap (sch k) !! q = Some bq ->
  let n := process_count (sch k) + 1 in
  exists k' b,
    execute pd_addr pt_addr cb de cmd prog exe lpcb empty_str k_esp k_ebp k_flags pcb0 param k =
      Ok (k', Entered (UserEntry (entry_point (fs_info k) (kmem k) inode) USER_CS (user_flags k_flags) 138412028 USER_DS)) /\
    process_count (sch k') = n /\ user_window pd_addr pt_addr n (pgs k') /\
    kernel_map pd_addr pt_addr (pgs k') /\
    (forall i, 0 <= i < flen ->
       load8 (kmem k') (image_addr n + i) = program_byte (fs_info k) (kmem k) inode i) /\
    is_cstr (kmem k') (argbuf_addr (pcb_addr n)) (arg_of l (space_positions l)) /\
    argument_length b = Z.of_nat (length (arg_of l (space_positions l))) + 1 /\
    deque (process_q (sch k')) (pcb_addr n :: q :: lq) /\
    pcb_heap (sch k') = <[pcb_addr n := b]> (pcb_heap (sch k)) /\
    pid b = n /\ parent_ptr b = q /\ terminal_num b = terminal_num bq /\
    (forall fd, 0 <= fd <= 1 ->
       get_at (fde b) fd = Ok (FdEntry (Fops fops_terminal_functions) NULL 0 USE)) /\
    esp0 k' = 8388608 - n * 8192 - 4 /\ tr (con k') = cli (tr (con k)) /\
    Z.testbit (user_flags k_flags) 9 = true.
Proof.
  intros Hlo Hce Hsh Hq n. pose proof (ce_count _ _ _ _ _ _ _ _ _ _ _ _ _ _ Hce) as Hc.
  pose proof (ce_exec _ _ _ _ _ _ _ _ _ _ _ _ _ _ Hce) as Hx.
  destruct (execute_start pd_addr pt_addr cb de cmd prog exe lpcb empty_str k_esp k_ebp k_flags pcb0 names
    param p l inode flen k _ Hlo Hce) as (m & S & R & ->).
  pose proof (lo_init _ _ _ _ _ _ Hlo) as Hi.
  destruct (launch_loop_one _ _ cmd lpcb k_esp k_ebp l _ inode flen _ _ pcb0 R)
    as (k' & E & L); [exact (Z.le_trans 2 3 _ ltac:(lia) Hsh)|rewrite Hi; lia|].
  set (b := new_pcb _ _ _ _ _ _ _ _) in *. rewrite E, bind_ok. cbv zeta.
  destruct L as [L1 L2 L3 L4 L5 L6 L7 L8 L9 L10 L11].
  change (sch (with_mem k m)) with (sch k) in *. change (fs_info (with_mem k m)) with (fs_info k) in *.
  change (kmem (with_mem k m)) with m in *. fold n in L1, L2, L4, L5, L6, L7, L11.
  eexists _, b. cbn [with_con with_esp0 sch pgs con fs_info esp0 with_tr tr].
  rewrite L1. split.
  { do 3 f_equal. unfold b. cbn [new_pcb eip user_esp]. f_equal.
    apply (entry_point_same _ _ _ _ flen (fn_program _ _ _ _ _ _ Hx) S). }
  split_and!; try done.
  - intros i Hir. destruct (program_same _ _ _ _ _ (fn_program _ _ _ _ _ _ Hx) S) as [_ Hb].
    rewrite <- Hb by done. by apply L6.
  - unfold b, lineage. cbn [new_pcb parent_ptr]. unfold lineage. cbn [primary_shell_count with_mem with_con].
    destruct (Z.ltb_spec (primary_shell_count k) 3); [lia|done].
  - unfold b. cbn [new_pcb terminal_num]. unfold lineage. cbn [primary_shell_count with_mem with_con sch].
    destruct (Z.ltb_spec (primary_shell_count k) 3); [lia|]. cbn [snd]. by rewrite Hq.
  - intros fd Hfd. by apply user_term_fd.
  - change (u32 (ADDR_8MB - n * ADDR_8KB - 4) = 8388608 - n * 8192 - 4).
    unfold ADDR_8MB, ADDR_8KB. rewrite u32_small; subst n; lia.
  - change (cli (tr (con k')) = cli (tr (con k))). by rewrite L10.
  - unfold user_flags. rewrite Z.lor_spec. apply orb_true_r.
Qed.

(** The first [execute] starts the three shells: from a kernel without
    processes it builds processes 1, 2 and 3, each with the program in its own
    page, no parent, and the terminals 2, 1 and 0; the queue holds them with
    process 3 in front, and user mode is entered as process 3, on terminal 0. *)
Theorem execute_boots_shells (pd_addr pt_addr cb de cmd prog exe lpcb empty_str k_esp k_ebp k_flags : Z)
    (pcb0 : pcb) (names : Z -> list Z) (param p : Z) (l : list Z) (inode flen : Z) (k : kernel) :
  locals_ok de cmd prog exe lpcb pcb0 ->
  can_execute pd_addr pt_addr de cmd prog empty_str names param p l inode flen k [] ->
  process_count (sch k) = 0 -> primary_shell_count k = 0 ->
  exists k' b1 b2 b3,
    execute pd_addr pt_addr cb de cmd prog exe lpcb empty_str k_esp k_ebp k_flags pcb0 param k =
      Ok (k', Entered (UserEntry (entry_point (fs_info k) (kmem k) inode) USER_CS (user_flags k_flags) 138412028 USER_DS)) /\
    shell_pcb inode k b1 1 /\ shell_pcb inode k b2 2 /\ shell_pcb inode k b3 3 /\
    process_count (sch k') = 3 /\ primary_shell_count k' = 3 /\
    user_window pd_addr pt_addr 3 (pgs k') /\
    deque (process_q (sch k')) [pcb_addr 3; pcb_addr 2; pcb_addr 1] /\
    pcb_heap (sch k') = <[pcb_addr 3 := b3]> (<[pcb_addr 2 := b2]> (<[pcb_addr 1 := b1]>
      (pcb_heap (sch k)))) /\
    (forall n i, 1 <= n <= 3 -> 0 <= i < flen ->
       load8 (kmem k') (image_addr n + i) = program_byte (fs_info k) (kmem k) inode i) /\
    esp0 k' = 8388608 - 3 * 8192 - 4 /\ fs_info k' = fs_info k /\ fops k' = fops k /\
    con k' = with_tr (con (with_mem k (kmem k'))) (cli (tr (con k))).
Proof.
  intros Hlo Hce Hc Hs.
  pose proof (fn_program _ _ _ _ _ _ (ce_exec _ _ _ _ _ _ _ _ _ _ _ _ _ _ Hce)) as Hx.
  pose proof (lo_init _ _ _ _ _ _ Hlo) as Hi.
  destruct (execute_start pd_addr pt_addr cb de cmd prog exe lpcb empty_str k_esp k_ebp k_flags pcb0 names
    param p l inode flen k _ Hlo Hce) as (m & S & R & ->).
  destruct (launch_loop_boot _ _ cmd lpcb k_esp k_ebp l _ inode flen _ pcb0 R Hs Hc ltac:(lia))
    as (k1 & k2 & k3 & L1 & L2 & L3 & E).
  destruct (boot_chain _ _ _ _ _ _ _ _ _ _ _ k1 k2 k3 pcb0 R Hs Hc L1 L2 L3)
    as (B1 & B2 & B3 & Hc3 & Hs3 & Hw & Hq & Hh & Him).
  assert (Hsh : forall b n, shell_pcb inode (with_mem k m) b n -> shell_pcb inode k b n).
  { intros b n (H1 & H2 & H3 & H4). unfold shell_pcb. split_and!; try done. rewrite H4.
    exact (entry_point_same (fs_info k) _ _ _ _ Hx S). }
  apply Hsh in B1, B2, B3. rewrite E, bind_ok. cbv zeta. rewrite Hc3.
  eexists _, _, _, _. split; [do 3 f_equal; f_equal; apply B3|].
  split; [exact B1|]. split; [exact B2|]. split; [exact B3|]. split; [exact Hc3|].
  split; [exact Hs3|]. split; [exact Hw|]. split; [exact Hq|]. split; [exact Hh|]. split.
  { intros n i Hn Hir. refine (eq_trans (Him n i Hn Hir) _).
    by apply (program_same _ _ _ _ _ Hx S). }
  split; [done|]. destruct (only_memory_trans _ _ _ (launched_only_memory _ _ _ _ _ _ _ _ _ _ _ L1)
    (only_memory_trans _ _ _ (launched_only_memory _ _ _ _ _ _ _ _ _ _ _ L2)
      (launched_only_memory _ _ _ _ _ _ _ _ _ _ _ L3))) as (N1 & N2 & N3).
  split; [exact N1|]. split; [exact N2|]. cbn [with_con with_esp0 con kmem]. by rewrite N3.
Qed.


(** C23 [execute] refuses, returning -1 without starting anything: a seventh
    process, with a message and no other change; an empty command, silently;
    and, changing only its stack memory, a command that starts with a space, one
    with two or more spaces (with a message), a program the directory does not
    have, and a file that does not start with the ELF magic number (with a
    message that names it). *)
Theorem execute_refuses (pd_addr pt_addr cb de cmd prog exe lpcb empty_str k_esp k_ebp k_flags : Z)
    (pcb0 : pcb) (names : Z -> list Z) (param p : Z) (l : list Z) (k : kernel) :
  locals_ok de cmd prog exe lpcb pcb0 -> on_stack cb 64 -> apart cb 64 prog 33 ->
  scr_cursor (scr (con k)) ->
  let run := execute pd_addr pt_addr cb de cmd prog exe lpcb empty_str k_esp k_ebp k_flags pcb0 param k in
  (6 <= process_count (sch k) -> exists k', run = Ok (k', Returned FAIL) /\
     shows cb k k' (bytes "Command refused.  Attempting to exceed max processes." ++ [10])) /\
  (process_count (sch k) < 6 -> user_str pd_addr pt_addr (pgs k) (kmem k) param = Ok p ->
   is_cstr (kmem k) p [] -> is_cstr (kmem k) empty_str [] -> run = Ok (k, Returned FAIL)) /\
  (process_count (sch k) < 6 -> command_ok pd_addr pt_addr cmd prog empty_str k param p l ->
   (prog_of l = [] -> exists m, stack_only k m /\ run = Ok (with_mem k m, Returned FAIL)) /\
   (prog_of l <> [] -> (1 < length (space_positions l))%nat ->
    exists m k', stack_only k m /\ run = Ok (k', Returned FAIL) /\
      shows cb (with_mem k m) k'
        (bytes "ERROR: Command contains too many spaces and/or too many arguments." ++ [10])) /\
   ((length (space_positions l) <= 1)%nat -> 0 < Z.of_nat (length (prog_of l)) <= FNAME_LENGTH ->
    directory (fs_info k) (kmem k) de names ->
    ((forall i, 0 <= i < num_dir_entries (fs_info k) -> names i <> prog_of l) ->
     exists m, stack_only k m /\ run = Ok (with_mem k m, Returned FAIL)) /\
    (forall inode flen, file_named (fs_info k) (kmem k) names (prog_of l) inode flen ->
     is_elf (fs_info k) (kmem k) inode = false ->
     exists m k', stack_only k m /\ run = Ok (k', Returned FAIL) /\
       shows cb (with_mem k m) k'
         (bytes "ERROR.  " ++ prog_of l ++ bytes " is not an executable file." ++ [10])))).
Proof.
  intros Hlo Hcb Hap Hscr run. split; [|split].
  - intros H6.
    destruct (kprintf_shows cb (fun _ => None)
      (bytes "Command refused.  Attempting to exceed max processes." ++ [10]) []
      (bytes "Command refused.  Attempting to exceed max processes." ++ [10]) k Hcb Hscr
      (no_strings _ _) ltac:(by rewrite Forall_nil) eq_refl) as (k' & E & S).
    exists k'. split; [|exact S]. unfold run, execute, MAX_PROCESSES.
    destruct (Z.leb_spec 6 (process_count (sch k))); [|lia]. by rewrite E, bind_ok.
  - intros Hc Hs Hl He. by eapply refuse_empty.
  - intros Hc C. split; [|split].
    + by eapply refuse_no_name.
    + by eapply refuse_spaces.
    + intros Hsp Hp Hd. split; [by eapply refuse_absent|]. intros inode flen. by eapply refuse_not_elf.
Qed.

(** ** Witnesses: the program "shell" in the demonstration image *)

Definition shell_image : mem :=
  let m := store_list demo_image (demo_start + 128) (bytes "shell" ++ [0]) in
  let m := store_list m (demo_start + 12288) [127; 69; 76; 70] in
  let m := store_list m (demo_start + 12288 + 24) [232; 130; 4; 8] in
  let m := store_list m 4300000 (bytes "shell" ++ [0]) in
  let m := store_list m 4300016 (bytes "x" ++ [0]) in
  store_list m 4300032 (bytes "shell x" ++ [0]).
Definition shell_names (k : Z) : list Z := if k =? 0 then bytes "." else bytes "shell".
Definition demo_pcb0 : pcb := demo_proc (replicate 8 (FdEntry FopsBad 0 0 0)) 0.

Definition demo_boot (s : sched) (shells : Z) : kernel :=
  Kernel (Console (Screen shell_image 0 0) [] (Pic 0 0) (Rtc 0 0 2 0)
            (Keyboard 0 0 0 0 [0; 0; 0] [0; 0; 0]) [0; 0; 0] [0; 0; 0] 0 0)
    s paging1 8388608 demo_fs shells 0
    (systemcalls_initialize (fun _ => FopsFunctions None None None None)) [].
Definition sched0 : sched := Sched (ProcessQueue (replicate 6 NULL) 1 0) 0 ∅.
Definition sched3 : sched :=
  Sched (ProcessQueue [8380416; 0; 0; 0; 8364032; 8372224] 4 0) 3
    (<[8364032 := demo_proc (replicate 8 demo_free_fd) 1]> {[8372224 := demo_pcb0]}).

Lemma demo_locals : locals_ok 8388300 8388000 8388200 8388400 8387000 demo_pcb0.
Proof.
  assert (H : forall a n, 8380996 <= a -> 0 <= n -> a + n <= 8388608 -> on_stack a n).
  { intros a n Ha Hn Hle. unfold on_stack, stacks, ADDR_8MB. split_and!; try lia.
    intros j Hj. rewrite pcb_addr_eq by lia. unfold apart, SIZEOF_PCB. lia. }
  split; unfold apart, SIZEOF_PCB; split_and?; try (apply H; lia); (done || lia).
Qed.

Lemma shell_dir : directory demo_fs shell_image 8388300 shell_names.
Proof.
  split.
  - split; [vm_compute; split; congruence|]. change (num_dir_entries demo_fs) with 2. intros k Hk.
    range_cases k 2; (eexists; split_and!; [vm_compute; reflexivity| | |apply is_cstr_dec; vm_compute;
      reflexivity|cbn; lia]); unfold in_space, apart, DENTRY_SIZE; lia.
  - change (num_dir_entries demo_fs) with 2. intros k e Hk He.
    range_cases k 2; vm_compute in He; injection He as <-; vm_compute; congruence.
Qed.

Lemma shell_file : file_named demo_fs shell_image shell_names (bytes "shell") 0 5000.
Proof.
  split.
  - exists 1, 4247680. change (num_dir_entries demo_fs) with 2. split; [lia|]. split; [done|]. split.
    { intros j Hj. assert (j = 0) as -> by lia. vm_compute. congruence. }
    split; [vm_compute; reflexivity|]. split; [vm_compute; congruence|]. split; [lia|].
    vm_compute. reflexivity.
  - split.
    + split.
      * vm_compute. split; congruence.
      * split; vm_compute; congruence.
      * unfold KB4. intros k Hk Hlt. assert (0 <= k < 2) as Hk2 by lia. clear Hk Hlt.
        range_cases k 2; vm_compute; split; congruence.
    + vm_compute. split; congruence.
    + vm_compute. congruence.
    + unfold KB4. intros k Hk Hlt. assert (0 <= k < 2) as Hk2 by lia. clear Hk Hlt.
      range_cases k 2; vm_compute; congruence.
Qed.

Lemma demo_command s n :
  command_ok 4202496 4206592 8388000 8388200 4300005 (demo_boot s n) 4300000 4300000 (bytes "shell").
Proof.
  pose proof demo_locals as [L1 L2 _ _ _ _]. split; [| | | | |exact L1|exact L2].
  - vm_compute. reflexivity.
  - split; [apply is_cstr_dec; vm_compute; reflexivity|cbn; lia].
  - vm_compute. lia.
  - unfold stacks, ADDR_8MB. lia.
  - apply is_cstr_dec. vm_compute. reflexivity.
Qed.

Lemma demo_can_execute s n lq :
  0 <= process_count s < 6 -> deque (process_q s) lq -> Z.of_nat (length lq) < 6 -> 0 <= n ->
  (n < 3 \/ exists q lq' b, lq = q :: lq' /\ q <> NULL /\ pcb_heap s !! q = Some b) ->
  can_execute 4202496 4206592 8388300 8388000 8388200 4300005 shell_names 4300000 4300000
    (bytes "shell") 0 5000 (demo_boot s n) lq.
Proof.
  intros Hc Hq Hl Hn Hp.
  split; [apply demo_command| | |exact shell_dir|exact shell_file| |exact paging1_map|exact Hc
         |split; [exact Hq|exact Hl]|exact Hn|exact Hp].
  - vm_compute. lia.
  - vm_compute. split; congruence.
  - vm_compute. reflexivity.
Qed.

Lemma execute_boots_shells_witness :
  exists k', execute 4202496 4206592 8386800 8388300 8388000 8388200 8388400 8387000 4300005
      8386000 8386004 70 demo_pcb0 4300000 (demo_boot sched0 0) =
      Ok (k', Entered (UserEntry 134513384 USER_CS 710 138412028 USER_DS)) /\
    process_count (sch k') = 3 /\ primary_shell_count k' = 3.
Proof.
  assert (D : deque (process_q sched0) []).
  { split_and!; cbn; try done. intros k Hk. lia. }
  destruct (execute_boots_shells 4202496 4206592 8386800 8388300 8388000 8388200 8388400 8387000
    4300005 8386000 8386004 70 demo_pcb0 shell_names 4300000 4300000 (bytes "shell") 0 5000
    (demo_boot sched0 0) demo_locals
    (demo_can_execute sched0 0 [] ltac:(cbn; lia) D ltac:(cbn; lia) ltac:(lia) ltac:(left; lia))
    eq_refl eq_refl) as (k' & b1 & b2 & b3 & H1 & _ & _ & _ & H2 & H3 & _).
  exists k'. split; [|split; [exact H2|exact H3]].
  replace (entry_point _ _ 0) with 134513384 in H1; [exact H1|]. vm_compute. reflexivity.
Defined.

Lemma sched3_deque : deque (process_q sched3) [8364032; 8372224; 8380416].
Proof.
  split_and!; cbn; try done. intros k Hk.
  assert (k = 0 \/ k = 1 \/ k = 2) as [-> |[-> | ->]] by lia; done.
Qed.

Lemma execute_enters_witness :
  exists k' b, execute 4202496 4206592 8386800 8388300 8388000 8388200 8388400 8387000 4300005
      8386000 8386004 70 demo_pcb0 4300000 (demo_boot sched3 3) =
      Ok (k', Entered (UserEntry 134513384 USER_CS 710 138412028 USER_DS)) /\
    process_count (sch k') = 4 /\ pcb_heap (sch k') !! 8355840 = Some b /\ parent_ptr b = 8364032.
Proof.
  destruct (execute_enters 4202496 4206592 8386800 8388300 8388000 8388200 8388400 8387000
    4300005 8386000 8386004 70 demo_pcb0 shell_names 4300000 4300000 (bytes "shell") 0 5000
    (demo_boot sched3 3) 8364032 [8372224; 8380416] (demo_proc (replicate 8 demo_free_fd) 1)
    demo_locals (demo_can_execute sched3 3 _ ltac:(cbn; lia) sched3_deque ltac:(cbn; lia) ltac:(lia)
      ltac:(right; eexists _, _, _; split; [reflexivity|]; split; [unfold NULL; lia|]; reflexivity))
    ltac:(cbn; lia) eq_refl) as (k' & b & H1 & H2 & _ & _ & _ & _ & _ & _ & H3 & _ & H4 & _).
  exists k', b. split; [|split; [exact H2|split; [|exact H4]]].
  - replace (entry_point _ _ 0) with 134513384 in H1; [exact H1|]. vm_compute. reflexivity.
  - rewrite H3. apply lookup_insert_eq.
Defined.


Lemma demo_absent :
  command_ok 4202496 4206592 8388000 8388200 4300005 (demo_boot sched3 3) 4300016 4300016 (bytes "x").
Proof.
  pose proof demo_locals as [L1 L2 _ _ _ _]. split; [| | | | |exact L1|exact L2].
  - vm_compute. reflexivity.
  - split; [apply is_cstr_dec; vm_compute; reflexivity|cbn; lia].
  - vm_compute. lia.
  - unfold stacks, ADDR_8MB. lia.
  - apply is_cstr_dec. vm_compute. reflexivity.
Qed.

Lemma execute_refuses_witness :
  exists m, execute 4202496 4206592 8386800 8388300 8388000 8388200 8388400 8387000 4300005
      8386000 8386004 70 demo_pcb0 4300016 (demo_boot sched3 3) =
      Ok (with_mem (demo_boot sched3 3) m, Returned FAIL).
Proof.
  destruct (proj2 (proj2 (execute_refuses 4202496 4206592 8386800 8388300 8388000 8388200 8388400
    8387000 4300005 8386000 8386004 70 demo_pcb0 shell_names 4300016 4300016 (bytes "x")
    (demo_boot sched3 3) demo_locals
    ltac:(unfold on_stack, stacks, ADDR_8MB, apart, SIZEOF_PCB; split_and!; try lia;
          intros j Hj; rewrite pcb_addr_eq by lia; lia)
    ltac:(unfold apart; lia) ltac:(unfold scr_cursor, cursor_ok, in_grid; cbn; lia)))
    ltac:(cbn; lia) demo_absent) as (_ & _ & H).
  destruct (H ltac:(vm_compute; lia) ltac:(vm_compute; split; congruence) shell_dir) as [H2 _].
  destruct H2 as (m & _ & E).
  - change (num_dir_entries _) with 2. intros j Hj. range_cases j 2; vm_compute; congruence.
  - exists m. exact E.
Defined.
