(* ===== verification/Calls.v ===== *)
(** * handler.S, syscalls.c: the dispatch of system calls, getargs and vidmap

    [syscall] is the path of an [int 0x80] through [handler_syscall] and
    [sys_call_table]; its theorems are about the calls that fail, and about the
    argument and the screen that a process can ask for. *)

From S2P Require Import Prelude Mem Lib Screen Ports I8259 Rtc Paging.
From S2P Require Import Pcb Sched Filesys Console Keyboard Irq Terminal Kstate.
From S2P Require Import Syscalls Files Process Launch Exec.

(** How a system call ends: back in the caller with a value in [eax], in
    another program, or in [halt]. *)
Inductive sys_outcome : Type :=
| Ret (v : Z)
| Exec (o : exec_outcome)
| Halted (o : halt_outcome).

Section Dispatch.
Context `{Device}.
Context (pd_addr pt_addr kb_base cb de cmd prog exe lpcb shell_str empty_str k_esp k_ebp k_flags : Z)
  (h_esp h_ebp : Z).
Context (pcb0 : pcb) (iflag : bool) (fuel : nat).

Definition returns (r : res (kernel * Z)) : res (kernel * sys_outcome) :=
  '(k, v) ← r; Ok (k, Ret v).

(** The entries of the table, in its order; [ebx], [ecx] and [edx] are the
    arguments. *)
Definition sys_call_table (eax ebx ecx edx : Z) (k : kernel) : res (kernel * sys_outcome) :=
  if eax =? 1 then
    '(k, o) ← halt pd_addr pt_addr cb de cmd prog exe lpcb shell_str empty_str k_esp k_ebp k_flags h_esp h_ebp pcb0 k;
    Ok (k, Halted o)
  else if eax =? 2 then
    '(k, o) ← execute pd_addr pt_addr cb de cmd prog exe lpcb empty_str k_esp k_ebp k_flags pcb0 ebx k;
    Ok (k, match o with Returned v => Ret v | o => Exec o end)
  else if eax =? 3 then returns (read pd_addr pt_addr kb_base de iflag fuel (s32 ebx) ecx (s32 edx) k)
  else if eax =? 4 then returns (write pd_addr pt_addr (s32 ebx) ecx (s32 edx) k)
  else if eax =? 5 then returns (open pd_addr pt_addr de ebx k)
  else if eax =? 6 then returns (close (s32 ebx) k)
  else if eax =? 7 then returns (getargs pd_addr pt_addr ebx (s32 ecx) k)
  else if eax =? 8 then returns (vidmap pd_addr pt_addr ebx k)
  else if eax =? 9 then Ok (k, Ret set_handler)
  else Ok (k, Ret sigreturn).

(** The comparisons of [handler_syscall] are signed; interrupts are enabled
    before the call. *)
Definition syscall (eax ebx ecx edx : Z) (k : kernel) : res (kernel * sys_outcome) :=
  if (s32 eax <? 1) || (10 <? s32 eax) then Ok (k, Ret (-1))
  else sys_call_table eax ebx ecx edx (with_con k (with_tr (con k) (sti (tr (con k))))).
End Dispatch.

(** ** getargs *)

Lemma getargs_spec pd_addr pt_addr k b l buf nbytes :
  let n := process_count (sch k) in
  1 <= n <= 6 -> pcb_heap (sch k) !! pcb_addr n = Some b ->
  is_cstr (kmem k) (argbuf_addr (pcb_addr n)) l ->
  argument_length b = Z.of_nat (length l) + 1 ->
  l <> [] -> user_window pd_addr pt_addr n (pgs k) ->
  Z.of_nat (length l) + 1 <= nbytes <= 1024 ->
  134217728 <= buf -> buf + nbytes <= 138412032 ->
  exists m, getargs pd_addr pt_addr buf nbytes k = Ok (with_mem k m, SUCCESS) /\
    is_cstr m (user_phys k buf) l /\
    same_outside (user_phys k buf) (user_phys k buf + nbytes) (kmem k) m.
Proof.
  intros n Hn Hb Hl Ha Hne W Hby Hb1 Hb2.
  assert (En : pcb_addr n = 8388608 - n * 8192) by (apply pcb_addr_eq; lia).
  assert (Eb : argbuf_addr (pcb_addr n) = 8388608 - n * 8192 + 452).
  { unfold argbuf_addr. rewrite En. apply u32_small. lia. }
  assert (Hlen : 0 < Z.of_nat (length l)) by (destruct l; [done|cbn; lia]).
  assert (Ep : user_phys k buf = 4194304 + n * 4194304 + (buf - 134217728)).
  { unfold user_phys. fold n. by rewrite user_base_eq. }
  destruct (touch_user pd_addr pt_addr (pgs k) n buf nbytes W Hb1 Hb2) as [T X].
  unfold getargs, current_pblock, pcb_at, NULL. fold n. rewrite Hb. cbn [of_opt].
  destruct (Z.eqb_spec buf 0); [lia|]. rewrite bind_ok, Ha.
  destruct (Z.leb_spec (Z.of_nat (length l) + 1) 1); [lia|]. rewrite u32_small by lia.
  destruct (Z.ltb_spec nbytes (Z.of_nat (length l) + 1)); [lia|].
  rewrite T, bind_ok, X by lia.
  change (user_base n + (buf - 134217728)) with (user_phys k buf). rewrite Eb in *.
  assert (Wm := memcpy_writes (kmem k) (user_phys k buf) (8388608 - n * 8192 + 452) nbytes).
  unfold in_space, fwd_ok in Wm. do 4 (specialize (Wm ltac:(lia))).
  clear T X. set (d := user_phys k buf) in *. clearbody d.
  eexists. split; [reflexivity|]. split.
  - eapply is_cstr_move; [|exact Hl]. intros i Hi. rewrite (writes_in _ _ _ _ _ i Wm) by lia.
    reflexivity.
  - intros a Haa Ho. apply (writes_out _ _ _ _ _ _ Wm); [done|lia].
Qed.

(** The guards that [read] and [write] share. *)
Lemma guards {A} (k : kernel) (b : pcb) (fd buf std : Z) (act : res A) (fail : res A) :
  pcb_heap (sch k) !! current_pblock k = Some b -> length (fde b) = 8%nat ->
  ~ (0 <= fd < 8) \/ buf = NULL \/ fd = std \/
    (exists e, aget (fde b) fd = Some e /\ Z.land (in_use e) USE = 0) ->
  (if (0 <=? fd) && (fd <? OPS_SIZE) then
     if negb (current_pblock k =? NULL) && negb (buf =? NULL) then
       use ← check_use k fd;
       if negb (Z.land use USE =? 0) then if negb (fd =? std) then act else fail else fail
     else fail
   else fail) = fail.
Proof.
  intros Hb Hl Ho. unfold OPS_SIZE.
  destruct (Z.leb_spec 0 fd), (Z.ltb_spec fd 8); cbn [andb]; try done.
  destruct (negb (current_pblock k =? NULL)); [|done].
  destruct (Z.eqb_spec buf NULL); cbn [negb andb]; [done|].
  destruct (aget (fde b) fd) as [e|] eqn:He.
  - unfold check_use, fd_of, pcb_at. rewrite Hb. cbn [of_opt].
    rewrite bind_ok, (get_at_ok _ _ _ He), !bind_ok.
    destruct (Z.eqb_spec (Z.land (in_use e) USE) 0); cbn [negb]; [done|].
    destruct (Z.eqb_spec fd std); cbn [negb]; [done|].
    destruct Ho as [?|[?|[?|(e' & He' & E0)]]]; try lia; congruence.
  - exfalso. rewrite aget_lookup in He by lia. apply lookup_ge_None in He. lia.
Qed.

(** A command with one space. *)
Lemma space_positions_two name arg :
  ASCII_SPACE ∉ name -> ASCII_SPACE ∉ arg ->
  space_positions (name ++ ASCII_SPACE :: arg) = [Z.of_nat (length name)].
Proof.
  intros H1 H2. unfold space_positions. rewrite length_app. cbn [length].
  replace (Z.of_nat (length name + S (length arg)))
    with (Z.of_nat (length name) + (1 + Z.of_nat (length arg))) by lia.
  assert (Hget : forall (l : list Z) i, ASCII_SPACE ∉ l -> aget l i <> Some ASCII_SPACE).
  { intros l i Hl E. unfold aget in E. destruct (0 <=? i); [|done].
    by apply list_elem_of_lookup_2 in E. }
  assert (Hno : forall s n, 0 <= n -> (forall i, s <= i < s + n -> aget (name ++ ASCII_SPACE :: arg) i <> Some ASCII_SPACE) ->
    filter (fun i => aget (name ++ ASCII_SPACE :: arg) i = Some ASCII_SPACE) (seqZ s n) = []).
  { intros s n Hn Hi. destruct (filter _ _) as [|x r] eqn:E; [done|]. exfalso.
    assert (Hx : x ∈ x :: r) by set_solver. rewrite <- E in Hx.
    apply list_elem_of_filter in Hx as [Hx Hm]. apply elem_of_seqZ in Hm. exact (Hi x Hm Hx). }
  rewrite seqZ_app, filter_app, (Hno 0) by (lia || (intros i Hi; rewrite aget_lookup, lookup_app_l by lia;
    rewrite <- aget_lookup by lia; by apply Hget)).
  rewrite seqZ_app, filter_app by lia. change (seqZ (0 + ?x) 1) with [0 + x].
  rewrite filter_cons_True.
  - rewrite Hno; [cbn; f_equal; lia|lia|]. intros i Hi. rewrite aget_lookup, lookup_app_r by lia.
    replace (Z.to_nat i - length name)%nat with (S (Z.to_nat (i - Z.of_nat (length name) - 1))) by lia.
    change ((ASCII_SPACE :: arg) !! S ?j) with (arg !! j). rewrite <- aget_lookup by lia. by apply Hget.
  - rewrite aget_lookup, lookup_app_r by lia.
    by replace (Z.to_nat (0 + Z.of_nat (length name)) - length name)%nat with O by lia.
Qed.

Lemma arg_of_two name arg :
  arg_of (name ++ ASCII_SPACE :: arg) [Z.of_nat (length name)] = arg.
Proof.
  cbn [arg_of]. rewrite Nat2Z.id. rewrite drop_app_ge by lia.
  by replace (S (length name) - length name)%nat with 1%nat by lia.
Qed.

(** ** Properties *)

(** C9 A process gets the argument it was started with: [execute] of
    [name arg] enters a child, and in every state that differs from its first
    by what a process can do to its own page, [getargs] copies [arg] with its
    terminator to the child's buffer and changes no memory beyond it. *)
Theorem getargs_roundtrip (pd_addr pt_addr cb de cmd prog exe lpcb empty_str k_esp k_ebp k_flags : Z)
    (pcb0 : pcb) (names : Z -> list Z) (param p : Z) (name arg : list Z) (inode flen : Z)
    (k : kernel) (q : Z) (lq : list Z) :
  ASCII_SPACE ∉ name -> ASCII_SPACE ∉ arg -> arg <> [] ->
  locals_ok de cmd prog exe lpcb pcb0 ->
  can_execute pd_addr pt_addr de cmd prog empty_str names param p (name ++ ASCII_SPACE :: arg)
    inode flen k (q :: lq) ->
  3 <= primary_shell_count k ->
  let n := process_count (sch k) + 1 in
  exists k' entry, execute pd_addr pt_addr cb de cmd prog exe lpcb empty_str k_esp k_ebp k_flags pcb0 param k =
      Ok (k', Entered entry) /\
    forall k2 buf nbytes,
      sch k2 = sch k' -> pgs k2 = pgs k' ->
      same_outside (user_base n) (user_base n + 4194304) (kmem k') (kmem k2) ->
      Z.of_nat (length arg) + 1 <= nbytes <= 1024 ->
      134217728 <= buf -> buf + nbytes <= 138412032 ->
      exists m, getargs pd_addr pt_addr buf nbytes k2 = Ok (with_mem k2 m, SUCCESS) /\
        is_cstr m (user_phys k2 buf) arg /\
        same_outside (user_phys k2 buf) (user_phys k2 buf + nbytes) (kmem k2) m.
Proof.
  intros Hn1 Hn2 Harg Hlo Hce Hsh n. pose proof (ce_count _ _ _ _ _ _ _ _ _ _ _ _ _ _ Hce) as Hc.
  set (l := name ++ ASCII_SPACE :: arg) in *.
  destruct (execute_start pd_addr pt_addr cb de cmd prog exe lpcb empty_str k_esp k_ebp k_flags pcb0 names
    param p l inode flen k _ Hlo Hce) as (m & S & R & ->).
  pose proof (lo_init _ _ _ _ _ _ Hlo) as Hi.
  destruct (launch_loop_one _ _ cmd lpcb k_esp k_ebp l _ inode flen _ _ pcb0 R)
    as (k' & E & L); [exact (Z.le_trans 2 3 _ ltac:(lia) Hsh)|rewrite Hi; lia|].
  set (b := new_pcb _ _ _ _ _ _ _ _) in *. rewrite E, bind_ok. cbv zeta.
  destruct L as [L1 L2 _ L4 _ _ L7 _ _ _ _]. change (sch (with_mem k m)) with (sch k) in *.
  fold n in L1, L2, L4, L7. unfold l in *. rewrite (space_positions_two _ _ Hn1 Hn2), arg_of_two in L7.
  eexists _, _. split; [reflexivity|]. intros k2 buf nbytes Es Ep Em Hb H1 H2.
  cbn [with_con with_esp0 sch pgs] in Es, Ep.
  change (kmem (with_con (with_esp0 k' _) _)) with (kmem k') in Em.
  assert (Ha : argbuf_addr (pcb_addr n) = 8388608 - n * 8192 + 452).
  { unfold argbuf_addr. rewrite pcb_addr_eq by lia. apply u32_small. lia. }
  apply (getargs_spec _ _ k2 b arg buf nbytes); rewrite ?Es, ?Ep, ?L1; try done; try lia.
  - rewrite L4. apply lookup_insert_eq.
  - eapply is_cstr_ext; [|exact L7]. rewrite Ha. intros i Hi2.
    assert (Z.of_nat (length arg) <= 1023) by lia.
    apply Em; [unfold addr; lia|]. rewrite user_base_eq by lia. lia.
  - unfold b. cbn [new_pcb argument_length]. by rewrite (space_positions_two _ _ Hn1 Hn2), arg_of_two.
Qed.

(** C26 [vidmap] gives a process the screen: a pointer in its page receives the
    address of video memory, and the four pages there are mapped for users at
    their own addresses, so the process then reads and writes the screen.  A
    pointer outside the page is refused; one whose last byte is outside is not,
    and the store faults. *)
Theorem vidmap_correct (pd_addr pt_addr p : Z) (k : kernel) :
  1 <= process_count (sch k) <= 6 -> kernel_map pd_addr pt_addr (pgs k) ->
  user_window pd_addr pt_addr (process_count (sch k)) (pgs k) -> 0 <= p < 4294967296 ->
  (134217728 <= p <= 138412028 ->
   exists m, vidmap pd_addr pt_addr p k = Ok (with_mem k m, SUCCESS) /\
     load32 m (user_phys k p) = VIDEO /\
     same_outside (user_phys k p) (user_phys k p + 4) (kmem k) m /\
     forall a, VIDEO <= a < VIDEO + 4096 -> walk pd_addr pt_addr (pgs k) a = Some (a, true)) /\
  (p < 134217728 \/ 138412032 <= p -> vidmap pd_addr pt_addr p k = Ok (k, FAIL)) /\
  (138412028 < p < 138412032 -> vidmap pd_addr pt_addr p k = Fault).
Proof.
  intros Hn K W Hp. unfold vidmap, TOP_PAGE, BOTTOM_PAGE, NULL. rewrite u32_small by lia.
  split; [|split].
  - intros Hi. destruct (touch_user pd_addr pt_addr (pgs k) _ p 4 W ltac:(lia) ltac:(lia)) as [T X].
    destruct (Z.ltb_spec p 134217728); [lia|]. destruct (Z.leb_spec 138412032 p); [lia|].
    destruct (Z.eqb_spec p 0); [lia|]. rewrite T, bind_ok, X by lia.
    change (user_base _ + _) with (user_phys k p).
    assert (Ep : user_phys k p = 4194304 + process_count (sch k) * 4194304 + (p - 134217728)).
    { unfold user_phys. by rewrite user_base_eq. }
    eexists. split; [reflexivity|]. split; [|split].
    + rewrite load32_store32 by lia. done.
    + apply same_outside_store32; lia.
    + unfold VIDEO. intros a Ha. rewrite (kernel_walk _ _ _ _ K) by lia.
      destruct (Z.leb_spec 4194304 a), (Z.ltb_spec a 8388608), (Z.leb_spec 753664 a),
        (Z.ltb_spec a 770048); (done || lia).
  - intros Ho. destruct (Z.ltb_spec p 134217728); [done|].
    destruct (Z.leb_spec 138412032 p); [done|lia].
  - intros Hi. destruct (Z.ltb_spec p 134217728); [lia|]. destruct (Z.leb_spec 138412032 p); [lia|].
    destruct (Z.eqb_spec p 0); [lia|]. unfold touch.
    destruct (Z.leb_spec 4 0); [lia|]. destruct (Z.eqb_spec (p / 4194304) ((p + 4 - 1) / 4194304)).
    + exfalso. zdm.
    + by rewrite andb_false_r.
Qed.

(** Interrupts enabled, as the call finds the kernel. *)
Definition with_sti (k : kernel) : kernel := with_con k (with_tr (con k) (sti (tr (con k)))).

(** The calls that leave the kernel as it was see the same process. *)
Lemma running_sti pd_addr pt_addr de names k b :
  running pd_addr pt_addr de names k b -> running pd_addr pt_addr de names (with_sti k) b.
Proof. intros [H1 H2 H3 H4 H5 H6 H7 H8]. by split. Qed.

(** [n] bytes of the user page. *)
Definition in_page (buf n : Z) : Prop := 134217728 <= buf /\ buf + n <= 138412032.

(** A number of a descriptor that exists reaches the driver or is refused. *)
Lemma write_driver `{Device} pd_addr pt_addr k b fd buf n e fn :
  pcb_heap (sch k) !! current_pblock k = Some b -> aget (fde b) fd = Some e ->
  fop_call (fops k) (fop_ptr e) function_write = Ok fn ->
  write pd_addr pt_addr fd buf n k = Ok (k, FAIL) \/
  write pd_addr pt_addr fd buf n k = call_write pd_addr pt_addr fn buf n k.
Proof.
  intros Hb He Hf. unfold write, check_use, fd_of, pcb_at. rewrite Hb. cbn [of_opt]. rewrite !bind_ok.
  rewrite (get_at_ok _ _ _ He), !bind_ok, Hf.
  destruct ((0 <=? fd) && (fd <? OPS_SIZE)); [|by left].
  destruct (negb (current_pblock k =? NULL) && negb (buf =? NULL)); [|by left].
  destruct (negb (Z.land (in_use e) USE =? 0)); [|by left]. destruct (negb (fd =? 0)); [|by left]. by right.
Qed.


(** ** Witnesses *)

Lemma vidmap_correct_witness :
  exists m, vidmap 4202496 4206592 134217728 (demo_kernel (demo_proc [] 1) ∅) =
    Ok (with_mem (demo_kernel (demo_proc [] 1) ∅) m, SUCCESS) /\ load32 m 8388608 = VIDEO.
Proof.
  destruct (map_user_ok 4202496 4206592 1 paging1 paging1_map ltac:(lia)) as (g' & E & K & _).
  assert (Eg : demo_paging = g') by (unfold demo_paging; by rewrite E). rewrite <- Eg in K.
  destruct (vidmap_correct 4202496 4206592 134217728 (demo_kernel (demo_proc [] 1) ∅) ltac:(cbn; lia)
    K demo_window ltac:(lia)) as [H _].
  destruct (H ltac:(lia)) as (m & H1 & H2 & _). exists m. split; [exact H1|exact H2].
Defined.

Lemma demo_command_arg :
  command_ok 4202496 4206592 8388000 8388200 4300005 (demo_boot sched3 3) 4300032 4300032
    (bytes "shell x").
Proof.
  pose proof demo_locals as [L1 L2 _ _ _ _]. split; [| | | | |exact L1|exact L2].
  - vm_compute. reflexivity.
  - split; [apply is_cstr_dec; vm_compute; reflexivity|cbn; lia].
  - vm_compute. lia.
  - unfold stacks, ADDR_8MB. lia.
  - apply is_cstr_dec. vm_compute. reflexivity.
Qed.

Lemma demo_can_execute_arg :
  can_execute 4202496 4206592 8388300 8388000 8388200 4300005 shell_names 4300032 4300032
    (bytes "shell" ++ ASCII_SPACE :: bytes "x") 0 5000 (demo_boot sched3 3)
    [8364032; 8372224; 8380416].
Proof.
  split; [exact demo_command_arg| | |exact shell_dir|exact shell_file| |exact paging1_map|cbn; lia
         |split; [exact sched3_deque|cbn; lia]|cbn; lia|].
  - vm_compute. lia.
  - vm_compute. split; congruence.
  - vm_compute. reflexivity.
  - right. eexists _, _, _. split; [reflexivity|]. split; [unfold NULL; lia|]. reflexivity.
Qed.

Lemma getargs_roundtrip_witness :
  exists k' entry m, execute 4202496 4206592 8386800 8388300 8388000 8388200 8388400 8387000 4300005
      8386000 8386004 70 demo_pcb0 4300032 (demo_boot sched3 3) = Ok (k', Entered entry) /\
    getargs 4202496 4206592 134217728 64 k' = Ok (with_mem k' m, SUCCESS) /\
    is_cstr m (user_phys k' 134217728) (bytes "x").
Proof.
  destruct (getargs_roundtrip 4202496 4206592 8386800 8388300 8388000 8388200 8388400 8387000
    4300005 8386000 8386004 70 demo_pcb0 shell_names 4300032 4300032 (bytes "shell") (bytes "x") 0 5000
    (demo_boot sched3 3) 8364032 [8372224; 8380416]
    ltac:(apply (bool_decide_unpack _); vm_compute; exact I)
    ltac:(apply (bool_decide_unpack _); vm_compute; exact I) ltac:(done) demo_locals
    demo_can_execute_arg ltac:(cbn; lia)) as (k' & e & E & H).
  destruct (H k' 134217728 64 eq_refl eq_refl (same_outside_refl _ _ _) ltac:(cbn; lia) ltac:(lia)
    ltac:(lia)) as (m & H1 & H2 & _).
  exists k', e, m. split; [exact E|]. split; [exact H1|exact H2].
Defined.

