(* ===== verification/Boot.v ===== *)
(** * kernel.c, multiboot.h, x86_desc.h: the kernel from its entry to the shells

    [entry] is the C function the boot code calls: it prints what the boot
    loader passed, fills the two runtime entries of the GDT, initialises every
    component in the order of the code, and executes ["shell"].  The state is a
    [machine]: the kernel's globals, the tables of x86_desc.S it writes, and the
    registers [lldt] and [ltr] load. *)

From S2P Require Import Prelude Mem Lib Screen Ports I8259 Rtc Pit.
From S2P Require Import Paging Pcb Sched Idt Filesys Console Keyboard Irq.
From S2P Require Import Terminal Kstate Syscalls Files Process Launch Exec.

(** ** Descriptors (x86_desc.h) *)

Definition KERNEL_TSS : Z := 48.
Definition KERNEL_LDT : Z := 56.
Definition TSS_SIZE : Z := 104.

Record seg_desc : Type := SegDesc {
  seg_lim_15_00 : Z; base_15_00 : Z; base_23_16 : Z; seg_type : Z; seg_sys : Z; seg_dpl : Z;
  seg_present : Z; seg_lim_19_16 : Z; seg_avail : Z; seg_reserved : Z; seg_opsize : Z;
  seg_granularity : Z; base_31_24 : Z }.

Definition SET_LDT_PARAMS (str : seg_desc) (addr lim : Z) : seg_desc :=
  SegDesc (Z.land lim 65535) (Z.land addr 65535) (Z.shiftr (Z.land addr 16711680) 16)
    (seg_type str) (seg_sys str) (seg_dpl str) (seg_present str)
    (Z.shiftr (Z.land lim 983040) 16) (seg_avail str) (seg_reserved str) (seg_opsize str)
    (seg_granularity str) (Z.shiftr (Z.land addr 4278190080) 24).

Definition SET_TSS_PARAMS (str : seg_desc) (addr lim : Z) : seg_desc :=
  SegDesc (Z.land lim 65535) (Z.land addr 65535) (Z.shiftr (Z.land addr 16711680) 16)
    (seg_type str) (seg_sys str) (seg_dpl str) (seg_present str)
    (Z.shiftr (Z.land lim 983040) 16) (seg_avail str) (seg_reserved str) (seg_opsize str)
    (seg_granularity str) (Z.shiftr (Z.land addr 4278190080) 24).

(** The two descriptors [entry] builds; [d] is the uninitialised local. *)
Definition the_ldt_desc (d : seg_desc) (ldt ldt_size : Z) : seg_desc :=
  SET_LDT_PARAMS (SegDesc (seg_lim_15_00 d) (base_15_00 d) (base_23_16 d) 2 0 0 1
    (seg_lim_19_16 d) 0 0 1 0 (base_31_24 d)) ldt ldt_size.

(** The four bits of [seg_lim_19_16] keep the low end of what is stored. *)
Definition the_tss_desc (d : seg_desc) (tss tss_size : Z) : seg_desc :=
  SET_TSS_PARAMS (SegDesc (Z.land TSS_SIZE 65535) (base_15_00 d) (base_23_16 d) 9 0 0 1
    (Z.land (Z.land TSS_SIZE 983040) 15) 0 0 0 0 (base_31_24 d)) tss tss_size.

(** ** The boot loader's information (multiboot.h) *)

Definition MULTIBOOT_BOOTLOADER_MAGIC : Z := 732803074.  (* 0x2BADB002 *)

Definition mbi_flags (m : mem) (mbi : Z) : Z := load32 m mbi.
Definition mbi_mem_lower (m : mem) (mbi : Z) : Z := load32 m (mbi + 4).
Definition mbi_mem_upper (m : mem) (mbi : Z) : Z := load32 m (mbi + 8).
Definition mbi_boot_device (m : mem) (mbi : Z) : Z := load32 m (mbi + 12).
Definition mbi_cmdline (m : mem) (mbi : Z) : Z := load32 m (mbi + 16).
Definition mbi_mods_count (m : mem) (mbi : Z) : Z := load32 m (mbi + 20).
Definition mbi_mods_addr (m : mem) (mbi : Z) : Z := load32 m (mbi + 24).
Definition mbi_elf_sec (mbi : Z) : Z := mbi + 28.
Definition mbi_mmap_length (m : mem) (mbi : Z) : Z := load32 m (mbi + 44).
Definition mbi_mmap_addr (m : mem) (mbi : Z) : Z := load32 m (mbi + 48).
Definition MODULE_SIZE : Z := 16.
Definition mod_start (m : mem) (mod_ : Z) : Z := load32 m mod_.
Definition mod_end (m : mem) (mod_ : Z) : Z := load32 m (mod_ + 4).

Definition CHECK_FLAG (flags bit : Z) : bool := negb (Z.land flags (Z.shiftl 1 bit) =? 0).

(** ** The machine *)

Record machine : Type := Machine {
  kern : kernel; idt : list idt_desc; ldt_desc_ptr : seg_desc; tss_desc_ptr : seg_desc;
  tss_ldt_segment_selector : Z; tss_ss0 : Z; ldtr : Z; task_register : Z }.

Definition with_kern (s : machine) (k : kernel) : machine :=
  Machine k (idt s) (ldt_desc_ptr s) (tss_desc_ptr s) (tss_ldt_segment_selector s) (tss_ss0 s)
    (ldtr s) (task_register s).
Definition with_active (c : console) (a : Z) : console :=
  Console (scr c) (tr c) (k_pic c) (k_rtc c) (kbd c) (virtual_x c) (virtual_y c) a
    (display_terminal c).

(** How [entry] ends: an early return, user mode (for good), or the [hlt]
    loop after [execute] has returned. *)
Inductive boot_outcome : Type :=
| BootReturned
| BootUser (e : user_entry)
| BootSpins (ret : Z).

(** ** What is printed *)

Section Info.
Context (cb mbi : Z).

Definition print_flags (k : kernel) : res kernel :=
  k ← kprintf cb (bytes "flags = 0x%#x" ++ [10]) [mbi_flags (kmem k) mbi] k;
  k ← if CHECK_FLAG (mbi_flags (kmem k) mbi) 0 then
        kprintf cb (bytes "mem_lower = %uKB, mem_upper = %uKB" ++ [10])
          [mbi_mem_lower (kmem k) mbi; mbi_mem_upper (kmem k) mbi] k
      else Ok k;
  k ← if CHECK_FLAG (mbi_flags (kmem k) mbi) 1 then
        kprintf cb (bytes "boot_device = 0x%#x" ++ [10]) [mbi_boot_device (kmem k) mbi] k
      else Ok k;
  if CHECK_FLAG (mbi_flags (kmem k) mbi) 2 then
    kprintf cb (bytes "cmdline = %s" ++ [10]) [mbi_cmdline (kmem k) mbi] k
  else Ok k.

(** One module; a [char] is signed. *)
Definition print_module (mod_count mod_ : Z) (k : kernel) : res kernel :=
  k ← kprintf cb (bytes "Module %d loaded at address: 0x%#x" ++ [10])
        [mod_count; mod_start (kmem k) mod_] k;
  k ← kprintf cb (bytes "Module %d ends at address: 0x%#x" ++ [10])
        [mod_count; mod_end (kmem k) mod_] k;
  k ← kprintf cb (bytes "First few bytes of module:" ++ [10]) [] k;
  k ← forM (seqZ 0 16) (fun k i =>
        kprintf cb (bytes "0x%x ")
          [u32 (s8 (load8 (kmem k) (u32 (mod_start (kmem k) mod_ + i))))] k) k;
  kprintf cb [10] [] k.

Definition print_modules (mod_ : Z) (k : kernel) : res kernel :=
  while (fun '(k, mod_count, mod_) =>
    if u32 mod_count <? mbi_mods_count (kmem k) mbi then
      continue (k ← print_module (u32 mod_count) mod_ k;
                Ok (k, s32 (mod_count + 1), u32 (mod_ + MODULE_SIZE)))
    else inr (Ok k)) (k, 0, mod_).

Definition print_elf (k : kernel) : res kernel :=
  let e := mbi_elf_sec mbi in
  kprintf cb (bytes "elf_sec: num = %u, size = 0x%#x, addr = 0x%#x, shndx = 0x%#x" ++ [10])
    [load32 (kmem k) e; load32 (kmem k) (e + 4); load32 (kmem k) (e + 8); load32 (kmem k) (e + 12)] k.

Definition print_mmap (k : kernel) : res kernel :=
  k ← kprintf cb (bytes "mmap_addr = 0x%#x, mmap_length = 0x%x" ++ [10])
        [mbi_mmap_addr (kmem k) mbi; mbi_mmap_length (kmem k) mbi] k;
  while (fun '(k, mmap) =>
    let m := kmem k in
    if mmap <? u32 (mbi_mmap_addr m mbi + mbi_mmap_length m mbi) then
      continue
        (k ← kprintf cb (bytes " size = 0x%x,     base_addr = 0x%#x%#x" ++ [10]
                         ++ bytes "     type = 0x%x,  length    = 0x%#x%#x" ++ [10])
               [load32 m mmap; load32 m (mmap + 8); load32 m (mmap + 4); load32 m (mmap + 20);
                load32 m (mmap + 16); load32 m (mmap + 12)] k;
         Ok (k, u32 (mmap + load32 (kmem k) mmap + 4)))
    else inr (Ok k)) (k, mbi_mmap_addr (kmem k) mbi).
End Info.

(** ** The initialisation *)

Section Entry.
Context `{Device}.
Context (handler handler_irq : Z -> Z) (handler_syscall : Z).
Context (pd_addr pt_addr ldt ldt_size tss tss_size : Z).
(** The locals of [entry] and of [execute]. *)
Context (cb uninit_start : Z) (d1 d2 : seg_desc).
Context (ecb de cmd prog exe lpcb shell_str empty_str k_esp k_ebp k_flags : Z) (pcb0 : pcb).

Definition init_descriptors (s : machine) : machine :=
  Machine (with_esp0 (kern s) ADDR_8MB) (idt s) (the_ldt_desc d1 ldt ldt_size)
    (the_tss_desc d2 tss tss_size) KERNEL_LDT KERNEL_DS KERNEL_LDT KERNEL_TSS.

Definition init_devices (c : console) : res console :=
  let c := with_tr c (i8259_init (tr c)) in
  let '(p, t) := enable_irq 8 (k_pic c) (tr c) in
  let '(p, t) := enable_irq 2 p t in
  let '(p, t) := disable_irq 0 p t in
  '(p, t) ← pit_init 19 p t;
  let c := with_pic c p t in
  let '(r, t) := rtc_init (k_rtc c) (tr c) in
  let c := with_rtc c r t in
  '(c, _) ← term_open c;
  Ok c.

Definition init_kernel (file_sys_start : Z) (k : kernel) : res kernel :=
  c ← init_devices (con k);
  let k := with_con k c in
  let k := with_sch k (with_count (sch k) 0) in
  let k := with_con k (with_display (con k) 0) in
  let k := with_con k (with_active (con k) 0) in
  g ← init_page pd_addr pt_addr (pgs k);
  let k := with_pgs k g in
  fs ← filesys_init (kmem k) file_sys_start (fs_info k);
  let k := with_fs k fs in
  q ← pq_init (process_q (sch k));
  let k := with_sch k (with_queue (sch k) q) in
  k ← kprintf cb (bytes "Enabling Interrupts" ++ [10]) [] k;
  let k := with_con k (with_tr (con k) (sti (tr (con k)))) in
  Ok (with_fops k (systemcalls_initialize (fops k))).

Definition entry (magic mbi : Z) (s : machine) : res (machine * boot_outcome) :=
  let k := with_screen (kern s) (clear (scr (con (kern s)))) in
  if negb (magic =? MULTIBOOT_BOOTLOADER_MAGIC) then
    k ← kprintf cb (bytes "Invalid magic number: 0x%#x" ++ [10]) [magic] k;
    Ok (with_kern s k, BootReturned)
  else
    k ← print_flags cb mbi k;
    '(k, file_sys_start) ←
      if CHECK_FLAG (mbi_flags (kmem k) mbi) 3 then
        let mod_ := mbi_mods_addr (kmem k) mbi in
        let file_sys_start := mod_start (kmem k) mod_ in
        k ← print_modules cb mbi mod_ k;
        Ok (k, file_sys_start)
      else Ok (k, uninit_start);
    if CHECK_FLAG (mbi_flags (kmem k) mbi) 4 && CHECK_FLAG (mbi_flags (kmem k) mbi) 5 then
      k ← kprintf cb (bytes "Both bits 4 and 5 are set." ++ [10]) [] k;
      Ok (with_kern s k, BootReturned)
    else
      k ← if CHECK_FLAG (mbi_flags (kmem k) mbi) 5 then print_elf cb mbi k else Ok k;
      k ← if CHECK_FLAG (mbi_flags (kmem k) mbi) 6 then print_mmap cb mbi k else Ok k;
      let s := init_descriptors (with_kern s k) in
      idt ← idt_init handler handler_irq handler_syscall (idt s);
      let s := Machine (kern s) idt (ldt_desc_ptr s) (tss_desc_ptr s) (tss_ldt_segment_selector s)
                 (tss_ss0 s) (ldtr s) (task_register s) in
      k ← init_kernel file_sys_start (kern s);
      '(k, o) ← execute pd_addr pt_addr ecb de cmd prog exe lpcb empty_str k_esp k_ebp k_flags pcb0
                  shell_str k;
      Ok (with_kern s k, match o with
                         | Returned v => BootSpins v
                         | Entered e => BootUser e
                         end).
End Entry.

(** ** Printing changes the screen only *)

Section Calm.
Context (cb : Z).
Hypothesis Hcb : on_stack cb 64.

(** The bytes printing leaves alone. *)
Definition still (a n : Z) : Prop :=
  in_space a n /\ off_screen a n /\ apart cb 64 a n.

Definition calm (k k' : kernel) : Prop :=
  exists s, k' = with_screen k s /\ scr_cursor s /\
    forall a, still a 1 -> load8 (vram s) a = load8 (kmem k) a.

Lemma calm_refl k : scr_cursor (scr (con k)) -> calm k k.
Proof. intros Hc. exists (scr (con k)). by destruct k as [[] ? ? ? ? ? ? ? ?]. Qed.

Lemma calm_trans k1 k2 k3 : calm k1 k2 -> calm k2 k3 -> calm k1 k3.
Proof.
  intros (s & -> & Hc & Hs) (s' & -> & Hc' & Hs'). exists s'. split; [done|]. split; [done|].
  intros a Ha. rewrite Hs' by done. by apply Hs.
Qed.

Lemma calm_cursor k k' : calm k k' -> scr_cursor (scr (con k')).
Proof. by intros (s & -> & Hc & _). Qed.

Lemma calm_byte k k' a : calm k k' -> still a 1 -> load8 (kmem k') a = load8 (kmem k) a.
Proof. intros (s & -> & _ & Hs) Ha. by apply Hs. Qed.

Lemma still_part a n i j : still a n -> 0 <= i -> 0 <= j -> i + j <= n -> still (a + i) j.
Proof. unfold still, in_space, off_screen, apart. lia. Qed.

Lemma calm_load32 k k' a : calm k k' -> still a 4 -> load32 (kmem k') a = load32 (kmem k) a.
Proof.
  intros C Ha. apply load32_ext. intros i Hi. apply (calm_byte _ _ _ C).
  by apply (still_part _ 4); [|lia..].
Qed.

Lemma calm_field k k' a n i :
  calm k k' -> still a n -> 0 <= i -> i + 4 <= n -> load32 (kmem k') (a + i) = load32 (kmem k) (a + i).
Proof. intros C Ha Hi Hn. apply (calm_load32 _ _ _ C). by apply (still_part _ n); [|lia..]. Qed.

Lemma strings_calm strs k k' :
  calm k k' -> strings_at cb strs (kmem k) -> strings_at cb strs (kmem k').
Proof.
  intros C Hs a l Hal. destruct (Hs a l Hal) as (H1 & H2 & H3 & H4 & H5). split_and!; try done.
  eapply is_cstr_ext; [|exact H1]. intros i Hi. apply (calm_byte _ _ _ C).
  unfold still, in_space, off_screen, apart in *. lia.
Qed.

Lemma shows_calm k k' out : scr_cursor (scr (con k)) -> shows cb k k' out -> calm k k'.
Proof.
  intros Hc (s & -> & Hx & Hy & Hm). exists s. split; [done|].
  pose proof (foldl_putc_cursor out _ Hc) as Hc'. split.
  - unfold scr_cursor, cursor_ok. by rewrite Hx, Hy.
  - intros a (Ha & Ho & Hb). unfold in_space, off_screen, apart in *.
    rewrite Hm by (unfold addr; lia). apply foldl_putc_outside; [done|unfold addr; lia|lia].
Qed.

(** Printing as a step of a sequence. *)
Lemma print_calm strs fmt args out k0 k :
  calm k0 k -> strings_at cb strs (kmem k) ->
  Forall (fun v => 0 <= v < 4294967296) args -> expand strs None fmt args = Some out ->
  exists k', kprintf cb fmt args k = Ok k' /\ calm k0 k'.
Proof.
  intros C Hs Ha He. pose proof (calm_cursor _ _ C) as Hc.
  destruct (kprintf_shows cb strs fmt args out k Hcb Hc Hs Ha He) as (k' & E & S).
  exists k'. split; [done|]. eapply calm_trans; [exact C|]. by eapply shows_calm.
Qed.

Lemma calm_bind (r : res kernel) (f : kernel -> res kernel) k0 :
  (exists k, r = Ok k /\ calm k0 k) ->
  (forall k, calm k0 k -> exists k', f k = Ok k' /\ calm k0 k') ->
  exists k', (k ← r; f k) = Ok k' /\ calm k0 k'.
Proof. intros (k & -> & C) Hf. rewrite bind_ok. by apply Hf. Qed.

Lemma calm_if (b : bool) (r : res kernel) k0 k :
  calm k0 k -> (b = true -> exists k', r = Ok k' /\ calm k0 k') ->
  exists k', (if b then r else Ok k) = Ok k' /\ calm k0 k'.
Proof. intros C Hr. destruct b; [by apply Hr|by exists k]. Qed.
End Calm.

(** The arguments of a print are 32-bit words. *)
Ltac word_args :=
  repeat lazymatch goal with
  | |- Forall _ (_ :: _) => apply List.Forall_cons
  | |- Forall _ [] => apply List.Forall_nil
  end;
  try apply load32_range; try apply u32_range.

(** The print of a format without strings. *)
Ltac print_plain C :=
  eapply (print_calm _ ltac:(eassumption) (fun _ => None)); [exact C|apply no_strings| |
    expand_fmt; reflexivity]; word_args.

(** ** The boot information is printed *)

(** The map entries from [a] to [e]: each is [size + 4] bytes long, and the
    steps stay below 4 GB. *)
Inductive mmap_chain (cb : Z) (m : mem) (e : Z) : Z -> Prop :=
| mmap_end a : e <= a -> mmap_chain cb m e a
| mmap_next a : a < e -> still cb a 24 -> a + load32 m a + 4 < 4294967296 ->
    mmap_chain cb m e (a + load32 m a + 4) -> mmap_chain cb m e a.

(** What the boot loader passes: the structure at [mbi], the strings and
    arrays it points to, all apart from the screen and from the buffer of
    [printf]. *)
Record info_ok (cb mbi : Z) (m : mem) : Prop := InfoOk {
  io_mbi : still cb mbi 52;
  io_cmdline : CHECK_FLAG (mbi_flags m mbi) 2 = true -> exists l,
    strings_at cb (fun a => if a =? mbi_cmdline m mbi then Some l else None) m;
  io_mods : CHECK_FLAG (mbi_flags m mbi) 3 = true ->
    still cb (mbi_mods_addr m mbi) (MODULE_SIZE * mbi_mods_count m mbi);
  io_mmap : CHECK_FLAG (mbi_flags m mbi) 6 = true ->
    mbi_mmap_addr m mbi + mbi_mmap_length m mbi < 4294967296 /\
    mmap_chain cb m (mbi_mmap_addr m mbi + mbi_mmap_length m mbi) (mbi_mmap_addr m mbi) }.

Section Print.
Context (cb mbi : Z) (k0 : kernel).
Hypothesis Hcb : on_stack cb 64.
Hypothesis Hio : info_ok cb mbi (kmem k0).

Lemma mbi_word k i : calm cb k0 k -> 0 <= i -> i + 4 <= 52 ->
  load32 (kmem k) (mbi + i) = load32 (kmem k0) (mbi + i).
Proof. intros C H1 H2. by apply (calm_field cb _ _ _ 52 _ C (io_mbi _ _ _ Hio)). Qed.

Lemma mbi_flags_same k : calm cb k0 k -> mbi_flags (kmem k) mbi = mbi_flags (kmem k0) mbi.
Proof.
  intros C. unfold mbi_flags. rewrite <- (Z.add_0_r mbi). apply mbi_word; [done|lia..].
Qed.

Lemma print_flags_calm k :
  calm cb k0 k -> exists k', print_flags cb mbi k = Ok k' /\ calm cb k0 k'.
Proof.
  intros C. unfold print_flags.
  apply calm_bind; [print_plain C|]. clear k C. intros k C. rewrite (mbi_flags_same k C).
  apply calm_bind; [apply (calm_if _ _ _ _ _ C); intros _; print_plain C|].
  clear k C. intros k C. rewrite (mbi_flags_same k C).
  apply calm_bind; [apply (calm_if _ _ _ _ _ C); intros _; print_plain C|].
  clear k C. intros k C. rewrite (mbi_flags_same k C). apply (calm_if _ _ _ _ _ C). intros F.
  destruct (io_cmdline _ _ _ Hio F) as [l Hs].
  assert (E : mbi_cmdline (kmem k) mbi = mbi_cmdline (kmem k0) mbi) by (apply mbi_word; [done|lia..]).
  rewrite E. eapply (print_calm _ Hcb _ _ _ (bytes "cmdline = " ++ l ++ [10]) _ _ C (strings_calm _ _ _ _ C Hs)).
  - word_args.
  - expand_fmt. by rewrite Z.eqb_refl.
Qed.

Lemma print_module_calm n mod_ k :
  calm cb k0 k -> 0 <= n < 4294967296 -> exists k', print_module cb n mod_ k = Ok k' /\ calm cb k0 k'.
Proof.
  intros C Hn. unfold print_module.
  apply calm_bind; [print_plain C; done|]. clear k C. intros k C.
  apply calm_bind; [print_plain C; done|]. clear k C. intros k C.
  apply calm_bind; [print_plain C|]. clear k C. intros k C.
  apply calm_bind; [|clear k C; intros k C; print_plain C].
  apply (forM_inv 16 _ (fun _ k => calm cb k0 k)); [lia|exact C|].
  clear k C. intros i k _ C. print_plain C.
Qed.

(** The modules: one turn each. *)
Lemma print_modules_calm k mod_ :
  calm cb k0 k -> exists k', print_modules cb mbi mod_ k = Ok k' /\ calm cb k0 k'.
Proof.
  intros C. unfold print_modules.
  set (cnt := mbi_mods_count (kmem k0) mbi).
  assert (Hcnt : 0 <= cnt < 4294967296) by apply load32_range.
  apply (while_rule _ (fun '(k, n, _) => calm cb k0 k /\ -2147483648 <= n < 2147483648 /\ u32 n <= cnt)
           (fun '(_, n, _) => cnt - u32 n)); [change (u32 0) with 0; split; [done|lia]|
           change (u32 0) with 0; lia|].
  clear k C mod_. intros [[k n] mod_] (C & Hn & Hle).
  assert (E : mbi_mods_count (kmem k) mbi = cnt) by (apply mbi_word; [done|lia..]).
  rewrite E. destruct (Z.ltb_spec (u32 n) cnt) as [Hlt|Hge]; [|by exists k].
  destruct (print_module_calm (u32 n) mod_ k C (u32_range n)) as (k' & -> & C').
  rewrite bind_ok. cbn [continue].
  assert (Hs : u32 (s32 (n + 1)) = u32 n + 1) by (words).
  rewrite Hs. split; [|lia]. split; [done|]. split; [|lia]. apply s32_range.
Qed.

Lemma print_elf_calm k :
  calm cb k0 k -> exists k', print_elf cb mbi k = Ok k' /\ calm cb k0 k'.
Proof. intros C. unfold print_elf. print_plain C. Qed.

Lemma print_mmap_calm k :
  calm cb k0 k -> CHECK_FLAG (mbi_flags (kmem k0) mbi) 6 = true ->
  exists k', print_mmap cb mbi k = Ok k' /\ calm cb k0 k'.
Proof.
  intros C F. destruct (io_mmap _ _ _ Hio F) as [He Hch]. unfold print_mmap.
  apply calm_bind; [print_plain C|]. clear k C. intros k C.
  assert (Ea : forall k, calm cb k0 k -> mbi_mmap_addr (kmem k) mbi = mbi_mmap_addr (kmem k0) mbi)
    by (intros; apply mbi_word; [done|lia..]).
  assert (El : forall k, calm cb k0 k -> mbi_mmap_length (kmem k) mbi = mbi_mmap_length (kmem k0) mbi)
    by (intros; apply mbi_word; [done|lia..]).
  rewrite (Ea k C). set (a0 := mbi_mmap_addr (kmem k0) mbi) in *.
  set (e := a0 + mbi_mmap_length (kmem k0) mbi) in *.
  assert (Ha0 : 0 <= a0 < 4294967296) by apply load32_range.
  assert (Hl0 := load32_range (kmem k0) (mbi + 44)).
  change (load32 _ (mbi + 44)) with (mbi_mmap_length (kmem k0) mbi) in Hl0.
  apply (while_rule _ (fun '(k, a) => calm cb k0 k /\ 0 <= a < 4294967296 /\ mmap_chain cb (kmem k0) e a)
           (fun '(_, a) => 4294967295 - a)); [split; [exact C|]; split; [exact Ha0|exact Hch]|lia|].
  clear k C. intros [k a] (C & Hr & Hc). cbv zeta. rewrite (Ea k C), (El k C).
  rewrite u32_small by lia. fold e. destruct (Z.ltb_spec a e) as [Hlt|Hge]; [|by exists k].
  destruct Hc as [a Hge|a _ Hs Hb Hc]; [lia|].
  edestruct (print_calm cb Hcb (fun _ => None)
    (bytes " size = 0x%x,     base_addr = 0x%#x%#x" ++ [10]
     ++ bytes "     type = 0x%x,  length    = 0x%#x%#x" ++ [10])
    [load32 (kmem k) a; load32 (kmem k) (a + 8); load32 (kmem k) (a + 4); load32 (kmem k) (a + 20);
     load32 (kmem k) (a + 16); load32 (kmem k) (a + 12)]) as (k' & E & C');
    [exact C|apply no_strings| |expand_fmt; reflexivity|].
  { word_args. }
  rewrite E, bind_ok. cbn [continue].
  assert (Hw : load32 (kmem k') a = load32 (kmem k0) a).
  { apply (calm_load32 cb _ _ _ C'). rewrite <- (Z.add_0_r a). by apply (still_part _ _ 24); [|lia..]. }
  rewrite Hw. pose proof (load32_range (kmem k0) a). rewrite u32_small by lia.
  split; [split; [done|split; [lia|done]]|lia].
Qed.
End Print.

(** ** The initialisation establishes the invariants *)

(** The arrays of the console have their length. *)
Definition arrays_ok (c : console) : Prop :=
  length (virtual_x c) = 3%nat /\ length (virtual_y c) = 3%nat /\
  length (ready_to_read (kbd c)) = 3%nat /\ length (kb_buf_index (kbd c)) = 3%nat.

Lemma term_open_ok `{Device} c :
  arrays_ok c ->
  exists c', term_open c = Ok (c', 0) /\ scr c' = Screen (vram (clear (scr c))) 0 0 /\
    virtual_x c' = [0; 0; 0] /\ virtual_y c' = [0; 0; 0] /\
    ready_to_read (kbd c') = [0; 0; 0] /\ kb_buf_index (kbd c') = [0; 0; 0].
Proof.
  intros (Hx & Hy & Hr & Hi). unfold term_open, keyboard_init.
  destruct (enable_irq 1 (k_pic c) (tr c)) as [p t].
  rewrite clear_keyboard_buf_ok by done. rewrite bind_ok.
  destruct c as [s t0 p0 r0 kb vx vy a d]; cbn [virtual_x virtual_y] in Hx, Hy.
  destruct vx as [|x0 [|x1 [|x2 [|? ?]]]]; try done.
  destruct vy as [|y0 [|y1 [|y2 [|? ?]]]]; try done.
  eexists. split; [reflexivity|]. by split_and!.
Qed.

Lemma pit_init_19 `{Device} p t : exists p' t', pit_init 19 p t = Ok (p', t').
Proof. unfold pit_init. change (u32 19 =? 0) with false. cbv iota. eexists _, _. apply f_equal, surjective_pairing. Qed.

Lemma init_devices_ok `{Device} c :
  arrays_ok c -> exists c', init_devices c = Ok c' /\ scr c' = Screen (vram (clear (scr c))) 0 0 /\
    virtual_x c' = [0; 0; 0] /\ virtual_y c' = [0; 0; 0] /\
    ready_to_read (kbd c') = [0; 0; 0] /\ kb_buf_index (kbd c') = [0; 0; 0].
Proof.
  intros Ha. unfold init_devices.
  destruct (enable_irq 8 _ _) as [p1 t1], (enable_irq 2 p1 t1) as [p2 t2],
    (disable_irq 0 p2 t2) as [p3 t3]. destruct (pit_init_19 p3 t3) as (p4 & t4 & ->).
  rewrite bind_ok. destruct (rtc_init _ _) as [r5 t5].
  match goal with |- context [term_open ?c1] =>
    destruct (term_open_ok c1) as (c' & -> & Hc); [exact Ha|] end.
  rewrite bind_ok. by exists c'.
Qed.

Lemma con_ok_start c :
  scr_cursor (scr c) -> virtual_x c = [0; 0; 0] -> virtual_y c = [0; 0; 0] ->
  ready_to_read (kbd c) = [0; 0; 0] -> kb_buf_index (kbd c) = [0; 0; 0] ->
  display_terminal c = 0 -> con_ok c.
Proof.
  intros H1 H2 H3 H4 H5 H6. split; rewrite ?H2, ?H3, ?H4, ?H5, ?H6; try done.
  - intros t x y Hx Hy.
    assert (H0 : forall z, aget [0; 0; 0] t = Some z -> z = 0).
    { intros z Hz. unfold aget in Hz. destruct (0 <=? t); [|done].
      apply list_elem_of_lookup_2 in Hz. rewrite !elem_of_cons, elem_of_nil in Hz. lia. }
    rewrite (H0 x Hx), (H0 y Hy). unfold in_grid. lia.
  - repeat constructor; done.
Qed.

Lemma filesys_init_ext m m' start fs :
  0 <= start -> start + 4096 <= 4294967296 ->
  (forall i, 0 <= i < 12 -> load8 m' (start + i) = load8 m (start + i)) ->
  filesys_init m' start fs = filesys_init m start fs.
Proof.
  intros H1 H2 He. unfold filesys_init. rewrite !u32_add_l.
  rewrite (u32_small (start + 4)), (u32_small (start + 4 + 4)) by lia.
  assert (E : forall j, 0 <= j <= 8 -> load32 m' (start + j) = load32 m (start + j)).
  { intros j Hj. apply load32_ext. intros i Hi. rewrite <- !Z.add_assoc. apply He. lia. }
  assert (E0 : load32 m' start = load32 m start).
  { pose proof (E 0 ltac:(lia)) as E0. by rewrite Z.add_0_r in E0. }
  rewrite E0, (E 4) by lia. rewrite <- !Z.add_assoc. change (4 + 4) with 8. by rewrite (E 8) by lia.
Qed.

(** What [init_kernel] leaves. *)
Record started (pd_addr pt_addr cb : Z) (fs : boot_block) (k k' : kernel) : Prop := Started {
  sd_con : con_ok (con k');
  sd_pgs : kernel_map pd_addr pt_addr (pgs k');
  sd_queue : deque (process_q (sch k')) [];
  sd_count : process_count (sch k') = 0;
  sd_heap : pcb_heap (sch k') = pcb_heap (sch k);
  sd_fs : fs_info k' = fs;
  sd_fops : fops k' = systemcalls_initialize (fops k);
  sd_tr : exists t, tr (con k') = sti t;
  sd_same : esp0 k' = esp0 k /\ primary_shell_count k' = primary_shell_count k;
  sd_mem : forall a, still cb a 1 -> load8 (kmem k') a = load8 (kmem k) a }.

Lemma init_kernel_ok `{Device} pd_addr pt_addr cb start fs k :
  on_stack cb 64 -> arrays_ok (con k) ->
  length (pd (pgs k)) = 1024%nat -> length (pt_0_4 (pgs k)) = 1024%nat -> aligned pt_addr ->
  length (pcbs (process_q (sch k))) = 6%nat ->
  0 <= start -> start + 4096 <= 4294967296 -> still cb start 12 ->
  filesys_init (kmem k) start (fs_info k) = Ok fs ->
  exists k', init_kernel pd_addr pt_addr cb start k = Ok k' /\ started pd_addr pt_addr cb fs k k'.
Proof.
  intros Hcb Ha Hd Ht Hal Hq Hs1 Hs2 Hst Hfs. unfold init_kernel.
  destruct (init_devices_ok (con k) Ha) as (c & -> & Hscr & Hx & Hy & Hr & Hi). rewrite bind_ok. cbv zeta.
  destruct (init_page_tables pd_addr pt_addr (pgs k) Hd Ht Hal) as (g & Eg & Hg1 & Hg2 & Hg3 & Hg4 & Hg5 & Hg6 & Hg7).
  change (pgs (with_con _ _)) with (pgs k). rewrite Eg, bind_ok.
  set (k1 := with_pgs _ g). change (fs_info k1) with (fs_info k).
  assert (Hm : forall a, still cb a 1 -> load8 (kmem k1) a = load8 (kmem k) a).
  { intros a (G1 & G2 & _). change (kmem k1) with (vram (scr c)). rewrite Hscr. cbn [vram].
    apply (writes_out _ _ _ _ _ _ (clear_spec (scr (con k)))); unfold in_space, off_screen, addr in *; lia. }
  rewrite (filesys_init_ext (kmem k) (kmem k1)), Hfs, bind_ok; [|done..|].
  2:{ intros i Hi0. apply Hm. by apply (still_part _ _ 12); [|lia..]. }
  destruct (deque_init (process_q (sch k)) Hq) as (q & Eq & Dq).
  change (process_q (sch (with_fs k1 fs))) with (process_q (sch k)). rewrite Eq, bind_ok.
  set (k2 := with_sch _ _).
  assert (Hcur : scr_cursor (scr (con k2))).
  { change (scr (con k2)) with (scr c). rewrite Hscr. unfold scr_cursor, cursor_ok, in_grid. cbn. lia. }
  destruct (print_calm cb Hcb (fun _ => None) (bytes "Enabling Interrupts" ++ [10]) []
    (bytes "Enabling Interrupts" ++ [10]) k2 k2 (calm_refl cb k2 Hcur) (no_strings _ _)
    ltac:(apply List.Forall_nil) ltac:(expand_fmt; reflexivity)) as (k3 & -> & s & -> & Hc & Hms).
  rewrite bind_ok. eexists. split; [reflexivity|]. split.
  - by apply con_ok_start.
  - split; [done|]. split; [done|]. split; [done|]. split; [done|].
    split; [|done]. intros i Hi0 _. by apply Hg6.
  - exact Dq.
  - done.
  - done.
  - done.
  - done.
  - by eexists.
  - done.
  - intros a Hst1. refine (eq_trans (Hms a Hst1) _). by apply Hm.
Qed.

(** ** The file system image in the kernel's page *)

Definition page_same (m m' : mem) : Prop :=
  forall a, ADDR_4MB <= a < stacks -> load8 m' a = load8 m a.

Lemma page_same_load32 m m' a :
  page_same m m' -> ADDR_4MB <= a -> a + 4 <= stacks -> load32 m' a = load32 m a.
Proof. intros H H1 H2. apply load32_ext. intros i Hi. apply H. lia. Qed.

Lemma page_same_cstr m m' a l :
  page_same m m' -> ADDR_4MB <= a -> a + Z.of_nat (length l) < stacks -> is_cstr m a l -> is_cstr m' a l.
Proof. intros H H1 H2 Hl. eapply is_cstr_ext; [|exact Hl]. intros i Hi. apply H. lia. Qed.

(** The inode and the blocks of a file are in the kernel's page. *)
Definition in_page (fs : boot_block) (m : mem) (inode flen : Z) : Prop :=
  ADDR_4MB <= inode_ptr fs inode /\
  forall j, 0 <= j -> j * KB4 < flen -> ADDR_4MB <= block_addr fs m (inode_ptr fs inode) j.

Lemma program_page fs m m' inode flen :
  program fs m inode flen -> in_page fs m inode flen -> page_same m m' ->
  program fs m' inode flen /\
  forall i, 0 <= i < flen -> program_byte fs m' inode i = program_byte fs m inode i.
Proof.
  intros [[F1 [F2 F3] F4] Hs Hi Hb] [P1 P2] S. unfold ADDR_4MB, KB4, MAX_DBLOCKS_PER_FILE in *.
  assert (E : forall j, 0 <= j -> j * 4096 < flen ->
    block_addr fs m' (inode_ptr fs inode) j = block_addr fs m (inode_ptr fs inode) j).
  { intros j Hj Hlt. unfold block_addr. rewrite (page_same_load32 m m' _ S); unfold ADDR_4MB; lia. }
  split; [split; [split| | |]|].
  - exact F1.
  - split; [rewrite (page_same_load32 m m' _ S); unfold ADDR_4MB; lia|exact F3].
  - intros j Hj Hlt. rewrite E by done. by apply F4.
  - exact Hs.
  - exact Hi.
  - intros j Hj Hlt. rewrite E by done. by apply Hb.
  - intros i Hir. unfold program_byte, file_byte, KB4.
    assert (Hj : 0 <= i / 4096 /\ i / 4096 * 4096 < flen /\ 0 <= i mod 4096 < 4096) by zdm.
    rewrite E by lia. apply S. unfold ADDR_4MB.
    specialize (P2 (i / 4096)). specialize (Hb (i / 4096)). lia.
Qed.

Lemma directory_page fs m m' de names :
  directory fs m de names -> (forall j e, aget (dir_entries fs) j = Some e -> ADDR_4MB <= e) ->
  page_same m m' -> directory fs m' de names.
Proof.
  intros [[Hc He] Hb] Hlo S. split; [|exact Hb]. split; [exact Hc|]. intros j Hj.
  destruct (He j Hj) as (e & E & Hsp & Hap & Hl & Hlen). specialize (Hb j e Hj E).
  exists e. do 3 (split; [done|]). split; [|done].
  apply (page_same_cstr m m' _ _ S); [by eapply Hlo|lia|done].
Qed.

Lemma file_named_page fs m m' names name inode flen :
  file_named fs m names name inode flen ->
  (forall j e, aget (dir_entries fs) j = Some e -> ADDR_4MB <= e) ->
  in_page fs m inode flen -> page_same m m' ->
  file_named fs m' names name inode flen /\ is_elf fs m' inode = is_elf fs m inode /\
  entry_point fs m' inode = entry_point fs m inode.
Proof.
  intros [(idx & ent & H1 & H2 & H3 & H4 & H5 & H6 & H7) Hp] Hlo Hin S.
  destruct (program_page _ _ _ _ _ Hp Hin S) as [Hp' Hb]. pose proof (pr_size _ _ _ _ Hp) as [H28 _].
  split; [|split; [unfold is_elf|unfold entry_point]; by rewrite !Hb by lia].
  split; [|exact Hp']. exists idx, ent. do 6 (split; [assumption|]). rewrite <- H7.
  pose proof (Hlo _ _ H4). unfold FNAME_LENGTH, FS_FIELD_SIZE in *.
  apply (page_same_load32 m m' _ S); lia.
Qed.

(** A string of the kernel is its own physical address. *)
Lemma user_str_kernel pd_addr pt_addr g m a l :
  kernel_map pd_addr pt_addr g -> is_cstr m a l -> ADDR_4MB <= a ->
  a + Z.of_nat (length l) + 1 <= ADDR_8MB -> user_str pd_addr pt_addr g m a = Ok a.
Proof.
  unfold ADDR_4MB, ADDR_8MB. intros K Hl H1 H2.
  assert (W : forall va, 4194304 <= va < 8388608 -> walk pd_addr pt_addr g va = Some (va, false)).
  { intros va Hva. rewrite (kernel_walk _ _ _ _ K) by lia.
    destruct (Z.leb_spec 4194304 va), (Z.ltb_spec va 8388608); done || lia. }
  assert (T : forall n, 0 < n -> a + n <= 8388608 -> touch pd_addr pt_addr g a n = Ok ()).
  { intros n Hn Hle. unfold touch, mapped. destruct (Z.leb_spec n 0); [lia|]. rewrite !W by lia.
    destruct (Z.leb_spec (a + n) 4294967296), (Z.eqb_spec (a / 4194304) ((a + n - 1) / 4194304));
      cbn [andb]; done || (exfalso; zdm). }
  unfold user_str, xlate. rewrite !W, T, bind_ok, (strlen_cstr _ _ _ Hl), bind_ok, T, bind_ok by lia.
  done.
Qed.

(** ** The boot *)

Section Boot.
Context `{Device}.
Context (handler handler_irq : Z -> Z) (handler_syscall : Z).
Context (pd_addr pt_addr ldt ldt_size tss tss_size : Z).
Context (cb uninit_start : Z) (d1 d2 : seg_desc).
Context (ecb de cmd prog exe lpcb shell_str empty_str k_esp k_ebp k_flags : Z) (pcb0 : pcb).
Context (names : Z -> list Z) (mbi start inode flen : Z) (fs : boot_block).

(** What the linker and the boot loader provide: stacks and tables of the
    right size, the boot information, and a module whose image is in the
    kernel's page and holds an executable file [shell]. *)
Record boot_ready (k : kernel) : Prop := BootReady {
  br_locals : locals_ok de cmd prog exe lpcb pcb0 /\ on_stack cb 64;
  br_tables : length (pd (pgs k)) = 1024%nat /\ length (pt_0_4 (pgs k)) = 1024%nat /\
    aligned pt_addr /\ length (pcbs (process_q (sch k))) = 6%nat /\ arrays_ok (con k);
  br_zero : scr_cursor (scr (con k)) /\ primary_shell_count k = 0;
  br_info : info_ok cb mbi (kmem k);
  br_flags : CHECK_FLAG (mbi_flags (kmem k) mbi) 3 = true /\
    CHECK_FLAG (mbi_flags (kmem k) mbi) 4 && CHECK_FLAG (mbi_flags (kmem k) mbi) 5 = false;
  br_module : 1 <= mbi_mods_count (kmem k) mbi /\
    mod_start (kmem k) (mbi_mods_addr (kmem k) mbi) = start /\ ADDR_4MB <= start /\ start + 4096 <= stacks;
  br_fs : filesys_init (kmem k) start (fs_info k) = Ok fs /\ directory fs (kmem k) de names /\
    forall j e, aget (dir_entries fs) j = Some e -> ADDR_4MB <= e;
  br_shell : file_named fs (kmem k) names (bytes "shell") inode flen /\
    in_page fs (kmem k) inode flen /\ is_elf fs (kmem k) inode = true;
  br_strings : is_cstr (kmem k) shell_str (bytes "shell") /\ is_cstr (kmem k) empty_str [] /\
    ADDR_4MB <= shell_str /\ shell_str + 128 <= stacks /\ ADDR_4MB <= empty_str < stacks }.

Lemma still_page a n : on_stack cb 64 -> ADDR_4MB <= a -> 0 <= n -> a + n <= stacks -> still cb a n.
Proof.
  intros (H1 & _ & H3 & _) Ha Hn He.
  unfold still, in_space, off_screen, apart, stacks, ADDR_4MB, ADDR_8MB, VIDEO in *. lia.
Qed.

Lemma calm_page k k' : on_stack cb 64 -> calm cb k k' -> page_same (kmem k) (kmem k').
Proof. intros Hcb C a Ha. apply (calm_byte cb _ _ _ C), still_page; [done|lia..]. Qed.

(** Everything [entry] prints before it initialises. *)
Lemma entry_prints k :
  boot_ready k -> exists k', calm cb k k' /\ forall s magic, kern s = k ->
    magic = MULTIBOOT_BOOTLOADER_MAGIC ->
    entry handler handler_irq handler_syscall pd_addr pt_addr ldt ldt_size tss tss_size cb
      uninit_start d1 d2 ecb de cmd prog exe lpcb shell_str empty_str k_esp k_ebp k_flags pcb0 magic mbi s =
    (let s := init_descriptors ldt ldt_size tss tss_size d1 d2 (with_kern s k') in
     idt ← idt_init handler handler_irq handler_syscall (idt s);
     let s := Machine (kern s) idt (ldt_desc_ptr s) (tss_desc_ptr s) (tss_ldt_segment_selector s)
                (tss_ss0 s) (ldtr s) (task_register s) in
     k ← init_kernel pd_addr pt_addr cb start (kern s);
     '(k, o) ← execute pd_addr pt_addr ecb de cmd prog exe lpcb empty_str k_esp k_ebp k_flags pcb0 shell_str k;
     Ok (with_kern s k, match o with Returned v => BootSpins v | Entered e => BootUser e end)).
Proof.
  intros [[_ Hcb] _ [Hcur _] Hio [F3 F45] (M1 & M2 & M3 & M4) _ _ _].
  assert (C : calm cb k (with_screen k (clear (scr (con k))))).
  { exists (clear (scr (con k))). split; [done|]. split; [exact Hcur|]. intros a (G1 & G2 & _).
    apply (writes_out _ _ _ _ _ _ (clear_spec (scr (con k)))); unfold in_space, off_screen, addr in *; lia. }
  destruct (print_flags_calm cb mbi k Hcb Hio _ C) as (k1 & E1 & C1).
  assert (Ea : mbi_mods_addr (kmem k1) mbi = mbi_mods_addr (kmem k) mbi)
    by (apply (mbi_word cb mbi k Hio); [done|lia..]).
  destruct (print_modules_calm cb mbi k Hcb Hio k1 (mbi_mods_addr (kmem k) mbi) C1) as (k2 & E2 & C2).
  assert (Es : mod_start (kmem k1) (mbi_mods_addr (kmem k) mbi) = start).
  { rewrite <- M2. apply (calm_load32 cb _ _ _ C1). rewrite <- (Z.add_0_r (mbi_mods_addr _ _)).
    apply (still_part _ _ _ _ _ (io_mods _ _ _ Hio F3)); unfold MODULE_SIZE; lia. }
  destruct (calm_if cb (CHECK_FLAG (mbi_flags (kmem k) mbi) 5) (print_elf cb mbi k2) k k2 C2)
    as (k3 & E3 & C3); [intros _; by apply print_elf_calm|].
  destruct (calm_if cb (CHECK_FLAG (mbi_flags (kmem k) mbi) 6) (print_mmap cb mbi k3) k k3 C3)
    as (k4 & E4 & C4); [intros F6; by apply (print_mmap_calm cb mbi k Hcb Hio)|].
  exists k4. split; [exact C4|]. intros s magic Hk ->. unfold entry. rewrite Hk. cbv zeta.
  rewrite Z.eqb_refl. cbn [negb]. rewrite E1, bind_ok, (mbi_flags_same cb mbi k Hio k1 C1), F3, Ea, Es, E2.
  rewrite !bind_ok, (mbi_flags_same cb mbi k Hio k2 C2), F45, E3, bind_ok.
  rewrite (mbi_flags_same cb mbi k Hio k3 C3), E4, bind_ok. reflexivity.
Qed.

(** The kernel that [execute] finds can execute the shell. *)
Lemma boot_can_execute k k1 k2 :
  boot_ready k -> calm cb k k1 -> started pd_addr pt_addr cb fs (with_esp0 k1 ADDR_8MB) k2 ->
  can_execute pd_addr pt_addr de cmd prog empty_str names shell_str shell_str (bytes "shell")
    inode flen k2 [] /\
  entry_point fs (kmem k2) inode = entry_point fs (kmem k) inode /\
  forall i, 0 <= i < flen -> program_byte fs (kmem k2) inode i = program_byte fs (kmem k) inode i.
Proof.
  intros [[[L1 L2 _ _ _ _] Hcb] _ [_ Hs] _ _ _ (_ & F2 & F3) (S1 & S2 & S3) (T1 & T2 & T3 & T4 & T5)] C D.
  assert (P : page_same (kmem k) (kmem k2)).
  { intros a Ha. refine (eq_trans (sd_mem _ _ _ _ _ _ D a _) _); [by apply still_page; [|lia..]|].
    by apply (calm_page _ _ Hcb C). }
  destruct (file_named_page _ _ _ _ _ _ _ S1 F3 S2 P) as (N1 & N2 & N3).
  destruct (program_page _ _ _ _ _ (fn_program _ _ _ _ _ _ S1) S2 P) as [_ N4].
  split; [|by split]. destruct (sd_same _ _ _ _ _ _ D) as [_ Hsh].
  destruct C as (s & -> & _ & _). change (primary_shell_count (with_esp0 _ _)) with (primary_shell_count k) in Hsh.
  assert (Hl : is_cstr (kmem k2) shell_str (bytes "shell")).
  { apply (page_same_cstr _ _ _ _ P); [done|cbn; lia|done]. }
  split.
  - split; [|split; [done|cbn; lia]|vm_compute; lia| | |exact L1|exact L2].
    + apply (user_str_kernel _ _ _ _ _ (bytes "shell") (sd_pgs _ _ _ _ _ _ D) Hl); [done|].
      unfold stacks, ADDR_8MB in *. cbn. lia.
    + unfold stacks, ADDR_4MB in *. lia.
    + apply (page_same_cstr _ _ _ _ P); [lia|cbn; lia|done].
  - vm_compute. lia.
  - vm_compute. split; congruence.
  - rewrite (sd_fs _ _ _ _ _ _ D). by apply (directory_page _ (kmem k)).
  - rewrite (sd_fs _ _ _ _ _ _ D). exact N1.
  - rewrite (sd_fs _ _ _ _ _ _ D). by rewrite N2.
  - exact (sd_pgs _ _ _ _ _ _ D).
  - rewrite (sd_count _ _ _ _ _ _ D). lia.
  - split; [exact (sd_queue _ _ _ _ _ _ D)|cbn; lia].
  - lia.
  - left. lia.
Qed.
End Boot.

(** Base and limit as the processor assembles them from a descriptor. *)
Definition seg_base (d : seg_desc) : Z :=
  base_15_00 d + 65536 * base_23_16 d + 16777216 * base_31_24 d.
Definition seg_limit (d : seg_desc) : Z := seg_lim_15_00 d + 65536 * seg_lim_19_16 d.

(** A slice of a word: the mask of [n] bits at [lo], shifted down. *)
Lemma shiftr_mask v lo n :
  0 <= lo -> 0 <= n -> Z.shiftr (Z.land v (Z.ones n * 2 ^ lo)) lo = v / 2 ^ lo mod 2 ^ n.
Proof.
  intros Hlo Hn. rewrite Z.shiftr_land, Z.shiftr_div_pow2, Z.shiftr_div_pow2 by lia.
  rewrite Z.div_mul by (apply Z.pow_nonzero; lia). by rewrite Z.land_ones by lia.
Qed.

Lemma set_params (addr lim : Z) :
  0 <= addr < 4294967296 -> 0 <= lim < 1048576 ->
  Z.land addr 65535 + 65536 * Z.shiftr (Z.land addr 16711680) 16
    + 16777216 * Z.shiftr (Z.land addr 4278190080) 24 = addr /\
  Z.land lim 65535 + 65536 * Z.shiftr (Z.land lim 983040) 16 = lim.
Proof.
  intros Ha Hl. change 16711680 with (Z.ones 8 * 2 ^ 16). change 4278190080 with (Z.ones 8 * 2 ^ 24).
  change 983040 with (Z.ones 4 * 2 ^ 16). change 65535 with (Z.ones 16).
  rewrite !shiftr_mask, !Z.land_ones by lia. split; zdm.
Qed.


(** [entry] gives up in two cases, with a message and nothing but screen
    memory changed: on a magic number that is not the boot loader's it clears
    the screen, prints the number and returns; on boot information with both
    flags 4 and 5 it prints what it was given, the message, and returns. *)
Theorem entry_refuses `{Device} (handler handler_irq : Z -> Z) (handler_syscall : Z)
    (pd_addr pt_addr ldt ldt_size tss tss_size cb uninit_start : Z) (d1 d2 : seg_desc)
    (ecb de cmd prog exe lpcb shell_str empty_str k_esp k_ebp k_flags : Z) (pcb0 : pcb)
    (mbi magic : Z) (s : machine) :
  on_stack cb 64 -> scr_cursor (scr (con (kern s))) -> 0 <= magic < 4294967296 ->
  let cleared := with_screen (kern s) (clear (scr (con (kern s)))) in
  let flags := mbi_flags (kmem (kern s)) mbi in
  let run := entry handler handler_irq handler_syscall pd_addr pt_addr ldt ldt_size tss tss_size cb
      uninit_start d1 d2 ecb de cmd prog exe lpcb shell_str empty_str k_esp k_ebp k_flags pcb0 magic mbi s in
  (magic <> MULTIBOOT_BOOTLOADER_MAGIC ->
   exists k', run = Ok (with_kern s k', BootReturned) /\
     shows cb cleared k' (bytes "Invalid magic number: 0x" ++ hex8 magic ++ [10])) /\
  (magic = MULTIBOOT_BOOTLOADER_MAGIC -> info_ok cb mbi (kmem (kern s)) ->
   CHECK_FLAG flags 4 = true -> CHECK_FLAG flags 5 = true ->
   exists k1 k', run = Ok (with_kern s k', BootReturned) /\ calm cb (kern s) k1 /\
     shows cb k1 k' (bytes "Both bits 4 and 5 are set." ++ [10])).
Proof.
  intros Hcb Hcur Hm cleared flags run. unfold run, entry. cbv zeta. fold cleared. split.
  - intros Hne. destruct (Z.eqb_spec magic MULTIBOOT_BOOTLOADER_MAGIC); [done|]. cbn [negb].
    destruct (kprintf_shows cb (fun _ => None) (bytes "Invalid magic number: 0x%#x" ++ [10]) [magic]
      (bytes "Invalid magic number: 0x" ++ hex8 magic ++ [10]) cleared Hcb Hcur (no_strings _ _))
      as (k' & E & S).
    + apply List.Forall_cons; [done|apply List.Forall_nil].
    + expand_fmt. reflexivity.
    + exists k'. by rewrite E, bind_ok.
  - intros -> Hio F4 F5. rewrite Z.eqb_refl. cbn [negb].
    assert (C : calm cb (kern s) cleared).
    { exists (clear (scr (con (kern s)))). split; [done|]. split; [exact Hcur|]. intros a (G1 & G2 & _).
      apply (writes_out _ _ _ _ _ _ (clear_spec (scr (con (kern s)))));
        unfold in_space, off_screen, addr in *; lia. }
    destruct (print_flags_calm cb mbi (kern s) Hcb Hio _ C) as (k1 & E1 & C1).
    rewrite E1, bind_ok, (mbi_flags_same cb mbi (kern s) Hio k1 C1). fold flags.
    destruct (print_modules_calm cb mbi (kern s) Hcb Hio k1 (mbi_mods_addr (kmem k1) mbi) C1)
      as (k2 & E2 & C2).
    assert (Hk : exists k3 st, calm cb (kern s) k3 /\
      (if CHECK_FLAG flags 3 then
         k ← print_modules cb mbi (mbi_mods_addr (kmem k1) mbi) k1;
         Ok (k, mod_start (kmem k1) (mbi_mods_addr (kmem k1) mbi))
       else Ok (k1, uninit_start)) = Ok (k3, st)).
    { destruct (CHECK_FLAG flags 3).
      - exists k2. eexists. rewrite E2, bind_ok. by split.
      - by exists k1, uninit_start. }
    destruct Hk as (k3 & st & C3 & ->). rewrite bind_ok, (mbi_flags_same cb mbi (kern s) Hio k3 C3).
    fold flags. rewrite F4, F5. cbn [andb].
    destruct (kprintf_shows cb (fun _ => None) (bytes "Both bits 4 and 5 are set." ++ [10]) []
      (bytes "Both bits 4 and 5 are set." ++ [10]) k3 Hcb (calm_cursor _ _ _ C3) (no_strings _ _)
      ltac:(apply List.Forall_nil) ltac:(expand_fmt; reflexivity)) as (k' & E & S).
    exists k3, k'. by rewrite E, bind_ok.
Qed.

(** ** Witnesses *)

(** The demonstration image as the only module of a boot. *)
Definition boot_image : mem :=
  let m := store32 shell_image 600000 8 in
  let m := store32 m 600020 1 in
  let m := store32 m 600024 600100 in
  store32 m 600100 demo_start.
Definition demo_seg : seg_desc := SegDesc 0 0 0 0 0 0 0 0 0 0 0 0 0.
Definition demo_machine (m : mem) : machine :=
  Machine (Kernel (Console (Screen m 0 0) [] (Pic 255 255) (Rtc 0 0 2 0)
                     (Keyboard 0 0 0 0 [0; 0; 0] [0; 0; 0]) [0; 0; 0] [0; 0; 0] 0 0)
             sched0 paging0 0 demo_fs0 0 0 (fun _ => FopsFunctions None None None None) [])
    (replicate 256 (IdtDesc 0 0 0 0 0 0 0 0 0 0 0)) demo_seg demo_seg 0 0 0 0.

Lemma boot_image_page : page_same shell_image boot_image.
Proof.
  intros a [Ha Hs]. unfold ADDR_4MB, stacks, boot_image in *. cbv zeta.
  repeat (rewrite load8_store32 by (unfold addr; lia);
    match goal with |- context [(?x <=? a) && (a <? ?y)] =>
      destruct (Z.ltb_spec a y); [lia|]; rewrite andb_false_r end). done.
Qed.

Lemma demo_cb : on_stack 8386800 64.
Proof.
  unfold on_stack, stacks, ADDR_8MB. split_and!; try lia.
  intros j Hj. rewrite pcb_addr_eq by lia. unfold apart, SIZEOF_PCB. lia.
Qed.

Lemma demo_entries j e : aget (dir_entries demo_fs) j = Some e -> ADDR_4MB <= e.
Proof.
  intros He. assert (Hf : Forall (fun e => ADDR_4MB <= e) (dir_entries demo_fs))
    by (apply (bool_decide_unpack _); vm_compute; exact I).
  unfold aget in He. destruct (0 <=? j); [|done]. apply list_elem_of_lookup_2 in He.
  rewrite Forall_forall in Hf. by apply Hf.
Qed.

Lemma demo_in_page : in_page demo_fs shell_image 0 5000.
Proof.
  split; [vm_compute; congruence|]. unfold KB4. intros k Hk Hlt.
  assert (0 <= k < 2) as Hk2 by lia. clear Hk Hlt. range_cases k 2; vm_compute; congruence.
Qed.

Lemma demo_still a n : 0 <= a -> 0 <= n -> a + n <= VIDEO -> still 8386800 a n.
Proof. unfold still, in_space, off_screen, apart, VIDEO. lia. Qed.

Lemma boot_info : info_ok 8386800 600000 boot_image.
Proof.
  split.
  - apply demo_still; unfold VIDEO; lia.
  - intros F. vm_compute in F. congruence.
  - intros _. assert (E : mbi_mods_addr boot_image 600000 = 600100) by (vm_compute; reflexivity).
    assert (E2 : mbi_mods_count boot_image 600000 = 1) by (vm_compute; reflexivity).
    rewrite E, E2. apply demo_still; unfold VIDEO, MODULE_SIZE; lia.
  - intros F. vm_compute in F. congruence.
Qed.

Lemma demo_in_page_boot : in_page demo_fs boot_image 0 5000.
Proof.
  destruct demo_in_page as [H1 H2]. split; [exact H1|]. intros j Hj Hlt.
  specialize (H2 j Hj Hlt). unfold block_addr in *. rewrite (page_same_load32 _ _ _ boot_image_page).
  - exact H2.
  - unfold ADDR_4MB in *. lia.
  - unfold KB4 in Hlt. change (inode_ptr demo_fs 0) with (demo_start + 4096).
    unfold demo_start, stacks. lia.
Qed.

Lemma demo_boot_ready :
  boot_ready 4206592 8386800 8388300 8388000 8388200 8388400 8387000 4300000 4300005 demo_pcb0
    shell_names 600000 demo_start 0 5000 demo_fs (kern (demo_machine boot_image)).
Proof.
  pose proof boot_image_page as P.
  destruct (file_named_page _ _ _ _ _ _ _ shell_file demo_entries demo_in_page P) as (F1 & F2 & _).
  split.
  - split; [exact demo_locals|exact demo_cb].
  - split; [reflexivity|]. split; [reflexivity|]. split; [unfold aligned; split; [lia|reflexivity]|].
    split; [reflexivity|]. unfold arrays_ok. cbn. lia.
  - split; [|done]. unfold scr_cursor, cursor_ok, in_grid. cbn. lia.
  - exact boot_info.
  - split; vm_compute; reflexivity.
  - split; [vm_compute; congruence|]. split; [vm_compute; reflexivity|].
    split; vm_compute; congruence.
  - split; [vm_compute; reflexivity|]. split; [|exact demo_entries].
    exact (directory_page _ _ _ _ _ shell_dir demo_entries P).
  - split; [exact F1|]. split; [|exact (eq_trans F2 ltac:(vm_compute; reflexivity))].
    exact demo_in_page_boot.
  - split; [apply is_cstr_dec; vm_compute; reflexivity|].
    split; [apply is_cstr_dec; vm_compute; reflexivity|]. unfold ADDR_4MB, stacks. lia.
Qed.


Lemma entry_refuses_witness :
  exists k', entry (H := quiet) (fun _ => 0) (fun _ => 0) 0 0 0 0 0 0 0 8386800 0 demo_seg demo_seg
      0 0 0 0 0 0 0 0 0 0 0 demo_pcb0 1 600000 (demo_machine boot_image) =
      Ok (with_kern (demo_machine boot_image) k', BootReturned).
Proof.
  destruct (proj1 (entry_refuses (H := quiet) (fun _ => 0) (fun _ => 0) 0 0 0 0 0 0 0 8386800 0
    demo_seg demo_seg 0 0 0 0 0 0 0 0 0 0 0 demo_pcb0 600000 1 (demo_machine boot_image) demo_cb
    ltac:(unfold scr_cursor, cursor_ok, in_grid; cbn; lia) ltac:(lia))) as (k' & E & _).
  - unfold MULTIBOOT_BOOTLOADER_MAGIC. lia.
  - exists k'. exact E.
Defined.
