(* ===== verification/User.v ===== *)
(** * The system calls as a process sees them

    The interface between user programs and the kernel.  A process is its own
    memory, at user addresses, next to the rest of the machine, of a type [W];
    [OS] is the [int 0x80] instruction.  [proc] is what a process can know of
    the machine, and [OSLaws] what a system call promises about it: the
    programs of src/syscalls are proved against the laws alone.  [sim] is a
    machine that consists of a [proc]: it obeys the laws and runs the programs
    in the kernel of Rocq. *)

From S2P Require Import Prelude Mem Lib Pcb Filesys Syscalls.

(** [sys eax ebx ecx edx m w]: the new memory, the new machine, [eax]. *)
Class OS (W : Type) : Type := sys : Z -> Z -> Z -> Z -> mem -> W -> res (mem * W * Z).

(** ** The wrappers (ece391syscall.S, ece391sysnum.h) *)

Definition SYS_EXECUTE : Z := 2.
Definition SYS_READ : Z := 3.
Definition SYS_WRITE : Z := 4.
Definition SYS_OPEN : Z := 5.
Definition SYS_CLOSE : Z := 6.
Definition SYS_GETARGS : Z := 7.
Definition SYS_VIDMAP : Z := 8.
Definition SYS_SET_HANDLER : Z := 9.

Section Wrappers.
Context `{OS W}.
Definition ece391_execute (command : Z) : mem -> W -> res (mem * W * Z) := sys SYS_EXECUTE command 0 0.
Definition ece391_read (fd buf nbytes : Z) : mem -> W -> res (mem * W * Z) := sys SYS_READ fd buf nbytes.
Definition ece391_write (fd buf nbytes : Z) : mem -> W -> res (mem * W * Z) := sys SYS_WRITE fd buf nbytes.
Definition ece391_open (filename : Z) : mem -> W -> res (mem * W * Z) := sys SYS_OPEN filename 0 0.
Definition ece391_close (fd : Z) : mem -> W -> res (mem * W * Z) := sys SYS_CLOSE fd 0 0.
Definition ece391_getargs (buf nbytes : Z) : mem -> W -> res (mem * W * Z) := sys SYS_GETARGS buf nbytes 0.
Definition ece391_vidmap (screen_start : Z) : mem -> W -> res (mem * W * Z) := sys SYS_VIDMAP screen_start 0 0.
End Wrappers.

(** ** What a process knows *)

Inductive fkind : Type := KFile (content : list Z) | KDir | KRtc.
Inductive fdesc : Type := FdFree | FdStd | FdFile (content : list Z) (pos : Z) | FdDir | FdRtc.
#[export] Instance fkind_eq_dec : EqDecision fkind.
Proof. solve_decision. Defined.
#[export] Instance fdesc_eq_dec : EqDecision fdesc.
Proof. solve_decision. Defined.

(** What it asks of the clock: a rate, and a tick that it waits for, with the
    number of bytes that the terminal has shown by then. *)
Inductive clock_event : Type := Rate (freq : Z) | Tick (shown : Z).

(** [p_arg]: the argument, empty for none.  [p_dir]: the directory in order,
    with what each name is.  [p_dirpos]: the entry the next directory read
    returns.  [p_input]: the lines to be typed, without their newlines.
    [p_out]: what the terminal has shown.  [p_cmd]: what a command line prints
    and returns when it is executed.  [p_clock]: what was asked of the clock, in
    order. *)
Record proc : Type := Proc {
  p_arg : list Z; p_fds : list fdesc; p_dir : list (list Z * fkind); p_dirpos : Z;
  p_input : list (list Z); p_out : list Z; p_cmd : list Z -> list Z * Z; p_clock : list clock_event }.

Definition with_fds (p : proc) (l : list fdesc) : proc :=
  Proc (p_arg p) l (p_dir p) (p_dirpos p) (p_input p) (p_out p) (p_cmd p) (p_clock p).
Definition with_dirpos (p : proc) (n : Z) : proc :=
  Proc (p_arg p) (p_fds p) (p_dir p) n (p_input p) (p_out p) (p_cmd p) (p_clock p).
Definition with_input (p : proc) (l : list (list Z)) : proc :=
  Proc (p_arg p) (p_fds p) (p_dir p) (p_dirpos p) l (p_out p) (p_cmd p) (p_clock p).
Definition print (p : proc) (l : list Z) : proc :=
  Proc (p_arg p) (p_fds p) (p_dir p) (p_dirpos p) (p_input p) (p_out p ++ l) (p_cmd p) (p_clock p).
Definition with_clock (p : proc) (l : list clock_event) : proc :=
  Proc (p_arg p) (p_fds p) (p_dir p) (p_dirpos p) (p_input p) (p_out p) (p_cmd p) l.
Definition ask_rate (p : proc) (freq : Z) : proc := with_clock p (p_clock p ++ [Rate freq]).
Definition await_tick (p : proc) : proc := with_clock p (p_clock p ++ [Tick (Z.of_nat (length (p_out p)))]).

Definition lookup_name (p : proc) (l : list Z) : option fkind :=
  snd <$> List.find (fun e => bool_decide (e.1 = l)) (p_dir p).

(** The lowest free descriptor; the length of the table when there is none. *)
Fixpoint lowest_free (l : list fdesc) : nat :=
  match l with
  | [] => O
  | FdFree :: _ => O
  | _ :: l => S (lowest_free l)
  end.

Definition fd_for (k : fkind) : fdesc :=
  match k with KFile c => FdFile c 0 | KDir => FdDir | KRtc => FdRtc end.

(** [a, a + n) is in the page of the process. *)
Definition in_user (a n : Z) : Prop := TOP_PAGE <= a < BOTTOM_PAGE /\ 0 <= n /\ a + n <= BOTTOM_PAGE.

(** A string argument in the page. *)
Definition user_cstr (m : mem) (a : Z) (l : list Z) : Prop :=
  is_cstr m a l /\ in_user a (Z.of_nat (length l) + 1).

(** ** What the system calls promise *)

(** [view w p]: what the process can know of [w] is [p]. *)
Class View (W : Type) : Type := view : W -> proc -> Prop.

Class OSLaws (W : Type) `{OS W} `{View W} : Prop := {
  view_fds w p : view w p -> length (p_fds p) = 8%nat;
  view_arg w p : view w p -> Z.of_nat (length (p_arg p)) < 128;

  (** [write] to the terminal. *)
  law_write m w p buf l :
    view w p -> bytes_at m buf l -> in_user buf (Z.of_nat (length l)) ->
    exists w' r, sys SYS_WRITE 1 buf (Z.of_nat (length l)) m w = Ok (m, w', r) /\ 0 <= r /\
      view w' (print p l);

  (** [getargs]: the argument with its terminator. *)
  law_getargs m w p buf n :
    view w p -> p_arg p <> [] -> Z.of_nat (length (p_arg p)) + 1 <= n <= 1024 -> in_user buf n ->
    exists m' w', sys SYS_GETARGS buf n 0 m w = Ok (m', w', 0) /\ is_cstr m' buf (p_arg p) /\
      same_outside buf (buf + n) m m' /\ view w' p;
  law_getargs_none m w p buf n :
    view w p -> p_arg p = [] -> exists w', sys SYS_GETARGS buf n 0 m w = Ok (m, w', -1) /\ view w' p;

  (** [open]: the lowest free descriptor. *)
  law_open m w p a l k :
    view w p -> user_cstr m a l -> lookup_name p l = Some k -> (lowest_free (p_fds p) < 8)%nat ->
    exists w', sys SYS_OPEN a 0 0 m w = Ok (m, w', Z.of_nat (lowest_free (p_fds p))) /\
      view w' (with_fds p (<[lowest_free (p_fds p) := fd_for k]> (p_fds p)));
  law_open_fails m w p a l :
    view w p -> user_cstr m a l -> Z.of_nat (length l) < 256 ->
    lookup_name p l = None \/ lowest_free (p_fds p) = 8%nat ->
    exists w', sys SYS_OPEN a 0 0 m w = Ok (m, w', -1) /\ view w' p;

  (** [close] of an open file, of a free or standard descriptor. *)
  law_close m w p fd c :
    view w p -> 2 <= fd < 8 -> aget (p_fds p) fd = Some c -> c <> FdFree ->
    exists w', sys SYS_CLOSE fd 0 0 m w = Ok (m, w', 0) /\
      view w' (with_fds p (<[Z.to_nat fd := FdFree]> (p_fds p)));
  law_close_fails m w p fd :
    view w p -> 0 <= fd < 8 -> fd < 2 \/ aget (p_fds p) fd = Some FdFree ->
    exists w', sys SYS_CLOSE fd 0 0 m w = Ok (m, w', -1) /\ view w' p;

  (** [read] of a file: the next bytes, none at its end. *)
  law_read_file m w p fd buf n c pos :
    view w p -> aget (p_fds p) fd = Some (FdFile c pos) -> 0 < n -> in_user buf n ->
    let k := Z.min n (Z.of_nat (length c) - pos) in
    exists m' w', sys SYS_READ fd buf n m w = Ok (m', w', k) /\
      bytes_at m' buf (take (Z.to_nat k) (drop (Z.to_nat pos) c)) /\
      same_outside buf (buf + k) m m' /\ 0 <= pos <= Z.of_nat (length c) /\
      view w' (with_fds p (<[Z.to_nat fd := FdFile c (pos + k)]> (p_fds p)));

  (** [read] of the directory: the next name, then nothing, then from the
      start. *)
  law_read_dir m w p fd buf n :
    view w p -> aget (p_fds p) fd = Some FdDir -> 32 <= n -> in_user buf (n + 1) ->
    match aget (p_dir p).*1 (p_dirpos p) with
    | Some name =>
      exists m' w', sys SYS_READ fd buf n m w = Ok (m', w', Z.of_nat (length name)) /\
        is_cstr m' buf name /\ 0 < Z.of_nat (length name) <= 32 /\
        same_outside buf (buf + 33) m m' /\ view w' (with_dirpos p (p_dirpos p + 1))
    | None => exists w', sys SYS_READ fd buf n m w = Ok (m, w', 0) /\ view w' (with_dirpos p 0)
    end;

  (** Calls that fail. *)
  law_read_fails m w p fd buf n :
    view w p -> -2147483648 <= fd < 2147483648 -> ~ (0 <= fd < 8) \/ fd = 1 \/ aget (p_fds p) fd = Some FdFree ->
    exists w', sys SYS_READ fd buf n m w = Ok (m, w', -1) /\ view w' p;
  law_write_fails m w p fd buf n :
    view w p -> -2147483648 <= fd < 2147483648 -> ~ (0 <= fd < 8) \/ fd = 0 \/ aget (p_fds p) fd = Some FdFree ->
    exists w', sys SYS_WRITE fd buf n m w = Ok (m, w', -1) /\ view w' p;
  law_vidmap_fails m w p a :
    view w p -> 0 <= a < TOP_PAGE \/ BOTTOM_PAGE <= a < 4294967296 ->
    exists w', sys SYS_VIDMAP a 0 0 m w = Ok (m, w', -1) /\ view w' p;
  law_number m w p n x y z :
    view w p -> -2147483648 <= n < 2147483648 -> n < 1 \/ 8 < n ->
    exists w', sys n x y z m w = Ok (m, w', -1) /\ view w' p }.

(** The keyboard: [read] of the terminal returns the next line, which the
    keyboard has shown. *)
Class KeyboardLaws (W : Type) `{OS W} `{View W} : Prop := {
  law_read_line m w p buf n l rest :
    view w p -> p_input p = l :: rest -> Z.of_nat (length l) + 1 < n -> in_user buf n ->
    exists m' w', sys SYS_READ 0 buf n m w = Ok (m', w', Z.of_nat (length l) + 1) /\
      bytes_at m' buf (l ++ [10]) /\ Z.of_nat (length l) < 128 /\
      Forall (fun c => 0 < c < 256) l /\
      same_outside buf (buf + n) m m' /\ view w' (print (with_input p rest) (l ++ [10])) }.

(** The screen: [vidmap] stores the address of video memory. *)
Class VidmapLaws (W : Type) `{OS W} `{View W} : Prop := {
  law_vidmap m w p a :
    view w p -> in_user a 4 ->
    exists m' w', sys SYS_VIDMAP a 0 0 m w = Ok (m', w', 0) /\ load32 m' a = VID_MEM /\
      same_outside a (a + 4) m m' /\ view w' p }.

(** [execute] of a command that prints its output and reads no line. *)
Class ExecuteLaws (W : Type) `{OS W} `{View W} : Prop := {
  law_execute m w p a l :
    view w p -> user_cstr m a l -> 0 < Z.of_nat (length l) < 128 ->
    exists w', sys SYS_EXECUTE a 0 0 m w = Ok (m, w', (p_cmd p l).2) /\
      view w' (print p (p_cmd p l).1) }.

(** ** A machine that is a [proc] *)

Definition peek (m : mem) (a n : Z) : list Z := (fun i => load8 m (a + i)) <$> seqZ 0 n.
Definition cstr_of (m : mem) (a : Z) : res (list Z) := n ← strlen m a; Ok (peek m a n).

Definition sim_read (fd buf n : Z) (m : mem) (p : proc) : res (mem * proc * Z) :=
  if fd =? 0 then
    match p_input p with
    | [] => Hang
    | l :: rest =>
      Ok (store_list m buf (l ++ [10]), print (with_input p rest) (l ++ [10]), Z.of_nat (length l) + 1)
    end
  else match aget (p_fds p) fd with
       | Some (FdFile c pos) =>
         let k := Z.min n (Z.of_nat (length c) - pos) in
         Ok (store_list m buf (take (Z.to_nat k) (drop (Z.to_nat pos) c)),
             with_fds p (<[Z.to_nat fd := FdFile c (pos + k)]> (p_fds p)), k)
       | Some FdDir =>
         match aget (p_dir p).*1 (p_dirpos p) with
         | Some name => Ok (store_list m buf (name ++ [0]), with_dirpos p (p_dirpos p + 1),
                            Z.of_nat (length name))
         | None => Ok (m, with_dirpos p 0, 0)
         end
       | Some FdRtc => Ok (m, await_tick p, 0)
       | _ => Ok (m, p, -1)
       end.

Definition sim_write (fd buf n : Z) (m : mem) (p : proc) : res (mem * proc * Z) :=
  if fd =? 1 then Ok (m, print p (peek m buf n), 0)
  else match aget (p_fds p) fd with
       | Some FdRtc => Ok (m, ask_rate p (load32 m buf), 0)
       | _ => Ok (m, p, -1)
       end.

Definition sim_open (a : Z) (m : mem) (p : proc) : res (mem * proc * Z) :=
  l ← cstr_of m a;
  match lookup_name p l with
  | Some k =>
    let fd := lowest_free (p_fds p) in
    if (fd <? 8)%nat then Ok (m, with_fds p (<[fd := fd_for k]> (p_fds p)), Z.of_nat fd)
    else Ok (m, p, -1)
  | None => Ok (m, p, -1)
  end.

Definition sim_close (fd : Z) (m : mem) (p : proc) : res (mem * proc * Z) :=
  match aget (p_fds p) fd with
  | None | Some FdFree => Ok (m, p, -1)
  | Some _ => if fd <? 2 then Ok (m, p, -1)
              else Ok (m, with_fds p (<[Z.to_nat fd := FdFree]> (p_fds p)), 0)
  end.

Definition sim_getargs (buf : Z) (m : mem) (p : proc) : res (mem * proc * Z) :=
  match p_arg p with
  | [] => Ok (m, p, -1)
  | l => Ok (store_list m buf (l ++ [0]), p, 0)
  end.

#[export] Instance sim : OS proc := fun eax ebx ecx edx m p =>
  if eax =? SYS_EXECUTE then
    l ← cstr_of m ebx; Ok (m, print p (p_cmd p l).1, (p_cmd p l).2)
  else if eax =? SYS_READ then sim_read ebx ecx edx m p
  else if eax =? SYS_WRITE then sim_write ebx ecx edx m p
  else if eax =? SYS_OPEN then sim_open ebx m p
  else if eax =? SYS_CLOSE then sim_close ebx m p
  else if eax =? SYS_GETARGS then sim_getargs ebx m p
  else if (eax =? SYS_VIDMAP) && (TOP_PAGE <=? ebx) && (ebx <? BOTTOM_PAGE) then Ok (store32 m ebx VID_MEM, p, 0)
  else Ok (m, p, -1).

(** A well-formed process view. *)
Definition text (l : list Z) : Prop := Forall (fun c => 0 < c < 256) l.
Definition octets (l : list Z) : Prop := Forall (fun b => 0 <= b < 256) l.
Definition kind_ok (k : fkind) : Prop := match k with KFile c => octets c | _ => True end.
Definition fdesc_ok (f : fdesc) : Prop :=
  match f with FdFile c pos => 0 <= pos <= Z.of_nat (length c) /\ octets c | _ => True end.
Definition entry_ok (e : list Z * fkind) : Prop :=
  text e.1 /\ 0 < Z.of_nat (length e.1) <= 32 /\ kind_ok e.2.
Record proc_ok (p : proc) : Prop := ProcOk {
  po_arg : text (p_arg p) /\ Z.of_nat (length (p_arg p)) < 128;
  po_fds : length (p_fds p) = 8%nat /\ aget (p_fds p) 0 = Some FdStd /\ aget (p_fds p) 1 = Some FdStd;
  po_files : Forall fdesc_ok (p_fds p);
  po_dir : Forall entry_ok (p_dir p);
  po_input : Forall (fun l => text l /\ Z.of_nat (length l) < 128) (p_input p) }.

(** ** The laws of [sim] *)

Lemma list_eq_aget {A} (l1 l2 : list A) :
  length l1 = length l2 -> (forall i, 0 <= i < Z.of_nat (length l1) -> aget l1 i = aget l2 i) -> l1 = l2.
Proof.
  intros Hl H. apply list_eq_same_length with (length l1); [done|done|].
  intros i x y Hi H1 H2. specialize (H (Z.of_nat i) ltac:(lia)).
  rewrite !aget_of_nat in H. congruence.
Qed.

Lemma peek_bytes m a l : bytes_at m a l -> peek m a (Z.of_nat (length l)) = l.
Proof.
  intros H. unfold peek. apply list_eq_aget; rewrite length_fmap, length_seqZ, Nat2Z.id; [done|].
  intros i Hi. rewrite (H i Hi), aget_lookup by lia. rewrite list_lookup_fmap, lookup_seqZ_lt by lia.
  cbn. f_equal. f_equal. lia.
Qed.

Lemma cstr_of_ok m a l : is_cstr m a l -> Z.of_nat (length l) < 4294967296 -> cstr_of m a = Ok l.
Proof.
  intros H Hl. unfold cstr_of. rewrite (strlen_cstr _ _ _ H Hl), bind_ok.
  f_equal. by apply peek_bytes, is_cstr_bytes.
Qed.

Lemma octets_u8 l i : octets l -> 0 <= i < Z.of_nat (length l) ->
  aget l i = Some (u8 (default 0 (aget l i))).
Proof.
  intros Ho Hi. rewrite aget_lookup by lia.
  destruct (l !! Z.to_nat i) as [b|] eqn:E; [|apply lookup_ge_None in E; lia].
  cbn. rewrite u8_small; [done|]. unfold octets in Ho. rewrite Forall_forall in Ho.
  apply Ho, list_elem_of_lookup. by eexists.
Qed.

Lemma store_bytes m a l :
  octets l -> 0 <= a -> a + Z.of_nat (length l) <= 4294967296 ->
  bytes_at (store_list m a l) a l /\ same_outside a (a + Z.of_nat (length l)) m (store_list m a l).
Proof.
  intros Ho H1 H2. pose proof (writes_store_list m a l H1 H2) as W.
  split; [|exact (writes_same_outside _ _ _ _ _ W)].
  intros i Hi. rewrite (octets_u8 _ _ Ho Hi). by rewrite (writes_in _ _ _ _ _ i W) by lia.
Qed.

Lemma text_octets l : text l -> octets l.
Proof. intros H. eapply Forall_impl; [exact H|]. cbn. lia. Qed.

Lemma text_get l i c : text l -> aget l i = Some c -> 0 < c < 256.
Proof.
  unfold aget, text. rewrite Forall_forall. intros H. destruct (0 <=? i); [|done].
  intros E. by apply H, (list_elem_of_lookup_2 _ _ _ E).
Qed.

Lemma bytes_cstr m a l : text l -> bytes_at m a (l ++ [0]) -> is_cstr m a l.
Proof.
  intros Ht H. unfold bytes_at in H. rewrite length_app in H. cbn [length] in H. split.
  - intros i Hi. specialize (H i ltac:(lia)). rewrite aget_snoc in H.
    destruct (Z.eqb_spec i (Z.of_nat (length l))); [lia|]. split; [|done].
    pose proof (text_get _ _ _ Ht H). lia.
  - specialize (H (Z.of_nat (length l)) ltac:(lia)). rewrite aget_snoc, Z.eqb_refl in H. congruence.
Qed.

Lemma lowest_free_spec l :
  (lowest_free l <= length l)%nat /\
  ((lowest_free l < length l)%nat -> l !! lowest_free l = Some FdFree).
Proof.
  induction l as [|[| | | |] l [IH1 IH2]]; cbn [lowest_free length]; split; try lia; try done;
    intros Hlt; cbn; apply IH2; lia.
Qed.

Lemma lookup_name_in p l k : lookup_name p l = Some k -> (l, k) ∈ p_dir p.
Proof.
  unfold lookup_name. destruct (List.find _ _) as [[l' k']|] eqn:E; [|done].
  apply List.find_some in E as [E1 E2]. apply bool_decide_eq_true in E2. cbn in *.
  intros [= <-]. subst l'. by apply list_elem_of_In.
Qed.

Lemma proc_ok_fd p fd f :
  proc_ok p -> fdesc_ok f -> 2 <= fd < 8 -> proc_ok (with_fds p (<[Z.to_nat fd := f]> (p_fds p))).
Proof.
  intros [Ha (F1 & F2 & F3) Hf Hd Hi] Hok Hfd. split; cbn [with_fds p_arg p_fds p_dir p_input]; try done.
  - rewrite length_insert, !aget_insert by lia.
    destruct (Z.eqb_spec fd 0), (Z.eqb_spec fd 1); try lia. done.
  - by apply Forall_insert.
Qed.

Lemma fds_get_ok p fd f : proc_ok p -> aget (p_fds p) fd = Some f -> fdesc_ok f.
Proof.
  intros P E. pose proof (po_files _ P) as Hf. rewrite Forall_forall in Hf. apply Hf.
  unfold aget in E. destruct (0 <=? fd); [|done]. by eapply list_elem_of_lookup_2.
Qed.

Lemma fd_open_range p fd f :
  proc_ok p -> aget (p_fds p) fd = Some f -> f <> FdStd -> 2 <= fd < 8.
Proof.
  intros [_ (F1 & F2 & F3) _ _ _] E Hf. pose proof (aget_Some_lt _ _ _ E) as Hr. rewrite F1 in Hr.
  assert (fd <> 0) by (intros ->; congruence). assert (fd <> 1) by (intros ->; congruence). lia.
Qed.

#[export] Instance sim_view : View proc := fun w p => w = p /\ proc_ok p.

Lemma sim_read_file m p fd buf n c pos :
  proc_ok p -> aget (p_fds p) fd = Some (FdFile c pos) -> 0 < n -> in_user buf n ->
  let k := Z.min n (Z.of_nat (length c) - pos) in
  exists m', sim_read fd buf n m p =
      Ok (m', with_fds p (<[Z.to_nat fd := FdFile c (pos + k)]> (p_fds p)), k) /\
    bytes_at m' buf (take (Z.to_nat k) (drop (Z.to_nat pos) c)) /\
    same_outside buf (buf + k) m m' /\ 0 <= pos <= Z.of_nat (length c) /\
    proc_ok (with_fds p (<[Z.to_nat fd := FdFile c (pos + k)]> (p_fds p))).
Proof.
  intros P E Hn (U1 & U2 & U3) k. unfold TOP_PAGE, BOTTOM_PAGE in *.
  destruct (fds_get_ok _ _ _ P E) as [Hpos Hc].
  pose proof (fd_open_range _ _ _ P E ltac:(done)) as Hfd.
  set (l := take (Z.to_nat k) (drop (Z.to_nat pos) c)).
  assert (Hl : Z.of_nat (length l) = k).
  { unfold l, k. rewrite length_take, length_drop. lia. }
  destruct (store_bytes m buf l) as [B S]; [by apply Forall_take, Forall_drop|lia|lia|].
  rewrite Hl in S. exists (store_list m buf l). split.
  { unfold sim_read. destruct (Z.eqb_spec fd 0); [lia|]. by rewrite E. }
  split; [exact B|]. split; [exact S|]. split; [exact Hpos|].
  apply proc_ok_fd; [done| |done]. split; [lia|done].
Qed.

Lemma sim_read_dir m p fd buf n :
  proc_ok p -> aget (p_fds p) fd = Some FdDir -> 32 <= n -> in_user buf (n + 1) ->
  match aget (p_dir p).*1 (p_dirpos p) with
  | Some name =>
    exists m', sim_read fd buf n m p = Ok (m', with_dirpos p (p_dirpos p + 1), Z.of_nat (length name)) /\
      is_cstr m' buf name /\ 0 < Z.of_nat (length name) <= 32 /\ same_outside buf (buf + 33) m m'
  | None => sim_read fd buf n m p = Ok (m, with_dirpos p 0, 0)
  end.
Proof.
  intros P E Hn (U1 & U2 & U3). unfold TOP_PAGE, BOTTOM_PAGE in *.
  pose proof (fd_open_range _ _ _ P E ltac:(done)) as Hfd.
  unfold sim_read. destruct (Z.eqb_spec fd 0); [lia|]. rewrite E.
  destruct (aget (p_dir p).*1 (p_dirpos p)) as [name|] eqn:En; [|done].
  assert (Hin : name ∈ (p_dir p).*1).
  { unfold aget in En. destruct (0 <=? p_dirpos p); [|done]. by eapply list_elem_of_lookup_2. }
  apply list_elem_of_fmap in Hin as ([nm kd] & -> & Hin).
  pose proof (po_dir _ P) as Hd. rewrite Forall_forall in Hd. destruct (Hd _ Hin) as (T & L & _).
  cbn [fst] in *. destruct (store_bytes m buf (nm ++ [0])) as [B S].
  { apply Forall_app. split; [by apply text_octets|]. repeat constructor; lia. }
  { lia. }
  { rewrite length_app. cbn. lia. }
  eexists. split; [reflexivity|]. split; [by apply bytes_cstr|]. split; [exact L|].
  eapply same_outside_weaken; [| |exact S]; rewrite ?length_app; cbn; lia.
Qed.

Lemma sim_read_line m p buf n l rest :
  proc_ok p -> p_input p = l :: rest -> Z.of_nat (length l) + 1 < n -> in_user buf n ->
  exists m', sim_read 0 buf n m p =
      Ok (m', print (with_input p rest) (l ++ [10]), Z.of_nat (length l) + 1) /\
    bytes_at m' buf (l ++ [10]) /\ Z.of_nat (length l) < 128 /\ text l /\
    same_outside buf (buf + n) m m' /\ proc_ok (print (with_input p rest) (l ++ [10])).
Proof.
  intros P E Hn (U1 & U2 & U3). unfold TOP_PAGE, BOTTOM_PAGE in *.
  pose proof (po_input _ P) as Hi. rewrite E in Hi. apply Forall_cons in Hi as [[T L] Hi].
  destruct (store_bytes m buf (l ++ [10])) as [B S].
  { apply Forall_app. split; [by apply text_octets|]. repeat constructor; lia. }
  { lia. }
  { rewrite length_app. cbn. lia. }
  unfold sim_read. cbn [Z.eqb]. rewrite E. eexists. split; [reflexivity|]. split; [exact B|].
  split; [exact L|]. split; [exact T|]. split.
  - eapply same_outside_weaken; [| |exact S]; rewrite ?length_app; cbn; lia.
  - destruct P. by split.
Qed.

Lemma sim_fds m p fd :
  proc_ok p -> aget (p_fds p) fd = Some FdFree \/ fd = 1 \/ ~ (0 <= fd < 8) ->
  forall buf n, sim_read fd buf n m p = Ok (m, p, -1).
Proof.
  intros P H buf n. destruct (po_fds _ P) as (F1 & F2 & F3). unfold sim_read.
  destruct (Z.eqb_spec fd 0) as [->|]; [destruct H as [H|[H|H]]; [congruence|lia|lia]|].
  destruct H as [-> |[-> |H]]; [done|by rewrite F3|].
  destruct (aget (p_fds p) fd) eqn:E; [|done]. apply aget_Some_lt in E. lia.
Qed.

Lemma proc_ok_print p l : proc_ok p -> proc_ok (print p l).
Proof. intros []. by split. Qed.
Lemma proc_ok_clock p l : proc_ok p -> proc_ok (with_clock p l).
Proof. intros []. by split. Qed.

Lemma sim_open_laws m p a l :
  proc_ok p -> user_cstr m a l ->
  sim_open a m p =
    match lookup_name p l with
    | Some k => if decide (lowest_free (p_fds p) < 8)%nat
                then Ok (m, with_fds p (<[lowest_free (p_fds p) := fd_for k]> (p_fds p)),
                         Z.of_nat (lowest_free (p_fds p)))
                else Ok (m, p, -1)
    | None => Ok (m, p, -1)
    end.
Proof.
  intros P [Hl (U1 & U2 & U3)]. unfold TOP_PAGE, BOTTOM_PAGE in *. unfold sim_open.
  rewrite (cstr_of_ok _ _ _ Hl), bind_ok by lia. destruct (lookup_name p l); [|done].
  destruct (Nat.ltb_spec (lowest_free (p_fds p)) 8), (decide _); try lia; done.
Qed.

Lemma proc_ok_open p l k :
  proc_ok p -> lookup_name p l = Some k -> (lowest_free (p_fds p) < 8)%nat ->
  proc_ok (with_fds p (<[lowest_free (p_fds p) := fd_for k]> (p_fds p))).
Proof.
  intros P E Hlt. destruct (po_fds _ P) as (F1 & F2 & F3).
  destruct (lowest_free_spec (p_fds p)) as [_ Hf]. rewrite F1 in Hf. specialize (Hf Hlt).
  rewrite <- aget_of_nat in Hf. pose proof (fd_open_range _ _ _ P Hf ltac:(done)) as Hr.
  rewrite <- (Nat2Z.id (lowest_free (p_fds p))) at 1. apply proc_ok_fd; [done| |lia].
  apply lookup_name_in in E. pose proof (po_dir _ P) as Hd. rewrite Forall_forall in Hd.
  destruct (Hd _ E) as (_ & _ & Hk). destruct k; [|done|done]. split; [lia|exact Hk].
Qed.

#[export] Instance sim_laws : OSLaws proc.
Proof.
  split.
  - intros w p [-> P]. apply (po_fds _ P).
  - intros w p [-> P]. apply (po_arg _ P).
  - intros m w p buf l [-> P] Hb _. eexists _, 0. cbn. rewrite (peek_bytes _ _ _ Hb).
    split; [reflexivity|]. split; [lia|]. split; [done|by apply proc_ok_print].
  - intros m w p buf n [-> P] Ha Hn (U1 & U2 & U3). unfold TOP_PAGE, BOTTOM_PAGE in *.
    destruct (store_bytes m buf (p_arg p ++ [0])) as [B S].
    { apply Forall_app. split; [apply text_octets, (po_arg _ P)|]. repeat constructor; lia. }
    { lia. }
    { rewrite length_app. cbn. lia. }
    exists (store_list m buf (p_arg p ++ [0])), p. split.
    { cbn. unfold sim_getargs. by destruct (p_arg p). }
    split; [apply bytes_cstr; [apply (po_arg _ P)|done]|]. split; [|done].
    eapply same_outside_weaken; [| |exact S]; rewrite ?length_app; cbn; lia.
  - intros m w p buf n [-> P] Ha. exists p. split; [|done]. cbn. unfold sim_getargs. by rewrite Ha.
  - intros m w p a l k [-> P] Hl Hk Hlt. eexists. cbn. rewrite (sim_open_laws _ _ _ _ P Hl), Hk.
    destruct (decide _); [|done]. split; [reflexivity|]. split; [done|by eapply proc_ok_open].
  - intros m w p a l [-> P] Hl _ Ho. exists p. split; [|done]. cbn. rewrite (sim_open_laws _ _ _ _ P Hl).
    destruct (lookup_name p l); [|done]. destruct (decide _); [|done].
    destruct Ho as [Ho|Ho]; [done|]. lia.
  - intros m w p fd c [-> P] Hfd Hc Hne. eexists. cbn. unfold sim_close. rewrite Hc.
    destruct (Z.ltb_spec fd 2); [lia|]. split; [destruct c; done|]. split; [done|]. by apply proc_ok_fd.
  - intros m w p fd [-> P] Hfd Ho. exists p. split; [|done]. cbn. unfold sim_close.
    destruct (po_fds _ P) as (F1 & F2 & F3). destruct (aget (p_fds p) fd) as [f|] eqn:E.
    + destruct f; [done|..]; (destruct Ho as [Ho|Ho]; [|congruence]);
        by destruct (Z.ltb_spec fd 2); [|lia].
    + exfalso. rewrite aget_lookup in E by lia. apply lookup_ge_None in E. lia.
  - intros m w p fd buf n c pos [-> P] Hf Hn U k.
    destruct (sim_read_file m p fd buf n c pos P Hf Hn U) as (m' & E & B & S & R & Q).
    exists m'. eexists. split; [exact E|]. split; [exact B|]. split; [exact S|]. split; [exact R|]. done.
  - intros m w p fd buf n [-> P] Hf Hn U. pose proof (sim_read_dir m p fd buf n P Hf Hn U) as R.
    destruct (aget (p_dir p).*1 _) as [name|].
    + destruct R as (m' & E & C & L & S). exists m'. eexists. split; [exact E|]. split; [exact C|].
      split; [exact L|]. split; [exact S|]. split; [done|]. destruct P. by split.
    + eexists. split; [exact R|]. split; [done|]. destruct P. by split.
  - intros m w p fd buf n [-> P] _ Ho. exists p. split; [|done]. apply (sim_fds _ _ _ P). tauto.
  - intros m w p fd buf n [-> P] _ Ho. exists p. split; [|done]. cbn. unfold sim_write.
    destruct (po_fds _ P) as (F1 & F2 & F3). destruct (Z.eqb_spec fd 1) as [->|].
    + destruct Ho as [?|[?|?]]; [lia|lia|congruence].
    + destruct Ho as [?|[->|E]]; [|by rewrite F2|by rewrite E].
      destruct (aget (p_fds p) fd) eqn:E; [|done]. apply aget_Some_lt in E. lia.
  - intros m w p a [-> P] Ha. exists p. split; [|done]. unfold sys, sim.
    change ((if (TOP_PAGE <=? a) && (a <? BOTTOM_PAGE) then Ok (store32 m a VID_MEM, p, 0) else Ok (m, p, -1)) = Ok (m, p, -1)).
    destruct (Z.leb_spec TOP_PAGE a), (Z.ltb_spec a BOTTOM_PAGE); (done || lia).
  - intros m w p n x y z [-> P] Hn Ho. exists p. split; [|done]. cbn.
    unfold sys, sim, SYS_EXECUTE, SYS_READ, SYS_WRITE, SYS_OPEN, SYS_CLOSE, SYS_GETARGS, SYS_VIDMAP.
    destruct (Z.eqb_spec n 2), (Z.eqb_spec n 3), (Z.eqb_spec n 4), (Z.eqb_spec n 5), (Z.eqb_spec n 6),
      (Z.eqb_spec n 7), (Z.eqb_spec n 8); try lia; done.
Qed.

#[export] Instance sim_keyboard : KeyboardLaws proc.
Proof.
  split.
  - intros m w p buf n l rest [-> P] E Hn U.
    destruct (sim_read_line m p buf n l rest P E Hn U) as (m' & R & B & L & T & S & Q).
    exists m'. eexists. split; [exact R|]. split; [exact B|]. split; [exact L|]. split; [exact T|].
    split; [exact S|]. done.
Qed.

#[export] Instance sim_vidmap : VidmapLaws proc.
Proof.
  split. intros m w p a V (U1 & U2 & U3). unfold TOP_PAGE, BOTTOM_PAGE in *.
  exists (store32 m a VID_MEM), w. split_and!; [|by apply load32_store32; lia|apply same_outside_store32; lia|done].
  change ((if (TOP_PAGE <=? a) && (a <? BOTTOM_PAGE) then Ok (store32 m a VID_MEM, w, 0) else Ok (m, w, -1)) =
    Ok (store32 m a VID_MEM, w, 0)). unfold TOP_PAGE, BOTTOM_PAGE.
  destruct (Z.leb_spec 134217728 a), (Z.ltb_spec a 138412032); (done || lia).
Qed.

#[export] Instance sim_execute : ExecuteLaws proc.
Proof.
  split.
  - intros m w p a l [-> P] [Hl (U1 & U2 & U3)] Hlen. unfold TOP_PAGE, BOTTOM_PAGE in *.
    eexists. cbn. rewrite (cstr_of_ok _ _ _ Hl), bind_ok by lia. split; [reflexivity|].
    split; [done|by apply proc_ok_print].
Qed.

(** ** Deciding well-formedness, for concrete processes *)

#[export] Instance text_dec l : Decision (text l).
Proof. unfold text. apply _. Defined.
#[export] Instance octets_dec l : Decision (octets l).
Proof. unfold octets. apply _. Defined.
#[export] Instance kind_ok_dec k : Decision (kind_ok k).
Proof. destruct k; cbn; apply _. Defined.
#[export] Instance fdesc_ok_dec f : Decision (fdesc_ok f).
Proof. destruct f; cbn; apply _. Defined.
#[export] Instance entry_ok_dec e : Decision (entry_ok e).
Proof. unfold entry_ok. apply _. Defined.

Lemma proc_ok_decide p :
  bool_decide ((text (p_arg p) /\ Z.of_nat (length (p_arg p)) < 128) /\
    (length (p_fds p) = 8%nat /\ aget (p_fds p) 0 = Some FdStd /\ aget (p_fds p) 1 = Some FdStd) /\
    Forall fdesc_ok (p_fds p) /\ Forall entry_ok (p_dir p) /\
    Forall (fun l => text l /\ Z.of_nat (length l) < 128) (p_input p)) = true ->
  proc_ok p.
Proof. intros H. apply bool_decide_eq_true in H as (?&?&?&?&?). by split. Qed.

(** A process that has just been started. *)
Definition fresh_proc (arg : list Z) (dir : list (list Z * fkind)) (input : list (list Z))
    (cmd : list Z -> list Z * Z) : proc :=
  Proc arg (FdStd :: FdStd :: repeat FdFree 6) dir 0 input [] cmd [].
