(* ===== verification/Serve.v ===== *)
(** * The kernel as the processes see it

    [serving k p b]: the kernel [k], whose running process has the PCB [b],
    looks to that process like [p].  The directory and the files of [p] are the
    image in the kernel's page, its descriptors those of [b], its argument the
    one stored behind [b], and its terminal has shown [p_out p] after the
    screen [t0].  The lemmas say which changes of the kernel leave this view
    alone, and what the others do to it. *)

From S2P Require Import Prelude Mem Lib Screen Ports I8259 Rtc Paging.
From S2P Require Import Pcb Sched Filesys Console Keyboard Irq Terminal Kstate.
From S2P Require Import Syscalls Files Calls User.

Definition names_of (dir : list (list Z * fkind)) (i : Z) : list Z :=
  default [] (fst <$> aget dir i).
Definition type_of (kd : fkind) : Z :=
  match kd with KRtc => 0 | KDir => 1 | KFile _ => 2 end.

Section Image.
Context (de : Z).

(** In the image: in the kernel's page below [lim], away from the stack local. *)
Definition in_image (lim a n : Z) : Prop := ADDR_4MB <= a /\ a + n <= lim /\ apart de 40 a n.

Record stored (fs : boot_block) (m : mem) (lim ino : Z) (c : list Z) : Prop := Stored {
  st_file : file_ok fs m ino (Z.of_nat (length c));
  st_ino : in_image lim ino KB4;
  st_blocks : forall j, 0 <= j -> j * KB4 < Z.of_nat (length c) ->
    in_image lim (block_addr fs m ino j) KB4;
  st_bytes : forall i, 0 <= i < Z.of_nat (length c) -> aget c i = Some (file_byte fs m ino i) }.

Definition inode_of (fs : boot_block) (m : mem) (ent : Z) : Z :=
  inode_ptr fs (load32 m (ent + FNAME_LENGTH + FS_FIELD_SIZE)).

Record entry_at (fs : boot_block) (m : mem) (lim ent : Z) (name : list Z) (kd : fkind) : Prop := EntryAt {
  en_place : in_image lim ent DENTRY_SIZE;
  en_name : is_cstr m ent name;
  en_length : 0 < Z.of_nat (length name) < FNAME_LENGTH;
  en_type : load8 m (ent + FNAME_LENGTH) = type_of kd;
  en_file : forall c, kd = KFile c -> stored fs m lim (inode_of fs m ent) c }.

Record image (fs : boot_block) (m : mem) (lim : Z) (dir : list (list Z * fkind)) : Prop := Image {
  im_count : num_dir_entries fs = Z.of_nat (length dir) /\ Z.of_nat (length dir) <= MAX_DENTRIES;
  im_entry : forall i name kd, aget dir i = Some (name, kd) ->
    exists ent, aget (dir_entries fs) i = Some ent /\ entry_at fs m lim ent name kd }.

(** ** Memory that agrees on the image *)

Definition image_same (lim : Z) (m m' : mem) : Prop :=
  forall a, ADDR_4MB <= a < lim -> ~ (de <= a < de + 40) -> load8 m' a = load8 m a.

Section Same.
Context (fs : boot_block) (m m' : mem) (lim : Z).
Hypothesis S : image_same lim m m'.

Lemma in_image_byte a n i : in_image lim a n -> 0 <= i < n -> load8 m' (a + i) = load8 m (a + i).
Proof. intros (H1 & H2 & H3) Hi. unfold apart in H3. apply S; lia. Qed.

Lemma in_image_load32 a n i : in_image lim a n -> 0 <= i -> i + 4 <= n -> load32 m' (a + i) = load32 m (a + i).
Proof.
  intros Hin Hi Hn. apply load32_ext. intros j Hj.
  rewrite <- !Z.add_assoc. apply (in_image_byte a n); [done|lia].
Qed.

Lemma stored_same ino c : stored fs m lim ino c -> stored fs m' lim ino c.
Proof.
  intros [[F1 [F2 F3] F4] Hi Hb Hc].
  assert (E : forall j, 0 <= j -> j * KB4 < Z.of_nat (length c) -> block_addr fs m' ino j = block_addr fs m ino j).
  { intros j Hj Hlt. unfold block_addr. do 2 f_equal. rewrite <- !Z.add_assoc.
    apply (in_image_load32 ino KB4); [done|lia|unfold KB4, MAX_DBLOCKS_PER_FILE in *; lia]. }
  split.
  - split; [done| |].
    + split; [|done]. rewrite F2. symmetry. rewrite <- (Z.add_0_r ino).
      apply (in_image_load32 ino KB4); [done|lia|unfold KB4; lia].
    + intros j Hj Hlt. rewrite E by done. by apply F4.
  - exact Hi.
  - intros j Hj Hlt. rewrite E by done. by apply Hb.
  - intros i Hir. rewrite (Hc i Hir). f_equal. unfold file_byte.
    assert (Hj : 0 <= i / KB4 /\ i / KB4 * KB4 < Z.of_nat (length c) /\ 0 <= i mod KB4 < KB4) by (unfold KB4; zdm).
    rewrite E by lia. symmetry. apply (in_image_byte _ KB4); [apply Hb; lia|lia].
Qed.

Lemma entry_same ent name kd : entry_at fs m lim ent name kd -> entry_at fs m' lim ent name kd.
Proof.
  intros [H1 H2 H3 H4 H5]. unfold FNAME_LENGTH, DENTRY_SIZE, FS_FIELD_SIZE in *.
  assert (Ei : inode_of fs m' ent = inode_of fs m ent).
  { unfold inode_of, FNAME_LENGTH, FS_FIELD_SIZE. f_equal. rewrite <- !Z.add_assoc.
    apply (in_image_load32 ent 64); [done|lia|lia]. }
  split; [done| |done| |].
  - eapply is_cstr_ext; [|exact H2]. intros i Hi. apply (in_image_byte ent 64); [done|].
    unfold FNAME_LENGTH in H3. lia.
  - rewrite <- H4. apply (in_image_byte ent 64); [done|unfold FNAME_LENGTH; lia].
  - intros c E. rewrite Ei. apply stored_same. by apply H5.
Qed.

Lemma image_transfer dir : image fs m lim dir -> image fs m' lim dir.
Proof.
  intros [H1 H2]. split; [done|]. intros i name kd Hi. destruct (H2 i name kd Hi) as (ent & E & He).
  exists ent. split; [done|]. by apply entry_same.
Qed.
End Same.

(** ** Lookups in the image *)

Lemma names_of_get dir i name kd : aget dir i = Some (name, kd) -> names_of dir i = name.
Proof. intros E. unfold names_of. by rewrite E. Qed.

Lemma dir_get {A} (dir : list A) i : 0 <= i < Z.of_nat (length dir) -> exists e, aget dir i = Some e.
Proof. intros Hi. destruct (aget_is_Some dir i Hi) as [e He]. by exists e. Qed.

Section Lookup.
Context (fs : boot_block) (m : mem) (lim : Z) (dir : list (list Z * fkind)).
Hypothesis Him : image fs m lim dir.
Hypothesis Hlim : lim <= 8388608.

Lemma image_dir_ok : dir_ok fs m de (names_of dir).
Proof.
  destruct Him as [[H1 H2] He]. split; [unfold MAX_DENTRIES in *; lia|]. rewrite H1. intros k Hk.
  destruct (dir_get dir k Hk) as [[name kd] E]. destruct (He k name kd E) as (ent & Ee & [(Q1 & Q2 & Q3) P2 P3 _ _]).
  exists ent. rewrite (names_of_get _ _ _ _ E). unfold in_image, ADDR_4MB, in_space, DENTRY_SIZE, FNAME_LENGTH in *.
  split_and!; try done; lia.
Qed.

Lemma image_short i : 0 <= i < num_dir_entries fs -> 0 < Z.of_nat (length (names_of dir i)) < FNAME_LENGTH.
Proof.
  destruct Him as [[H1 H2] He]. rewrite H1. intros Hi. destruct (dir_get dir i Hi) as [[name kd] E].
  destruct (He i name kd E) as (ent & _ & P). rewrite (names_of_get _ _ _ _ E). apply (en_length _ _ _ _ _ _ P).
Qed.
End Lookup.

(** [lookup_name] finds the first entry. *)
Lemma find_first (dir : list (list Z * fkind)) l :
  match List.find (fun e => bool_decide (e.1 = l)) dir with
  | Some (l', kd) => l' = l /\ exists i, aget dir i = Some (l, kd) /\
      forall j, 0 <= j < i -> names_of dir j <> l
  | None => forall i, 0 <= i < Z.of_nat (length dir) -> names_of dir i <> l
  end.
Proof.
  induction dir as [|[name kd] dir IH]; cbn [List.find]; [intros i Hi; cbn in Hi; lia|].
  cbn [fst]. destruct (bool_decide_reflect (name = l)) as [->|Hne].
  - split; [done|]. exists 0. split; [done|lia].
  - assert (Hsh : forall j, 0 < j -> names_of ((name, kd) :: dir) j = names_of dir (j - 1)).
    { intros j Hj. unfold names_of. rewrite !aget_lookup by lia.
      by replace (Z.to_nat j) with (S (Z.to_nat (j - 1))) by lia. }
    destruct (List.find _ dir) as [[l' kd']|].
    + destruct IH as (-> & i & Ei & Hi). split; [done|]. pose proof (aget_Some_lt _ _ _ Ei) as Hr.
      exists (i + 1). split.
      * rewrite aget_lookup in * by lia. by replace (Z.to_nat (i + 1)) with (S (Z.to_nat i)) by lia.
      * intros j Hj. destruct (decide (j = 0)) as [->|]; [done|]. rewrite Hsh by lia. apply Hi. lia.
    + intros i Hi. cbn [length] in Hi. destruct (decide (i = 0)) as [->|]; [done|].
      rewrite Hsh by lia. apply IH. lia.
Qed.

Lemma lookup_entry p l kd : lookup_name p l = Some kd ->
  exists i, aget (p_dir p) i = Some (l, kd) /\ forall j, 0 <= j < i -> names_of (p_dir p) j <> l.
Proof.
  unfold lookup_name. pose proof (find_first (p_dir p) l) as Hf.
  destruct (List.find _ (p_dir p)) as [[l' kd']|]; [|done]. destruct Hf as (-> & i & E & Hi).
  intros [= <-]. by exists i.
Qed.
Lemma lookup_absent p l : lookup_name p l = None ->
  forall i, 0 <= i < Z.of_nat (length (p_dir p)) -> names_of (p_dir p) i <> l.
Proof.
  unfold lookup_name. pose proof (find_first (p_dir p) l) as Hf.
  by destruct (List.find _ (p_dir p)) as [[l' kd']|].
Qed.
End Image.

(** ** Descriptors *)

(** Entry [e] at [fd] of the PCB at [cur] is the descriptor [f] of [p]. *)
Definition fd_match (m : mem) (cur : Z) (p : proc) (fd : Z) (f : fdesc) (e : fd_entry) : Prop :=
  match f with
  | FdFree => Z.land (in_use e) USE = 0
  | FdStd => fd < 2 /\ in_use e = USE /\ fop_ptr e = Fops fops_terminal_functions
  | FdDir => in_use e = USE /\ fop_ptr e = Fops fops_directory_functions
  | FdRtc => in_use e = USE /\ fop_ptr e = Fops fops_rtc_functions
  | FdFile c pos => in_use e = USE /\ fop_ptr e = Fops fops_file_functions /\ file_pos e = pos /\
      0 <= pos <= Z.of_nat (length c) /\
      exists name, is_cstr m (cur + 72 + 48 * fd) name /\ lookup_name p name = Some (KFile c)
  end.

Record fds_view (m : mem) (cur : Z) (p : proc) (b : pcb) : Prop := FdsView {
  fv_length : length (p_fds p) = 8%nat;
  fv_std : aget (p_fds p) 0 = Some FdStd /\ aget (p_fds p) 1 = Some FdStd;
  fv_match : forall fd f e, aget (p_fds p) fd = Some f -> aget (fde b) fd = Some e ->
    fd_match m cur p fd f e }.

Lemma fd_match_free m cur p fd f e : fd_match m cur p fd f e -> f = FdFree <-> Z.land (in_use e) USE = 0.
Proof.
  destruct f; cbn; [done|intros (_ & -> & _)|intros (-> & _)|intros (-> & _)|intros (-> & _)];
    (split; [discriminate|by change (Z.land USE USE) with 1]).
Qed.

(** The two searches for a free descriptor agree. *)
Lemma first_lowest (l1 : list fdesc) (l2 : list fd_entry) i :
  length l1 = length l2 ->
  (forall (n : nat) f e, l1 !! n = Some f -> l2 !! n = Some e -> f = FdFree <-> Z.land (in_use e) USE = 0) ->
  first_free l2 i = i + Z.of_nat (lowest_free l1).
Proof.
  revert l2 i. induction l1 as [|f l1 IH]; intros [|e l2] i Hl Hm; try done; cbn [first_free lowest_free].
  - lia.
  - cbn [length] in Hl. pose proof (Hm O f e eq_refl eq_refl) as H0.
    destruct (Z.eqb_spec (Z.land (in_use e) USE) 0) as [E|E].
    + rewrite (proj2 H0 E). lia.
    + assert (f <> FdFree) by tauto.
      rewrite (IH l2) by (lia || (intros n; apply (Hm (S n)))). destruct f; (done || lia).
Qed.

Lemma fds_view_free m cur p b :
  fds_view m cur p b -> length (fde b) = 8%nat -> first_free (fde b) 0 = Z.of_nat (lowest_free (p_fds p)).
Proof.
  intros [H1 _ H3] H8. rewrite (first_lowest (p_fds p) (fde b) 0) by (congruence ||
    (intros n f e Ef Ee; eapply fd_match_free, (H3 (Z.of_nat n)); by rewrite aget_of_nat)). lia.
Qed.

(** The name slots of the open files are all the memory [fds_view] reads. *)
Lemma fd_match_same m m' cur p fd f e :
  fd_match m cur p fd f e ->
  (forall i, 0 <= i < FNAME_LENGTH -> load8 m' (cur + 72 + 48 * fd + i) = load8 m (cur + 72 + 48 * fd + i)) ->
  (forall name c, lookup_name p name = Some (KFile c) -> Z.of_nat (length name) < FNAME_LENGTH) ->
  fd_match m' cur p fd f e.
Proof.
  destruct f; cbn [fd_match]; try done. intros (H1 & H2 & H3 & H4 & name & C & L) S Hn.
  do 4 (split; [done|]). exists name. split; [|done]. eapply is_cstr_ext; [|exact C].
  intros i Hi. apply S. specialize (Hn _ _ L). lia.
Qed.

(** ** Argument and terminal *)

Definition arg_view (m : mem) (cur : Z) (p : proc) (b : pcb) : Prop :=
  Z.of_nat (length (p_arg p)) < 128 /\
  (p_arg p = [] -> argument_length b <= 1) /\
  (p_arg p <> [] -> is_cstr m (cur + 452) (p_arg p) /\
     argument_length b = Z.of_nat (length (p_arg p)) + 1).

Definition term_view (t : tty) (s : sched) (c : console) : Prop :=
  con_ok c /\ exists a, pq_get_active_term s = Ok a /\ term_ok a /\
    if a =? display_terminal c then scr_shows (scr c) t else shows_term c a t.

Lemma term_view_mem t s c m' tr' :
  term_view t s c -> (forall a, 0 <= a < ADDR_4MB -> load8 m' a = load8 (vram (scr c)) a) ->
  term_view t s (with_tr (with_scr c (set_vram (scr c) m')) tr').
Proof.
  intros (Hc & a & Ha & Hta & Hs) S. split; [apply con_ok_tr, con_ok_scr; [apply Hc|done]|].
  exists a. split; [done|].
  split; [done|]. cbn [with_tr with_scr display_terminal].
  assert (E : forall base x' y', 0 <= base -> base + 4000 <= ADDR_4MB -> in_grid x' y' ->
    load8 m' (cell base x' y') = load8 (vram (scr c)) (cell base x' y')).
  { intros base x' y' H1 H2 Hg. pose proof (cell_range base x' y' Hg). apply S. lia. }
  unfold term_ok, ADDR_4MB in *. destruct (a =? display_terminal c).
  - destruct Hs as (X1 & X2 & X3 & X4). split_and!; try done.
    intros x' y' Hg. rewrite <- X4 by done. apply E; [unfold VIDEO..|done]; lia.
  - destruct Hs as (x & y & Ex & Ey & X1 & X2 & X3 & X4). exists x, y. split; [done|]. split; [done|].
    split_and!; try done. intros x' y' Hg. rewrite <- X4 by done. unfold backing.
    apply E; [lia..|done].
Qed.

(** A write from a user page. *)
Lemma term_write_view t s c buf l :
  term_view t s c -> ADDR_8MB <= buf -> in_space buf (Z.of_nat (length l)) -> bytes_at (vram (scr c)) buf l ->
  exists c', term_write s buf (Z.of_nat (length l)) c = Ok (c', 0) /\ term_view (foldl tty_putc t l) s c' /\
    forall a, ADDR_4MB <= a < 4294967296 -> load8 (vram (scr c')) a = load8 (vram (scr c)) a.
Proof.
  intros (Hc & a & Ha & Hta & Hs) Hbuf Hsp Hb. unfold ADDR_8MB, ADDR_4MB in *. pose proof Hta as Hr.
  unfold term_ok in Hr. unfold term_write. destruct (Z.eqb_spec buf 0); [lia|]. rewrite Ha, bind_ok.
  pose proof (co_display _ Hc) as Hd. unfold term_ok in Hd. rewrite u32_small by lia.
  destruct (Z.eqb_spec a (display_terminal c)) as [E|E].
  - destruct (write_foreground buf l Hsp c t Hc Hs Hb) as (H1 & H2 & H3 & H4 & _);
      [unfold off_screen, VIDEO; lia|].
    eexists. split; [reflexivity|]. split.
    + split; [by apply con_ok_cursor_here|]. exists a. split; [done|]. split; [done|].
      change (display_terminal (cursor_here ?x)) with (display_terminal x).
      rewrite H4, E, Z.eqb_refl. exact H2.
    + intros x Hx. apply H3; [unfold addr; lia|unfold VIDEO; lia].
  - destruct (write_background s buf l Hsp a c t Hc Ha Hta Hs Hb) as (c' & E1 & H1 & H2 & H3 & H4 & _);
      [unfold backing, VIDEO; lia|].
    exists c'. rewrite E1, bind_ok. split; [done|]. split.
    + split; [done|]. exists a. split; [done|]. split; [done|]. rewrite H4.
      by destruct (Z.eqb_spec a (display_terminal c)).
    + intros x Hx. apply H3; [unfold addr; lia|unfold backing, VIDEO; lia].
Qed.

Lemma active_put k b fd e :
  pcb_heap (sch k) !! current_pblock k = Some b ->
  pq_get_active_term (sch (put_fd k b fd e)) = pq_get_active_term (sch k).
Proof.
  intros Hb. unfold pq_get_active_term, put_fd. cbn [with_sch sch with_heap process_count process_q pcb_heap].
  destruct (0 <? process_count (sch k)); [|done]. destruct (pq_peak (process_q (sch k))) as [q| |]; [|done..].
  rewrite !bind_ok. unfold pcb_at. destruct (decide (q = current_pblock k)) as [->|Hne].
  - by rewrite lookup_insert_eq, Hb.
  - by rewrite lookup_insert_ne by congruence.
Qed.

(** ** The whole view *)

Section Serving.
Context (pd_addr pt_addr de : Z) (t0 : tty).

Record serving (k : kernel) (p : proc) (b : pcb) : Prop := Serving {
  sv_run : running pd_addr pt_addr de (names_of (p_dir p)) k b;
  sv_de : ADDR_4MB <= de /\ de + 40 <= ADDR_8MB;
  sv_image : image de (fs_info k) (kmem k) (current_pblock k) (p_dir p);
  sv_pos : dir_read_count k = p_dirpos p /\ 0 <= p_dirpos p;
  sv_fds : fds_view (kmem k) (current_pblock k) p b;
  sv_arg : arg_view (kmem k) (current_pblock k) p b;
  sv_term : term_view (foldl tty_putc t0 (p_out p)) (sch k) (con k) }.

(** Everything below the users' pages but the stack local. *)
Definition low_same (m m' : mem) : Prop :=
  forall a, 0 <= a < ADDR_8MB -> ~ (de <= a < de + 40) -> load8 m' a = load8 m a.

Section Facts.
Context (k : kernel) (p : proc) (b : pcb).
Hypothesis V : serving k p b.

Lemma cur_place :
  1 <= process_count (sch k) <= 6 /\ current_pblock k = 8388608 - process_count (sch k) * 8192 /\
  apart de 40 (current_pblock k) SIZEOF_PCB.
Proof.
  pose proof (sv_run _ _ _ V) as R. split; [apply (ru_count _ _ _ _ _ _ R)|].
  split; [apply (current_eq _ _ _ _ _ _ R)|apply (ru_apart _ _ _ _ _ _ R)].
Qed.

Lemma name_short name kd :
  lookup_name p name = Some kd -> Z.of_nat (length name) < FNAME_LENGTH.
Proof.
  intros L. destruct (lookup_entry p name kd L) as (i & E & _).
  destruct (im_entry _ _ _ _ _ (sv_image _ _ _ V) i name kd E) as (ent & _ & P).
  apply (en_length _ _ _ _ _ _ _ P).
Qed.

(** Other memory, another trace. *)
Lemma serving_moved m t : low_same (kmem k) m -> serving (moved k m t) p b.
Proof.
  intros S. destruct cur_place as (Hn & Hcur & Hap). destruct V as [R D I P F A T].
  change (serving (moved k m t) p b). unfold SIZEOF_PCB, apart, ADDR_8MB, ADDR_4MB in *.
  assert (Im : image de (fs_info k) m (current_pblock k) (p_dir p)).
  { eapply image_transfer; [|exact I]. intros a Ha Ho. apply S; unfold ADDR_4MB, ADDR_8MB in *; lia. }
  split; cbn [moved with_con with_tr with_scr con sch]; try done.
  - destruct R as [R1 R2 R3 R4 R5 R6 R7 R8]. split; try done.
    eapply image_dir_ok; [exact Im|]. lia.
  - destruct F as [F1 F2 F3]. split; [done|done|]. intros fd f e Hf He.
    eapply fd_match_same; [by apply F3| |intros; by eapply name_short].
    intros i Hi. pose proof (aget_Some_lt _ _ _ Hf). unfold FNAME_LENGTH in Hi.
    apply S; unfold ADDR_8MB; change (current_pblock (moved k m t)) with (current_pblock k); lia.
  - destruct A as (A1 & A2 & A3). split; [done|]. split; [done|]. intros Hne.
    destruct (A3 Hne) as [C E]. split; [|done]. eapply is_cstr_ext; [|exact C].
    intros i Hi. apply S; unfold ADDR_8MB; change (current_pblock (moved k m t)) with (current_pblock k); lia.
  - apply term_view_mem; [exact T|]. intros a Ha. unfold ADDR_4MB in Ha. apply S; unfold ADDR_8MB; lia.
Qed.

(** Another console, with more on the terminal. *)
Lemma serving_con c l :
  (forall a, ADDR_4MB <= a < ADDR_8MB -> load8 (vram (scr c)) a = load8 (kmem k) a) ->
  term_view (foldl tty_putc t0 (p_out p ++ l)) (sch k) c -> serving (with_con k c) (print p l) b.
Proof.
  intros S T. destruct cur_place as (Hn & Hcur & Hap). destruct V as [R D I P F A _].
  unfold SIZEOF_PCB, apart, ADDR_8MB, ADDR_4MB in *.
  assert (Im : image de (fs_info k) (vram (scr c)) (current_pblock k) (p_dir p)).
  { eapply image_transfer; [|exact I]. intros a Ha _. apply S; unfold ADDR_4MB in *; lia. }
  split; try done.
  - destruct R as [R1 R2 R3 R4 R5 R6 R7 R8]. split; try done. eapply image_dir_ok; [exact Im|].
    change (current_pblock (with_con k c)) with (current_pblock k). lia.
  - destruct F as [F1 F2 F3]. split; [done|done|]. intros fd f e Hf He.
    apply (fd_match_same (kmem k) _ (current_pblock k) p); [by apply F3| |intros; by eapply name_short].
    intros i Hi. pose proof (aget_Some_lt _ _ _ Hf) as Hfd. cbn [print p_fds] in Hfd. rewrite F1 in Hfd.
    unfold FNAME_LENGTH in Hi. apply S; lia.
  - destruct A as (A1 & A2 & A3). split; [done|]. split; [done|]. intros Hne.
    destruct (A3 Hne) as [C E]. split; [|done]. eapply is_cstr_ext; [|exact C].
    intros i Hi. change (p_arg (print p l)) with (p_arg p) in Hi.
    change (current_pblock (with_con k c)) with (current_pblock k). apply S; lia.
Qed.

(** The directory read from elsewhere. *)
Lemma serving_dir d : 0 <= d -> serving (with_dir k d) (with_dirpos p d) b.
Proof.
  intros Hd. destruct V as [[R1 R2 R3 R4 R5 R6 R7 R8] D I P [F1 F2 F3] A T]. split; try done.
Qed.

(** Descriptor [fd] changed, with its name slot. *)
Definition slot (fd : Z) : Z := current_pblock k + 72 + 48 * fd.
Lemma serving_put fd f e m t :
  2 <= fd < 8 -> f <> FdStd ->
  (forall a, 0 <= a < ADDR_8MB -> ~ (de <= a < de + 40) -> ~ (slot fd <= a < slot fd + FNAME_LENGTH) ->
     load8 m a = load8 (kmem k) a) ->
  fd_match m (current_pblock k) p fd f e ->
  serving (moved (put_fd k b fd e) m t) (with_fds p (<[Z.to_nat fd := f]> (p_fds p)))
    (set_fde (<[Z.to_nat fd := e]> (fde b)) b).
Proof.
  intros Hfd Hf S M. destruct cur_place as (Hn & Hcur & Hap).
  pose proof (sv_image _ _ _ V) as I. pose proof (sv_run _ _ _ V) as R.
  unfold SIZEOF_PCB, apart, ADDR_8MB, ADDR_4MB, FNAME_LENGTH, slot in *.
  assert (Im : image de (fs_info k) m (current_pblock k) (p_dir p)).
  { eapply image_transfer; [|exact I]. intros a Ha Ho. apply S; unfold ADDR_4MB in *; lia. }
  assert (Ec : current_pblock (moved (put_fd k b fd e) m t) = current_pblock k) by done.
  assert (H8 : length (p_fds p) = 8%nat) by apply V.
  assert (B8 : length (fde b) = 8%nat) by apply R.
  split; rewrite ?Ec; cbn [with_fds p_dir p_dirpos p_out p_arg].
  - destruct R as [R1 R2 R3 R4 R5 R6 R7 R8]. split; try done.
    + rewrite Ec. apply lookup_insert_eq.
    + cbn [set_fde fde]. by rewrite length_insert.
    + eapply image_dir_ok; [exact Im|]. lia.
  - apply V.
  - exact Im.
  - apply V.
  - destruct (sv_fds _ _ _ V) as [F1 F2 F3]. split; cbn [with_fds p_fds set_fde fde].
    + by rewrite length_insert.
    + rewrite !aget_insert by lia. destruct (Z.eqb_spec fd 0), (Z.eqb_spec fd 1); (done || lia).
    + intros fd' f' e'. rewrite !aget_insert by lia. destruct (Z.eqb_spec fd fd') as [<-|Hne].
      * intros [= <-] [= <-]. exact M.
      * intros Hf' He'. apply (fd_match_same (kmem k) m (current_pblock k) p); [by apply F3| |intros; by eapply name_short].
        intros i Hi. pose proof (aget_Some_lt _ _ _ Hf'). unfold FNAME_LENGTH in Hi. apply S; lia.
  - destruct (sv_arg _ _ _ V) as (A1 & A2 & A3). split; [done|]. split; [done|]. intros Hne.
    cbn [with_fds p_arg] in *. destruct (A3 Hne) as [C E]. split; [|done]. eapply is_cstr_ext; [|exact C].
    intros i Hi. change (kmem (moved (put_fd k b fd e) m t)) with m. apply S; lia.
  - pose proof (sv_term _ _ _ V) as T.
    apply (term_view_mem _ (sch (put_fd k b fd e)) (con k) m t).
    + destruct T as (T1 & a & T2 & T3). split; [done|]. exists a. split; [|done].
      rewrite active_put; [done|apply R].
    + intros a Ha. unfold ADDR_4MB in Ha. pose proof (sv_de _ _ _ V) as D. unfold ADDR_4MB, ADDR_8MB in D.
      apply S; lia.
Qed.
End Facts.
End Serving.
