(* ===== verification/Ulib.v ===== *)
(** * ece391support.c: the library of the user programs

    The string and number routines over the memory of a process, and
    [ece391_fdputs].  [strlen], [itoa] and [strrev] are those of the kernel's
    lib.c up to an early return; [strcmp] and [strncmp] compare unsigned bytes,
    which the kernel's [strncmp] does not. *)

From S2P Require Import Prelude Mem Lib Pcb Filesys Syscalls User.

Definition ece391_strlen (m : mem) (s : Z) : res Z :=
  while (fun len => if load8 m (s + len) =? 0 then inr (Ok len) else inl (u32 (len + 1))) 0.

Definition ece391_strcpy (m : mem) (dst src : Z) : res mem :=
  while (fun '(i, m) =>
    let c := load8 m (src + i) in
    let m := store8 m (dst + i) c in
    if c =? 0 then inr (Ok m) else inl (i + 1, m)) (0, m).

Definition ece391_fdputs `{OS W} (fd s : Z) (m : mem) (w : W) : res (mem * W) :=
  len ← ece391_strlen m s;
  '(m, w, _) ← ece391_write fd s len m w;
  Ok (m, w).

Definition ece391_strcmp (m : mem) (s1 s2 : Z) : res Z :=
  while (fun i =>
    if load8 m (s1 + i) =? load8 m (s2 + i) then
      if load8 m (s1 + i) =? 0 then inr (Ok 0) else inl (i + 1)
    else inr (Ok (load8 m (s1 + i) - load8 m (s2 + i)))) 0.

Definition ece391_strncmp (m : mem) (s1 s2 n : Z) : res Z :=
  if u32 n =? 0 then Ok 0
  else
    while (fun '(i, n) =>
      if load8 m (s1 + i) =? load8 m (s2 + i) then
        if load8 m (s1 + i) =? 0 then inr (Ok 0)
        else let n := u32 (n - 1) in if n =? 0 then inr (Ok 0) else inl (i + 1, n)
      else inr (Ok (load8 m (s1 + i) - load8 m (s2 + i)))) (0, u32 n).

Definition ece391_strrev (m : mem) (s : Z) : res mem :=
  len ← ece391_strlen m s;
  let end_ := s32 (len - 1) in
  if end_ <=? 0 then Ok m
  else
    while (fun '(beg, end_, m) =>
      if beg <? end_ then
        let tmp := load8 m (s + end_) in
        let m := store8 m (s + end_) (load8 m (s + beg)) in
        let m := store8 m (s + beg) tmp in
        inl (beg + 1, end_ - 1, m)
      else inr (Ok m)) (0, end_, m).

Definition ece391_itoa (m : mem) (value buf radix : Z) : res mem :=
  if u32 value =? 0 then Ok (store8 (store8 m buf 48) (buf + 1) 0)
  else
    '(newbuf, m) ← while (fun '(newval, newbuf, m) =>
      if 0 <? newval then
        if u32 radix =? 0 then inr Fault
        else match aget lookup_digits (s32 (newval mod u32 radix)) with
             | Some c => inl (newval / u32 radix, newbuf + 1, store8 m newbuf c)
             | None => inr Fault
             end
      else inr (Ok (newbuf, m))) (u32 value, buf, m);
    ece391_strrev (store8 m newbuf 0) buf.

(** ** Correctness *)

Lemma ece391_strlen_eq m s : ece391_strlen m s = strlen m s.
Proof. unfold ece391_strlen, strlen. reflexivity. Qed.

(** A loop that stops at once. *)
Lemma while_stop {S R} (body : S -> S + res R) s r : body s = inr r -> while body s = r.
Proof.
  intros E. apply (while_rule body (fun s' => s' = s) (fun _ => 0) (fun r' => r' = r)); [done|lia|].
  intros s' ->. by rewrite E.
Qed.

Lemma ece391_strrev_eq m s : ece391_strrev m s = strrev m s.
Proof.
  unfold ece391_strrev, strrev. rewrite ece391_strlen_eq. destruct (strlen m s) as [len| |]; [|done..].
  rewrite !bind_ok. cbv zeta. destruct (Z.leb_spec (s32 (len - 1)) 0) as [Hle|]; [|done].
  symmetry. apply while_stop. by destruct (Z.ltb_spec 0 (s32 (len - 1))); [lia|].
Qed.

Lemma ece391_itoa_eq m value buf radix : ece391_itoa m value buf radix = itoa m value buf radix.
Proof.
  unfold ece391_itoa, itoa. destruct (u32 value =? 0); [done|].
  destruct (while _ _) as [[newbuf m']| |]; [|done..]. rewrite !bind_ok. apply ece391_strrev_eq.
Qed.

(** The order of C strings as unsigned bytes, on at most [n] of them. *)
Fixpoint ucmp (n : nat) (la lb : list Z) : Z :=
  match n with
  | O => 0
  | S n => match la, lb with
           | [], [] => 0
           | [], b :: _ => - b
           | a :: _, [] => a
           | a :: la, b :: lb => if a =? b then ucmp n la lb else a - b
           end
  end.

Lemma ucmp_zero n la lb :
  text la -> text lb -> ucmp n la lb = 0 <-> take n la = take n lb.
Proof.
  revert la lb. induction n as [|n IH]; intros la lb Ha Hb; [done|].
  destruct la as [|a la], lb as [|b lb]; cbn [ucmp take]; [done| | |];
    repeat match goal with H : text (_ :: _) |- _ => apply Forall_cons in H as [? ?] end.
  - split; [lia|done].
  - split; [lia|done].
  - destruct (Z.eqb_spec a b) as [->|Hne].
    + rewrite IH by done. split; congruence.
    + split; [lia|congruence].
Qed.

(** One position of two strings that agree before it. *)
Lemma cstr_step m s l i :
  is_cstr m s l -> 0 <= i <= Z.of_nat (length l) ->
  (i = Z.of_nat (length l) /\ drop (Z.to_nat i) l = [] /\ load8 m (s + i) = 0) \/
  (i < Z.of_nat (length l) /\ load8 m (s + i) <> 0 /\
   drop (Z.to_nat i) l = load8 m (s + i) :: drop (Z.to_nat (i + 1)) l).
Proof.
  intros Hl Hi. destruct (Z.eq_dec i (Z.of_nat (length l))) as [E|].
  - left. split; [done|]. split; [apply drop_ge; lia|]. rewrite E. by apply is_cstr_end.
  - right. split; [lia|]. split; [apply (is_cstr_nz _ _ _ _ Hl); lia|].
    replace (Z.to_nat (i + 1)) with (S (Z.to_nat i)) by lia. apply drop_S.
    rewrite <- aget_lookup by lia. apply is_cstr_get; [done|lia].
Qed.

Lemma strncmp_spec m s1 s2 la lb n :
  is_cstr m s1 la -> is_cstr m s2 lb -> Z.of_nat (length la) < 2147483647 ->
  0 <= n < 4294967296 -> ece391_strncmp m s1 s2 n = Ok (ucmp (Z.to_nat n) la lb).
Proof.
  intros H1 H2 Hl Hn. unfold ece391_strncmp. rewrite u32_small by lia.
  destruct (Z.eqb_spec n 0) as [->|Hn0]; [done|].
  apply (while_rule _
    (fun '(i, k) => 0 <= i <= Z.of_nat (length la) /\ i <= Z.of_nat (length lb) /\ 0 < k < 4294967296 /\
       ucmp (Z.to_nat k) (drop (Z.to_nat i) la) (drop (Z.to_nat i) lb) = ucmp (Z.to_nat n) la lb)
    (fun '(i, _) => Z.of_nat (length la) - i)); [split_and!; (lia || done)|lia|].
  intros [i k] (Hi & Hb & Hk & E).
  replace (Z.to_nat k) with (S (Z.to_nat (k - 1))) in E by lia.
  destruct (cstr_step m s1 la i H1 ltac:(lia)) as [(E1 & D1 & Z1)|(E1 & Z1 & D1)],
    (cstr_step m s2 lb i H2 ltac:(lia)) as [(E2 & D2 & Z2)|(E2 & Z2 & D2)];
    rewrite D1, D2 in E; cbn [ucmp] in E.
  - by rewrite Z1, Z2, <- E.
  - rewrite Z1, <- E. destruct (Z.eqb_spec 0 (load8 m (s2 + i))); [lia|]. f_equal; lia.
  - rewrite Z2, <- E. destruct (Z.eqb_spec (load8 m (s1 + i)) 0); [lia|]. f_equal; lia.
  - destruct (Z.eqb_spec (load8 m (s1 + i)) (load8 m (s2 + i))) as [He|He]; [|by rewrite <- E].
    destruct (Z.eqb_spec (load8 m (s1 + i)) 0); [done|]. cbv zeta. rewrite u32_small by lia.
    destruct (Z.eqb_spec (k - 1) 0) as [Hk1|Hk1]; [by rewrite Hk1 in E; rewrite <- E|].
    split; [|lia]. split_and!; (lia || done).
Qed.

Lemma strcmp_spec m s1 s2 la lb :
  is_cstr m s1 la -> is_cstr m s2 lb -> Z.of_nat (length la) < 2147483647 ->
  ece391_strcmp m s1 s2 = Ok (ucmp (S (length la)) la lb).
Proof.
  intros H1 H2 Hl. unfold ece391_strcmp. set (R := ucmp (S (length la)) la lb).
  apply (while_rule _
    (fun i => 0 <= i <= Z.of_nat (length la) /\ i <= Z.of_nat (length lb) /\
       ucmp (S (length la) - Z.to_nat i) (drop (Z.to_nat i) la) (drop (Z.to_nat i) lb)
       = R)
    (fun i => Z.of_nat (length la) - i)); [split_and!; (lia || done)|lia|].
  intros i (Hi & Hb & E).
  replace (S (length la) - Z.to_nat i)%nat with (S (S (length la) - Z.to_nat (i + 1))) in E by lia.
  destruct (cstr_step m s1 la i H1 ltac:(lia)) as [(E1 & D1 & Z1)|(E1 & Z1 & D1)],
    (cstr_step m s2 lb i H2 ltac:(lia)) as [(E2 & D2 & Z2)|(E2 & Z2 & D2)];
    rewrite D1, D2 in E; cbn [ucmp] in E.
  - by rewrite Z1, Z2, <- E.
  - rewrite Z1, <- E. destruct (Z.eqb_spec 0 (load8 m (s2 + i))); [lia|]. f_equal; lia.
  - rewrite Z2, <- E. destruct (Z.eqb_spec (load8 m (s1 + i)) 0); [lia|]. f_equal; lia.
  - destruct (Z.eqb_spec (load8 m (s1 + i)) (load8 m (s2 + i))) as [He|He]; [|by rewrite <- E].
    destruct (Z.eqb_spec (load8 m (s1 + i)) 0); [done|].
    split; [|lia]. split_and!; (lia || done).
Qed.

(** [strcmp] tells equal strings. *)
Lemma strcmp_equal m s1 s2 la lb :
  is_cstr m s1 la -> is_cstr m s2 lb -> Z.of_nat (length la) < 2147483647 ->
  exists r, ece391_strcmp m s1 s2 = Ok r /\ (r = 0 <-> la = lb).
Proof.
  intros H1 H2 Hl. exists (ucmp (S (length la)) la lb). split; [by apply strcmp_spec|].
  rewrite ucmp_zero by (eapply is_cstr_chars; eassumption). split.
  - rewrite (take_ge la) by lia. intros E.
    assert (Hlen : length la = length (take (S (length la)) lb)) by (by rewrite <- E).
    rewrite length_take in Hlen. rewrite E. apply take_ge. lia.
  - by intros ->.
Qed.

Lemma strcpy_spec m dst src l :
  is_cstr m src l -> Z.of_nat (length l) < 2147483647 ->
  in_space dst (Z.of_nat (length l) + 1) -> in_space src (Z.of_nat (length l) + 1) ->
  fwd_ok dst src (Z.of_nat (length l) + 1) ->
  exists m', ece391_strcpy m dst src = Ok m' /\
    writes m m' dst (Z.of_nat (length l) + 1) (fun i => load8 m (src + i)).
Proof.
  intros Hs Hlen Hd Hsrc Hf. unfold ece391_strcpy, fwd_ok, in_space in *.
  apply (while_rule _
    (fun '(i, mi) => 0 <= i <= Z.of_nat (length l) /\ writes m mi dst i (fun i => load8 m (src + i)))
    (fun '(i, _) => Z.of_nat (length l) - i)); [|lia|].
  { split; [lia|]. by apply writes_nil. }
  intros [i mi] [Hi Hw]. cbv zeta.
  rewrite (writes_out _ _ _ _ _ _ Hw) by (unfold addr; lia).
  assert (W : writes m (store8 mi (dst + i) (load8 m (src + i))) dst (i + 1) (fun i => load8 m (src + i))).
  { apply writes_snoc; [lia|unfold in_space; lia| |done]. apply u8_small, load8_range. }
  destruct (cstr_step m src l i Hs Hi) as [(E & _ & Z0)|(E & Z0 & _)].
  - rewrite Z0 in *. cbn [Z.eqb]. eexists. split; [reflexivity|]. by rewrite <- E.
  - destruct (Z.eqb_spec (load8 m (src + i)) 0); [done|]. split; [split; [lia|done]|lia].
Qed.

(** Parts of [bytes_at]. *)
Lemma bytes_at_lookup m a l i b :
  bytes_at m a l -> 0 <= i -> l !! Z.to_nat i = Some b -> load8 m (a + i) = b.
Proof.
  intros B Hi E. pose proof (lookup_lt_Some _ _ _ E). specialize (B i ltac:(lia)).
  rewrite aget_lookup in B by lia. congruence.
Qed.

Lemma bytes_at_drop m a l k :
  bytes_at m a l -> 0 <= k <= Z.of_nat (length l) -> bytes_at m (a + k) (drop (Z.to_nat k) l).
Proof.
  intros B Hk i Hi. rewrite length_drop in Hi. specialize (B (k + i) ltac:(lia)).
  rewrite aget_lookup in * by lia. rewrite lookup_drop, <- Z2Nat.inj_add by lia. rewrite B.
  do 2 f_equal. lia.
Qed.

Lemma bytes_at_app m a l1 l2 :
  bytes_at m a l1 -> bytes_at m (a + Z.of_nat (length l1)) l2 -> bytes_at m a (l1 ++ l2).
Proof.
  intros B1 B2 i Hi. rewrite length_app in Hi.
  destruct (decide (i < Z.of_nat (length l1))) as [Hlt|Hge].
  - specialize (B1 i ltac:(lia)). rewrite aget_lookup in * by lia. by rewrite lookup_app_l by lia.
  - specialize (B2 (i - Z.of_nat (length l1)) ltac:(lia)). rewrite aget_lookup in * by lia.
    rewrite lookup_app_r by lia. replace (a + i) with (a + Z.of_nat (length l1) + (i - Z.of_nat (length l1))) by lia.
    rewrite <- B2. f_equal. lia.
Qed.

Lemma bytes_at_take m a l k : bytes_at m a l -> bytes_at m a (take k l).
Proof.
  intros B i Hi. rewrite length_take in Hi. specialize (B i ltac:(lia)).
  rewrite aget_lookup in * by lia. by rewrite lookup_take_lt by lia.
Qed.

(** [fdputs] to the terminal prints the string. *)
Lemma fdputs_prints {W} {O : OS W} {Vw : View W} {L : OSLaws W} m w p a l :
  view w p -> user_cstr m a l ->
  exists w', ece391_fdputs 1 a m w = Ok (m, w') /\ view w' (print p l).
Proof.
  intros V [Hl (U1 & U2 & U3)]. unfold TOP_PAGE, BOTTOM_PAGE in *. unfold ece391_fdputs.
  rewrite ece391_strlen_eq, (strlen_cstr _ _ _ Hl), bind_ok by lia.
  destruct (law_write m w p a l V (is_cstr_bytes _ _ _ Hl)) as (w' & r & E & _ & V').
  { unfold in_user, TOP_PAGE, BOTTOM_PAGE. lia. }
  exists w'. unfold ece391_write. by rewrite E, bind_ok.
Qed.
