(* ===== verification/Apps.v ===== *)
(** * ece391cat.c, ece391ls.c, ece391hello.c, ece391testprint.c, ece391counter.c

    The user programs, over the system calls of any machine.  [lit s] is the
    address of the literal [s]; a local array is at the address of its name.
    The theorems hold on every machine with the laws of [OSLaws]. *)

From S2P Require Import Prelude Mem Lib Pcb Filesys Syscalls User Ulib.

Section Programs.
Context `{OS W} (lit : list Z -> Z).

(** A diagnostic and the exit status after it. *)
Definition fail_with (msg : list Z) (status : Z) (m : mem) (w : W) : res (mem * W * Z) :=
  '(m, w) ← ece391_fdputs 1 (lit msg) m w; Ok (m, w, status).

(** ** cat *)

Definition cat_turn (fd buf : Z) (m : mem) (w : W) : res ((mem * W) + (mem * W * Z)) :=
  '(m, w, cnt) ← ece391_read fd buf 1024 m w;
  if 0 =? cnt then Ok (inr (m, w, 0))
  else if -1 =? cnt then inr <$> fail_with (bytes "file read failed" ++ [10]) 3 m w
  else
    '(m, w, r) ← ece391_write 1 buf cnt m w;
    if -1 =? r then Ok (inr (m, w, 3)) else Ok (inl (m, w)).

Definition cat_main (buf : Z) (m : mem) (w : W) : res (mem * W * Z) :=
  '(m, w, r) ← ece391_getargs buf 1024 m w;
  if negb (0 =? r) then fail_with (bytes "could not read arguments" ++ [10]) 3 m w
  else
    '(m, w, fd) ← ece391_open buf m w;
    if -1 =? fd then fail_with (bytes "file not found" ++ [10]) 2 m w
    else whileM (fun '(m, w) => cat_turn fd buf m w) (m, w).

(** ** ls *)

Definition SBUFSIZE : Z := 33.
Definition ls_turn (fd buf : Z) (m : mem) (w : W) : res ((mem * W) + (mem * W * Z)) :=
  '(m, w, cnt) ← ece391_read fd buf (SBUFSIZE - 1) m w;
  if 0 =? cnt then Ok (inr (m, w, 0))
  else if -1 =? cnt then inr <$> fail_with (bytes "directory entry read failed" ++ [10]) 3 m w
  else
    let m := store8 m (buf + cnt) 10 in
    '(m, w, r) ← ece391_write 1 buf (cnt + 1) m w;
    if -1 =? r then Ok (inr (m, w, 3)) else Ok (inl (m, w)).

Definition ls_main (buf : Z) (m : mem) (w : W) : res (mem * W * Z) :=
  '(m, w, fd) ← ece391_open (lit (bytes ".")) m w;
  if -1 =? fd then fail_with (bytes "directory open failed" ++ [10]) 2 m w
  else whileM (fun '(m, w) => ls_turn fd buf m w) (m, w).

(** ** hello and testprint *)

Definition BUFSIZE : Z := 1024.
Definition hello_main (buf : Z) (m : mem) (w : W) : res (mem * W * Z) :=
  '(m, w) ← ece391_fdputs 1 (lit (bytes "Hi, what's your name? ")) m w;
  '(m, w, cnt) ← ece391_read 0 buf (BUFSIZE - 1) m w;
  if -1 =? cnt then fail_with (bytes "Can't read name from keyboard." ++ [10]) 3 m w
  else
    let m := store8 m (buf + cnt) 0 in
    '(m, w) ← ece391_fdputs 1 (lit (bytes "Hello, ")) m w;
    '(m, w) ← ece391_fdputs 1 buf m w;
    Ok (m, w, 0).

Definition testprint_main (m : mem) (w : W) : res (mem * W * Z) :=
  fail_with (bytes "Hello, if this ran, the program was correct. Yay!" ++ [10]) 0 m w.

(** ** counter *)

Definition count_to (buf max : Z) (m : mem) (w : W) : res (mem * W) :=
  forM (seqZ 0 max) (fun '(m, w) i =>
    m ← ece391_itoa m (u32 (i + 1)) buf 10;
    '(m, w) ← ece391_fdputs 1 buf m w;
    ece391_fdputs 1 (lit [10]) m w) (m, w).

(** [cnt] is unsigned: -1 is compared as 2^32 - 1. *)
Definition counter_main (buf : Z) (m : mem) (w : W) : res (mem * W * Z) :=
  '(m, w) ← ece391_fdputs 1
    (lit (bytes "Enter the Test Number: (0): 100, (1): 10000, (2): 100000" ++ [10])) m w;
  '(m, w, cnt) ← ece391_read 0 buf (BUFSIZE - 1) m w;
  if u32 (-1) =? u32 cnt then fail_with (bytes "Can't read the number from keyboard." ++ [10]) 3 m w
  else
    let m := store8 m (buf + u32 cnt) 0 in
    len ← ece391_strlen m buf;
    if (1 <? len) || ((len =? 1) && ((load8 m buf <? 48) || (50 <? load8 m buf))) then
      fail_with (bytes "Wrong Choice!" ++ [10]) 0 m w
    else
      let c := load8 m buf in
      let max := if c =? 48 then 100 else if c =? 49 then 10000 else if c =? 50 then 100000 else 0 in
      '(m, w) ← count_to buf max m w;
      Ok (m, w, 0).

End Programs.

(** ** Where the literals are *)

(** The literals [L] are in memory, apart from the array [buf, buf + n). *)
Definition literals (lit : list Z -> Z) (L : list (list Z)) (buf n : Z) (m : mem) : Prop :=
  Forall (fun s => user_cstr m (lit s) s /\ apart (lit s) (Z.of_nat (length s) + 1) buf n) L.

Lemma user_cstr_same m m' a l lo hi :
  user_cstr m a l -> same_outside lo hi m m' -> apart a (Z.of_nat (length l) + 1) lo (hi - lo) ->
  user_cstr m' a l.
Proof.
  intros [Hl U] S A. split; [|done]. destruct U as (U1 & U2 & U3).
  unfold apart, TOP_PAGE, BOTTOM_PAGE in *.
  eapply is_cstr_ext; [|exact Hl]. intros i Hi. apply S; unfold addr; lia.
Qed.

Lemma literals_same lit L buf n m m' :
  literals lit L buf n m -> same_outside buf (buf + n) m m' -> literals lit L buf n m'.
Proof.
  intros H S. eapply Forall_impl; [exact H|]. intros s [Hs A]. split; [|done].
  eapply user_cstr_same; [exact Hs|exact S|]. unfold apart in *. lia.
Qed.

Lemma literals_at lit L buf n m s : literals lit L buf n m -> s ∈ L -> user_cstr m (lit s) s.
Proof. unfold literals. rewrite Forall_forall. intros H Hs. by apply H. Qed.

Section Theorems.
Context {W : Type} {O : OS W} {Vw : View W} {L : OSLaws W} (lit : list Z -> Z).

Lemma fail_prints m w p buf n Ls msg status :
  view w p -> literals lit Ls buf n m -> msg ∈ Ls ->
  exists w', fail_with lit msg status m w = Ok (m, w', status) /\ view w' (print p msg).
Proof.
  intros V Hl Hin. unfold fail_with.
  destruct (fdputs_prints m w p _ _ V (literals_at _ _ _ _ _ _ Hl Hin)) as (w' & E & V').
  exists w'. by rewrite E, bind_ok.
Qed.

Lemma print_print p l1 l2 : print (print p l1) l2 = print p (l1 ++ l2).
Proof. unfold print. cbn. by rewrite app_assoc. Qed.
Lemma print_nil p : print p [] = p.
Proof. unfold print. rewrite app_nil_r. by destruct p. Qed.

(** ** cat *)

Definition cat_literals : list (list Z) :=
  [bytes "could not read arguments" ++ [10]; bytes "file not found" ++ [10]].

(** A process in the middle of [cat]: position [pos] of the file at [fd]. *)
Definition cat_at (p : proc) (fd : Z) (c : list Z) (pos : Z) : proc :=
  print (with_fds p (<[Z.to_nat fd := FdFile c pos]> (p_fds p))) (take (Z.to_nat pos) c).

Lemma take_more {A} (l : list A) i k :
  take i l ++ take k (drop i l) = take (i + k) l.
Proof. by rewrite <- take_take_drop. Qed.

Lemma fd_insert p fd f : length (p_fds p) = 8%nat -> 0 <= fd < 8 ->
  aget (<[Z.to_nat fd := f]> (p_fds p)) fd = Some f.
Proof. intros Hl Hfd. rewrite aget_insert by (rewrite Hl; lia). by rewrite Z.eqb_refl. Qed.

Lemma cat_loop m w p buf fd c :
  view w (cat_at p fd c 0) -> 0 <= fd < 8 -> length (p_fds p) = 8%nat ->
  in_user buf 1024 -> Z.of_nat (length c) < 4294967296 ->
  exists m' w', whileM (fun '(m, w) => cat_turn lit fd buf m w) (m, w) = Ok (m', w', 0) /\
    view w' (cat_at p fd c (Z.of_nat (length c))).
Proof.
  intros V Hfd Hlen U Hc. set (n := Z.of_nat (length c)) in *.
  destruct (whileM_rule (fun '(m, w) => cat_turn lit fd buf m w)
    (fun k '(m, w) => 0 <= n - k <= n /\ view w (cat_at p fd c (n - k)))
    (fun '(_, w', r) => r = 0 /\ view w' (cat_at p fd c n)) n (m, w)) as ([[m' w'] r] & E & -> & V').
  - rewrite Z.sub_diag. split; [lia|done].
  - lia.
  - clear m w V. intros k [m w] Hk [Hp V]. set (pos := n - k) in *. unfold cat_turn.
    assert (F : aget (p_fds (cat_at p fd c pos)) fd = Some (FdFile c pos)) by (by apply fd_insert).
    destruct (law_read_file m w _ fd buf 1024 c pos V F ltac:(lia) U) as (m1 & w1 & E & B & _ & _ & V1).
    fold n in E, B, V1. set (cnt := Z.min 1024 (n - pos)) in *. unfold ece391_read. rewrite E, bind_ok.
    assert (Hcp : with_fds (cat_at p fd c pos) (<[Z.to_nat fd := FdFile c (pos + cnt)]>
        (p_fds (cat_at p fd c pos))) = print (with_fds p (<[Z.to_nat fd := FdFile c (pos + cnt)]> (p_fds p)))
        (take (Z.to_nat pos) c)).
    { unfold cat_at, with_fds, print. cbn. by rewrite list_insert_insert_eq. }
    rewrite Hcp in V1. destruct (Z.eqb_spec 0 cnt) as [E0|].
    + eexists. split; [reflexivity|]. split; [done|]. unfold cat_at.
      replace n with pos by lia. by replace (pos + cnt) with pos in V1 by lia.
    + destruct (Z.eqb_spec (-1) cnt); [lia|].
      assert (Hl : Z.of_nat (length (take (Z.to_nat cnt) (drop (Z.to_nat pos) c))) = cnt).
      { rewrite length_take, length_drop. lia. }
      destruct U as (U1 & U2 & U3).
      destruct (law_write m1 w1 _ buf _ V1 B) as (w2 & r & E2 & Hr & V2).
      { unfold in_user. lia. }
      rewrite Hl in E2. unfold ece391_write. rewrite E2, bind_ok.
      destruct (Z.eqb_spec (-1) r); [lia|]. eexists. split; [reflexivity|]. exists (k - cnt).
      split; [lia|]. replace (n - (k - cnt)) with (pos + cnt) by lia. split; [lia|].
      rewrite print_print, take_more in V2. unfold cat_at.
      by replace (Z.to_nat (pos + cnt)) with (Z.to_nat pos + Z.to_nat cnt)%nat by lia.
  - by exists m', w'.
Qed.

(** The argument in the buffer, as the programs fetch it. *)
Lemma fetch_arg m w p buf n ls :
  view w p -> p_arg p <> [] -> 128 <= n <= 1024 -> in_user buf n -> literals lit ls buf n m ->
  exists m1 w1, ece391_getargs buf n m w = Ok (m1, w1, 0) /\ user_cstr m1 buf (p_arg p) /\
    literals lit ls buf n m1 /\ view w1 p.
Proof.
  intros V Hne Hn U Hl. pose proof (view_arg _ _ V) as Ha.
  destruct (law_getargs m w p buf n V Hne ltac:(lia) U) as (m1 & w1 & E & C & S & V1).
  exists m1, w1. split; [done|]. split.
  - split; [done|]. unfold in_user in *. lia.
  - split; [by eapply literals_same|done].
Qed.

Lemma cat_prints buf m w p c :
  view w p -> in_user buf 1024 -> literals lit cat_literals buf 1024 m ->
  p_arg p <> [] -> lookup_name p (p_arg p) = Some (KFile c) ->
  (lowest_free (p_fds p) < 8)%nat -> Z.of_nat (length c) < 4294967296 ->
  exists m' w', cat_main lit buf m w = Ok (m', w', 0) /\
    view w' (print (with_fds p (<[lowest_free (p_fds p) := FdFile c (Z.of_nat (length c))]> (p_fds p))) c).
Proof.
  intros V U Hl Hne Hk Hf Hc. pose proof (view_fds _ _ V) as Hlen. unfold cat_main.
  destruct (fetch_arg m w p buf 1024 _ V Hne ltac:(lia) U Hl) as (m1 & w1 & E & C & _ & V1).
  rewrite E, bind_ok. change (negb (0 =? 0)) with false. cbv iota.
  destruct (law_open m1 w1 p buf _ _ V1 C Hk Hf) as (w2 & E2 & V2). unfold ece391_open.
  rewrite E2, bind_ok. destruct (Z.eqb_spec (-1) (Z.of_nat (lowest_free (p_fds p)))); [lia|].
  destruct (cat_loop m1 w2 p buf (Z.of_nat (lowest_free (p_fds p))) c) as (m3 & w3 & E3 & V3);
    try done; try lia.
  { unfold cat_at. rewrite Nat2Z.id. cbn [take]. by rewrite print_nil. }
  exists m3, w3. split; [exact E3|]. unfold cat_at in V3. by rewrite !Nat2Z.id, firstn_all in V3.
Qed.

(** C20 [cat] prints a file: with the name of a regular file as its argument
    and a free descriptor, it ends with status 0 and the terminal shows exactly
    the content of the file after what it showed before; the descriptor is left
    open at the end of the file.  Without an argument, or with a name that does
    not exist, it prints its message and ends with status 3 or 2. *)
Theorem cat_correct (buf : Z) (m : mem) (w : W) (p : proc) :
  view w p -> in_user buf 1024 -> literals lit cat_literals buf 1024 m ->
  let run := cat_main lit buf m w in
  (forall c, p_arg p <> [] -> lookup_name p (p_arg p) = Some (KFile c) ->
   (lowest_free (p_fds p) < 8)%nat -> Z.of_nat (length c) < 4294967296 ->
   exists m' w', run = Ok (m', w', 0) /\
     view w' (print (with_fds p (<[lowest_free (p_fds p) := FdFile c (Z.of_nat (length c))]> (p_fds p))) c)) /\
  (p_arg p = [] -> exists w', run = Ok (m, w', 3) /\
     view w' (print p (bytes "could not read arguments" ++ [10]))) /\
  (p_arg p <> [] -> lookup_name p (p_arg p) = None ->
   exists m' w', run = Ok (m', w', 2) /\ view w' (print p (bytes "file not found" ++ [10]))).
Proof.
  intros V U Hl run. split; [intros c; by apply cat_prints|]. split.
  - intros He. destruct (law_getargs_none m w p buf 1024 V He) as (w1 & E & V1).
    unfold run, cat_main, ece391_getargs. rewrite E, bind_ok. change (negb (0 =? -1)) with true. cbv iota. apply (fail_prints _ _ _ _ _ _ _ _ V1 Hl).
    unfold cat_literals. rewrite !elem_of_cons. auto.
  - intros Hne Hk. pose proof (view_arg _ _ V) as Ha. unfold run, cat_main.
    destruct (fetch_arg m w p buf 1024 _ V Hne ltac:(lia) U Hl) as (m1 & w1 & E & C & Hl1 & V1). rewrite E, bind_ok. change (negb (0 =? 0)) with false. cbv iota.
    destruct (law_open_fails m1 w1 p buf _ V1 C ltac:(lia) ltac:(by left)) as (w2 & E2 & V2). unfold ece391_open.
    rewrite E2, bind_ok. change (-1 =? -1) with true. cbv iota. exists m1.
    apply (fail_prints _ _ _ _ _ _ _ _ V2 Hl1). unfold cat_literals. rewrite !elem_of_cons. auto.
Qed.

(** ** ls *)

Definition ls_literals : list (list Z) := [bytes "."; bytes "directory open failed" ++ [10]].
Definition line (l : list Z) : list Z := l ++ [10].

(** Replacing the terminator, or what follows a string, by one byte. *)
Lemma store_after m a l v :
  bytes_at m a l -> 0 <= a -> a + Z.of_nat (length l) < 4294967296 -> 0 <= v < 256 ->
  bytes_at (store8 m (a + Z.of_nat (length l)) v) a (l ++ [v]) /\
  same_outside (a + Z.of_nat (length l)) (a + Z.of_nat (length l) + 1) m
    (store8 m (a + Z.of_nat (length l)) v).
Proof.
  intros Hb H1 H2 Hv. split; [|apply same_outside_store8; [unfold addr|]; lia].
  apply bytes_at_snoc.
  - eapply bytes_at_ext; [|exact Hb]. intros i Hi. apply load8_store8_ne; unfold addr; lia.
  - rewrite load8_store8_addr, Z.eqb_refl by (unfold addr; lia). by apply u8_small.
Qed.

(** A program at position [pos] of the directory, having shown [f] of each
    name from the one it started with. *)
Definition walked (f : list Z -> list Z) (p : proc) (names : list (list Z)) (pos : Z) : proc :=
  print (with_dirpos p pos)
    (concat (f <$> take (Z.to_nat (pos - p_dirpos p)) (drop (Z.to_nat (p_dirpos p)) names))).

Lemma walked_start f p names : walked f p names (p_dirpos p) = p.
Proof.
  unfold walked. rewrite Z.sub_diag. cbn [Z.to_nat take fmap list_fmap concat].
  rewrite print_nil. by destruct p.
Qed.

Lemma walked_next f p names pos name :
  0 <= p_dirpos p <= pos -> aget names pos = Some name ->
  print (with_dirpos (walked f p names pos) (pos + 1)) (f name) = walked f p names (pos + 1).
Proof.
  intros Hp En. unfold walked. set (d := p_dirpos p) in *.
  replace (Z.to_nat (pos + 1 - d)) with (S (Z.to_nat (pos - d))) by lia. rewrite (take_S_r _ _ name).
  - change (with_dirpos (print (with_dirpos p pos) ?o) (pos + 1)) with (print (with_dirpos p (pos + 1)) o).
    rewrite print_print, fmap_app, concat_app. cbn [fmap list_fmap concat]. by rewrite app_nil_r.
  - rewrite lookup_drop. rewrite aget_lookup in En by lia. rewrite <- En. f_equal. lia.
Qed.

Lemma walked_end f p names pos :
  0 <= p_dirpos p <= pos -> aget names pos = None ->
  with_dirpos (walked f p names pos) 0 = print (with_dirpos p 0) (concat (f <$> drop (Z.to_nat (p_dirpos p)) names)).
Proof.
  intros Hp En. rewrite aget_lookup in En by lia. apply lookup_ge_None in En.
  unfold walked. by rewrite take_ge by (rewrite length_drop; lia).
Qed.

Lemma ls_loop m w p buf fd :
  view w p -> aget (p_fds p) fd = Some FdDir -> in_user buf SBUFSIZE ->
  let names := (p_dir p).*1 in
  0 <= p_dirpos p <= Z.of_nat (length names) -> Z.of_nat (length names) < 4294967296 ->
  exists m' w', whileM (fun '(m, w) => ls_turn lit fd buf m w) (m, w) = Ok (m', w', 0) /\
    view w' (print (with_dirpos p 0) (concat (line <$> drop (Z.to_nat (p_dirpos p)) names))).
Proof.
  intros V Hfd U names Hd Hc. set (n := Z.of_nat (length names)) in *. set (d := p_dirpos p) in *.
  destruct (whileM_rule (fun '(m, w) => ls_turn lit fd buf m w)
    (fun k '(m, w) => d <= n - k <= n /\ view w (walked line p names (n - k)))
    (fun '(_, w', r) => r = 0 /\ view w' (print (with_dirpos p 0) (concat (line <$> drop (Z.to_nat d) names))))
    (n - d) (m, w)) as ([[m' w'] r] & E & -> & V').
  - split; [lia|]. replace (n - (n - d)) with d by lia. unfold d. by rewrite walked_start.
  - lia.
  - clear m w V. intros k [m w] Hk [Hp V]. set (pos := n - k) in *. unfold ls_turn, SBUFSIZE in *.
    pose proof (law_read_dir m w _ fd buf 32 V Hfd ltac:(lia) U) as R.
    change (p_dirpos (walked line p names pos)) with pos in R.
    change (p_dir (walked line p names pos)) with (p_dir p) in R. fold names in R. unfold ece391_read.
    change (33 - 1) with 32. destruct (aget names pos) as [name|] eqn:En.
    + destruct R as (m1 & w1 & E & C & Hl & S1 & V1). rewrite E, bind_ok.
      set (cnt := Z.of_nat (length name)) in *.
      destruct (Z.eqb_spec 0 cnt); [lia|]. destruct (Z.eqb_spec (-1) cnt); [lia|]. cbv zeta.
      destruct U as (U1 & U2 & U3). unfold TOP_PAGE, BOTTOM_PAGE in *.
      destruct (store_after m1 buf name 10 (is_cstr_bytes _ _ _ C)) as [B _]; [lia..|].
      fold cnt in B. destruct (law_write _ w1 _ buf _ V1 B) as (w2 & r & E2 & Hr & V2).
      { unfold in_user, TOP_PAGE, BOTTOM_PAGE. rewrite length_app. cbn. lia. }
      rewrite length_app in E2. cbn [length] in E2. unfold ece391_write.
      replace (Z.of_nat (length name + 1)) with (cnt + 1) in E2 by lia. rewrite E2, bind_ok.
      destruct (Z.eqb_spec (-1) r); [lia|]. eexists. split; [reflexivity|]. exists (k - 1).
      pose proof (aget_Some_lt _ _ _ En) as Hlt. fold n in Hlt.
      split; [lia|]. replace (n - (k - 1)) with (pos + 1) by lia. split; [lia|].
      rewrite <- (walked_next line p names pos name) by (fold d; lia || done). exact V2.
    + destruct R as (w1 & E & V1). rewrite E, bind_ok. eexists. split; [reflexivity|].
      cbn [Z.eqb]. split; [done|]. unfold d. rewrite <- (walked_end line p names pos) by (fold d; lia || done).
      exact V1.
  - by exists m', w'.
Qed.

Lemma ls_dot buf n m : literals lit ls_literals buf n m -> user_cstr m (lit (bytes ".")) (bytes ".").
Proof. intros Hl. apply (literals_at _ _ _ _ _ _ Hl). unfold ls_literals. rewrite !elem_of_cons. auto. Qed.

Lemma ls_prints buf m w p :
  view w p -> in_user buf SBUFSIZE -> literals lit ls_literals buf SBUFSIZE m ->
  let names := (p_dir p).*1 in
  0 <= p_dirpos p <= Z.of_nat (length names) -> Z.of_nat (length names) < 4294967296 ->
  lookup_name p (bytes ".") = Some KDir -> (lowest_free (p_fds p) < 8)%nat ->
  exists m' w', ls_main lit buf m w = Ok (m', w', 0) /\
    view w' (print (with_dirpos (with_fds p (<[lowest_free (p_fds p) := FdDir]> (p_fds p))) 0)
               (concat (line <$> drop (Z.to_nat (p_dirpos p)) names))).
Proof.
  intros V U Hl names Hd Hn Hk Hf. unfold ls_main, ece391_open. pose proof (view_fds _ _ V) as Hlen.
  destruct (law_open m w p _ _ _ V (ls_dot _ _ _ Hl) Hk Hf) as (w1 & E & V1). rewrite E, bind_ok.
  destruct (Z.eqb_spec (-1) (Z.of_nat (lowest_free (p_fds p)))); [lia|]. cbn [fd_for] in V1.
  set (q := with_fds p _) in V1.
  assert (F : aget (p_fds q) (Z.of_nat (lowest_free (p_fds p))) = Some FdDir).
  { subst q. cbn [with_fds p_fds]. rewrite aget_of_nat. apply list_lookup_insert_eq. lia. }
  destruct (ls_loop m w1 q buf _ V1 F U Hd Hn) as (m2 & w2 & E2 & V2). exists m2, w2. by split.
Qed.

(** [ls] prints the directory: one line per name, from the position the
    kernel's shared counter has (the start, when no other directory read was
    interrupted) to the end; it ends with status 0 and the counter is back at
    the start.  When the directory cannot be opened, it says so and ends with
    status 2. *)
Theorem ls_correct (buf : Z) (m : mem) (w : W) (p : proc) :
  view w p -> in_user buf SBUFSIZE -> literals lit ls_literals buf SBUFSIZE m ->
  let names := (p_dir p).*1 in
  0 <= p_dirpos p <= Z.of_nat (length names) -> Z.of_nat (length names) < 4294967296 ->
  let run := ls_main lit buf m w in
  (lookup_name p (bytes ".") = Some KDir -> (lowest_free (p_fds p) < 8)%nat ->
   exists m' w', run = Ok (m', w', 0) /\
     view w' (print (with_dirpos (with_fds p (<[lowest_free (p_fds p) := FdDir]> (p_fds p))) 0)
                (concat (line <$> drop (Z.to_nat (p_dirpos p)) names)))) /\
  (lowest_free (p_fds p) = 8%nat ->
   exists w', run = Ok (m, w', 2) /\ view w' (print p (bytes "directory open failed" ++ [10]))).
Proof.
  intros V U Hl names Hd Hn run. split; [by apply ls_prints|].
  intros Hf. destruct (law_open_fails m w p _ _ V (ls_dot _ _ _ Hl) ltac:(done) ltac:(by right)) as (w1 & E & V1).
  unfold run, ls_main, ece391_open. rewrite E, bind_ok. change (-1 =? -1) with true. cbv iota.
  apply (fail_prints _ _ _ _ _ _ _ _ V1 Hl). unfold ls_literals. rewrite !elem_of_cons. auto.
Qed.

(** ** hello and counter *)

Definition hello_literals : list (list Z) := [bytes "Hi, what's your name? "; bytes "Hello, "].
Definition counter_prompt : list Z :=
  bytes "Enter the Test Number: (0): 100, (1): 10000, (2): 100000" ++ [10].
Definition counter_literals : list (list Z) :=
  [counter_prompt; bytes "Wrong Choice!" ++ [10]; [10]].

Context {KL : KeyboardLaws W}.

(** A prompt, the line typed after it in [buf] with a terminator behind. *)
Lemma ask m w p buf Ls msg l rest :
  view w p -> in_user buf 1024 -> literals lit Ls buf 1024 m -> msg ∈ Ls ->
  p_input p = l :: rest -> Z.of_nat (length l) < 128 ->
  exists w1 m2 w2, ece391_fdputs 1 (lit msg) m w = Ok (m, w1) /\
    ece391_read 0 buf (BUFSIZE - 1) m w1 = Ok (m2, w2, Z.of_nat (length l) + 1) /\
    bytes_at m2 buf (l ++ [10]) /\ text l /\ literals lit Ls buf 1024 m2 /\
    view w2 (print (with_input p rest) (msg ++ l ++ [10])).
Proof.
  intros V U Hl Hin Hi Hlen.
  destruct (fdputs_prints m w p _ _ V (literals_at _ _ _ _ _ _ Hl Hin)) as (w1 & E1 & V1).
  destruct (law_read_line m w1 (print p msg) buf 1023 l rest V1 Hi ltac:(lia)) as (m2 & w2 & E2 & B & _ & T & S & V2).
  { unfold in_user in *. lia. }
  exists w1, m2, w2. split; [exact E1|]. split; [exact E2|]. split; [exact B|]. split; [exact T|]. split.
  - eapply literals_same; [exact Hl|]. eapply same_outside_weaken; [| |exact S]; lia.
  - change (with_input (print p msg) rest) with (print (with_input p rest) msg) in V2.
    by rewrite print_print in V2.
Qed.

(** Terminating the line. *)
Lemma end_line m buf l Ls :
  bytes_at m buf (l ++ [10]) -> text l -> in_user buf 1024 -> Z.of_nat (length l) < 128 ->
  literals lit Ls buf 1024 m ->
  let m' := store8 m (buf + (Z.of_nat (length l) + 1)) 0 in
  user_cstr m' buf (l ++ [10]) /\ literals lit Ls buf 1024 m'.
Proof.
  intros B T (U1 & U2 & U3) Hlen Hl m'. unfold TOP_PAGE, BOTTOM_PAGE in *.
  destruct (store_after m buf (l ++ [10]) 0 B) as [B' S]; rewrite ?length_app in *; cbn [length] in *; [lia..|].
  replace (Z.of_nat (length l + 1)) with (Z.of_nat (length l) + 1) in * by lia. fold m' in B', S.
  split; [split|].
  - apply bytes_cstr; [|exact B']. apply Forall_app. split; [done|]. repeat constructor; lia.
  - unfold in_user, TOP_PAGE, BOTTOM_PAGE. rewrite length_app. cbn. lia.
  - eapply literals_same; [exact Hl|]. eapply same_outside_weaken; [| |exact S]; lia.
Qed.

(** [hello] greets the typed name, and [counter] never counts: the line
    that [read] returns ends with its newline, which [counter] does not remove,
    so its check of a one-character answer refuses every line. *)
Theorem hello_counter_correct (buf : Z) (m : mem) (w : W) (p : proc) (l : list Z) (rest : list (list Z)) :
  view w p -> in_user buf 1024 -> p_input p = l :: rest -> Z.of_nat (length l) < 128 ->
  (literals lit hello_literals buf 1024 m ->
   exists m' w', hello_main lit buf m w = Ok (m', w', 0) /\
     view w' (print (with_input p rest)
       (bytes "Hi, what's your name? " ++ line l ++ bytes "Hello, " ++ line l))) /\
  (literals lit counter_literals buf 1024 m ->
   exists m' w', counter_main lit buf m w = Ok (m', w', 0) /\
     view w' (print (with_input p rest) (counter_prompt ++ line l ++ bytes "Wrong Choice!" ++ [10]))).
Proof.
  intros V U Hi Hlen. split; intros Hl.
  - destruct (ask m w p buf _ (bytes "Hi, what's your name? ") l rest V U Hl ltac:(by left) Hi Hlen)
      as (w1 & m2 & w2 & E1 & E2 & B & T & Hl2 & V2).
    unfold hello_main. rewrite E1, bind_ok, E2, bind_ok.
    destruct (Z.eqb_spec (-1) (Z.of_nat (length l) + 1)); [lia|]. cbv zeta.
    destruct (end_line m2 buf l _ B T U Hlen Hl2) as [C Hl3]. set (m3 := store8 _ _ _) in *.
    destruct (fdputs_prints m3 w2 _ _ _ V2 (literals_at _ _ _ _ _ (bytes "Hello, ") Hl3 ltac:(right; by left)))
      as (w3 & E3 & V3).
    destruct (fdputs_prints m3 w3 _ _ _ V3 C) as (w4 & E4 & V4).
    rewrite E3, bind_ok, E4, bind_ok. exists m3, w4. split; [done|].
    rewrite !print_print, <- !app_assoc in V4. unfold line. by rewrite <- !app_assoc.
  - destruct (ask m w p buf _ counter_prompt l rest V U Hl ltac:(by left) Hi Hlen)
      as (w1 & m2 & w2 & E1 & E2 & B & T & Hl2 & V2).
    unfold counter_main. fold counter_prompt. rewrite E1, bind_ok, E2, bind_ok.
    change (u32 (-1)) with 4294967295. rewrite u32_small by lia.
    destruct (Z.eqb_spec 4294967295 (Z.of_nat (length l) + 1)); [lia|]. cbv zeta.
    destruct (end_line m2 buf l _ B T U Hlen Hl2) as [[C U'] Hl3]. set (m3 := store8 _ _ _) in *.
    rewrite ece391_strlen_eq, (strlen_cstr _ _ _ C), bind_ok by (rewrite length_app; cbn; lia).
    assert (Hw : (1 <? Z.of_nat (length (l ++ [10]))) || ((Z.of_nat (length (l ++ [10])) =? 1)
      && ((load8 m3 buf <? 48) || (50 <? load8 m3 buf))) = true).
    { destruct l as [|c l]; [|apply orb_true_iff; left; apply Z.ltb_lt; rewrite length_app; cbn [length]; lia].
      pose proof (is_cstr_get _ _ _ 0 C ltac:(cbn; lia)) as G. rewrite Z.add_0_r in G. injection G as G.
      by rewrite <- G. }
    rewrite Hw. exists m3.
    destruct (fail_prints m3 w2 _ buf 1024 _ (bytes "Wrong Choice!" ++ [10]) 0 V2 Hl3
      ltac:(right; by left)) as (w3 & E3 & V3).
    exists w3. split; [exact E3|]. rewrite print_print in V3. unfold line. by rewrite <- !app_assoc in *.
Qed.

(** What the counting loop would print. *)
Lemma count_to_prints buf max m w p :
  view w p -> in_user buf 1024 -> literals lit counter_literals buf 1024 m -> 0 <= max < 4294967296 ->
  exists m' w', count_to lit buf max m w = Ok (m', w') /\
    view w' (print p (concat ((fun i => line (numeral 10 (i + 1))) <$> seqZ 0 max))).
Proof.
  intros V U Hl Hmax. unfold count_to.
  destruct (forM_inv max (fun '(m, w) i =>
      m ← ece391_itoa m (u32 (i + 1)) buf 10;
      '(m, w) ← ece391_fdputs 1 buf m w;
      ece391_fdputs 1 (lit [10]) m w)
    (fun i '(m, w) => literals lit counter_literals buf 1024 m /\
       view w (print p (concat ((fun i => line (numeral 10 (i + 1))) <$> seqZ 0 i)))) (m, w))
    as ([m' w'] & E & _ & V'); [lia| | |].
  - split; [done|]. cbn. by rewrite print_nil.
  - clear m w V Hl. intros i [m w] Hi [Hl V]. rewrite ece391_itoa_eq, u32_small by lia.
    unfold in_user, TOP_PAGE, BOTTOM_PAGE in U.
    destruct (itoa_cstr m (i + 1) buf 10) as (m1 & l & E1 & C & -> & _ & Hn & _ & _ & S);
      [lia|lia|unfold in_space; lia|].
    rewrite E1, bind_ok.
    assert (Hl1 : literals lit counter_literals buf 1024 m1).
    { eapply literals_same; [exact Hl|]. eapply same_outside_weaken; [| |exact S]; lia. }
    destruct (fdputs_prints m1 w _ buf (numeral 10 (i + 1)) V) as (w2 & E2 & V2).
    { split; [exact C|]. unfold in_user, TOP_PAGE, BOTTOM_PAGE. lia. }
    destruct (fdputs_prints m1 w2 _ (lit [10]) [10] V2) as (w3 & E3 & V3).
    { apply (literals_at _ _ _ _ _ _ Hl1). right. right. by left. }
    exists (m1, w3). rewrite E2, bind_ok. split; [exact E3|]. split; [exact Hl1|].
    rewrite seqZ_app by lia. change (seqZ (0 + i) 1) with [0 + i]. rewrite fmap_app, concat_app.
    cbn [fmap list_fmap concat]. rewrite app_nil_r, Z.add_0_l. rewrite !print_print in V3. unfold line.
    exact V3.
  - by exists m', w'.
Qed.
End Theorems.

(** ** Concrete runs *)

(** Literals one after the other from [base]. *)
Fixpoint lit_from (base : Z) (L : list (list Z)) (s : list Z) : Z :=
  match L with
  | [] => base
  | x :: L => if bool_decide (x = s) then base else lit_from (base + Z.of_nat (length x) + 1) L s
  end.
Definition lit_mem (base : Z) (L : list (list Z)) : mem :=
  store_list empty base (concat ((fun s => s ++ [0]) <$> L)).

#[export] Instance in_user_dec a n : Decision (in_user a n).
Proof. unfold in_user. apply _. Defined.
#[export] Instance apart_dec a n b k : Decision (apart a n b k).
Proof. unfold apart. apply _. Defined.

Definition user_cstr_b (m : mem) (a : Z) (l : list Z) : bool :=
  is_cstr_b m a l && bool_decide (in_user a (Z.of_nat (length l) + 1)).
Lemma user_cstr_dec m a l : user_cstr_b m a l = true -> user_cstr m a l.
Proof.
  unfold user_cstr_b. rewrite andb_true_iff, bool_decide_eq_true. intros [C U]. split; [|done].
  by apply is_cstr_dec.
Qed.

Lemma literals_dec lit L buf n m :
  forallb (fun s => user_cstr_b m (lit s) s &&
    bool_decide (apart (lit s) (Z.of_nat (length s) + 1) buf n)) L = true -> literals lit L buf n m.
Proof.
  rewrite forallb_forall. intros H. unfold literals. apply Forall_forall. intros s Hs.
  apply list_elem_of_In in Hs. specialize (H s Hs). rewrite andb_true_iff, bool_decide_eq_true in H.
  destruct H as [C A]. split; [by apply user_cstr_dec|done].
Qed.

(** Literals at the start of the program's page, arrays in the stack. *)
Definition demo_base : Z := 134512640.
Definition demo_buf : Z := 138408000.
Definition demo_dir : list (list Z * fkind) :=
  [(bytes ".", KDir); (bytes "a.txt", KFile (bytes "one" ++ [10] ++ bytes "two"));
   (bytes "b.txt", KFile (bytes "none" ++ [10; 10] ++ bytes "phone" ++ [10]))].
Definition demo_cmd (l : list Z) : list Z * Z :=
  if bool_decide (l = bytes "hello") then (bytes "Hi" ++ [10], 0) else ([], -1).
Definition demo_proc (arg : list Z) : proc :=
  fresh_proc arg demo_dir [bytes "hello"; bytes "nope"; bytes ""; bytes "exit"; bytes "later"] demo_cmd.

Lemma demo_proc_ok arg :
  bool_decide (text arg /\ Z.of_nat (length arg) < 128) = true -> sim_view (demo_proc arg) (demo_proc arg).
Proof.
  intros H. split; [done|]. split; [by apply bool_decide_eq_true in H|..].
  - by split_and!.
  - apply (bool_decide_unpack _). by vm_compute.
  - apply (bool_decide_unpack _). by vm_compute.
  - apply (bool_decide_unpack _). by vm_compute.
Qed.

Definition cat_lit : list Z -> Z := lit_from demo_base cat_literals.
Definition cat_m : mem := lit_mem demo_base cat_literals.
Lemma cat_demo : literals cat_lit cat_literals demo_buf 1024 cat_m.
Proof. apply literals_dec. by vm_compute. Qed.

Lemma cat_correct_witness :
  exists m' w', cat_main cat_lit demo_buf cat_m (demo_proc (bytes "a.txt")) = Ok (m', w', 0) /\
    p_out w' = bytes "one" ++ [10] ++ bytes "two".
Proof.
  destruct (cat_correct cat_lit demo_buf cat_m (demo_proc (bytes "a.txt")) (demo_proc (bytes "a.txt")))
    as [Hc _].
  - by apply demo_proc_ok.
  - by split.
  - exact cat_demo.
  - destruct (Hc (bytes "one" ++ [10] ++ bytes "two")) as (m' & w' & E & V).
    + done.
    + by vm_compute.
    + cbn. lia.
    + by vm_compute.
    + exists m', w'. split; [exact E|]. destruct V as [-> _]. reflexivity.
Defined.

Definition ls_lit : list Z -> Z := lit_from demo_base ls_literals.
Definition ls_m : mem := lit_mem demo_base ls_literals.
Lemma ls_correct_witness :
  exists m' w', ls_main ls_lit demo_buf ls_m (demo_proc []) = Ok (m', w', 0) /\
    p_out w' = bytes "." ++ [10] ++ bytes "a.txt" ++ [10] ++ bytes "b.txt" ++ [10].
Proof.
  destruct (ls_correct ls_lit demo_buf ls_m (demo_proc []) (demo_proc [])) as [Hl _].
  - by apply demo_proc_ok.
  - by split.
  - apply literals_dec. by vm_compute.
  - cbn. lia.
  - cbn. lia.
  - destruct Hl as (m' & w' & E & V).
    + by vm_compute.
    + cbn. lia.
    + exists m', w'. split; [exact E|]. destruct V as [-> _]. reflexivity.
Defined.

Definition hello_lit : list Z -> Z := lit_from demo_base (hello_literals ++ counter_literals).
Definition hello_m : mem := lit_mem demo_base (hello_literals ++ counter_literals).
Lemma hello_counter_correct_witness :
  (exists m' w', hello_main hello_lit demo_buf hello_m (demo_proc []) = Ok (m', w', 0) /\
    p_out w' = bytes "Hi, what's your name? hello" ++ [10] ++ bytes "Hello, hello" ++ [10]) /\
  (exists m' w', counter_main hello_lit demo_buf hello_m (demo_proc []) = Ok (m', w', 0) /\
    p_out w' = counter_prompt ++ bytes "hello" ++ [10] ++ bytes "Wrong Choice!" ++ [10]).
Proof.
  destruct (hello_counter_correct hello_lit demo_buf hello_m (demo_proc []) (demo_proc []) (bytes "hello")
    [bytes "nope"; bytes ""; bytes "exit"; bytes "later"]) as [Hh Hc].
  - by apply demo_proc_ok.
  - by split.
  - done.
  - cbn. lia.
  - split.
    + destruct Hh as (m' & w' & E & V); [apply literals_dec; by vm_compute|].
      exists m', w'. split; [exact E|]. destruct V as [-> _]. reflexivity.
    + destruct Hc as (m' & w' & E & V); [apply literals_dec; by vm_compute|].
      exists m', w'. split; [exact E|]. destruct V as [-> _]. reflexivity.
Defined.
