(* ===== verification/Shell.v ===== *)
(** * ece391shell.c: the shell

    One turn of its loop, and a whole session up to [exit]. *)

From S2P Require Import Prelude Mem Lib Pcb Filesys Syscalls User Ulib.
From S2P Require Import Apps.

Section Program.
Context `{OS W} (lit : list Z -> Z).

Definition shell_turn (buf : Z) (m : mem) (w : W) : res ((mem * W) + (mem * W * Z)) :=
  '(m, w) ← ece391_fdputs 1 (lit (bytes "391OS> ")) m w;
  '(m, w, cnt) ← ece391_read 0 buf (BUFSIZE - 1) m w;
  if -1 =? cnt then inr <$> fail_with lit (bytes "read from keyboard failed" ++ [10]) 3 m w
  else
    let cnt := if (0 <? cnt) && (load8 m (buf + (cnt - 1)) =? 10) then cnt - 1 else cnt in
    let m := store8 m (buf + cnt) 0 in
    c ← ece391_strcmp m buf (lit (bytes "exit"));
    if 0 =? c then Ok (inr (m, w, 0))
    else if load8 m buf =? 0 then Ok (inl (m, w))
    else
      '(m, w, rval) ← ece391_execute buf m w;
      if -1 =? rval then inl <$> ece391_fdputs 1 (lit (bytes "no such command" ++ [10])) m w
      else if 256 =? rval then
        inl <$> ece391_fdputs 1 (lit (bytes "program terminated by exception" ++ [10])) m w
      else if negb (0 =? rval) then
        inl <$> ece391_fdputs 1 (lit (bytes "program terminated abnormally" ++ [10])) m w
      else Ok (inl (m, w)).

Definition shell_main (buf : Z) (m : mem) (w : W) : res (mem * W * Z) :=
  '(m, w) ← ece391_fdputs 1 (lit (bytes "Starting 391 Shell" ++ [10])) m w;
  whileM (fun '(m, w) => shell_turn buf m w) (m, w).
End Program.

(** ** A session *)

Definition prompt : list Z := bytes "391OS> ".
Definition banner : list Z := bytes "Starting 391 Shell" ++ [10].

(** What the shell says about a return value. *)
Definition verdict (r : Z) : list Z :=
  if -1 =? r then bytes "no such command" ++ [10]
  else if 256 =? r then bytes "program terminated by exception" ++ [10]
  else if negb (0 =? r) then bytes "program terminated abnormally" ++ [10]
  else [].

(** What the terminal shows for one line [l]: the prompt, the line itself, and
    unless it is empty the output of the command and the verdict. *)
Definition exchange (cmd : list Z -> list Z * Z) (l : list Z) : list Z :=
  prompt ++ line l ++ (if bool_decide (l = []) then [] else (cmd l).1 ++ verdict (cmd l).2).

Definition shell_literals : list (list Z) :=
  [banner; prompt; bytes "exit"; bytes "no such command" ++ [10];
   bytes "program terminated by exception" ++ [10]; bytes "program terminated abnormally" ++ [10]].

Section Session.
Context {W : Type} {O : OS W} {Vw : View W} {L : OSLaws W}
  {KL : KeyboardLaws W} {EL : ExecuteLaws W} (lit : list Z -> Z) (buf : Z).
Hypothesis Hbuf : in_user buf 1024.

(** The line without its newline. *)
Lemma strip_line m l :
  bytes_at m buf (l ++ [10]) -> text l -> Z.of_nat (length l) < 128 ->
  literals lit shell_literals buf 1024 m ->
  let m' := store8 m (buf + Z.of_nat (length l)) 0 in
  load8 m (buf + Z.of_nat (length l)) = 10 /\ user_cstr m' buf l /\
  literals lit shell_literals buf 1024 m'.
Proof.
  intros B T Hlen Hl m'. destruct Hbuf as (U1 & U2 & U3). unfold TOP_PAGE, BOTTOM_PAGE in *.
  assert (B0 : bytes_at m buf l).
  { intros i Hi. specialize (B i). rewrite length_app, aget_snoc in B. cbn [length] in B.
    destruct (Z.eqb_spec i (Z.of_nat (length l))); [lia|]. apply B. lia. }
  destruct (store_after m buf l 0 B0) as [B' S]; [lia..|]. fold m' in B', S. split.
  - specialize (B (Z.of_nat (length l))). rewrite length_app, aget_snoc, Z.eqb_refl in B.
    cbn [length] in B. injection (B ltac:(lia)). congruence.
  - split; [split|].
    + by apply bytes_cstr.
    + unfold in_user, TOP_PAGE, BOTTOM_PAGE. lia.
    + eapply literals_same; [exact Hl|]. eapply same_outside_weaken; [| |exact S]; lia.
Qed.

(** One turn: [exit] ends the loop, any other line is an exchange. *)
Lemma turn_spec m w p l rest :
  view w p -> literals lit shell_literals buf 1024 m -> p_input p = l :: rest ->
  Z.of_nat (length l) < 128 ->
  exists m' w', literals lit shell_literals buf 1024 m' /\
    if bool_decide (l = bytes "exit") then
      shell_turn lit buf m w = Ok (inr (m', w', 0)) /\
      view w' (print (with_input p rest) (prompt ++ line l))
    else
      shell_turn lit buf m w = Ok (inl (m', w')) /\
      view w' (print (with_input p rest) (exchange (p_cmd p) l)).
Proof.
  intros V Hl Hi Hlen.
  destruct (ask lit m w p buf shell_literals prompt l rest V Hbuf Hl ltac:(right; by left) Hi Hlen)
    as (w1 & m2 & w2 & E1 & E2 & B & T & Hl2 & V2).
  unfold shell_turn. fold prompt. rewrite E1, bind_ok, E2, bind_ok.
  destruct (Z.eqb_spec (-1) (Z.of_nat (length l) + 1)); [lia|].
  destruct (strip_line m2 l B T Hlen Hl2) as (H10 & C & Hl3).
  replace (Z.of_nat (length l) + 1 - 1) with (Z.of_nat (length l)) by lia. rewrite H10.
  destruct (Z.ltb_spec 0 (Z.of_nat (length l) + 1)); [|lia]. change (10 =? 10) with true.
  cbn [andb]. cbv zeta. set (m3 := store8 _ _ _) in *.
  pose proof (literals_at _ _ _ _ _ (bytes "exit") Hl3 ltac:(do 2 right; by left)) as [Ce _].
  destruct (strcmp_equal m3 buf (lit (bytes "exit")) l (bytes "exit") (proj1 C) Ce ltac:(lia))
    as (r & Er & Hr). rewrite Er, bind_ok.
  destruct (bool_decide_reflect (l = bytes "exit")) as [He|Hne].
  { exists m3, w2. rewrite (proj2 Hr He). cbn [Z.eqb]. split; [exact Hl3|]. split; [done|]. exact V2. }
  destruct (Z.eqb_spec 0 r) as [E0|_]; [exfalso; apply Hne, Hr; done|]. unfold exchange.
  destruct (bool_decide_reflect (l = [])) as [He|Hnl].
  { subst l. exists m3, w2. pose proof (is_cstr_end _ _ _ (proj1 C)) as Z0. rewrite Z.add_0_r in Z0.
    rewrite Z0. cbn [Z.eqb]. split; [exact Hl3|]. split; [done|]. by rewrite app_nil_r. }
  assert (Hpos : 0 < Z.of_nat (length l) < 128) by (destruct l; [done|cbn [length] in *; lia]).
  destruct (Z.eqb_spec (load8 m3 buf) 0) as [E0|_].
  { exfalso. apply (is_cstr_nz _ _ _ 0 (proj1 C)); [lia|]. by rewrite Z.add_0_r. }
  destruct (law_execute m3 w2 _ buf l V2 C Hpos) as (w3 & E3 & V3). unfold ece391_execute.
  change (p_cmd (print (with_input p rest) _)) with (p_cmd p) in E3, V3.
  rewrite E3, bind_ok. destruct (p_cmd p l) as [out v]. cbn [fst snd] in *.
  rewrite print_print in V3.
  assert (Hsay : forall msg, msg ∈ shell_literals -> exists w4,
    ece391_fdputs 1 (lit msg) m3 w3 = Ok (m3, w4) /\
    view w4 (print (with_input p rest) (prompt ++ line l ++ out ++ msg))).
  { intros msg Hin. destruct (fdputs_prints m3 w3 _ _ _ V3 (literals_at _ _ _ _ _ _ Hl3 Hin))
      as (w4 & E4 & V4). exists w4. split; [exact E4|]. rewrite print_print in V4.
    unfold line. by rewrite <- !app_assoc in *. }
  unfold verdict. exists m3.
  destruct (-1 =? v); [destruct (Hsay (bytes "no such command" ++ [10])) as (w4 & -> & V4);
    [do 3 right; by left|by exists w4]|].
  destruct (256 =? v); [destruct (Hsay (bytes "program terminated by exception" ++ [10])) as (w4 & -> & V4);
    [do 4 right; by left|by exists w4]|].
  destruct (0 =? v); cbn [negb];
    [|destruct (Hsay (bytes "program terminated abnormally" ++ [10])) as (w4 & -> & V4);
      [do 5 right; by left|by exists w4]].
  exists w3. split; [exact Hl3|]. split; [done|]. rewrite app_nil_r. unfold line.
  by rewrite <- !app_assoc in *.
Qed.

(** C8 A session of the shell: the banner, one exchange for each line up to
    [exit], and status 0.  Each nonempty line is executed as typed, without its
    newline, and its return value is commented on; the shell ends exactly at
    the first [exit], whatever the commands return, and leaves the lines after
    it unread. *)
Theorem shell_session (m : mem) (w : W) (p : proc) (ls rest : list (list Z)) :
  view w p -> literals lit shell_literals buf 1024 m ->
  p_input p = ls ++ bytes "exit" :: rest -> bytes "exit" ∉ ls ->
  Forall (fun l => Z.of_nat (length l) < 128) ls -> Z.of_nat (length ls) < 4294967295 ->
  exists m' w', shell_main lit buf m w = Ok (m', w', 0) /\
    view w' (print (with_input p rest)
      (banner ++ concat (exchange (p_cmd p) <$> ls) ++ prompt ++ line (bytes "exit"))).
Proof.
  intros V Hl Hi Hnot Hlen Hn. unfold shell_main. fold banner.
  destruct (fdputs_prints m w p _ _ V (literals_at _ _ _ _ _ banner Hl ltac:(by left))) as (w1 & E1 & V1).
  rewrite E1, bind_ok.
  destruct (whileM_rule (fun '(m, w) => shell_turn lit buf m w)
    (fun k '(m, w) => exists done todo, ls = done ++ todo /\ k = Z.of_nat (length todo) /\
       literals lit shell_literals buf 1024 m /\
       view w (print (with_input p (todo ++ bytes "exit" :: rest))
                 (banner ++ concat (exchange (p_cmd p) <$> done))))
    (fun '(_, w', r) => r = 0 /\ view w' (print (with_input p rest)
       (banner ++ concat (exchange (p_cmd p) <$> ls) ++ prompt ++ line (bytes "exit"))))
    (Z.of_nat (length ls)) (m, w1)) as ([[m' w'] r] & E & -> & V'); [|lia| |by exists m', w'].
  - exists [], ls. split; [done|]. split; [done|]. split; [exact Hl|].
    cbn [fmap list_fmap concat]. rewrite app_nil_r, <- Hi. by destruct p.
  - clear m w w1 V V1 E1 Hl. intros k [m w] _ (done_ & todo & Els & -> & Hl & V).
    destruct todo as [|l todo].
    + destruct (turn_spec m w _ (bytes "exit") rest V Hl eq_refl ltac:(cbn; lia)) as (m1 & w1 & Hl1 & R).
      rewrite bool_decide_eq_true_2 in R by done. destruct R as [E V1].
      exists (inr (m1, w1, 0)). split; [exact E|]. split; [done|].
      rewrite app_nil_r in Els. subst done_.
      change (with_input (print (with_input p ([] ++ bytes "exit" :: rest)) ?o) rest)
        with (print (with_input p rest) o) in V1. rewrite print_print in V1. by rewrite <- !app_assoc in V1.
    + destruct (turn_spec m w _ l (todo ++ bytes "exit" :: rest) V Hl eq_refl) as (m1 & w1 & Hl1 & R).
      { rewrite Forall_forall in Hlen. apply Hlen. rewrite Els. set_solver. }
      rewrite bool_decide_eq_false_2 in R by (intros ->; apply Hnot; rewrite Els; set_solver).
      destruct R as [E V1]. exists (inl (m1, w1)). split; [exact E|].
      exists (Z.of_nat (length todo)). split; [cbn [length]; lia|].
      exists (done_ ++ [l]), todo. split; [by rewrite <- app_assoc|]. split; [done|]. split; [exact Hl1|].
      change (with_input (print (with_input p _) ?o) ?x) with (print (with_input p x) o) in V1.
      change (p_cmd (print _ _)) with (p_cmd p) in V1.
      rewrite print_print in V1. rewrite fmap_app, concat_app. cbn [fmap list_fmap concat].
      rewrite app_nil_r. by rewrite <- !app_assoc in V1.
Qed.
End Session.

Definition shell_lit : list Z -> Z := lit_from demo_base shell_literals.
Definition shell_m : mem := lit_mem demo_base shell_literals.
Lemma shell_session_witness :
  exists m' w', shell_main shell_lit demo_buf shell_m (demo_proc []) = Ok (m', w', 0) /\
    p_out w' = banner ++ prompt ++ bytes "hello" ++ [10] ++ bytes "Hi" ++ [10] ++
      prompt ++ bytes "nope" ++ [10] ++ bytes "no such command" ++ [10] ++
      prompt ++ [10] ++ prompt ++ bytes "exit" ++ [10] /\
    p_input w' = [bytes "later"].
Proof.
  destruct (shell_session shell_lit demo_buf ltac:(by split) shell_m (demo_proc []) (demo_proc [])
    [bytes "hello"; bytes "nope"; []] [bytes "later"]) as (m' & w' & E & V).
  - by apply demo_proc_ok.
  - apply literals_dec. by vm_compute.
  - done.
  - apply (bool_decide_unpack _). by vm_compute.
  - repeat constructor.
  - cbn. lia.
  - exists m', w'. split; [exact E|]. destruct V as [-> _]. split; reflexivity.
Defined.
