(* ===== verification/Syserr.v ===== *)
(** * ece391syserr.c: the tests of the system calls

    Eight tests that call the kernel with bad arguments, and [main], which runs
    one or all of them.  They all pass on a machine with the laws of [OSLaws];
    the first two need one more, that [close] rejects a number outside the
    descriptor table: the kernel's [close] reads the table before it checks. *)

From S2P Require Import Prelude Mem Lib Pcb Filesys Syscalls User Ulib.
From S2P Require Import Apps.

Definition NEG_FD : Z := -1073741823.
Definition BIG_FD : Z := 1073741823.
Definition BIG_NUM : Z := 1073741823.
Definition NEG_NUM : Z := -1073741823.

Section Program.
Context `{OS W} (lit : list Z -> Z).

(** [ebx], [ecx] and [edx] hold what the caller left in them. *)
Definition call_sys (num ebx ecx edx : Z) : mem -> W -> res (mem * W * Z) := sys num ebx ecx edx.

(** [if (-1 != call) { fail = 2; fdputs (msg) }] *)
Definition expect_fail (call : mem -> W -> res (mem * W * Z)) (msg : list Z) (st : mem * W * Z)
    : res (mem * W * Z) :=
  let '(m, w, fail) := st in
  '(m, w, r) ← call m w;
  if negb (-1 =? r) then
    '(m, w) ← ece391_fdputs 1 (lit msg) m w; Ok (m, w, 2)
  else Ok (m, w, fail).

Definition report (name : list Z) (st : mem * W * Z) : res (mem * W * Z) :=
  let '(m, w, fail) := st in
  if negb (fail =? 0) then fail_with lit (name ++ bytes ": FAIL" ++ [10]) fail m w
  else fail_with lit (name ++ bytes ": PASS" ++ [10]) fail m w.

Definition err_neg_fd (buf : Z) (m : mem) (w : W) : res (mem * W * Z) :=
  st ← expect_fail (ece391_read NEG_FD buf 31) (bytes "read fail" ++ [10]) (m, w, 0);
  st ← expect_fail (ece391_write NEG_FD buf 31) (bytes "write fail" ++ [10]) st;
  st ← expect_fail (ece391_close NEG_FD) (bytes "close fail" ++ [10]) st;
  report (bytes "err_neg_fd") st.

Definition err_big_fd (buf : Z) (m : mem) (w : W) : res (mem * W * Z) :=
  st ← expect_fail (ece391_read BIG_FD buf 31) (bytes "read fail" ++ [10]) (m, w, 0);
  st ← expect_fail (ece391_write BIG_FD buf 31) (bytes "write fail" ++ [10]) st;
  st ← expect_fail (ece391_close BIG_FD) (bytes "close fail" ++ [10]) st;
  report (bytes "err_big_fd") st.

Definition err_open_lots (m : mem) (w : W) : res (mem * W * Z) :=
  '(m, w, cnt) ← forM (seqZ 0 7) (fun '(m, w, cnt) _ =>
    '(m, w, r) ← ece391_open (lit (bytes ".")) m w;
    Ok (m, w, if -1 =? r then cnt + 1 else cnt)) (m, w, 0);
  '(m, w) ← forM (seqZ 2 6) (fun '(m, w) i => '(m, w, _) ← ece391_close i m w; Ok (m, w)) (m, w);
  if cnt =? 1 then fail_with lit (bytes "err_open_lots: PASS" ++ [10]) 0 m w
  else fail_with lit (bytes "err_open_lots: FAIL" ++ [10]) 2 m w.

Definition err_open (m : mem) (w : W) : res (mem * W * Z) :=
  st ← expect_fail (ece391_open (lit (bytes "helloo"))) (bytes "'helloo' fail" ++ [10]) (m, w, 0);
  st ← expect_fail (ece391_open (lit (bytes "shel"))) (bytes "'shel' fail" ++ [10]) st;
  st ← expect_fail (ece391_open (lit (bytes ""))) (bytes "empty string fail" ++ [10]) st;
  report (bytes "err_open") st.

Definition err_unopened (buf : Z) (m : mem) (w : W) : res (mem * W * Z) :=
  st ← forM (seqZ 0 8) (fun st i =>
    expect_fail (ece391_close i) (bytes "close unopened or invalid fd fail" ++ [10]) st) (m, w, 0);
  st ← forM (seqZ 2 6) (fun st i =>
    expect_fail (ece391_read i buf 31) (bytes "read from unopened fd fail" ++ [10]) st) st;
  st ← forM (seqZ 2 6) (fun st i =>
    expect_fail (ece391_write i buf 31) (bytes "write to unopened fd fail" ++ [10]) st) st;
  report (bytes "err_unopened") st.

Definition err_vidmap (m : mem) (w : W) : res (mem * W * Z) :=
  st ← expect_fail (ece391_vidmap 0) (bytes "Null pointer fail" ++ [10]) (m, w, 0);
  st ← expect_fail (ece391_vidmap 4194304) (bytes "Kernel pointer fail fail" ++ [10]) st;
  report (bytes "err_vidmap") st.

Definition err_stdin_out (buf : Z) (m : mem) (w : W) : res (mem * W * Z) :=
  st ← expect_fail (ece391_write 0 buf 31) (bytes "write to stdin fail" ++ [10]) (m, w, 0);
  st ← expect_fail (ece391_read 1 buf 31) (bytes "read from stdout fail" ++ [10]) st;
  report (bytes "err_stdin_out") st.

Definition err_syscall_num (ebx ecx edx : Z) (m : mem) (w : W) : res (mem * W * Z) :=
  st ← expect_fail (call_sys BIG_NUM ebx ecx edx) (bytes "syscall 0 fail" ++ [10]) (m, w, 0);
  st ← expect_fail (call_sys NEG_NUM ebx ecx edx) (bytes "big num syscall fail" ++ [10]) st;
  st ← expect_fail (call_sys 0 ebx ecx edx) (bytes "neg num syscall fail" ++ [10]) st;
  report (bytes "err_syscall_num") st.

(** The tests in order, number 1 first. *)
Definition tests (buf ebx ecx edx : Z) : list (mem -> W -> res (mem * W * Z)) :=
  [err_neg_fd buf; err_big_fd buf; err_open_lots; err_open; err_unopened buf; err_vidmap;
   err_stdin_out buf; err_syscall_num ebx ecx edx].

(** [case 0]: all of them. *)
Definition all_tests (buf ebx ecx edx : Z) (m : mem) (w : W) : res (mem * W * Z) :=
  '(m, w, fail) ← forM (tests buf ebx ecx edx) (fun '(m, w, fail) test =>
    '(m, w, f) ← test m w; Ok (m, w, fail + f)) (m, w, 0);
  if negb (fail =? 0) then fail_with lit ([10] ++ bytes "Overall Tests: FAIL" ++ [10]) fail m w
  else fail_with lit ([10] ++ bytes "Overall Tests: PASS" ++ [10]) fail m w.

Definition syserr_main (buf tbuf ebx ecx edx : Z) (m : mem) (w : W) : res (mem * W * Z) :=
  '(m, w) ← ece391_fdputs 1 (lit (bytes "Choose from tests 1-8. 0 to run all: ")) m w;
  '(m, w, cnt) ← ece391_read 0 buf 127 m w;
  if -1 =? cnt then fail_with lit (bytes "Can't read test #" ++ [10]) 2 m w
  else
    let select := load8 m buf - 48 in
    if select =? 0 then all_tests tbuf ebx ecx edx m w
    else match aget (tests tbuf ebx ecx edx) (select - 1) with
         | Some test => test m w
         | None => fail_with lit (bytes "Invalid test number. Choose from tests 1-8 or 0") 0 m w
         end.
End Program.

(** ** Every test passes *)

Definition question : list Z := bytes "Choose from tests 1-8. 0 to run all: ".
Definition test_names : list (list Z) :=
  [bytes "err_neg_fd"; bytes "err_big_fd"; bytes "err_open_lots"; bytes "err_open"; bytes "err_unopened";
   bytes "err_vidmap"; bytes "err_stdin_out"; bytes "err_syscall_num"].
Definition pass (name : list Z) : list Z := name ++ bytes ": PASS" ++ [10].
Definition overall : list Z := [10] ++ bytes "Overall Tests: PASS" ++ [10].
Definition invalid : list Z := bytes "Invalid test number. Choose from tests 1-8 or 0".
Definition syserr_literals : list (list Z) :=
  [bytes "."; bytes "helloo"; bytes "shel"; bytes ""; question; overall; invalid] ++ (pass <$> test_names).

(** What the program prints for an answer that starts with [c]. *)
Definition outcome (c : Z) : list Z :=
  if c =? 48 then concat (pass <$> test_names) ++ overall
  else match aget test_names (c - 49) with Some name => pass name | None => invalid end.

(** A process with nothing open, in a directory without the misspelt names. *)
Record tame (p : proc) : Prop := Tame {
  ta_fds : p_fds p = FdStd :: FdStd :: repeat FdFree 6;
  ta_dot : lookup_name p (bytes ".") = Some KDir;
  ta_bad : lookup_name p (bytes "helloo") = None /\ lookup_name p (bytes "shel") = None /\
           lookup_name p (bytes "") = None }.

(** Membership in a concrete list. *)
Ltac listed := apply (bool_decide_unpack _); vm_compute; exact I.

Section Theorems.
Context {W : Type} {O : OS W} {Vw : View W} {L : OSLaws W} (lit : list Z -> Z) (buf tbuf ebx ecx edx : Z).

(** [close] of a number outside the table. *)
Definition close_rejects : Prop := forall fd m w p,
  view w p -> ~ (0 <= fd < 8) -> exists w', sys SYS_CLOSE fd 0 0 m w = Ok (m, w', -1) /\ view w' p.

Definition fails (call : mem -> W -> res (mem * W * Z)) (m : mem) (p : proc) : Prop :=
  forall w, view w p -> exists w', call m w = Ok (m, w', -1) /\ view w' p.
Definition passes (test : mem -> W -> res (mem * W * Z)) (name : list Z) (m : mem) (p : proc) : Prop :=
  forall w, view w p -> exists w', test m w = Ok (m, w', 0) /\ view w' (print p (pass name)).

Lemma expect_fail_ok call msg m w p fail :
  fails call m p -> view w p ->
  exists w', expect_fail lit call msg (m, w, fail) = Ok (m, w', fail) /\ view w' p.
Proof.
  intros Hf V. destruct (Hf w V) as (w' & E & V'). exists w'. unfold expect_fail.
  by rewrite E, bind_ok.
Qed.

Lemma lit_prints m w p a n msg status :
  view w p -> literals lit syserr_literals a n m -> msg ∈ syserr_literals ->
  exists w', fail_with lit msg status m w = Ok (m, w', status) /\ view w' (print p msg).
Proof. intros V Hl Hin. by eapply fail_prints. Qed.

Lemma report_ok m w p a n name :
  view w p -> literals lit syserr_literals a n m -> name ∈ test_names ->
  exists w', report lit name (m, w, 0) = Ok (m, w', 0) /\ view w' (print p (pass name)).
Proof.
  intros V Hl Hin. unfold report. cbn [Z.eqb negb]. apply (lit_prints m w p a n (pass name) 0 V Hl).
  unfold syserr_literals. apply elem_of_app. right. by apply list_elem_of_fmap_2.
Qed.

(** The failing calls. *)
Lemma read_fails fd b n m p :
  -2147483648 <= fd < 2147483648 -> ~ (0 <= fd < 8) \/ fd = 1 \/ aget (p_fds p) fd = Some FdFree -> fails (ece391_read fd b n) m p.
Proof. intros Hr Hf w V. by apply law_read_fails. Qed.
Lemma write_fails fd b n m p :
  -2147483648 <= fd < 2147483648 -> ~ (0 <= fd < 8) \/ fd = 0 \/ aget (p_fds p) fd = Some FdFree -> fails (ece391_write fd b n) m p.
Proof. intros Hr Hf w V. by apply law_write_fails. Qed.
Lemma close_fails fd m p :
  0 <= fd < 8 -> fd < 2 \/ aget (p_fds p) fd = Some FdFree -> fails (ece391_close fd) m p.
Proof. intros H1 H2 w V. by apply law_close_fails. Qed.
Lemma open_fails m p a n name :
  literals lit syserr_literals a n m -> name ∈ syserr_literals -> Z.of_nat (length name) < 256 ->
  lookup_name p name = None ->
  fails (ece391_open (lit name)) m p.
Proof.
  intros Hl Hin Hlen Hn w V. eapply law_open_fails; [exact V|by eapply literals_at|done|by left].
Qed.
Lemma vidmap_fails a m p : 0 <= a < TOP_PAGE -> fails (ece391_vidmap a) m p.
Proof. intros Ha w V. apply law_vidmap_fails; [done|by left]. Qed.
Lemma number_fails n m p :
  -2147483648 <= n < 2147483648 -> n < 1 \/ 8 < n -> fails (call_sys n ebx ecx edx) m p.
Proof. intros H1 H2 w V. by apply law_number. Qed.

(** Tests that are a chain of failing calls. *)
Ltac chain V :=
  lazymatch goal with
  | |- context [expect_fail ?l ?c ?msg (?m, ?w, ?f)] =>
    let w1 := fresh "w" in let E := fresh "E" in let V1 := fresh "V" in
    lazymatch type of V with view _ ?p =>
      destruct (expect_fail_ok c msg m w p f) as (w1 & E & V1); [|exact V|rewrite E, bind_ok; clear E; chain V1]
    end
  | |- _ => eapply report_ok; [exact V|eassumption|]
  end.

Lemma neg_fd_passes m p a n :
  close_rejects -> literals lit syserr_literals a n m -> passes (err_neg_fd lit tbuf) (bytes "err_neg_fd") m p.
Proof.
  intros Hc Hl w V. unfold err_neg_fd, NEG_FD. chain V.
  - apply read_fails; lia.
  - apply write_fails; lia.
  - intros w' V'. by apply Hc; [|lia].
  - listed.
Qed.
Lemma big_fd_passes m p a n :
  close_rejects -> literals lit syserr_literals a n m -> passes (err_big_fd lit tbuf) (bytes "err_big_fd") m p.
Proof.
  intros Hc Hl w V. unfold err_big_fd, BIG_FD. chain V.
  - apply read_fails; lia.
  - apply write_fails; lia.
  - intros w' V'. by apply Hc; [|lia].
  - listed.
Qed.
Lemma open_passes m p a n :
  tame p -> literals lit syserr_literals a n m -> passes (err_open lit) (bytes "err_open") m p.
Proof.
  intros [_ _ (B1 & B2 & B3)] Hl w V. unfold err_open. chain V.
  - eapply open_fails; [exact Hl|listed|done|done].
  - eapply open_fails; [exact Hl|listed|done|done].
  - eapply open_fails; [exact Hl|listed|done|done].
  - listed.
Qed.
Lemma vidmap_passes m p a n :
  literals lit syserr_literals a n m -> passes (err_vidmap lit) (bytes "err_vidmap") m p.
Proof.
  intros Hl w V. unfold err_vidmap. chain V.
  - by apply vidmap_fails.
  - by apply vidmap_fails.
  - listed.
Qed.
Lemma stdin_out_passes m p a n :
  literals lit syserr_literals a n m -> passes (err_stdin_out lit tbuf) (bytes "err_stdin_out") m p.
Proof.
  intros Hl w V. unfold err_stdin_out. chain V.
  - apply write_fails; [lia|auto].
  - apply read_fails; [lia|auto].
  - listed.
Qed.
Lemma syscall_num_passes m p a n :
  literals lit syserr_literals a n m -> passes (err_syscall_num lit ebx ecx edx) (bytes "err_syscall_num") m p.
Proof.
  intros Hl w V. unfold err_syscall_num, BIG_NUM, NEG_NUM. chain V.
  - apply number_fails; lia.
  - apply number_fails; lia.
  - apply number_fails; lia.
  - listed.
Qed.

(** A loop of calls that all fail. *)
Lemma expect_loop (ids : list Z) (call : Z -> mem -> W -> res (mem * W * Z)) msg m w p :
  (forall i, i ∈ ids -> fails (call i) m p) -> view w p ->
  exists w', forM ids (fun st i => expect_fail lit (call i) msg st) (m, w, 0) = Ok (m, w', 0) /\ view w' p.
Proof.
  intros Hf V.
  destruct (forM_each ids (fun st i => expect_fail lit (call i) msg st)
    (fun '(m', w', f) => m' = m /\ f = 0 /\ view w' p) (m, w, 0)) as ([[m' w'] f] & E & -> & -> & V').
  - done.
  - intros i [[m' w'] f] Hi (-> & -> & V'). destruct (expect_fail_ok (call i) msg m w' p 0) as (w2 & E & V2);
      [by apply Hf|done|]. by exists (m, w2, 0).
  - by exists w'.
Qed.

Lemma tame_fd p i : tame p -> 2 <= i < 8 -> aget (p_fds p) i = Some FdFree.
Proof.
  intros T Hi. rewrite (ta_fds _ T), aget_lookup by lia.
  assert (Hn : (Z.to_nat i = 2 \/ Z.to_nat i = 3 \/ Z.to_nat i = 4 \/ Z.to_nat i = 5 \/
    Z.to_nat i = 6 \/ Z.to_nat i = 7)%nat) by lia.
  by destruct Hn as [-> |[-> |[-> |[-> |[-> | ->]]]]].
Qed.

Lemma unopened_passes m p a n :
  tame p -> literals lit syserr_literals a n m -> passes (err_unopened lit tbuf) (bytes "err_unopened") m p.
Proof.
  intros T Hl w V. unfold err_unopened.
  destruct (expect_loop (seqZ 0 8) ece391_close (bytes "close unopened or invalid fd fail" ++ [10]) m w p)
    as (w1 & E1 & V1); [|exact V|].
  { intros i Hi%elem_of_seqZ. apply close_fails; [lia|]. destruct (decide (i < 2)); [by left|right].
    apply tame_fd; [done|lia]. }
  destruct (expect_loop (seqZ 2 6) (fun i => ece391_read i tbuf 31)
    (bytes "read from unopened fd fail" ++ [10]) m w1 p) as (w2 & E2 & V2); [|exact V1|].
  { intros i Hi%elem_of_seqZ. apply read_fails; [lia|]. right. right. apply tame_fd; [done|lia]. }
  destruct (expect_loop (seqZ 2 6) (fun i => ece391_write i tbuf 31)
    (bytes "write to unopened fd fail" ++ [10]) m w2 p) as (w3 & E3 & V3); [|exact V2|].
  { intros i Hi%elem_of_seqZ. apply write_fails; [lia|]. right. right. apply tame_fd; [done|lia]. }
  rewrite E1, bind_ok, E2, bind_ok, E3, bind_ok. eapply report_ok; [exact V3|exact Hl|listed].
Qed.

(** The table with descriptors [lo .. hi - 1] open on the directory. *)
Definition opened (lo hi : Z) : list fdesc :=
  (fun i => if i <? 2 then FdStd else if (lo <=? i) && (i <? hi) then FdDir else FdFree) <$> seqZ 0 8.

Lemma opened_get lo hi i : 2 <= i < 8 -> lo <= i < hi -> aget (opened lo hi) i = Some FdDir.
Proof.
  intros H1 H2. unfold opened. rewrite aget_lookup by lia. rewrite list_lookup_fmap, lookup_seqZ_lt by lia.
  cbn [fmap option_fmap option_map]. rewrite Z2Nat.id, Z.add_0_l by lia.
  destruct (Z.ltb_spec i 2), (Z.leb_spec lo i), (Z.ltb_spec i hi); lia || done.
Qed.

Ltac small i := let H := fresh in
  assert (H : i = 0 \/ i = 1 \/ i = 2 \/ i = 3 \/ i = 4 \/ i = 5) by lia;
  destruct H as [-> |[-> |[-> |[-> |[-> | ->]]]]].

Lemma open_step i : 0 <= i < 6 ->
  lowest_free (opened 2 (2 + i)) = Z.to_nat (2 + i) /\
  <[Z.to_nat (2 + i) := FdDir]> (opened 2 (2 + i)) = opened 2 (2 + (i + 1)).
Proof. intros Hi. small i; split; vm_compute; done. Qed.
Lemma close_step i : 0 <= i < 6 ->
  <[Z.to_nat (2 + i) := FdFree]> (opened (2 + i) 8) = opened (2 + (i + 1)) 8.
Proof. intros Hi. small i; vm_compute; done. Qed.

Lemma with_fds_id p l : p_fds p = l -> with_fds p l = p.
Proof. intros <-. by destruct p. Qed.

Lemma open_lots_opens m w p a n :
  tame p -> literals lit syserr_literals a n m -> view w p ->
  exists w', forM (seqZ 0 7) (fun '(m, w, cnt) _ =>
      '(m, w, r) ← ece391_open (lit (bytes ".")) m w;
      Ok (m, w, if -1 =? r then cnt + 1 else cnt)) (m, w, 0) = Ok (m, w', 1) /\
    view w' (with_fds p (opened 2 8)).
Proof.
  intros T Hl V.
  assert (C : user_cstr m (lit (bytes ".")) (bytes ".")) by (eapply literals_at; [exact Hl|by left]).
  destruct (forM_inv 7 (fun '(m, w, cnt) (_ : Z) =>
      '(m, w, r) ← ece391_open (lit (bytes ".")) m w;
      Ok (m, w, if -1 =? r then cnt + 1 else cnt))
    (fun i '(m', w', cnt) => m' = m /\ cnt = (if i <? 7 then 0 else 1) /\
       view w' (with_fds p (opened 2 (2 + Z.min i 6)))) (m, w, 0)) as ([[m' w'] cnt] & E & -> & -> & V').
  - lia.
  - split; [done|]. split; [done|]. rewrite with_fds_id; [done|]. by rewrite (ta_fds _ T).
  - intros i [[m' w'] cnt] Hi (-> & -> & V'). unfold ece391_open.
    destruct (decide (i < 6)) as [Hlt|Hge].
    + replace (Z.min i 6) with i in V' by lia. destruct (open_step i ltac:(lia)) as [Hf Hnext].
      destruct (law_open m w' _ _ _ _ V' C (ta_dot _ T)) as (w2 & E & V2); [cbn [with_fds p_fds]; lia|].
      cbn [with_fds p_fds fd_for] in E, V2. rewrite Hf, Z2Nat.id in E by lia. rewrite Hf, Hnext in V2.
      rewrite E, bind_ok. eexists. split; [reflexivity|]. split; [done|].
      destruct (Z.eqb_spec (-1) (2 + i)), (Z.ltb_spec i 7), (Z.ltb_spec (i + 1) 7); try lia. split; [done|].
      by replace (Z.min (i + 1) 6) with (i + 1) by lia.
    + replace (Z.min i 6) with 6 in V' by lia.
      destruct (law_open_fails m w' _ _ _ V' C ltac:(done) ltac:(by right)) as (w2 & E & V2).
      rewrite E, bind_ok. eexists. split; [reflexivity|]. split; [done|].
      destruct (Z.ltb_spec i 7), (Z.ltb_spec (i + 1) 7); try lia. split; [done|].
      by replace (Z.min (i + 1) 6) with 6 by lia.
  - by exists w'.
Qed.

Lemma open_lots_passes m p a n :
  tame p -> literals lit syserr_literals a n m -> passes (err_open_lots lit) (bytes "err_open_lots") m p.
Proof.
  intros T Hl w V. unfold err_open_lots.
  destruct (open_lots_opens m w p a n T Hl V) as (w1 & E1 & V1). rewrite E1, bind_ok.
  destruct (forM_range 2 6 (fun '(m, w) i => '(m, w, _) ← ece391_close i m w; Ok (m, w))
    (fun i '(m', w') => m' = m /\ view w' (with_fds p (opened i 8))) (m, w1)) as ([m' w2] & E2 & -> & V2).
  - lia.
  - by split.
  - intros i [m' w'] Hi (-> & V'). unfold ece391_close.
    destruct (law_close m w' _ i FdDir V' ltac:(lia)) as (w3 & E3 & V3);
      [cbn [with_fds p_fds]; apply opened_get; lia|done|].
    rewrite E3, bind_ok. eexists. split; [reflexivity|]. split; [done|].
    pose proof (close_step (i - 2) ltac:(lia)) as Hs. replace (2 + (i - 2)) with i in Hs by lia.
    replace (2 + (i - 2 + 1)) with (i + 1) in Hs by lia. cbn [with_fds p_fds] in V3. by rewrite Hs in V3.
  - rewrite E2, bind_ok. cbn [Z.eqb]. rewrite with_fds_id in V2 by (by rewrite (ta_fds _ T)).
    eapply (lit_prints m w2 p a n); [exact V2|exact Hl|].
    listed.
Qed.

Definition always_passes (m : mem) (test : mem -> W -> res (mem * W * Z)) (name : list Z) : Prop :=
  forall p, tame p -> passes test name m p.

(** The tests that do not close a wild descriptor. *)
Lemma later_tests m a n :
  literals lit syserr_literals a n m ->
  Forall2 (always_passes m) (drop 2 (tests lit tbuf ebx ecx edx)) (drop 2 test_names).
Proof.
  intros Hl. unfold tests, test_names, drop. repeat constructor; intros p T.
  - by eapply open_lots_passes.
  - by eapply open_passes.
  - by eapply unopened_passes.
  - by eapply vidmap_passes.
  - by eapply stdin_out_passes.
  - by eapply syscall_num_passes.
Qed.

Lemma every_test m a n :
  close_rejects -> literals lit syserr_literals a n m ->
  Forall2 (always_passes m) (tests lit tbuf ebx ecx edx) test_names.
Proof.
  intros Hc Hl. constructor; [intros p T; by eapply neg_fd_passes|].
  constructor; [intros p T; by eapply big_fd_passes|]. by eapply later_tests.
Qed.

Lemma tame_print p l : tame p -> tame (print p l).
Proof. by intros []. Qed.
Lemma tame_input p l : tame p -> tame (with_input p l).
Proof. by intros []. Qed.

Lemma run_tests m w p ts ns :
  Forall2 (always_passes m) ts ns -> tame p -> view w p ->
  exists w', forM ts (fun '(m, w, fail) test => '(m, w, f) ← test m w; Ok (m, w, fail + f)) (m, w, 0)
      = Ok (m, w', 0) /\ view w' (print p (concat (pass <$> ns))).
Proof.
  intros HF. revert w p. induction HF as [|t name ts ns Ht HF IH]; intros w p T V; cbn [forM].
  - exists w. split; [done|]. cbn. by rewrite print_nil.
  - destruct (Ht p T w V) as (w1 & -> & V1). rewrite bind_ok. cbn [Z.add].
    destruct (IH w1 (print p (pass name)) (tame_print _ _ T) V1) as (w2 & E & V2). exists w2.
    split; [exact E|]. by rewrite print_print in V2.
Qed.

Lemma all_tests_pass m w p a n :
  close_rejects -> literals lit syserr_literals a n m -> tame p -> view w p ->
  exists w', all_tests lit tbuf ebx ecx edx m w = Ok (m, w', 0) /\ view w' (print p (outcome 48)).
Proof.
  intros Hc Hl T V. unfold all_tests.
  destruct (run_tests m w p _ _ (every_test m a n Hc Hl) T V) as (w1 & E1 & V1).
  rewrite E1, bind_ok. cbn [Z.eqb negb].
  destruct (lit_prints m w1 _ a n overall 0 V1 Hl) as (w2 & E2 & V2); [listed|].
  exists w2. split; [exact E2|]. by rewrite print_print in V2.
Qed.

(** One test or the message, for any answer but 0. *)
Lemma one_test m w p a n c :
  (c = 49 \/ c = 50 -> close_rejects) -> literals lit syserr_literals a n m -> tame p -> view w p -> c <> 48 ->
  exists w', (match aget (tests lit tbuf ebx ecx edx) (c - 48 - 1) with
              | Some test => test m w
              | None => fail_with lit invalid 0 m w
              end) = Ok (m, w', 0) /\ view w' (print p (outcome c)).
Proof.
  intros Hc Hl T V Hne. unfold outcome. rewrite (proj2 (Z.eqb_neq _ _) Hne).
  replace (c - 48 - 1) with (c - 49) by lia.
  destruct (decide (0 <= c - 49 < 8)) as [Hr|Hr].
  - assert (HF : exists t name, aget (tests lit tbuf ebx ecx edx) (c - 49) = Some t /\
      aget test_names (c - 49) = Some name /\ always_passes m t name).
    { destruct (decide (c - 49 < 2)) as [Hlo|Hhi].
      - pose proof (every_test m a n (Hc ltac:(lia)) Hl) as HF. rewrite !aget_lookup by lia.
        destruct (lookup_lt_is_Some_2 (tests lit tbuf ebx ecx edx) (Z.to_nat (c - 49))) as [t Ht]; [cbn; lia|].
        destruct (Forall2_lookup_l _ _ _ _ _ HF Ht) as (name & Hn & Hp). by exists t, name.
      - pose proof (later_tests m a n Hl) as HF. rewrite !aget_lookup by lia.
        destruct (lookup_lt_is_Some_2 (drop 2 (tests lit tbuf ebx ecx edx)) (Z.to_nat (c - 51))) as [t Ht];
          [cbn; lia|].
        destruct (Forall2_lookup_l _ _ _ _ _ HF Ht) as (name & Hn & Hp). exists t, name.
        rewrite !lookup_drop in *. by replace (2 + Z.to_nat (c - 51))%nat with (Z.to_nat (c - 49)) in * by lia. }
    destruct HF as (t & name & -> & -> & Hp). by apply Hp.
  - assert (Hn : forall A (l : list A), length l = 8%nat -> aget l (c - 49) = None).
    { intros A l Hl8. unfold aget. destruct (Z.leb_spec 0 (c - 49)); [|done]. apply lookup_ge_None. lia. }
    rewrite !Hn by done. eapply lit_prints; [exact V|exact Hl|listed].
Qed.

Context {KL : KeyboardLaws W}.

(** C25 The kernel's own tests pass: whatever the typed answer, the program
    returns 0 and prints the question, the answer and PASS for the test it
    names, for all of them when it is 0, or that there is no such test.  The
    two tests with wild descriptors, alone or among all, need that [close]
    rejects a number outside the table, which the code of the kernel's [close]
    does not guarantee. *)
Theorem syserr_passes (m : mem) (w : W) (p : proc) (l : list Z) (rest : list (list Z)) :
  view w p -> tame p -> in_user buf 128 -> literals lit syserr_literals buf 128 m ->
  p_input p = l :: rest -> Z.of_nat (length l) < 126 ->
  let c := default 10 (head l) in
  (c = 48 \/ c = 49 \/ c = 50 -> close_rejects) ->
  exists m' w', syserr_main lit buf tbuf ebx ecx edx m w = Ok (m', w', 0) /\
    view w' (print (with_input p rest) (question ++ line l ++ outcome c)).
Proof.
  intros V T U Hl Hi Hlen c Hc. unfold syserr_main. fold question.
  destruct (fdputs_prints m w p _ _ V (literals_at _ _ _ _ _ question Hl ltac:(listed))) as (w1 & E1 & V1).
  rewrite E1, bind_ok. unfold ece391_read.
  destruct (law_read_line m w1 (print p question) buf 127 l rest V1 Hi ltac:(lia)) as (m2 & w2 & E2 & B & _ & _ & S & V2).
  { unfold in_user in *. lia. }
  rewrite E2, bind_ok. destruct (Z.eqb_spec (-1) (Z.of_nat (length l) + 1)); [lia|].
  assert (Hl2 : literals lit syserr_literals buf 128 m2).
  { eapply literals_same; [exact Hl|]. eapply same_outside_weaken; [| |exact S]; lia. }
  assert (Hb : load8 m2 buf = c).
  { pose proof (bytes_at_lookup m2 buf (l ++ [10]) 0 c B ltac:(lia)) as Hb. rewrite Z.add_0_r in Hb.
    apply Hb. by destruct l. }
  rewrite Hb. cbv zeta. set (q := print (with_input (print p question) rest) _) in V2.
  assert (Tq : tame q) by (by apply tame_print, tame_input, tame_print).
  replace (print (with_input p rest) (question ++ line l ++ outcome c)) with (print q (outcome c)).
  2:{ subst q. change (with_input (print p question) rest) with (print (with_input p rest) question).
      rewrite !print_print. unfold line. by rewrite <- !app_assoc. }
  destruct (Z.eqb_spec (c - 48) 0) as [E0|Hne].
  - replace c with 48 in * by lia. destruct (all_tests_pass m2 w2 q _ _ (Hc ltac:(lia)) Hl2 Tq V2) as (w3 & E3 & V3).
    by exists m2, w3.
  - destruct (one_test m2 w2 q _ _ c ltac:(intros; apply Hc; lia) Hl2 Tq V2 ltac:(lia)) as (w3 & E3 & V3).
    by exists m2, w3.
Qed.
End Theorems.

Definition syserr_lit : list Z -> Z := lit_from demo_base syserr_literals.
Definition syserr_m : mem := lit_mem demo_base syserr_literals.
Definition syserr_proc : proc := fresh_proc [] demo_dir [bytes "0"] demo_cmd.
Lemma sim_close_rejects : close_rejects (W := proc).
Proof.
  intros fd m w p [-> P] Hfd. exists p. split; [|by split]. cbn. unfold sim_close.
  destruct (po_fds _ P) as (F1 & _). destruct (aget (p_fds p) fd) as [f|] eqn:E; [|done].
  apply aget_Some_lt in E. lia.
Qed.
Lemma syserr_passes_witness :
  exists m' w', syserr_main syserr_lit demo_buf demo_buf 0 0 0 syserr_m syserr_proc = Ok (m', w', 0) /\
    p_out w' = question ++ bytes "0" ++ [10] ++ bytes "err_neg_fd: PASS" ++ [10] ++
      bytes "err_big_fd: PASS" ++ [10] ++ bytes "err_open_lots: PASS" ++ [10] ++ bytes "err_open: PASS" ++ [10] ++
      bytes "err_unopened: PASS" ++ [10] ++ bytes "err_vidmap: PASS" ++ [10] ++
      bytes "err_stdin_out: PASS" ++ [10] ++ bytes "err_syscall_num: PASS" ++ [10] ++
      [10] ++ bytes "Overall Tests: PASS" ++ [10].
Proof.
  destruct (syserr_passes syserr_lit demo_buf demo_buf 0 0 0 syserr_m syserr_proc syserr_proc (bytes "0") [])
    as (m' & w' & E & V).
  - split; [done|]. apply proc_ok_decide. by vm_compute.
  - split; [done|by vm_compute|by vm_compute].
  - by split.
  - apply literals_dec. by vm_compute.
  - done.
  - cbn. lia.
  - intros _. exact sim_close_rejects.
  - exists m', w'. split; [exact E|]. destruct V as [-> _]. by vm_compute.
Defined.
