(* ===== verification/Grep.v ===== *)
(** * ece391grep.c: grep

    [do_one_file] reads a file in pieces into an array of 1025 bytes, cuts
    them into lines, and moves the unfinished line at the end of a piece to
    the front before the next one is read.  The theorems say that nothing is
    lost at the seams. *)

From S2P Require Import Prelude Mem Lib Pcb Filesys Syscalls User Ulib.
From S2P Require Import Apps.

Section Program.
Context `{OS W} (lit : list Z -> Z).

(** [line_end]: the next newline, or [last]. *)
Definition scan (m : mem) (data last line_start : Z) : res Z :=
  while (fun line_end =>
    if (line_end <? last) && negb (load8 m (data + line_end) =? 10) then inl (line_end + 1)
    else inr (Ok line_end)) line_start.

(** The search in one line; [s] points to signed characters. *)
Definition search_line (s fname data s_len line_start line_end : Z) (m : mem) (w : W)
    : res (mem * W) :=
  whileM (fun check =>
    if check <? line_end then
      if s8 (load8 m s) =? load8 m (data + check) then
        c ← ece391_strncmp m (data + check) s s_len;
        if 0 =? c then
          '(m, w) ← ece391_fdputs 1 fname m w;
          '(m, w) ← ece391_fdputs 1 (lit (bytes ":")) m w;
          '(m, w) ← ece391_fdputs 1 (data + line_start) m w;
          inr <$> ece391_fdputs 1 (lit [10]) m w
        else Ok (inl (check + 1))
      else Ok (inl (check + 1))
    else Ok (inr (m, w))) line_start.

(** One turn of the loop over the lines of a piece; it ends with the new
    [last]. *)
Definition lines_turn (s fname data s_len last cnt line_start : Z) (m : mem) (w : W)
    : res ((mem * W * Z) + (mem * W * Z)) :=
  line_end ← scan m data last line_start;
  if negb (load8 m (data + line_end) =? 10) && negb (0 =? cnt) && negb (line_start =? 0) then
    let m := store8 m (data + line_end) 0 in
    m ← ece391_strcpy m data (data + line_start);
    Ok (inr (m, w, last - line_start))
  else
    let m := store8 m (data + line_end) 0 in
    '(m, w) ← search_line s fname data s_len line_start line_end m w;
    let line_start := line_end + 1 in
    if last <=? line_start then Ok (inr (m, w, 0)) else Ok (inl (m, w, line_start)).

(** One piece of the file; it ends with -1 (the read failed) or 0. *)
Definition file_turn (fd s fname data s_len last : Z) (m : mem) (w : W)
    : res ((mem * W * Z) + (mem * W * Z)) :=
  '(m, w, cnt) ← ece391_read fd (data + last) (BUFSIZE - last) m w;
  if -1 =? cnt then inr <$> fail_with lit (bytes "file read failed" ++ [10]) (-1) m w
  else
    let last := last + cnt in
    '(m, w, last) ← whileM (fun '(m, w, line_start) =>
      lines_turn s fname data s_len last cnt line_start m w) (m, w, 0);
    if 0 =? cnt then Ok (inr (m, w, 0)) else Ok (inl (m, w, last)).

Definition do_one_file (s fname data : Z) (m : mem) (w : W) : res (mem * W * Z) :=
  s_len ← ece391_strlen m s;
  '(m, w, fd) ← ece391_open fname m w;
  if -1 =? fd then fail_with lit (bytes "file open failed" ++ [10]) (-1) m w
  else
    '(m, w, r) ← whileM (fun '(m, w, last) => file_turn fd s fname data s_len last m w) (m, w, 0);
    if -1 =? r then Ok (m, w, -1)
    else
      '(m, w, r) ← ece391_close fd m w;
      if -1 =? r then fail_with lit (bytes "file close failed" ++ [10]) (-1) m w
      else Ok (m, w, 0).

Definition grep_turn (fd buf search data : Z) (m : mem) (w : W)
    : res ((mem * W) + (mem * W * Z)) :=
  '(m, w, cnt) ← ece391_read fd buf (SBUFSIZE - 1) m w;
  if 0 =? cnt then Ok (inr (m, w, 0))
  else if -1 =? cnt then inr <$> fail_with lit (bytes "directory entry read failed" ++ [10]) 3 m w
  else if load8 m buf =? 46 then Ok (inl (m, w))
  else
    let m := store8 m (buf + cnt) 0 in
    '(m, w, r) ← do_one_file search buf data m w;
    if negb (0 =? r) then Ok (inr (m, w, 3)) else Ok (inl (m, w)).

Definition grep_main (buf search data : Z) (m : mem) (w : W) : res (mem * W * Z) :=
  '(m, w, r) ← ece391_getargs search BUFSIZE m w;
  if negb (0 =? r) then fail_with lit (bytes "could not read argument" ++ [10]) 3 m w
  else
    '(m, w, fd) ← ece391_open (lit (bytes ".")) m w;
    if -1 =? fd then fail_with lit (bytes "directory open failed" ++ [10]) 2 m w
    else whileM (fun '(m, w) => grep_turn fd buf search data m w) (m, w).
End Program.

(** ** Lines *)

(** The lines of a text, [cur] being the line in progress; the piece after
    the last newline is a line when it is not empty. *)
Fixpoint split_lines (cur c : list Z) : list (list Z) :=
  match c with
  | [] => if bool_decide (cur = []) then [] else [cur]
  | b :: c => if b =? 10 then cur :: split_lines [] c else split_lines (cur ++ [b]) c
  end.

Lemma split_skip cur l r : 10 ∉ l -> split_lines cur (l ++ r) = split_lines (cur ++ l) r.
Proof.
  revert cur. induction l as [|b l IH]; intros cur Hl; [by rewrite app_nil_r|].
  apply not_elem_of_cons in Hl as [Hb Hl]. cbn [app split_lines].
  destruct (Z.eqb_spec b 10); [by subst|]. rewrite IH by done. by rewrite <- app_assoc.
Qed.

Lemma split_line l r : 10 ∉ l -> split_lines [] (l ++ 10 :: r) = l :: split_lines [] r.
Proof. intros Hl. by rewrite split_skip. Qed.

Lemma split_last l : 10 ∉ l -> split_lines [] l = if bool_decide (l = []) then [] else [l].
Proof. intros Hl. rewrite <- (app_nil_r l) at 1. by rewrite split_skip. Qed.

Lemma split_head cur r :
  cur <> [] -> exists x y, split_lines cur r = (cur ++ x) :: y.
Proof.
  revert cur. induction r as [|b r IH]; intros cur Hc; cbn [split_lines].
  - rewrite bool_decide_eq_false_2 by done. exists [], []. by rewrite app_nil_r.
  - destruct (b =? 10); [exists [], (split_lines [] r); by rewrite app_nil_r|].
    destruct (IH (cur ++ [b])) as (x & y & ->); [by destruct cur|].
    exists (b :: x), y. by rewrite <- app_assoc.
Qed.

(** The length of the line in front. *)
Fixpoint upto (l : list Z) : nat :=
  match l with [] => O | b :: l => if b =? 10 then O else S (upto l) end.

Lemma upto_spec l :
  (upto l <= length l)%nat /\ (10 ∉ take (upto l) l) /\
  ((upto l < length l)%nat -> l = take (upto l) l ++ 10 :: drop (S (upto l)) l).
Proof.
  induction l as [|b l (IH1 & IH2 & IH3)]; cbn [upto length]; [split_and!; [lia|set_solver|lia]|].
  destruct (Z.eqb_spec b 10) as [->|Hb]; cbn [take drop app].
  - split_and!; [lia|set_solver|done].
  - split_and!; [lia|apply not_elem_of_cons; split; [congruence|done]|].
    intros Hlt. rewrite IH3 at 1 by lia. done.
Qed.

Lemma upto_all l : upto l = length l -> 10 ∉ l.
Proof. intros E. destruct (upto_spec l) as (_ & Hn & _). by rewrite E, firstn_all in Hn. Qed.

Lemma upto_drop l i :
  (i <= upto l)%nat -> upto (drop i l) = (upto l - i)%nat.
Proof.
  revert i. induction l as [|b l IH]; intros [|i] Hi; cbn [upto drop] in *; try lia.
  destruct (b =? 10); [lia|]. rewrite IH by lia. lia.
Qed.

(** ** The hits of a pattern *)

Definition matches (pat l : list Z) : bool :=
  existsb (fun i => bool_decide (take (length pat) (drop i l) = pat)) (seq 0 (length l)).
Definition hit (pat name l : list Z) : list Z :=
  if matches pat l then name ++ bytes ":" ++ line l else [].
(** What grep prints for a file of content [c]. *)
Definition hits (pat name c : list Z) : list Z := concat (hit pat name <$> split_lines [] c).

Lemma upto_get l k b :
  l !! k = Some b -> (k <= upto l)%nat -> b = 10 <-> k = upto l.
Proof.
  revert k. induction l as [|c l IH]; intros [|k] Hk Hle; cbn [upto lookup list_lookup] in *; try done.
  - injection Hk as ->. by destruct (Z.eqb_spec b 10).
  - destruct (c =? 10); [lia|]. rewrite (IH k Hk) by lia. lia.
Qed.

Lemma scan_spec m data last i t :
  bytes_at m (data + i) t -> i + Z.of_nat (length t) = last -> 0 <= i -> last < 4294967296 ->
  scan m data last i = Ok (i + Z.of_nat (upto t)).
Proof.
  intros B Hl Hi Hlast. destruct (upto_spec t) as [Hle _]. unfold scan.
  apply (while_rule _ (fun j => i <= j <= i + Z.of_nat (upto t)) (fun j => last - j)); [lia|lia|].
  intros j Hj. destruct (Z.ltb_spec j last) as [Hlt|]; cbn [andb]; [|f_equal; lia].
  destruct (lookup_lt_is_Some_2 t (Z.to_nat (j - i)) ltac:(lia)) as [b Hb].
  pose proof (bytes_at_lookup m _ _ (j - i) b B ltac:(lia) Hb) as L.
  replace (data + i + (j - i)) with (data + j) in L by lia. rewrite L.
  pose proof (upto_get t _ b Hb ltac:(lia)) as U.
  destruct (Z.eqb_spec b 10) as [E|E]; cbn [negb]; [|split; [|lia]].
  - f_equal. pose proof (proj1 U E). lia.
  - assert (Z.to_nat (j - i) <> upto t) by (intros E'; by apply E, U). lia.
Qed.

(** The position of a match, and that there is none. *)
Lemma matches_at pat l k :
  (k < length l)%nat -> take (length pat) (drop k l) = pat -> matches pat l = true.
Proof.
  intros Hk E. unfold matches. apply existsb_exists. exists k. split; [apply in_seq; lia|].
  by apply bool_decide_eq_true_2.
Qed.
Lemma matches_none pat l :
  (forall k, (k < length l)%nat -> take (length pat) (drop k l) <> pat) -> matches pat l = false.
Proof.
  intros Hn. unfold matches. apply not_true_is_false. intros E.
  apply existsb_exists in E as (k & Hk & E). apply in_seq in Hk.
  apply bool_decide_eq_true in E. apply (Hn k); [lia|done].
Qed.

(** ** One file *)

Definition grep_literals : list (list Z) :=
  [bytes ":"; [10]; bytes "could not read argument" ++ [10]; bytes "."].

Section File.
Context {W : Type} {O : OS W} {Vw : View W} {L : OSLaws W} (lit : list Z -> Z) (s fname data : Z) (pat name : list Z).

(** The strings the search reads are in memory, apart from [data]. *)
Record sources (m : mem) : Prop := Sources {
  so_pat : user_cstr m s pat /\ apart s (Z.of_nat (length pat) + 1) data 1025;
  so_name : user_cstr m fname name /\ apart fname (Z.of_nat (length name) + 1) data 1025;
  so_lits : literals lit grep_literals data 1025 m }.

Hypothesis Hdata : in_user data 1025.
Hypothesis Hpat : exists c cs, pat = c :: cs /\ c < 128.

Lemma sources_same m m' : sources m -> same_outside data (data + 1025) m m' -> sources m'.
Proof.
  intros [[C1 A1] [C2 A2] C3] S. split.
  - split; [|done]. eapply user_cstr_same; [exact C1|exact S|]. unfold apart in *. lia.
  - split; [|done]. eapply user_cstr_same; [exact C2|exact S|]. unfold apart in *. lia.
  - by eapply literals_same.
Qed.

(** The test of [search_line] at one position. *)
Lemma match_at m a l k :
  is_cstr m a l -> is_cstr m s pat -> (k < length l)%nat -> Z.of_nat (length l) < 2147483647 ->
  Z.of_nat (length pat) < 4294967296 ->
  exists c, ece391_strncmp m (a + Z.of_nat k) s (Z.of_nat (length pat)) = Ok c /\
    (c = 0 <-> take (length pat) (drop k l) = pat) /\
    (c = 0 -> s8 (load8 m s) = load8 m (a + Z.of_nat k)).
Proof.
  intros Cl Cs Hk Hl Hp. destruct Hpat as (c & cs & Ep & Hc).
  pose proof (is_cstr_drop _ _ _ k Cl ltac:(lia)) as Cd.
  exists (ucmp (length pat) (drop k l) pat).
  assert (Hz : ucmp (length pat) (drop k l) pat = 0 <-> take (length pat) (drop k l) = pat).
  { rewrite ucmp_zero by (eapply is_cstr_chars; eassumption). by rewrite (take_ge pat) by lia. }
  split; [|split; [exact Hz|]].
  { rewrite (strncmp_spec _ _ _ (drop k l) pat) by (rewrite ?length_drop; try done; lia).
    by rewrite Nat2Z.id. }
  intros E. apply Hz in E. destruct (lookup_lt_is_Some_2 l k Hk) as [b Hb].
  pose proof (bytes_at_lookup m a l (Z.of_nat k) b (is_cstr_bytes _ _ _ Cl) ltac:(lia)) as G.
  rewrite Nat2Z.id in G. rewrite (G Hb).
  pose proof (is_cstr_get _ _ _ 0 Cs ltac:(rewrite Ep; cbn; lia)) as G0. rewrite Z.add_0_r, Ep in G0.
  injection G0 as G0. pose proof (load8_range m s).
  rewrite (drop_S _ _ _ Hb), Ep in E. injection E as -> _. unfold s8. rewrite Z.mod_small by lia. lia.
Qed.

Lemma search_spec m w p ls l :
  view w p -> sources m -> is_cstr m (data + ls) l -> 0 <= ls ->
  in_user (data + ls) (Z.of_nat (length l) + 1) ->
  exists w', search_line lit s fname data (Z.of_nat (length pat)) ls (ls + Z.of_nat (length l)) m w
      = Ok (m, w') /\ view w' (print p (hit pat name l)).
Proof.
  intros V So Cl Hls U. destruct (so_pat _ So) as [[Cs Us] _]. pose proof U as (U1 & U2 & U3).
  destruct Us as (Us1 & Us2 & Us3). unfold TOP_PAGE, BOTTOM_PAGE in *.
  unfold search_line.
  match goal with |- context [whileM ?b] => destruct (whileM_rule b
    (fun n check => check = ls + Z.of_nat (length l) - n /\ 0 <= n <= Z.of_nat (length l) /\
       forall k, (Z.of_nat k < check - ls) -> take (length pat) (drop k l) <> pat)
    (fun '(m', w') => m' = m /\ view w' (print p (hit pat name l))) (Z.of_nat (length l)) ls)
    as ([m' w'] & E & -> & V') end; [split_and!; lia|lia| |by exists w'].
  intros n check Hn (-> & Hr & Hno). destruct (Z.ltb_spec (ls + Z.of_nat (length l) - n) (ls + Z.of_nat (length l))).
  - set (k := Z.to_nat (Z.of_nat (length l) - n)).
    destruct (match_at m (data + ls) l k) as (c & Ec & Hc & Hf); [done|done|lia|lia|lia|].
    replace (data + (ls + Z.of_nat (length l) - n)) with (data + ls + Z.of_nat k) by lia.
    destruct (Z.eqb_spec 0 c) as [<-|Hne].
    + rewrite (proj2 (Z.eqb_eq _ _) (Hf eq_refl)), Ec, bind_ok. cbn [Z.eqb].
      destruct (fdputs_prints m w p _ _ V (proj1 (so_name _ So))) as (w1 & E1 & V1).
      destruct (fdputs_prints m w1 _ _ _ V1 (literals_at _ _ _ _ _ (bytes ":") (so_lits _ So) ltac:(by left)))
        as (w2 & E2 & V2).
      destruct (fdputs_prints m w2 _ _ _ V2 (conj Cl U)) as (w3 & E3 & V3).
      destruct (fdputs_prints m w3 _ _ _ V3 (literals_at _ _ _ _ _ [10] (so_lits _ So) ltac:(right; by left)))
        as (w4 & E4 & V4).
      rewrite E1, bind_ok, E2, bind_ok, E3, bind_ok, E4. eexists. split; [reflexivity|]. split; [done|].
      rewrite !print_print in V4. unfold hit, line.
      by rewrite (matches_at pat l k) by (try apply Hc; lia || done).
    + exists (inl (ls + Z.of_nat (length l) - n + 1)). split.
      * destruct (_ =? _); [|done]. rewrite Ec, bind_ok. by destruct (Z.eqb_spec 0 c).
      * exists (n - 1). split; [lia|]. split; [lia|]. split; [lia|]. intros k' Hk'.
        destruct (decide (k' = k)) as [->|]; [|apply Hno; lia]. intros E. by apply Hne, eq_sym, Hc.
  - eexists. split; [reflexivity|]. split; [done|]. unfold hit. rewrite matches_none; [by rewrite print_nil|].
    intros k Hk. apply Hno. lia.
Qed.

(** The byte after the array's 1024 is never a newline, once it is not. *)
Definition guard (m : mem) : Prop := load8 m (data + 1024) <> 10.

(** Ending the line of length [k] in front of [t]. *)
Lemma cut_line m i k t :
  bytes_at m (data + i) t -> text t -> (k <= length t)%nat -> 0 <= i ->
  i + Z.of_nat (length t) <= 1024 -> guard m -> sources m ->
  let m1 := store8 m (data + (i + Z.of_nat k)) 0 in
  is_cstr m1 (data + i) (take k t) /\ bytes_at m1 (data + (i + Z.of_nat k + 1)) (drop (S k) t) /\
  guard m1 /\ sources m1.
Proof.
  intros B T Hk Hi Hlast G So m1. destruct Hdata as (U1 & U2 & U3).
  unfold TOP_PAGE, BOTTOM_PAGE, guard in *.
  destruct (store_after m (data + i) (take k t) 0 (bytes_at_take _ _ _ _ B)) as [B1 S1];
    rewrite ?length_take, ?Nat.min_l in * by lia; [lia..|].
  replace (data + i + Z.of_nat k) with (data + (i + Z.of_nat k)) in * by lia. fold m1 in B1, S1.
  split; [apply bytes_cstr; [by apply Forall_take|exact B1]|]. split; [|split].
  - destruct (decide (S k <= length t)%nat) as [Hlt|]; [|rewrite drop_ge by lia; apply bytes_at_nil].
    pose proof (bytes_at_drop m _ t (Z.of_nat (S k)) B ltac:(lia)) as Bd. rewrite Nat2Z.id in Bd.
    replace (data + i + Z.of_nat (S k)) with (data + (i + Z.of_nat k + 1)) in Bd by lia.
    eapply bytes_at_ext; [|exact Bd]. intros j Hj. rewrite length_drop in Hj.
    apply S1; unfold addr; lia.
  - unfold m1. rewrite load8_store8_addr by (unfold addr; lia).
    destruct (_ =? _); [done|exact G].
  - eapply sources_same; [exact So|]. eapply same_outside_weaken; [| |exact S1]; lia.
Qed.

Lemma hits_last l : 10 ∉ l -> concat (hit pat name <$> split_lines [] l) = hit pat name l.
Proof.
  intros Hl. rewrite split_last by done. destruct (bool_decide_reflect (l = [])) as [->|]; [done|].
  cbn [fmap list_fmap concat]. by rewrite app_nil_r.
Qed.

(** Where the loop over the lines of [seg] stands at [i], when [rest] of the
    file has not been read. *)
Definition lines_at (p : proc) (seg rest : list Z) (m : mem) (w : W) (i : Z) : Prop :=
  0 <= i <= Z.of_nat (length seg) /\ bytes_at m (data + i) (drop (Z.to_nat i) seg) /\ guard m /\
  sources m /\ exists Xs, split_lines [] (seg ++ rest) = Xs ++ split_lines [] (drop (Z.to_nat i) seg ++ rest) /\
    view w (print p (concat (hit pat name <$> Xs))).

(** What it leaves: an unfinished line [pend] at the front of [data]. *)
Definition lines_left (p : proc) (seg rest : list Z) (m : mem) (w : W) (last cnt : Z) : Prop :=
  exists pend Xs, last = Z.of_nat (length pend) /\ last < 1024 /\ (10 ∉ pend) /\ text pend /\
    bytes_at m data pend /\ guard m /\ sources m /\ (cnt = 0 -> pend = []) /\
    split_lines [] (seg ++ rest) = Xs ++ split_lines [] (pend ++ rest) /\
    view w (print p (concat (hit pat name <$> Xs))).

(** Moving the unfinished line to the front. *)
Lemma copy_down m i t :
  is_cstr m (data + i) t -> 0 < i -> i + Z.of_nat (length t) <= 1024 -> guard m -> sources m ->
  exists m', ece391_strcpy m data (data + i) = Ok m' /\ bytes_at m' data t /\ guard m' /\ sources m'.
Proof.
  intros C Hi Hlen G So. destruct Hdata as (U1 & U2 & U3). unfold TOP_PAGE, BOTTOM_PAGE in *.
  destruct (strcpy_spec m data (data + i) t C) as (m2 & E2 & W2);
    [lia|unfold in_space; lia..|unfold fwd_ok; lia|].
  pose proof (writes_same_outside _ _ _ _ _ W2) as S2. exists m2. split; [exact E2|]. split; [|split].
  - intros j Hj. rewrite (writes_in _ _ _ _ _ j W2) by lia. by apply (is_cstr_bytes _ _ _ C).
  - unfold guard in *. rewrite S2; [done|unfold addr; lia|lia].
  - eapply sources_same; [exact So|]. eapply same_outside_weaken; [| |exact S2]; lia.
Qed.

Lemma lines_turn_spec p seg rest cnt m w i :
  text seg -> Z.of_nat (length seg) <= 1024 ->
  (rest <> [] -> Z.of_nat (length seg) = 1024 /\ cnt <> 0 /\ (upto seg < 1024)%nat) ->
  i < Z.of_nat (length seg) \/ i = 0 ->
  lines_at p seg rest m w i ->
  exists x, lines_turn lit s fname data (Z.of_nat (length pat)) (Z.of_nat (length seg)) cnt i m w = Ok x /\
    match x with
    | inl (m', w', i') => lines_at p seg rest m' w' i' /\ i < i' < Z.of_nat (length seg)
    | inr (m', w', last) => lines_left p seg rest m' w' last cnt
    end.
Proof.
  intros T Hlen Hrest Hi (Hr & B & G & So & Xs & Hsp & V).
  set (last := Z.of_nat (length seg)) in *. set (t := drop (Z.to_nat i) seg) in *.
  assert (Hl : i + Z.of_nat (length t) = last) by (unfold t; rewrite length_drop; lia).
  assert (Tt : text t) by (by apply Forall_drop).
  destruct (upto_spec t) as (Hk & Hnl & Hcut). set (k := upto t) in *.
  unfold lines_turn. rewrite (scan_spec m data last i t) by (done || lia). fold k. rewrite bind_ok.
  destruct (cut_line m i k t B Tt Hk ltac:(lia) ltac:(lia) G So) as (C & B1 & G1 & So1).
  set (m1 := store8 _ _ _) in *.
  assert (Hlk : Z.of_nat (length (take k t)) = Z.of_nat k) by (rewrite length_take; lia).
  destruct (search_spec m1 w _ i (take k t) V So1 C ltac:(lia)) as (w1 & E1 & V1).
  { unfold in_user in *. lia. }
  rewrite Hlk in E1. cbv zeta. rewrite E1, bind_ok. rewrite print_print in V1.
  destruct (decide (k < length t)%nat) as [Hlt|Hge].
  - (* a whole line *)
    specialize (Hcut Hlt).
    assert (L10 : load8 m (data + (i + Z.of_nat k)) = 10).
    { destruct (lookup_lt_is_Some_2 t k Hlt) as [b Hb].
      pose proof (bytes_at_lookup m _ t (Z.of_nat k) b B ltac:(lia)) as L0. rewrite Nat2Z.id in L0.
      replace (data + (i + Z.of_nat k)) with (data + i + Z.of_nat k) by lia. rewrite (L0 Hb).
      exact (proj2 (upto_get t k b Hb (le_n _)) eq_refl). }
    rewrite L10. change (negb (10 =? 10)) with false. cbn [andb].
    assert (Hsp' : split_lines [] (seg ++ rest) = (Xs ++ [take k t]) ++ split_lines [] (drop (S k) t ++ rest)).
    { rewrite Hsp, Hcut at 1. rewrite <- app_assoc. cbn [app]. rewrite split_line by done. by rewrite <- app_assoc. }
    assert (V1' : view w1 (print p (concat (hit pat name <$> Xs ++ [take k t])))).
    { rewrite fmap_app, concat_app. cbn [fmap list_fmap concat]. by rewrite app_nil_r. }
    destruct (Z.leb_spec last (i + Z.of_nat k + 1)) as [Hend|Hmore].
    + eexists. split; [reflexivity|]. exists [], (Xs ++ [take k t]).
      rewrite (drop_ge t) in Hsp' by lia. split_and!; try done; [set_solver|by constructor|apply bytes_at_nil].
    + eexists. split; [reflexivity|]. split; [|lia].
      assert (Ed : drop (Z.to_nat (i + Z.of_nat k + 1)) seg = drop (S k) t).
      { unfold t. rewrite drop_drop. f_equal. lia. }
      split; [lia|]. rewrite Ed. split; [exact B1|]. split; [done|]. split; [done|].
      exists (Xs ++ [take k t]). by split.
  - (* the end of the piece *)
    assert (Ek : k = length t) by lia. rewrite Ek, firstn_all in Hnl, V1, C.
    destruct (negb (load8 m (data + (i + Z.of_nat k)) =? 10) && negb (0 =? cnt) && negb (i =? 0)) eqn:Eb.
    + rewrite !andb_true_iff, !negb_true_iff, !Z.eqb_neq in Eb. destruct Eb as [[_ Hcnt] Hi0].
      destruct (copy_down m1 i t C ltac:(lia) ltac:(lia) G1 So1) as (m2 & -> & B2 & G2 & So2).
      rewrite bind_ok. eexists. split; [reflexivity|]. exists t, Xs. by split_and!; (lia || done).
    + assert (Hrn : rest = []).
      { destruct (decide (rest = [])) as [|Hne]; [done|exfalso]. destruct (Hrest Hne) as (H1 & H2 & H3).
        assert (load8 m (data + (i + Z.of_nat k)) <> 10).
        { replace (i + Z.of_nat k) with 1024 by lia. exact G. }
        rewrite !andb_false_iff, !negb_false_iff, !Z.eqb_eq in Eb.
        destruct Eb as [[?|?]|?]; [done|congruence|].
        assert (k = upto seg) by (unfold k, t; by subst i). lia. }
      subst rest. destruct (Z.leb_spec last (i + Z.of_nat k + 1)); [|lia].
      eexists. split; [reflexivity|]. exists [], (Xs ++ split_lines [] t).
      rewrite app_nil_r in Hsp |- *. rewrite app_nil_r in Hsp.
      split_and!; try done; [set_solver|by constructor|apply bytes_at_nil| |].
      * by rewrite Hsp, app_nil_r.
      * rewrite fmap_app, concat_app. by rewrite hits_last.
Qed.

Lemma lines_loop p seg rest cnt m w :
  text seg -> Z.of_nat (length seg) <= 1024 ->
  (rest <> [] -> Z.of_nat (length seg) = 1024 /\ cnt <> 0 /\ (upto seg < 1024)%nat) ->
  bytes_at m data seg -> guard m -> sources m -> view w p ->
  exists m' w' last,
    whileM (fun '(m, w, line_start) => lines_turn lit s fname data (Z.of_nat (length pat))
              (Z.of_nat (length seg)) cnt line_start m w) (m, w, 0) = Ok (m', w', last) /\
    lines_left p seg rest m' w' last cnt.
Proof.
  intros T Hlen Hrest B G So V. set (last := Z.of_nat (length seg)) in *.
  match goal with |- context [whileM ?b] => destruct (whileM_rule b
    (fun n '(m, w, i) => n = last - i /\ (i < last \/ i = 0) /\ lines_at p seg rest m w i)
    (fun '(m', w', last') => lines_left p seg rest m' w' last' cnt) last (m, w, 0))
    as ([[m' w'] last'] & E & Q) end; [|lia| |by exists m', w', last'].
  - split; [lia|]. split; [by right|]. split; [lia|]. rewrite Z.add_0_r. cbn [Z.to_nat drop].
    split; [done|]. split; [done|]. split; [done|]. exists []. split; [done|].
    cbn [fmap list_fmap concat]. by rewrite print_nil.
  - clear m w B G So V. intros n [[m w] i] Hn (-> & Hi & Hat).
    destruct (lines_turn_spec p seg rest cnt m w i T Hlen Hrest Hi Hat) as (x & E & Hx).
    exists x. split; [exact E|]. destruct x as [[[m' w'] i']|[[m' w'] last']]; [|done].
    destruct Hx as [Hat' Hlt]. exists (last - i'). split; [fold last in Hlt; lia|]. by split_and!; try lia.
Qed.

(** The lines of a prefix without newlines. *)
Lemma long_line seg rest b :
  (upto seg = length seg)%nat -> (0 < b <= length seg)%nat ->
  exists l, l ∈ split_lines [] (seg ++ rest) /\ (b <= length l)%nat.
Proof.
  intros Hu Hb. apply upto_all in Hu. rewrite split_skip by done. cbn [app].
  destruct (split_head seg rest) as (x & y & ->); [by destruct seg; cbn in Hb; [lia|]|].
  exists (seg ++ x). split; [by left|]. rewrite length_app. lia.
Qed.

(** Between two reads: [pos] bytes of the content [c] have been read. *)
Definition file_at (p : proc) (fd : Z) (c : list Z) (pos : Z) (Xs : list (list Z)) : proc :=
  print (with_fds p (<[Z.to_nat fd := FdFile c pos]> (p_fds p))) (concat (hit pat name <$> Xs)).

Definition piece_at (p : proc) (fd : Z) (c : list Z) (pos : Z) (m : mem) (w : W) (last : Z) : Prop :=
  exists pend Xs, last = Z.of_nat (length pend) /\ last < 1024 /\ (10 ∉ pend) /\ text pend /\
    bytes_at m data pend /\ guard m /\ sources m /\
    split_lines [] c = Xs ++ split_lines [] (pend ++ drop (Z.to_nat pos) c) /\
    view w (file_at p fd c pos Xs).

Lemma file_at_with p fd c pos pos' Xs :
  with_fds (file_at p fd c pos Xs) (<[Z.to_nat fd := FdFile c pos']> (p_fds (file_at p fd c pos Xs)))
  = file_at p fd c pos' Xs.
Proof. unfold file_at, with_fds, print. cbn. by rewrite list_insert_insert_eq. Qed.

Lemma file_at_more p fd c pos Xs Ys :
  print (file_at p fd c pos Xs) (concat (hit pat name <$> Ys)) = file_at p fd c pos (Xs ++ Ys).
Proof. unfold file_at. by rewrite print_print, fmap_app, concat_app. Qed.

Lemma file_turn_spec p fd c pos m w last :
  length (p_fds p) = 8%nat -> 0 <= fd < 8 -> text c ->
  Forall (fun l => (length l < 1024)%nat) (split_lines [] c) -> 0 <= pos <= Z.of_nat (length c) ->
  piece_at p fd c pos m w last ->
  exists x, file_turn lit fd s fname data (Z.of_nat (length pat)) last m w = Ok x /\
    match x with
    | inl (m', w', last') => exists cnt, 0 < cnt /\ pos + cnt <= Z.of_nat (length c) /\
        piece_at p fd c (pos + cnt) m' w' last'
    | inr (m', w', r) => r = 0 /\ guard m' /\ sources m' /\
        view w' (file_at p fd c (Z.of_nat (length c)) (split_lines [] c))
    end.
Proof.
  intros H8 Hfd Tc Hlines Hpos (pend & Xs & -> & Hl & Hn & Tp & B & G & So & Hsp & V).
  set (last := Z.of_nat (length pend)) in *. destruct Hdata as (U1 & U2 & U3).
  unfold file_turn, ece391_read, BUFSIZE.
  destruct (law_read_file m w _ fd (data + last) (1024 - last) c pos V (fd_insert p fd _ H8 Hfd) ltac:(lia))
    as (m1 & w1 & E & B1 & S1 & _ & V1); [unfold in_user in *; lia|].
  set (cnt := Z.min (1024 - last) (Z.of_nat (length c) - pos)) in *.
  rewrite file_at_with in V1. rewrite E, bind_ok. destruct (Z.eqb_spec (-1) cnt); [lia|].
  set (l := take (Z.to_nat cnt) (drop (Z.to_nat pos) c)) in *.
  set (rest := drop (Z.to_nat (pos + cnt)) c) in *.
  assert (Hll : Z.of_nat (length l) = cnt) by (unfold l; rewrite length_take, length_drop; lia).
  assert (Hd : drop (Z.to_nat pos) c = l ++ rest).
  { unfold l, rest. rewrite <- (take_drop (Z.to_nat cnt) (drop (Z.to_nat pos) c)) at 1.
    rewrite drop_drop. do 2 f_equal. lia. }
  set (seg := pend ++ l). assert (Hseg : Z.of_nat (length seg) = last + cnt) by (unfold seg; rewrite length_app; lia).
  rewrite Hd, app_assoc in Hsp. fold seg in Hsp.
  unfold TOP_PAGE, BOTTOM_PAGE in *.
  destruct (lines_loop (file_at p fd c (pos + cnt) Xs) seg rest cnt m1 w1) as (m2 & w2 & last2 & E2 & Hleft).
  - apply Forall_app. split; [done|]. by apply Forall_take, Forall_drop.
  - lia.
  - intros Hr. assert (pos + cnt < Z.of_nat (length c)).
    { destruct (decide (pos + cnt < Z.of_nat (length c))); [done|]. exfalso. apply Hr.
      unfold rest. apply drop_ge. lia. }
    split; [lia|]. split; [lia|]. destruct (upto_spec seg) as [Hu _].
    destruct (decide (upto seg = length seg)) as [Hu'|]; [|lia]. exfalso.
    destruct (long_line seg rest 1024 Hu' ltac:(lia)) as (x & Hx & Hlx).
    rewrite Forall_forall in Hlines. specialize (Hlines x). rewrite Hsp, elem_of_app in Hlines.
    specialize (Hlines (or_intror Hx)). lia.
  - apply bytes_at_app; [|exact B1]. eapply bytes_at_ext; [|exact B]. intros j Hj. apply S1; unfold addr; lia.
  - unfold guard in *. rewrite S1; [done|unfold addr; lia|lia].
  - eapply sources_same; [exact So|]. eapply same_outside_weaken; [| |exact S1]; lia.
  - exact V1.
  - rewrite Hseg in E2. cbv zeta. rewrite E2, bind_ok.
    destruct Hleft as (pend2 & Ys & -> & Hl2 & Hn2 & T2 & B2 & G2 & So2 & H0 & Hsp2 & V2).
    rewrite file_at_more in V2.
    destruct (Z.eqb_spec 0 cnt) as [Hz|Hnz].
    + eexists. split; [reflexivity|]. split; [done|]. split; [done|]. split; [done|].
      assert (Hr0 : rest = []) by (unfold rest; apply drop_ge; lia).
      replace (Z.of_nat (length c)) with (pos + cnt) by lia.
      rewrite Hsp, Hsp2, H0, Hr0 by done. cbn [app split_lines]. by rewrite bool_decide_eq_true_2, app_nil_r by done.
    + eexists. split; [reflexivity|]. exists cnt. split; [lia|]. split; [lia|].
      exists pend2, (Xs ++ Ys). rewrite <- app_assoc. fold rest. rewrite <- Hsp2, <- Hsp. by split_and!.
Qed.

(** One file, from [open] to [close]: its hits, and the descriptors as before. *)
Lemma do_one_file_spec m w p c :
  view w p -> sources m -> guard m -> lookup_name p name = Some (KFile c) ->
  (lowest_free (p_fds p) < 8)%nat -> 2 <= Z.of_nat (lowest_free (p_fds p)) ->
  text c -> Z.of_nat (length c) < 4294967296 ->
  Forall (fun l => (length l < 1024)%nat) (split_lines [] c) ->
  exists m' w', do_one_file lit s fname data m w = Ok (m', w', 0) /\ guard m' /\ sources m' /\
    view w' (print p (hits pat name c)).
Proof.
  intros V So G Hk Hf H2 Tc Hc Hlines. pose proof (view_fds _ _ V) as H8.
  destruct (so_pat _ So) as [[Cs Us] _]. destruct Us as (Us1 & Us2 & Us3).
  unfold TOP_PAGE, BOTTOM_PAGE in *. set (f := lowest_free (p_fds p)) in *.
  unfold do_one_file. rewrite ece391_strlen_eq, (strlen_cstr _ _ _ Cs), bind_ok by lia.
  destruct (law_open m w p fname name _ V (proj1 (so_name _ So)) Hk Hf) as (w1 & E1 & V1).
  unfold ece391_open. rewrite E1, bind_ok. fold f. destruct (Z.eqb_spec (-1) (Z.of_nat f)); [lia|].
  cbn [fd_for] in V1.
  match goal with |- context [whileM ?b] => destruct (whileM_rule b
    (fun n '(m, w, last) => exists pos, n = Z.of_nat (length c) - pos /\ 0 <= pos <= Z.of_nat (length c) /\
       piece_at p (Z.of_nat f) c pos m w last)
    (fun '(m', w', r) => r = 0 /\ guard m' /\ sources m' /\
       view w' (file_at p (Z.of_nat f) c (Z.of_nat (length c)) (split_lines [] c)))
    (Z.of_nat (length c)) (m, w1, 0)) as ([[m2 w2] r] & E2 & -> & G2 & So2 & V2) end.
  - exists 0. split; [lia|]. split; [lia|]. exists [], []. cbn [length]. split_and!; try done; try lia.
    + set_solver.
    + by constructor.
    + apply bytes_at_nil.
    + unfold file_at. rewrite Nat2Z.id. cbn [fmap list_fmap concat]. by rewrite print_nil.
  - lia.
  - intros n' [[m3 w3] last] Hn (pos & -> & Hp & Hat).
    destruct (file_turn_spec p (Z.of_nat f) c pos m3 w3 last H8 ltac:(lia) Tc Hlines Hp Hat) as (x & E & Hx).
    exists x. split; [exact E|]. destruct x as [[[m4 w4] last4]|[[m4 w4] r]]; [|exact Hx].
    destruct Hx as (cnt & Hcnt & Hle & Hat4). exists (Z.of_nat (length c) - (pos + cnt)).
    split; [lia|]. exists (pos + cnt). split; [lia|]. split; [lia|exact Hat4].
  - rewrite E2, bind_ok. change (-1 =? 0) with false. cbv iota.
    destruct (law_close m2 w2 _ (Z.of_nat f) (FdFile c (Z.of_nat (length c))) V2) as (w3 & E3 & V3);
      [lia|by apply fd_insert; [|lia]|done|].
    unfold ece391_close. rewrite E3, bind_ok. change (-1 =? 0) with false. cbv iota.
    exists m2, w3. split; [done|]. split; [done|]. split; [done|].
    replace (print p (hits pat name c)) with (with_fds (file_at p (Z.of_nat f) c (Z.of_nat (length c)) (split_lines [] c))
      (<[Z.to_nat (Z.of_nat f):=FdFree]> (p_fds (file_at p (Z.of_nat f) c (Z.of_nat (length c)) (split_lines [] c)))));
      [exact V3|].
    unfold file_at, with_fds, print. cbn. rewrite Nat2Z.id, list_insert_insert_eq.
    f_equal. apply list_insert_id. destruct (lowest_free_spec (p_fds p)) as [_ Hg]. apply Hg. fold f. lia.
Qed.
End File.

(** ** The directory *)

(** What grep prints for a name: nothing for a hidden one. *)
Definition grep_entry (pat : list Z) (p : proc) (name : list Z) : list Z :=
  if bool_decide (head name = Some 46) then []
  else match lookup_name p name with Some (KFile c) => hits pat name c | _ => [] end.

(** A name is hidden, or that of a text file with lines of fewer than 1024
    characters. *)
Definition searchable (p : proc) (name : list Z) : Prop :=
  head name = Some 46 \/
  exists c, lookup_name p name = Some (KFile c) /\ text c /\ Z.of_nat (length c) < 4294967296 /\
    Forall (fun l => (length l < 1024)%nat) (split_lines [] c).

Section Main.
Context {W : Type} {O : OS W} {Vw : View W} {L : OSLaws W} (lit : list Z -> Z) (buf search data : Z) (pat : list Z).
Hypothesis Hbuf : in_user buf 33.
Hypothesis Hsearch : in_user search 1024.
Hypothesis Hdata : in_user data 1025.
Hypothesis Hapart : apart buf 33 search 1024 /\ apart buf 33 data 1025 /\ apart search 1024 data 1025.
Hypothesis Hlits : Forall (fun s => apart (lit s) (Z.of_nat (length s) + 1) buf 33 /\
  apart (lit s) (Z.of_nat (length s) + 1) search 1024) grep_literals.
Hypothesis Hpat : exists c cs, pat = c :: cs /\ c < 128.
Hypothesis Hplen : Z.of_nat (length pat) < 1024.

Lemma literals_other m m' a n :
  literals lit grep_literals data 1025 m -> same_outside a (a + n) m m' ->
  Forall (fun s => apart (lit s) (Z.of_nat (length s) + 1) a n) grep_literals ->
  literals lit grep_literals data 1025 m'.
Proof.
  unfold literals. rewrite !Forall_forall. intros Hl S Ha s Hs. destruct (Hl s Hs) as [C A].
  split; [|done]. eapply user_cstr_same; [exact C|exact S|]. specialize (Ha s Hs). cbn in Ha.
  unfold apart in *. lia.
Qed.

(** Between two files. *)
Record between (m : mem) : Prop := Between {
  be_pat : user_cstr m search pat;
  be_lits : literals lit grep_literals data 1025 m;
  be_guard : guard data m }.

Lemma between_dir m m' name :
  between m -> same_outside buf (buf + 33) m m' -> is_cstr m' buf name -> Z.of_nat (length name) <= 32 ->
  sources lit search buf data pat name m' /\ guard data m'.
Proof.
  intros [Cp Cl G] S C Hn. destruct Hapart as (A1 & A2 & A3).
  assert (S' : user_cstr m' search pat).
  { eapply user_cstr_same; [exact Cp|exact S|]. unfold apart in *. lia. }
  split; [split|].
  - split; [exact S'|]. unfold apart in *. lia.
  - split; [|unfold apart in *; lia]. split; [exact C|]. unfold in_user in *. lia.
  - eapply literals_other; [exact Cl|exact S|]. eapply Forall_impl; [exact Hlits|]. by intros x [? _].
  - unfold guard, apart, in_user, TOP_PAGE, BOTTOM_PAGE in *. rewrite S; [done|unfold addr; lia|lia].
Qed.

(** The terminator [grep] puts where there is one. *)
Lemma end_again m m1 name :
  is_cstr m1 buf name -> Z.of_nat (length name) <= 32 -> same_outside buf (buf + 33) m m1 ->
  let m2 := store8 m1 (buf + Z.of_nat (length name)) 0 in
  is_cstr m2 buf name /\ same_outside buf (buf + 33) m m2.
Proof.
  intros C Hn S m2. destruct Hbuf as (U1 & U2 & U3). unfold TOP_PAGE, BOTTOM_PAGE in *. split.
  - eapply is_cstr_ext; [|exact C]. intros i Hi. unfold m2.
    rewrite load8_store8_addr by (unfold addr; lia).
    destruct (Z.eqb_spec (buf + Z.of_nat (length name)) (buf + i)) as [E|]; [|done].
    rewrite <- E. symmetry. by apply is_cstr_end.
  - eapply same_outside_trans; [exact S|]. apply same_outside_store8; [unfold addr|]; lia.
Qed.

Lemma grep_turn_spec m w q names pos fd :
  view w (walked (grep_entry pat q) q names pos) -> between m -> names = (p_dir q).*1 ->
  aget (p_fds q) fd = Some FdDir ->
  (lowest_free (p_fds q) < 8)%nat -> 2 <= Z.of_nat (lowest_free (p_fds q)) ->
  Forall (searchable q) names -> 0 <= p_dirpos q <= pos ->
  exists x, grep_turn lit fd buf search data m w = Ok x /\
    match x with
    | inl (m', w') => between m' /\ pos < Z.of_nat (length names) /\
        view w' (walked (grep_entry pat q) q names (pos + 1))
    | inr (m', w', r) => r = 0 /\
        view w' (print (with_dirpos q 0) (concat (grep_entry pat q <$> drop (Z.to_nat (p_dirpos q)) names)))
    end.
Proof.
  intros V Be Hnames Hfd Hf Hf2 Hse Hd. unfold grep_turn, ece391_read, SBUFSIZE. change (33 - 1) with 32.
  set (g := grep_entry pat q) in *.
  pose proof (law_read_dir m w _ fd buf 32 V Hfd ltac:(lia) Hbuf) as R.
  change (p_dirpos (walked g q names pos)) with pos in R.
  change (p_dir (walked g q names pos)) with (p_dir q) in R. rewrite <- Hnames in R.
  destruct (aget names pos) as [name|] eqn:En.
  - destruct R as (m1 & w1 & E & C & Hl & S1 & V1). rewrite E, bind_ok.
    set (cnt := Z.of_nat (length name)) in *.
    destruct (Z.eqb_spec 0 cnt); [lia|]. destruct (Z.eqb_spec (-1) cnt); [lia|]. cbv zeta.
    pose proof (aget_Some_lt _ _ _ En) as Hlt. pose proof (walked_next g q names pos name ltac:(lia) En) as Hw.
    assert (Hhead : head name = Some (load8 m1 buf)).
    { pose proof (is_cstr_get _ _ _ 0 C ltac:(lia)) as G. rewrite Z.add_0_r in G. by destruct name. }
    destruct (between_dir m m1 name Be S1 C ltac:(lia)) as [So1 G1].
    destruct (Z.eqb_spec (load8 m1 buf) 46) as [E46|E46].
    + eexists. split; [reflexivity|]. split; [by split; [apply (so_pat _ _ _ _ _ _ _ So1)|apply So1|]|].
      split; [lia|]. rewrite <- Hw. unfold g, grep_entry at 2. rewrite bool_decide_eq_true_2 by congruence.
      by rewrite print_nil.
    + destruct (end_again m m1 name C ltac:(lia) S1) as [C2 S2]. fold cnt in C2, S2.
      destruct (between_dir m _ name Be S2 C2 ltac:(lia)) as [So2 G2].
      assert (Hs : searchable q name).
      { rewrite Forall_forall in Hse. apply Hse. rewrite aget_lookup in En by lia. by eapply list_elem_of_lookup_2. }
      destruct Hs as [Hs|(c & Hk & Tc & Hc & Hlines)]; [congruence|].
      destruct (do_one_file_spec lit search buf data pat name Hdata Hpat _ w1 _ c V1 So2 G2 Hk Hf Hf2 Tc Hc Hlines)
        as (m3 & w3 & E3 & G3 & So3 & V3). rewrite E3, bind_ok. change (negb (0 =? 0)) with false. cbv iota.
      eexists. split; [reflexivity|]. split; [by split; [apply (so_pat _ _ _ _ _ _ _ So3)|apply So3|]|].
      split; [lia|]. rewrite <- Hw. unfold g at 2. unfold grep_entry. rewrite bool_decide_eq_false_2 by congruence.
      by rewrite Hk.
  - destruct R as (w1 & E & V1). rewrite E, bind_ok. eexists. split; [reflexivity|]. split; [done|].
    rewrite <- (walked_end g q names pos) by (lia || done). exact V1.
Qed.

Lemma grep_loop m w q fd :
  view w q -> between m -> aget (p_fds q) fd = Some FdDir ->
  (lowest_free (p_fds q) < 8)%nat -> 2 <= Z.of_nat (lowest_free (p_fds q)) ->
  let names := (p_dir q).*1 in
  Forall (searchable q) names -> 0 <= p_dirpos q <= Z.of_nat (length names) ->
  Z.of_nat (length names) < 4294967296 ->
  exists m' w', whileM (fun '(m, w) => grep_turn lit fd buf search data m w) (m, w) = Ok (m', w', 0) /\
    view w' (print (with_dirpos q 0) (concat (grep_entry pat q <$> drop (Z.to_nat (p_dirpos q)) names))).
Proof.
  intros V Be Hfd Hf Hf2 names Hse Hd Hn. set (g := grep_entry pat q). set (n := Z.of_nat (length names)) in *.
  destruct (whileM_rule (fun '(m, w) => grep_turn lit fd buf search data m w)
    (fun k '(m, w) => p_dirpos q <= n - k <= n /\ between m /\ view w (walked g q names (n - k)))
    (fun '(_, w', r) => r = 0 /\
       view w' (print (with_dirpos q 0) (concat (g <$> drop (Z.to_nat (p_dirpos q)) names))))
    (n - p_dirpos q) (m, w)) as ([[m' w'] r] & E & -> & V'); [| |  |by exists m', w'].
  - split; [lia|]. split; [done|]. replace (n - (n - p_dirpos q)) with (p_dirpos q) by lia. by rewrite walked_start.
  - lia.
  - intros k [m1 w1] Hk (Hp & Be1 & V1).
    destruct (grep_turn_spec m1 w1 q names (n - k) fd V1 Be1 eq_refl Hfd Hf Hf2 Hse ltac:(lia)) as (x & Ex & Hx).
    exists x. split; [exact Ex|]. destruct x as [[m2 w2]|[[m2 w2] r]]; [|exact Hx].
    destruct Hx as (Be2 & Hlt & V2). fold n in Hlt. exists (k - 1). split; [lia|]. split; [lia|]. split; [done|].
    by replace (n - (k - 1)) with (n - k + 1) by lia.
Qed.

(** C19 [grep] finds every line: for a pattern that starts with an ASCII
    character, it ends with status 0 after printing, for every file of the
    directory in order and every line of it that contains the pattern, the name
    of the file, a colon and the line; hidden names are skipped.  Lines that
    lie across the borders of the 1024-byte reads are neither lost nor cut nor
    printed twice, and every file is closed again.  This needs lines of fewer
    than 1024 characters, and that the byte after the array is not a newline
    before the first read: the program looks at it without having set it. *)
Theorem grep_correct (m : mem) (w : W) (p : proc) :
  view w p -> p_arg p = pat -> literals lit grep_literals data 1025 m -> guard data m ->
  let f := lowest_free (p_fds p) in
  let fds := <[f := FdDir]> (p_fds p) in
  let names := (p_dir p).*1 in
  2 <= Z.of_nat (lowest_free fds) < 8 -> lookup_name p (bytes ".") = Some KDir ->
  0 <= p_dirpos p <= Z.of_nat (length names) -> Z.of_nat (length names) < 4294967296 ->
  Forall (searchable p) names ->
  exists m' w', grep_main lit buf search data m w = Ok (m', w', 0) /\
    view w' (print (with_dirpos (with_fds p fds) 0)
      (concat (grep_entry pat p <$> drop (Z.to_nat (p_dirpos p)) names))).
Proof.
  intros V Ha Hl G f fds names Hf Hdot Hd Hn Hse. pose proof (view_fds _ _ V) as H8.
  destruct Hapart as (A1 & A2 & A3). destruct (Hpat) as (c & cs & Ep & _).
  destruct (law_getargs m w p search 1024 V ltac:(by rewrite Ha, Ep) ltac:(rewrite Ha; lia) Hsearch)
    as (m1 & w1 & E1 & C1 & S1 & V1). rewrite Ha in C1.
  assert (Be : between m1).
  { split.
    - split; [exact C1|]. unfold in_user in *. lia.
    - eapply literals_other; [exact Hl|exact S1|]. eapply Forall_impl; [exact Hlits|]. by intros x [_ ?].
    - unfold guard, apart, in_user, TOP_PAGE, BOTTOM_PAGE in *. rewrite S1; [done|unfold addr; lia|lia]. }
  unfold grep_main, ece391_getargs, BUFSIZE. rewrite E1, bind_ok. change (negb (0 =? 0)) with false. cbv iota.
  assert (Hf8 : (f < 8)%nat).
  { destruct (lowest_free_spec (p_fds p)) as [Hle _]. fold f in Hle. destruct (decide (f < 8)%nat); [done|].
    exfalso. unfold fds in Hf. rewrite list_insert_ge in Hf by lia. fold f in Hf. lia. }
  destruct (law_open m1 w1 p _ _ _ V1 (literals_at _ _ _ _ _ (bytes ".") (be_lits _ Be) ltac:(do 3 right; by left))
    Hdot Hf8) as (w2 & E2 & V2). unfold ece391_open. rewrite E2, bind_ok. fold f.
  destruct (Z.eqb_spec (-1) (Z.of_nat f)); [lia|].
  destruct (grep_loop m1 w2 (with_fds p fds) (Z.of_nat f) V2 Be) as (m3 & w3 & E3 & V3); try done; try lia.
  - cbn [with_fds p_fds]. rewrite aget_of_nat. apply list_lookup_insert_eq. lia.
  - cbn [with_fds p_fds]. lia.
  - cbn [with_fds p_fds]. lia.
  - exists m3, w3. split; [exact E3|exact V3].
Qed.
End Main.

Definition grep_lit : list Z -> Z := lit_from demo_base grep_literals.
Definition grep_m : mem := lit_mem demo_base grep_literals.
Definition demo_search : Z := 138409000.
Definition demo_data : Z := 138411000.
Lemma demo_lines c :
  bool_decide (text c /\ Z.of_nat (length c) < 4294967296 /\
    Forall (fun l => (length l < 1024)%nat) (split_lines [] c)) = true ->
  text c /\ Z.of_nat (length c) < 4294967296 /\ Forall (fun l => (length l < 1024)%nat) (split_lines [] c).
Proof. apply bool_decide_eq_true. Qed.
Lemma grep_correct_witness :
  exists m' w', grep_main grep_lit demo_buf demo_search demo_data grep_m (demo_proc (bytes "one")) = Ok (m', w', 0) /\
    p_out w' = bytes "a.txt:one" ++ [10] ++ bytes "b.txt:none" ++ [10] ++ bytes "b.txt:phone" ++ [10].
Proof.
  destruct (grep_correct grep_lit demo_buf demo_search demo_data (bytes "one") ltac:(by split) ltac:(by split)
    ltac:(by split) ltac:(apply (bool_decide_unpack _); by vm_compute) ltac:(apply (bool_decide_unpack _); by vm_compute)
    ltac:(by exists 111, (bytes "ne")) ltac:(cbn; lia) grep_m (demo_proc (bytes "one")) (demo_proc (bytes "one")))
    as (m' & w' & E & V).
  - by apply demo_proc_ok.
  - done.
  - apply literals_dec. by vm_compute.
  - by vm_compute.
  - cbn. lia.
  - by vm_compute.
  - cbn. lia.
  - cbn. lia.
  - repeat apply Forall_cons_2; [by left|right|right|by constructor];
      (eexists; split; [by vm_compute|apply demo_lines; by vm_compute]).
  - exists m', w'. split; [exact E|]. destruct V as [-> _]. by vm_compute.
Defined.
