(* ===== verification/Machine.v ===== *)
(** * The kernel runs the programs

    The kernel as an instance of [OS]: [int 0x80] copies what the process has
    written to its page into the physical page, dispatches the call through
    [syscall], and copies the page back.  The instance obeys [OSLaws], so
    every theorem about a program that needs no keyboard and starts no other
    program holds on this kernel. *)

From S2P Require Import Prelude Mem Lib Screen Ports I8259 Rtc Paging.
From S2P Require Import Pcb Sched Filesys Console Keyboard Irq Terminal Kstate.
From S2P Require Import Syscalls Files Process Launch Exec Calls User Serve.
From S2P Require Import Ulib Apps Grep.

(** ** The page of a process, seen from both sides *)

Section Page.
Context (n : Z).

(** The page of process [n]: virtual address [va] is physical [phys va]. *)
Definition in_window (va : Z) : Prop := 134217728 <= va < 138412032.
Definition phys (va : Z) : Z := user_base n + (va - 134217728).

(** The addresses at which the process or the physical page has a byte. *)
Definition keys (m km : mem) : list Z :=
  filter in_window ((map_to_list m).*1 ++ ((fun pa => pa - user_base n + 134217728) <$> (map_to_list km).*1)).

Definition sync (dst src : mem) (to from : Z -> Z) (l : list Z) : mem :=
  foldl (fun d va => if load8 d (to va) =? load8 src (from va) then d
                     else store8 d (to va) (load8 src (from va))) dst l.

Definition enter (m km : mem) : mem := sync km m phys id (keys m km).
Definition leave (m km : mem) : mem := sync m km id phys (keys m km).

Definition agree (m km : mem) : Prop := forall va, in_window va -> load8 km (phys va) = load8 m va.

Lemma sync_spec dst src to from l :
  (forall x y, to x = to y -> x = y) -> (forall va, va ∈ l -> addr (to va)) ->
  (forall va, va ∈ l -> load8 (sync dst src to from l) (to va) = load8 src (from va)) /\
  (forall a, addr a -> (forall va, va ∈ l -> to va <> a) -> load8 (sync dst src to from l) a = load8 dst a).
Proof.
  intros Hinj. unfold sync. induction l as [|x l IH] using rev_ind; intros Ha; [by split; [set_solver|]|].
  destruct IH as [I1 I2]; [intros va Hva; apply Ha; set_solver|].
  rewrite foldl_app. cbn [foldl]. set (d := foldl _ _ _) in *.
  pose proof (Ha x ltac:(set_solver)) as Hx. split.
  - intros va Hva. destruct (Z.eqb_spec (load8 d (to x)) (load8 src (from x))) as [E|E].
    + destruct (decide (va = x)) as [->|]; [done|]. apply I1. set_solver.
    + rewrite load8_store8_addr by (done || by apply Ha).
      destruct (Z.eqb_spec (to x) (to va)) as [E2|E2].
      * apply Hinj in E2 as <-. apply u8_small, load8_range.
      * apply I1. assert (va <> x) by congruence. set_solver.
  - intros a Haa Hne. destruct (load8 d (to x) =? load8 src (from x)).
    + apply I2; [done|]. intros va Hva. apply Hne. set_solver.
    + rewrite load8_store8_ne by (done || apply Hne; set_solver). apply I2; [done|].
      intros va Hva. apply Hne. set_solver.
Qed.

Lemma sync_id dst src to from l :
  (forall va, va ∈ l -> load8 dst (to va) = load8 src (from va)) -> sync dst src to from l = dst.
Proof.
  unfold sync. induction l as [|x l IH]; intros H; cbn [foldl]; [done|].
  rewrite (H x) by set_solver. rewrite Z.eqb_refl. apply IH. intros va Hva. apply H. set_solver.
Qed.

Hypothesis Hn : 1 <= n <= 6.

Lemma phys_eq va : phys va = 4194304 + n * 4194304 + (va - 134217728).
Proof. unfold phys. by rewrite user_base_eq. Qed.

Lemma keys_window m km va : va ∈ keys m km -> in_window va.
Proof. unfold keys. intros H. by apply list_elem_of_filter in H as [? _]. Qed.

Lemma load8_absent (m : mem) a : addr a -> m !! a = None -> load8 m a = 0.
Proof. unfold addr, load8. intros Ha E. by rewrite u32_small, E by lia. Qed.

(** Where neither has a byte both read 0. *)
Lemma keys_absent m km va :
  in_window va -> va ∉ keys m km -> load8 m va = 0 /\ load8 km (phys va) = 0.
Proof.
  intros Hw Hk. unfold keys in Hk.
  assert (Ha : addr va /\ addr (phys va)) by (rewrite phys_eq; unfold addr, in_window in *; lia).
  rewrite list_elem_of_filter, elem_of_app, !list_elem_of_fmap in Hk.
  split; apply load8_absent; try apply Ha.
  - destruct (m !! va) as [v|] eqn:E; [|done]. exfalso. apply Hk. split; [done|]. left.
    exists (va, v). split; [done|]. by apply elem_of_map_to_list.
  - destruct (km !! phys va) as [v|] eqn:E; [|done]. exfalso. apply Hk. split; [done|]. right.
    exists (phys va). split; [unfold phys; lia|]. apply list_elem_of_fmap. exists (phys va, v).
    split; [done|]. by apply elem_of_map_to_list.
Qed.

Lemma enter_spec m km :
  agree m (enter m km) /\
  forall a, addr a -> ~ (user_base n <= a < user_base n + 4194304) -> load8 (enter m km) a = load8 km a.
Proof.
  destruct (sync_spec km m phys id (keys m km)) as [S1 S2].
  { intros x y. unfold phys. lia. }
  { intros va Hva%keys_window. rewrite phys_eq. unfold addr, in_window in *. lia. }
  split.
  - intros va Hw. destruct (decide (va ∈ keys m km)) as [Hk|Hk]; [by apply S1|].
    destruct (keys_absent m km va Hw Hk) as [E1 E2]. unfold enter. rewrite S2; [congruence| |].
    + rewrite phys_eq. unfold addr, in_window in *. lia.
    + intros va' Hva' E. apply Hk. assert (va' = va) as -> by (unfold phys in E; lia). done.
  - intros a Ha Ho. apply S2; [done|]. intros va Hva%keys_window E. apply Ho. rewrite <- E.
    unfold phys, in_window in *. lia.
Qed.

Lemma leave_same m km : agree m km -> leave m km = m.
Proof. intros H. apply sync_id. intros va Hva%keys_window. symmetry. by apply H. Qed.

Lemma leave_spec m km :
  (forall va, in_window va -> load8 (leave m km) va = load8 km (phys va)) /\
  (forall a, addr a -> ~ in_window a -> load8 (leave m km) a = load8 m a).
Proof.
  destruct (sync_spec m km id phys (keys m km)) as [S1 S2].
  { by intros x y. }
  { intros va Hva%keys_window. unfold id, addr, in_window in *. lia. }
  split.
  - intros va Hw. destruct (decide (va ∈ keys m km)) as [Hk|Hk]; [by apply S1|].
    destruct (keys_absent m km va Hw Hk) as [E1 E2]. unfold leave. rewrite S2; [congruence| |].
    + unfold addr, in_window in *. lia.
    + intros va' Hva' E. apply Hk. by rewrite <- E.
  - intros a Ha Ho. apply S2; [done|]. intros va Hva%keys_window E. apply Ho. by rewrite <- E.
Qed.
End Page.

(** ** The instance *)

Section Kernel.
Context `{Device}.
Context (pd_addr pt_addr kb_base cb de cmd prog exe lpcb shell_str empty_str k_esp k_ebp k_flags h_esp h_ebp : Z).
Context (pcb0 : pcb) (iflag : bool) (fuel : nat) (t0 : tty).

(** A call that gives control to another program does not return here. *)
Definition trap (eax ebx ecx edx : Z) (m : mem) (k : kernel) : res (mem * kernel * Z) :=
  let n := process_count (sch k) in
  '(k', o) ← syscall pd_addr pt_addr kb_base cb de cmd prog exe lpcb shell_str empty_str k_esp k_ebp
               k_flags h_esp h_ebp pcb0 iflag fuel eax ebx ecx edx (with_mem k (enter n m (kmem k)));
  match o with Ret v => Ok (leave n m (kmem k'), k', v) | _ => Hang end.
#[local] Instance kernel_os : OS kernel := trap.
#[local] Instance kernel_view : View kernel := fun k p => exists b, serving pd_addr pt_addr de t0 k p b.

Abbreviation serves := (serving pd_addr pt_addr de t0).
Abbreviation call := (sys_call_table pd_addr pt_addr kb_base cb de cmd prog exe lpcb shell_str
  empty_str k_esp k_ebp k_flags h_esp h_ebp pcb0 iflag fuel).

(** The kernel as the call finds it. *)
Definition entered (m : mem) (k : kernel) : kernel :=
  moved k (enter (process_count (sch k)) m (kmem k)) (sti (tr (con k))).

Lemma entered_spec m k p b :
  serves k p b -> serves (entered m k) p b /\ agree (process_count (sch k)) m (kmem (entered m k)).
Proof.
  intros V. destruct (cur_place _ _ _ _ _ _ _ V) as (Hn & _ & _).
  destruct (enter_spec _ Hn m (kmem k)) as [E1 E2]. split; [|exact E1].
  apply serving_moved; [done|]. intros a Ha _. unfold ADDR_8MB in Ha. apply E2; [unfold addr; lia|].
  rewrite user_base_eq by lia. lia.
Qed.

Lemma trap_ret eax ebx ecx edx m k k' v :
  1 <= eax <= 10 -> call eax ebx ecx edx (entered m k) = Ok (k', Ret v) ->
  trap eax ebx ecx edx m k = Ok (leave (process_count (sch k)) m (kmem k'), k', v).
Proof.
  intros He E. unfold trap, syscall. rewrite s32_small by lia.
  destruct (Z.ltb_spec eax 1), (Z.ltb_spec 10 eax); try lia. cbn [orb].
  change (with_con (with_mem k ?x) _) with (moved k x (sti (tr (con k)))). fold (entered m k).
  by rewrite E, bind_ok.
Qed.

(** A call that leaves the page of the process alone. *)
Lemma trap_same eax ebx ecx edx m k p b k' v p' b' :
  serves k p b -> 1 <= eax <= 10 -> call eax ebx ecx edx (entered m k) = Ok (k', Ret v) ->
  (forall a, ADDR_8MB <= a < 4294967296 -> load8 (kmem k') a = load8 (kmem (entered m k)) a) ->
  serves k' p' b' ->
  exists w', trap eax ebx ecx edx m k = Ok (m, w', v) /\ view w' p'.
Proof.
  intros V He E S V'. destruct (entered_spec m k p b V) as [_ A].
  destruct (cur_place _ _ _ _ _ _ _ V) as (Hn & _ & _).
  exists k'. rewrite (trap_ret _ _ _ _ _ _ _ _ He E), leave_same; [split; [done|by exists b']|].
  intros va Hw. rewrite <- A by done. unfold ADDR_8MB in S. apply S. rewrite phys_eq by done.
  unfold in_window in Hw. lia.
Qed.

(** A call that fails at once. *)
Lemma trap_fails eax ebx ecx edx m k p v :
  view k p -> 1 <= eax <= 10 ->
  (forall b, serves (entered m k) p b -> call eax ebx ecx edx (entered m k) = Ok (entered m k, Ret v)) ->
  exists w', trap eax ebx ecx edx m k = Ok (m, w', v) /\ view w' p.
Proof.
  intros [b V] He E. destruct (entered_spec m k p b V) as [V1 _].
  eapply (trap_same _ _ _ _ _ _ _ _ (entered m k)); [exact V|exact He|by apply (E b)|done|exact V1].
Qed.

(** A call that writes [lo, hi) of the page, and below the pages. *)
Lemma trap_writes eax ebx ecx edx m k p b k' v p' b' lo hi :
  let n := process_count (sch k) in
  serves k p b -> 1 <= eax <= 10 -> call eax ebx ecx edx (entered m k) = Ok (k', Ret v) ->
  134217728 <= lo -> hi <= 138412032 ->
  (forall a, ADDR_8MB <= a < 4294967296 -> ~ (phys n lo <= a < phys n hi) ->
     load8 (kmem k') a = load8 (kmem (entered m k)) a) ->
  serves k' p' b' ->
  exists m' w', trap eax ebx ecx edx m k = Ok (m', w', v) /\ view w' p' /\ same_outside lo hi m m' /\
    forall va, lo <= va < hi -> load8 m' va = load8 (kmem k') (phys n va).
Proof.
  intros n V He E Hlo Hhi S V'. destruct (entered_spec m k p b V) as [_ A]. fold n in A.
  destruct (cur_place _ _ _ _ _ _ _ V) as (Hn & _ & _). fold n in Hn.
  destruct (leave_spec n Hn m (kmem k')) as [L1 L2].
  exists (leave n m (kmem k')), k'. split; [by apply trap_ret|]. split; [by exists b'|]. split.
  - intros a Ha Ho. destruct (decide (134217728 <= a < 138412032)) as [Hw|Hw]; [|by apply L2].
    rewrite L1 by done. rewrite <- A by done. unfold ADDR_8MB in S. rewrite !phys_eq in * by done.
    apply S; lia.
  - intros va Hva. apply L1. unfold in_window. lia.
Qed.
(** ** The laws *)

Lemma s32_fd fd : 0 <= fd < 8 -> s32 fd = fd.
Proof. intros. apply s32_small. lia. Qed.

Lemma is_cstr_phys (m' km : mem) n lo hi l :
  is_cstr km (phys n lo) l -> lo + Z.of_nat (length l) < hi ->
  (forall va, lo <= va < hi -> load8 m' va = load8 km (phys n va)) -> is_cstr m' lo l.
Proof.
  intros C Hl E. eapply is_cstr_move; [|exact C]. intros i Hi. rewrite E by lia. unfold phys. f_equal. lia.
Qed.

Lemma kernel_getargs m k p buf n :
  view k p -> p_arg p <> [] -> Z.of_nat (length (p_arg p)) + 1 <= n <= 1024 -> in_user buf n ->
  exists m' k', sys SYS_GETARGS buf n 0 m k = Ok (m', k', 0) /\ is_cstr m' buf (p_arg p) /\
    same_outside buf (buf + n) m m' /\ view k' p.
Proof.
  intros [b V] Hne Hn ((H1 & H1x) & H2 & H3). unfold TOP_PAGE, BOTTOM_PAGE in *.
  destruct (entered_spec m k p b V) as [V1 _]. destruct (cur_place _ _ _ _ _ _ _ V) as (Hc & Hcur & _).
  pose proof (sv_run _ _ _ _ _ _ _ V1) as R.
  destruct (sv_arg _ _ _ _ _ _ _ V1) as (_ & _ & A). destruct (A Hne) as [C L].
  change (current_pblock (entered m k)) with (current_pblock k) in C.
  destruct (getargs_spec pd_addr pt_addr (entered m k) b (p_arg p) buf n) as (m1 & E & Cm & S); try done.
  - apply (ru_pcb _ _ _ _ _ _ R).
  - change (pcb_addr (process_count (sch (entered m k)))) with (current_pblock k).
    unfold argbuf_addr. rewrite u32_small; [exact C|lia].
  - apply (ru_window _ _ _ _ _ _ R).
  - change (user_phys (entered m k) buf) with (phys (process_count (sch k)) buf) in *.
    rewrite moved_mem in E.
    destruct (trap_writes SYS_GETARGS buf n 0 m k p b (moved (entered m k) m1 (tr (con (entered m k)))) 0 p b
      buf (buf + n)) as (m' & k' & E' & V' & S' & P); try done; try lia.
    + change (returns (getargs pd_addr pt_addr buf (s32 n) (entered m k)) = Ok (moved (entered m k) m1 (tr (con (entered m k))), Ret 0)).
      rewrite s32_small by lia. unfold returns. by rewrite E.
    + intros a Ha Ho. apply S; [unfold addr, ADDR_8MB in *; lia|]. rewrite !phys_eq in * by done. lia.
    + apply serving_moved; [done|]. intros a Ha _. unfold ADDR_8MB in *.
      apply S; [unfold addr; lia|]. rewrite phys_eq by done. lia.
    + exists m', k'. split; [exact E'|]. split; [|by split].
      eapply is_cstr_phys; [exact Cm| |exact P]. lia.
Qed.

Lemma kernel_getargs_none m k p buf n :
  view k p -> p_arg p = [] -> exists k', sys SYS_GETARGS buf n 0 m k = Ok (m, k', -1) /\ view k' p.
Proof.
  intros Vw He. apply trap_fails; [done|done|]. intros b V.
  destruct (sv_arg _ _ _ _ _ _ _ V) as (_ & A & _).
  change (returns (getargs pd_addr pt_addr buf (s32 n) (entered m k)) = Ok (entered m k, Ret (-1))).
  unfold getargs, NULL. destruct (buf =? 0); [done|].
  unfold pcb_at. rewrite (ru_pcb _ _ _ _ _ _ (sv_run _ _ _ _ _ _ _ V)). cbn [of_opt]. rewrite bind_ok.
  destruct (Z.leb_spec (argument_length b) 1); [done|]. specialize (A He). lia.
Qed.

(** A descriptor of [p] has its entry. *)
Lemma fd_entry_at k p b fd f :
  serves k p b -> aget (p_fds p) fd = Some f ->
  0 <= fd < 8 /\ exists e, aget (fde b) fd = Some e /\ fd_of k fd = Ok e /\ fd_match (kmem k) (current_pblock k) p fd f e.
Proof.
  intros V Hf. pose proof (aget_Some_lt _ _ _ Hf) as Hr. rewrite (fv_length _ _ _ _ (sv_fds _ _ _ _ _ _ _ V)) in Hr.
  pose proof (sv_run _ _ _ _ _ _ _ V) as R. split; [lia|].
  destruct (aget_is_Some (fde b) fd) as [e He]; [rewrite (ru_fde _ _ _ _ _ _ R); lia|].
  exists e. split; [done|]. rewrite (fd_of_pcb k b) by apply (ru_pcb _ _ _ _ _ _ R).
  split; [by apply get_at_ok|]. by apply (fv_match _ _ _ _ (sv_fds _ _ _ _ _ _ _ V)).
Qed.

(** The shared guards, from a descriptor's state. *)
Lemma fails_guards {A} k p b fd buf std (act fail : res A) :
  serves k p b -> ~ (0 <= fd < 8) \/ fd = std \/ aget (p_fds p) fd = Some FdFree ->
  (if (0 <=? fd) && (fd <? OPS_SIZE) then
     if negb (current_pblock k =? NULL) && negb (buf =? NULL) then
       use ← check_use k fd;
       if negb (Z.land use USE =? 0) then if negb (fd =? std) then act else fail else fail
     else fail
   else fail) = fail.
Proof.
  intros V Ho. pose proof (sv_run _ _ _ _ _ _ _ V) as R.
  apply (guards k b); [apply (ru_pcb _ _ _ _ _ _ R)|apply (ru_fde _ _ _ _ _ _ R)|].
  destruct Ho as [?|[?|Hf]]; [by left|by do 2 right; left|]. do 3 right.
  destruct (fd_entry_at k p b fd _ V Hf) as (_ & e & He & _ & M). by exists e.
Qed.

Lemma kernel_read_fails m k p fd buf n :
  view k p -> -2147483648 <= fd < 2147483648 -> ~ (0 <= fd < 8) \/ fd = 1 \/ aget (p_fds p) fd = Some FdFree ->
  exists k', sys SYS_READ fd buf n m k = Ok (m, k', -1) /\ view k' p.
Proof.
  intros Vw Hfd Ho. apply trap_fails; [done|done|]. intros b V.
  change (returns (read pd_addr pt_addr kb_base de iflag fuel (s32 fd) buf (s32 n) (entered m k)) = Ok (entered m k, Ret (-1))).
  rewrite s32_small by lia. unfold read. by rewrite (fails_guards (entered m k) p b).
Qed.

Lemma kernel_write_fails m k p fd buf n :
  view k p -> -2147483648 <= fd < 2147483648 -> ~ (0 <= fd < 8) \/ fd = 0 \/ aget (p_fds p) fd = Some FdFree ->
  exists k', sys SYS_WRITE fd buf n m k = Ok (m, k', -1) /\ view k' p.
Proof.
  intros Vw Hfd Ho. apply trap_fails; [done|done|]. intros b V.
  change (returns (write pd_addr pt_addr (s32 fd) buf (s32 n) (entered m k)) = Ok (entered m k, Ret (-1))).
  rewrite s32_small by lia. unfold write. by rewrite (fails_guards (entered m k) p b).
Qed.

Lemma kernel_vidmap_fails m k p a :
  view k p -> 0 <= a < TOP_PAGE \/ BOTTOM_PAGE <= a < 4294967296 ->
  exists k', sys SYS_VIDMAP a 0 0 m k = Ok (m, k', -1) /\ view k' p.
Proof.
  intros Vw Ha. unfold TOP_PAGE, BOTTOM_PAGE in Ha. apply trap_fails; [done|done|]. intros b V.
  change (returns (vidmap pd_addr pt_addr a (entered m k)) = Ok (entered m k, Ret (-1))).
  unfold vidmap, TOP_PAGE, BOTTOM_PAGE. rewrite u32_small by lia.
  destruct (Z.ltb_spec a 134217728); [done|]. destruct (Z.leb_spec 138412032 a); [done|lia].
Qed.

Lemma kernel_number m k p n x y z :
  view k p -> -2147483648 <= n < 2147483648 -> n < 1 \/ 8 < n ->
  exists k', sys n x y z m k = Ok (m, k', -1) /\ view k' p.
Proof.
  intros Vw Hr Hn. destruct (decide (n = 9 \/ n = 10)) as [[-> | ->]|Hne];
    [by apply trap_fails|by apply trap_fails|].
  destruct Vw as [b V]. destruct (cur_place _ _ _ _ _ _ _ V) as (Hc & _ & _).
  destruct (enter_spec _ Hc m (kmem k)) as [E1 E2].
  exists (with_mem k (enter (process_count (sch k)) m (kmem k))). split.
  - unfold sys, kernel_os, trap, syscall. rewrite s32_small by lia.
    destruct (Z.ltb_spec n 1), (Z.ltb_spec 10 n); try lia; cbn [orb]; rewrite bind_ok; by rewrite leave_same.
  - exists b. rewrite moved_mem. apply serving_moved; [done|]. intros a Ha _. unfold ADDR_8MB in Ha.
    apply E2; [unfold addr; lia|]. rewrite user_base_eq by lia. lia.
Qed.

Lemma kernel_close m k p fd c :
  view k p -> 2 <= fd < 8 -> aget (p_fds p) fd = Some c -> c <> FdFree ->
  exists k', sys SYS_CLOSE fd 0 0 m k = Ok (m, k', 0) /\
    view k' (with_fds p (<[Z.to_nat fd := FdFree]> (p_fds p))).
Proof.
  intros [b V] Hfd Hc Hne. destruct (entered_spec m k p b V) as [V1 _].
  destruct (fd_entry_at _ _ _ _ _ V1 Hc) as (_ & e & He & Hk & M).
  assert (exists type, 0 <= type <= 2 /\ fop_ptr e = Fops (table_of type)) as (type & Ht & Hf).
  { destruct c; [done|destruct M; lia|exists 2|exists 1|exists 0]; split; try lia; apply M. }
  assert (Hu : Z.land (in_use e) USE <> 0) by (intros E; by apply Hne, (fd_match_free _ _ _ _ _ _ M)).
  pose proof (close_call pd_addr pt_addr de _ (entered m k) b fd e type (sv_run _ _ _ _ _ _ _ V1) Hk Ht Hf Hu ltac:(lia)) as E.
  assert (S : serves (put_fd (entered m k) b fd free_fd) (with_fds p (<[Z.to_nat fd := FdFree]> (p_fds p)))
    (set_fde (<[Z.to_nat fd := free_fd]> (fde b)) b)).
  { apply (serving_put _ _ _ _ _ _ _ V1 fd FdFree free_fd (kmem (entered m k)) (tr (con (entered m k)))); done || lia. }
  eapply (trap_same _ _ _ _ _ _ _ _ (put_fd (entered m k) b fd free_fd)); [exact V|done| |done|exact S].
  change (returns (close (s32 fd) (entered m k)) = Ok (put_fd (entered m k) b fd free_fd, Ret 0)).
  rewrite s32_fd by lia. by rewrite E.
Qed.

Lemma kernel_close_fails m k p fd :
  view k p -> 0 <= fd < 8 -> fd < 2 \/ aget (p_fds p) fd = Some FdFree ->
  exists k', sys SYS_CLOSE fd 0 0 m k = Ok (m, k', -1) /\ view k' p.
Proof.
  intros Vw Hfd Ho. apply trap_fails; [done|done|]. intros b V.
  change (returns (close (s32 fd) (entered m k)) = Ok (entered m k, Ret (-1))). rewrite s32_fd by lia.
  destruct (aget_is_Some (p_fds p) fd) as [c Hc].
  { rewrite (fv_length _ _ _ _ (sv_fds _ _ _ _ _ _ _ V)). lia. }
  destruct (fd_entry_at _ _ _ _ _ V Hc) as (_ & e & He & Hk & M).
  unfold close, check_use, INDEX. rewrite Hk, !bind_ok.
  destruct (Z.eqb_spec (Z.land (in_use e) USE) 0) as [|Hu]; [done|].
  destruct (Z.leb_spec fd 1); [done|]. destruct Ho as [|Hf]; [lia|]. exfalso. apply Hu.
  rewrite Hf in Hc. injection Hc as <-. exact M.
Qed.

(** A string argument, in the entered kernel. *)
Lemma entered_cstr m k p b a l :
  serves k p b -> user_cstr m a l ->
  134217728 <= a /\ a + Z.of_nat (length l) + 1 <= 138412032 /\
  is_cstr (kmem (entered m k)) (user_phys (entered m k) a) l.
Proof.
  intros V [C ((H1 & H1x) & H2 & H3)]. unfold TOP_PAGE, BOTTOM_PAGE in *. destruct (entered_spec m k p b V) as [_ A].
  do 2 (split; [lia|]). eapply is_cstr_move; [|exact C]. intros i Hi.
  rewrite <- A by (unfold in_window; lia). f_equal. unfold user_phys, phys.
  change (sch (entered m k)) with (sch k). lia.
Qed.

Lemma free_eq k p b : serves k p b -> first_free (fde b) 0 = Z.of_nat (lowest_free (p_fds p)).
Proof.
  intros V. apply (fds_view_free (kmem k) (current_pblock k)); [apply V|apply (sv_run _ _ _ _ _ _ _ V)].
Qed.

Lemma kernel_open m k p a l kd :
  view k p -> user_cstr m a l -> lookup_name p l = Some kd -> (lowest_free (p_fds p) < 8)%nat ->
  exists k', sys SYS_OPEN a 0 0 m k = Ok (m, k', Z.of_nat (lowest_free (p_fds p))) /\
    view k' (with_fds p (<[lowest_free (p_fds p) := fd_for kd]> (p_fds p))).
Proof.
  intros [b V] Hu L Hlt. destruct (entered_spec m k p b V) as [V1 _]. pose proof (sv_run _ _ _ _ _ _ _ V1) as R.
  destruct (entered_cstr m k p b a l V Hu) as (H1 & H2 & C).
  pose proof (free_eq _ _ _ V1) as F. destruct (cur_place _ _ _ _ _ _ _ V1) as (Hc & Hcur & Hap).
  pose proof (sv_de _ _ _ _ _ _ _ V1) as D. pose proof (name_short _ _ _ _ _ _ _ V1 l kd L) as Hs.
  destruct (lookup_entry p l kd L) as (i & Ei & Hfirst).
  destruct (im_entry _ _ _ _ _ (sv_image _ _ _ _ _ _ _ V1) i l kd Ei) as (ent & Ee & [_ Pn Pl Pt _]).
  pose proof (aget_Some_lt _ _ _ Ei) as Hi.
  assert (H2x : 2 <= Z.of_nat (lowest_free (p_fds p))).
  { destruct (fv_std _ _ _ _ (sv_fds _ _ _ _ _ _ _ V1)) as [S0 S1].
    destruct (p_fds p) as [|[] [|[] r]]; try done. cbn [lowest_free]. lia. }
  destruct (open_found pd_addr pt_addr de (names_of (p_dir p)) (entered m k) b a l R ltac:(apply D)
    ltac:(done) i ent) as (m1 & t & E & Cs & S); rewrite ?F; try done; try lia.
  { rewrite (proj1 (im_count _ _ _ _ _ (sv_image _ _ _ _ _ _ _ V1))). lia. }
  { by apply (names_of_get _ _ _ kd). }
  { rewrite Pt. destruct kd; cbn; lia. }
  rewrite F, Pt in E. rewrite F in Cs, S. set (fd := Z.of_nat (lowest_free (p_fds p))) in *.
  set (e := FdEntry _ _ _ _) in E.
  assert (S1 : serves (moved (put_fd (entered m k) b fd e) m1 t)
     (with_fds p (<[Z.to_nat fd := fd_for kd]> (p_fds p))) (set_fde (<[Z.to_nat fd := e]> (fde b)) b)).
  { apply (serving_put _ _ _ _ _ _ _ V1); [lia|by destruct kd| |].
    - intros x Hx Hx1 Hx2. apply S; [unfold addr, ADDR_8MB in *; lia|done|exact Hx2].
    - destruct kd; cbn; try done. do 3 (split; [done|]). split; [lia|]. by exists l. }
  unfold fd in S1 at 2. rewrite Nat2Z.id in S1.
  eapply trap_same; [exact V|done| | |exact S1].
  - change (returns (open pd_addr pt_addr de a (entered m k)) = Ok (moved (put_fd (entered m k) b fd e) m1 t, Ret fd)).
    by rewrite E.
  - unfold ADDR_8MB, SIZEOF_PCB, FNAME_LENGTH in *. intros x Hx.
    apply S; [unfold addr; lia|lia|]. change (current_pblock (entered m k)) with (current_pblock k) in *. lia.
Qed.

Lemma kernel_open_fails m k p a l :
  view k p -> user_cstr m a l -> Z.of_nat (length l) < 256 ->
  lookup_name p l = None \/ lowest_free (p_fds p) = 8%nat ->
  exists k', sys SYS_OPEN a 0 0 m k = Ok (m, k', -1) /\ view k' p.
Proof.
  intros Vw Hu Hl Ho. apply trap_fails; [done|done|]. intros b V1. destruct Vw as [b0 V].
  pose proof (sv_run _ _ _ _ _ _ _ V1) as R. destruct (entered_cstr m k p b0 a l V Hu) as (H1 & H2 & C).
  destruct (cur_place _ _ _ _ _ _ _ V1) as (Hc & Hcur & Hap).
  change (returns (open pd_addr pt_addr de a (entered m k)) = Ok (entered m k, Ret (-1))).
  unfold open, NULL. destruct (Z.eqb_spec a 0), (Z.eqb_spec (current_pblock (entered m k)) 0); try lia; try done.
  cbn [orb]. rewrite (find_fd_spec _ b (ru_pcb _ _ _ _ _ _ R) (ru_fde _ _ _ _ _ _ R)), bind_ok.
  rewrite (free_eq _ _ _ V1). destruct (Z.eqb_spec (Z.of_nat (lowest_free (p_fds p))) OPS_SIZE) as [E|E]; [done|].
  destruct Ho as [Hno|Ho]; [|by rewrite Ho in E].
  rewrite (user_str_ok pd_addr pt_addr (pgs (entered m k)) (kmem (entered m k)) _ a l (ru_window _ _ _ _ _ _ R) H1 H2) by exact C.
  rewrite bind_ok. destruct (ru_de _ _ _ _ _ _ R) as [Hde Hden].
  rewrite (read_dentry_absent _ _ de (names_of (p_dir p)) (ru_dir _ _ _ _ _ _ R) _ l); [|exact C|done|].
  - rewrite bind_ok. cbv zeta. by rewrite with_mem_same.
  - rewrite (proj1 (im_count _ _ _ _ _ (sv_image _ _ _ _ _ _ _ V1))). by apply lookup_absent.
Qed.

(** The guards passed. *)
Lemma passes_guards {A} k p b fd buf std f (act fail : res A) :
  serves k p b -> aget (p_fds p) fd = Some f -> f <> FdFree -> buf <> 0 -> fd <> std ->
  (if (0 <=? fd) && (fd <? OPS_SIZE) then
     if negb (current_pblock k =? NULL) && negb (buf =? NULL) then
       use ← check_use k fd;
       if negb (Z.land use USE =? 0) then if negb (fd =? std) then act else fail else fail
     else fail
   else fail) = act.
Proof.
  intros V Hf Hne Hbuf Hstd. destruct (fd_entry_at _ _ _ _ _ V Hf) as (Hfd & e & He & Hk & M).
  destruct (cur_place _ _ _ _ _ _ _ V) as (Hc & Hcur & _). unfold OPS_SIZE, NULL, check_use.
  destruct (Z.leb_spec 0 fd), (Z.ltb_spec fd 8), (Z.eqb_spec (current_pblock k) 0), (Z.eqb_spec buf 0); try lia.
  cbn [andb negb]. rewrite Hk, !bind_ok.
  destruct (Z.eqb_spec (Z.land (in_use e) USE) 0) as [E|E]; [by apply (fd_match_free _ _ _ _ _ _ M) in E|].
  by destruct (Z.eqb_spec fd std).
Qed.

Lemma kernel_write m k p buf l :
  view k p -> bytes_at m buf l -> in_user buf (Z.of_nat (length l)) ->
  exists k' r, sys SYS_WRITE 1 buf (Z.of_nat (length l)) m k = Ok (m, k', r) /\ 0 <= r /\ view k' (print p l).
Proof.
  intros [b V] Hb (Hbuf & _ & Hend). unfold TOP_PAGE, BOTTOM_PAGE in *.
  destruct (entered_spec m k p b V) as [V1 A]. destruct (cur_place _ _ _ _ _ _ _ V1) as (Hc & _ & _).
  pose proof (sv_run _ _ _ _ _ _ _ V1) as R. set (ke := entered m k) in *.
  destruct (fv_std _ _ _ _ (sv_fds _ _ _ _ _ _ _ V1)) as [_ S1].
  destruct (fd_entry_at _ _ _ _ _ V1 S1) as (_ & e & _ & Hk & _ & _ & Hf).
  destruct (touch_user pd_addr pt_addr (pgs ke) _ buf (Z.of_nat (length l)) (ru_window _ _ _ _ _ _ R)
    ltac:(lia) ltac:(lia)) as [T X].
  assert (Hp : user_base (process_count (sch ke)) + (buf - 134217728) =
    4194304 + process_count (sch ke) * 4194304 + (buf - 134217728)) by (by rewrite user_base_eq).
  destruct (term_write_view _ _ _ (user_base (process_count (sch ke)) + (buf - 134217728)) l (sv_term _ _ _ _ _ _ _ V1))
    as (c' & Ew & T' & S'); [unfold ADDR_8MB; lia|unfold in_space; lia| |].
  { intros i Hi. rewrite (Hb i Hi). f_equal. symmetry.
    etransitivity; [|apply (A (buf + i)); unfold in_window; lia]. f_equal. unfold phys. change (sch ke) with (sch k). lia. }
  destruct (trap_same SYS_WRITE 1 buf (Z.of_nat (length l)) m k p b (with_con ke c') 0 (print p l) b)
    as (k' & E & V'); [exact V|done| | | |by exists k', 0].
  - change (returns (write pd_addr pt_addr 1 buf (s32 (Z.of_nat (length l))) ke) = Ok (with_con ke c', Ret 0)).
    rewrite s32_small by lia. unfold write. rewrite (passes_guards ke p b 1 buf 0 FdStd) by (done || lia).
    rewrite Hk, bind_ok, Hf. destruct (ru_fops _ _ _ _ _ _ R) as [f0 ->].
    cbn [fop_call systemcalls_initialize function_write of_opt]. rewrite bind_ok. unfold call_write.
    by rewrite T, bind_ok, X, Ew, bind_ok by lia.
  - intros a Ha. apply S'. unfold ADDR_8MB, ADDR_4MB in *. lia.
  - apply serving_con; [done| |].
    + intros a Ha. apply S'. unfold ADDR_8MB in Ha. lia.
    + cbn [print p_out]. by rewrite foldl_app.
Qed.

(** What [read] needs of an open file. *)
Lemma open_reg_of k p b fd e c pos :
  serves k p b -> aget (fde b) fd = Some e -> fd_match (kmem k) (current_pblock k) p fd (FdFile c pos) e ->
  exists ent, open_reg de (names_of (p_dir p)) k b fd e ent (Z.of_nat (length c)) /\
    stored de (fs_info k) (kmem k) (current_pblock k) (inode_of (fs_info k) (kmem k) ent) c.
Proof.
  intros V He (U & F & Pe & Hpos & name & C & L). destruct (lookup_entry p name _ L) as (i & Ei & Hfirst).
  destruct (im_entry _ _ _ _ _ (sv_image _ _ _ _ _ _ _ V) i name _ Ei) as (ent & Ee & P).
  pose proof (en_file _ _ _ _ _ _ _ P c eq_refl) as St. exists ent. split; [|exact St].
  destruct (cur_place _ _ _ _ _ _ _ V) as (Hc & Hcur & _).
  pose proof (aget_Some_lt _ _ _ Ei). destruct St as [S1 (S2a & S2b & S2c) S3 _].
  unfold ADDR_8MB in *. split.
  - by apply get_at_ok.
  - done.
  - exists name, i. split; [exact C|]. split; [apply (en_length _ _ _ _ _ _ _ P)|].
    rewrite (proj1 (im_count _ _ _ _ _ (sv_image _ _ _ _ _ _ _ V))).
    split; [lia|]. split; [by apply (names_of_get _ _ _ (KFile c))|]. by split.
  - unfold inode_of in *. split; [done|]. split; [done|]. split; [unfold ADDR_8MB; lia|].
    intros j Hj Hlt. destruct (S3 j Hj Hlt) as (T1 & T2 & T3). split; [done|]. unfold ADDR_8MB. lia.
  - lia.
Qed.

Lemma kernel_read_file m k p fd buf n c pos :
  view k p -> aget (p_fds p) fd = Some (FdFile c pos) -> 0 < n -> in_user buf n ->
  let r := Z.min n (Z.of_nat (length c) - pos) in
  exists m' k', sys SYS_READ fd buf n m k = Ok (m', k', r) /\
    bytes_at m' buf (take (Z.to_nat r) (drop (Z.to_nat pos) c)) /\
    same_outside buf (buf + r) m m' /\ 0 <= pos <= Z.of_nat (length c) /\
    view k' (with_fds p (<[Z.to_nat fd := FdFile c (pos + r)]> (p_fds p))).
Proof.
  intros [b V] Hf Hn (Hbuf & _ & Hend) r. unfold TOP_PAGE, BOTTOM_PAGE in *.
  destruct (entered_spec m k p b V) as [V1 _]. destruct (cur_place _ _ _ _ _ _ _ V1) as (Hc & Hcur & Hap).
  pose proof (sv_run _ _ _ _ _ _ _ V1) as R. set (ke := entered m k) in *.
  destruct (fd_entry_at _ _ _ _ _ V1 Hf) as (Hfd & e & He & _ & M).
  destruct (open_reg_of ke p b fd e c pos V1 He M) as (ent & O & St).
  destruct M as (U & Fo & Pe & Hpos & name & C & L).
  destruct (fv_std _ _ _ _ (sv_fds _ _ _ _ _ _ _ V1)) as [S0 S1].
  assert (fd <> 0 /\ fd <> 1) by (split; intros ->; congruence).
  pose proof (fo_len _ _ _ _ (st_file _ _ _ _ _ _ St)) as [_ Hlen]. unfold KB4, MAX_DBLOCKS_PER_FILE in Hlen.
  destruct (read_file_call pd_addr pt_addr kb_base de iflag fuel (names_of (p_dir p)) ke b fd buf n ent
    (Z.of_nat (length c)) e R O) as (m1 & E & D & S); try lia.
  rewrite Pe in E, D, S. fold r in E, D, S. set (e' := FdEntry _ _ _ _) in E.
  change (user_base (process_count (sch ke)) + (buf - 134217728)) with (phys (process_count (sch k)) buf) in D, S.
  destruct (trap_writes SYS_READ fd buf n m k p b (moved (put_fd ke b fd e') m1 (tr (con ke))) r
    (with_fds p (<[Z.to_nat fd := FdFile c (pos + r)]> (p_fds p))) (set_fde (<[Z.to_nat fd := e']> (fde b)) b)
    buf (buf + r)) as (m' & k' & E' & V' & S' & P); try done; try lia.
  - change (returns (read pd_addr pt_addr kb_base de iflag fuel (s32 fd) buf (s32 n) ke) = Ok (moved (put_fd ke b fd e') m1 (tr (con ke)), Ret r)).
    rewrite s32_fd, s32_small by lia. by rewrite E.
  - pose proof (sv_de _ _ _ _ _ _ _ V1) as Hde. unfold ADDR_8MB in *. intros a Ha Ho. apply S; [unfold addr; lia|lia|].
    unfold phys in *. lia.
  - apply (serving_put _ _ _ _ _ _ _ V1); [lia|done| |].
    + intros a Ha Ho _. unfold ADDR_8MB in Ha. apply S; [unfold addr; lia|done|].
      change (sch k) with (sch ke) in *. rewrite phys_eq by done. lia.
    + do 3 (split; [done|]). split; [lia|]. exists name. split; [|done].
      eapply is_cstr_ext; [|exact C]. pose proof (name_short _ _ _ _ _ _ _ V1 name _ L) as Hs.
      unfold ADDR_8MB, apart, SIZEOF_PCB, FNAME_LENGTH in *. intros i Hi. rewrite phys_eq in S by done.
      change (sch k) with (sch ke) in S. apply S; [unfold addr; lia|lia|lia].
  - exists m', k'. split; [exact E'|]. split_and!; try done; try lia. intros i Hi.
    rewrite length_take, length_drop in Hi.
    rewrite P by lia. unfold phys in *. replace (user_base (process_count (sch k)) + (buf + i - 134217728))
      with (user_base (process_count (sch k)) + (buf - 134217728) + i) by lia.
    change (kmem (moved ?x m1 ?y)) with m1. rewrite D by lia.
    change (inode_ptr (fs_info ke) _) with (inode_of (fs_info ke) (kmem ke) ent).
    rewrite <- (st_bytes _ _ _ _ _ _ St) by lia.
    rewrite !aget_lookup, lookup_take, lookup_drop by lia. rewrite decide_True by lia. f_equal. lia.
Qed.

Lemma kernel_read_dir m k p fd buf n :
  view k p -> aget (p_fds p) fd = Some FdDir -> 32 <= n -> in_user buf (n + 1) ->
  match aget (p_dir p).*1 (p_dirpos p) with
  | Some name =>
    exists m' k', sys SYS_READ fd buf n m k = Ok (m', k', Z.of_nat (length name)) /\
      is_cstr m' buf name /\ 0 < Z.of_nat (length name) <= 32 /\
      same_outside buf (buf + 33) m m' /\ view k' (with_dirpos p (p_dirpos p + 1))
  | None => exists k', sys SYS_READ fd buf n m k = Ok (m, k', 0) /\ view k' (with_dirpos p 0)
  end.
Proof.
  intros [b V] Hf Hn (Hbuf & _ & Hend). unfold TOP_PAGE, BOTTOM_PAGE in *.
  destruct (entered_spec m k p b V) as [V1 _]. destruct (cur_place _ _ _ _ _ _ _ V1) as (Hc & Hcur & Hap).
  pose proof (sv_run _ _ _ _ _ _ _ V1) as R. pose proof (sv_de _ _ _ _ _ _ _ V1) as Hde.
  destruct (sv_pos _ _ _ _ _ _ _ V1) as [Ed Hd]. pose proof (sv_image _ _ _ _ _ _ _ V1) as Im.
  destruct (im_count _ _ _ _ _ Im) as [Ec Hmax]. set (ke := entered m k) in *.
  destruct (fd_entry_at _ _ _ _ _ V1 Hf) as (Hfd & e & _ & Hk & M). destruct M as [U Fo].
  assert (Hph : phys (process_count (sch k)) buf = 4194304 + process_count (sch ke) * 4194304 + (buf - 134217728)).
  { by rewrite phys_eq by done. }
  destruct (touch_user pd_addr pt_addr (pgs ke) _ buf 33 (ru_window _ _ _ _ _ _ R) ltac:(lia) ltac:(lia)) as [_ X].
  assert (Ecall : call SYS_READ fd buf n ke =
    returns (call_read pd_addr pt_addr kb_base de iflag fuel Fn_read_directory fd buf (s32 n) ke)).
  { change (call SYS_READ fd buf n ke) with
      (returns (read pd_addr pt_addr kb_base de iflag fuel (s32 fd) buf (s32 n) ke)).
    f_equal. rewrite s32_fd by lia. unfold read.
    rewrite (passes_guards ke p b fd buf 1 FdDir) by (done || lia || (intros ->;
      destruct (fv_std _ _ _ _ (sv_fds _ _ _ _ _ _ _ V1)); congruence)).
    rewrite Hk, bind_ok, Fo. by destruct (ru_fops _ _ _ _ _ _ R) as [f0 ->]. }
  unfold call_read in Ecall. rewrite X in Ecall by lia.
  change (user_base _ + (buf - 134217728)) with (phys (process_count (sch k)) buf) in Ecall. rewrite Ed in Ecall.
  pose proof (read_directory_spec (fs_info ke) (kmem ke) de (phys (process_count (sch k)) buf) (p_dirpos p)
    (names_of (p_dir p)) (ru_dir _ _ _ _ _ _ R) (proj1 (ru_de _ _ _ _ _ _ R)) (proj2 (ru_de _ _ _ _ _ _ R)) Hd) as D.
  unfold in_space, apart, FNAME_LENGTH, ADDR_8MB in *.
  specialize (D (fun j Hj => proj2 (image_short de _ _ _ _ Im j Hj)) ltac:(lia) ltac:(lia)).
  rewrite Ec in D. rewrite aget_lookup, list_lookup_fmap, <- aget_lookup by lia. destruct (Z.ltb_spec (p_dirpos p) (Z.of_nat (length (p_dir p)))) as [Hlt|Hge].
  - destruct (aget_is_Some (p_dir p) (p_dirpos p) ltac:(lia)) as [[name kd] Ei]. rewrite Ei. cbn [fmap option_fmap option_map fst].
    rewrite (names_of_get _ _ _ _ Ei) in D. destruct D as (m1 & E & Cm & S).
    pose proof (image_short de _ _ _ _ Im (p_dirpos p) ltac:(rewrite Ec; lia)) as Hsh.
    rewrite (names_of_get _ _ _ _ Ei) in Hsh. unfold FNAME_LENGTH in Hsh.
    rewrite E, bind_ok in Ecall. destruct (Z.eqb_spec (p_dirpos p + 1) 0); [lia|].
    destruct (touch_user pd_addr pt_addr (pgs ke) _ buf (Z.of_nat (length name) + 1) (ru_window _ _ _ _ _ _ R)
      ltac:(lia) ltac:(lia)) as [T _].
    rewrite T, bind_ok in Ecall.
    destruct (trap_writes SYS_READ fd buf n m k p b (with_dir (with_mem ke m1) (p_dirpos p + 1))
      (Z.of_nat (length name)) (with_dirpos p (p_dirpos p + 1)) b buf (buf + 33))
      as (m' & k' & E' & V' & S' & P); try done; try lia.
    + unfold ADDR_8MB. intros a Ha Ho. apply S; [unfold addr; lia|lia|]. unfold phys in *. lia.
    + apply serving_dir; [|lia]. rewrite moved_mem. apply serving_moved; [done|].
      unfold low_same, ADDR_8MB. intros a Ha Ho. apply S; [unfold addr; lia|done|lia].
    + exists m', k'. split; [exact E'|]. split; [|split_and!; (done || lia)].
      eapply is_cstr_phys; [exact Cm| |exact P]. lia.
  - assert (Ei : aget (p_dir p) (p_dirpos p) = None).
    { rewrite aget_lookup by lia. apply lookup_ge_None. lia. }
    rewrite Ei. cbn. rewrite D, bind_ok in Ecall. cbn [Z.eqb touch] in Ecall.
    apply (trap_same SYS_READ fd buf n m k p b (with_dir (with_mem ke (kmem ke)) 0) 0 (with_dirpos p 0) b);
      try done. apply serving_dir; [|lia]. by rewrite with_mem_same.
Qed.

Lemma kernel_vidmap m k p a :
  view k p -> in_user a 4 ->
  exists m' k', sys SYS_VIDMAP a 0 0 m k = Ok (m', k', 0) /\ load32 m' a = VID_MEM /\ same_outside a (a + 4) m m' /\ view k' p.
Proof.
  intros [b V] ((H1 & H1x) & H2 & H3). unfold TOP_PAGE, BOTTOM_PAGE in *.
  destruct (entered_spec m k p b V) as [V1 _]. destruct (cur_place _ _ _ _ _ _ _ V) as (Hc & Hcur & _).
  pose proof (sv_run _ _ _ _ _ _ _ V1) as R. set (ke := entered m k) in *.
  assert (Hce : 1 <= process_count (sch ke) <= 6) by exact Hc.
  destruct (touch_user pd_addr pt_addr (pgs ke) _ a 4 (ru_window _ _ _ _ _ _ R) ltac:(lia) ltac:(lia)) as [T X].
  set (n := process_count (sch k)) in *. change (process_count (sch ke)) with n in X.
  assert (Xa : xlate pd_addr pt_addr (pgs ke) a = phys n a) by (rewrite X by lia; done).
  assert (E : call SYS_VIDMAP a 0 0 ke = Ok (moved ke (store32 (kmem ke) (phys n a) VID_MEM) (tr (con ke)), Ret 0)).
  { change (returns (vidmap pd_addr pt_addr a ke) = Ok (moved ke (store32 (kmem ke) (phys n a) VID_MEM) (tr (con ke)), Ret 0)).
    unfold vidmap, TOP_PAGE, BOTTOM_PAGE, NULL. rewrite u32_small by lia.
    destruct (Z.ltb_spec a 134217728), (Z.leb_spec 138412032 a), (Z.eqb_spec a 0); try lia.
    rewrite T, bind_ok, Xa, moved_mem. reflexivity. }
  assert (S : same_outside (phys n a) (phys n a + 4) (kmem ke) (store32 (kmem ke) (phys n a) VID_MEM)).
  { apply same_outside_store32; rewrite phys_eq by done; lia. }
  destruct (trap_writes SYS_VIDMAP a 0 0 m k p b _ 0 p b a (a + 4) V ltac:(done) E ltac:(lia) ltac:(lia)) as (m' & k' & E' & V' & S' & P).
  - intros c Hc' Ho. fold n in Ho. apply S; [unfold addr, ADDR_8MB in *; lia|]. rewrite !phys_eq in * by done. lia.
  - apply serving_moved; [done|]. intros c Hc' _. unfold ADDR_8MB in *.
    apply S; [unfold addr; lia|]. rewrite phys_eq by done. lia.
  - exists m', k'. split; [exact E'|]. split; [|done]. fold n in P.
    transitivity (load32 (store32 (kmem ke) (phys n a) VID_MEM) (phys n a)).
    + assert (P' : forall i, 0 <= i < 4 -> load8 m' (a + i) = load8 (store32 (kmem ke) (phys n a) VID_MEM) (phys n a + i)).
      { intros i Hi. rewrite P by lia. apply (f_equal (load8 (store32 (kmem ke) (phys n a) VID_MEM))). unfold phys. lia. }
      unfold load32. rewrite !P' by lia. pose proof (P' 0 ltac:(lia)) as P0. rewrite !Z.add_0_r in P0. by rewrite P0.
    + rewrite load32_store32 by (rewrite phys_eq by done; lia). done.
Qed.

(** The kernel keeps the promises. *)
Lemma kernel_laws : OSLaws kernel.
Proof.
  split.
  - intros k p [b V]. apply (fv_length _ _ _ _ (sv_fds _ _ _ _ _ _ _ V)).
  - intros k p [b V]. apply (sv_arg _ _ _ _ _ _ _ V).
  - exact kernel_write.
  - exact kernel_getargs.
  - exact kernel_getargs_none.
  - exact kernel_open.
  - exact kernel_open_fails.
  - exact kernel_close.
  - exact kernel_close_fails.
  - exact kernel_read_file.
  - exact kernel_read_dir.
  - exact kernel_read_fails.
  - exact kernel_write_fails.
  - exact kernel_vidmap_fails.
  - exact kernel_number.
Qed.

Lemma kernel_vidmap_laws : VidmapLaws kernel.
Proof. split. exact kernel_vidmap. Qed.

(** ** Programs on the kernel *)

Lemma serves_shows k p b : serves k p b -> term_view (foldl tty_putc t0 (p_out p)) (sch k) (con k).
Proof. apply sv_term. Qed.

(** C3 [cat] on the kernel.  A process that has a regular file of the image as
    its argument and a free descriptor runs [cat]: every [int 0x80] goes through
    the dispatcher, the descriptor tables, the file system and the terminal
    driver of the kernel.  The program ends with status 0, and the screen of its
    terminal (video memory, or the backing page of a terminal that is not
    displayed) is what it was before the program with the bytes of the file put
    on it; the image, the argument and the other descriptors are as they were,
    and the file is open at its end. *)
Theorem cat_on_kernel (lit : list Z -> Z) (buf : Z) (m : mem) (k : kernel) (p : proc) (b : pcb) (c : list Z) :
  serves k p b -> in_user buf 1024 -> literals lit cat_literals buf 1024 m ->
  p_arg p <> [] -> lookup_name p (p_arg p) = Some (KFile c) -> (lowest_free (p_fds p) < 8)%nat ->
  exists m' k' b', cat_main lit buf m k = Ok (m', k', 0) /\
    serves k' (print (with_fds p (<[lowest_free (p_fds p) := FdFile c (Z.of_nat (length c))]> (p_fds p))) c) b' /\
    term_view (foldl tty_putc (foldl tty_putc t0 (p_out p)) c) (sch k') (con k').
Proof.
  intros V U Hl Hne Hk Hf. pose proof kernel_laws.
  assert (Hc : Z.of_nat (length c) < 4294967296).
  { destruct (lookup_entry p _ _ Hk) as (i & Ei & _).
    destruct (im_entry _ _ _ _ _ (sv_image _ _ _ _ _ _ _ V) i _ _ Ei) as (ent & _ & P).
    pose proof (fo_len _ _ _ _ (st_file _ _ _ _ _ _ (en_file _ _ _ _ _ _ _ P c eq_refl))) as [_ Hlen].
    unfold KB4, MAX_DBLOCKS_PER_FILE in Hlen. lia. }
  destruct (cat_prints lit buf m k p c (ex_intro _ b V) U Hl Hne Hk Hf Hc) as (m' & k' & E & b' & V').
  exists m', k', b'. split; [exact E|]. split; [exact V'|].
  rewrite <- foldl_app. exact (serves_shows _ _ _ V').
Qed.

(** C28 [ls] on the kernel: it ends with status 0, the screen of its terminal
    gets the name of every directory entry of the image from the kernel's
    directory counter on, each on a line of its own, and the counter is back at
    the start of the directory. *)
Theorem ls_on_kernel (lit : list Z -> Z) (buf : Z) (m : mem) (k : kernel) (p : proc) (b : pcb) :
  serves k p b -> in_user buf SBUFSIZE -> literals lit ls_literals buf SBUFSIZE m ->
  lookup_name p (bytes ".") = Some KDir -> (lowest_free (p_fds p) < 8)%nat ->
  dir_read_count k <= num_dir_entries (fs_info k) ->
  let lines := concat (line <$> drop (Z.to_nat (dir_read_count k)) (p_dir p).*1) in
  exists m' k', ls_main lit buf m k = Ok (m', k', 0) /\
    term_view (foldl tty_putc (foldl tty_putc t0 (p_out p)) lines) (sch k') (con k') /\
    dir_read_count k' = 0.
Proof.
  intros V U Hl Hk Hf Hd lines. pose proof kernel_laws. destruct (sv_pos _ _ _ _ _ _ _ V) as [Ed Hp].
  destruct (im_count _ _ _ _ _ (sv_image _ _ _ _ _ _ _ V)) as [Ec Hmax]. unfold MAX_DENTRIES in Hmax.
  destruct (ls_prints lit buf m k p (ex_intro _ b V) U Hl) as (m' & k' & E & b' & V');
    rewrite ?length_fmap; try done; try lia.
  exists m', k'. split; [exact E|]. split; [|apply (sv_pos _ _ _ _ _ _ _ V')].
  unfold lines. rewrite Ed, <- foldl_app. exact (serves_shows _ _ _ V').
Qed.
End Kernel.

(** ** Witnesses: process 1 on the demonstration image, with "frame0.txt" as
    its argument *)

Definition km_mem : mem := store_list demo_image 8380868 (bytes "frame0.txt" ++ [0]).
Definition km_pcb : pcb :=
  Pcb 0 0 0 0 0 0 0 0 0 0 0 138412028 0 1 0 0 (replicate 2 demo_term_fd ++ replicate 6 demo_free_fd) 11.
Definition km_kernel : kernel := demo_kernel km_pcb km_mem.
Definition km_tty : tty := tty_of (scr (con km_kernel)).
Definition km_file : list Z := file_byte demo_fs km_mem (inode_ptr demo_fs 0) <$> seqZ 0 5000.
Definition km_proc : proc :=
  Proc (bytes "frame0.txt") ([FdStd; FdStd] ++ replicate 6 FdFree)
    [(bytes ".", KDir); (bytes "frame0.txt", KFile km_file)] 0 [] [] (fun _ => ([], 0)) [].

Lemma km_stored : stored 8376000 demo_fs km_mem 8380416 (inode_ptr demo_fs 0) km_file.
Proof.
  assert (Hl : Z.of_nat (length km_file) = 5000) by (unfold km_file; by rewrite length_fmap, length_seqZ).
  assert (Hk : forall j, 0 <= j -> j * KB4 < 5000 -> 0 <= j < 2) by (unfold KB4; lia).
  split; rewrite ?Hl.
  - split; [vm_compute; split; congruence|split; vm_compute; congruence|].
    intros j Hj Hlt. pose proof (Hk j Hj Hlt) as Hj2. clear Hj Hlt. range_cases j 2; vm_compute; split; congruence.
  - split_and!; [vm_compute; congruence..|right; vm_compute; congruence].
  - intros j Hj Hlt. pose proof (Hk j Hj Hlt) as Hj2. clear Hj Hlt.
    range_cases j 2; (split_and!; [vm_compute; congruence..|right; vm_compute; congruence]).
  - intros i Hi. unfold km_file. rewrite aget_lookup, list_lookup_fmap, lookup_seqZ_lt by lia. cbn. do 2 f_equal. lia.
Qed.

Lemma km_image : image 8376000 demo_fs km_mem 8380416 (p_dir km_proc).
Proof.
  split; [vm_compute; split; congruence|]. intros i name kd Hi. pose proof (aget_Some_lt _ _ _ Hi) as Hr.
  change (Z.of_nat (length (p_dir km_proc))) with 2 in Hr.
  range_cases i 2; cbn in Hi; injection Hi as <- <-; (eexists; split; [vm_compute; reflexivity|]);
    (split; [split_and!; [vm_compute; congruence..|right; vm_compute; congruence]|
      apply is_cstr_dec; vm_compute; reflexivity|unfold FNAME_LENGTH; cbn; lia|vm_compute; reflexivity|]).
  - done.
  - intros c [= <-]. exact km_stored.
Qed.

Lemma km_serving : serving 4202496 4206592 8376000 km_tty km_kernel km_proc km_pcb.
Proof.
  split.
  - split; try done.
    + exact demo_window.
    + by exists (fun _ => FopsFunctions None None None None).
    + apply (image_dir_ok 8376000 _ _ 8380416 _ km_image). done.
    + unfold in_space, apart, SIZEOF_PCB. left. vm_compute. congruence.
  - unfold ADDR_4MB, ADDR_8MB. lia.
  - exact km_image.
  - done.
  - split; [done|done|]. intros fd f e Hf He. pose proof (aget_Some_lt _ _ _ Hf) as Hr.
    change (Z.of_nat (length (p_fds km_proc))) with 8 in Hr.
    range_cases fd 8; cbn in Hf, He; injection Hf as <-; injection He as <-;
      (split_and!; done) || done.
  - split; [by vm_compute|]. split; [done|]. intros _. split; [|done]. apply is_cstr_dec. vm_compute. reflexivity.
  - split; [|exists 0; split; [done|split; [unfold term_ok; lia|apply tty_of_shows; by split]]].
    split; try done.
    + intros t x y Hx Hy. cbn in *. pose proof (aget_Some_lt _ _ _ Hx) as Ht. cbn in Ht.
      range_cases t 3; cbn in Hx, Hy; injection Hx as <-; injection Hy as <-; unfold in_grid; lia.
    + cbn. rewrite !Forall_cons, Forall_nil. lia.
Qed.

Abbreviation on_kernel :=
  (@kernel_os quiet 4202496 4206592 0 1000 8376000 1200 1400 1600 1800 0 0 0 0 0 0 0 km_pcb true 0).

Lemma cat_on_kernel_witness :
  exists m' k' b', @cat_main kernel on_kernel cat_lit demo_buf cat_m km_kernel = Ok (m', k', 0) /\
    (file_pos <$> aget (fde b') 2) = Some 5000.
Proof.
  destruct (@cat_on_kernel quiet 4202496 4206592 0 1000 8376000 1200 1400 1600 1800 0 0 0 0 0 0 0 km_pcb true 0
    km_tty cat_lit demo_buf cat_m km_kernel km_proc km_pcb km_file) as (m' & k' & b' & E & V & _).
  - exact km_serving.
  - by split.
  - exact cat_demo.
  - done.
  - reflexivity.
  - cbn. lia.
  - exists m', k', b'. split; [exact E|]. destruct (fd_entry_at _ _ _ _ _ _ _ 2 _ V eq_refl)
      as (_ & e & He & _ & _ & _ & Hp & _). rewrite He. exact (f_equal Some Hp).
Defined.

Lemma ls_on_kernel_witness :
  exists m' k', @ls_main kernel on_kernel ls_lit demo_buf ls_m km_kernel = Ok (m', k', 0) /\
    dir_read_count k' = 0.
Proof.
  destruct (@ls_on_kernel quiet 4202496 4206592 0 1000 8376000 1200 1400 1600 1800 0 0 0 0 0 0 0 km_pcb true 0
    km_tty ls_lit demo_buf ls_m km_kernel km_proc km_pcb) as (m' & k' & E & _ & D).
  - exact km_serving.
  - by split.
  - apply literals_dec. by vm_compute.
  - reflexivity.
  - cbn. lia.
  - by vm_compute.
  - exists m', k'. by split.
Defined.
