(* ===== verification/Handler.v ===== *)
(** * handler.S: the stubs of the interrupt vectors

    The assembly between the processor and the C handlers, on a machine with
    the general registers, the flags, a stack and the frames that the
    processor pushes and [iret] pops.  The C functions that the stubs call are
    arguments; what the stubs rely on is the calling convention, [keeps]. *)

From S2P Require Import Prelude Mem Pcb Sched Idt.

Record cpu : Type := Cpu {
  eax : Z; ecx : Z; edx : Z; ebx : Z; esp : Z; ebp : Z; esi : Z; edi : Z;
  eip : Z; cs : Z; eflags : Z; ss : Z; cm : mem }.

Definition set_esp (v : Z) (c : cpu) : cpu :=
  Cpu (eax c) (ecx c) (edx c) (ebx c) v (ebp c) (esi c) (edi c) (eip c) (cs c) (eflags c) (ss c) (cm c).
Definition set_eax (v : Z) (c : cpu) : cpu :=
  Cpu v (ecx c) (edx c) (ebx c) (esp c) (ebp c) (esi c) (edi c) (eip c) (cs c) (eflags c) (ss c) (cm c).
Definition set_eflags (v : Z) (c : cpu) : cpu :=
  Cpu (eax c) (ecx c) (edx c) (ebx c) (esp c) (ebp c) (esi c) (edi c) (eip c) (cs c) v (ss c) (cm c).
Definition set_segs (s t : Z) (c : cpu) : cpu :=
  Cpu (eax c) (ecx c) (edx c) (ebx c) (esp c) (ebp c) (esi c) (edi c) (eip c) s (eflags c) t (cm c).
Definition set_cm (m : mem) (c : cpu) : cpu :=
  Cpu (eax c) (ecx c) (edx c) (ebx c) (esp c) (ebp c) (esi c) (edi c) (eip c) (cs c) (eflags c) (ss c) m.

(** ** The instructions the stubs use *)

Definition IF_FLAG : Z := 512.
Definition DF_FLAG : Z := 1024.
Definition cli (c : cpu) : cpu := set_eflags (Z.ldiff (eflags c) IF_FLAG) c.
Definition sti (c : cpu) : cpu := set_eflags (Z.lor (eflags c) IF_FLAG) c.
Definition cld (c : cpu) : cpu := set_eflags (Z.ldiff (eflags c) DF_FLAG) c.
Definition addl_esp (n : Z) (c : cpu) : cpu := set_esp (u32 (esp c + n)) c.
Definition pushl (v : Z) (c : cpu) : cpu :=
  let a := u32 (esp c - 4) in set_cm (store32 (cm c) a v) (set_esp a c).
Definition top_of (c : cpu) (i : Z) : Z := load32 (cm c) (u32 (esp c + 4 * i)).

(** [pusha] pushes the stack pointer it started with; [popa] skips it. *)
Definition pusha (c : cpu) : cpu :=
  pushl (edi c) (pushl (esi c) (pushl (ebp c) (pushl (esp c)
    (pushl (ebx c) (pushl (edx c) (pushl (ecx c) (pushl (eax c) c))))))).
Definition popa (c : cpu) : cpu :=
  Cpu (top_of c 7) (top_of c 6) (top_of c 5) (top_of c 4) (u32 (esp c + 32)) (top_of c 2) (top_of c 1)
    (top_of c 0) (eip c) (cs c) (eflags c) (ss c) (cm c).
Definition popl_eax (c : cpu) : cpu := set_esp (u32 (esp c + 4)) (set_eax (top_of c 0) c).

(** [iret] to an outer privilege level pops the stack as well. *)
Definition iret (c : cpu) : cpu :=
  let outer := Z.land (cs c) 3 <? Z.land (top_of c 1) 3 in
  Cpu (eax c) (ecx c) (edx c) (ebx c) (if outer then top_of c 3 else u32 (esp c + 12)) (ebp c) (esi c) (edi c)
    (top_of c 0) (top_of c 1) (top_of c 2) (if outer then top_of c 4 else ss c) (cm c).

(** An interrupt: from an outer level on the stack that the TSS gives; some
    exceptions push an error code. *)
Definition outer (c : cpu) : bool := 0 <? Z.land (cs c) 3.
Definition deliver (esp0 ss0 : Z) (err : option Z) (c : cpu) : cpu :=
  let c1 := if outer c then pushl (esp c) (pushl (ss c) (set_esp esp0 (set_segs (cs c) ss0 c))) else c in
  let c2 := pushl (eip c) (pushl (cs c) (pushl (eflags c) c1)) in
  let c3 := match err with Some e => pushl e c2 | None => c2 end in
  set_segs KERNEL_CS (ss c3) c3.

(** ** handler.S *)

Section Stubs.
(** The address behind the [call]s. *)
Context (ra : Z).
Definition call (f : cpu -> cpu) (c : cpu) : cpu := addl_esp 4 (f (pushl ra c)).

Definition common_handler (idt_handler : cpu -> cpu) (c : cpu) : cpu :=
  iret (sti (addl_esp 8 (popa (call idt_handler (pusha (cld c)))))).
Definition irq_handler (pic_handler : cpu -> cpu) (c : cpu) : cpu :=
  iret (sti (addl_esp 8 (popa (call pic_handler (pusha (cld c)))))).

(** The vectors whose stub pushes no 0 for the error code. *)
Definition no_dummy (n : Z) : bool := bool_decide (n ∈ [8; 10; 11; 12; 13; 14]).
Definition handler (idt_handler : cpu -> cpu) (n : Z) (c : cpu) : cpu :=
  let c := cli c in
  let c := if no_dummy n then c else pushl 0 c in
  common_handler idt_handler (pushl n c).
Definition handler_irq (pic_handler : cpu -> cpu) (n : Z) (c : cpu) : cpu :=
  irq_handler pic_handler (pushl n (pushl 0 (cli c))).

(** The result pushed and popped again: it stays below the stack pointer. *)
Definition keep_result (c : cpu) : cpu := addl_esp 4 (pushl (eax c) (addl_esp 12 c)).

(** [calls]: the functions of [sys_call_table].  [gap]: what interrupts do
    between [popa] and the two instructions that fetch the result back from
    below the stack pointer. *)
Definition handler_syscall (calls : Z -> cpu -> cpu) (gap : cpu -> cpu) (c : cpu) : cpu :=
  let c := pushl (ebx c) (pushl (ecx c) (pushl (edx c) (pusha c))) in
  if (s32 (eax c) <? 1) || (10 <? s32 (eax c)) then
    iret (set_eax 4294967295 (popa (addl_esp 12 c)))
  else
    let c := popa (keep_result (call (calls (eax c)) (sti c))) in
    iret (addl_esp 32 (popl_eax (addl_esp (-36) (gap c)))).
End Stubs.

(** ** The stack *)

Fixpoint words_at (m : mem) (a : Z) (l : list Z) : Prop :=
  match l with [] => True | x :: l => load32 m a = x /\ words_at m (a + 4) l end.

Lemma words_same m m' a l :
  (forall b, a <= b < a + 4 * Z.of_nat (length l) -> load8 m' b = load8 m b) -> words_at m a l -> words_at m' a l.
Proof.
  revert a. induction l as [|x l IH]; intros a S; [done|]. cbn [words_at length] in *. intros [<- H]. split.
  - apply load32_ext. intros i Hi. apply S. lia.
  - apply IH; [|done]. intros b Hb. apply S. lia.
Qed.

Lemma words_get m a l i x : words_at m a l -> l !! i = Some x -> load32 m (a + 4 * Z.of_nat i) = x.
Proof.
  revert a i. induction l as [|y l IH]; intros a [|i]; try done; cbn [words_at lookup list_lookup].
  - intros [<- _] [= <-]. f_equal. lia.
  - intros [_ H] E. rewrite <- (IH _ _ H E). f_equal. lia.
Qed.

Lemma words_drop m a l1 l2 : words_at m a (l1 ++ l2) -> words_at m (a + 4 * Z.of_nat (length l1)) l2.
Proof.
  revert a. induction l1 as [|x l1 IH]; intros a; cbn [words_at app length].
  - by rewrite Z.add_0_r.
  - intros [_ H]. apply IH in H. by replace (a + 4 * Z.of_nat (S (length l1))) with (a + 4 + 4 * Z.of_nat (length l1)) by lia.
Qed.

Section Stack.
Context (top : Z).
Hypothesis Htop : top < 4294967296.

(** The words [l] on the stack, below [top]. *)
Definition stack (c : cpu) (l : list Z) : Prop :=
  words_at (cm c) (esp c) l /\ 0 <= esp c /\ esp c + 4 * Z.of_nat (length l) <= top.

Definition word (v : Z) : Prop := 0 <= v < 4294967296.
Record cpu_ok (c : cpu) : Prop := CpuOk {
  ck_regs : Forall word [eax c; ecx c; edx c; ebx c; esp c; ebp c; esi c; edi c];
  ck_state : Forall word [eip c; cs c; eflags c; ss c] }.

(** The calling convention: the stack from the return address up to [top] is
    the caller's. *)
Record keeps (f : cpu -> cpu) : Prop := Keeps {
  kp_esp c : esp (f c) = esp c;
  kp_cs c : cs (f c) = cs c;
  kp_ss c : ss (f c) = ss c;
  kp_stack c a : esp c <= a < top -> load8 (cm (f c)) a = load8 (cm c) a }.

Lemma push_stack c v l :
  stack c l -> 4 <= esp c -> word v -> stack (pushl v c) (v :: l) /\ esp (pushl v c) = esp c - 4.
Proof.
  intros (H & H1 & H2) H4 Hv. unfold word in Hv. unfold stack, pushl.
  cbn [set_cm set_esp cm esp words_at length]. rewrite u32_small by lia. split; [|done].
  split; [|lia]. split.
  - rewrite load32_store32 by lia. by apply u32_small.
  - replace (esp c - 4 + 4) with (esp c) by lia. eapply words_same; [|exact H].
    intros b Hb. apply (same_outside_store32 (cm c) (esp c - 4) v); unfold addr; lia.
Qed.

Lemma stack_sti c l : stack c l -> stack (sti c) l.
Proof. done. Qed.
Lemma sti_same c : esp (sti c) = esp c /\ cs (sti c) = cs c /\ ss (sti c) = ss c.
Proof. done. Qed.
Lemma addl_same n c :
  cs (addl_esp n c) = cs c /\ ss (addl_esp n c) = ss c /\ eip (addl_esp n c) = eip c /\
  eflags (addl_esp n c) = eflags c /\ cm (addl_esp n c) = cm c.
Proof. done. Qed.
Lemma stack_segs c s t l : stack c l -> stack (set_segs s t c) l.
Proof. done. Qed.

(** A push changes the stack only. *)
Lemma pushl_eax v c : eax (pushl v c) = eax c.
Proof. done. Qed.
Lemma pushl_cs v c : cs (pushl v c) = cs c.
Proof. done. Qed.
Lemma pushl_ss v c : ss (pushl v c) = ss c.
Proof. done. Qed.
Lemma pushl_eip v c : eip (pushl v c) = eip c.
Proof. done. Qed.
Lemma pushl_eflags v c : eflags (pushl v c) = eflags c.
Proof. done. Qed.

Lemma top_of_get c l i x : stack c l -> l !! i = Some x -> top_of c (Z.of_nat i) = x.
Proof.
  intros (H & H1 & H2) E. pose proof (lookup_lt_Some _ _ _ E). unfold top_of.
  rewrite u32_small by lia. by apply (words_get _ _ _ _ _ H).
Qed.

Lemma drop_stack c c' l1 l2 :
  stack c (l1 ++ l2) -> cm c' = cm c -> esp c' = u32 (esp c + 4 * Z.of_nat (length l1)) ->
  stack c' l2 /\ esp c' = esp c + 4 * Z.of_nat (length l1).
Proof.
  intros (H & H1 & H2) Em Ee. rewrite length_app in H2. rewrite u32_small in Ee by lia.
  split; [|done]. split; [|lia]. rewrite Em, Ee. by apply words_drop.
Qed.

Definition saved (c : cpu) : list Z :=
  [edi c; esi c; ebp c; esp c; ebx c; edx c; ecx c; eax c].

Lemma pusha_stack c l :
  stack c l -> 32 <= esp c -> Forall word (saved c) ->
  stack (pusha c) (saved c ++ l) /\ esp (pusha c) = esp c - 32.
Proof.
  intros S Hr H. unfold saved in H. rewrite !Forall_cons in H. destruct H as (H1 & H2 & H3 & H4 & H5 & H6 & H7 & H8 & _).
  unfold pusha, saved. cbn [app].
  repeat match goal with
  | S : stack ?c ?l |- context [pushl ?v ?c] =>
      destruct (push_stack c v l S ltac:(lia) ltac:(done)) as [? ?];
      let d := fresh "d" in set (d := pushl v c) in *; clearbody d; clear S
  end. split; [done|lia].
Qed.

Lemma call_stack ra f c l :
  keeps f -> stack c l -> 4 <= esp c -> word ra ->
  stack (call ra f c) l /\ esp (call ra f c) = esp c /\ cs (call ra f c) = cs c /\ ss (call ra f c) = ss c.
Proof.
  intros K S Hr Hra. destruct (push_stack c ra l S Hr Hra) as [S1 E1].
  assert (S2 : stack (f (pushl ra c)) ([ra] ++ l)).
  { destruct S1 as (W & B1 & B2). split; [|by rewrite (kp_esp f K)].
    rewrite (kp_esp f K). eapply words_same; [|exact W]. intros b Hb. apply (kp_stack f K). cbn [length app] in *. lia. }
  destruct (drop_stack _ (call ra f c) [ra] l S2) as [S3 E3]; [done|done|].
  split; [done|]. rewrite E3, (kp_esp f K), E1. cbn [length].
  unfold call, addl_esp. cbn [set_esp cs ss]. rewrite (kp_cs f K), (kp_ss f K). split; [lia|done].
Qed.

Lemma popa_stack c a1 a2 a3 a4 a5 a6 a7 a8 l :
  stack c ([a1; a2; a3; a4; a5; a6; a7; a8] ++ l) ->
  popa c = Cpu a8 a7 a6 a5 (esp c + 32) a3 a2 a1 (eip c) (cs c) (eflags c) (ss c) (cm c) /\ stack (popa c) l.
Proof.
  intros S. destruct (drop_stack c (popa c) _ l S) as [S' E]; [done|done|]. split; [|done].
  pose proof (fun i x => top_of_get c _ i x S) as G. unfold popa in *. cbn [esp length] in E. rewrite E.
  rewrite (G 7%nat a8 eq_refl : top_of c 7 = a8), (G 6%nat a7 eq_refl : top_of c 6 = a7),
    (G 5%nat a6 eq_refl : top_of c 5 = a6), (G 4%nat a5 eq_refl : top_of c 4 = a5),
    (G 2%nat a3 eq_refl : top_of c 2 = a3), (G 1%nat a2 eq_refl : top_of c 1 = a2),
    (G 0%nat a1 eq_refl : top_of c 0 = a1). f_equal.
Qed.

(** What the processor pushes for an interrupt of [c], and what [iret] does
    with it. *)
Definition frame (c : cpu) : list Z :=
  [eip c; cs c; eflags c] ++ if outer c then [esp c; ss c] else [].
Definition err_word (err : option Z) : list Z := match err with Some e => [e] | None => [] end.
Definition handler_esp (esp0 : Z) (c : cpu) : Z := if outer c then esp0 else esp c.

Lemma deliver_stack esp0 ss0 err c l :
  cpu_ok c -> Forall word (err_word err) -> 24 <= handler_esp esp0 c ->
  stack (set_esp (handler_esp esp0 c) c) l ->
  stack (deliver esp0 ss0 err c) (err_word err ++ frame c ++ l) /\
  esp (deliver esp0 ss0 err c) =
    handler_esp esp0 c - 4 * Z.of_nat (length (err_word err)) - 4 * Z.of_nat (length (frame c)).
Proof.
  unfold handler_esp, deliver, frame. intros [R K] He Hr S. rewrite !Forall_cons in R. rewrite !Forall_cons in K.
  destruct R as (_ & _ & _ & _ & Re & _), K as (K1 & K2 & K3 & K4 & _).
  set (c1 := if outer c then _ else _).
  assert (H1 : stack c1 ((if outer c then [esp c; ss c] else []) ++ l) /\
    esp c1 = (if outer c then esp0 else esp c) - 4 * Z.of_nat (length (if outer c then [esp c; ss c] else []))).
  { subst c1. destruct (outer c); cbn [app length]; [|split; [exact S|lia]].
    change (set_esp esp0 c) with (set_esp esp0 (set_segs (cs c) (ss c) c)) in S.
    assert (S' : stack (set_esp esp0 (set_segs (cs c) ss0 c)) l) by exact S.
    destruct (push_stack _ (ss c) l S') as [S1 E1]; [cbn; lia|done|].
    change (esp (set_esp esp0 _)) with esp0 in E1.
    destruct (push_stack _ (esp c) _ S1) as [S2 E2]; [lia|done|]. split; [exact S2|lia]. }
  clearbody c1. destruct H1 as [S1 E1]. set (fr := if outer c then [esp c; ss c] else []) in *.
  assert (L : 0 <= 4 * Z.of_nat (length fr) <= 8) by (subst fr; destruct (outer c); cbn; lia).
  destruct (push_stack _ (eflags c) _ S1) as [S2 E2]; [lia|done|].
  destruct (push_stack _ (cs c) _ S2) as [S3 E3]; [lia|done|].
  destruct (push_stack _ (eip c) _ S3) as [S4 E4]; [lia|done|].
  cbn [app length]. destruct err as [e|]; cbn [err_word app length] in *.
  - destruct (push_stack _ e _ S4) as [S5 E5]; [lia|by inversion He|].
    set (d := pushl e _) in *. clearbody d. split; [by apply stack_segs|cbn; lia].
  - set (d := pushl (eip c) _) in *. clearbody d. split; [by apply stack_segs|cbn; lia].
Qed.

Lemma deliver_regs esp0 ss0 err c :
  let d := deliver esp0 ss0 err c in
  eax d = eax c /\ ecx d = ecx c /\ edx d = edx c /\ ebx d = ebx c /\ ebp d = ebp c /\ esi d = esi c /\
  edi d = edi c /\ cs d = KERNEL_CS /\ ss d = if outer c then ss0 else ss c.
Proof. unfold deliver. destruct (outer c), err; by split_and!. Qed.

Lemma iret_stack d c l :
  stack d (frame c ++ l) -> Z.land (cs d) 3 = 0 ->
  iret d = Cpu (eax d) (ecx d) (edx d) (ebx d) (if outer c then esp c else esp d + 12) (ebp d) (esi d) (edi d)
    (eip c) (cs c) (eflags c) (if outer c then ss c else ss d) (cm d).
Proof.
  intros S Hcs. pose proof (fun i x => top_of_get d _ i x S) as G. unfold iret, frame in *.
  rewrite (G 0%nat (eip c) eq_refl : top_of d 0 = eip c), (G 1%nat (cs c) eq_refl : top_of d 1 = cs c),
    (G 2%nat (eflags c) eq_refl : top_of d 2 = eflags c), Hcs. fold (outer c).
  destruct S as (_ & S1 & S2). rewrite length_app in S2. cbn [length app] in S2.
  destruct (outer c).
  - by rewrite (G 3%nat (esp c) eq_refl : top_of d 3 = esp c), (G 4%nat (ss c) eq_refl : top_of d 4 = ss c).
  - by rewrite u32_small by lia.
Qed.

(** ** The stubs *)

(** Everything but memory as it was. *)
Definition same_regs (c c' : cpu) : Prop := set_cm ∅ c' = set_cm ∅ c.

(** The structure that the C handlers get by value. *)
Definition registers_at (m : mem) (a : Z) : registers :=
  let f i := load32 m (a + 4 * i) in
  Registers (f 0) (f 1) (f 2) (f 3) (f 4) (f 5) (f 6) (f 7) (f 8) (f 9) (f 10) (f 11) (f 12) (f 13) (f 14).

(** What a C handler called in the state [s] is told about [c]. *)
Definition told (c s : cpu) (n e : Z) : Prop :=
  let r := registers_at (cm s) (esp s + 4) in
  (r_edi r, r_esi r, r_ebp r, r_ebx r) = (edi c, esi c, ebp c, ebx c) /\
  (r_edx r, r_ecx r, r_eax r) = (edx c, ecx c, eax c) /\ r_int_num r = n /\ r_error_code r = e /\
  (r_eip r, r_cs r, r_eflags r) = (eip c, cs c, eflags c) /\
  (outer c = true -> (r_useresp r, r_ss r) = (esp c, ss c)).

(** The general registers but the stack pointer. *)
Definition gprs (c : cpu) : list Z := [eax c; ecx c; edx c; ebx c; ebp c; esi c; edi c].

Lemma told_stack s c n e k l x :
  stack s (x :: [edi c; esi c; ebp c; k; ebx c; edx c; ecx c; eax c; n; e] ++ frame c ++ l) -> told c s n e.
Proof.
  intros ([_ H] & _). pose proof (fun i y => words_get _ _ _ i y H) as G. clear H.
  unfold frame in G. unfold told, registers_at.
  cbn [r_edi r_esi r_ebp r_ebx r_edx r_ecx r_eax r_int_num r_error_code r_eip r_cs r_eflags r_useresp r_ss].
  split_and!.
  - f_equal; [f_equal; [f_equal|]|]; [exact (G 0%nat _ eq_refl)|exact (G 1%nat _ eq_refl)|exact (G 2%nat _ eq_refl)|exact (G 4%nat _ eq_refl)].
  - f_equal; [f_equal|]; [exact (G 5%nat _ eq_refl)|exact (G 6%nat _ eq_refl)|exact (G 7%nat _ eq_refl)].
  - exact (G 8%nat _ eq_refl).
  - exact (G 9%nat _ eq_refl).
  - f_equal; [f_equal|]; [exact (G 10%nat _ eq_refl)|exact (G 11%nat _ eq_refl)|exact (G 12%nat _ eq_refl)].
  - intros Ho. rewrite Ho in G. f_equal; [exact (G 13%nat _ eq_refl)|exact (G 14%nat _ eq_refl)].
Qed.

(** The common part of the stubs up to the [iret]. *)
Lemma isr_shape ra f d n e l :
  keeps f -> word ra -> Forall word (saved d) -> 36 <= esp d -> stack d ([n; e] ++ l) ->
  stack (pushl ra (pusha (cld d))) (ra :: saved d ++ [n; e] ++ l) /\
  exists r, common_handler ra f d = iret r /\ stack r l /\ esp r = esp d + 8 /\ gprs r = gprs d /\
    cs r = cs d /\ ss r = ss d.
Proof.
  intros K Hra Hok Hr S.
  destruct (pusha_stack (cld d) ([n; e] ++ l) S) as [S1 E1]; [cbn; lia|done|].
  change (saved (cld d)) with (saved d) in S1. change (esp (cld d)) with (esp d) in E1.
  assert (Hs : cs (pusha (cld d)) = cs d /\ ss (pusha (cld d)) = ss d) by done. destruct Hs as [Hs1 Hs2].
  unfold common_handler. set (P := pusha (cld d)) in *. clearbody P.
  destruct (push_stack P ra _ S1 ltac:(lia) Hra) as [Ss _]. split; [exact Ss|].
  destruct (call_stack ra f P _ K S1 ltac:(lia) Hra) as (S2 & E2 & C2 & D2).
  set (Q := call ra f P) in *. clearbody Q.
  destruct (popa_stack Q _ _ _ _ _ _ _ _ _ S2) as [Ep S3]. set (R := popa Q) in *. clearbody R.
  destruct (drop_stack R (addl_esp 8 R) [n; e] _ S3) as [S4 E4]; [done|done|].
  exists (sti (addl_esp 8 R)). split; [done|]. split; [exact S4|]. split.
  - etransitivity; [exact E4|]. rewrite Ep. cbn [esp length]. lia.
  - unfold gprs. cbn [sti set_eflags addl_esp set_esp eax ecx edx ebx ebp esi edi cs ss]. rewrite Ep.
    cbn [eax ecx edx ebx ebp esi edi cs ss]. split_and!; congruence.
Qed.

Lemma isr_returns ra f d c n e l :
  keeps f -> word ra -> Forall word (saved d) -> gprs d = gprs c -> Z.land (cs d) 3 = 0 ->
  (outer c = false -> ss d = ss c /\ esp d + 20 = esp c) ->
  36 <= esp d -> stack d ([n; e] ++ frame c ++ l) ->
  same_regs c (common_handler ra f d) /\ told c (pushl ra (pusha (cld d))) n e /\
  (outer c = false -> stack (common_handler ra f d) l).
Proof.
  intros K Hra Hok Hg Hcs Hin Hr S.
  destruct (isr_shape ra f d n e _ K Hra Hok Hr S) as (Ss & r & -> & Sr & Er & Gr & Cr & Dr).
  rewrite (iret_stack r c l Sr) by congruence. rewrite Er, Dr. rewrite Hg in Gr. unfold gprs in Gr, Hg.
  injection Gr as -> -> -> -> -> -> ->. injection Hg as G1 G2 G3 G4 G5 G6 G7. split; [|split].
  - unfold same_regs, set_cm. cbn [eax ecx edx ebx ebp esi edi ss cm eip cs eflags esp].
    destruct (outer c); [done|]. destruct Hin as [-> Hin]; [done|]. by replace (esp d + 8 + 12) with (esp c) by lia.
  - unfold saved in Ss. rewrite G1, G2, G3, G4, G5, G6, G7 in Ss. exact (told_stack _ c n e _ l ra Ss).
  - intros Ho. unfold frame in Sr. rewrite Ho in Sr |- *. destruct Sr as (H4 & B1 & B2).
    rewrite Er in H4, B1, B2. rewrite !length_app in B2. cbn [length] in B2.
    split; [|split]; cbn [esp cm]; [|lia..].
    apply (words_drop _ _ ([eip c; cs c; eflags c] ++ [])) in H4. exact H4.
Qed.
End Stack.

(** The exceptions for which the processor pushes an error code. *)
Definition has_error_code (n : Z) : bool := bool_decide (n ∈ [8; 10; 11; 12; 13; 14; 17]).

(** The state the stub hands to its common part. *)
Definition entered (n : Z) (c : cpu) : cpu := pushl n (if no_dummy n then cli c else pushl 0 (cli c)).

Section Interrupt.
Context (top ra esp0 ss0 : Z) (f : cpu -> cpu) (c : cpu).
Hypothesis Htop : top < 4294967296.
Hypothesis Hra : word ra.
Hypothesis Hf : keeps top f.
Hypothesis Hc : cpu_ok c.
Hypothesis Hsp : 100 <= handler_esp esp0 c <= top.

(** The stub's own pushes. *)
Lemma entered_stack n err l :
  word n -> Forall word (err_word err) -> stack top (set_esp (handler_esp esp0 c) c) l ->
  let d := pushl n (pushl 0 (cli (deliver esp0 ss0 err c))) in
  let d' := pushl n (cli (deliver esp0 ss0 err c)) in
  stack top d ([n; 0] ++ err_word err ++ frame c ++ l) /\ stack top d' (n :: err_word err ++ frame c ++ l) /\
  esp d = handler_esp esp0 c - 4 * Z.of_nat (length (err_word err)) - 4 * Z.of_nat (length (frame c)) - 8 /\
  esp d' = esp d + 4.
Proof.
  intros Hn He S d d'.
  destruct (deliver_stack top Htop esp0 ss0 err c l Hc He ltac:(lia) S) as [S1 E1].
  assert (Hl : Z.of_nat (length (err_word err)) <= 1 /\ Z.of_nat (length (frame c)) <= 5).
  { unfold frame. rewrite length_app. destruct err, (outer c); cbn; lia. }
  subst d d'. set (x := deliver esp0 ss0 err c) in *. clearbody x.
  assert (S2 : stack top (cli x) (err_word err ++ frame c ++ l)) by exact S1.
  assert (E2 : esp (cli x) = esp x) by done. set (y := cli x) in *. clearbody y.
  destruct (push_stack top Htop y 0 _ S2 ltac:(lia) ltac:(unfold word; lia)) as [S3 E3].
  destruct (push_stack top Htop y n _ S2 ltac:(lia) Hn) as [S4 E4].
  destruct (push_stack top Htop _ n _ S3 ltac:(lia) Hn) as [S5 E5].
  split; [exact S5|]. split; [exact S4|]. lia.
Qed.

Lemma entered_regs n err :
  let d := pushl n (pushl 0 (cli (deliver esp0 ss0 err c))) in
  let d' := pushl n (cli (deliver esp0 ss0 err c)) in
  gprs d = gprs c /\ gprs d' = gprs c /\ cs d = KERNEL_CS /\ cs d' = KERNEL_CS /\
  ss d = (if outer c then ss0 else ss c) /\ ss d' = (if outer c then ss0 else ss c).
Proof.
  intros d d'. destruct (deliver_regs esp0 ss0 err c) as (H1 & H2 & H3 & H4 & H5 & H6 & H7 & H8 & H9).
  subst d d'. set (x := deliver esp0 ss0 err c) in *. clearbody x. unfold gprs, pushl, cli.
  cbn [set_cm set_esp set_eflags eax ecx edx ebx ebp esi edi cs ss]. split_and!; congruence.
Qed.

Lemma words_saved d : gprs d = gprs c -> 0 <= esp d < 4294967296 -> Forall word (saved d).
Proof.
  unfold gprs, saved. intros [= -> -> -> -> -> -> ->] He. destruct Hc as [R _].
  rewrite !Forall_cons in R |- *. destruct R as (? & ? & ? & ? & ? & ? & ? & ? & _). by split_and!.
Qed.
Lemma stub_returns (b : bool) n err l :
  word n -> Forall word (err_word err) -> (if b then err = None else is_Some err) ->
  stack top (set_esp (handler_esp esp0 c) c) l ->
  let x := cli (deliver esp0 ss0 err c) in
  let d := pushl n (if b then pushl 0 x else x) in
  same_regs c (common_handler ra f d) /\ told c (pushl ra (pusha (cld d))) n (default 0 err) /\
  (outer c = false -> stack top (common_handler ra f d) l).
Proof.
  intros Hn He Hb S x d. destruct (entered_stack n err l Hn He S) as (S1 & S2 & E1 & E2).
  destruct (entered_regs n err) as (G1 & G2 & C1 & C2 & D1 & D2). fold x in S1, S2, E1, E2, G1, G2, C1, C2, D1, D2.
  assert (Hl : 12 <= 4 * Z.of_nat (length (frame c)) <= 20 /\
    (outer c = false -> 4 * Z.of_nat (length (frame c)) = 12 /\ handler_esp esp0 c = esp c)).
  { unfold frame, handler_esp. rewrite length_app. destruct (outer c); cbn [length]; split; (lia || done). }
  destruct b; [subst err|destruct Hb as [e ->]]; cbn [err_word length app default] in *.
  - subst d. set (d := pushl n (pushl 0 x)) in *. clearbody d.
    apply isr_returns with (top := top); try done; [|by rewrite C1| |lia].
    + apply words_saved; [done|lia].
    + intros Ho. rewrite D1, Ho. split; [done|]. destruct Hl as [_ Hl]. specialize (Hl Ho). lia.
  - subst d. set (d := pushl n x) in *. clearbody d. set (dd := pushl n _) in *. clearbody dd.
    apply isr_returns with (top := top); try done; [|by rewrite C2| |lia].
    + apply words_saved; [done|lia].
    + intros Ho. rewrite D2, Ho. split; [done|]. destruct Hl as [_ Hl]. specialize (Hl Ho). lia.
Qed.

Lemma stack_nil : stack top (set_esp (handler_esp esp0 c) c) [].
Proof. split; [done|]. cbn [set_esp esp length]. lia. Qed.
End Interrupt.

(** C6 The stubs are transparent.  Whatever the interrupted code was (the
    kernel, or a process, whose interrupts arrive on the kernel stack), the stub
    of every vector but 17 calls the C handler with a [registers_t] that holds
    the registers of the interrupted code, the number of the vector and the
    error code (0 for vectors without one), and then resumes the code with all
    its registers, its flags and its stack.  Vector 17, the alignment check, is
    the exception: the stub pushes a second error code, so that [iret] takes
    the error code of the processor for the address to resume at. *)
Theorem stubs_transparent (top ra esp0 ss0 : Z) (f : cpu -> cpu) (c : cpu) (n : Z) (err : option Z) :
  top < 4294967296 -> word ra -> keeps top f -> cpu_ok c -> 100 <= handler_esp esp0 c <= top ->
  Forall word (err_word err) ->
  let d := deliver esp0 ss0 err c in
  (0 <= n < 32 -> n <> 17 -> (is_Some err <-> has_error_code n = true) ->
   same_regs c (handler ra f n d) /\ told c (pushl ra (pusha (cld (entered n d)))) n (default 0 err)) /\
  (0 <= n < 16 -> err = None ->
   same_regs c (handler_irq ra f n d) /\ told c (pushl ra (pusha (cld (pushl n (pushl 0 (cli d)))))) n 0) /\
  (forall e, err = Some e -> eip (handler ra f 17 d) = e).
Proof.
  intros Ht Hra Hf Hc Hsp He d. pose proof (stack_nil top esp0 c Hsp) as S0. split; [|split].
  - intros Hn H17 Hi. unfold handler, entered.
    destruct (stub_returns top ra esp0 ss0 f c Ht Hra Hf Hc Hsp (negb (no_dummy n)) n err [])
      as (R & T & _); [unfold word; lia|done| |exact S0|].
    + unfold no_dummy, has_error_code in *. destruct (bool_decide_reflect (n ∈ [8; 10; 11; 12; 13; 14])) as [Hb|Hb]; cbn [negb].
      * apply Hi, bool_decide_eq_true. set_solver.
      * destruct err as [e|]; [|done]. exfalso. assert (Hx : is_Some (Some e)) by done.
        apply Hi, bool_decide_eq_true in Hx. set_solver.
    + fold d in R, T. destruct (no_dummy n); by split.
  - intros Hn ->. destruct (stub_returns top ra esp0 ss0 f c Ht Hra Hf Hc Hsp true n None [])
      as (R & T & _); [unfold word; lia|done|done|exact S0|]. by split.
  - intros e ->. unfold handler. change (no_dummy 17) with false. cbv iota.
    destruct (entered_stack top esp0 ss0 c Ht Hc Hsp 17 (Some e) [] ltac:(unfold word; lia) He S0) as (S1 & _ & E1 & _).
    destruct (entered_regs esp0 ss0 c 17 (Some e)) as (G1 & _). fold d in S1, E1, G1.
    assert (Hl : 4 * Z.of_nat (length (frame c)) <= 20).
    { unfold frame. rewrite length_app. destruct (outer c); cbn [length]; lia. }
    cbn [err_word length app] in *. set (x := pushl 17 _) in *. clearbody x.
    destruct (isr_shape top Ht ra f x 17 0 _ Hf Hra (words_saved c Hc x G1 ltac:(lia)) ltac:(lia) S1)
      as (_ & r & -> & Sr & _).
    exact (top_of_get top Ht r _ 0 e Sr eq_refl).
Qed.

(** ** The system call *)

Lemma call_same ra f p :
  eax (call ra f p) = eax (f (pushl ra p)) /\ eip (call ra f p) = eip (f (pushl ra p)) /\
  eflags (call ra f p) = eflags (f (pushl ra p)).
Proof. unfold call. by generalize (f (pushl ra p)). Qed.

(** The result survives below the stack pointer. *)
Lemma keep_popa top r k1 k2 k3 a1 a2 a3 a4 a5 a6 a7 a8 l :
  top < 4294967296 ->
  stack top r ([k1; k2; k3] ++ [a1; a2; a3; a4; a5; a6; a7; a8] ++ l) -> word (eax r) ->
  let x := popa (keep_result r) in
  stack top x l /\ gprs x = [a8; a7; a6; a5; a3; a2; a1] /\ esp x = esp r + 44 /\ cs x = cs r /\ ss x = ss r /\
  eip x = eip r /\ eflags x = eflags r /\ load32 (cm x) (esp x - 36) = eax r.
Proof.
  intros Htop S Hw. cbv zeta. unfold keep_result. pose proof S as (_ & Hr & _).
  destruct (drop_stack top Htop r (addl_esp 12 r) [k1; k2; k3] _ S) as [S1 E1]; [done|done|]. cbn [length] in E1.
  destruct (addl_same 12 r) as (A1 & A2 & A3 & A4 & _). generalize dependent (addl_esp 12 r).
  intros t S1 E1 A1 A2 A3 A4.
  destruct (push_stack top Htop t (eax r) _ S1 ltac:(lia) Hw) as [S2 E2].
  assert (Sl : load32 (cm (pushl (eax r) t)) (esp (pushl (eax r) t)) = eax r) by apply S2.
  pose proof (pushl_cs (eax r) t) as B1. pose proof (pushl_ss (eax r) t) as B2.
  pose proof (pushl_eip (eax r) t) as B3. pose proof (pushl_eflags (eax r) t) as B4.
  generalize dependent (pushl (eax r) t). intros u S2 E2 Sl B1 B2 B3 B4.
  destruct (drop_stack top Htop u (addl_esp 4 u) [eax r] _ S2) as [S3 E3]; [done|done|]. cbn [length] in E3.
  destruct (addl_same 4 u) as (F1 & F2 & F3 & F4 & F5). rewrite <- F5 in Sl. generalize dependent (addl_esp 4 u).
  intros v Sl S3 E3 F1 F2 F3 F4 F5.
  destruct (popa_stack top Htop v _ _ _ _ _ _ _ _ _ S3) as [Ex S4]. split; [exact S4|]. rewrite Ex.
  cbn [gprs eax ecx edx ebx esp ebp esi edi eip cs eflags ss cm]. split; [done|]. split; [lia|].
  split_and!; try congruence. rewrite <- Sl. f_equal. lia.
Qed.

Lemma gprs_eq x y :
  gprs x = gprs y -> eax x = eax y /\ ecx x = ecx y /\ edx x = edx y /\ ebx x = ebx y /\ ebp x = ebp y /\
  esi x = esi y /\ edi x = edi y.
Proof. unfold gprs. by intros [= -> -> -> -> -> -> ->]. Qed.

(** The slot of [ebx] in the frame that a stub saves. *)
Lemma isr_slot top ra f d n e l :
  top < 4294967296 -> keeps top f -> word ra -> Forall word (saved d) -> 36 <= esp d ->
  stack top d ([n; e] ++ l) -> load32 (cm (common_handler ra f d)) (esp d - 16) = ebx d.
Proof.
  intros Ht K Hra Hs Hr S. destruct (pusha_stack top Ht (cld d) ([n; e] ++ l) S) as [S1 E1]; [cbn; lia|done|].
  change (saved (cld d)) with (saved d) in S1. change (esp (cld d)) with (esp d) in E1.
  assert (Em : forall p, cm (iret (sti (addl_esp 8 (popa (call ra f p))))) = cm (f (pushl ra p))) by done.
  unfold common_handler. rewrite Em. clear Em. generalize dependent (pusha (cld d)). intros p S1 E1.
  destruct (push_stack top Ht p ra _ S1 ltac:(lia) Hra) as [Ss Es].
  generalize dependent (pushl ra p). intros s Ss Es. destruct Ss as (W & B1 & B2).
  unfold saved in *. cbn [length app] in W, B2. rewrite <- (words_get _ _ _ 5%nat _ W eq_refl).
  replace (esp s + 4 * Z.of_nat 5) with (esp d - 16) by lia.
  apply load32_ext. intros i Hi. apply (kp_stack _ _ K). lia.
Qed.

Lemma handler_irq_eq ra f n c : handler_irq ra f n c = common_handler ra f (pushl n (pushl 0 (cli c))).
Proof. done. Qed.

(** A function of the table leaves words in the registers the stub reads. *)
Definition result_ok (c : cpu) : Prop := word (eax c) /\ word (eip c) /\ word (eflags c).

Section Call.
Context (top ra esp0 ss0 : Z) (calls : Z -> cpu -> cpu) (c : cpu).
Hypothesis Htop : top < 4294967296.
Hypothesis Hra : word ra.
Hypothesis Hcalls : forall k, keeps top (calls k) /\ forall s, result_ok (calls k s).
Hypothesis Hc : cpu_ok c.
Hypothesis Hsp : 200 <= handler_esp esp0 c <= top.
Abbreviation d := (deliver esp0 ss0 None c).
Abbreviation pushed := (pushl (ebx d) (pushl (ecx d) (pushl (edx d) (pusha d)))).

Lemma push_args x l :
  gprs x = gprs c -> 50 <= esp x <= top -> stack top x l ->
  let y := pushl (ebx x) (pushl (ecx x) (pushl (edx x) (pusha x))) in
  stack top y ([ebx c; ecx c; edx c] ++ saved x ++ l) /\ eax y = eax c /\ esp y = esp x - 44 /\
  cs y = cs x /\ ss y = ss x.
Proof.
  intros G Hx S. pose proof (words_saved c Hc x G ltac:(lia)) as Hws. cbv zeta.
  destruct (pusha_stack top Htop x l S ltac:(lia) Hws) as [S1 E1].
  unfold gprs in G. injection G as G1 G2 G3 G4 G5 G6 G7.
  assert (X1 : cs (pusha x) = cs x) by (unfold pusha; by rewrite !pushl_cs).
  assert (X2 : ss (pusha x) = ss x) by (unfold pusha; by rewrite !pushl_ss).
  assert (X3 : eax (pusha x) = eax x) by (unfold pusha; by rewrite !pushl_eax). set (y := pusha x) in *. clearbody y.
  pose proof (ck_regs _ Hc) as Hw. rewrite !Forall_cons in Hw. destruct Hw as (_ & W2 & W3 & W4 & _).
  rewrite G2, G3, G4.
  destruct (push_stack top Htop y (edx c) _ S1 ltac:(lia) W3) as [S2 E2].
  destruct (push_stack top Htop _ (ecx c) _ S2 ltac:(lia) W2) as [S3 E3].
  destruct (push_stack top Htop _ (ebx c) _ S3 ltac:(lia) W4) as [S4 E4].
  split; [exact S4|]. rewrite !pushl_eax, !pushl_cs, !pushl_ss. split; [congruence|]. split; [lia|]. by split.
Qed.

Lemma call_pushed :
  stack top pushed ([ebx c; ecx c; edx c] ++ saved d ++ frame c) /\ gprs d = gprs c /\ eax pushed = eax c /\
  esp pushed = esp d - 44 /\ 100 <= esp d <= handler_esp esp0 c /\
  cs pushed = KERNEL_CS /\ ss pushed = (if outer c then ss0 else ss c) /\
  (outer c = false -> esp d + 12 = esp c).
Proof.
  destruct (deliver_stack top Htop esp0 ss0 None c [] Hc (Forall_nil_2 _) ltac:(lia)
    (stack_nil top esp0 c ltac:(lia))) as [S E].
  destruct (deliver_regs esp0 ss0 None c) as (H1 & H2 & H3 & H4 & H5 & H6 & H7 & H8 & H9).
  assert (Hl : 12 <= 4 * Z.of_nat (length (frame c)) <= 20 /\
    (outer c = false -> 4 * Z.of_nat (length (frame c)) = 12 /\ handler_esp esp0 c = esp c)).
  { unfold frame, handler_esp. rewrite length_app. destruct (outer c); cbn [length]; split; (lia || done). }
  generalize dependent (deliver esp0 ss0 None c). intros x S E H1 H2 H3 H4 H5 H6 H7 H8 H9.
  assert (G : gprs x = gprs c) by (unfold gprs; congruence).
  cbn [err_word app length] in S, E. rewrite app_nil_r in S.
  destruct (push_args x (frame c) G ltac:(lia) S) as (P1 & P2 & P3 & P4 & P5).
  generalize dependent (pushl (ebx x) (pushl (ecx x) (pushl (edx x) (pusha x)))). intros y P1 P2 P3 P4 P5.
  split_and!; try done; try congruence; try lia.
  intros Ho. destruct Hl as [_ Hl]. specialize (Hl Ho). lia.
Qed.

(** The state at [popa] of the interrupted registers: [k] the result, below
    the stack pointer. *)
Record popped (x : cpu) (v : Z) : Prop := Popped {
  pp_stack : stack top x (frame c);
  pp_regs : gprs x = gprs c;
  pp_esp : esp x = esp d /\ 100 <= esp d;
  pp_cs : cs x = KERNEL_CS;
  pp_ss : ss x = (if outer c then ss0 else ss c);
  pp_slot : load32 (cm x) (esp x - 36) = v }.

Lemma call_popped k p :
  stack top p ([ebx c; ecx c; edx c] ++ saved d ++ frame c) -> esp p = esp d - 44 -> cs p = KERNEL_CS ->
  ss p = (if outer c then ss0 else ss c) ->
  let s := pushl ra p in
  let x := popa (keep_result (call ra (calls k) p)) in
  words_at (cm s) (esp s) [ra; ebx c; ecx c; edx c] /\ popped x (eax (calls k s)) /\
  word (eip x) /\ word (eflags x).
Proof.
  intros Sp Ep C D. destruct call_pushed as (_ & G & _ & _ & Hd & _).
  destruct (push_stack top Htop p ra _ Sp ltac:(lia) Hra) as [Ss _]. cbv zeta. split.
  { destruct Ss as (W & _). cbn [app words_at] in W. destruct W as (W1 & W2 & W3 & W4 & _). by split_and!. }
  destruct (Hcalls k) as [K Ko].
  destruct (call_stack top Htop ra (calls k) p _ K Sp ltac:(lia) Hra) as (S2 & E2 & C2 & D2).
  destruct (call_same ra (calls k) p) as (Ea & Ei & Ef). rewrite <- Ea.
  destruct (Ko (pushl ra p)) as (Oa & Oi & Of). rewrite <- Ei in Oi. rewrite <- Ef in Of. rewrite <- Ea in Oa.
  generalize dependent (call ra (calls k) p). intros r S2 E2 C2 D2 _ _ _ Oa Oi Of.
  unfold saved in S2.
  destruct (keep_popa top r _ _ _ _ _ _ _ _ _ _ _ _ Htop S2 Oa) as (K1 & K2 & K3 & K4 & K5 & K6 & K7 & K8).
  rewrite K6, K7. split; [|by split]. split; [exact K1| | |congruence|congruence|exact K8].
  - rewrite K2, <- G. done.
  - lia.
Qed.

(** The last instructions. *)
Lemma call_finish x y v :
  popped x v -> same_regs x y -> stack top y (frame c) ->
  same_regs (set_eax (load32 (cm y) (esp x - 36)) c) (iret (addl_esp 32 (popl_eax (addl_esp (-36) y)))).
Proof.
  intros [Sx Gx [Ex1 Ex2] Cx Dx _] Hy Sy. pose proof call_pushed as (_ & _ & _ & _ & Hd & _ & _ & Hi).
  injection Hy as Y1 Y2 Y3 Y4 Y5 Y6 Y7 Y8 Y9 Y10 Y11 Y12.
  unfold popl_eax, addl_esp. cbn [set_esp set_eax esp].
  assert (Hle : handler_esp esp0 c <= top) by lia.
  rewrite (u32_small (esp y + -36)) by lia. rewrite (u32_small (esp y + -36 + 4)) by lia.
  rewrite (u32_small (esp y + -36 + 4 + 32)) by lia.
  assert (Es : top_of (set_esp (esp y + -36) y) 0 = load32 (cm y) (esp x - 36)).
  { unfold top_of. cbn [set_esp esp cm]. rewrite u32_small by lia. f_equal. lia. }
  rewrite Es. set (v' := load32 _ _). set (z := set_esp _ _).
  assert (Sz : stack top z (frame c ++ [])).
  { rewrite app_nil_r. destruct Sy as (W & B1 & B2). unfold z. cbn [set_esp set_eax]. split; cbn [esp cm];
    replace (esp y + -36 + 4 + 32) with (esp y) by lia; done. }
  rewrite (iret_stack top Htop z c [] Sz) by (change (Z.land (cs y) 3 = 0); rewrite Y10, Cx; done).
  unfold z, same_regs, set_cm, gprs in *. cbn [set_esp set_eax eax ecx edx ebx ebp esi edi eip cs eflags ss cm esp].
  injection Gx as G1 G2 G3 G4 G5 G6 G7. destruct (outer c) eqn:Ho; f_equal; try congruence; try done.
  specialize (Hi eq_refl). lia.
Qed.

Lemma call_fails p v :
  stack top p ([ebx c; ecx c; edx c] ++ saved d ++ frame c) -> esp p = esp d - 44 -> cs p = KERNEL_CS ->
  ss p = (if outer c then ss0 else ss c) ->
  same_regs (set_eax v c) (iret (set_eax v (popa (addl_esp 12 p)))).
Proof.
  intros S E C D. pose proof call_pushed as (_ & G & _ & _ & Hd & _ & _ & Hi).
  destruct (drop_stack top Htop p (addl_esp 12 p) [ebx c; ecx c; edx c] _ S) as [S1 E1]; [done|done|].
  cbn [length] in E1. destruct (addl_same 12 p) as (A1 & A2 & _).
  generalize dependent (addl_esp 12 p). intros q S1 E1 A1 A2. unfold saved in S1.
  destruct (popa_stack top Htop q _ _ _ _ _ _ _ _ _ S1) as [Eq S2]. rewrite Eq in S2 |- *.
  destruct (gprs_eq _ _ G) as (G1 & G2 & G3 & G4 & G5 & G6 & G7).
  assert (E3 : esp q + 32 = esp d) by lia. rewrite G1, G2, G3, G4, G5, G6, G7, E3, A1, A2 in S2 |- *. clear Eq S S1.
  generalize dependent (deliver esp0 ss0 None c). intros x. intros.
  match goal with |- context [iret ?t] => set (z := t) end.
  assert (Sz : stack top z (frame c ++ [])) by (rewrite app_nil_r; exact S2).
  rewrite (iret_stack top Htop z c [] Sz) by (unfold z; cbn [set_eax cs]; by rewrite C).
  unfold same_regs, set_cm, z. cbn [set_eax eax ecx edx ebx ebp esi edi eip cs eflags ss cm esp].
  rewrite D. destruct (outer c); [done|]. by rewrite (Hi eq_refl).
Qed.

(** An interrupt before the result is fetched. *)
Lemma call_interrupted x v f n :
  popped x v -> word (eip x) -> word (eflags x) -> word ss0 -> keeps top f -> 0 <= n < 16 ->
  let y := handler_irq ra f n (deliver esp0 ss0 None x) in
  same_regs x y /\ stack top y (frame c) /\ load32 (cm y) (esp x - 36) = ebx c.
Proof.
  intros [Sx Gx [Ex Ed] Cx Dx _] Hi Hf Hss K Hn y. pose proof call_pushed as (_ & _ & _ & _ & Hd & _).
  assert (Hle : handler_esp esp0 c <= top) by lia.
  assert (Hk : cpu_ok x).
  { pose proof (words_saved c Hc x Gx ltac:(lia)) as W. unfold saved in W. rewrite !Forall_cons in W.
    destruct W as (? & ? & ? & ? & ? & ? & ? & ? & _). pose proof (ck_state _ Hc) as W2. rewrite !Forall_cons in W2.
    destruct W2 as (_ & _ & _ & ? & _). split; rewrite !Forall_cons; split_and!; try done.
    - rewrite Cx. unfold word, KERNEL_CS. lia.
    - rewrite Dx. by destruct (outer c). }
  assert (Ho : outer x = false) by (unfold outer; by rewrite Cx).
  assert (Hs : handler_esp esp0 x = esp x) by (unfold handler_esp; by rewrite Ho).
  assert (S0 : stack top (set_esp (handler_esp esp0 x) x) (frame c)) by (rewrite Hs; exact Sx).
  assert (Hsx : 100 <= handler_esp esp0 x <= top) by lia.
  subst y. rewrite handler_irq_eq.
  destruct (stub_returns top ra esp0 ss0 f x Htop Hra K Hk Hsx true n None (frame c)) as (R & _ & T);
    [unfold word; lia|constructor|done|exact S0|].
  split; [exact R|]. split; [exact (T Ho)|]. clear R T.
  destruct (entered_stack top esp0 ss0 x Htop Hk Hsx n None (frame c)) as (S1 & _ & E1 & _);
    [unfold word; lia|constructor|exact S0|].
  destruct (entered_regs esp0 ss0 x n None) as (G1 & _).
  assert (L : 4 * Z.of_nat (length (frame x)) = 12) by (unfold frame; by rewrite Ho).
  generalize dependent (pushl n (pushl 0 (cli (deliver esp0 ss0 None x)))). intros e S1 E1 G1.
  cbn [err_word length app] in S1, E1.
  destruct (gprs_eq _ _ Gx) as (_ & _ & _ & X4 & _), (gprs_eq _ _ G1) as (_ & _ & _ & Y4 & _).
  rewrite <- X4, <- Y4, <- (isr_slot top ra f e n 0 (frame x ++ frame c) Htop K Hra); [f_equal; lia| |lia|exact S1].
  apply (words_saved x Hk e G1). lia.
Qed.
End Call.

(** C7 A system call returns its result and nothing else.  [int 0x80] with a
    number from 1 to 10 in [eax] calls the function of the table with [ebx],
    [ecx] and [edx] as its arguments, and the process goes on with the result in
    [eax] and every other register, the flags and the stack as they were; any
    other number gives -1.  But the result is fetched from below the stack
    pointer, with interrupts enabled since the call: an interrupt between
    [popa] and that fetch overwrites it, and the process gets its own [ebx] for
    a result. *)
Theorem syscall_stub (top ra esp0 ss0 : Z) (calls : Z -> cpu -> cpu) (c : cpu) :
  top < 4294967296 -> word ra -> (forall k, keeps top (calls k) /\ forall s, result_ok (calls k s)) ->
  cpu_ok c -> word ss0 -> 200 <= handler_esp esp0 c <= top ->
  let sys := fun gap => handler_syscall ra calls gap (deliver esp0 ss0 None c) in
  (s32 (eax c) < 1 \/ 10 < s32 (eax c) -> forall gap, same_regs (set_eax 4294967295 c) (sys gap)) /\
  (1 <= eax c <= 10 ->
   (exists s, words_at (cm s) (esp s) [ra; ebx c; ecx c; edx c] /\
      same_regs (set_eax (eax (calls (eax c) s)) c) (sys (fun x => x))) /\
   forall f n, keeps top f -> 0 <= n < 16 ->
     same_regs (set_eax (ebx c) c) (sys (fun x => handler_irq ra f n (deliver esp0 ss0 None x)))).
Proof.
  intros Ht Hra Hcalls Hc Hss Hsp sys.
  destruct (call_pushed top esp0 ss0 c Ht Hc Hsp) as (S & G & Ea & E & Hd & C & D & Hi).
  subst sys. unfold handler_syscall. cbv zeta beta. rewrite Ea.
  destruct (sti_same (pushl (ebx (deliver esp0 ss0 None c)) (pushl (ecx (deliver esp0 ss0 None c))
    (pushl (edx (deliver esp0 ss0 None c)) (pusha (deliver esp0 ss0 None c)))))) as (T1 & T2 & T3).
  pose proof (stack_sti top _ _ S) as Sp. split.
  - intros Ho gap. replace ((s32 (eax c) <? 1) || (10 <? s32 (eax c))) with true.
    2:{ symmetry. apply orb_true_iff. rewrite !Z.ltb_lt. lia. }
    generalize dependent (pushl (ebx (deliver esp0 ss0 None c)) (pushl (ecx (deliver esp0 ss0 None c))
      (pushl (edx (deliver esp0 ss0 None c)) (pusha (deliver esp0 ss0 None c))))).
    intros p S Ea E C D _ _ _ _.
    exact (call_fails top esp0 ss0 c Ht Hc Hsp p _ S E C D).
  - intros He. rewrite s32_small by lia.
    destruct (Z.ltb_spec (eax c) 1), (Z.ltb_spec 10 (eax c)); try lia. cbn [orb].
    destruct (call_popped top ra esp0 ss0 calls c Ht Hra Hcalls Hc Hsp (eax c) _ Sp (eq_trans T1 E)
      (eq_trans T2 C) (eq_trans T3 D)) as (W & P & I & F).
    generalize dependent (popa (keep_result (call ra (calls (eax c)) (sti (pushl (ebx (deliver esp0 ss0 None c))
      (pushl (ecx (deliver esp0 ss0 None c)) (pushl (edx (deliver esp0 ss0 None c)) (pusha (deliver esp0 ss0 None c))))))))).
    intros x P I F. split.
    + eexists. split; [exact W|]. rewrite <- (pp_slot _ _ _ _ _ _ P).
      apply (call_finish top esp0 ss0 c Ht Hc Hsp x x _ P); [done|apply P].
    + intros f n K Hn. set (y := handler_irq ra f n _).
      assert (HY : same_regs x y /\ stack top y (frame c) /\ load32 (cm y) (esp x - 36) = ebx c).
      { apply (call_interrupted top ra esp0 ss0 c Ht Hra Hc Hsp x _ f n P I F Hss K Hn). }
      destruct HY as (Y1 & Y2 & Y3). rewrite <- Y3. apply (call_finish top esp0 ss0 c Ht Hc Hsp x y _ P Y1 Y2).
Qed.

(** ** Witnesses: a process at privilege 3 *)

Definition demo_cpu (num : Z) : cpu := Cpu num 11 12 13 138412000 15 16 17 134513408 35 514 43 ∅.
Definition demo_call (k : Z) (s : cpu) : cpu := Cpu 42 0 0 0 (esp s) 0 0 0 0 (cs s) 0 (ss s) (cm s).

Lemma demo_cpu_ok num : word num -> cpu_ok (demo_cpu num).
Proof. intros H. split; rewrite !Forall_cons; unfold word in *; cbn; split_and!; (done || lia). Qed.
Lemma demo_keeps k : keeps 8380416 (demo_call k).
Proof. by split. Qed.

Lemma stubs_transparent_witness :
  same_regs (demo_cpu 5) (handler 1000 (demo_call 0) 14 (deliver 8380416 24 (Some 4) (demo_cpu 5))) /\
  eip (handler 1000 (demo_call 0) 17 (deliver 8380416 24 (Some 4) (demo_cpu 5))) = 4.
Proof.
  destruct (stubs_transparent 8380416 1000 8380416 24 (demo_call 0) (demo_cpu 5) 14 (Some 4)) as (H1 & _ & H3).
  - lia.
  - unfold word. lia.
  - apply demo_keeps.
  - apply demo_cpu_ok. unfold word. lia.
  - vm_compute. split; congruence.
  - constructor; [unfold word; lia|constructor].
  - split; [apply H1; [lia|lia|done]|by apply H3].
Defined.

Lemma syscall_stub_witness :
  same_regs (set_eax 42 (demo_cpu 3)) (handler_syscall 1000 demo_call (fun x => x) (deliver 8380416 24 None (demo_cpu 3))) /\
  same_regs (set_eax 13 (demo_cpu 3)) (handler_syscall 1000 demo_call
    (fun x => handler_irq 1000 (demo_call 0) 0 (deliver 8380416 24 None x)) (deliver 8380416 24 None (demo_cpu 3))).
Proof.
  destruct (syscall_stub 8380416 1000 8380416 24 demo_call (demo_cpu 3)) as (_ & H2).
  - lia.
  - unfold word. lia.
  - intros k. split; [apply demo_keeps|]. intros s. unfold result_ok, word. cbn. lia.
  - apply demo_cpu_ok. unfold word. lia.
  - unfold word. lia.
  - vm_compute. split; congruence.
  - destruct (H2 ltac:(cbn; lia)) as [(s & _ & Hs) Hi]. split; [exact Hs|].
    apply Hi; [apply demo_keeps|lia].
Defined.
