(* ===== verification/Demos.v ===== *)
(** * ece391pingpong.c and ece391sigtest.c

    The animation on the clock, for any number of its endless rounds, and the
    test of signals, which this kernel does not have. *)

From S2P Require Import Prelude Mem Lib Pcb Filesys Syscalls User Ulib Apps.

(** The clock: a read waits for a tick and touches nothing, a write asks for
    the rate in the word that it is given. *)
Class ClockLaws (W : Type) `{OS W} `{View W} : Prop := {
  law_clock_read m w p fd buf n :
    view w p -> aget (p_fds p) fd = Some FdRtc ->
    exists w', sys SYS_READ fd buf n m w = Ok (m, w', 0) /\ view w' (await_tick p);
  law_clock_write m w p fd buf :
    view w p -> aget (p_fds p) fd = Some FdRtc -> in_user buf 4 ->
    exists w' r, sys SYS_WRITE fd buf 4 m w = Ok (m, w', r) /\ view w' (ask_rate p (load32 m buf)) }.

#[export] Instance sim_clock : ClockLaws proc.
Proof.
  split.
  - intros m w p fd buf n [-> Hp] E. exists (await_tick p). split; [|by split; [|apply proc_ok_clock]].
    change (sim_read fd buf n m p = Ok (m, await_tick p, 0)). unfold sim_read.
    destruct (Z.eqb_spec fd 0) as [->|]; [|by rewrite E].
    destruct (po_fds _ Hp) as (_ & H0 & _). congruence.
  - intros m w p fd buf [-> Hp] E _. exists (ask_rate p (load32 m buf)), 0.
    split; [|by split; [|apply proc_ok_clock]].
    change (sim_write fd buf 4 m p = Ok (m, ask_rate p (load32 m buf), 0)). unfold sim_write.
    destruct (Z.eqb_spec fd 1) as [->|]; [|by rewrite E]. destruct (po_fds _ Hp) as (_ & _ & H1). congruence.
Qed.

Section Programs.
Context `{OS W} (lit : list Z -> Z).

(** ** pingpong *)

Definition SCREENWIDTH : Z := 79.
Definition ENDING : Z := 2.
Definition BUFMAX : Z := SCREENWIDTH + ENDING.
Definition START : Z := 1.
Definition STARTLOOP : Z := START + 1.
Definition LOOPMAX : Z := BUFMAX - ENDING - 1.
Definition STARTCHAR : Z := 65.
Definition ENDCHAR : Z := 90.

(** [for(i = lo; i < hi; i++) buf[i] = ' ';] *)
Definition blank (buf lo hi : Z) (m : mem) : mem :=
  for_ (hi - lo) (fun m i => store8 m (buf + lo + i) 32) m.

Definition pingpong_setup (buf ret_val : Z) (m : mem) (w : W) : res (mem * W * Z) :=
  let m := blank buf 0 BUFMAX m in
  let m := store8 m (buf + (BUFMAX - 1)) 0 in
  let m := store8 m (buf + (BUFMAX - 2)) 10 in
  let m := store8 m (buf + (BUFMAX - 3)) 124 in
  let m := store8 m (buf + START) 124 in
  '(m, w, rtc_fd) ← ece391_open (lit (bytes "rtc")) m w;
  let m := store32 m ret_val 32 in
  '(m, w, r) ← ece391_write rtc_fd ret_val 4 m w;
  Ok (store32 m ret_val r, w, rtc_fd).

(** One frame: the character at [j], then a tick. *)
Definition pingpong_turn (buf garbage rtc_fd curchar : Z) (s : mem * W) (j : Z) : res (mem * W) :=
  let '(m, w) := s in
  let m := blank buf STARTLOOP LOOPMAX m in
  let m := store8 m (buf + j) curchar in
  '(m, w) ← ece391_fdputs 1 buf m w;
  '(m, w, _) ← ece391_read rtc_fd garbage 4 m w;
  Ok (m, w).

Definition next_char (curchar : Z) : Z := if curchar =? ENDCHAR then STARTCHAR else u8 (curchar + 1).

Definition pingpong_round (buf garbage rtc_fd : Z) (s : mem * W * Z) (_ : Z) : res (mem * W * Z) :=
  let '(m, w, curchar) := s in
  s ← forM (seqZ STARTLOOP (LOOPMAX - STARTLOOP)) (pingpong_turn buf garbage rtc_fd curchar) (m, w);
  '(m, w) ← forM ((fun k => LOOPMAX - 1 - k) <$> seqZ 0 (LOOPMAX - STARTLOOP))
              (pingpong_turn buf garbage rtc_fd curchar) s;
  Ok (m, w, next_char curchar).

(** The first [n] rounds of [while(1)]. *)
Definition pingpong_main (n buf ret_val garbage : Z) (m : mem) (w : W) : res (mem * W * Z) :=
  '(m, w, rtc_fd) ← pingpong_setup buf ret_val m w;
  forM (seqZ 0 n) (pingpong_round buf garbage rtc_fd) (m, w, STARTCHAR).

(** ** sigtest *)

Definition SEGFAULT : Z := 1.
Definition ALARM : Z := 3.
Definition ece391_set_handler (signum handler : Z) : mem -> W -> res (mem * W * Z) :=
  sys SYS_SET_HANDLER signum handler 0.

(** A store outside the page of the process is a page fault. *)
Definition user_store8 (m : mem) (a v : Z) : res mem :=
  if (TOP_PAGE <=? a) && (a <? BOTTOM_PAGE) then Ok (store8 m a v) else Fault.

(** [badbuf] and [charbuf]: the statics; [segv] and [alrm]: the handlers. *)
Definition sigtest_main (badbuf charbuf segv alrm buf : Z) (m : mem) (w : W) : res (mem * W * Z) :=
  '(m, w, r) ← ece391_getargs buf BUFSIZE m w;
  if negb (0 =? r) then fail_with lit (bytes "could not read argument" ++ [10]) 3 m w
  else
    '(m, w) ← (if load8 m buf =? 49 then
       '(m, w) ← ece391_fdputs 1 (lit (bytes "Installing signal handlers" ++ [10])) m w;
       '(m, w, _) ← ece391_set_handler SEGFAULT segv m w;
       '(m, w, _) ← ece391_set_handler ALARM alrm m w;
       Ok (m, w)
     else Ok (m, w));
    '(m, w) ← ece391_fdputs 1 (lit (bytes "Hi, what's your name? ")) m w;
    '(m, w, cnt) ← ece391_read 0 buf (BUFSIZE - 1) m w;
    if -1 =? cnt then fail_with lit (bytes "Can't read name from keyboard." ++ [10]) 3 m w
    else
      m ← user_store8 m (load32 m badbuf) 1;
      let m := store8 m (buf + cnt) 0 in
      '(m, w) ← ece391_fdputs 1 (lit (bytes "Hello, ")) m w;
      '(m, w) ← ece391_fdputs 1 buf m w;
      fail_with lit (if load8 m charbuf =? 1 then bytes "success" ++ [10] else bytes "failure" ++ [10]) 0 m w.

(** The number of a signal, as both handlers print it. *)
Definition print_signum (signum : Z) (m : mem) (w : W) : res (mem * W) :=
  ece391_fdputs 1 (lit (if signum =? 0 then bytes "0" ++ [10] else if signum =? 1 then bytes "1" ++ [10]
    else if signum =? 2 then bytes "2" ++ [10] else if signum =? 3 then bytes "3" ++ [10]
    else bytes "invalid" ++ [10])) m w.

(** [sa]: the address of the argument; the handler reaches 28 bytes above it
    for the saved [eax]. *)
Definition segfault_sighandler (badbuf charbuf sa buf : Z) (m : mem) (w : W) : res (mem * W) :=
  '(m, w) ← ece391_fdputs 1 (lit (bytes "Segfault signal handler called, signum: ")) m w;
  '(m, w) ← print_signum (s32 (load32 m sa)) m w;
  '(m, w) ← ece391_fdputs 1 (lit (bytes "Press enter to continue..." ++ [10])) m w;
  '(m, w, _) ← ece391_read 0 buf 1 m w;
  let m := store32 m badbuf charbuf in
  let m := store32 m (sa + 28) charbuf in
  ece391_fdputs 1 (lit (bytes "Signal handler returning" ++ [10])) m w.

Definition alarm_sighandler (signum : Z) (m : mem) (w : W) : res (mem * W) :=
  '(m, w) ← ece391_fdputs 1 (lit (bytes "Alarm signal handler called, signum: ")) m w;
  print_signum signum m w.
End Programs.

(** ** The frames of pingpong *)

(** The line with the walls and the character [c] at [j]. *)
Definition cell_of (j c i : Z) : Z :=
  if i =? j then c else if (i =? 1) || (i =? 78) then 124 else if i =? 79 then 10 else 32.
Definition frame (c j : Z) : list Z := cell_of j c <$> seqZ 0 80.

Definition round (c : Z) : list Z :=
  concat (frame c <$> seqZ 2 76) ++ concat (frame c <$> ((fun k => 77 - k) <$> seqZ 0 76)).

(** The rounds from the character [c] on. *)
Fixpoint rounds (n : nat) (c : Z) : list Z :=
  match n with O => [] | S n => round c ++ rounds n (next_char c) end.

(** [n] ticks, each after [d] more bytes of output. *)
Fixpoint clock_ticks (d shown : Z) (n : nat) : list clock_event :=
  match n with O => [] | S n => Tick (shown + d) :: clock_ticks d (shown + d) n end.

Lemma clock_ticks_app d a n1 n2 :
  clock_ticks d a (n1 + n2) = clock_ticks d a n1 ++ clock_ticks d (a + Z.of_nat n1 * d) n2.
Proof.
  revert a. induction n1 as [|n1 IH]; intros a; cbn [clock_ticks Nat.add app].
  - f_equal. lia.
  - rewrite IH. do 3 f_equal. lia.
Qed.

(** [p] after the output [l] of [n] frames of [d] bytes, with a tick after
    each when [fd] is the clock. *)
Definition paced (fd d : Z) (n : nat) (l : list Z) (p : proc) : proc :=
  if decide (aget (p_fds p) fd = Some FdRtc)
  then with_clock (print p l) (p_clock p ++ clock_ticks d (Z.of_nat (length (p_out p))) n)
  else print p l.

Lemma paced_fds fd d n l p : p_fds (paced fd d n l p) = p_fds p.
Proof. unfold paced. by destruct (decide _). Qed.
Lemma paced_nil fd d p : paced fd d 0 [] p = p.
Proof. unfold paced. cbn [clock_ticks]. destruct p. destruct (decide _); unfold print, with_clock; cbn; by rewrite !app_nil_r. Qed.
Lemma paced_app fd d n1 n2 l1 l2 p :
  Z.of_nat (length l1) = Z.of_nat n1 * d ->
  paced fd d n2 l2 (paced fd d n1 l1 p) = paced fd d (n1 + n2) (l1 ++ l2) p.
Proof.
  intros Hl. unfold paced at 1. rewrite paced_fds. unfold paced. destruct (decide _) as [E|E]; [|apply print_print].
  unfold print, with_clock. cbn [p_arg p_fds p_dir p_dirpos p_input p_out p_cmd p_clock].
  rewrite clock_ticks_app, length_app, Nat2Z.inj_add, Hl, <- !app_assoc. done.
Qed.

Lemma blank_writes buf lo hi m :
  0 <= lo -> lo <= hi -> 0 <= buf -> buf + hi <= 4294967296 ->
  writes m (blank buf lo hi m) (buf + lo) (hi - lo) (fun _ => 32).
Proof.
  intros H1 H2 H3 H4. unfold blank.
  apply (for_inv (hi - lo) _ (fun i m' => writes m m' (buf + lo) i (fun _ => 32))); [lia|by apply writes_nil|].
  intros i m' Hi W. eapply writes_ext; [|eapply writes_app; [| |exact W|apply writes_store8]];
    [|lia|lia|unfold addr; lia].
  intros k Hk. cbn. destruct (k <? i); done.
Qed.

Lemma frame_get c j i : 0 <= i < 80 -> aget (frame c j) i = Some (cell_of j c i).
Proof.
  intros Hi. rewrite aget_lookup by lia. unfold frame. rewrite list_lookup_fmap, lookup_seqZ_lt by lia.
  cbn. do 2 f_equal. lia.
Qed.

(** The buffer but its inner part. *)
Definition walls (m : mem) (buf : Z) : Prop :=
  load8 m (buf + 80) = 0 /\ forall i, 0 <= i < 80 -> i < 2 \/ 78 <= i -> load8 m (buf + i) = cell_of (-1) 0 i.

Lemma draw m buf c j :
  walls m buf -> 2 <= j < 78 -> 0 < c < 256 -> 0 <= buf -> buf + 81 <= 4294967296 ->
  let m' := store8 (blank buf STARTLOOP LOOPMAX m) (buf + j) c in
  is_cstr m' buf (frame c j) /\ walls m' buf /\ same_outside buf (buf + 81) m m'.
Proof.
  intros [W0 Wl] Hj Hc H1 H2 m'. change STARTLOOP with 2 in *. change LOOPMAX with 78 in *.
  pose proof (blank_writes buf 2 78 m ltac:(lia) ltac:(lia) H1 ltac:(lia)) as B.
  assert (E : forall i, 0 <= i < 81 -> load8 m' (buf + i) =
    if i =? j then c else if (2 <=? i) && (i <? 78) then 32 else load8 m (buf + i)).
  { intros i Hi. unfold m'. rewrite load8_store8_addr by (unfold addr; lia).
    destruct (Z.eqb_spec (buf + j) (buf + i)), (Z.eqb_spec i j); try lia; [apply u8_small; lia|].
    rewrite B by (unfold addr; lia).
    destruct (Z.leb_spec (buf + 2) (buf + i)), (Z.ltb_spec (buf + i) (buf + 2 + (78 - 2))),
      (Z.leb_spec 2 i), (Z.ltb_spec i 78); (done || lia). }
  assert (Hl : length (frame c j) = 80%nat) by (unfold frame; by rewrite length_fmap, length_seqZ).
  assert (Wm : walls m' buf).
  { split; [rewrite E by lia; destruct (Z.eqb_spec 80 j); [lia|exact W0]|].
    intros i Hi Ho. rewrite E by lia. destruct (Z.eqb_spec i j); [lia|].
    destruct (Z.leb_spec 2 i), (Z.ltb_spec i 78); try lia; by apply Wl. }
  split; [|split; [exact Wm|]].
  - split; rewrite Hl; [|exact (proj1 Wm)]. intros i Hi. rewrite frame_get by lia.
    assert (Hv : load8 m' (buf + i) = cell_of j c i).
    { rewrite E by lia. unfold cell_of. destruct (Z.eqb_spec i j); [done|].
      destruct (Z.leb_spec 2 i), (Z.ltb_spec i 78); cbn [andb].
      2-4: rewrite Wl by lia; unfold cell_of; destruct (Z.eqb_spec i (-1)); [lia|done].
      destruct (Z.eqb_spec i 1), (Z.eqb_spec i 78), (Z.eqb_spec i 79); (done || lia). }
    rewrite Hv. split; [|done]. unfold cell_of.
    destruct (i =? j); [lia|]. destruct ((i =? 1) || (i =? 78)); [done|]. by destruct (i =? 79).
  - intros a Ha Ho. unfold m'. rewrite load8_store8_ne by (unfold addr in *; lia).
    apply (writes_out _ _ _ _ _ _ B Ha). lia.
Qed.

Section Theorems.
Context {W : Type} {O : OS W} {Vw : View W} {L : OSLaws W} {CL : ClockLaws W} (lit : list Z -> Z).

(** The clock at [fd], or a descriptor at which every call fails. *)
Definition clock (p : proc) (fd : Z) : Prop := aget (p_fds p) fd = Some FdRtc \/ fd = -1.

Lemma clock_paced p fd fd' d n l : clock p fd -> clock (paced fd' d n l p) fd.
Proof. unfold clock. by rewrite paced_fds. Qed.
Hint Resolve clock_paced : core.

(** A frame and the read of the clock after it. *)
Lemma clock_read m w p fd buf n l :
  view w (print p l) -> clock p fd ->
  exists w' r, sys SYS_READ fd buf n m w = Ok (m, w', r) /\ view w' (paced fd (Z.of_nat (length l)) 1 l p).
Proof.
  intros V [E| ->].
  - destruct (law_clock_read m w (print p l) fd buf n V E) as (w' & E' & V'). exists w', 0. split; [done|].
    unfold paced. rewrite decide_True by done. unfold await_tick in V'. cbn [print p_out] in V'.
    rewrite length_app, Nat2Z.inj_add in V'. exact V'.
  - destruct (law_read_fails m w (print p l) (-1) buf n V ltac:(lia) ltac:(lia)) as (w' & E' & V'). exists w', (-1).
    split; [done|]. unfold paced. by rewrite decide_False.
Qed.

Lemma clock_write m w p fd buf :
  view w p -> clock p fd -> in_user buf 4 -> exists w' r, sys SYS_WRITE fd buf 4 m w = Ok (m, w', r) /\
    view w' (if decide (aget (p_fds p) fd = Some FdRtc) then ask_rate p (load32 m buf) else p).
Proof.
  intros V [E| ->] U.
  - rewrite decide_True by done. exact (law_clock_write m w p fd buf V E U).
  - rewrite decide_False by done.
    destruct (law_write_fails m w p (-1) buf 4 V ltac:(lia) ltac:(lia)) as (w' & E' & V'). by exists w', (-1).
Qed.

Section Frames.
Context (buf garbage fd c : Z).
Hypothesis U : in_user buf 81.
Hypothesis Hc : 0 < c < 256.

Lemma pingpong_frames js p m w :
  Forall (fun j => 2 <= j < 78) js -> view w p -> clock p fd -> walls m buf ->
  exists m' w', forM js (pingpong_turn buf garbage fd c) (m, w) = Ok (m', w') /\ walls m' buf /\
    view w' (paced fd 80 (length js) (concat (frame c <$> js)) p).
Proof.
  revert p m w. induction js as [|j js IH]; intros p m w Hj V C Wm; cbn [forM].
  - exists m, w. split; [done|]. split; [done|]. cbn [length fmap list_fmap concat]. by rewrite paced_nil.
  - apply Forall_cons in Hj as [Hj Hjs]. destruct U as (U1 & U2 & U3). unfold TOP_PAGE, BOTTOM_PAGE in *.
    destruct (draw m buf c j Wm Hj Hc ltac:(lia) ltac:(lia)) as (Cs & Wm' & _). unfold pingpong_turn at 1.
    set (m1 := store8 _ _ _) in *.
    assert (Hl : length (frame c j) = 80%nat) by (unfold frame; by rewrite length_fmap, length_seqZ).
    destruct (fdputs_prints m1 w p buf (frame c j) V) as (w1 & E1 & V1).
    { split; [exact Cs|]. unfold in_user, TOP_PAGE, BOTTOM_PAGE. rewrite Hl. lia. }
    rewrite E1, bind_ok. destruct (clock_read m1 w1 p fd garbage 4 _ V1 C) as (w2 & r & E2 & V2).
    unfold ece391_read. rewrite E2, bind_ok. rewrite Hl in V2. change (Z.of_nat 80) with 80 in V2.
    destruct (IH _ m1 w2 Hjs V2) as (m' & w' & E & Wm2 & V'); [by apply clock_paced|done|].
    exists m', w'. split; [exact E|]. split; [done|]. rewrite paced_app in V' by (rewrite Hl; lia). exact V'.
Qed.

Lemma frames_length js : Z.of_nat (length (concat (frame c <$> js))) = Z.of_nat (length js) * 80.
Proof.
  induction js as [|j js IH]; [done|]. cbn [fmap list_fmap concat length]. rewrite length_app, Nat2Z.inj_add.
  unfold frame at 1. rewrite length_fmap, length_seqZ. change (fmap (frame c) js) with (frame c <$> js) in *. lia.
Qed.
Lemma round_length : Z.of_nat (length (round c)) = Z.of_nat 152 * 80.
Proof. unfold round. rewrite length_app, Nat2Z.inj_add, !frames_length, length_fmap, !length_seqZ. lia. Qed.

Lemma pingpong_round_prints p m w i :
  view w p -> clock p fd -> walls m buf ->
  exists m' w', pingpong_round buf garbage fd (m, w, c) i = Ok (m', w', next_char c) /\ walls m' buf /\
    view w' (paced fd 80 152 (round c) p).
Proof.
  intros V C Wm. unfold pingpong_round. change (LOOPMAX - STARTLOOP) with 76. change STARTLOOP with 2.
  destruct (pingpong_frames (seqZ 2 76) p m w) as (m1 & w1 & E1 & W1 & V1); try done.
  { apply Forall_forall. intros j Hj%elem_of_seqZ. lia. }
  rewrite E1, bind_ok. change (LOOPMAX - 1) with 77.
  destruct (pingpong_frames ((fun k => 77 - k) <$> seqZ 0 76)
      (paced fd 80 (length (seqZ 2 76)) (concat (frame c <$> seqZ 2 76)) p) m1 w1)
    as (m2 & w2 & E2 & W2 & V2); [|exact V1|by apply clock_paced|done|].
  { apply Forall_forall. intros j (k & -> & Hk%elem_of_seqZ)%list_elem_of_fmap. lia. }
  rewrite E2, bind_ok. exists m2, w2. split; [done|]. split; [done|].
  rewrite paced_app in V2 by apply frames_length. rewrite length_fmap, !length_seqZ in V2. exact V2.
Qed.
End Frames.

Lemma next_char_range c : 65 <= c <= 90 -> 65 <= next_char c <= 90.
Proof.
  intros Hc. unfold next_char, ENDCHAR, STARTCHAR. destruct (Z.eqb_spec c 90); [lia|]. rewrite u8_small; lia.
Qed.

Lemma pingpong_loop buf garbage fd n : in_user buf 81 ->
  forall a c p m w, 65 <= c <= 90 -> view w p -> clock p fd -> walls m buf ->
  exists m' w' c', forM (seqZ a (Z.of_nat n)) (pingpong_round buf garbage fd) (m, w, c) = Ok (m', w', c') /\
    view w' (paced fd 80 (152 * n) (rounds n c) p).
Proof.
  intros U. induction n as [|n IH]; intros a c p m w Hc V C Wm.
  - exists m, w, c. split; [done|]. rewrite Nat.mul_0_r. cbn [rounds]. by rewrite paced_nil.
  - rewrite seqZ_cons by lia. cbn [forM rounds].
    destruct (pingpong_round_prints buf garbage fd c U ltac:(lia) p m w a V C Wm) as (m1 & w1 & E1 & W1 & V1).
    rewrite E1. replace (Z.pred (Z.of_nat (S n))) with (Z.of_nat n) by lia.
    destruct (IH (Z.succ a) _ _ m1 w1 (next_char_range c Hc) V1)
      as (m2 & w2 & c2 & E2 & V2); [by apply clock_paced|done|].
    exists m2, w2, c2. split; [exact E2|]. rewrite paced_app in V2 by apply round_length.
    by replace (152 * S n)%nat with (152 + 152 * n)%nat by lia.
Qed.

(** C29 [pingpong] animates: in any number of rounds of its endless loop it
    prints exactly the frames of a letter that moves from the left wall to the
    right and back, one letter of the alphabet per round, from A on; each frame
    is 80 bytes with its newline.  It asks the clock for 32 ticks a second and
    then waits for one tick after each frame, before it prints the next; when
    the clock cannot be opened it runs without a pause, because it checks no
    result. *)
Theorem pingpong_correct (n : nat) (buf ret_val garbage : Z) (m : mem) (w : W) (p : proc) :
  view w p -> in_user buf 81 -> in_user ret_val 4 -> apart buf 81 ret_val 4 ->
  literals lit [bytes "rtc"] buf 81 m ->
  let run := pingpong_main lit (Z.of_nat n) buf ret_val garbage m w in
  (lookup_name p (bytes "rtc") = Some KRtc -> (lowest_free (p_fds p) < 8)%nat ->
   exists m' w' c, run = Ok (m', w', c) /\
     view w' (with_clock (print (with_fds p (<[lowest_free (p_fds p) := FdRtc]> (p_fds p))) (rounds n 65))
       (p_clock p ++ Rate 32 :: clock_ticks 80 (Z.of_nat (length (p_out p))) (152 * n)))) /\
  (lookup_name p (bytes "rtc") = None \/ lowest_free (p_fds p) = 8%nat ->
   exists m' w' c, run = Ok (m', w', c) /\ view w' (print p (rounds n 65))).
Proof.
  intros V U Ur Hap Hl run. pose proof (view_fds _ _ V) as H8. subst run. unfold pingpong_main, pingpong_setup.
  pose proof U as (U1 & _ & U3). pose proof Ur as (R1 & _ & R3). unfold TOP_PAGE, BOTTOM_PAGE, apart in *.
  change BUFMAX with 81. change START with 1.
  pose proof (blank_writes buf 0 81 m ltac:(lia) ltac:(lia) ltac:(lia) ltac:(lia)) as B.
  set (m0 := blank buf 0 81 m) in *. set (m1 := store8 (store8 (store8 (store8 m0 _ _) _ _) _ _) _ _).
  assert (Hm : forall a, addr a -> load8 m1 a = if buf + 1 =? a then 124 else if buf + 78 =? a then 124
    else if buf + 79 =? a then 10 else if buf + 80 =? a then 0 else load8 m0 a).
  { intros a Ha. unfold m1. by rewrite !load8_store8_addr by (exact Ha || unfold addr; lia). }
  assert (Wm : walls m1 buf).
  { split.
    - rewrite Hm by (unfold addr; lia). destruct (Z.eqb_spec (buf + 1) (buf + 80)), (Z.eqb_spec (buf + 78) (buf + 80)),
        (Z.eqb_spec (buf + 79) (buf + 80)), (Z.eqb_spec (buf + 80) (buf + 80)); (done || lia).
    - intros i Hi Ho. rewrite Hm by (unfold addr; lia). unfold cell_of.
      destruct (Z.eqb_spec (buf + 1) (buf + i)), (Z.eqb_spec (buf + 78) (buf + i)), (Z.eqb_spec (buf + 79) (buf + i)),
        (Z.eqb_spec (buf + 80) (buf + i)), (Z.eqb_spec i (-1)), (Z.eqb_spec i 1), (Z.eqb_spec i 78), (Z.eqb_spec i 79);
        try lia; try done.
      replace (buf + i) with (buf + 0 + i) by lia. apply (writes_in _ _ _ _ _ i B); lia. }
  assert (S1 : same_outside buf (buf + 81) m m1).
  { intros a Ha Ho. rewrite Hm by done. destruct (Z.eqb_spec (buf + 1) a), (Z.eqb_spec (buf + 78) a),
      (Z.eqb_spec (buf + 79) a), (Z.eqb_spec (buf + 80) a); try lia. apply (writes_out _ _ _ _ _ _ B Ha). lia. }
  clearbody m1. clear B Hm m0.
  assert (Hs : user_cstr m1 (lit (bytes "rtc")) (bytes "rtc")).
  { eapply (literals_at lit _ buf 81); [by eapply literals_same|by left]. }
  assert (Hrun : forall w1 q fd, ece391_open (lit (bytes "rtc")) m1 w = Ok (m1, w1, fd) -> view w1 q -> clock q fd ->
    exists m' w' c, ('(m, w, rtc_fd) ← ('(m, w, rtc_fd) ← ece391_open (lit (bytes "rtc")) m1 w;
       let m := store32 m ret_val 32 in '(m, w, r) ← ece391_write rtc_fd ret_val 4 m w;
       Ok (store32 m ret_val r, w, rtc_fd));
       forM (seqZ 0 (Z.of_nat n)) (pingpong_round buf garbage rtc_fd) (m, w, STARTCHAR)) = Ok (m', w', c) /\
      view w' (paced fd 80 (152 * n) (rounds n 65)
        (if decide (aget (p_fds q) fd = Some FdRtc) then ask_rate q 32 else q))).
  { intros w1 q fd -> V1 C. rewrite bind_ok. cbv zeta.
    destruct (clock_write (store32 m1 ret_val 32) w1 q fd ret_val V1 C Ur) as (w2 & r & E2 & V2).
    unfold ece391_write. rewrite E2, !bind_ok. rewrite load32_store32 in V2 by lia. change (u32 32) with 32 in V2.
    apply (pingpong_loop buf garbage fd n U); [by vm_compute|done|by destruct (decide _)|].
    assert (St : forall m v, same_outside ret_val (ret_val + 4) m (store32 m ret_val v)).
    { intros m2 v. apply same_outside_store32; lia. }
    destruct Wm as [W0 Wl]. split.
    - rewrite !St by (unfold addr; lia). exact W0.
    - intros i Hi Ho. rewrite !St by (unfold addr; lia). by apply Wl. }
  split.
  - intros Hk Hf. destruct (law_open m1 w p _ _ _ V Hs Hk Hf) as (w1 & E & V1). cbn [fd_for] in V1.
    assert (Ef : aget (p_fds (with_fds p (<[lowest_free (p_fds p) := FdRtc]> (p_fds p)))) (Z.of_nat (lowest_free (p_fds p))) = Some FdRtc).
    { cbn [with_fds p_fds]. rewrite aget_of_nat. apply list_lookup_insert_eq. lia. }
    destruct (Hrun w1 _ _ E V1 ltac:(by left)) as (m' & w' & c & R & V'). exists m', w', c. split; [exact R|].
    rewrite decide_True in V' by done. unfold paced in V'. rewrite decide_True in V' by done.
    unfold ask_rate in V'. cbn [with_clock with_fds print p_clock p_out] in V'. by rewrite <- app_assoc in V'.
  - intros Ho. destruct (law_open_fails m1 w p _ _ V Hs ltac:(done) Ho) as (w1 & E & V1).
    destruct (Hrun w1 _ _ E V1 ltac:(by right)) as (m' & w' & c & R & V'). exists m', w', c. split; [exact R|].
    rewrite decide_False in V' by done. unfold paced in V'. by rewrite decide_False in V' by done.
Qed.

(** ** sigtest *)

Definition sigtest_literals : list (list Z) :=
  [bytes "could not read argument" ++ [10]; bytes "Installing signal handlers" ++ [10];
   bytes "Hi, what's your name? "].

(** [sigtest] always dies.  With an argument it asks for the name, reads the
    line, and then stores through its NULL pointer, which is a page fault: the
    handlers it asks for when the argument starts with 1 are refused by this
    kernel ([set_handler] returns -1, which is not checked), so nothing catches
    it.  Without an argument it says so and ends with status 3. *)
Theorem sigtest_faults {KL : KeyboardLaws W} (badbuf charbuf segv alrm buf : Z) (m : mem) (w : W) (p : proc) :
  view w p -> in_user buf 1024 -> literals lit sigtest_literals buf 1024 m ->
  in_user badbuf 4 -> apart badbuf 4 buf 1024 -> load32 m badbuf = 0 ->
  let run := sigtest_main lit badbuf charbuf segv alrm buf m w in
  (p_arg p <> [] -> p_input p <> [] -> Forall (fun l => Z.of_nat (length l) < 128) (p_input p) -> run = Fault) /\
  (p_arg p = [] -> exists w', run = Ok (m, w', 3) /\
     view w' (print p (bytes "could not read argument" ++ [10]))).
Proof.
  intros V U Hl Ub Hap Hb run. subst run. unfold sigtest_main, BUFSIZE. split.
  - intros Hne Hin Hlen.
    destruct (law_getargs m w p buf 1024 V Hne ltac:(pose proof (view_arg _ _ V); lia) U) as (m1 & w1 & E1 & C1 & S1 & V1).
    unfold ece391_getargs. rewrite E1, bind_ok. change (negb (0 =? 0)) with false. cbv iota.
    assert (Hl1 : literals lit sigtest_literals buf 1024 m1) by (by eapply literals_same).
    assert (X : exists w2 q, (if load8 m1 buf =? 49 then
       '(m, w) ← ece391_fdputs 1 (lit (bytes "Installing signal handlers" ++ [10])) m1 w1;
       '(m, w, _) ← ece391_set_handler SEGFAULT segv m w;
       '(m, w, _) ← ece391_set_handler ALARM alrm m w; Ok (m, w) else Ok (m1, w1)) = Ok (m1, w2) /\
       view w2 q /\ p_input q = p_input p).
    { destruct (load8 m1 buf =? 49); [|by exists w1, p].
      destruct (fdputs_prints m1 w1 p _ _ V1 (literals_at _ _ _ _ _ (bytes "Installing signal handlers" ++ [10]) Hl1 ltac:(right; by left)))
        as (w2 & E2 & V2). rewrite E2, bind_ok. unfold ece391_set_handler, SYS_SET_HANDLER.
      destruct (law_number m1 w2 _ 9 SEGFAULT segv 0 V2 ltac:(lia) ltac:(lia)) as (w3 & E3 & V3). rewrite E3, bind_ok.
      destruct (law_number m1 w3 _ 9 ALARM alrm 0 V3 ltac:(lia) ltac:(lia)) as (w4 & E4 & V4). rewrite E4, bind_ok.
      eexists w4, _. split; [done|]. split; [exact V4|done]. }
    destruct X as (w2 & q & -> & V2 & Eq). rewrite bind_ok.
    destruct (fdputs_prints m1 w2 q _ _ V2 (literals_at _ _ _ _ _ (bytes "Hi, what's your name? ") Hl1 ltac:(do 2 right; by left)))
      as (w3 & E3 & V3). rewrite E3, bind_ok.
    destruct (p_input p) as [|l rest] eqn:Hi; [done|]. apply Forall_cons in Hlen as [Hll _].
    assert (U' : in_user buf 1023) by (unfold in_user in *; lia).
    destruct (law_read_line m1 w3 _ buf 1023 l rest V3 Eq ltac:(lia) U') as (m2 & w4 & E4 & _ & _ & _ & S2 & _).
    unfold ece391_read. change (1024 - 1) with 1023. rewrite E4, bind_ok. destruct (Z.eqb_spec (-1) (Z.of_nat (length l) + 1)); [lia|].
    assert (E : load32 m2 badbuf = 0).
    { rewrite <- Hb. apply load32_ext. intros i Hi'. unfold in_user, apart, TOP_PAGE, BOTTOM_PAGE in *.
      rewrite S2, S1 by (unfold addr; lia). done. }
    rewrite E. reflexivity.
  - intros He. destruct (law_getargs_none m w p buf 1024 V He) as (w1 & E & V1).
    unfold ece391_getargs. rewrite E, bind_ok. change (negb (0 =? -1)) with true. cbv iota.
    apply (fail_prints lit _ _ _ _ _ _ _ _ V1 Hl). by left.
Qed.
End Theorems.

(** ** Witnesses *)

Definition demo_clock_proc : proc := fresh_proc (bytes "1") (demo_dir ++ [(bytes "rtc", KRtc)]) [bytes "me"] demo_cmd.
Lemma demo_clock_ok : sim_view demo_clock_proc demo_clock_proc.
Proof.
  split; [done|]. split.
  - split; [|done]. repeat constructor; lia.
  - by split_and!.
  - apply (bool_decide_unpack _). by vm_compute.
  - apply (bool_decide_unpack _). by vm_compute.
  - apply (bool_decide_unpack _). by vm_compute.
Qed.

Definition demos_lit : list Z -> Z := lit_from demo_base (bytes "rtc" :: sigtest_literals).
Definition demos_m : mem := lit_mem demo_base (bytes "rtc" :: sigtest_literals).

Lemma pingpong_correct_witness :
  exists m' w' c, pingpong_main demos_lit 1 demo_buf 138407000 138407004 demos_m demo_clock_proc = Ok (m', w', c) /\
    Z.of_nat (length (p_out w')) = 12160 /\ take 3 (p_clock w') = [Rate 32; Tick 80; Tick 160] /\
    length (p_clock w') = 153%nat.
Proof.
  destruct (pingpong_correct demos_lit 1 demo_buf 138407000 138407004 demos_m demo_clock_proc demo_clock_proc)
    as [H _].
  - exact demo_clock_ok.
  - by split.
  - by split.
  - right. vm_compute. congruence.
  - apply literals_dec. by vm_compute.
  - destruct (H ltac:(reflexivity) ltac:(cbn; lia)) as (m' & w' & c & E & V). exists m', w', c.
    split; [exact E|]. destruct V as [-> _]. split_and!; by vm_compute.
Defined.

Lemma sigtest_faults_witness :
  sigtest_main demos_lit 138407000 138407008 0 0 demo_buf demos_m demo_clock_proc = Fault.
Proof.
  refine (proj1 (sigtest_faults demos_lit 138407000 138407008 0 0 demo_buf demos_m demo_clock_proc demo_clock_proc
    demo_clock_ok _ _ _ _ _) _ _ _).
  - by split.
  - apply literals_dec. by vm_compute.
  - by split.
  - left. vm_compute. congruence.
  - by vm_compute.
  - done.
  - done.
  - constructor; [cbn; lia|constructor].
Defined.
