(* ===== verification/Fish.v ===== *)
(** * fish.c, blink.S: the blinking fish

    The program keeps a list of blinkers in its memory: cells of an array,
    linked through their last word, that [fish.c] allocates and the routines of
    [blink.S] put on the list, take off it, and toggle with the clock.  The
    theorems relate the memory to a list of records. *)

From S2P Require Import Prelude Mem Lib Pcb Filesys Syscalls User Ulib Apps Demos.

Definition load16 (m : mem) (a : Z) : Z := load8 m a + 256 * load8 m (a + 1).
Definition s16 (z : Z) : Z := (z + 32768) mod 65536 - 32768.

Definition STRUCT_SIZE : Z := 16.
Definition ON_CHAR : Z := 2.
Definition OFF_CHAR : Z := 3.
Definition ON_LENGTH : Z := 4.
Definition OFF_LENGTH : Z := 6.
Definition COUNTDOWN : Z := 8.
Definition STATUS : Z := 10.
Definition NEXT : Z := 12.
Definition RTC_ADD : Z := 0.
Definition RTC_REMOVE : Z := 1.
Definition RTC_FIND : Z := 2.
Definition RTC_SYNC : Z := 3.
Definition CELLS : Z := 2000.   (* 80*25 *)

Section Blink.
(** [blink_array], [mp1_list_head], [vmem_base_addr], and the temporaries on
    the stack. *)
Context (arr head vmem_base_addr ts : Z).

(** ** fish.c *)

Definition ece391_memset (m : mem) (memory c n : Z) : mem :=
  for_ n (fun m i => store8 m (memory + i) c) m.
Definition ece391_memcpy (m : mem) (dest src n : Z) : mem * Z :=
  (for_ n (fun m i => store8 m (dest + i) (load8 m (src + i))) m, 0).

(** The first cell whose location is 0. *)
Definition mp1_malloc (m : mem) : res Z :=
  while (fun i => if i <? CELLS then
                    if load16 m (arr + STRUCT_SIZE * i) =? 0 then inr (Ok (arr + STRUCT_SIZE * i)) else inl (i + 1)
                  else inr (Ok NULL)) 0.
Definition mp1_free (m : mem) (memory : Z) : mem := ece391_memset m memory 0 STRUCT_SIZE.

(** ** blink.S *)

Definition mp1_poke (m : mem) (eax cl : Z) : mem := store8 m (u32 (load32 m vmem_base_addr + eax)) cl.

Definition tasklet_turn (m : mem) (ebx : Z) : mem :=
  let m := store16 m (ebx + COUNTDOWN) (load16 m (ebx + COUNTDOWN) - 1) in
  if 0 <? s16 (load16 m (ebx + COUNTDOWN)) then m
  else
    let eax := 2 * load16 m ebx in
    let on := Z.testbit (load16 m (ebx + STATUS)) 0 in
    let m := mp1_poke m eax (load8 m (ebx + if on then OFF_CHAR else ON_CHAR)) in
    let m := store16 m (ebx + COUNTDOWN) (load16 m (ebx + if on then OFF_LENGTH else ON_LENGTH)) in
    store16 m (ebx + STATUS) (Z.lxor (load16 m (ebx + STATUS)) 1).

Definition mp1_rtc_tasklet (m : mem) : res mem :=
  while (fun '(m, ebx) =>
    if ebx =? 0 then inr (Ok m)
    else let m := tasklet_turn m ebx in inl (m, load32 m (ebx + NEXT))) (m, load32 m head).

Definition mp1_find_helper (m : mem) (location : Z) : res Z :=
  while (fun ebx => if ebx =? 0 then inr (Ok 0)
                    else if u16 location =? load16 m ebx then inr (Ok ebx)
                    else inl (load32 m (ebx + NEXT))) (load32 m head).

Definition mp1_ioctl_add (m : mem) (arg : Z) : res (mem * Z) :=
  let '(m, r) := ece391_memcpy m ts arg STRUCT_SIZE in
  if negb (r =? 0) then Ok (m, -1)
  else if CELLS <=? load16 m ts then Ok (m, -1)
  else
    let m := store16 m (ts + STATUS) 1 in
    let m := store16 m (ts + COUNTDOWN) (load16 m (ts + ON_LENGTH)) in
    edx ← mp1_malloc m;
    if edx =? 0 then Ok (m, -1)
    else
      let '(m, _) := ece391_memcpy m edx ts STRUCT_SIZE in
      let m := store32 m (edx + NEXT) (load32 m head) in
      let m := store32 m head edx in
      Ok (mp1_poke m (2 * load16 m edx) (load8 m (edx + ON_CHAR)), 0).

(** The pointer that points to [eax], from the head on. *)
Definition find_prev (m : mem) (eax : Z) : res Z :=
  while (fun edx => if load32 m edx =? eax then inr (Ok edx) else inl (load32 m edx + NEXT)) head.

Definition mp1_ioctl_remove (m : mem) (arg : Z) : res (mem * Z) :=
  eax ← mp1_find_helper m arg;
  if eax =? 0 then Ok (m, -1)
  else
    edx ← find_prev m eax;
    let m := store32 m edx (load32 m (eax + NEXT)) in
    Ok (mp1_free m eax, 0).

(** [testb] clears the overflow flag, so [cmovl] moves on a negative byte. *)
Definition mp1_ioctl_sync (m : mem) (arg : Z) : res (mem * Z) :=
  esi ← mp1_find_helper m (Z.shiftr (u32 arg) 16);
  if esi =? 0 then Ok (m, -1)
  else
    edi ← mp1_find_helper m (Z.land arg 65535);
    if edi =? 0 then Ok (m, -1)
    else
      let m := store16 m (edi + ON_LENGTH) (load16 m (esi + ON_LENGTH)) in
      let m := store16 m (edi + OFF_LENGTH) (load16 m (esi + OFF_LENGTH)) in
      let m := store16 m (edi + COUNTDOWN) (load16 m (esi + COUNTDOWN)) in
      let m := store16 m (edi + STATUS) (load16 m (esi + STATUS)) in
      let less := Z.testbit (Z.land (load8 m (edi + STATUS)) 1) 7 in
      Ok (mp1_poke m (2 * load16 m edi) (load8 m (edi + if less then ON_CHAR else OFF_CHAR)), 0).

Definition mp1_ioctl_find (m : mem) (arg : Z) : res (mem * Z) :=
  let '(m, r) := ece391_memcpy m ts arg 2 in
  if negb (r =? 0) then Ok (m, -1)
  else
    eax ← mp1_find_helper m (load16 m ts);
    if eax =? 0 then Ok (m, -1)
    else
      let '(m, r) := ece391_memcpy m arg eax STRUCT_SIZE in
      Ok (m, if r =? 0 then 0 else -1).

(** A command outside [call_table] jumps to whatever follows it. *)
Definition mp1_ioctl (m : mem) (arg cmd : Z) : res (mem * Z) :=
  if cmd =? RTC_ADD then mp1_ioctl_add m arg
  else if cmd =? RTC_REMOVE then mp1_ioctl_remove m arg
  else if cmd =? RTC_FIND then mp1_ioctl_find m arg
  else if cmd =? RTC_SYNC then mp1_ioctl_sync m arg
  else Fault.
End Blink.

(** ** The program *)

Section Program.
Context `{OS W} (lit : list Z -> Z) (arr head vmem_base_addr ts : Z).
Abbreviation ioctl := (mp1_ioctl arr head vmem_base_addr ts).

Definition WAIT : Z := 200.

Definition mp1_set_video_mode (m : mem) (w : W) : res (mem * W * Z) :=
  '(m, w, r) ← ece391_vidmap vmem_base_addr m w;
  Ok (m, w, if r =? -1 then NULL else load32 m vmem_base_addr).

(** One character of a frame file, if its line has not ended: [c] and [eof]
    of the code. *)
Definition next_byte (fd c_addr c eof : Z) (m : mem) (w : W) : res (mem * W * Z * Z) :=
  if c =? 10 then Ok (m, w, c, eof)
  else
    '(m, w, num_bytes) ← ece391_read fd c_addr 1 (store8 m c_addr c) w;
    if num_bytes =? 0 then Ok (m, w, 10, 1) else Ok (m, w, load8 m c_addr, eof).

(** One column: [inr] at the end of both lines.  [bs]: the local structure. *)
Definition column_turn (fd0 fd1 a0 a1 bs row offset : Z) (s : mem * W * Z * Z * Z * Z * Z)
    : res ((mem * W * Z * Z * Z * Z * Z) + (mem * W * Z * Z)) :=
  let '(m, w, c0, c1, eof0, eof1, col) := s in
  '(m, w, c0, eof0) ← next_byte fd0 a0 c0 eof0 m w;
  '(m, w, c1, eof1) ← next_byte fd1 a1 c1 eof1 m w;
  if (c0 =? 10) && (c1 =? 10) then Ok (inr (m, w, eof0, eof1))
  else
    m ← (if (negb (c0 =? 32) && negb (c0 =? 10)) || (negb (c1 =? 32) && negb (c1 =? 10)) then
           let m := store8 m (bs + ON_CHAR) (if c0 =? 10 then 32 else c0) in
           let m := store8 m (bs + OFF_CHAR) (if c1 =? 10 then 32 else c1) in
           let m := store16 m bs (row * 80 + col + offset) in
           '(m, _) ← ioctl m bs RTC_ADD; Ok m
         else Ok m);
    Ok (inl (m, w, c0, c1, eof0, eof1, col + 1)).

(** One row; the flags and characters for the next. *)
Definition row_turn (fd0 fd1 a0 a1 bs : Z) (s : mem * W * Z * Z * Z * Z * Z)
    : res ((mem * W * Z * Z * Z * Z * Z) + (mem * W)) :=
  let '(m, w, c0, c1, eof0, eof1, row) := s in
  if negb ((eof0 =? 0) || (eof1 =? 0)) then Ok (inr (m, w))
  else
    '(m, w, eof0, eof1) ← whileM (column_turn fd0 fd1 a0 a1 bs row 40) (m, w, c0, c1, eof0, eof1, 0);
    '(m, w, c0) ← (if negb (eof0 =? 0) then
       '(m, w, _) ← ece391_close fd0 m w; Ok (m, w, 10) else Ok (m, w, 48));
    '(m, w, c1) ← (if negb (eof1 =? 0) then
       '(m, w, _) ← ece391_close fd1 m w; Ok (m, w, 10) else Ok (m, w, 48));
    Ok (inl (m, w, c0, c1, eof0, eof1, row + 1)).

(** [inl] when a file cannot be opened: the program halts. *)
Definition add_frames (f0 f1 a0 a1 bs : Z) (m : mem) (w : W) : res (mem * W + mem * W) :=
  let m := store16 m (bs + ON_LENGTH) 15 in
  let m := store16 m (bs + OFF_LENGTH) 15 in
  '(m, w, fd0) ← ece391_open f0 m w;
  if fd0 <? 0 then Ok (inl (m, w))
  else
    '(m, w, fd1) ← ece391_open f1 m w;
    if fd1 <? 0 then Ok (inl (m, w))
    else
      s ← whileM (row_turn fd0 fd1 a0 a1 bs) (m, w, 48, 48, 0, 0, 0);
      Ok (inr s).

(** [for(i = 0; i < n; i++) { read; mp1_rtc_tasklet; }] *)
Definition tick_turn (rtc_fd garbage : Z) (s : mem * W) (_ : Z) : res (mem * W) :=
  let '(m, w) := s in
  '(m, w, _) ← ece391_read rtc_fd garbage 4 m w;
  m ← mp1_rtc_tasklet head vmem_base_addr m;
  Ok (m, w).
Definition ticks (n rtc_fd garbage : Z) (m : mem) (w : W) : res (mem * W) :=
  forM (seqZ 0 n) (tick_turn rtc_fd garbage) (m, w).

(** [main] from the setting of the clock on. *)
Definition animate (rs ret_val garbage rtc_fd : Z) (m : mem) (w : W) : res (mem * W * Z) :=
  let m := store32 m ret_val 32 in
  '(m, w, r) ← ece391_write rtc_fd ret_val 4 m w;
  let m := store32 m ret_val r in
  '(m, w) ← ticks WAIT rtc_fd garbage m w;
  let m := store8 m (rs + ON_CHAR) 73 in
  let m := store8 m (rs + OFF_CHAR) 77 in
  let m := store16 m (rs + ON_LENGTH) 7 in
  let m := store16 m (rs + OFF_LENGTH) 6 in
  let m := store16 m rs (6 * 80 + 60) in
  '(m, _) ← ioctl m rs RTC_ADD;
  '(m, w) ← ticks WAIT rtc_fd garbage m w;
  '(m, _) ← ioctl m (Z.lor (Z.shiftl 40 16) (6 * 80 + 60)) RTC_SYNC;
  '(m, w) ← ticks WAIT rtc_fd garbage m w;
  let m := store16 m rs 60 in
  '(m, _) ← ioctl m WAIT RTC_REMOVE;
  '(m, w) ← ticks (80 * 25) rtc_fd garbage m w;
  '(m, w, _) ← ece391_close rtc_fd m w;
  Ok (m, w, 0).

Definition fish_main (f0 f1 a0 a1 bs rs ret_val garbage : Z) (m : mem) (w : W) : res (mem * W * Z) :=
  let m := ece391_memset m arr 0 (STRUCT_SIZE * 80 * 25) in
  '(m, w, v) ← mp1_set_video_mode m w;
  if v =? NULL then Ok (m, w, -1)
  else
    '(m, w, rtc_fd) ← ece391_open (lit (bytes "rtc")) m w;
    s ← add_frames f0 f1 a0 a1 bs m w;
    match s with
    | inl (m, w) => Ok (m, w, -1)
    | inr (m, w) => animate rs ret_val garbage rtc_fd m w
    end.
End Program.

(** ** Words in memory *)

Lemma load16_range m a : 0 <= load16 m a < 65536.
Proof. unfold load16. pose proof (load8_range m a). pose proof (load8_range m (a + 1)). lia. Qed.

Lemma load16_ext m m' a :
  (forall i, 0 <= i < 2 -> load8 m (a + i) = load8 m' (a + i)) -> load16 m a = load16 m' a.
Proof.
  intros H. unfold load16. pose proof (H 0 ltac:(lia)) as H0. rewrite Z.add_0_r in H0. by rewrite H0, (H 1) by lia.
Qed.

Lemma load16_store16 m a v : 0 <= a -> a + 2 <= 4294967296 -> load16 (store16 m a v) a = u16 v.
Proof.
  intros H1 H2. unfold load16. pose proof (writes_store16 m a v H1 H2) as Wr.
  rewrite (writes_in _ _ _ _ _ 1 Wr) by lia.
  pose proof (writes_in _ _ _ _ _ 0 Wr H1 H2 ltac:(lia)) as E. rewrite Z.add_0_r in E. rewrite E.
  change (2 ^ (8 * 0)) with 1. change (2 ^ (8 * 1)) with 256. rewrite Z.div_1_r. unfold u8, u16. zdm.
Qed.

(** Loads that a change of other bytes does not touch. *)
Section Frame.
Context (m m' : mem) (lo hi : Z).
Hypothesis S : same_outside lo hi m m'.
Lemma load8_frame a : 0 <= a < 4294967296 -> a < lo \/ hi <= a -> load8 m' a = load8 m a.
Proof. intros H1 H2. apply S; [done|lia]. Qed.
Lemma load16_frame a : 0 <= a -> a + 2 <= 4294967296 -> a + 2 <= lo \/ hi <= a -> load16 m' a = load16 m a.
Proof. intros. apply load16_ext. intros i Hi. apply load8_frame; lia. Qed.
Lemma load32_frame a : 0 <= a -> a + 4 <= 4294967296 -> a + 4 <= lo \/ hi <= a -> load32 m' a = load32 m a.
Proof. intros. apply load32_ext. intros i Hi. apply load8_frame; lia. Qed.
End Frame.

Lemma same_store16 m a v : 0 <= a -> a + 2 <= 4294967296 -> same_outside a (a + 2) m (store16 m a v).
Proof. intros. by eapply writes_same_outside, writes_store16. Qed.
Lemma same_store8 m a v : 0 <= a < 4294967296 -> same_outside a (a + 1) m (store8 m a v).
Proof. intros. eapply writes_same_outside, writes_store8. done. Qed.

Lemma ece391_memcpy_writes m d s n :
  0 <= n -> in_space d n -> in_space s n -> apart d n s n ->
  writes m (ece391_memcpy m d s n).1 d n (fun i => load8 m (s + i)).
Proof.
  unfold in_space, apart. intros Hn Hd Hs Hap.
  apply (for_inv n _ (fun k m' => writes m m' d k (fun i => load8 m (s + i)))); [done|by apply writes_nil|].
  intros k m' Hk Wr. eapply writes_ext; [|eapply writes_app; [| |exact Wr|apply writes_store8]];
    [|lia|lia|unfold addr; lia].
  intros i Hi. cbn beta. destruct (Z.ltb_spec i k); [done|]. replace i with k by lia.
  rewrite u8_small by apply load8_range. apply (writes_out _ _ _ _ _ _ Wr); [unfold addr; lia|lia].
Qed.

Lemma ece391_memset_writes m d c n :
  0 <= n -> in_space d n -> writes m (ece391_memset m d c n) d n (fun _ => u8 c).
Proof.
  unfold in_space. intros Hn Hd.
  apply (for_inv n _ (fun k m' => writes m m' d k (fun _ => u8 c))); [done|by apply writes_nil|].
  intros k m' Hk Wr. eapply writes_ext; [|eapply writes_app; [| |exact Wr|apply writes_store8]];
    [|lia|lia|unfold addr; lia].
  intros i Hi. cbn beta. by destruct (i <? k).
Qed.

Lemma ece391_memcpy_pair m d s n : ece391_memcpy m d s n = ((ece391_memcpy m d s n).1, 0).
Proof. reflexivity. Qed.

(** ** The list of blinkers *)

Record blink : Type := Blink {
  location : Z; on_char : Z; off_char : Z; on_length : Z; off_length : Z; countdown : Z; status : Z }.

(** A cell of the array, but its link. *)
Definition cell_at (m : mem) (a : Z) : blink :=
  Blink (load16 m a) (load8 m (a + ON_CHAR)) (load8 m (a + OFF_CHAR)) (load16 m (a + ON_LENGTH))
    (load16 m (a + OFF_LENGTH)) (load16 m (a + COUNTDOWN)) (load16 m (a + STATUS)).

Lemma cell_frame m m' lo hi a :
  same_outside lo hi m m' -> 0 <= a -> a + 12 <= 4294967296 -> a + 12 <= lo \/ hi <= a -> cell_at m' a = cell_at m a.
Proof.
  intros S H1 H2 Ho. unfold cell_at, ON_CHAR, OFF_CHAR, ON_LENGTH, OFF_LENGTH, COUNTDOWN, STATUS.
  f_equal; (apply (load16_frame _ _ _ _ S) || apply (load8_frame _ _ _ _ S)); lia.
Qed.

Lemma cell_copied m m' d s :
  0 <= s -> s + 16 <= 4294967296 -> 0 <= d -> d + 16 <= 4294967296 ->
  writes m m' d 16 (fun i => load8 m (s + i)) -> cell_at m' d = cell_at m s.
Proof.
  intros H1 H2 H3 H4 Wr. assert (E : forall i, 0 <= i < 16 -> load8 m' (d + i) = load8 m (s + i)).
  { intros i Hi. by rewrite (writes_in _ _ _ _ _ _ Wr) by lia. }
  unfold cell_at, ON_CHAR, OFF_CHAR, ON_LENGTH, OFF_LENGTH, COUNTDOWN, STATUS, load16.
  rewrite <- !Z.add_assoc, !E by lia. pose proof (E 0 ltac:(lia)) as E0. rewrite !Z.add_0_r in E0. by rewrite E0.
Qed.

(** The cells [l] linked from the pointer [p] on. *)
Fixpoint chain (m : mem) (p : Z) (l : list Z) : Prop :=
  match l with [] => p = 0 | a :: l => p = a /\ chain m (load32 m (a + NEXT)) l end.

Lemma chain_same m m' p l :
  (forall a, a ∈ l -> load32 m' (a + NEXT) = load32 m (a + NEXT)) -> chain m p l -> chain m' p l.
Proof.
  revert p. induction l as [|a l IH]; intros p E; cbn [chain]; [done|]. intros [-> H]. split; [done|].
  rewrite E by set_solver. apply IH; [|done]. intros b Hb. apply E. set_solver.
Qed.

(** The link of a cell of the list. *)
Lemma chain_next m p l1 a l2 : chain m p (l1 ++ a :: l2) -> load32 m (a + NEXT) = List.hd 0 l2.
Proof.
  revert p. induction l1 as [|b l1 IH]; intros p; cbn [chain app].
  - intros [_ H]. destruct l2; [exact H|apply H].
  - intros [_ H]. by apply IH in H.
Qed.

Section Heap.
Context (arr head vb ts vid : Z).

Record layout : Prop := Layout {
  ly_space : 0 < arr /\ arr + 32000 <= 4294967296 /\ 0 < head /\ head + 4 <= 4294967296 /\
    0 <= vb /\ vb + 4 <= 4294967296 /\ 0 <= ts /\ ts + 16 <= 4294967296 /\ 0 <= vid /\ vid + 4000 <= 4294967296;
  ly_arr : apart arr 32000 head 4 /\ apart arr 32000 vb 4 /\ apart arr 32000 ts 16 /\ apart arr 32000 vid 4000;
  ly_rest : apart head 4 vb 4 /\ apart head 4 ts 16 /\ apart head 4 vid 4000 /\ apart vb 4 ts 16 /\
    apart vb 4 vid 4000 /\ apart ts 16 vid 4000 }.
Hypothesis Hlay : layout.

Lemma layout_facts :
  (0 < arr /\ arr + 32000 <= 4294967296 /\ 0 < head /\ head + 4 <= 4294967296 /\
    0 <= vb /\ vb + 4 <= 4294967296 /\ 0 <= ts /\ ts + 16 <= 4294967296 /\ 0 <= vid /\ vid + 4000 <= 4294967296) /\
  ((arr + 32000 <= head \/ head + 4 <= arr) /\ (arr + 32000 <= vb \/ vb + 4 <= arr) /\
   (arr + 32000 <= ts \/ ts + 16 <= arr) /\ (arr + 32000 <= vid \/ vid + 4000 <= arr)) /\
  ((head + 4 <= vb \/ vb + 4 <= head) /\ (head + 4 <= ts \/ ts + 16 <= head) /\
   (head + 4 <= vid \/ vid + 4000 <= head) /\ (vb + 4 <= ts \/ ts + 16 <= vb) /\
   (vb + 4 <= vid \/ vid + 4000 <= vb) /\ (ts + 16 <= vid \/ vid + 4000 <= ts)).
Proof. destruct Hlay as [H1 H2 H3]. exact (conj H1 (conj H2 H3)). Qed.

Definition is_cell (a : Z) : Prop := exists i, 0 <= i < CELLS /\ a = arr + STRUCT_SIZE * i.

Lemma cell_bounds a : is_cell a -> arr <= a /\ a + 16 <= arr + 32000.
Proof. intros (i & Hi & ->). unfold CELLS, STRUCT_SIZE in *. lia. Qed.
Lemma cell_apart a b : is_cell a -> is_cell b -> a <> b -> a + 16 <= b \/ b + 16 <= a.
Proof. intros (i & Hi & ->) (j & Hj & ->). unfold STRUCT_SIZE in *. lia. Qed.

(** The blinkers are the cells [l], in order; every other cell is free. *)
Record blinking (m : mem) (l : list Z) : Prop := Blinking {
  bk_chain : chain m (load32 m head) l;
  bk_nodup : NoDup l;
  bk_cells : Forall is_cell l;
  bk_loc : Forall (fun a => 0 < location (cell_at m a) < CELLS) l;
  bk_free : forall a, is_cell a -> a ∉ l -> load16 m a = 0;
  bk_video : load32 m vb = vid }.

(** There are at most 2000. *)
Definition all_cells : list Z := (fun i => arr + STRUCT_SIZE * i) <$> seqZ 0 CELLS.
Lemma elem_of_all a : a ∈ all_cells <-> is_cell a.
Proof.
  unfold all_cells, is_cell. rewrite list_elem_of_fmap. split.
  - intros (i & -> & Hi%elem_of_seqZ). exists i. split; [lia|done].
  - intros (i & Hi & ->). exists i. split; [done|]. apply elem_of_seqZ. lia.
Qed.
Lemma cells_few m l : blinking m l -> Z.of_nat (length l) <= CELLS.
Proof.
  intros B. assert (H : l ⊆+ all_cells).
  { apply NoDup_submseteq; [apply B|]. intros a Ha. apply elem_of_all.
    pose proof (bk_cells _ _ B) as Hc. rewrite Forall_forall in Hc. by apply Hc. }
  apply submseteq_length in H. unfold all_cells, CELLS in *. rewrite length_fmap, length_seqZ in H. lia.
Qed.
Lemma cells_free m l :
  blinking m l -> Z.of_nat (length l) < CELLS -> exists a, is_cell a /\ a ∉ l.
Proof.
  intros B Hl. destruct (decide (Forall (fun a => a ∈ l) all_cells)) as [Hf|Hf].
  - exfalso. rewrite Forall_forall in Hf.
    assert (Hn : NoDup all_cells).
    { unfold all_cells. apply NoDup_fmap_2; [|apply NoDup_seqZ]. intros i j. unfold STRUCT_SIZE. lia. }
    pose proof (submseteq_length _ _ (NoDup_submseteq _ _ Hn Hf)) as H.
    unfold all_cells, CELLS in *. rewrite length_fmap, length_seqZ in H. lia.
  - apply not_Forall_Exists, Exists_exists in Hf; [|apply _]. destruct Hf as (a & Ha & Hn).
    exists a. split; [by apply elem_of_all|done].
Qed.
Lemma cells_full m l a : blinking m l -> CELLS <= Z.of_nat (length l) -> is_cell a -> a ∈ l.
Proof.
  intros B Hl Ha. destruct (decide (a ∈ l)) as [|Hn]; [done|]. exfalso.
  assert (H : (a :: l) ⊆+ all_cells).
  { apply NoDup_submseteq; [constructor; [done|apply B]|]. intros b Hb. apply elem_of_all.
    apply elem_of_cons in Hb as [->|Hb]; [done|]. pose proof (bk_cells _ _ B) as Hc. rewrite Forall_forall in Hc. by apply Hc. }
  apply submseteq_length in H. unfold all_cells, CELLS in *. rewrite length_fmap, length_seqZ in H. cbn [length] in H. lia.
Qed.

(** The cell that [mp1_find_helper] looks for. *)
Fixpoint first_at (m : mem) (x : Z) (l : list Z) : Z :=
  match l with [] => 0 | a :: l => if x =? location (cell_at m a) then a else first_at m x l end.

Lemma find_helper_spec m l x :
  blinking m l -> mp1_find_helper head m x = Ok (first_at m (u16 x) l).
Proof.
  intros B. unfold mp1_find_helper.
  apply (while_rank _ (fun n p => exists l2, n = Z.of_nat (length l2) /\ chain m p l2 /\ Forall is_cell l2 /\
    first_at m (u16 x) l2 = first_at m (u16 x) l) (fun r => r = Ok (first_at m (u16 x) l)) (Z.of_nat (length l))).
  - exists l. split; [done|]. split; [apply B|]. split; [apply B|done].
  - pose proof (cells_few m l B). unfold CELLS in *. lia.
  - intros n p _ (l2 & -> & C & Hc & E). destruct l2 as [|a l2]; cbn [chain] in C.
    + rewrite C. cbn. by rewrite <- E.
    + destruct C as [-> C]. apply Forall_cons in Hc as [Ha Hc]. pose proof (cell_bounds a Ha).
      destruct layout_facts as (Ly & _). destruct (Z.eqb_spec a 0); [lia|]. cbn [first_at] in E.
      change (location (cell_at m a)) with (load16 m a) in E.
      destruct (Z.eqb_spec (u16 x) (load16 m a)); [by rewrite <- E|].
      exists (Z.of_nat (length l2)). split; [cbn [length]; lia|]. by exists l2.
Qed.

Lemma malloc_spec m l :
  blinking m l ->
  (Z.of_nat (length l) < CELLS -> exists a, mp1_malloc arr m = Ok a /\ is_cell a /\ a ∉ l) /\
  (CELLS <= Z.of_nat (length l) -> mp1_malloc arr m = Ok 0).
Proof.
  intros B. assert (Hin : forall a, a ∈ l -> load16 m a <> 0).
  { intros a Ha. pose proof (bk_loc _ _ B) as Hl. rewrite Forall_forall in Hl. specialize (Hl a Ha).
    change (location (cell_at m a)) with (load16 m a) in Hl. lia. }
  split.
  - intros Hl. destruct (cells_free m l B Hl) as (b & Hb & Hn). destruct Hb as (j & Hj & Eb).
    pose proof (bk_free _ _ B b ltac:(by exists j) Hn) as Hz. unfold mp1_malloc.
    apply (while_rule _ (fun i => 0 <= i <= j) (fun i => j - i) (fun r => exists a, r = Ok a /\ is_cell a /\ a ∉ l));
      unfold CELLS in *; [lia|lia|].
    intros i Hi. destruct (Z.ltb_spec i 2000); [|lia].
    destruct (Z.eqb_spec (load16 m (arr + STRUCT_SIZE * i)) 0) as [E|E].
    + eexists. split; [done|]. split; [exists i; split; [unfold CELLS; lia|done]|]. intros Ha. by apply (Hin _ Ha).
    + destruct (decide (i = j)) as [->|]; [by rewrite <- Eb in E|lia].
  - intros Hl. unfold mp1_malloc.
    apply (while_rule _ (fun i => 0 <= i <= CELLS) (fun i => CELLS - i)); unfold CELLS in *; [lia|lia|].
    intros i Hi. destruct (Z.ltb_spec i 2000); [|done].
    destruct (Z.eqb_spec (load16 m (arr + STRUCT_SIZE * i)) 0) as [E|E]; [|lia].
    exfalso. apply (Hin (arr + STRUCT_SIZE * i)); [|done]. apply (cells_full m l _ B); [unfold CELLS; lia|].
    exists i. unfold CELLS. split; [lia|done].
Qed.

(** ** The view: the blinkers, and the characters on the screen *)

Record scene : Type := Scene { blinks : list blink; shown : Z -> Z }.
Definition upd (f : Z -> Z) (x c : Z) : Z -> Z := fun y => if y =? x then c else f y.

Record shows_scene (m : mem) (l : list Z) (sc : scene) : Prop := Shows {
  sh_list : blinking m l;
  sh_blinks : cell_at m <$> l = blinks sc;
  sh_screen : forall x, 0 <= x < CELLS -> load8 m (vid + 2 * x) = shown sc x }.

(** Changes elsewhere. *)
Lemma blinking_same m m' l :
  (forall a, is_cell a -> cell_at m' a = cell_at m a /\ load32 m' (a + NEXT) = load32 m (a + NEXT)) ->
  load32 m' head = load32 m head -> load32 m' vb = load32 m vb -> blinking m l -> blinking m' l.
Proof.
  intros E Eh Ev [B1 B2 B3 B4 B5 B6]. pose proof B3 as Hc. rewrite Forall_forall in Hc. split; try done.
  - rewrite Eh. eapply chain_same; [|exact B1]. intros a Ha. by apply E, Hc.
  - rewrite Forall_forall in B4 |- *. intros a Ha. rewrite (proj1 (E a (Hc a Ha))). by apply B4.
  - intros a Ha Hn. change (load16 m' a) with (location (cell_at m' a)). rewrite (proj1 (E a Ha)). by apply B5.
  - by rewrite Ev.
Qed.

Lemma cells_same m m' l :
  Forall is_cell l -> (forall a, is_cell a -> cell_at m' a = cell_at m a) -> cell_at m' <$> l = cell_at m <$> l.
Proof.
  intros Hc E. apply list_fmap_ext. intros i a Ha. apply E. rewrite Forall_forall in Hc.
  by apply Hc, (list_elem_of_lookup_2 _ _ _ Ha).
Qed.

Lemma blinking_frame m m' lo hi l :
  same_outside lo hi m m' -> arr + 32000 <= lo \/ hi <= arr -> head + 4 <= lo \/ hi <= head ->
  vb + 4 <= lo \/ hi <= vb -> blinking m l -> blinking m' l.
Proof.
  intros S H1 H2 H3. destruct layout_facts as (Ly & _). apply blinking_same.
  - intros a Ha. pose proof (cell_bounds a Ha). split; [apply (cell_frame _ _ _ _ _ S)|apply (load32_frame _ _ _ _ S)];
      unfold NEXT; lia.
  - apply (load32_frame _ _ _ _ S); lia.
  - apply (load32_frame _ _ _ _ S); lia.
Qed.

Lemma shows_frame m m' lo hi l sc :
  same_outside lo hi m m' -> arr + 32000 <= lo \/ hi <= arr -> head + 4 <= lo \/ hi <= head ->
  vb + 4 <= lo \/ hi <= vb -> vid + 4000 <= lo \/ hi <= vid -> shows_scene m l sc -> shows_scene m' l sc.
Proof.
  intros S H1 H2 H3 H4 [B E X]. destruct layout_facts as (Ly & _).
  pose proof (blinking_frame m m' lo hi l S H1 H2 H3 B) as B'. split; [done| |].
  - rewrite <- E. apply cells_same; [apply B|]. intros a Ha. pose proof (cell_bounds a Ha).
    apply (cell_frame _ _ _ _ _ S); lia.
  - intros x Hx. unfold CELLS in Hx. rewrite <- X by (unfold CELLS; lia). apply (load8_frame _ _ _ _ S); lia.
Qed.

Lemma shows_poke m l sc x c :
  shows_scene m l sc -> 0 <= x < CELLS -> 0 <= c < 256 ->
  shows_scene (mp1_poke vb m (2 * x) c) l (Scene (blinks sc) (upd (shown sc) x c)).
Proof.
  intros [B E X] Hx Hc. destruct layout_facts as (Ly & La & Lr). unfold mp1_poke. rewrite (bk_video _ _ B).
  unfold CELLS in *. rewrite u32_small by lia.
  pose proof (same_store8 m (vid + 2 * x) c ltac:(lia)) as S. split.
  - eapply blinking_frame; [exact S|lia..|done].
  - cbn [blinks]. rewrite <- E. apply cells_same; [apply B|]. intros a Ha. pose proof (cell_bounds a Ha).
    apply (cell_frame _ _ _ _ _ S); lia.
  - unfold CELLS. intros y Hy. rewrite load8_store8_addr by (unfold addr; lia). cbn [shown]. unfold upd.
    destruct (Z.eqb_spec (vid + 2 * x) (vid + 2 * y)), (Z.eqb_spec y x); try lia; [apply u8_small; lia|].
    apply X. unfold CELLS. lia.
Qed.

(** ** One cell changed *)

Definition set_on_length (v : Z) (b : blink) : blink :=
  Blink (location b) (on_char b) (off_char b) v (off_length b) (countdown b) (status b).
Definition set_off_length (v : Z) (b : blink) : blink :=
  Blink (location b) (on_char b) (off_char b) (on_length b) v (countdown b) (status b).
Definition set_countdown (v : Z) (b : blink) : blink :=
  Blink (location b) (on_char b) (off_char b) (on_length b) (off_length b) v (status b).
Definition set_status (v : Z) (b : blink) : blink :=
  Blink (location b) (on_char b) (off_char b) (on_length b) (off_length b) (countdown b) v.

Lemma cell_set m a v :
  0 <= a -> a + 16 <= 4294967296 ->
  cell_at (store16 m (a + ON_LENGTH) v) a = set_on_length (u16 v) (cell_at m a) /\
  cell_at (store16 m (a + OFF_LENGTH) v) a = set_off_length (u16 v) (cell_at m a) /\
  cell_at (store16 m (a + COUNTDOWN) v) a = set_countdown (u16 v) (cell_at m a) /\
  cell_at (store16 m (a + STATUS) v) a = set_status (u16 v) (cell_at m a).
Proof.
  intros H1 H2. unfold cell_at, set_on_length, set_off_length, set_countdown, set_status.
  cbn [location on_char off_char on_length off_length countdown status].
  unfold ON_CHAR, OFF_CHAR, ON_LENGTH, OFF_LENGTH, COUNTDOWN, STATUS.
  split_and!; f_equal; (apply load16_store16; lia) ||
    (eapply load16_frame; [apply same_store16; lia|lia..]) ||
    (eapply load8_frame; [apply same_store16; lia|lia..]).
Qed.

(** [changed m m' a]: of the cells and the pointers, only the cell [a] is
    different, and not its link; [f] is what the change does to it. *)
Record changed (m m' : mem) (a : Z) (f : blink -> blink) : Prop := Changed {
  ch_cell : cell_at m' a = f (cell_at m a);
  ch_rest : forall c, is_cell c -> c <> a -> cell_at m' c = cell_at m c;
  ch_next : forall c, is_cell c -> load32 m' (c + NEXT) = load32 m (c + NEXT);
  ch_head : load32 m' head = load32 m head;
  ch_video : load32 m' vb = load32 m vb }.

Lemma changed_trans m1 m2 m3 a f g :
  changed m1 m2 a f -> changed m2 m3 a g -> changed m1 m3 a (fun b => g (f b)).
Proof.
  intros [A1 A2 A3 A4 A5] [B1 B2 B3 B4 B5]. split; try congruence.
  - intros c Hc Hn. rewrite B2, A2; done.
  - intros c Hc. rewrite B3, A3; done.
Qed.

Lemma changed_store m a k v f :
  is_cell a -> 4 <= k <= 10 -> cell_at (store16 m (a + k) v) a = f (cell_at m a) ->
  changed m (store16 m (a + k) v) a f /\
  forall x, 0 <= x < CELLS -> load8 (store16 m (a + k) v) (vid + 2 * x) = load8 m (vid + 2 * x).
Proof.
  intros Ha Hk E. pose proof (cell_bounds a Ha) as Hb. destruct layout_facts as (Ly & La & _).
  pose proof (same_store16 m (a + k) v ltac:(lia) ltac:(lia)) as S. split.
  - split; [done| | | |].
    + intros c Hc Hn. pose proof (cell_bounds c Hc). pose proof (cell_apart c a Hc Ha Hn).
      apply (cell_frame _ _ _ _ _ S); lia.
    + intros c Hc. pose proof (cell_bounds c Hc). apply (load32_frame _ _ _ _ S); unfold NEXT; try lia.
      destruct (decide (c = a)) as [->|Hn]; [lia|]. pose proof (cell_apart c a Hc Ha Hn). lia.
    + apply (load32_frame _ _ _ _ S); lia.
    + apply (load32_frame _ _ _ _ S); lia.
  - unfold CELLS. intros x Hx. apply (load8_frame _ _ _ _ S); lia.
Qed.

Lemma shows_update m m' l1 a l2 bs1 b bs2 f g f' :
  shows_scene m (l1 ++ a :: l2) (Scene (bs1 ++ b :: bs2) f) -> length bs1 = length l1 -> changed m m' a g ->
  location (g b) = location b -> (forall x, 0 <= x < CELLS -> load8 m' (vid + 2 * x) = f' x) ->
  shows_scene m' (l1 ++ a :: l2) (Scene (bs1 ++ g b :: bs2) f').
Proof.
  intros [B E X] Hl [C1 C2 C3 C4 C5] Hg Hf. cbn [blinks] in E. rewrite fmap_app, fmap_cons in E.
  apply app_inj_1 in E as [E1 E2]; [|by rewrite length_fmap]. injection E2 as Eb E2.
  pose proof (bk_cells _ _ B) as Hc. rewrite Forall_forall in Hc. pose proof (bk_nodup _ _ B) as Hn.
  apply NoDup_app in Hn as (_ & Hn1 & Hn2). apply NoDup_cons in Hn2 as [Hn2 _].
  assert (Ha : a ∈ l1 ++ a :: l2) by (rewrite elem_of_app; right; by left).
  assert (R : forall c, c ∈ l1 \/ c ∈ l2 -> cell_at m' c = cell_at m c).
  { intros c Hx. apply C2; [apply Hc; rewrite elem_of_app, elem_of_cons; tauto|]. intros ->.
    destruct Hx as [Hx|Hx]; [|done]. apply (Hn1 _ Hx). by left. }
  split; [|cbn [blinks]; rewrite fmap_app, fmap_cons; f_equal; [|f_equal]|done].
  - destruct B as [B1 B2 B3 B4 B5 B6]. split; try done.
    + rewrite C4. eapply chain_same; [|exact B1]. intros c Hx. by apply C3, Hc.
    + rewrite Forall_forall in B4 |- *. intros c Hx. specialize (B4 c Hx).
      destruct (decide (c = a)) as [->|Hne]; [|by rewrite C2 by (done || by apply Hc)].
      rewrite C1, Eb, Hg, <- Eb. exact B4.
    + intros c Hx Hnx. change (load16 m' c) with (location (cell_at m' c)).
      rewrite C2 by (done || intros ->; by apply Hnx). by apply B5.
    + by rewrite C5.
  - rewrite <- E1. apply list_fmap_ext. intros i c Hx. apply R. left. by apply (list_elem_of_lookup_2 _ _ _ Hx).
  - by rewrite C1, Eb.
  - rewrite <- E2. apply list_fmap_ext. intros i c Hx. apply R. right. by apply (list_elem_of_lookup_2 _ _ _ Hx).
Qed.

(** The change of one field of the cell [a], the blinker [b] of the scene. *)
Lemma shows_cell m l1 a l2 bs1 b bs2 f :
  shows_scene m (l1 ++ a :: l2) (Scene (bs1 ++ b :: bs2) f) -> length bs1 = length l1 ->
  is_cell a /\ 0 < location b < CELLS /\ cell_at m a = b /\ load32 m (a + NEXT) = List.hd 0 l2.
Proof.
  intros [B E X] Hl. cbn [blinks] in E. rewrite fmap_app, fmap_cons in E.
  apply app_inj_1 in E as [E1 E2]; [|by rewrite length_fmap]. injection E2 as Eb E2.
  pose proof (bk_cells _ _ B) as Hc. pose proof (bk_loc _ _ B) as Hp. rewrite Forall_forall in Hc, Hp.
  assert (Ha : a ∈ l1 ++ a :: l2) by (rewrite elem_of_app; right; by left).
  split; [by apply Hc|]. split; [by rewrite <- Eb; apply Hp|]. split; [done|].
  eapply chain_next, B.
Qed.

Lemma shows_store m l1 a l2 bs1 b bs2 f k v g :
  shows_scene m (l1 ++ a :: l2) (Scene (bs1 ++ b :: bs2) f) -> length bs1 = length l1 -> 4 <= k <= 10 ->
  cell_at (store16 m (a + k) v) a = g (cell_at m a) -> location (g b) = location b ->
  shows_scene (store16 m (a + k) v) (l1 ++ a :: l2) (Scene (bs1 ++ g b :: bs2) f).
Proof.
  intros Sh Hl Hk E Hg. destruct (shows_cell _ _ _ _ _ _ _ _ Sh Hl) as (Ha & _).
  destruct (changed_store m a k v g Ha Hk E) as [C Hv]. eapply shows_update; try done.
  intros x Hx. rewrite Hv by done. by apply (sh_screen _ _ _ Sh).
Qed.

Lemma shows_fields m l1 a l2 bs1 b bs2 f :
  shows_scene m (l1 ++ a :: l2) (Scene (bs1 ++ b :: bs2) f) -> length bs1 = length l1 ->
  0 < location b < CELLS /\ load16 m a = location b /\ load8 m (a + ON_CHAR) = on_char b /\
  load8 m (a + OFF_CHAR) = off_char b /\ load16 m (a + ON_LENGTH) = on_length b /\
  load16 m (a + OFF_LENGTH) = off_length b /\ load16 m (a + COUNTDOWN) = countdown b /\ load16 m (a + STATUS) = status b.
Proof.
  intros Sh Hl. destruct (shows_cell _ _ _ _ _ _ _ _ Sh Hl) as (_ & Hp & E & _). split; [done|]. by rewrite <- E.
Qed.

Lemma shows_sets m l1 a l2 bs1 b bs2 f v :
  shows_scene m (l1 ++ a :: l2) (Scene (bs1 ++ b :: bs2) f) -> length bs1 = length l1 ->
  shows_scene (store16 m (a + ON_LENGTH) v) (l1 ++ a :: l2) (Scene (bs1 ++ set_on_length (u16 v) b :: bs2) f) /\
  shows_scene (store16 m (a + OFF_LENGTH) v) (l1 ++ a :: l2) (Scene (bs1 ++ set_off_length (u16 v) b :: bs2) f) /\
  shows_scene (store16 m (a + COUNTDOWN) v) (l1 ++ a :: l2) (Scene (bs1 ++ set_countdown (u16 v) b :: bs2) f) /\
  shows_scene (store16 m (a + STATUS) v) (l1 ++ a :: l2) (Scene (bs1 ++ set_status (u16 v) b :: bs2) f).
Proof.
  intros Sh Hl. destruct (shows_cell _ _ _ _ _ _ _ _ Sh Hl) as (Ha & _). pose proof (cell_bounds a Ha) as Hb.
  destruct layout_facts as (Ly & _). destruct (cell_set m a v ltac:(lia) ltac:(lia)) as (E1 & E2 & E3 & E4).
  split_and!; (eapply shows_store; [exact Sh|done| |eassumption|done]);
    unfold ON_LENGTH, OFF_LENGTH, COUNTDOWN, STATUS; lia.
Qed.

(** ** The clock *)

Definition expired (b : blink) : bool := negb (0 <? s16 (u16 (countdown b - 1))).
Definition is_on (b : blink) : bool := Z.testbit (status b) 0.
(** One turn of the clock: the count goes down, and at the end the character
    changes to the other one, for the length of that one. *)
Definition tick (b : blink) : blink :=
  if expired b then set_status (u16 (Z.lxor (status b) 1)) (set_countdown (if is_on b then off_length b else on_length b) b)
  else set_countdown (u16 (countdown b - 1)) b.
Definition blinked (f : Z -> Z) (b : blink) : Z -> Z :=
  if expired b then upd f (location b) (if is_on b then off_char b else on_char b) else f.
Definition tick_scene (sc : scene) : scene := Scene (tick <$> blinks sc) (foldl blinked (shown sc) (blinks sc)).

Lemma tasklet_turn_spec m l1 a l2 bs1 b bs2 f :
  shows_scene m (l1 ++ a :: l2) (Scene (bs1 ++ b :: bs2) f) -> length bs1 = length l1 ->
  shows_scene (tasklet_turn vb m a) (l1 ++ a :: l2) (Scene (bs1 ++ tick b :: bs2) (blinked f b)).
Proof.
  intros Sh Hl. destruct (shows_fields _ _ _ _ _ _ _ _ Sh Hl) as (Hp & L1 & L2 & L3 & L4 & L5 & L6 & L7).
  destruct (shows_sets _ _ _ _ _ _ _ _ (countdown b - 1) Sh Hl) as (_ & _ & Sh1 & _).
  destruct (shows_fields _ _ _ _ _ _ _ _ Sh1 Hl) as (_ & M1 & M2 & M3 & M4 & M5 & M6 & M7).
  unfold tasklet_turn. cbv zeta. rewrite L6. cbn in M1, M2, M3, M4, M5, M6, M7. rewrite M1, M6, M7.
  unfold tick, blinked, expired, is_on. destruct (0 <? s16 (u16 (countdown b - 1))) eqn:D; cbn [negb]; [exact Sh1|].
  clear L1 L2 L3 L4 L5 L6 L7 Sh. generalize dependent (store16 m (a + COUNTDOWN) (countdown b - 1)).
  intros m1 Sh1 M1 M2 M3 M4 M5 M6 M7.
  assert (Hch : forall on : bool, load8 m1 (a + (if on then OFF_CHAR else ON_CHAR)) = if on then off_char b else on_char b).
  { by intros []. }
  rewrite Hch. pose proof (shows_poke _ _ _ (location b) (if Z.testbit (status b) 0 then off_char b else on_char b) Sh1
    ltac:(lia) ltac:(rewrite <- Hch; apply load8_range)) as Sh2.
  cbn [blinks shown] in Sh2.
  generalize dependent (mp1_poke vb m1 (2 * location b) (if Z.testbit (status b) 0 then off_char b else on_char b)).
  intros m2 Sh2. destruct (shows_fields _ _ _ _ _ _ _ _ Sh2 Hl) as (_ & _ & _ & _ & N4 & N5 & _ & _).
  cbn [set_countdown on_length off_length] in N4, N5.
  assert (Hlen : forall on : bool, load16 m2 (a + (if on then OFF_LENGTH else ON_LENGTH)) = if on then off_length b else on_length b).
  { by intros []. }
  destruct (shows_sets _ _ _ _ _ _ _ _ (if Z.testbit (status b) 0 then off_length b else on_length b) Sh2 Hl) as (_ & _ & Sh3 & _).
  rewrite (u16_small (if Z.testbit (status b) 0 then off_length b else on_length b)) in Sh3 by (rewrite <- Hlen; apply load16_range). rewrite Hlen.
  destruct (shows_fields _ _ _ _ _ _ _ _ Sh3 Hl) as (_ & _ & _ & _ & _ & _ & _ & K7). rewrite K7.
  exact (proj2 (proj2 (proj2 (shows_sets _ _ _ _ _ _ _ _ (Z.lxor (status b) 1) Sh3 Hl)))).
Qed.

Lemma tasklet_spec m l sc :
  shows_scene m l sc -> exists m', mp1_rtc_tasklet head vb m = Ok m' /\ shows_scene m' l (tick_scene sc).
Proof.
  intros Sh. unfold mp1_rtc_tasklet.
  apply (while_rank _ (fun n '(m, p) => exists l1 l2 bs1 bs2 f, n = Z.of_nat (length l2) /\ l = l1 ++ l2 /\ p = List.hd 0 l2 /\
    length bs1 = length l1 /\ shows_scene m l (Scene (bs1 ++ bs2) f) /\
    tick_scene sc = Scene (bs1 ++ (tick <$> bs2)) (foldl blinked f bs2))
    (fun r => exists m', r = Ok m' /\ shows_scene m' l (tick_scene sc)) (Z.of_nat (length l))).
  - exists [], l, [], (blinks sc), (shown sc). destruct sc. split_and!; try done.
    pose proof (bk_chain _ _ (sh_list _ _ _ Sh)) as C. destruct l; [exact C|apply C].
  - pose proof (cells_few m l (sh_list _ _ _ Sh)). unfold CELLS in *. lia.
  - clear m Sh. intros n [m p] _ (l1 & l2 & bs1 & bs2 & f & -> & -> & -> & Hl & Sh & E).
    pose proof (f_equal length (sh_blinks _ _ _ Sh)) as Hn. cbn [blinks] in Hn.
    rewrite length_fmap, !length_app in Hn. destruct l2 as [|a l2], bs2 as [|b bs2]; try (cbn in Hn; lia); cbn [List.hd].
    + exists m. split; [done|]. rewrite E. exact Sh.
    + destruct (shows_cell _ _ _ _ _ _ _ _ Sh Hl) as (Ha & _). pose proof (cell_bounds a Ha).
      destruct layout_facts as (Ly & _). destruct (Z.eqb_spec a 0); [lia|].
      pose proof (tasklet_turn_spec _ _ _ _ _ _ _ _ Sh Hl) as Sh'. exists (Z.of_nat (length l2)). split; [cbn [length]; lia|].
      exists (l1 ++ [a]), l2, (bs1 ++ [tick b]), bs2, (blinked f b). rewrite <- !app_assoc, !length_app, Hl. cbn [app].
      split_and!; try done. apply (shows_cell _ _ _ _ _ _ _ _ Sh' Hl).
Qed.
(** ** The commands *)

(** The first blinker at a location, and those around it. *)
Fixpoint split_loc (x : Z) (bs : list blink) : option (list blink * blink * list blink) :=
  match bs with
  | [] => None
  | b :: bs =>
    if x =? location b then Some ([], b, bs)
    else '(p, c, q) ← split_loc x bs; Some (b :: p, c, q)
  end.

Lemma split_loc_app x bs p c q : split_loc x bs = Some (p, c, q) -> bs = p ++ c :: q /\ location c = x.
Proof.
  revert p. induction bs as [|b bs IH]; intros p; cbn [split_loc]; [done|].
  destruct (Z.eqb_spec x (location b)); [intros [= <- <- <-]; done|].
  destruct (split_loc x bs) as [[[p' c'] q']|]; cbn; [|done]. intros [= <- -> ->].
  by destruct (IH p' eq_refl) as [-> ->].
Qed.

Lemma first_split m l sc x :
  shows_scene m l sc ->
  match split_loc x (blinks sc) with
  | None => first_at m x l = 0
  | Some (p, c, q) => exists l1 a l2, l = l1 ++ a :: l2 /\ first_at m x l = a /\ length p = length l1 /\
      sc = Scene (p ++ c :: q) (shown sc)
  end.
Proof.
  intros [_ E _]. destruct sc as [bs f]. cbn [blinks shown] in *. subst bs.
  induction l as [|a l IH]; cbn [fmap list_fmap split_loc first_at]; [done|].
  destruct (x =? location (cell_at m a)); [by exists [], a, l|].
  change (list_fmap _ _ (cell_at m) l) with (cell_at m <$> l).
  destruct (split_loc x (cell_at m <$> l)) as [[[p c] q]|]; cbn; [|done].
  destruct IH as (l1 & b & l2 & -> & E1 & E2 & E3). exists (a :: l1), b, l2. cbn [app length]. rewrite E2.
  split_and!; try done. apply (f_equal blinks) in E3. cbn [blinks] in E3. by rewrite E3.
Qed.

(** *** Adding *)

Definition armed (b : blink) : blink := set_status 1 (set_countdown (on_length b) b).
Definition scene_add (b : blink) (sc : scene) : scene * Z :=
  if (CELLS <=? location b) || (CELLS <=? Z.of_nat (length (blinks sc))) then (sc, -1)
  else (Scene (armed b :: blinks sc) (upd (shown sc) (location b) (on_char b)), 0).

(** What is not the module's own memory. *)
Definition untouched (m m' : mem) : Prop :=
  forall a, addr a -> a < arr \/ arr + 32000 <= a -> a < head \/ head + 4 <= a -> a < ts \/ ts + 16 <= a ->
    a < vid \/ vid + 4000 <= a -> load8 m' a = load8 m a.

Lemma untouched_trans m1 m2 m3 : untouched m1 m2 -> untouched m2 m3 -> untouched m1 m3.
Proof. intros H1 H2 a Ha A1 A2 A3 A4. rewrite (H2 a Ha A1 A2 A3 A4). by apply H1. Qed.

Lemma touch_area m m' lo hi :
  same_outside lo hi m m' ->
  arr <= lo /\ hi <= arr + 32000 \/ head <= lo /\ hi <= head + 4 \/ ts <= lo /\ hi <= ts + 16 \/ vid <= lo /\ hi <= vid + 4000 ->
  untouched m m'.
Proof. intros S H a Ha A1 A2 A3 A4. apply S; [done|lia]. Qed.

Lemma poke_touches m l sc x c :
  shows_scene m l sc -> 0 <= x < CELLS -> untouched m (mp1_poke vb m (2 * x) c).
Proof.
  intros [B _ _] Hx. destruct layout_facts as (Ly & _). unfold mp1_poke. rewrite (bk_video _ _ B).
  unfold CELLS in *. rewrite u32_small by lia. eapply touch_area; [apply same_store8; lia|]. lia.
Qed.

(** The structure is copied and armed on the stack. *)
Lemma add_copy m arg :
  in_space arg 16 -> apart ts 16 arg 16 -> let m1 := (ece391_memcpy m ts arg STRUCT_SIZE).1 in
  let m2 := store16 m1 (ts + STATUS) 1 in let m3 := store16 m2 (ts + COUNTDOWN) (load16 m2 (ts + ON_LENGTH)) in
  same_outside ts (ts + 16) m m1 /\ same_outside ts (ts + 16) m m3 /\ cell_at m1 ts = cell_at m arg /\
  cell_at m3 ts = armed (cell_at m arg).
Proof.
  intros H1 H2 m1 m2 m3. unfold in_space in H1. destruct layout_facts as (Ly & _). unfold STRUCT_SIZE in *.
  assert (W : writes m m1 ts 16 (fun i => load8 m (arg + i))).
  { apply ece391_memcpy_writes; [lia|unfold in_space; lia..|done]. }
  assert (E : cell_at m1 ts = cell_at m arg) by (eapply cell_copied; [lia..|exact W]).
  assert (S1 : same_outside ts (ts + 16) m m1) by (eapply writes_same_outside, W).
  pose proof (cell_set m1 ts 1 ltac:(lia) ltac:(lia)) as (_ & _ & _ & E2).
  pose proof (cell_set m2 ts (load16 m2 (ts + ON_LENGTH)) ltac:(lia) ltac:(lia)) as (_ & _ & E3 & _).
  split_and!; [done| |done|].
  - eapply same_outside_trans; [exact S1|]. eapply same_outside_trans;
      (eapply same_outside_weaken; [| |apply same_store16]); unfold STATUS, COUNTDOWN; lia.
  - fold m2 in E2. fold m3 in E3. rewrite E3. change (load16 m2 (ts + ON_LENGTH)) with (on_length (cell_at m2 ts)).
    rewrite E2, E. unfold armed. cbn [on_length set_status]. rewrite u16_small by apply load16_range. done.
Qed.

(** The new cell [a], a copy of the stack's, at the front of the list. *)
Lemma linked m m1 a l sc b :
  shows_scene m l sc -> is_cell a -> a ∉ l -> writes m m1 a 16 (fun i => load8 m (ts + i)) -> cell_at m ts = b ->
  0 < location b < CELLS ->
  shows_scene (store32 (store32 m1 (a + NEXT) (load32 m1 head)) head a) (a :: l) (Scene (b :: blinks sc) (shown sc)) /\
  untouched m (store32 (store32 m1 (a + NEXT) (load32 m1 head)) head a).
Proof.
  intros [B E X] Ha Hn W Eb Hp. destruct layout_facts as (Ly & La & Lr). pose proof (cell_bounds a Ha) as Hb.
  pose proof (writes_same_outside _ _ _ _ _ W) as S1.
  assert (Ea : cell_at m1 a = b) by (rewrite <- Eb; eapply cell_copied; [lia..|exact W]).
  assert (S : same_outside a (a + 16) m (store32 m1 (a + NEXT) (load32 m1 head))).
  { eapply same_outside_trans; [exact S1|]. eapply same_outside_weaken; [| |apply same_outside_store32]; unfold NEXT; lia. }
  assert (E2 : cell_at (store32 m1 (a + NEXT) (load32 m1 head)) a = b).
  { rewrite <- Ea. eapply cell_frame; [apply same_outside_store32; unfold NEXT; lia|unfold NEXT; lia..]. }
  assert (N2 : load32 (store32 m1 (a + NEXT) (load32 m1 head)) (a + NEXT) = load32 m head).
  { rewrite load32_store32 by (unfold NEXT; lia). rewrite u32_small by apply load32_range.
    eapply load32_frame; [exact S1|lia..]. }
  generalize dependent (store32 m1 (a + NEXT) (load32 m1 head)). intros m2 S E2 N2. clear W S1 Ea.
  pose proof (same_outside_store32 m2 head a ltac:(lia) ltac:(lia)) as S3.
  assert (R : forall c, is_cell c -> cell_at (store32 m2 head a) c = cell_at m2 c /\
    load32 (store32 m2 head a) (c + NEXT) = load32 m2 (c + NEXT)).
  { intros c Hc. pose proof (cell_bounds c Hc). split; [eapply cell_frame|eapply load32_frame]; try exact S3; unfold NEXT; lia. }
  assert (R2 : forall c, is_cell c -> c <> a -> cell_at m2 c = cell_at m c /\ load32 m2 (c + NEXT) = load32 m (c + NEXT)).
  { intros c Hc Hne. pose proof (cell_bounds c Hc). pose proof (cell_apart c a Hc Ha Hne).
    split; [eapply cell_frame|eapply load32_frame]; try exact S; unfold NEXT; lia. }
  split; [|eapply untouched_trans; [apply (touch_area _ _ _ _ S); lia|apply (touch_area _ _ _ _ S3); lia]].
  destruct B as [B1 B2 B3 B4 B5 B6]. rewrite Forall_forall in B3, B4. split; [split| |].
  - rewrite load32_store32, u32_small by lia. cbn [chain]. split; [done|]. rewrite (proj2 (R a Ha)), N2.
    eapply chain_same; [|exact B1]. intros c Hc. rewrite (proj2 (R c (B3 c Hc))).
    apply R2; [by apply B3|by intros ->].
  - by constructor.
  - constructor; [done|]. by apply Forall_forall.
  - apply Forall_cons. rewrite (proj1 (R a Ha)), E2. split; [done|]. apply Forall_forall. intros c Hc.
    rewrite (proj1 (R c (B3 c Hc))), (proj1 (R2 c (B3 c Hc) ltac:(by intros ->))). by apply B4.
  - intros c Hc Hx. apply not_elem_of_cons in Hx as [Hx1 Hx2]. change (load16 ?m c) with (location (cell_at m c)).
    rewrite (proj1 (R c Hc)), (proj1 (R2 c Hc Hx1)). by apply B5.
  - rewrite <- B6. transitivity (load32 m2 vb); [eapply load32_frame; [exact S3|lia..]|eapply load32_frame; [exact S|lia..]].
  - cbn [blinks]. rewrite fmap_cons, (proj1 (R a Ha)), E2, <- E. f_equal. apply list_fmap_ext. intros i c Hc.
    apply list_elem_of_lookup_2 in Hc. rewrite (proj1 (R c (B3 c Hc))). apply R2; [by apply B3|by intros ->].
  - unfold CELLS in *. intros x Hx. cbn [shown]. rewrite <- X by done.
    transitivity (load8 m2 (vid + 2 * x)); [eapply load8_frame; [exact S3|lia..]|eapply load8_frame; [exact S|lia..]].
Qed.

Lemma ioctl_add_spec m l sc arg :
  shows_scene m l sc -> in_space arg 16 -> apart ts 16 arg 16 -> location (cell_at m arg) <> 0 ->
  exists m' l', mp1_ioctl_add arr head vb ts m arg = Ok (m', (scene_add (cell_at m arg) sc).2) /\
    shows_scene m' l' (scene_add (cell_at m arg) sc).1 /\ untouched m m'.
Proof.
  intros Sh H1 H2 Hz. destruct (add_copy m arg H1 H2) as (S1 & S3 & E1 & E3).
  destruct layout_facts as (Ly & La & Lr). unfold mp1_ioctl_add, scene_add.
  rewrite (ece391_memcpy_pair m ts arg STRUCT_SIZE).
  cbv beta iota zeta. change (negb (0 =? 0)) with false. cbv iota.
  pose proof (shows_frame _ _ _ _ l sc S1 ltac:(lia) ltac:(lia) ltac:(lia) ltac:(lia) Sh) as Sh1.
  pose proof (shows_frame _ _ _ _ l sc S3 ltac:(lia) ltac:(lia) ltac:(lia) ltac:(lia) Sh) as Sh3.
  pose proof (touch_area _ _ _ _ S1 ltac:(lia)) as U1. pose proof (touch_area _ _ _ _ S3 ltac:(lia)) as U3.
  change (load16 (ece391_memcpy m ts arg STRUCT_SIZE).1 ts) with (location (cell_at (ece391_memcpy m ts arg STRUCT_SIZE).1 ts)).
  rewrite E1. destruct (Z.leb_spec CELLS (location (cell_at m arg))) as [|Hloc]; cbn [orb]; [by eexists _, l|].
  revert E3 Sh3 U3. clear E1 Sh1 U1 S1 S3.
  generalize (store16 (store16 (ece391_memcpy m ts arg STRUCT_SIZE).1 (ts + STATUS) 1) (ts + COUNTDOWN)
    (load16 (store16 (ece391_memcpy m ts arg STRUCT_SIZE).1 (ts + STATUS) 1) (ts + ON_LENGTH))).
  intros m3 E3 Sh3 U3. pose proof (load16_range m arg) as Hr. change (load16 m arg) with (location (cell_at m arg)) in Hr.
  assert (Hp : 0 < location (cell_at m arg) < CELLS) by lia.
  assert (Hlen : length l = length (blinks sc)).
  { rewrite <- (sh_blinks _ _ _ Sh3). by rewrite length_fmap. }
  rewrite <- Hlen. destruct (malloc_spec m3 l (sh_list _ _ _ Sh3)) as [M1 M2].
  destruct (Z.leb_spec CELLS (Z.of_nat (length l))) as [Hf|Hf].
  { rewrite M2 by done. by exists m3, l. }
  destruct (M1 Hf) as (a & -> & Ha & Hn). cbn [mbind res_bind]. pose proof (cell_bounds a Ha) as Hb.
  destruct (Z.eqb_spec a 0); [lia|].
  rewrite (ece391_memcpy_pair m3 a ts STRUCT_SIZE).
  assert (W : writes m3 (ece391_memcpy m3 a ts STRUCT_SIZE).1 a 16 (fun i => load8 m3 (ts + i))).
  { apply ece391_memcpy_writes; [lia|unfold in_space; lia..|unfold apart; lia]. }
  pose proof (linked m3 _ a l sc (armed (cell_at m arg)) Sh3 Ha Hn W E3 Hp) as [Sh4 U4].
  eexists _, _. cbn [fst snd]. split; [done|].
  destruct (shows_fields _ [] _ _ [] _ _ _ Sh4 eq_refl) as (_ & F1 & F2 & _).
  cbn [armed set_status set_countdown location on_char] in F1, F2. rewrite F1, F2.
  split; [|eapply untouched_trans; [exact U3|eapply untouched_trans; [exact U4|exact (poke_touches _ _ _ _ _ Sh4 (conj (proj1 Hr) Hloc))]]].
  exact (shows_poke _ _ _ (location (cell_at m arg)) _ Sh4 (conj (proj1 Hr) Hloc) (load8_range m (arg + ON_CHAR))).
Qed.

(** *** Removing *)

Definition scene_remove (x : Z) (sc : scene) : scene * Z :=
  match split_loc x (blinks sc) with
  | None => (sc, -1)
  | Some (p, _, q) => (Scene (p ++ q) (shown sc), 0)
  end.

(** The place of the pointer to what follows the cells [l]. *)
Definition link (p : Z) (l : list Z) : Z := foldl (fun _ c => c + NEXT) p l.

Lemma find_prev_spec m l1 a l2 sc :
  shows_scene m (l1 ++ a :: l2) sc -> find_prev head m a = Ok (link head l1).
Proof.
  intros Sh. pose proof (sh_list _ _ _ Sh) as B. unfold find_prev.
  apply (while_rank _ (fun n p => exists r1 r2, n = Z.of_nat (length r2) /\ l1 = r1 ++ r2 /\ p = link head r1 /\
    chain m (load32 m p) (r2 ++ a :: l2)) (fun r => r = Ok (link head l1)) (Z.of_nat (length l1))).
  - exists [], l1. split_and!; try done. apply B.
  - pose proof (cells_few m _ B) as H. rewrite length_app in H. unfold CELLS in *. lia.
  - pose proof (bk_nodup _ _ B) as Hn. intros n p _ (r1 & r2 & -> & -> & -> & C).
    destruct r2 as [|c r2]; cbn [app chain] in C; destruct C as [-> C].
    + by rewrite Z.eqb_refl, app_nil_r.
    + rewrite <- app_assoc in Hn. apply NoDup_app in Hn as (_ & _ & Hn).
      apply NoDup_cons in Hn as [Hn _]. destruct (Z.eqb_spec c a) as [->|_]; [exfalso; apply Hn; set_solver|].
      exists (Z.of_nat (length r2)). split; [cbn [length]; lia|]. exists (r1 ++ [c]), r2. unfold link.
      rewrite foldl_app, <- app_assoc. done.
Qed.

(** The places of the pointers. *)
Definition is_ptr (q : Z) : Prop := q = head \/ exists c, is_cell c /\ q = c + NEXT.

Lemma ptr_apart q :
  is_ptr q -> 0 <= q /\ q + 4 <= 4294967296 /\ (q + 4 <= vb \/ vb + 4 <= q) /\ (q + 4 <= vid \/ vid + 4000 <= q) /\
  (forall c, is_cell c -> q + 4 <= c \/ c + 12 <= q) /\ (forall q', is_ptr q' -> q' <> q -> q + 4 <= q' \/ q' + 4 <= q).
Proof.
  intros Hq. destruct layout_facts as (Ly & La & Lr). unfold is_ptr, NEXT in *.
  assert (F : forall c, is_cell c -> q + 4 <= c \/ c + 12 <= q).
  { intros c Hc. pose proof (cell_bounds c Hc). destruct Hq as [->|(d & Hd & ->)]; [lia|].
    destruct (decide (c = d)) as [->|Hn]; [lia|]. pose proof (cell_apart c d Hc Hd Hn). lia. }
  destruct Hq as [->|(d & Hd & ->)]; [|pose proof (cell_bounds d Hd)]; split_and!; try lia; try done.
  - intros q' [->|(c & Hc & ->)] Hne; [done|]. pose proof (cell_bounds c Hc). lia.
  - intros q' [->|(c & Hc & ->)] Hne; [lia|]. pose proof (cell_bounds c Hc).
    assert (Hn : c <> d) by (intros ->; done). pose proof (cell_apart c d Hc Hd Hn). lia.
Qed.

Lemma link_ptr p l : is_ptr p -> Forall is_cell l -> is_ptr (link p l).
Proof.
  revert p. induction l as [|c l IH]; intros p Hp Hl; [done|]. apply Forall_cons in Hl as [Hc Hl].
  apply IH; [|done]. right. by exists c.
Qed.

Lemma link_in p l : link p l = p \/ exists c, c ∈ l /\ link p l = c + NEXT.
Proof.
  destruct l as [|d l _] using rev_ind; [by left|]. right. exists d. unfold link. rewrite foldl_app. set_solver.
Qed.

Lemma chain_relink m m' p l1 a l2 :
  chain m (load32 m p) (l1 ++ a :: l2) -> NoDup (p :: ((fun c => c + NEXT) <$> (l1 ++ a :: l2))) ->
  load32 m' (link p l1) = load32 m (a + NEXT) ->
  (forall q, q ∈ p :: ((fun c => c + NEXT) <$> (l1 ++ l2)) -> q <> link p l1 -> load32 m' q = load32 m q) ->
  chain m' (load32 m' p) (l1 ++ l2).
Proof.
  revert p. induction l1 as [|c l1 IH]; intros p C N E R; cbn [app chain] in C; destruct C as [C1 C];
    apply NoDup_cons in N as [Np N].
  - cbn [link foldl app] in *. rewrite E. eapply chain_same; [|exact C]. intros c Hc. apply R.
    + right. by apply (list_elem_of_fmap_2 (fun c => c + NEXT)).
    + intros <-. apply Np. right. by apply (list_elem_of_fmap_2 (fun c => c + NEXT)).
  - assert (Hp : p <> link (c + NEXT) l1).
    { intros Ep. apply Np. rewrite Ep. destruct (link_in (c + NEXT) l1) as [->|(d & Hd & ->)]; [by left|]. right.
      apply (list_elem_of_fmap_2 (fun c => c + NEXT)). set_solver. }
    cbn [app chain]. rewrite R by (by left || done). split; [done|].
    apply IH; [done|done|done|]. intros q Hq. apply R. by right.
Qed.

(** The cell [a] off the list, and cleared. *)
Lemma unlinked m l1 a l2 p b q f :
  shows_scene m (l1 ++ a :: l2) (Scene (p ++ b :: q) f) -> length p = length l1 ->
  shows_scene (mp1_free (store32 m (link head l1) (load32 m (a + NEXT))) a) (l1 ++ l2) (Scene (p ++ q) f).
Proof.
  assert (Hin : forall c, c ∈ l1 ++ a :: l2 <-> c = a \/ c ∈ l1 ++ l2).
  { intros c. by rewrite <- Permutation_middle, elem_of_cons. }
  intros Sh Hl. destruct (shows_cell _ _ _ _ _ _ _ _ Sh Hl) as (Ha & _). pose proof (cell_bounds a Ha) as Hb.
  destruct layout_facts as (Ly & La & Lr). destruct Sh as [[B1 B2 B3 B4 B5 B6] E X]. cbn [blinks shown] in *.
  pose proof B3 as Hc. rewrite Forall_forall in Hc, B4.
  assert (HP : is_ptr (link head l1)).
  { apply link_ptr; [by left|]. by apply Forall_app in B3 as [B3 _]. }
  destruct (ptr_apart _ HP) as (P1 & P2 & P3 & P4 & P5 & P6).
  pose proof (same_outside_store32 m (link head l1) (load32 m (a + NEXT)) P1 P2) as S1.
  pose proof (load32_store32 m (link head l1) (load32 m (a + NEXT)) P1 P2) as V1.
  rewrite u32_small in V1 by apply load32_range.
  generalize dependent (store32 m (link head l1) (load32 m (a + NEXT))). intros m1 S1 V1.
  pose proof (ece391_memset_writes m1 a 0 16 ltac:(lia) ltac:(unfold in_space; lia)) as W.
  pose proof (writes_same_outside _ _ _ _ _ W) as S2. change (ece391_memset m1 a 0 16) with (mp1_free m1 a) in *.
  assert (Z0 : load16 (mp1_free m1 a) a = 0).
  { unfold load16. rewrite (writes_in _ _ _ _ _ 1 W) by lia. pose proof (writes_in _ _ _ _ _ 0 W ltac:(lia) ltac:(lia) ltac:(lia)) as E0.
    rewrite Z.add_0_r in E0. by rewrite E0. }
  generalize dependent (mp1_free m1 a). intros m2 W S2 Z0. clear W.
  assert (Rc : forall c, is_cell c -> c <> a -> cell_at m2 c = cell_at m c).
  { intros c Hx Hne. pose proof (cell_bounds c Hx). pose proof (cell_apart c a Hx Ha Hne). pose proof (P5 c Hx).
    transitivity (cell_at m1 c); [eapply cell_frame; [exact S2|lia..]|eapply cell_frame; [exact S1|lia..]]. }
  assert (Na : a ∉ l1 ++ l2 /\ NoDup (l1 ++ l2)).
  { rewrite <- Permutation_middle in B2. by apply NoDup_cons in B2. }
  assert (Rp : forall r, is_ptr r -> r <> a + NEXT -> load32 m2 r = load32 m1 r).
  { intros r Hr Hne. destruct (ptr_apart r Hr) as (R1 & R2 & _ & _ & R5 & R6).
    eapply load32_frame; [exact S2|lia|lia|]. pose proof (R5 a Ha).
    pose proof (R6 (a + NEXT) ltac:(right; by exists a) ltac:(done)). unfold NEXT in *. lia. }
  assert (Hsub : forall c, c ∈ l1 ++ l2 -> is_cell c /\ c <> a).
  { intros c Hx. split; [apply Hc, Hin; by right|]. intros ->. by apply Na. }
  assert (Hne : link head l1 <> a + NEXT).
  { destruct (link_in head l1) as [->|(c & Hx & ->)]; [unfold NEXT; lia|].
    destruct (Hsub c ltac:(apply elem_of_app; by left)). lia. }
  assert (Hr : forall r, r ∈ head :: ((fun c => c + NEXT) <$> (l1 ++ l2)) -> is_ptr r /\ r <> a + NEXT).
  { intros r [->|(c & -> & Hx)%list_elem_of_fmap]%elem_of_cons; [split; [by left|unfold NEXT; lia]|].
    destruct (Hsub c Hx) as [Hx1 Hx2]. split; [right; by exists c|lia]. }
  rewrite fmap_app, fmap_cons in E. apply app_inj_1 in E as [E1 E2]; [|by rewrite length_fmap]. injection E2 as _ E2.
  split; [split|cbn [blinks]; rewrite <- E1, <- E2, <- fmap_app|].
  - eapply chain_relink; [exact B1| |by rewrite Rp|].
    + apply NoDup_cons. split; [|by apply NoDup_fmap_2; [intros ???; lia|]].
      intros (c & Ec & Hx)%list_elem_of_fmap. pose proof (cell_bounds c (Hc c Hx)). unfold NEXT in *. lia.
    + intros r Hx Hn. destruct (Hr r Hx) as [Hr1 Hr2]. rewrite Rp by done.
      destruct (ptr_apart r Hr1) as (R1 & R2 & _). eapply load32_frame; [exact S1|lia|lia|]. pose proof (P6 r Hr1 Hn). lia.
  - apply Na.
  - apply Forall_forall. intros c Hx. by apply Hsub.
  - apply Forall_forall. intros c Hx. destruct (Hsub c Hx). rewrite Rc by done. apply B4, Hin. by right.
  - intros c Hx Hn. destruct (decide (c = a)) as [->|Hx2]; [done|].
    change (load16 m2 c) with (location (cell_at m2 c)). rewrite Rc by done. apply B5; [done|].
    by intros [->|Hy]%Hin.
  - rewrite <- B6. transitivity (load32 m1 vb); [eapply load32_frame; [exact S2|lia..]|eapply load32_frame; [exact S1|lia..]].
  - apply list_fmap_ext. intros i c Hx. apply list_elem_of_lookup_2 in Hx. by apply Rc; apply Hsub.
  - unfold CELLS in *. intros x Hx. cbn [shown]. rewrite <- X by done.
    transitivity (load8 m1 (vid + 2 * x)); [eapply load8_frame; [exact S2|lia..]|eapply load8_frame; [exact S1|lia..]].
Qed.

Lemma ioctl_remove_spec m l sc x :
  shows_scene m l sc -> exists m' l', mp1_ioctl_remove head m x = Ok (m', (scene_remove (u16 x) sc).2) /\
    shows_scene m' l' (scene_remove (u16 x) sc).1.
Proof.
  intros Sh. unfold mp1_ioctl_remove, scene_remove. rewrite (find_helper_spec m l x (sh_list _ _ _ Sh)).
  cbn [mbind res_bind]. pose proof (first_split m l sc (u16 x) Sh) as F.
  destruct (split_loc (u16 x) (blinks sc)) as [[[p c] q]|]; [|rewrite F; by exists m, l].
  destruct F as (l1 & a & l2 & -> & -> & Hl & Esc). rewrite Esc in Sh. cbn [shown fst snd].
  destruct (shows_cell _ _ _ _ _ _ _ _ Sh Hl) as (Ha & _). pose proof (cell_bounds a Ha).
  destruct layout_facts as (Ly & _). destruct (Z.eqb_spec a 0); [lia|].
  rewrite (find_prev_spec _ _ _ _ _ Sh). cbn [mbind res_bind]. eexists _, (l1 ++ l2). split; [done|].
  exact (unlinked m l1 a l2 p c q (shown sc) Sh Hl).
Qed.

(** *** Copying the timing of one blinker to another *)

Definition synced (s d : blink) : blink :=
  set_status (status s) (set_countdown (countdown s) (set_off_length (off_length s) (set_on_length (on_length s) d))).
(** The character shown is always the off character. *)
Definition scene_sync (arg : Z) (sc : scene) : scene * Z :=
  match split_loc (Z.shiftr (u32 arg) 16) (blinks sc), split_loc (Z.land arg 65535) (blinks sc) with
  | Some (_, s, _), Some (p, d, q) =>
    (Scene (p ++ synced s d :: q) (upd (shown sc) (location d) (off_char d)), 0)
  | _, _ => (sc, -1)
  end.

(** The store of a field read from the cell [e] that holds the blinker [s]. *)
Definition syncing m l1 a l2 bs1 d bs2 f e s : Prop :=
  shows_scene m (l1 ++ a :: l2) (Scene (bs1 ++ d :: bs2) f) /\ length bs1 = length l1 /\ cell_at m e = s /\ (e = a -> d = s).

Lemma sync_store m l1 a l2 bs1 d bs2 f e s k v set :
  syncing m l1 a l2 bs1 d bs2 f e s -> is_cell e -> 4 <= k <= 10 ->
  cell_at (store16 m (a + k) v) a = set (cell_at m a) -> location (set d) = location d -> set s = s ->
  syncing (store16 m (a + k) v) l1 a l2 bs1 (set d) bs2 f e s.
Proof.
  intros (Sh & Hl & Ee & He) Hc Hk E Hloc Hs. destruct (shows_cell _ _ _ _ _ _ _ _ Sh Hl) as (Ha & _).
  split_and!; [by eapply shows_store|done| |intros ->; by rewrite He].
  destruct (changed_store m a k v set Ha Hk E) as [C _]. destruct (decide (e = a)) as [->|Hn].
  - by rewrite E, Ee.
  - by rewrite (ch_rest _ _ _ _ C) by done.
Qed.

Lemma sync_fields m l1 a l2 bs1 d bs2 f e s :
  syncing m l1 a l2 bs1 d bs2 f e s -> is_cell e ->
  let m1 := store16 m (a + ON_LENGTH) (load16 m (e + ON_LENGTH)) in
  let m2 := store16 m1 (a + OFF_LENGTH) (load16 m1 (e + OFF_LENGTH)) in
  let m3 := store16 m2 (a + COUNTDOWN) (load16 m2 (e + COUNTDOWN)) in
  let m4 := store16 m3 (a + STATUS) (load16 m3 (e + STATUS)) in
  syncing m4 l1 a l2 bs1 (synced s d) bs2 f e s.
Proof.
  intros Y0 He m1 m2 m3 m4.
  assert (Hb : forall m d, syncing m l1 a l2 bs1 d bs2 f e s -> is_cell a /\ cell_at m e = s).
  { intros m' d' (Sh & Hl & E & _). split; [|done]. by apply (shows_cell _ _ _ _ _ _ _ _ Sh Hl). }
  destruct (Hb _ _ Y0) as [Ha E0]. pose proof (cell_bounds a Ha) as Hab. destruct layout_facts as (Ly & _).
  assert (Y1 : syncing m1 l1 a l2 bs1 (set_on_length (on_length s) d) bs2 f e s).
  { unfold m1. change (load16 m (e + ON_LENGTH)) with (on_length (cell_at m e)). rewrite E0.
    pose proof (cell_set m a (on_length s) ltac:(lia) ltac:(lia)) as (E & _). rewrite u16_small in E by (rewrite <- E0; apply load16_range).
    apply (sync_store _ _ _ _ _ _ _ _ _ _ _ _ _ Y0 He); [unfold ON_LENGTH; lia|exact E|done|by destruct s]. }
  destruct (Hb _ _ Y1) as [_ E1].
  assert (Y2 : syncing m2 l1 a l2 bs1 (set_off_length (off_length s) (set_on_length (on_length s) d)) bs2 f e s).
  { unfold m2. change (load16 m1 (e + OFF_LENGTH)) with (off_length (cell_at m1 e)). rewrite E1.
    pose proof (cell_set m1 a (off_length s) ltac:(lia) ltac:(lia)) as (_ & E & _). rewrite u16_small in E by (rewrite <- E1; apply load16_range).
    apply (sync_store _ _ _ _ _ _ _ _ _ _ _ _ _ Y1 He); [unfold OFF_LENGTH; lia|exact E|done|by destruct s]. }
  destruct (Hb _ _ Y2) as [_ E2].
  assert (Y3 : syncing m3 l1 a l2 bs1 (set_countdown (countdown s) (set_off_length (off_length s) (set_on_length (on_length s) d))) bs2 f e s).
  { unfold m3. change (load16 m2 (e + COUNTDOWN)) with (countdown (cell_at m2 e)). rewrite E2.
    pose proof (cell_set m2 a (countdown s) ltac:(lia) ltac:(lia)) as (_ & _ & E & _). rewrite u16_small in E by (rewrite <- E2; apply load16_range).
    apply (sync_store _ _ _ _ _ _ _ _ _ _ _ _ _ Y2 He); [unfold COUNTDOWN; lia|exact E|done|by destruct s]. }
  destruct (Hb _ _ Y3) as [_ E3].
  unfold m4. change (load16 m3 (e + STATUS)) with (status (cell_at m3 e)). rewrite E3.
  pose proof (cell_set m3 a (status s) ltac:(lia) ltac:(lia)) as (_ & _ & _ & E). rewrite u16_small in E by (rewrite <- E3; apply load16_range).
  apply (sync_store _ _ _ _ _ _ _ _ _ _ _ _ _ Y3 He); [unfold STATUS; lia|exact E|done|by destruct s].
Qed.

Lemma ioctl_sync_spec m l sc arg :
  shows_scene m l sc -> exists m', mp1_ioctl_sync head vb m arg = Ok (m', (scene_sync arg sc).2) /\
    shows_scene m' l (scene_sync arg sc).1.
Proof.
  intros Sh. unfold mp1_ioctl_sync, scene_sync. rewrite (find_helper_spec m l (Z.shiftr (u32 arg) 16) (sh_list _ _ _ Sh)).
  assert (H1 : u16 (Z.shiftr (u32 arg) 16) = Z.shiftr (u32 arg) 16).
  { apply u16_small. rewrite Z.shiftr_div_pow2 by lia. pose proof (u32_range arg). change (2 ^ 16) with 65536. zdm. }
  assert (H2 : u16 (Z.land arg 65535) = Z.land arg 65535).
  { apply u16_small. change 65535 with (Z.ones 16). rewrite Z.land_ones by lia. apply Z.mod_pos_bound. lia. }
  rewrite H1. cbn [mbind res_bind]. destruct layout_facts as (Ly & _).
  pose proof (first_split m l sc (Z.shiftr (u32 arg) 16) Sh) as F1.
  destruct (split_loc (Z.shiftr (u32 arg) 16) (blinks sc)) as [[[p1 s] q1]|]; [|rewrite F1; by exists m].
  destruct F1 as (k1 & e & k2 & Ek & -> & Hk & Es). pose proof Sh as Sh1. rewrite Ek, Es in Sh1.
  destruct (shows_cell _ _ _ _ _ _ _ _ Sh1 Hk) as (He & _ & Ee & _). clear Sh1. pose proof (cell_bounds e He).
  destruct (Z.eqb_spec e 0); [lia|]. rewrite (find_helper_spec m l (Z.land arg 65535) (sh_list _ _ _ Sh)), H2. cbn [mbind res_bind].
  pose proof (first_split m l sc (Z.land arg 65535) Sh) as F2.
  destruct (split_loc (Z.land arg 65535) (blinks sc)) as [[[p d] q]|]; [|rewrite F2; by exists m].
  destruct F2 as (l1 & a & l2 & El & -> & Hl & Ed). pose proof Sh as Sh2. rewrite El, Ed in Sh2.
  destruct (shows_cell _ _ _ _ _ _ _ _ Sh2 Hl) as (Ha & Hp & Ea & _). pose proof (cell_bounds a Ha).
  destruct (Z.eqb_spec a 0); [lia|].
  pose proof (sync_fields m l1 a l2 p d q (shown sc) e s ltac:(split_and!; [done|done|done|intros ->; congruence]) He) as Y.
  cbv zeta in Y |- *. destruct Y as (Y & _ & _ & _). revert Y.
  match goal with |- shows_scene ?x _ _ -> _ => generalize x end. intros m4 Y.
  destruct (shows_fields _ _ _ _ _ _ _ _ Y Hl) as (_ & L1 & _ & L3 & _).
  assert (Hbit : Z.testbit (Z.land (load8 m4 (a + STATUS)) 1) 7 = false).
  { rewrite Z.land_spec. apply andb_false_r. }
  rewrite Hbit, L1, L3. eexists. split; [done|]. cbn [fst]. rewrite El.
  apply (shows_poke _ _ _ (location d) (off_char d) Y); [lia|]. rewrite <- Ea. apply load8_range.
Qed.

(** *** Finding *)

Lemma ioctl_find_spec m l sc arg :
  shows_scene m l sc -> in_space arg 16 -> apart ts 16 arg 16 -> apart arr 32000 arg 16 -> apart head 4 arg 16 ->
  apart vb 4 arg 16 -> apart vid 4000 arg 16 ->
  exists m' r, mp1_ioctl_find head ts m arg = Ok (m', r) /\ shows_scene m' l sc /\
    match split_loc (location (cell_at m arg)) (blinks sc) with
    | None => r = -1
    | Some (_, b, _) => r = 0 /\ cell_at m' arg = b
    end.
Proof.
  unfold in_space, apart. intros Sh H1 H2 H3 H4 H5 H6. destruct layout_facts as (Ly & La & Lr).
  unfold mp1_ioctl_find. rewrite (ece391_memcpy_pair m ts arg 2). cbv beta iota. change (negb (0 =? 0)) with false. cbv iota.
  assert (W : writes m (ece391_memcpy m ts arg 2).1 ts 2 (fun i => load8 m (arg + i))).
  { apply ece391_memcpy_writes; [lia|unfold in_space; lia..|unfold apart; lia]. }
  pose proof (writes_same_outside _ _ _ _ _ W) as S.
  pose proof (shows_frame _ _ _ _ l sc S ltac:(lia) ltac:(lia) ltac:(lia) ltac:(lia) Sh) as Sh1.
  assert (E : load16 (ece391_memcpy m ts arg 2).1 ts = location (cell_at m arg)).
  { cbn [cell_at location]. unfold load16. rewrite (writes_in _ _ _ _ _ 1 W) by lia.
    pose proof (writes_in _ _ _ _ _ 0 W ltac:(lia) ltac:(lia) ltac:(lia)) as E0. rewrite !Z.add_0_r in E0. by rewrite E0. }
  rewrite E. clear W S E. generalize dependent (ece391_memcpy m ts arg 2).1. intros m1 Sh1.
  rewrite (find_helper_spec m1 l _ (sh_list _ _ _ Sh1)). rewrite u16_small by apply load16_range. cbn [mbind res_bind].
  pose proof (first_split m1 l sc (location (cell_at m arg)) Sh1) as F.
  destruct (split_loc (location (cell_at m arg)) (blinks sc)) as [[[p b] q]|]; [|rewrite F; by exists m1, (-1)].
  destruct F as (l1 & a & l2 & -> & -> & Hl & Esc). pose proof Sh1 as Sh2. rewrite Esc in Sh2.
  destruct (shows_cell _ _ _ _ _ _ _ _ Sh2 Hl) as (Ha & _ & Ea & _). pose proof (cell_bounds a Ha).
  clear La Lr H2 Hl. assert (Hz : a <> 0) by lia.
  destruct (Z.eqb_spec a 0); [done|]. rewrite (ece391_memcpy_pair m1 arg a STRUCT_SIZE).
  assert (W : writes m1 (ece391_memcpy m1 arg a STRUCT_SIZE).1 arg 16 (fun i => load8 m1 (a + i))).
  { apply ece391_memcpy_writes; [lia|unfold in_space; lia..|unfold apart; lia]. }
  pose proof (writes_same_outside _ _ _ _ _ W) as S. exists (ece391_memcpy m1 arg a STRUCT_SIZE).1, 0. split_and!; [done| |done|].
  - eapply shows_frame; [exact S|lia..|exact Sh1].
  - rewrite <- Ea. eapply cell_copied; [lia..|exact W].
Qed.
(** ** The module as a whole *)

(** The memory holds a scene. *)
Definition displays (m : mem) (sc : scene) : Prop := exists l, shows_scene m l sc.

(** A structure of the program's own, outside the module's memory. *)
Definition outside (arg : Z) : Prop :=
  in_space arg 16 /\ apart ts 16 arg 16 /\ apart arr 32000 arg 16 /\ apart head 4 arg 16 /\ apart vb 4 arg 16 /\
  apart vid 4000 arg 16.

(** What a command does to the scene and returns; [b]: the structure at the
    argument. *)
Definition scene_ioctl (b : blink) (arg cmd : Z) (sc : scene) : scene * Z :=
  if cmd =? RTC_ADD then scene_add b sc
  else if cmd =? RTC_REMOVE then scene_remove (u16 arg) sc
  else if cmd =? RTC_FIND then (sc, match split_loc (location b) (blinks sc) with Some _ => 0 | None => -1 end)
  else scene_sync arg sc.

(** C31 [mp1_ioctl] refines the four commands on the list of blinkers and the
    characters on the screen: the array, the links and the free cells stay
    consistent, and find copies the blinker out.  A location of 0 cannot be
    added: [mp1_malloc] takes it for the mark of a free cell. *)
Theorem blink_ioctl_refines m sc arg cmd :
  displays m sc -> 0 <= cmd <= 3 -> (cmd = RTC_ADD \/ cmd = RTC_FIND -> outside arg) ->
  (cmd = RTC_ADD -> location (cell_at m arg) <> 0) ->
  exists m', mp1_ioctl arr head vb ts m arg cmd = Ok (m', (scene_ioctl (cell_at m arg) arg cmd sc).2) /\
    displays m' (scene_ioctl (cell_at m arg) arg cmd sc).1 /\
    (cmd = RTC_FIND -> forall p b q, split_loc (location (cell_at m arg)) (blinks sc) = Some (p, b, q) -> cell_at m' arg = b).
Proof.
  intros [l Sh] Hc Ho Hz. unfold mp1_ioctl, scene_ioctl, RTC_ADD, RTC_REMOVE, RTC_FIND, RTC_SYNC in *.
  assert (Hcase : cmd = 0 \/ cmd = 1 \/ cmd = 2 \/ cmd = 3) by lia.
  destruct Hcase as [->|[->|[->| ->]]]; cbn [Z.eqb Pos.eqb].
  - destruct (Ho ltac:(by left)) as (O1 & O2 & _).
    destruct (ioctl_add_spec m l sc arg Sh O1 O2 (Hz eq_refl)) as (m' & l' & E & Sh' & _). exists m'. split_and!; [done|by exists l'|done].
  - destruct (ioctl_remove_spec m l sc arg Sh) as (m' & l' & E & Sh'). exists m'. split_and!; [done|by exists l'|done].
  - destruct (Ho ltac:(by right)) as (O1 & O2 & O3 & O4 & O5 & O6).
    destruct (ioctl_find_spec m l sc arg Sh O1 O2 O3 O4 O5 O6) as (m' & r & E & Sh' & F). exists m'. rewrite E. cbn [fst snd].
    destruct (split_loc (location (cell_at m arg)) (blinks sc)) as [[[p b] q]|]; [destruct F as [-> F]|subst r].
    + split_and!; [done|by exists l|]. by intros _ p' b' q' [= <- <- <-].
    + split_and!; [done|by exists l|done].
  - destruct (ioctl_sync_spec m l sc arg Sh) as (m' & E & Sh'). exists m'. split_and!; [done|by exists l|done].
Qed.

(** The empty list. *)
Lemma displays_empty m :
  (forall a, arr <= a < arr + 32000 -> load8 m a = 0) -> load32 m head = 0 -> load32 m vb = vid ->
  displays m (Scene [] (fun x => load8 m (vid + 2 * x))).
Proof.
  intros Hz Hh Hv. exists []. split; [split; try done|done|done]; try constructor.
  intros a Ha _. pose proof (cell_bounds a Ha). unfold load16. by rewrite !Hz by lia.
Qed.
End Heap.

(** ** Blinking *)

(** Every blinker shows its character, each at a place of its own. *)
Definition lit_up (sc : scene) : Prop :=
  NoDup (location <$> blinks sc) /\
  forall b, b ∈ blinks sc -> shown sc (location b) = if is_on b then on_char b else off_char b.

Lemma tick_same b :
  location (tick b) = location b /\ on_char (tick b) = on_char b /\ off_char (tick b) = off_char b /\
  on_length (tick b) = on_length b /\ off_length (tick b) = off_length b /\
  is_on (tick b) = if expired b then negb (is_on b) else is_on b.
Proof.
  unfold tick. destruct (expired b); [|done]. split_and!; try done. unfold is_on, u16. cbn [set_status set_countdown status].
  rewrite <- (Z.land_ones _ 16) by lia. rewrite Z.land_spec, Z.lxor_spec. by destruct (Z.testbit (status b) 0).
Qed.

Lemma foldl_blinked_out bs f x :
  x ∉ location <$> bs -> foldl blinked f bs x = f x.
Proof.
  revert f. induction bs as [|b bs IH]; intros f; [done|]. rewrite fmap_cons, not_elem_of_cons. intros [H1 H2].
  cbn [foldl]. rewrite IH by done. unfold blinked, upd. destruct (expired b); [|done]. by destruct (Z.eqb_spec x (location b)).
Qed.

Lemma lit_up_tick sc : lit_up sc -> lit_up (tick_scene sc).
Proof.
  destruct sc as [bs f]. intros [N L]. cbn [blinks shown] in *. unfold lit_up. cbn [tick_scene blinks shown]. split.
  - rewrite <- list_fmap_compose. erewrite list_fmap_ext; [exact N|]. intros i b _. apply (tick_same b).
  - intros b' (b & -> & Hb)%list_elem_of_fmap. destruct (tick_same b) as (-> & -> & -> & _ & _ & ->).
    apply list_elem_of_split in Hb as (p & q & ->). rewrite fmap_app, fmap_cons in N.
    apply NoDup_app in N as (_ & N1 & N2). apply NoDup_cons in N2 as [N2 _]. rewrite foldl_app. cbn [foldl].
    rewrite foldl_blinked_out by done. unfold blinked at 1, upd.
    destruct (expired b); [rewrite Z.eqb_refl; by destruct (is_on b)|].
    rewrite foldl_blinked_out; [apply L; rewrite elem_of_app; right; by left|].
    intros Hx. apply (N1 _ Hx). by left.
Qed.

(** The phase of a blinker [k] ticks after it is added. *)
Lemma armed_phase b k :
  0 < on_length b < 32768 -> 0 < off_length b < 32768 ->
  let r := Z.of_nat k mod (on_length b + off_length b) in
  Nat.iter k tick (armed b) =
    set_status (if r <? on_length b then 1 else 0)
      (set_countdown ((if r <? on_length b then on_length b else on_length b + off_length b) - r) b).
Proof.
  intros H1 H2. cbv zeta. induction k as [|k IH].
  - cbn [Nat.iter nat_rect]. rewrite Z.mod_0_l by lia. destruct (Z.ltb_spec 0 (on_length b)); [|lia]. by rewrite Z.sub_0_r.
  - rewrite Nat.iter_succ, IH. clear IH. set (T := on_length b + off_length b).
    assert (Hs : Z.of_nat (S k) mod T = if Z.of_nat k mod T =? T - 1 then 0 else Z.of_nat k mod T + 1).
    { pose proof (Z.div_mod (Z.of_nat k) T ltac:(lia)). pose proof (Z.mod_pos_bound (Z.of_nat k) T ltac:(lia)).
      destruct (Z.eqb_spec (Z.of_nat k mod T) (T - 1)).
      - symmetry. apply (Z.mod_unique _ _ (Z.of_nat k / T + 1)); lia.
      - symmetry. apply (Z.mod_unique _ _ (Z.of_nat k / T)); lia. }
    pose proof (Z.mod_pos_bound (Z.of_nat k) T ltac:(lia)) as Hr. rewrite Hs. clear Hs.
    generalize dependent (Z.of_nat k mod T). intros r Hr. unfold tick, expired, is_on.
    cbn [set_status set_countdown countdown status on_length off_length].
    assert (Hexp : forall c, 0 < c < 65536 -> c <= 32768 -> negb (0 <? s16 (u16 (c - 1))) = (c =? 1)).
    { intros c Hc1 Hc2. rewrite u16_small by lia. unfold s16. rewrite Z.mod_small by lia.
      destruct (Z.ltb_spec 0 (c - 1 + 32768 - 32768)), (Z.eqb_spec c 1); (done || lia). }
    destruct (Z.ltb_spec r (on_length b)).
    + rewrite Hexp by lia. destruct (Z.eqb_spec (on_length b - r) 1), (Z.eqb_spec r (T - 1)); try lia.
      * destruct (Z.ltb_spec (r + 1) (on_length b)); [lia|]. cbn. unfold set_status, set_countdown. cbn. f_equal. lia.
      * destruct (Z.ltb_spec (r + 1) (on_length b)); [|lia]. rewrite u16_small by lia. unfold set_status, set_countdown.
        cbn [location on_char off_char on_length off_length countdown status]. f_equal. lia.
    + rewrite Hexp by lia. destruct (Z.eqb_spec (T - r) 1), (Z.eqb_spec r (T - 1)); try lia.
      * destruct (Z.ltb_spec 0 (on_length b)); [|lia]. cbn. unfold set_status, set_countdown. cbn. f_equal. lia.
      * destruct (Z.ltb_spec (r + 1) (on_length b)); [lia|]. rewrite u16_small by lia. unfold set_status, set_countdown.
        cbn [location on_char off_char on_length off_length countdown status]. f_equal. lia.
Qed.

Lemma iter_tick_list n sc : blinks (Nat.iter n tick_scene sc) = Nat.iter n tick <$> blinks sc.
Proof.
  induction n as [|n IH]; [by rewrite list_fmap_id|]. rewrite Nat.iter_succ. cbn [tick_scene blinks]. rewrite IH, <- list_fmap_compose.
  apply list_fmap_ext. intros i b _. by rewrite Nat.iter_succ.
Qed.

Lemma lit_up_iter n sc : lit_up sc -> lit_up (Nat.iter n tick_scene sc).
Proof. intros H. induction n as [|n IH]; [done|]. rewrite Nat.iter_succ. by apply lit_up_tick. Qed.

(** The character of a blinker [n] ticks after it was added. *)
Definition char_at (b : blink) (n : Z) : Z :=
  if n mod (on_length b + off_length b) <? on_length b then on_char b else off_char b.

Lemma armed_shown n sc b :
  lit_up sc -> armed b ∈ blinks sc -> 0 < on_length b < 32768 -> 0 < off_length b < 32768 ->
  shown (Nat.iter n tick_scene sc) (location b) = char_at b (Z.of_nat n).
Proof.
  intros L Hb H1 H2. destruct (lit_up_iter n sc L) as [_ Hs]. pose proof (armed_phase b n H1 H2) as Hp.
  specialize (Hs (Nat.iter n tick (armed b))). rewrite iter_tick_list in Hs. specialize (Hs (list_elem_of_fmap_2 _ _ _ Hb)).
  cbv zeta in Hp. rewrite Hp in Hs. cbn [set_status set_countdown location on_char off_char] in Hs. rewrite Hs.
  unfold char_at, is_on. cbn [set_status status]. by destruct (_ <? on_length b).
Qed.

Section Clocked.
Context {W : Type} {O : OS W} {Vw : View W} {L : OSLaws W} {CL : ClockLaws W}.
Context (arr head vb ts vid : Z).
Hypothesis Hlay : layout arr head vb ts vid.

Lemma tick_turn_spec fd garbage m w p sc i :
  displays arr head vb vid m sc -> view w p -> clock p fd ->
  exists m' w', tick_turn head vb fd garbage (m, w) i = Ok (m', w') /\
    displays arr head vb vid m' (tick_scene sc) /\ view w' (paced fd 0 1 [] p).
Proof.
  intros [l Sh] V C. rewrite <- (print_nil p) in V. destruct (clock_read m w p fd garbage 4 [] V C) as (w2 & r & E & V2).
  destruct (tasklet_spec _ _ _ _ _ Hlay m l _ Sh) as (m2 & E2 & Sh2).
  exists m2, w2. unfold tick_turn, ece391_read. rewrite E, bind_ok, E2, bind_ok. split; [reflexivity|]. split; [by exists l|exact V2].
Qed.

Lemma ticks_spec n fd garbage m w p sc :
  0 <= n -> displays arr head vb vid m sc -> view w p -> clock p fd ->
  exists m' w', ticks head vb n fd garbage m w = Ok (m', w') /\
    displays arr head vb vid m' (Nat.iter (Z.to_nat n) tick_scene sc) /\
    view w' (paced fd 0 (Z.to_nat n) [] p).
Proof.
  intros Hn D V C.
  destruct (forM_inv n (tick_turn head vb fd garbage)
    (fun i s => displays arr head vb vid s.1 (Nat.iter (Z.to_nat i) tick_scene sc) /\
      view s.2 (paced fd 0 (Z.to_nat i) [] p)) (m, w) Hn)
    as ([m' w'] & E & D' & V').
  - split; [exact D|]. change (Z.to_nat 0) with 0%nat. by rewrite paced_nil.
  - intros i [m1 w1] Hi [D1 V1].
    destruct (tick_turn_spec fd garbage m1 w1 _ _ i D1 V1 (clock_paced _ _ _ _ _ _ C)) as (m2 & w2 & E & D2 & V2).
    exists (m2, w2). split; [exact E|]. replace (Z.to_nat (i + 1)) with (S (Z.to_nat i)) by lia. split; [exact D2|].
    rewrite paced_app in V2 by (cbn [length]; lia). by rewrite Nat.add_1_r in V2.
  - exists m', w'. exact (conj E (conj D' V')).
Qed.

(** C32 [n] turns of the clock loop of fish.c: the loop ends, after it has
    waited for [n] ticks when the clock is open, and every blinker, added at a
    place of its own, shows the character its two lengths ask for after [n]
    ticks, on then off, around and around. *)
Theorem ticks_blink n fd garbage m w p sc :
  0 <= n -> displays arr head vb vid m sc -> lit_up sc -> view w p -> clock p fd ->
  exists m' w', ticks head vb n fd garbage m w = Ok (m', w') /\ view w' (paced fd 0 (Z.to_nat n) [] p) /\
    displays arr head vb vid m' (Nat.iter (Z.to_nat n) tick_scene sc) /\
    forall b, armed b ∈ blinks sc -> 0 < on_length b < 32768 -> 0 < off_length b < 32768 -> 0 <= location b < CELLS ->
      load8 m' (vid + 2 * location b) = char_at b n.
Proof.
  intros Hn D Lt V C. destruct (ticks_spec n fd garbage m w p sc Hn D V C) as (m' & w' & E & D' & V').
  exists m', w'. split; [exact E|]. split; [exact V'|]. split; [exact D'|]. intros b Hb H1 H2 H3. destruct D' as [l Sh].
  rewrite (sh_screen _ _ _ _ _ _ _ Sh) by done. rewrite (armed_shown _ _ _ Lt Hb H1 H2), Z2Nat.id by done. done.
Qed.
End Clocked.

(** ** Witnesses *)

Lemma zero_where m lo hi :
  forallb (fun kv : Z * Z => (kv.1 <? lo) || (hi <=? kv.1)) (map_to_list m) = true ->
  0 <= lo -> hi <= 4294967296 -> forall a, lo <= a < hi -> load8 m a = 0.
Proof.
  rewrite forallb_forall. intros H H1 H2 a Ha. unfold load8. rewrite u32_small by lia.
  destruct (m !! a) as [b|] eqn:E; [|done]. exfalso.
  specialize (H (a, b) ltac:(by apply list_elem_of_In, elem_of_map_to_list)). cbn in H.
  apply orb_true_iff in H. destruct (Z.ltb_spec a lo), (Z.leb_spec hi a); destruct H; (done || lia).
Qed.

Definition fish_arr : Z := 138200000.
Definition fish_head : Z := 138300000.
Definition fish_vb : Z := 138300004.
Definition fish_ts : Z := 138300100.
Definition fish_bs : Z := 138300200.
(** A structure: at 5, an A for 3 ticks and a B for 2. *)
Definition fish_m : mem :=
  store16 (store16 (store8 (store8 (store16 (store32 empty fish_vb VID_MEM) fish_bs 5) (fish_bs + 2) 65) (fish_bs + 3) 66)
    (fish_bs + 4) 3) (fish_bs + 6) 2.
Definition fish_blink : blink := Blink 5 65 66 3 2 0 0.

Lemma fish_layout : layout fish_arr fish_head fish_vb fish_ts VID_MEM.
Proof. by split; vm_compute; intuition congruence. Qed.
Lemma fish_outside : outside fish_arr fish_head fish_vb fish_ts VID_MEM fish_bs.
Proof. by vm_compute; intuition congruence. Qed.
Lemma fish_cell : cell_at fish_m fish_bs = fish_blink.
Proof. by vm_compute. Qed.
Definition fish_screen (x : Z) : Z := load8 fish_m (VID_MEM + 2 * x).
Lemma fish_displays : displays fish_arr fish_head fish_vb VID_MEM fish_m (Scene [] fish_screen).
Proof.
  apply displays_empty; [|by vm_compute|by vm_compute].
  apply zero_where; [by vm_compute|done|done].
Qed.

Lemma blink_ioctl_refines_witness :
  exists m', mp1_ioctl fish_arr fish_head fish_vb fish_ts fish_m fish_bs RTC_ADD = Ok (m', 0) /\
    displays fish_arr fish_head fish_vb VID_MEM m' (Scene [armed fish_blink] (upd fish_screen 5 65)).
Proof.
  destruct (blink_ioctl_refines _ _ _ _ _ fish_layout fish_m _ fish_bs RTC_ADD fish_displays) as (m' & E & D & _).
  - by vm_compute; intuition congruence.
  - intros _. exact fish_outside.
  - by rewrite fish_cell.
  - rewrite fish_cell in E, D. by exists m'.
Defined.

Lemma fish_added :
  exists m, displays fish_arr fish_head fish_vb VID_MEM m (Scene [armed fish_blink] (upd fish_screen 5 65)).
Proof.
  destruct fish_displays as [l Sh]. destruct fish_outside as (O1 & O2 & _).
  destruct (ioctl_add_spec _ _ _ _ _ fish_layout fish_m l _ fish_bs Sh O1 O2) as (m' & l' & _ & Sh' & _).
  - by rewrite fish_cell.
  - rewrite fish_cell in Sh'. exists m'. by exists l'.
Qed.
Lemma fish_lit_up : lit_up (Scene [armed fish_blink] (upd fish_screen 5 65)).
Proof. split; [by apply NoDup_singleton|]. by intros b ->%list_elem_of_singleton. Qed.

Definition fish_proc : proc := fresh_proc [] (demo_dir ++ [(bytes "rtc", KRtc)]) [] demo_cmd.
Lemma fish_proc_ok : sim_view fish_proc fish_proc.
Proof. split; [done|]. apply proc_ok_decide. by vm_compute. Qed.

(** The same process with the clock open. *)
Definition fish_clock : proc := with_fds fish_proc (<[2%nat := FdRtc]> (p_fds fish_proc)).
Lemma fish_clock_ok : sim_view fish_clock fish_clock.
Proof. split; [done|]. apply proc_ok_decide. by vm_compute. Qed.

Lemma ticks_blink_witness :
  exists m m' w', ticks fish_head fish_vb 3 2 0 m fish_clock = Ok (m', w') /\ load8 m' (VID_MEM + 2 * 5) = 66 /\
    p_clock w' = [Tick 0; Tick 0; Tick 0].
Proof.
  destruct fish_added as [m D]. exists m.
  destruct (ticks_blink _ _ _ _ _ fish_layout 3 2 0 m fish_clock fish_clock _ ltac:(lia) D fish_lit_up fish_clock_ok ltac:(by left))
    as (m' & w' & E & V & _ & H).
  exists m', w'. split; [exact E|]. split; [|destruct V as [-> _]; by vm_compute]. exact (H fish_blink ltac:(by left) ltac:(cbn; lia) ltac:(cbn; lia) ltac:(cbn; unfold CELLS; lia)).
Defined.
