(* ===== verification/Frames.v ===== *)
(** * fish.c: the frames of the fish

    [add_frames] reads two pictures side by side, character by character, and
    adds a blinker for each place where either has one.  The theorem relates
    it to a function of the lines of the two files. *)

From S2P Require Import Prelude Mem Lib Pcb Filesys Syscalls User Ulib.
From S2P Require Import Apps Demos Fish.

(** ** The pictures *)

(** The lines of a file, the last one without a newline. *)
Fixpoint lines (l : list Z) : list (list Z) :=
  match l with
  | [] => [[]]
  | c :: l => if c =? 10 then [] :: lines l
              else match lines l with [] => [[c]] | x :: r => (c :: x) :: r end
  end.

(** Side by side, the shorter one filled up. *)
Fixpoint zip_pad {A} (d : A) (l1 l2 : list A) : list (A * A) :=
  match l1 with
  | [] => (fun y => (d, y)) <$> l2
  | x :: l1 => (x, List.hd d l2) :: zip_pad d l1 (List.tl l2)
  end.

Definition frame_blink (loc x y : Z) : blink := Blink loc x y 15 15 0 0.

(** A row from the place [loc] on: nothing where both are blank. *)
Fixpoint row_adds (loc : Z) (ps : list (Z * Z)) (sc : scene) : scene :=
  match ps with
  | [] => sc
  | (x, y) :: ps =>
    row_adds (loc + 1) ps (if (x =? 32) && (y =? 32) then sc else (scene_add (frame_blink loc x y) sc).1)
  end.

(** The rows, at the right half of the screen. *)
Fixpoint frames_adds (row : Z) (rs : list (list Z * list Z)) (sc : scene) : scene :=
  match rs with
  | [] => sc
  | (l0, l1) :: rs => frames_adds (row + 1) rs (row_adds (row * 80 + 40) (zip_pad 32 l0 l1) sc)
  end.

Definition frames_scene (c0 c1 : list Z) (sc : scene) : scene := frames_adds 0 (zip_pad [] (lines c0) (lines c1)) sc.

Example lines_two : lines (bytes "ab" ++ 10 :: bytes "c") = [bytes "ab"; bytes "c"].
Proof. reflexivity. Qed.
Example frames_two :
  blinks (frames_scene (bytes "A") (bytes " B") (Scene [] (fun _ => 0))) =
    [armed (frame_blink 41 32 66); armed (frame_blink 40 65 32)].
Proof. by vm_compute. Qed.

Lemma lines_cons c l : exists x r, lines (c :: l) = x :: r /\
  (c = 10 /\ x = [] /\ r = lines l \/ c <> 10 /\ exists x', x = c :: x' /\ lines l = x' :: r).
Proof.
  assert (Hne : lines l <> []) by (destruct l as [|d l]; cbn; [done|]; destruct (d =? 10); [done|]; by destruct (lines l)).
  cbn [lines]. destruct (Z.eqb_spec c 10).
  - eexists _, _. split; [done|]. by left.
  - destruct (lines l) as [|x r] eqn:E; [done|]. eexists _, _. split; [done|]. right. split; [done|]. by exists x.
Qed.

Lemma lines_len l : (forall x, x ∈ lines l -> length x <= length l)%nat /\ (0 < length (lines l) <= S (length l))%nat.
Proof.
  induction l as [|c l [IH1 IH2]].
  - split; [|cbn; lia]. intros x Hx. apply list_elem_of_singleton in Hx as ->. done.
  - destruct (lines_cons c l) as (x & r & E & H). rewrite E. split.
    + intros y [->|Hy]%elem_of_cons; destruct H as [(-> & -> & ->)|(_ & x' & -> & El)]; cbn [length].
      * lia.
      * pose proof (IH1 x' ltac:(rewrite El; by left)). lia.
      * pose proof (IH1 y Hy). lia.
      * pose proof (IH1 y ltac:(rewrite El; by right)). lia.
    + destruct H as [(-> & -> & ->)|(_ & x' & -> & El)]; cbn [length]; [lia|]. rewrite El in IH2. cbn [length] in IH2. lia.
Qed.

Lemma lines_ne l : [] <> lines l.
Proof. destruct (lines_len l) as [_ H]. by destruct (lines l); [cbn in H; lia|]. Qed.

Lemma zip_pad_step {A} (d : A) l1 l2 :
  l1 <> [] \/ l2 <> [] ->
  zip_pad d l1 l2 = (List.hd d l1, List.hd d l2) :: zip_pad d (List.tl l1) (List.tl l2).
Proof. destruct l1 as [|x l1], l2 as [|y l2]; intros [H|H]; done. Qed.

(** ** Reading *)

Section Read.
Context {W : Type} {O : OS W} {Vw : View W} {L : OSLaws W}.

(** The descriptor [fd] of the process, apart from what else it has. *)
Record fd_slot (fd : Z) (G : fdesc -> proc) : Prop := Slot {
  sl_fd : 2 <= fd < 8;
  sl_get d : aget (p_fds (G d)) fd = Some d;
  sl_set d d' : with_fds (G d) (<[Z.to_nat fd := d']> (p_fds (G d))) = G d' }.

(** Where the reader of a file is: the rest [l] of its line, and the lines
    [more] after it. *)
Inductive reading (content : list Z) : Z -> Z -> fdesc -> list Z -> list (list Z) -> Prop :=
| Within c pos l more : c <> 10 -> lines (drop (Z.to_nat pos) content) = l :: more ->
    reading content c 0 (FdFile content pos) l more
| Ended pos : reading content 10 0 (FdFile content pos) [] (lines (drop (Z.to_nat pos) content))
| Finished d : d = FdFree \/ (exists pos, d = FdFile content pos) -> reading content 10 1 d [] [].

Lemma next_byte_spec fd ca G content m w c eof d l more :
  fd_slot fd G -> in_user ca 1 -> view w (G d) -> reading content c eof d l more ->
  exists m' w' eof' d', next_byte fd ca c eof m w = Ok (m', w', List.hd 10 l, eof') /\ view w' (G d') /\
    reading content (List.hd 10 l) eof' d' (List.tl l) more /\ 0 <= List.hd 10 l < 256 /\
    same_outside ca (ca + 1) m m' /\ (l <> [] -> List.hd 10 l <> 10).
Proof.
  intros Sl U V R. unfold next_byte.
  assert (Hskip : forall e d, view w (G d) -> reading content 10 e d [] more ->
    exists m' w' eof' d', Ok (m, w, 10, e) = Ok (m', w', List.hd 10 [], eof') /\ view w' (G d') /\
      reading content 10 eof' d' [] more /\ 0 <= 10 < 256 /\ same_outside ca (ca + 1) m m' /\ ([] <> ([] : list Z) -> 10 <> 10)).
  { intros e d1 V1 R1. exists m, w, e, d1. split_and!; try done. }
  inversion R as [c1 pos l1 more1 Hc Hl|pos|d1 Hd]; subst; try exact (Hskip _ _ V R).
  destruct (Z.eqb_spec c 10); [done|]. clear Hskip.
  destruct (law_read_file (store8 m ca c) w _ fd ca 1 content pos V (sl_get _ _ Sl _) ltac:(lia) U)
    as (m' & w' & E & B & S & Hp & V'). rewrite (sl_set _ _ Sl) in V'. unfold ece391_read. rewrite E, bind_ok.
  assert (Hca : 0 <= ca < 4294967295) by (unfold in_user, TOP_PAGE, BOTTOM_PAGE in U; lia).
  assert (S' : same_outside ca (ca + 1) m m').
  { eapply same_outside_trans; [apply same_store8; lia|]. eapply same_outside_weaken; [| |exact S]; lia. }
  destruct (drop (Z.to_nat pos) content) as [|x rest] eqn:Hd.
  - apply (f_equal length) in Hd. rewrite length_drop in Hd. cbn [length] in Hd.
    replace (Z.min 1 (Z.of_nat (length content) - pos)) with 0 in * by lia. cbn [Z.eqb].
    injection Hl as <- <-. exists m', w', 1, (FdFile content (pos + 0)). cbn [List.hd List.tl].
    split_and!; try done. apply Finished. right. by eexists.
  - pose proof (f_equal length Hd) as Hn. rewrite length_drop in Hn. cbn [length] in Hn.
    replace (Z.min 1 (Z.of_nat (length content) - pos)) with 1 in * by lia. cbn [Z.eqb Pos.eqb].
    change (take (Z.to_nat 1) (x :: rest)) with (x :: take 0 rest) in B. rewrite take_0 in B.
    pose proof (B 0 ltac:(cbn [length]; lia)) as B0. rewrite Z.add_0_r in B0. injection B0 as B0.
    pose proof (load8_range m' ca) as Hx. rewrite <- B0 in *.
    assert (Hd' : drop (Z.to_nat (pos + 1)) content = rest).
    { replace (Z.to_nat (pos + 1)) with (Z.to_nat pos + 1)%nat by lia. by rewrite <- drop_drop, Hd. }
    exists m', w', 0, (FdFile content (pos + 1)).
    destruct (lines_cons x rest) as (l' & r & El & H). rewrite El in Hl. injection Hl as <- <-.
    destruct H as [(-> & -> & ->)|(Hx10 & x' & -> & Er)]; cbn [List.hd List.tl].
    + split_and!; try done. rewrite <- Hd'. apply Ended.
    + split_and!; try done; try lia. apply Within; [done|]. by rewrite Hd'.
Qed.
End Read.

(** ** Drawing *)

Lemma lengths_set m bs :
  0 <= bs -> bs + 16 <= 4294967296 ->
  let m1 := store16 (store16 m (bs + ON_LENGTH) 15) (bs + OFF_LENGTH) 15 in
  same_outside bs (bs + 16) m m1 /\ load16 m1 (bs + ON_LENGTH) = 15 /\ load16 m1 (bs + OFF_LENGTH) = 15.
Proof.
  intros H1 H2 m1. destruct (cell_set m bs 15 H1 H2) as (E1 & _).
  destruct (cell_set (store16 m (bs + ON_LENGTH) 15) bs 15 H1 H2) as (_ & E2 & _). fold m1 in E2. split; [|split].
  - eapply same_outside_trans; (eapply same_outside_weaken; [| |apply same_store16]); unfold ON_LENGTH, OFF_LENGTH; lia.
  - change (on_length (cell_at m1 bs) = 15). by rewrite E2, E1.
  - change (off_length (cell_at m1 bs) = 15). by rewrite E2.
Qed.

Lemma scene_add_fields b b' sc :
  location b = location b' -> on_char b = on_char b' -> off_char b = off_char b' -> on_length b = on_length b' ->
  off_length b = off_length b' -> scene_add b sc = scene_add b' sc.
Proof. destruct b, b'; cbn. by intros -> -> -> -> ->. Qed.

Section Draw.
Context {W : Type} {O : OS W} {Vw : View W} {L : OSLaws W}.
Context (arr head vb ts vid : Z).
Hypothesis Hlay : layout arr head vb ts vid.
(** The local structure, and the local characters. *)
Context (bs a0 a1 : Z).
Hypothesis Hbs : outside arr head vb ts vid bs.

(** A byte that is neither the module's nor the structure's. *)
Definition elsewhere (a : Z) : Prop :=
  in_user a 1 /\ apart arr 32000 a 1 /\ apart head 4 a 1 /\ apart vb 4 a 1 /\ apart ts 16 a 1 /\ apart vid 4000 a 1 /\ apart bs 16 a 1.
Hypothesis Ha0 : elsewhere a0.
Hypothesis Ha1 : elsewhere a1.

(** The memory between two additions. *)
Definition frame_ready (m : mem) (sc : scene) : Prop :=
  displays arr head vb vid m sc /\ load16 m (bs + ON_LENGTH) = 15 /\ load16 m (bs + OFF_LENGTH) = 15.

Lemma ready_char a m m' sc : elsewhere a -> same_outside a (a + 1) m m' -> frame_ready m sc -> frame_ready m' sc.
Proof.
  intros (U & A1 & A2 & A3 & A4 & A5 & A6) S ([l Sh] & R1 & R2). destruct Hbs as (B & _).
  unfold in_user, in_space, apart, TOP_PAGE, BOTTOM_PAGE in *. split; [|split].
  - exists l. eapply shows_frame; [exact Hlay|exact S|lia..|exact Sh].
  - rewrite <- R1. eapply load16_frame; [exact S|unfold ON_LENGTH; lia..].
  - rewrite <- R2. eapply load16_frame; [exact S|unfold OFF_LENGTH; lia..].
Qed.

(** The structure filled in. *)
Lemma filled m loc x y :
  load16 m (bs + ON_LENGTH) = 15 -> load16 m (bs + OFF_LENGTH) = 15 -> 0 <= loc < 65536 -> 0 <= x < 256 -> 0 <= y < 256 ->
  let m1 := store16 (store8 (store8 m (bs + ON_CHAR) x) (bs + OFF_CHAR) y) bs loc in
  same_outside bs (bs + 16) m m1 /\
  location (cell_at m1 bs) = loc /\ on_char (cell_at m1 bs) = x /\ off_char (cell_at m1 bs) = y /\
  on_length (cell_at m1 bs) = 15 /\ off_length (cell_at m1 bs) = 15.
Proof.
  intros R1 R2 Hl Hx Hy m1. destruct Hbs as (B & _). unfold in_space in B.
  unfold ON_CHAR, OFF_CHAR, ON_LENGTH, OFF_LENGTH in *.
  pose proof (same_store8 m (bs + 2) x ltac:(lia)) as S1.
  pose proof (same_store8 (store8 m (bs + 2) x) (bs + 3) y ltac:(lia)) as S2.
  pose proof (same_store16 (store8 (store8 m (bs + 2) x) (bs + 3) y) bs loc ltac:(lia) ltac:(lia)) as S3.
  fold m1 in S3. cbn [cell_at location on_char off_char on_length off_length]. unfold ON_CHAR, OFF_CHAR, ON_LENGTH, OFF_LENGTH.
  split_and!.
  - eapply same_outside_trans; [eapply same_outside_trans|]; (eapply same_outside_weaken; [| |eassumption]); lia.
  - unfold m1. rewrite load16_store16 by lia. apply u16_small. lia.
  - rewrite (load8_frame _ _ _ _ S3), (load8_frame _ _ _ _ S2) by lia.
    rewrite load8_store8_addr by (unfold addr; lia). rewrite Z.eqb_refl. apply u8_small. lia.
  - rewrite (load8_frame _ _ _ _ S3) by lia.
    rewrite load8_store8_addr by (unfold addr; lia). rewrite Z.eqb_refl. apply u8_small. lia.
  - rewrite (load16_frame _ _ _ _ S3), (load16_frame _ _ _ _ S2), (load16_frame _ _ _ _ S1) by lia. done.
  - rewrite (load16_frame _ _ _ _ S3), (load16_frame _ _ _ _ S2), (load16_frame _ _ _ _ S1) by lia. done.
Qed.

Lemma ready_add m sc loc x y :
  frame_ready m sc -> 0 < loc < 65536 -> 0 <= x < 256 -> 0 <= y < 256 ->
  exists m' r, mp1_ioctl arr head vb ts (store16 (store8 (store8 m (bs + ON_CHAR) x) (bs + OFF_CHAR) y) bs loc) bs RTC_ADD
    = Ok (m', r) /\ frame_ready m' (scene_add (frame_blink loc x y) sc).1.
Proof.
  intros ([l Sh] & R1 & R2) Hl Hx Hy. pose proof Hbs as (B & B1 & B2 & B3 & B4 & B5).
  destruct (filled m loc x y R1 R2 ltac:(lia) Hx Hy) as (S & F1 & F2 & F3 & F4 & F5).
  generalize dependent (store16 (store8 (store8 m (bs + ON_CHAR) x) (bs + OFF_CHAR) y) bs loc). intros m1 S F1 F2 F3 F4 F5.
  unfold in_space, apart in B, B1, B2, B3, B4, B5. clear Ha0 Ha1.
  assert (Sh1 : shows_scene arr head vb vid m1 l sc).
  { eapply shows_frame; [exact Hlay|exact S|lia..|exact Sh]. }
  destruct (ioctl_add_spec _ _ _ _ _ Hlay m1 l sc bs Sh1 B B1 ltac:(rewrite F1; lia)) as (m' & l' & E & Sh' & U).
  change (mp1_ioctl arr head vb ts m1 bs RTC_ADD) with (mp1_ioctl_add arr head vb ts m1 bs). rewrite E.
  rewrite (scene_add_fields _ (frame_blink loc x y)) in Sh' by done.
  exists m', (scene_add (cell_at m1 bs) sc).2. split; [reflexivity|]. split; [by exists l'|].
  assert (K : forall k, 0 <= k < 16 -> load8 m' (bs + k) = load8 m1 (bs + k)).
  { intros k Hk. apply U; unfold addr; lia. }
  split.
  - rewrite <- F4. apply load16_ext. intros i Hi. rewrite <- Z.add_assoc. apply K. unfold ON_LENGTH. lia.
  - rewrite <- F5. apply load16_ext. intros i Hi. rewrite <- Z.add_assoc. apply K. unfold OFF_LENGTH. lia.
Qed.

(** The two descriptors. *)
Context (fd0 fd1 : Z) (G : fdesc -> fdesc -> proc) (x0 x1 : list Z).
Hypothesis Hs0 : forall d1, fd_slot fd0 (fun d0 => G d0 d1).
Hypothesis Hs1 : forall d0, fd_slot fd1 (G d0).

Definition place (row col : Z) : Z := row * 80 + col + 40.

Lemma column_turn_spec m w c0 c1 e0 e1 d0 d1 l0 l1 more0 more1 row col sc :
  view w (G d0 d1) -> reading x0 c0 e0 d0 l0 more0 -> reading x1 c1 e1 d1 l1 more1 -> frame_ready m sc ->
  0 <= row -> 0 <= col -> place row col < 65536 ->
  exists m' w' e0' e1' d0' d1', view w' (G d0' d1') /\
    reading x0 (List.hd 10 l0) e0' d0' (List.tl l0) more0 /\ reading x1 (List.hd 10 l1) e1' d1' (List.tl l1) more1 /\
    (l0 = [] /\ l1 = [] /\ frame_ready m' sc /\
       column_turn arr head vb ts fd0 fd1 a0 a1 bs row 40 (m, w, c0, c1, e0, e1, col) = Ok (inr (m', w', e0', e1')) \/
     (l0 <> [] \/ l1 <> []) /\
       frame_ready m' (if (List.hd 32 l0 =? 32) && (List.hd 32 l1 =? 32) then sc
                 else (scene_add (frame_blink (place row col) (List.hd 32 l0) (List.hd 32 l1)) sc).1) /\
       column_turn arr head vb ts fd0 fd1 a0 a1 bs row 40 (m, w, c0, c1, e0, e1, col) =
         Ok (inl (m', w', List.hd 10 l0, List.hd 10 l1, e0', e1', col + 1))).
Proof.
  intros V R0 R1 Rd Hr Hc Hp. unfold column_turn.
  destruct (next_byte_spec fd0 a0 (fun d => G d d1) x0 m w c0 e0 d0 l0 more0 (Hs0 d1) ltac:(apply Ha0) V R0)
    as (m1 & w1 & f0 & g0 & E0 & V1 & R0' & B0 & S0 & N0). rewrite E0, bind_ok. clear E0.
  destruct (next_byte_spec fd1 a1 (G g0) x1 m1 w1 c1 e1 d1 l1 more1 (Hs1 g0) ltac:(apply Ha1) V1 R1)
    as (m2 & w2 & f1 & g1 & E1 & V2 & R1' & B1 & S1 & N1). rewrite E1, bind_ok. clear E1.
  pose proof (ready_char a1 _ _ _ Ha1 S1 (ready_char a0 _ _ _ Ha0 S0 Rd)) as Rd2.
  assert (H32 : forall l : list Z, (l <> [] -> List.hd 10 l <> 10) -> List.hd 32 l = if List.hd 10 l =? 10 then 32 else List.hd 10 l).
  { intros [|z l] Hn; cbn; [done|]. destruct (Z.eqb_spec z 10); [|done]. by destruct (Hn ltac:(done)). }
  assert (H10 : forall l : list Z, (l <> [] -> List.hd 10 l <> 10) -> (List.hd 10 l =? 10) = bool_decide (l = [])).
  { intros [|z l] Hn; [done|]. rewrite bool_decide_false by done. apply Z.eqb_neq. by apply Hn. }
  destruct (decide (l0 = [] /\ l1 = [])) as [[-> ->]|Hne].
  { exists m2, w2, f0, f1, g0, g1. split_and!; [done..|]. left. done. }
  assert (Hor : l0 <> [] \/ l1 <> []).
  { destruct l0; [right|by left]. intros ->. by apply Hne. }
  assert (Hst : (List.hd 10 l0 =? 10) && (List.hd 10 l1 =? 10) = false).
  { rewrite (H10 _ N0), (H10 _ N1). apply andb_false_iff. rewrite !bool_decide_eq_false. exact Hor. }
  rewrite Hst, (H32 _ N0), (H32 _ N1).
  assert (Hcond : forall z, negb (z =? 32) && negb (z =? 10) = negb ((if z =? 10 then 32 else z) =? 32)).
  { intros z. destruct (Z.eqb_spec z 32), (Z.eqb_spec z 10); cbn; try done; [subst; done|by destruct (Z.eqb_spec z 32)]. }
  rewrite !Hcond, <- negb_andb.
  destruct (((if List.hd 10 l0 =? 10 then 32 else List.hd 10 l0) =? 32) && ((if List.hd 10 l1 =? 10 then 32 else List.hd 10 l1) =? 32));
    cbn [negb].
  - exists m2, w2, f0, f1, g0, g1. split_and!; [done..|]. right. rewrite bind_ok. done.
  - unfold place in *. destruct (ready_add m2 sc (row * 80 + col + 40) (if List.hd 10 l0 =? 10 then 32 else List.hd 10 l0)
      (if List.hd 10 l1 =? 10 then 32 else List.hd 10 l1) Rd2 ltac:(lia) ltac:(case_match; lia) ltac:(case_match; lia))
      as (m3 & r & E3 & Rd3). rewrite E3, !bind_ok.
    exists m3, w2, f0, f1, g0, g1. split_and!; [done..|]. right. done.
Qed.

Lemma columns_spec m w c0 c1 e0 e1 d0 d1 l0 l1 more0 more1 row sc :
  view w (G d0 d1) -> reading x0 c0 e0 d0 l0 more0 -> reading x1 c1 e1 d1 l1 more1 -> frame_ready m sc ->
  0 <= row -> place row (Z.of_nat (Nat.max (length l0) (length l1))) < 65536 ->
  exists m' w' e0' e1' d0' d1', whileM (column_turn arr head vb ts fd0 fd1 a0 a1 bs row 40) (m, w, c0, c1, e0, e1, 0) =
      Ok (m', w', e0', e1') /\ view w' (G d0' d1') /\ reading x0 10 e0' d0' [] more0 /\ reading x1 10 e1' d1' [] more1 /\
    frame_ready m' (row_adds (row * 80 + 40) (zip_pad 32 l0 l1) sc).
Proof.
  intros V R0 R1 Rd Hr Hp. unfold place in *.
  destruct (whileM_rule (column_turn arr head vb ts fd0 fd1 a0 a1 bs row 40)
    (fun n '(m, w, c0, c1, e0, e1, col) => exists d0 d1 k0 k1 s, n = Z.of_nat (Nat.max (length k0) (length k1)) /\
       view w (G d0 d1) /\ reading x0 c0 e0 d0 k0 more0 /\ reading x1 c1 e1 d1 k1 more1 /\ frame_ready m s /\ 0 <= col /\
       place row col + n < 65536 /\ row_adds (row * 80 + col + 40) (zip_pad 32 k0 k1) s = row_adds (row * 80 + 40) (zip_pad 32 l0 l1) sc)
    (fun '(m', w', e0', e1') => exists d0' d1', view w' (G d0' d1') /\ reading x0 10 e0' d0' [] more0 /\
       reading x1 10 e1' d1' [] more1 /\ frame_ready m' (row_adds (row * 80 + 40) (zip_pad 32 l0 l1) sc))
    (Z.of_nat (Nat.max (length l0) (length l1))) (m, w, c0, c1, e0, e1, 0)) as ([[[m' w'] f0] f1] & E & Q).
  - exists d0, d1, l0, l1, sc. unfold place. rewrite Z.add_0_r. split_and!; try done; lia.
  - lia.
  - clear V R0 R1 Rd m w c0 c1 e0 e1 d0 d1. intros n [[[[[[m w] c0] c1] e0] e1] col] _ (d0 & d1 & k0 & k1 & s & -> & V & R0 & R1 & Rd & Hc & Hb & Es).
    destruct (column_turn_spec m w c0 c1 e0 e1 d0 d1 k0 k1 more0 more1 row col s V R0 R1 Rd Hr Hc ltac:(unfold place in *; lia))
      as (m' & w' & f0 & f1 & g0 & g1 & V' & R0' & R1' & [(-> & -> & Rd' & E)|(Hne & Rd' & E)]).
    + eexists. split; [exact E|]. exists g0, g1. split_and!; try done. by rewrite <- Es.
    + eexists. split; [exact E|]. exists (Z.of_nat (Nat.max (length (List.tl k0)) (length (List.tl k1)))). split.
      { destruct Hne; destruct k0, k1; cbn [List.tl length]; try done; lia. }
      exists g0, g1, (List.tl k0), (List.tl k1). eexists. split; [done|]. split; [exact V'|]. split; [exact R0'|]. split; [exact R1'|].
      split; [exact Rd'|]. unfold place in *. split; [lia|]. split; [destruct Hne, k0, k1; cbn [List.tl length] in *; (done || lia)|].
      rewrite <- Es, (zip_pad_step 32 k0 k1 Hne). cbn [row_adds]. f_equal. lia.
  - destruct Q as (g0 & g1 & Q). exists m', w', f0, f1, g0, g1. split; [exact E|]. exact Q.
Qed.
(** Where the reader is at the start of a row: the lines left. *)
Inductive starting (content : list Z) : Z -> Z -> fdesc -> list (list Z) -> Prop :=
| Going pos : starting content 48 0 (FdFile content pos) (lines (drop (Z.to_nat pos) content))
| Over : starting content 10 1 FdFree [].

Lemma starting_reading content c e d rs :
  starting content c e d rs -> reading content c e d (List.hd [] rs) (List.tl rs).
Proof.
  intros [pos|]; [|by apply Finished; left]. apply Within; [done|].
  pose proof (lines_ne (drop (Z.to_nat pos) content)) as H. by destruct (lines (drop (Z.to_nat pos) content)).
Qed.

Lemma row_end fd G' content e d more m w :
  fd_slot fd G' -> view w (G' d) -> reading content 10 e d [] more ->
  exists w' c d', (if negb (e =? 0) then '(m, w, _) ← ece391_close fd m w; Ok (m, w, 10) else Ok (m, w, 48)) = Ok (m, w', c) /\
    view w' (G' d') /\ starting content c e d' more.
Proof.
  intros Sl V R. inversion R as [|pos|d1 Hd]; subst.
  - done.
  - exists w, 48, (FdFile content pos). split; [done|]. split; [done|]. constructor.
  - cbn [Z.eqb negb]. pose proof (sl_fd _ _ Sl) as Hfd. pose proof (sl_get _ _ Sl d) as Hg. unfold ece391_close. destruct Hd as [->|(pos & ->)].
    + destruct (law_close_fails m w _ fd V ltac:(lia) ltac:(by right)) as (w' & E & V'). rewrite E, bind_ok.
      exists w', 10, FdFree. split; [done|]. split; [done|]. constructor.
    + destruct (law_close m w _ fd _ V Hfd Hg ltac:(done)) as (w' & E & V'). rewrite E, bind_ok.
      rewrite (sl_set _ _ Sl) in V'. exists w', 10, FdFree. split; [done|]. split; [done|]. constructor.
Qed.

Lemma starting_over content c e d rs : starting content c e d rs -> (e =? 0) = negb (bool_decide (rs = [])).
Proof.
  intros [pos|]; [|done]. rewrite bool_decide_false; [done|]. intros E. by apply (lines_ne (drop (Z.to_nat pos) content)).
Qed.

Lemma starting_nil content c e d : starting content c e d [] -> d = FdFree.
Proof. intros R. remember [] as rs eqn:E. destruct R as [pos|]; [symmetry in E; by apply lines_ne in E|done]. Qed.

Lemma rows_spec m w d0 d1 rs0 rs1 M sc c0 c1 e0 e1 :
  view w (G d0 d1) -> starting x0 c0 e0 d0 rs0 -> starting x1 c1 e1 d1 rs1 -> frame_ready m sc ->
  Forall (fun l => Z.of_nat (length l) <= M) (rs0 ++ rs1) -> 0 <= M ->
  place (Z.of_nat (Nat.max (length rs0) (length rs1))) M < 65536 ->
  exists m' w', whileM (row_turn arr head vb ts fd0 fd1 a0 a1 bs) (m, w, c0, c1, e0, e1, 0) = Ok (m', w') /\
    view w' (G FdFree FdFree) /\ frame_ready m' (frames_adds 0 (zip_pad [] rs0 rs1) sc).
Proof.
  intros V R0 R1 Rd HM HM0 Hp. set (N := Z.of_nat (Nat.max (length rs0) (length rs1))) in *.
  destruct (whileM_rule (row_turn arr head vb ts fd0 fd1 a0 a1 bs)
    (fun n '(m, w, c0, c1, e0, e1, row) => exists d0 d1 k0 k1 s, n = Z.of_nat (Nat.max (length k0) (length k1)) /\
       view w (G d0 d1) /\ starting x0 c0 e0 d0 k0 /\ starting x1 c1 e1 d1 k1 /\ frame_ready m s /\ 0 <= row /\ row + n = N /\
       Forall (fun l => Z.of_nat (length l) <= M) (k0 ++ k1) /\
       frames_adds row (zip_pad [] k0 k1) s = frames_adds 0 (zip_pad [] rs0 rs1) sc)
    (fun '(m', w') => view w' (G FdFree FdFree) /\ frame_ready m' (frames_adds 0 (zip_pad [] rs0 rs1) sc))
    N (m, w, c0, c1, e0, e1, 0)) as ([m' w'] & E & Q).
  - exists d0, d1, rs0, rs1, sc. split_and!; (done || lia).
  - unfold place in Hp. lia.
  - clear V R0 R1 Rd m w c0 c1 e0 e1 d0 d1 HM.
    intros n [[[[[[m w] c0] c1] e0] e1] row] _ (d0 & d1 & k0 & k1 & s & -> & V & R0 & R1 & Rd & Hr & HN & HM & Es).
    unfold row_turn. rewrite (starting_over _ _ _ _ _ R0), (starting_over _ _ _ _ _ R1).
    destruct (decide (k0 = [] /\ k1 = [])) as [[-> ->]|Hne].
    { rewrite (starting_nil _ _ _ _ R0), (starting_nil _ _ _ _ R1) in V.
      exists (inr (m, w)). split; [done|]. split; [done|]. by rewrite <- Es. }
    assert (Hor : k0 <> [] \/ k1 <> []).
    { destruct k0; [right|by left]. intros ->. by apply Hne. }
    assert (Hgo : negb (negb (bool_decide (k0 = [])) || negb (bool_decide (k1 = []))) = false).
    { apply negb_false_iff, orb_true_iff. rewrite !negb_true_iff, !bool_decide_eq_false. exact Hor. }
    rewrite Hgo.
    assert (Hlen : Z.of_nat (length (List.hd [] k0)) <= M /\ Z.of_nat (length (List.hd [] k1)) <= M /\
      Forall (fun l => Z.of_nat (length l) <= M) (List.tl k0 ++ List.tl k1)).
    { apply Forall_app in HM as [H0 H1]. destruct H0, H1; cbn; split_and!; try lia; try done; apply Forall_app; done. }
    destruct Hlen as (Hl0 & Hl1 & HM').
    assert (Hdec : 0 < Z.of_nat (Nat.max (length k0) (length k1))).
    { destruct Hor, k0, k1; cbn [length]; (done || lia). }
    destruct (columns_spec m w c0 c1 e0 e1 d0 d1 (List.hd [] k0) (List.hd [] k1) (List.tl k0) (List.tl k1) row s V
      (starting_reading _ _ _ _ _ R0) (starting_reading _ _ _ _ _ R1) Rd Hr ltac:(unfold place in *; lia))
      as (m1 & w1 & f0 & f1 & g0 & g1 & E1 & V1 & Q0 & Q1 & Rd1). rewrite E1, bind_ok.
    destruct (row_end fd0 (fun d => G d g1) x0 f0 g0 _ m1 w1 (Hs0 g1) V1 Q0) as (w2 & b0 & g0' & E2 & V2 & T0). rewrite E2, bind_ok.
    destruct (row_end fd1 (G g0') x1 f1 g1 _ m1 w2 (Hs1 g0') V2 Q1) as (w3 & b1 & g1' & E3 & V3 & T1). rewrite E3, bind_ok.
    eexists. split; [done|]. exists (Z.of_nat (Nat.max (length (List.tl k0)) (length (List.tl k1)))).
    assert (Hd : Z.of_nat (Nat.max (length (List.tl k0)) (length (List.tl k1))) = Z.of_nat (Nat.max (length k0) (length k1)) - 1).
    { destruct Hor, k0, k1; cbn [List.tl length]; (done || lia). }
    split; [lia|]. exists g0', g1', (List.tl k0), (List.tl k1). eexists. split_and!; [done|exact V3|exact T0|exact T1|exact Rd1|lia|lia|done|].
    rewrite <- Es, (zip_pad_step [] k0 k1 Hor). done.
  - exists m', w'. split; [exact E|]. exact Q.
Qed.
End Draw.

(** ** The whole picture *)

Section Whole.
Context {W : Type} {O : OS W} {Vw : View W} {L : OSLaws W}.

(** The process with its two lowest free descriptors in use. *)
Definition two_fds (p : proc) (n0 n1 : nat) (d0 d1 : fdesc) : proc := with_fds p (<[n1:=d1]> (<[n0:=d0]> (p_fds p))).

Lemma two_slots p n0 n1 :
  length (p_fds p) = 8%nat -> (2 <= n0 < 8)%nat -> (2 <= n1 < 8)%nat -> n0 <> n1 ->
  (forall d1, fd_slot (Z.of_nat n0) (fun d0 => two_fds p n0 n1 d0 d1)) /\ (forall d0, fd_slot (Z.of_nat n1) (two_fds p n0 n1 d0)).
Proof.
  intros Hl H0 H1 Hn. split; intros d'; split; try lia; intros d; unfold two_fds, with_fds; cbn [p_fds p_arg p_dir p_dirpos p_input p_out p_cmd].
  - rewrite aget_of_nat, list_lookup_insert_ne, list_lookup_insert_eq by lia. done.
  - intros d2. rewrite Nat2Z.id, (list_insert_insert_ne _ n0 n1) by lia. by rewrite list_insert_insert_eq, (list_insert_insert_ne _ n1 n0) by lia.
  - rewrite aget_of_nat. apply list_lookup_insert_eq. rewrite length_insert. lia.
  - intros d2. by rewrite Nat2Z.id, list_insert_insert_eq.
Qed.

Lemma two_fds_free p n0 n1 :
  p_fds p !! n0 = Some FdFree -> p_fds p !! n1 = Some FdFree -> two_fds p n0 n1 FdFree FdFree = p.
Proof.
  intros H0 H1. unfold two_fds, with_fds. rewrite (list_insert_id _ n0) by done. rewrite list_insert_id by done. by destruct p.
Qed.

(** Two descriptors are free, the first of which [add_frames] gives to [x0]. *)
Definition two_free (F : list fdesc) (x0 : list Z) : Prop :=
  (2 <= lowest_free F < 8)%nat /\ (2 <= lowest_free (<[lowest_free F := FdFile x0 0%Z]> F) < 8)%nat.

Lemma frames_start arr head vb ts vid bs m sc :
  layout arr head vb ts vid -> outside arr head vb ts vid bs -> displays arr head vb vid m sc ->
  let m1 := store16 (store16 m (bs + ON_LENGTH) 15) (bs + OFF_LENGTH) 15 in
  same_outside bs (bs + 16) m m1 /\ frame_ready arr head vb vid bs m1 sc.
Proof.
  intros Hlay (B & B1 & B2 & B3 & B4 & B5) [l Sh] m1. unfold in_space, apart in *.
  destruct (lengths_set m bs ltac:(lia) ltac:(lia)) as (S & R1 & R2). fold m1 in S, R1, R2. split; [done|].
  split; [|done]. exists l. clearbody m1. eapply shows_frame; [exact Hlay|exact S|lia..|exact Sh].
Qed.

Lemma frames_run arr head vb ts vid bs a0 a1 f0 f1 s0 s1 x0 x1 m w p sc M :
  layout arr head vb ts vid -> outside arr head vb ts vid bs ->
  elsewhere arr head vb ts vid bs a0 -> elsewhere arr head vb ts vid bs a1 ->
  view w p -> user_cstr m f0 s0 -> apart f0 (Z.of_nat (length s0) + 1) bs 16 ->
  user_cstr m f1 s1 -> apart f1 (Z.of_nat (length s1) + 1) bs 16 ->
  displays arr head vb vid m sc ->
  lookup_name p s0 = Some (KFile x0) -> lookup_name p s1 = Some (KFile x1) -> two_free (p_fds p) x0 ->
  Forall (fun l => Z.of_nat (length l) <= M) (lines x0 ++ lines x1) -> 0 <= M ->
  place (Z.of_nat (Nat.max (length (lines x0)) (length (lines x1)))) M < 65536 ->
  exists m' w', add_frames arr head vb ts f0 f1 a0 a1 bs m w = Ok (inr (m', w')) /\ view w' p /\
    displays arr head vb vid m' (frames_scene x0 x1 sc).
Proof.
  intros Hlay Hbs Ha0 Ha1 V C0 A0 C1 A1 D L0 L1 [H0 H1] HM HM0 Hp. unfold add_frames. cbv zeta.
  destruct (frames_start _ _ _ _ _ bs m sc Hlay Hbs D) as (S & Rd).
  generalize dependent (store16 (store16 m (bs + ON_LENGTH) 15) (bs + OFF_LENGTH) 15). intros m1 S Rd.
  assert (C' : forall a s, user_cstr m a s -> apart a (Z.of_nat (length s) + 1) bs 16 -> user_cstr m1 a s).
  { intros a s C A. eapply user_cstr_same; [exact C|exact S|]. replace (bs + 16 - bs) with 16 by lia. exact A. }
  set (n0 := lowest_free (p_fds p)) in *. set (n1 := lowest_free (<[n0 := FdFile x0 0]> (p_fds p))) in *.
  destruct (law_open m1 w p f0 s0 _ V (C' _ _ C0 A0) L0 (proj2 H0)) as (w1 & E1 & V1). unfold ece391_open. fold n0 in E1, V1. rewrite E1, bind_ok.
  destruct (Z.ltb_spec (Z.of_nat n0) 0); [lia|].
  destruct (law_open m1 w1 _ f1 s1 _ V1 (C' _ _ C1 A1) L1 (proj2 H1)) as (w2 & E2 & V2). cbn [with_fds p_fds fd_for] in E2. fold n1 in E2.
  rewrite E2, bind_ok. destruct (Z.ltb_spec (Z.of_nat n1) 0); [lia|].
  change (view w2 (two_fds p n0 n1 (FdFile x0 0) (FdFile x1 0))) in V2. pose proof (view_fds _ _ V) as H8.
  assert (F0 : p_fds p !! n0 = Some FdFree) by (apply lowest_free_spec; fold n0; lia).
  assert (F1 : <[n0:=FdFile x0 0]> (p_fds p) !! n1 = Some FdFree).
  { apply lowest_free_spec. fold n1. rewrite length_insert. lia. }
  assert (Hn : n0 <> n1).
  { intros En. rewrite <- En, list_lookup_insert_eq in F1 by lia. done. }
  rewrite list_lookup_insert_ne in F1 by done.
  destruct (two_slots p n0 n1 H8 H0 H1 Hn) as [Sl0 Sl1].
  destruct (rows_spec arr head vb ts vid Hlay bs a0 a1 Hbs Ha0 Ha1 _ _ _ x0 x1 Sl0 Sl1 m1 w2 (FdFile x0 0) (FdFile x1 0) (lines x0) (lines x1)
    M sc 48 48 0 0 V2 (Going x0 0) (Going x1 0) Rd HM HM0 Hp) as (m' & w' & E & V' & Rd').
  rewrite E, bind_ok. exists m', w'. split; [done|]. rewrite two_fds_free in V' by done. split; [exact V'|]. apply Rd'.
Qed.

(** C33 [add_frames]: both loops end, both files are read to their ends and
    closed, and the scene gains a blinker for every place of the two pictures
    that is not blank in both, row by row; the program halts when the first
    picture is missing. *)
Theorem add_frames_draws arr head vb ts vid bs a0 a1 f0 f1 s0 s1 x0 x1 m w p sc M :
  layout arr head vb ts vid -> outside arr head vb ts vid bs ->
  elsewhere arr head vb ts vid bs a0 -> elsewhere arr head vb ts vid bs a1 ->
  view w p -> user_cstr m f0 s0 -> apart f0 (Z.of_nat (length s0) + 1) bs 16 ->
  user_cstr m f1 s1 -> apart f1 (Z.of_nat (length s1) + 1) bs 16 ->
  displays arr head vb vid m sc ->
  (lookup_name p s0 = Some (KFile x0) -> lookup_name p s1 = Some (KFile x1) -> two_free (p_fds p) x0 ->
   Forall (fun l => Z.of_nat (length l) <= M) (lines x0 ++ lines x1) -> 0 <= M ->
   place (Z.of_nat (Nat.max (length (lines x0)) (length (lines x1)))) M < 65536 ->
   exists m' w', add_frames arr head vb ts f0 f1 a0 a1 bs m w = Ok (inr (m', w')) /\ view w' p /\
     displays arr head vb vid m' (frames_scene x0 x1 sc)) /\
  (lookup_name p s0 = None -> Z.of_nat (length s0) < 256 ->
   exists m' w', add_frames arr head vb ts f0 f1 a0 a1 bs m w = Ok (inl (m', w')) /\ view w' p).
Proof.
  intros Hlay Hbs Ha0 Ha1 V C0 A0 C1 A1 D. split.
  - intros L0 L1 Hf HM HM0 Hp. by eapply frames_run.
  - intros L0 Hlen. destruct (frames_start _ _ _ _ _ bs m sc Hlay Hbs D) as (S & _).
    unfold add_frames. cbv zeta. generalize dependent (store16 (store16 m (bs + ON_LENGTH) 15) (bs + OFF_LENGTH) 15). intros m1 S.
    assert (C0' : user_cstr m1 f0 s0).
    { eapply user_cstr_same; [exact C0|exact S|]. replace (bs + 16 - bs) with 16 by lia. exact A0. }
    destruct (law_open_fails m1 w p f0 s0 V C0' Hlen (or_introl L0)) as (w1 & E1 & V1).
    unfold ece391_open. rewrite E1, bind_ok. exists m1, w1. done.
Qed.
End Whole.

(** ** Witness *)

Definition frames_L : list (list Z) := [bytes "rtc"; bytes "frame0.txt"; bytes "frame1.txt"].
Definition frames_lit : list Z -> Z := lit_from demo_base frames_L.
Definition picture0 : list Z := bytes "A" ++ [10] ++ bytes " C".
Definition picture1 : list Z := bytes " B".
Definition frames_proc : proc :=
  fresh_proc [] [(bytes "rtc", KRtc); (bytes "frame0.txt", KFile picture0); (bytes "frame1.txt", KFile picture1)] [] demo_cmd.
Lemma frames_proc_ok : sim_view frames_proc frames_proc.
Proof. split; [done|]. apply proc_ok_decide. by vm_compute. Qed.

Definition frames_m : mem := store32 (lit_mem demo_base frames_L) fish_vb VID_MEM.
Definition frames_a0 : Z := 138300300.
Definition frames_a1 : Z := 138300301.
Lemma frames_elsewhere a :
  a = frames_a0 \/ a = frames_a1 -> elsewhere fish_arr fish_head fish_vb fish_ts VID_MEM fish_bs a.
Proof. by intros [->| ->]; vm_compute; intuition congruence. Qed.
Lemma frames_lits : literals frames_lit frames_L fish_bs 16 frames_m.
Proof. apply literals_dec. by vm_compute. Qed.

Lemma add_frames_draws_witness :
  exists m' w', add_frames fish_arr fish_head fish_vb fish_ts (frames_lit (bytes "frame0.txt")) (frames_lit (bytes "frame1.txt"))
      frames_a0 frames_a1 fish_bs frames_m frames_proc = Ok (inr (m', w')) /\
    displays fish_arr fish_head fish_vb VID_MEM m'
      (frames_scene picture0 picture1 (Scene [] (fun x => load8 frames_m (VID_MEM + 2 * x)))).
Proof.
  pose proof frames_lits as Hl. apply Forall_cons in Hl as [_ Hl]. apply Forall_cons in Hl as [[C0 A0] Hl].
  apply Forall_cons in Hl as [[C1 A1] _].
  destruct (add_frames_draws _ _ _ _ _ _ _ _ _ _ _ _ picture0 picture1 frames_m frames_proc frames_proc
    (Scene [] (fun x => load8 frames_m (VID_MEM + 2 * x))) 100 fish_layout fish_outside
    (frames_elsewhere frames_a0 ltac:(by left)) (frames_elsewhere frames_a1 ltac:(by right)) frames_proc_ok C0 A0 C1 A1) as [H _].
  - apply displays_empty; [|by vm_compute|by vm_compute]. apply zero_where; [by vm_compute|done|done].
  - destruct H as (m' & w' & E & _ & D); [by vm_compute|by vm_compute| | |lia|by vm_compute|].
    + unfold two_free. vm_compute. lia.
    + apply (bool_decide_unpack _). by vm_compute.
    + exists m', w'. exact (conj E D).
Defined.
