(* ===== verification/Fishmain.v ===== *)
(** * fish.c: the program

    [main] from its first line to its return: the module's memory, the frames,
    the clock and the three commands together, on any system that obeys the
    laws of the calls. *)

From S2P Require Import Prelude Mem Lib Pcb Filesys Syscalls User Ulib.
From S2P Require Import Apps Demos Fish Frames.

(** The structure of [main] filled in. *)
Lemma blink_filled m a loc x y on off :
  0 <= a -> a + 16 <= 4294967296 -> 0 <= loc < 65536 -> 0 <= x < 256 -> 0 <= y < 256 -> 0 <= on < 65536 -> 0 <= off < 65536 ->
  let m1 := store16 (store16 (store16 (store8 (store8 m (a + ON_CHAR) x) (a + OFF_CHAR) y) (a + ON_LENGTH) on) (a + OFF_LENGTH) off) a loc in
  same_outside a (a + 16) m m1 /\ location (cell_at m1 a) = loc /\ on_char (cell_at m1 a) = x /\ off_char (cell_at m1 a) = y /\
  on_length (cell_at m1 a) = on /\ off_length (cell_at m1 a) = off.
Proof.
  intros H1 H2 Hl Hx Hy Ho Hf m1. cbn [cell_at location on_char off_char on_length off_length].
  unfold ON_CHAR, OFF_CHAR, ON_LENGTH, OFF_LENGTH in *. unfold m1. clear m1.
  pose proof (same_store8 m (a + 2) x ltac:(lia)) as S1. set (m2 := store8 m (a + 2) x) in *.
  pose proof (same_store8 m2 (a + 3) y ltac:(lia)) as S2. set (m3 := store8 m2 (a + 3) y) in *.
  pose proof (same_store16 m3 (a + 4) on ltac:(lia) ltac:(lia)) as S3. set (m4 := store16 m3 (a + 4) on) in *.
  pose proof (same_store16 m4 (a + 6) off ltac:(lia) ltac:(lia)) as S4. set (m5 := store16 m4 (a + 6) off) in *.
  pose proof (same_store16 m5 a loc ltac:(lia) ltac:(lia)) as S5. set (m6 := store16 m5 a loc) in *.
  split_and!.
  - repeat (eapply same_outside_trans; [eapply same_outside_weaken; [| |eassumption]; lia|]). apply same_outside_refl.
  - unfold m6. rewrite load16_store16 by lia. by apply u16_small.
  - rewrite (load8_frame _ _ _ _ S5), (load8_frame _ _ _ _ S4), (load8_frame _ _ _ _ S3), (load8_frame _ _ _ _ S2) by lia.
    unfold m2. rewrite load8_store8_addr by (unfold addr; lia). rewrite Z.eqb_refl. by apply u8_small.
  - rewrite (load8_frame _ _ _ _ S5), (load8_frame _ _ _ _ S4), (load8_frame _ _ _ _ S3) by lia.
    unfold m3. rewrite load8_store8_addr by (unfold addr; lia). rewrite Z.eqb_refl. by apply u8_small.
  - rewrite (load16_frame _ _ _ _ S5), (load16_frame _ _ _ _ S4) by lia. unfold m4. rewrite load16_store16 by lia. by apply u16_small.
  - rewrite (load16_frame _ _ _ _ S5) by lia. unfold m5. rewrite load16_store16 by lia. by apply u16_small.
Qed.

(** What [main] leaves on the list and on the screen: the frames for 200
    ticks, an I for 200, the I in step with the place 40 for 200, and then
    the place 200 off the list. *)
Definition animation_scene (sc : scene) : scene :=
  let sc := Nat.iter (Z.to_nat WAIT) tick_scene sc in
  let sc := Nat.iter (Z.to_nat WAIT) tick_scene (scene_add (Blink 540 73 77 7 6 0 0) sc).1 in
  let sc := Nat.iter (Z.to_nat WAIT) tick_scene (scene_sync (Z.lor (Z.shiftl 40 16) 540) sc).1 in
  Nat.iter (Z.to_nat (80 * 25)) tick_scene (scene_remove (u16 WAIT) sc).1.
Definition main_scene (x0 x1 : list Z) (f : Z -> Z) : scene := animation_scene (frames_scene x0 x1 (Scene [] f)).

Lemma proc_eta p : Proc (p_arg p) (p_fds p) (p_dir p) (p_dirpos p) (p_input p) (p_out p) (p_cmd p) (p_clock p) = p.
Proof. by destruct p. Qed.

Section Main.
Context {W : Type} {O : OS W} {Vw : View W} {L : OSLaws W} {CL : ClockLaws W} {VL : VidmapLaws W}.
Context (lit : list Z -> Z) (arr head vb ts f0 f1 a0 a1 bs rs ret_val garbage : Z).

(** Where the linker and the stack put things. *)
Record placed : Prop := Placed {
  pl_lay : layout arr head vb ts VID_MEM;
  pl_bs : outside arr head vb ts VID_MEM bs;
  pl_rs : outside arr head vb ts VID_MEM rs;
  pl_a0 : elsewhere arr head vb ts VID_MEM bs a0;
  pl_a1 : elsewhere arr head vb ts VID_MEM bs a1;
  pl_vb : in_user vb 4;
  pl_ret : in_user ret_val 4 /\ apart arr 32000 ret_val 4 /\ apart head 4 ret_val 4 /\ apart vb 4 ret_val 4 /\
    apart VID_MEM 4000 ret_val 4 }.
Hypothesis Hpl : placed.

(** A string that nothing overwrites before it is used. *)
Definition string_at (m : mem) (a : Z) (s : list Z) : Prop :=
  user_cstr m a s /\ apart a (Z.of_nat (length s) + 1) arr 32000 /\ apart a (Z.of_nat (length s) + 1) vb 4 /\
  apart a (Z.of_nat (length s) + 1) bs 16.

(** The start: the array is cleared and the screen mapped. *)
Lemma fish_setup m w p :
  view w p -> load32 m head = 0 ->
  exists m' w', mp1_set_video_mode vb (ece391_memset m arr 0 (STRUCT_SIZE * 80 * 25)) w = Ok (m', w', VID_MEM) /\ view w' p /\
    displays arr head vb VID_MEM m' (Scene [] (fun x => load8 m' (VID_MEM + 2 * x))) /\
    (forall x, 0 <= x < 2000 -> load8 m' (VID_MEM + 2 * x) = load8 m (VID_MEM + 2 * x)) /\
    forall a s, string_at m a s -> string_at m' a s.
Proof.
  intros V Hh. destruct (layout_facts _ _ _ _ _ (pl_lay Hpl)) as (Ly & La & Lr). change (STRUCT_SIZE * 80 * 25) with 32000.
  pose proof (ece391_memset_writes m arr 0 32000 ltac:(lia) ltac:(unfold in_space; lia)) as Wr.
  pose proof (writes_same_outside _ _ _ _ _ Wr) as S. generalize dependent (ece391_memset m arr 0 32000). intros m1 Wr S.
  destruct (law_vidmap m1 w p vb V (pl_vb Hpl)) as (m' & w' & E & Ev & S' & V').
  exists m', w'. unfold mp1_set_video_mode, ece391_vidmap. rewrite E, bind_ok, Ev. cbn [Z.eqb]. split; [done|]. split; [done|].
  split; [|split].
  - apply displays_empty; [|rewrite <- Hh|done].
    + intros a Ha. rewrite (load8_frame _ _ _ _ S') by lia. replace a with (arr + (a - arr)) by lia.
      by rewrite (writes_in _ _ _ _ _ _ Wr) by lia.
    + rewrite (load32_frame _ _ _ _ S'), (load32_frame _ _ _ _ S) by lia. done.
  - intros x Hx. rewrite (load8_frame _ _ _ _ S'), (load8_frame _ _ _ _ S) by lia. done.
  - intros a s (U & A1 & A2 & A3). split; [|done]. eapply user_cstr_same; [|exact S'|by replace (vb + 4 - vb) with 4 by lia].
    eapply user_cstr_same; [exact U|exact S|]. by replace (arr + 32000 - arr) with 32000 by lia.
Qed.

Lemma displays_store m m' lo hi sc :
  same_outside lo hi m m' -> arr + 32000 <= lo \/ hi <= arr -> head + 4 <= lo \/ hi <= head ->
  vb + 4 <= lo \/ hi <= vb -> VID_MEM + 4000 <= lo \/ hi <= VID_MEM -> displays arr head vb VID_MEM m sc ->
  displays arr head vb VID_MEM m' sc.
Proof. intros S H1 H2 H3 H4 [l Sh]. exists l. by eapply shows_frame; [exact (pl_lay Hpl)|exact S|..]. Qed.

Lemma displays_ext m ls f g :
  (forall x, 0 <= x < 2000 -> f x = g x) -> displays arr head vb VID_MEM m (Scene ls f) -> displays arr head vb VID_MEM m (Scene ls g).
Proof.
  intros E [l Sh]. exists l. destruct Sh as [B Eb X]. split; [done|done|]. intros x Hx. unfold CELLS in *. cbn [shown] in *.
  rewrite <- E by done. by apply X.
Qed.

(** The commands on the scene. *)
Lemma add_runs m sc :
  displays arr head vb VID_MEM m sc -> 
  let m1 := store16 (store16 (store16 (store8 (store8 m (rs + ON_CHAR) 73) (rs + OFF_CHAR) 77) (rs + ON_LENGTH) 7) (rs + OFF_LENGTH) 6) rs 540 in
  exists m' r, mp1_ioctl arr head vb ts m1 rs RTC_ADD = Ok (m', r) /\
    displays arr head vb VID_MEM m' (scene_add (Blink 540 73 77 7 6 0 0) sc).1.
Proof.
  intros D m1. pose proof (pl_rs Hpl) as (B & B1 & B2 & B3 & B4 & B5). destruct (blink_filled m rs 540 73 77 7 6) as (S & F); try lia.
  { unfold in_space in B. lia. } { unfold in_space in B. lia. } fold m1 in S, F. clearbody m1.
  assert (D1 : displays arr head vb VID_MEM m1 sc).
  { unfold apart in *. eapply displays_store; [exact S|lia..|exact D]. }
  destruct D1 as [l Sh]. destruct F as (F1 & F2 & F3 & F4 & F5).
  destruct (ioctl_add_spec _ _ _ _ _ (pl_lay Hpl) m1 l sc rs Sh B B1 ltac:(rewrite F1; lia)) as (m' & l' & E & Sh' & _).
  change (mp1_ioctl arr head vb ts m1 rs RTC_ADD) with (mp1_ioctl_add arr head vb ts m1 rs). rewrite E.
  rewrite (scene_add_fields _ (Blink 540 73 77 7 6 0 0)) in Sh' by done.
  exists m', (scene_add (cell_at m1 rs) sc).2. split; [done|by exists l'].
Qed.

Lemma remove_runs m sc arg :
  displays arr head vb VID_MEM m sc ->
  exists m' r, mp1_ioctl arr head vb ts m arg RTC_REMOVE = Ok (m', r) /\
    displays arr head vb VID_MEM m' (scene_remove (u16 arg) sc).1.
Proof.
  intros [l Sh]. destruct (ioctl_remove_spec _ _ _ _ _ (pl_lay Hpl) m l sc arg Sh) as (m' & l' & E & Sh').
  change (mp1_ioctl arr head vb ts m arg RTC_REMOVE) with (mp1_ioctl_remove head m arg). rewrite E.
  eexists _, _. split; [reflexivity|]. by exists l'.
Qed.

Lemma sync_runs m sc arg :
  displays arr head vb VID_MEM m sc ->
  exists m' r, mp1_ioctl arr head vb ts m arg RTC_SYNC = Ok (m', r) /\
    displays arr head vb VID_MEM m' (scene_sync arg sc).1.
Proof.
  intros [l Sh]. destruct (ioctl_sync_spec _ _ _ _ _ (pl_lay Hpl) m l sc arg Sh) as (m' & E & Sh').
  change (mp1_ioctl arr head vb ts m arg RTC_SYNC) with (mp1_ioctl_sync head vb m arg). rewrite E.
  eexists _, _. split; [reflexivity|]. by exists l.
Qed.

(** What the program asks of the clock: 32 ticks a second, and then a tick for
    each of the three times 200 and the last 2000 turns. *)
Definition fish_clocks (p : proc) : list clock_event :=
  Rate 32 :: clock_ticks 0 (Z.of_nat (length (p_out p))) 2600.

(** The clock is set, and the rest of [main] is animation. *)
Lemma animation m w p fd sc :
  displays arr head vb VID_MEM m sc -> view w p -> aget (p_fds p) fd = Some FdRtc -> 2 <= fd < 8 ->
  exists m' w', animate arr head vb ts rs ret_val garbage fd m w = Ok (m', w', 0) /\
    view w' (with_clock (with_fds p (<[Z.to_nat fd := FdFree]> (p_fds p))) (p_clock p ++ fish_clocks p)) /\
    displays arr head vb VID_MEM m' (animation_scene sc).
Proof.
  intros D V C Hfd. unfold animate, animation_scene. change (6 * 80 + 60) with 540.
  destruct (pl_ret Hpl) as (U & A1 & A2 & A3 & A4).
  assert (St : forall m v, displays arr head vb VID_MEM m sc -> displays arr head vb VID_MEM (store32 m ret_val v) sc).
  { intros m0 v D0. unfold in_user, apart, TOP_PAGE, BOTTOM_PAGE in *.
    eapply displays_store; [apply same_outside_store32; lia|lia..|exact D0]. }
  cbv zeta. destruct (law_clock_write (store32 m ret_val 32) w p fd ret_val V C U) as (w1 & r & E1 & V1).
  rewrite load32_store32 in V1 by (unfold in_user, TOP_PAGE, BOTTOM_PAGE in U; lia). change (u32 32) with 32 in V1.
  unfold ece391_write. rewrite E1, bind_ok. pose proof (St _ r (St m 32 D)) as D1.
  generalize dependent (store32 (store32 m ret_val 32) ret_val r). intros m1 D1.
  destruct (ticks_spec _ _ _ _ _ (pl_lay Hpl) WAIT fd garbage m1 w1 _ _ ltac:(done) D1 V1 ltac:(by left)) as (m2 & w2 & E2 & D2 & V2). rewrite E2, bind_ok.
  destruct (add_runs m2 _ D2) as (m3 & r3 & E3 & D3). rewrite E3, bind_ok.
  destruct (ticks_spec _ _ _ _ _ (pl_lay Hpl) WAIT fd garbage m3 w2 _ _ ltac:(done) D3 V2 ltac:(apply clock_paced; by left)) as (m4 & w4 & E4 & D4 & V4). rewrite E4, bind_ok.
  destruct (sync_runs m4 _ (Z.lor (Z.shiftl 40 16) 540) D4) as (m5 & r5 & E5 & D5). rewrite E5, bind_ok.
  destruct (ticks_spec _ _ _ _ _ (pl_lay Hpl) WAIT fd garbage m5 w4 _ _ ltac:(done) D5 V4 ltac:(do 2 apply clock_paced; by left)) as (m6 & w6 & E6 & D6 & V6). rewrite E6, bind_ok.
  assert (D7 : displays arr head vb VID_MEM (store16 m6 rs 60) (Nat.iter (Z.to_nat WAIT) tick_scene
    (scene_sync (Z.lor (Z.shiftl 40 16) 540) (Nat.iter (Z.to_nat WAIT) tick_scene
      (scene_add (Blink 540 73 77 7 6 0 0) (Nat.iter (Z.to_nat WAIT) tick_scene sc)).1)).1)).
  { pose proof (pl_rs Hpl) as (B & B1 & B2 & B3 & B4 & B5). unfold in_space, apart in *.
    eapply displays_store; [apply same_store16; lia|lia..|exact D6]. }
  destruct (remove_runs _ _ WAIT D7) as (m8 & r8 & E8 & D8). rewrite E8, bind_ok.
  destruct (ticks_spec _ _ _ _ _ (pl_lay Hpl) (80 * 25) fd garbage m8 w6 _ _ ltac:(done) D8 V6 ltac:(do 3 apply clock_paced; by left)) as (m9 & w9 & E9 & D9 & V9). rewrite E9, bind_ok.
  rewrite !paced_app in V9 by (cbn [length]; lia). unfold paced in V9. rewrite decide_True in V9 by done.
  destruct (law_close m9 w9 _ fd _ V9 Hfd C ltac:(done)) as (w10 & E10 & V10). unfold ece391_close. rewrite E10, bind_ok.
  exists m9, w10. split; [reflexivity|]. split; [|exact D9]. unfold fish_clocks.
  unfold ask_rate, with_fds, with_clock, print in V10 |- *.
  cbn [p_arg p_fds p_dir p_dirpos p_input p_out p_cmd p_clock app] in V10 |- *.
  rewrite app_nil_r, <- app_assoc in V10. exact V10.
Qed.

(** C30 fish.c, from a fresh process: the program returns 0 with its files
    closed, having waited for 2600 ticks of a clock set to 32 a second, and the screen shows what the two frame files, the clock, the I,
    its synchronisation with the place 40 and the removal at 200 make of what
    was there before.  (The program means to remove the place 60; it passes
    its loop counter.) *)
Theorem fish_runs m w p s0 s1 x0 x1 M :
  view w p -> p_fds p = FdStd :: FdStd :: repeat FdFree 6 -> load32 m head = 0 ->
  string_at m (lit (bytes "rtc")) (bytes "rtc") -> string_at m f0 s0 -> string_at m f1 s1 ->
  lookup_name p (bytes "rtc") = Some KRtc -> lookup_name p s0 = Some (KFile x0) -> lookup_name p s1 = Some (KFile x1) ->
  Forall (fun l => Z.of_nat (length l) <= M) (lines x0 ++ lines x1) -> 0 <= M ->
  place (Z.of_nat (Nat.max (length (lines x0)) (length (lines x1)))) M < 65536 ->
  exists m' w', fish_main lit arr head vb ts f0 f1 a0 a1 bs rs ret_val garbage m w = Ok (m', w', 0) /\
    view w' (with_clock p (p_clock p ++ fish_clocks p)) /\
    displays arr head vb VID_MEM m' (main_scene x0 x1 (fun x => load8 m (VID_MEM + 2 * x))).
Proof.
  intros V Hf Hh Sr S0 S1 Lr L0 L1 HM HM0 Hp. unfold fish_main.
  destruct (fish_setup m w p V Hh) as (m1 & w1 & E1 & V1 & D1 & X1 & St). rewrite E1, bind_ok. change (VID_MEM =? NULL) with false. cbv iota.
  destruct (St _ _ Sr) as (C & _). unfold ece391_open.
  assert (Hn : lowest_free (p_fds p) = 2%nat) by by rewrite Hf.
  destruct (law_open m1 w1 p _ _ _ V1 C Lr ltac:(rewrite Hn; lia)) as (w2 & E2 & V2). rewrite E2, bind_ok. rewrite Hn in *.
  destruct (St _ _ S0) as (C0 & _ & _ & A0). destruct (St _ _ S1) as (C1 & _ & _ & A1).
  pose proof (displays_ext _ _ _ (fun x => load8 m (VID_MEM + 2 * x)) X1 D1) as D2.
  destruct (frames_run arr head vb ts VID_MEM bs a0 a1 f0 f1 s0 s1 x0 x1 m1 w2 _ _ M (pl_lay Hpl) (pl_bs Hpl) (pl_a0 Hpl) (pl_a1 Hpl)
    V2 C0 A0 C1 A1 D2 L0 L1) as (m3 & w3 & E3 & V3 & D3); [|done|done|done|].
  { cbn [with_fds p_fds]. rewrite Hf. unfold two_free. cbn. lia. }
  rewrite E3, bind_ok.
  destruct (animation m3 w3 _ (Z.of_nat 2) _ D3 V3) as (m4 & w4 & E4 & V4 & D4); [by cbn; rewrite Hf|lia|].
  exists m4, w4. rewrite E4. split; [done|]. split; [|exact D4].
  cbn [with_fds p_fds p_arg p_dir p_dirpos p_input p_out p_cmd fd_for] in V4. rewrite Nat2Z.id, list_insert_insert_eq in V4.
  rewrite (list_insert_id _ 2%nat FdFree) in V4 by (rewrite Hf; reflexivity). unfold with_fds in V4. cbn in V4. rewrite proc_eta in V4. exact V4.
Qed.
End Main.

(** ** The files of the repository *)

Definition frame0_txt : list Z :=
  concat ((fun s => bytes s ++ [10]) <$> [
    "/\/\/\/\/\/\/\/\/\/\/\/\"%string;
    "         o"%string;
    "           o    o"%string;
    "       o"%string;
    "             o"%string;
    "        o     O"%string;
    "    _    \"%string;
    " |\/.\   | \/  /  /"%string;
    " |=  _>   \|   \ /"%string;
    " |/\_/    |/   |/"%string;
    "----------M----M--------"%string]).
Definition frame1_txt : list Z :=
  concat ((fun s => bytes s ++ [10]) <$> [
    "\/\/\/\/\/\/\/\/\/\/\/\/"%string;
    "           o    o"%string;
    "       o"%string;
    "             o"%string;
    "        o     o"%string;
    ""%string;
    "    _   /"%string;
    " |\/.\  \ \/  \  /"%string;
    " |=  _>  \ \   \|"%string;
    " |/\_>    |/   |/"%string;
    "----------M----M--------"%string]).

(** The frames have 97 characters, none at the place 200, which [main] removes,
    and one at 60, which it means to remove and which goes on blinking. *)
Example fish_on_screen :
  let sc := frames_scene frame0_txt frame1_txt (Scene [] (fun _ => 32)) in
  length (blinks sc) = 97%nat /\ (scene_remove (u16 WAIT) sc).2 = -1 /\
  location <$> List.filter (fun b => location b =? 60) (blinks (animation_scene sc)) = [60].
Proof. by vm_compute. Qed.

(** ** Witness *)

Lemma fish_placed :
  placed fish_arr fish_head fish_vb fish_ts frames_a0 frames_a1 fish_bs 138300216 138300400.
Proof.
  split; [exact fish_layout|exact fish_outside| |apply frames_elsewhere; by left|apply frames_elsewhere; by right| |];
    by vm_compute; intuition congruence.
Qed.

Lemma fish_runs_witness :
  exists m' w', fish_main frames_lit fish_arr fish_head fish_vb fish_ts (frames_lit (bytes "frame0.txt"))
      (frames_lit (bytes "frame1.txt")) frames_a0 frames_a1 fish_bs 138300216 138300400 138300500 frames_m frames_proc = Ok (m', w', 0) /\
    displays fish_arr fish_head fish_vb VID_MEM m'
      (main_scene picture0 picture1 (fun x => load8 frames_m (VID_MEM + 2 * x))).
Proof.
  pose proof frames_lits as Hl. apply Forall_cons in Hl as [[Cr Ar] Hl]. apply Forall_cons in Hl as [[C0 A0] Hl].
  apply Forall_cons in Hl as [[C1 A1] _].
  destruct (fish_runs frames_lit _ _ _ _ (frames_lit (bytes "frame0.txt")) (frames_lit (bytes "frame1.txt")) _ _ _ _ _ 138300500
    fish_placed frames_m frames_proc frames_proc (bytes "frame0.txt") (bytes "frame1.txt") picture0 picture1 100 frames_proc_ok)
    as (m' & w' & E & _ & D); [by vm_compute|by vm_compute| | | |by vm_compute|by vm_compute|by vm_compute| |lia|by vm_compute|].
  - split; [exact Cr|]. by vm_compute; intuition congruence.
  - split; [exact C0|]. by vm_compute; intuition congruence.
  - split; [exact C1|]. by vm_compute; intuition congruence.
  - apply (bool_decide_unpack _). by vm_compute.
  - exists m', w'. exact (conj E D).
Defined.
