(* ===== verification/Emulate.v ===== *)
(** * ece391emulate.c: the wrappers on Linux

    A replacement of ece391syscall.S with which the same programs run under
    Linux.  What Linux does is a set of parameters; the code around its calls,
    which takes a command apart, puts arguments together and lists a
    directory, is translated.  The theorems say what the programs get. *)

From S2P Require Import Prelude Mem Lib Pcb Filesys Syscalls User Ulib.

(** The statics [dir], [dir_fd] and [mem_fd]. *)
Record emu : Type := Emu { dir : Z; dir_fd : Z; mem_fd : Z }.
Definition emu_start : emu := Emu NULL (-1) (-1).

Section Linux.
Context {X : Type}.
(** [INT $0x80]; the functions of libc, with the pointer or the descriptor
    they return; [readdir]: the address of [d_name], 0 at the end; [mmap]: 0
    for [MAP_FAILED]; [spawn]: the fork, [execv] and [wait], with the status. *)
Context (int80 : Z -> Z -> Z -> Z -> mem -> X -> res (mem * X * Z))
  (opendir open_null open_mem : X -> X * Z) (readdir : Z -> mem -> X -> mem * X * Z)
  (closedir close : Z -> X -> X) (mmap : Z -> X -> X * Z) (perror : X -> X)
  (spawn : Z -> Z -> mem -> X -> X * Z).
(** The literal ["."], the stack pointer at the start, and the arrays of
    [ece391_execute]. *)
Context (dot start_esp buf args : Z).

(** [DO_CALL]: an error number becomes -1. *)
Definition checked (eax : Z) : Z := if eax <=? 4294950912 then s32 eax else -1.
Definition DO_CALL (number ebx ecx edx : Z) (m : mem) (s : emu * X) : res (mem * (emu * X) * Z) :=
  let '(e, x) := s in
  '(m, x, r) ← int80 number ebx ecx edx m x;
  Ok (m, (e, x), checked (u32 r)).

(** ** execute *)

Definition ends_word (c : Z) : bool := (c =? 0) || (c =? 32) || (c =? 10).
Definition word_end (m : mem) (scan : Z) : res Z :=
  while (fun scan => if ends_word (load8 m scan) then inr (Ok scan) else inl (scan + 1)) scan.
Definition skip_spaces (m : mem) (scan : Z) : res Z :=
  while (fun scan => if load8 m scan =? 32 then inl (scan + 1) else inr (Ok scan)) scan.

(** One turn of [while (1)]. *)
Definition parse_turn (s : mem * Z * Z) : res ((mem * Z * Z) + (mem * Z)) :=
  let '(m, scan, n_arg) := s in
  scan ← skip_spaces m scan;
  if (load8 m scan =? 0) || (load8 m scan =? 10) then Ok (inr (store8 m scan 0, n_arg))
  else
    let m := store32 m (args + 4 * n_arg) scan in
    scan ← word_end m scan;
    if load8 m scan =? 0 then Ok (inl (m, scan, n_arg + 1))
    else Ok (inl (store8 m scan 0, scan + 1, n_arg + 1)).

Definition parse_args (m : mem) (command : Z) : res mem :=
  let m := store8 m buf 46 in
  let m := store8 m (buf + 1) 47 in
  m ← ece391_strcpy m (buf + 2) command;
  scan ← word_end m (buf + 2);
  let m := store32 m args buf in
  '(m, n_arg) ← (if load8 m scan =? 0 then Ok (m, 1)
                 else whileM parse_turn (store8 m scan 0, scan + 1, 1));
  Ok (store32 m (args + 4 * n_arg) NULL).

(** The macros of sys/wait.h on the status. *)
Definition exit_value (status : Z) : Z :=
  if Z.land status 127 =? 0 then Z.land (Z.shiftr status 8) 255
  else if Z.land status 127 =? 9 then -1
  else 256.

Definition emu_execute (command : Z) (m : mem) (s : emu * X) : res (mem * (emu * X) * Z) :=
  len ← ece391_strlen m command;
  if 1023 <? len then Ok (m, s, -1)
  else
    m ← parse_args m command;
    let '(e, x) := s in
    let '(x, status) := spawn buf args m x in
    Ok (m, (e, x), exit_value status).

(** ** open, close, write, vidmap *)

Definition emu_open (filename : Z) (m : mem) (s : emu * X) : res (mem * (emu * X) * Z) :=
  let '(e, x) := s in
  cmp ← ece391_strcmp m filename dot;
  if 0 =? cmp then
    let '(x, d) := opendir x in
    let '(x, fd) := open_null x in
    Ok (m, (Emu d fd (mem_fd e), x), fd)
  else
    '(m, x, rval) ← int80 5 filename 0 0 m x;
    Ok (m, (e, x), checked (u32 rval)).

Definition emu_close (fd : Z) (m : mem) (s : emu * X) : res (mem * (emu * X) * Z) :=
  let '(e, x) := s in
  if (dir e =? NULL) || negb (dir_fd e =? fd) then DO_CALL 6 fd 0 0 m s
  else
    let x := closedir (dir e) x in
    let x := close (dir_fd e) x in
    Ok (m, (Emu NULL (-1) (mem_fd e), x), 0).

Definition emu_write (fd b nbytes : Z) (m : mem) (s : emu * X) : res (mem * (emu * X) * Z) :=
  let '(e, x) := s in
  if (dir e =? NULL) || negb (dir_fd e =? fd) then DO_CALL 4 fd b nbytes m s else Ok (m, s, -1).

Definition emu_vidmap (screen_start : Z) (m : mem) (s : emu * X) : res (mem * (emu * X) * Z) :=
  let '(e, x) := s in
  let '(e, x) := (if mem_fd e =? -1 then let '(x, fd) := open_mem x in (Emu (dir e) (dir_fd e) fd, x) else (e, x)) in
  let '(x, mem_image) := mmap (mem_fd e) x in
  if mem_image =? 0 then Ok (m, (e, perror x), -1)
  else Ok (store32 m screen_start (mem_image + 753664), (e, x), 0).

(** ** read *)

(** The name; with the value to return when the loop returns itself. *)
Definition copy_name (nbytes : Z) (m : mem) (to from : Z) : res (mem * Z * Z * option Z) :=
  while (fun '(m, to, from, copied) =>
    if load8 m from =? 0 then inr (Ok (m, to, copied, None))
    else
      let m := store8 m to (load8 m from) in
      if copied + 1 =? nbytes then inr (Ok (m, to + 1, copied + 1, Some nbytes))
      else if 32 =? copied + 1 then inr (Ok (m, to + 1, copied + 1, Some 32))
      else inl (m, to + 1, from + 1, copied + 1)) (m, to, from, 0).

Definition pad_name (nbytes : Z) (m : mem) (to copied : Z) : res (mem * Z) :=
  while (fun '(m, to, copied) =>
    if (copied <? nbytes) && (copied <? 32) then inl (store8 m to 0, to + 1, copied + 1)
    else inr (Ok (m, copied))) (m, to, copied).

Definition emu_read (fd b nbytes : Z) (m : mem) (s : emu * X) : res (mem * (emu * X) * Z) :=
  let '(e, x) := s in
  if (dir e =? NULL) || negb (dir_fd e =? fd) then DO_CALL 3 fd b nbytes m s
  else
    let '(m, x, from) := readdir (dir e) m x in
    if from =? 0 then Ok (m, (e, x), 0)
    else
      '(m, to, copied, r) ← copy_name nbytes m b from;
      match r with
      | Some v => Ok (m, (e, x), v)
      | None => '(m, copied) ← pad_name nbytes m to copied; Ok (m, (e, x), copied)
      end.

(** ** getargs *)

(** One turn: [inl] for the next argument. *)
Definition getargs_turn (argc argv : Z) (s : mem * Z * Z * Z) : res ((mem * Z * Z * Z) + (mem * Z * Z * option Z)) :=
  let '(m, b, nbytes, idx) := s in
  if idx <? argc then
    len ← ece391_strlen m (load32 m (argv + 4 * idx));
    if nbytes <? len then Ok (inr (m, b, nbytes, Some (-1)))
    else
      m ← ece391_strcpy m b (load32 m (argv + 4 * idx));
      let b := b + len in
      let nbytes := nbytes - len in
      let idx := idx + 1 in
      if argc <=? idx then Ok (inr (m, b, nbytes, None))
      else if nbytes <? 1 then Ok (inr (m, b, nbytes, Some (-1)))
      else Ok (inl (store8 m b 32, b + 1, nbytes - 1, idx))
  else Ok (inr (m, b, nbytes, None)).

Definition emu_getargs (b nbytes : Z) (m : mem) (s : emu * X) : res (mem * (emu * X) * Z) :=
  let argc := s32 (load32 m start_esp) in
  let argv := start_esp + 4 in
  '(m, b, nbytes, r) ← whileM (getargs_turn argc argv) (m, b, nbytes, 1);
  match r with
  | Some v => Ok (m, s, v)
  | None => if nbytes <? 1 then Ok (m, s, -1) else Ok (store8 m b 0, s, 0)
  end.
End Linux.

(** ** The directory *)

Section Read.
Context (m : mem) (b from : Z) (l : list Z) (nbytes : Z).
Hypothesis Hl : is_cstr m from l.
Hypothesis Hlen : Z.of_nat (length l) < 2147483647.
Hypothesis Hf : in_space from (Z.of_nat (length l) + 1).
Hypothesis Hb : in_space b 32.
Hypothesis Hap : apart b 32 from (Z.of_nat (length l) + 1).

(** The name, then zeros. *)
Definition padded (i : Z) : Z := if i <? Z.of_nat (length l) then load8 m (from + i) else 0.
(** How many bytes are stored: at most 32, but all of a short name when the
    array has no room. *)
Definition stored : Z := if 1 <=? nbytes then Z.min nbytes 32 else Z.min 32 (Z.of_nat (length l)).

Lemma copy_name_spec :
  exists m' k r, copy_name nbytes m b from = Ok (m', b + k, k, r) /\ 0 <= k <= Z.of_nat (length l) /\ k <= stored /\
    writes m m' b k padded /\ match r with Some v => v = stored /\ k = stored | None => k = Z.of_nat (length l) end.
Proof.
  unfold in_space, apart in *. unfold copy_name, stored.
  apply (while_rule _
    (fun '(mi, to, fr, i) => to = b + i /\ fr = from + i /\ 0 <= i <= Z.of_nat (length l) /\ i < 32 /\ (1 <= nbytes -> i < nbytes) /\
       writes m mi b i padded)
    (fun '(_, _, _, i) => Z.of_nat (length l) - i)); [|lia|].
  { split_and!; try lia. by apply writes_nil. }
  intros [[[mi to] fr] i] (-> & -> & Hi & H32 & Hn & Wr). cbv zeta.
  rewrite (writes_out _ _ _ _ _ _ Wr) by (unfold addr; lia).
  destruct (cstr_step m from l i Hl Hi) as [(E & _ & Z0)|(E & Z0 & _)].
  - rewrite Z0. cbn [Z.eqb]. eexists _, _, None. split; [done|].
    destruct (Z.leb_spec 1 nbytes); split_and!; try lia; done.
  - destruct (Z.eqb_spec (load8 m (from + i)) 0); [done|].
    assert (Wr' : writes m (store8 mi (b + i) (load8 m (from + i))) b (i + 1) padded).
    { apply writes_snoc; [lia|unfold in_space; lia| |done]. unfold padded.
      destruct (Z.ltb_spec i (Z.of_nat (length l))); [|lia]. apply u8_small, load8_range. }
    destruct (Z.eqb_spec (i + 1) nbytes) as [En|Hne].
    { exists (store8 mi (b + i) (load8 m (from + i))), (i + 1), (Some nbytes). rewrite Z.add_assoc. split; [done|].
      destruct (Z.leb_spec 1 nbytes); split_and!; try lia; done. }
    destruct (Z.eqb_spec 32 (i + 1)) as [En|Hne2].
    { exists (store8 mi (b + i) (load8 m (from + i))), (i + 1), (Some 32). rewrite Z.add_assoc. split; [done|].
      destruct (Z.leb_spec 1 nbytes); split_and!; try lia; done. }
    rewrite !Z.add_assoc. split; [|lia]. split_and!; try lia. done.
Qed.

Lemma pad_name_spec m1 k :
  writes m m1 b k padded -> k = Z.of_nat (length l) -> k <= stored ->
  exists m', pad_name nbytes m1 (b + k) k = Ok (m', stored) /\ writes m m' b stored padded.
Proof.
  intros Wr Ek Hk. unfold in_space in Hb. unfold pad_name.
  apply (while_rule _
    (fun '(mi, to, i) => to = b + i /\ k <= i <= stored /\ writes m mi b i padded)
    (fun '(_, _, i) => stored - i)).
  - split; [done|]. split; [lia|done].
  - unfold stored in *. destruct (Z.leb_spec 1 nbytes); lia.
  - intros [[mi to] i] (-> & Hi & Wi).
    destruct (Z.ltb_spec i nbytes), (Z.ltb_spec i 32); cbn [andb].
    2-4: exists mi; assert (E : i = stored) by (unfold stored in *; destruct (Z.leb_spec 1 nbytes); lia);
      rewrite E in *; done.
    rewrite Z.add_assoc. split; [|unfold stored in *; destruct (Z.leb_spec 1 nbytes); lia]. split; [done|].
    split; [unfold stored in *; destruct (Z.leb_spec 1 nbytes); lia|].
    apply writes_snoc; [lia| | |done].
    + unfold in_space, stored in *. destruct (Z.leb_spec 1 nbytes); lia.
    + unfold padded. destruct (Z.ltb_spec i (Z.of_nat (length l))); [lia|done].
Qed.
End Read.

(** C35 Listing a directory on Linux: every read gives the next name in at
    most 32 bytes and as many as there is room for, padded with zeros, and
    returns that number, not the length of the name as the kernel does; 0 at
    the end.  With no room at all the whole name is stored nevertheless. *)
Theorem emu_read_directory {X} int80 (readdir : Z -> mem -> X -> mem * X * Z) fd b nbytes m (e : emu) (x : X) m1 x1 from :
  dir e <> NULL -> dir_fd e = fd -> readdir (dir e) m x = (m1, x1, from) ->
  (from = 0 -> emu_read int80 readdir fd b nbytes m (e, x) = Ok (m1, (e, x1), 0)) /\
  (from <> 0 -> forall l, is_cstr m1 from l -> Z.of_nat (length l) < 256 -> in_space from (Z.of_nat (length l) + 1) ->
   in_space b 32 -> apart b 32 from (Z.of_nat (length l) + 1) ->
   exists m', emu_read int80 readdir fd b nbytes m (e, x) = Ok (m', (e, x1), stored l nbytes) /\
     writes m1 m' b (stored l nbytes) (padded m1 from l)).
Proof.
  intros Hd Hfd Hr. unfold emu_read. destruct (Z.eqb_spec (dir e) NULL); [done|]. rewrite Hfd, Z.eqb_refl. cbn [negb orb].
  rewrite Hr. split; [by intros ->|]. intros Hf l Hl Hlen Hs Hb Hap. destruct (Z.eqb_spec from 0); [done|].
  destruct (copy_name_spec m1 b from l nbytes Hl ltac:(lia) Hs Hb Hap) as (m2 & k & r & -> & Hk & Hks & Wr & Hr2). rewrite bind_ok.
  destruct r as [v|].
  - destruct Hr2 as [-> ->]. by exists m2.
  - destruct (pad_name_spec m1 b from l nbytes Hb m2 k Wr Hr2 Hks) as (m3 & -> & Wr'). rewrite bind_ok. by exists m3.
Qed.

(** ** Arguments *)

(** Pointers to the strings [ws]. *)
Definition argv_at (m : mem) (argv : Z) (ws : list (list Z)) : Prop :=
  forall i w, ws !! i = Some w -> is_cstr m (load32 m (argv + 4 * Z.of_nat i)) w.

(** The arguments with a space between each two. *)
Fixpoint join (ws : list (list Z)) : list Z :=
  match ws with
  | [] => []
  | w :: ws => match ws with [] => w | _ => w ++ 32 :: join ws end
  end.

Lemma join_cons w ws : join (w :: ws) = w ++ (if decide (ws = []) then [] else 32 :: join ws).
Proof. destruct ws; cbn; [by rewrite app_nil_r|done]. Qed.

Section Getargs.
Context {X : Type} (start_esp b nbytes : Z) (m : mem) (prog : list Z) (ws : list (list Z)).
Hypothesis Hn : 0 <= nbytes.
Hypothesis Hb : in_space b (nbytes + 1).
Hypothesis Hargc : load32 m start_esp = 1 + Z.of_nat (length ws).
Hypothesis Hfew : Z.of_nat (length ws) < 1000000.
Hypothesis Hargv : argv_at m (start_esp + 4) (prog :: ws).
Hypothesis Harr : in_space start_esp (8 + 4 * Z.of_nat (length ws)) /\
  apart b (nbytes + 1) start_esp (8 + 4 * Z.of_nat (length ws)).
(** The strings are where the array is not. *)
Hypothesis Hstr : forall i w, ws !! i = Some w ->
  let p := load32 m (start_esp + 4 + 4 * Z.of_nat (S i)) in
  in_space p (Z.of_nat (length w) + 1) /\ Z.of_nat (length w) < 1000000 /\ apart b (nbytes + 1) p (Z.of_nat (length w) + 1).

(** An argument, seen after the first bytes of the array are filled. *)
Lemma arg_seen mi bi i w :
  same_outside b bi m mi -> bi <= b + nbytes + 1 -> ws !! i = Some w ->
  let p := load32 m (start_esp + 4 + 4 * Z.of_nat (S i)) in
  load32 mi (start_esp + 4 + 4 * (Z.of_nat i + 1)) = p /\ is_cstr mi p w /\
  in_space p (Z.of_nat (length w) + 1) /\ Z.of_nat (length w) < 1000000 /\ apart b (nbytes + 1) p (Z.of_nat (length w) + 1).
Proof.
  intros S Hbi Hi p. pose proof (lookup_lt_Some _ _ _ Hi) as Hlt. destruct (Hstr i w Hi) as (H1 & H2 & H3). fold p in H1, H3.
  unfold in_space, apart in *. split; [|split; [|done]].
  - unfold p. replace (4 * (Z.of_nat i + 1)) with (4 * Z.of_nat (Datatypes.S i)) by lia.
    apply load32_ext. intros j Hj. apply S; unfold addr; lia.
  - eapply is_cstr_ext; [|exact (Hargv (Datatypes.S i) w Hi)]. fold p. intros j Hj. apply S; unfold addr; lia.
Qed.

(** What the loop leaves. *)
Definition gathered (r : mem * Z * Z * option Z) : Prop :=
  let '(m', b', n', o) := r in
  match o with
  | Some v => v = -1 /\ nbytes < Z.of_nat (length (join ws)) + 1 /\ same_outside b (b + nbytes + 1) m m'
  | None => b' = b + Z.of_nat (length (join ws)) /\ n' = nbytes - Z.of_nat (length (join ws)) /\ 0 <= n' /\
      bytes_at m' b (join ws) /\ same_outside b (b' + 1) m m'
  end.

Lemma getargs_loop : exists r, whileM (getargs_turn (1 + Z.of_nat (length ws)) (start_esp + 4)) (m, b, nbytes, 1) = Ok r /\ gathered r.
Proof.
  apply (whileM_rule _ (fun n '(mi, bi, ni, idx) => exists pre k, n = Z.of_nat (length ws) - Z.of_nat k /\ idx = Z.of_nat k + 1 /\
    (k <= length ws)%nat /\ join ws = pre ++ join (drop k ws) /\ (0 < k -> k < length ws)%nat /\
    bi = b + Z.of_nat (length pre) /\ ni = nbytes - Z.of_nat (length pre) /\ 0 <= ni /\ bytes_at mi b pre /\
    same_outside b bi m mi) gathered (Z.of_nat (length ws))); [|lia|].
  { exists [], O. split_and!; try (cbn; lia); try done; try apply bytes_at_nil; apply same_outside_refl. }
  intros n [[[mi bi] ni] idx] _ (pre & k & -> & -> & Hk & Ej & Hkl & -> & -> & Hni & Bp & S).
  unfold getargs_turn. destruct (Z.ltb_spec (Z.of_nat k + 1) (1 + Z.of_nat (length ws))) as [Hlt|Hge].
  2:{ eexists. split; [reflexivity|]. assert (Hk0 : k = O) by lia. subst k.
      assert (Ew : ws = []) by (apply length_zero_iff_nil; lia).
      cbn [drop] in Ej. rewrite Ew in Ej. destruct pre; [|done]. unfold gathered. rewrite Ew. cbn [join length Z.of_nat] in *.
      split_and!; try lia; [done|]. eapply same_outside_weaken; [| |exact S]; lia. }
  destruct (lookup_lt_is_Some_2 ws k ltac:(lia)) as [w Hw].
  destruct (arg_seen mi (b + Z.of_nat (length pre)) k w S ltac:(lia) Hw) as (E1 & C & Hp & Hwl & Hap). rewrite E1.
  generalize dependent (load32 m (start_esp + 4 + 4 * Z.of_nat (Datatypes.S k))). intros p E1 C Hp Hap.
  rewrite ece391_strlen_eq, (strlen_cstr _ _ _ C) by lia. rewrite bind_ok.
  rewrite (drop_S _ _ _ Hw), join_cons in Ej.
  assert (Hlen : Z.of_nat (length (join ws)) = Z.of_nat (length pre) + Z.of_nat (length w) +
    Z.of_nat (length (if decide (drop (Datatypes.S k) ws = []) then [] else 32 :: join (drop (Datatypes.S k) ws)))).
  { rewrite Ej, !length_app. lia. }
  destruct (Z.ltb_spec (nbytes - Z.of_nat (length pre)) (Z.of_nat (length w))).
  { eexists. split; [reflexivity|]. split; [done|]. split; [lia|]. eapply same_outside_weaken; [| |exact S]; lia. }
  unfold in_space, apart in *.
  destruct (strcpy_spec mi (b + Z.of_nat (length pre)) p w C ltac:(lia) ltac:(unfold in_space; lia) ltac:(unfold in_space; lia)
    ltac:(unfold fwd_ok; lia)) as (m2 & E2 & W). rewrite E2, bind_ok. cbv zeta.
  pose proof (writes_same_outside _ _ _ _ _ W) as S2.
  assert (B2 : bytes_at m2 b (pre ++ w)).
  { apply bytes_at_app.
    - eapply bytes_at_ext; [|exact Bp]. intros i Hi. apply S2; unfold addr; lia.
    - intros i Hi. rewrite (writes_in _ _ _ _ _ _ W) by lia. by apply is_cstr_get. }
  assert (S3 : same_outside b (b + Z.of_nat (length pre) + Z.of_nat (length w) + 1) m m2).
  { eapply same_outside_trans; [eapply same_outside_weaken; [| |exact S]; lia|].
    eapply same_outside_weaken; [| |exact S2]; lia. }
  pose proof (length_drop ws (Datatypes.S k)) as Hd.
  destruct (Z.leb_spec (1 + Z.of_nat (length ws)) (Z.of_nat k + 1 + 1)) as [Hlast|Hmore].
  - eexists. split; [reflexivity|]. assert (Ed : drop (Datatypes.S k) ws = []) by (apply length_zero_iff_nil; lia).
    rewrite decide_True in Hlen, Ej by done. rewrite app_nil_r in Ej. cbn [length] in Hlen. unfold gathered. rewrite Ej, length_app.
    split_and!; try lia; [done|]. eapply same_outside_weaken; [| |exact S3]; lia.
  - rewrite decide_False in Hlen, Ej by (intros Ed; rewrite Ed in Hd; cbn in Hd; lia). cbn [length] in Hlen.
    destruct (Z.ltb_spec (nbytes - Z.of_nat (length pre) - Z.of_nat (length w)) 1).
    + eexists. split; [reflexivity|]. split; [done|]. split; [lia|]. eapply same_outside_weaken; [| |exact S3]; lia.
    + eexists. split; [reflexivity|]. exists (Z.of_nat (length ws) - Z.of_nat (Datatypes.S k)). split; [lia|].
      exists (pre ++ w ++ [32]), (Datatypes.S k). rewrite !length_app. cbn [length].
      split_and!; try lia; [rewrite Ej, <- !app_assoc; done| |].
      * rewrite app_assoc. replace (b + Z.of_nat (length pre) + Z.of_nat (length w)) with (b + Z.of_nat (length (pre ++ w))) by (rewrite length_app; lia).
        apply bytes_at_snoc; [|by rewrite load8_store8_eq].
        eapply bytes_at_ext; [|exact B2]. intros i Hi. rewrite length_app in *. apply load8_store8_ne; unfold addr; lia.
      * eapply same_outside_trans; [eapply same_outside_weaken; [| |exact S3]; lia|].
        apply same_outside_store8; [unfold addr; lia|lia].
Qed.
End Getargs.

(** ** Commands *)

(** A word, and what follows it. *)
Fixpoint span_word (l : list Z) : list Z * list Z :=
  match l with
  | [] => ([], [])
  | c :: l => if (c =? 32) || (c =? 10) then ([], c :: l) else let '(w, t) := span_word l in (c :: w, t)
  end.
Fixpoint no_spaces (l : list Z) : list Z :=
  match l with c :: l' => if c =? 32 then no_spaces l' else l | [] => [] end.

(** The words of a command, [cur] the one that has begun: a space or a newline
    ends a word, and a newline before a word ends them all. *)
Fixpoint args_of (cur : option (list Z)) (l : list Z) : list (list Z) :=
  match l with
  | [] => match cur with Some w => [w] | None => [] end
  | c :: l =>
    match cur with
    | Some w => if (c =? 32) || (c =? 10) then w :: args_of None l else args_of (Some (w ++ [c])) l
    | None => if c =? 32 then args_of None l else if c =? 10 then [] else args_of (Some [c]) l
    end
  end.
Definition argv_of (command : list Z) : list (list Z) := args_of (Some [46; 47]) command.

Example argv_of_grep : argv_of (bytes "grep  very large" ++ [10]) = [bytes "./grep"; bytes "very"; bytes "large"].
Proof. reflexivity. Qed.

Lemma args_of_word cur l :
  args_of (Some cur) l = (cur ++ (span_word l).1) :: args_of None (List.tl (span_word l).2).
Proof.
  revert cur. induction l as [|c l IH]; intros cur; cbn [args_of span_word]; [by rewrite app_nil_r|].
  destruct ((c =? 32) || (c =? 10)); [by rewrite app_nil_r|]. rewrite IH. destruct (span_word l) as [w t].
  cbn [fst snd]. by rewrite <- app_assoc.
Qed.

Lemma args_of_spaces l : args_of None l = args_of None (no_spaces l).
Proof. induction l as [|c l IH]; cbn; [done|]. destruct (c =? 32) eqn:E; cbn; [done|]. by rewrite E. Qed.

Lemma no_spaces_head l : match no_spaces l with c :: _ => c <> 32 | [] => True end.
Proof. induction l as [|c l IH]; cbn; [done|]. destruct (Z.eqb_spec c 32); [exact IH|done]. Qed.

Lemma args_of_start l :
  args_of None (no_spaces l) =
  match no_spaces l with
  | [] => []
  | c :: _ => if c =? 10 then [] else (span_word (no_spaces l)).1 :: args_of None (List.tl (span_word (no_spaces l)).2)
  end.
Proof.
  pose proof (no_spaces_head l) as H. destruct (no_spaces l) as [|c r]; [done|]. cbn [args_of]. destruct (Z.eqb_spec c 32); [done|].
  destruct (Z.eqb_spec c 10); [done|]. rewrite args_of_word. cbn [span_word].
  destruct (Z.eqb_spec c 32), (Z.eqb_spec c 10); [done..|]. cbn [orb]. by destruct (span_word r).
Qed.

Lemma span_word_eq l :
  l = (span_word l).1 ++ (span_word l).2 /\
  match (span_word l).2 with c :: _ => (c =? 32) || (c =? 10) = true | [] => True end /\
  Forall (fun c => (c =? 32) || (c =? 10) = false) (span_word l).1.
Proof.
  induction l as [|c l (IH1 & IH2 & IH3)]; cbn [span_word]; [done|]. destruct ((c =? 32) || (c =? 10)) eqn:E; [done|].
  destruct (span_word l) as [w t]. cbn [fst snd app] in *. split; [by rewrite <- IH1|]. split; [done|by constructor].
Qed.

Lemma no_spaces_eq l : exists k, no_spaces l = drop k l /\ (k <= length l)%nat /\ forall i, (i < k)%nat -> l !! i = Some 32.
Proof.
  induction l as [|c l (k & E & Hk & Hi)]; cbn [no_spaces]; [exists O; split; [done|]; split; [done|lia]|].
  destruct (Z.eqb_spec c 32) as [->|]; [|exists O; split; [done|]; split; [cbn; lia|lia]].
  exists (S k). split; [done|]. split; [cbn; lia|]. intros [|i] Hlt; [done|]. apply Hi. lia.
Qed.

(** ** The scans *)

Lemma cstr_at m s l i : is_cstr m s l -> 0 <= i < Z.of_nat (length l) -> l !! Z.to_nat i = Some (load8 m (s + i)).
Proof. intros Hl Hi. rewrite <- aget_lookup by lia. by apply is_cstr_get. Qed.

Lemma word_end_spec m s l :
  is_cstr m s l -> Z.of_nat (length l) < 1000000 ->
  word_end m s = Ok (s + Z.of_nat (length (span_word l).1)).
Proof.
  intros Hl Hlen. destruct (span_word_eq l) as (E & Ht & Hw). destruct (span_word l) as [w t]. cbn [fst snd] in *.
  assert (Hlw : (length w <= length l)%nat) by (rewrite E, length_app; lia).
  unfold word_end. apply (while_rule _ (fun p => exists i, p = s + i /\ 0 <= i <= Z.of_nat (length w))
    (fun p => s + Z.of_nat (length w) - p)).
  - exists 0. lia.
  - lia.
  - intros p (i & -> & Hi). destruct (decide (i = Z.of_nat (length w))) as [->|Hne].
    + assert (Hs : ends_word (load8 m (s + Z.of_nat (length w))) = true).
      { unfold ends_word. destruct t as [|c t'] eqn:Et.
        - rewrite app_nil_r in E. subst w. by rewrite (is_cstr_end _ _ _ Hl).
        - pose proof (f_equal (fun x => x !! length w) E) as El. cbn beta in El.
          rewrite (lookup_app_r w (c :: t') (length w)) in El by lia. rewrite Nat.sub_diag in El. cbn in El.
          pose proof (cstr_at m s l (Z.of_nat (length w)) Hl ltac:(rewrite E, length_app; cbn; lia)) as Ec.
          rewrite Nat2Z.id, El in Ec. injection Ec as <-. rewrite <- orb_assoc, Ht. apply orb_true_r. }
      by rewrite Hs.
    + pose proof (cstr_at m s l i Hl ltac:(lia)) as Ec.
      assert (Ew : w !! Z.to_nat i = Some (load8 m (s + i))).
      { rewrite <- Ec, E. symmetry. apply lookup_app_l. lia. }
      pose proof (Forall_lookup_1 _ _ _ _ Hw Ew) as Hc. cbn beta in Hc.
      assert (Hz : load8 m (s + i) <> 0) by (apply (is_cstr_nz m s l); [done|lia]).
      unfold ends_word. destruct (Z.eqb_spec (load8 m (s + i)) 0); [done|]. cbn [orb]. rewrite Hc.
      split; [|lia]. exists (i + 1). lia.
Qed.

Lemma skip_spaces_spec m s l :
  is_cstr m s l -> Z.of_nat (length l) < 1000000 ->
  exists k, no_spaces l = drop k l /\ (k <= length l)%nat /\ skip_spaces m s = Ok (s + Z.of_nat k).
Proof.
  intros Hl Hlen. destruct (no_spaces_eq l) as (k & E & Hk & Hi). exists k. split; [done|]. split; [done|].
  unfold skip_spaces. apply (while_rule _ (fun p => exists i, p = s + i /\ 0 <= i <= Z.of_nat k)
    (fun p => s + Z.of_nat k - p)).
  - exists 0. lia.
  - lia.
  - intros p (i & -> & Hr). destruct (decide (i = Z.of_nat k)) as [->|Hne].
    + assert (Hs : load8 m (s + Z.of_nat k) <> 32).
      { destruct (decide (k = length l)) as [->|]; [by rewrite (is_cstr_end _ _ _ Hl)|].
        pose proof (cstr_at m s l (Z.of_nat k) Hl ltac:(lia)) as Ec. rewrite Nat2Z.id in Ec. intros E32. rewrite E32 in Ec.
        apply drop_S in Ec. rewrite <- E in Ec.
        pose proof (no_spaces_head l) as H. by rewrite Ec in H. }
      by destruct (Z.eqb_spec (load8 m (s + Z.of_nat k)) 32).
    + pose proof (cstr_at m s l i Hl ltac:(lia)) as Ec. rewrite (Hi (Z.to_nat i)) in Ec by lia. injection Ec as <-.
      cbn [Z.eqb Pos.eqb]. split; [|lia]. exists (i + 1). lia.
Qed.

Section Parse.
Context (buf args : Z).
Hypothesis Hbuf : in_space buf 1026.
Hypothesis Hargs : in_space args 4096.
Hypothesis Hap : apart buf 1026 args 4096.

(** The words [ws], in the command up to [scan], with their pointers. *)
Definition held (m : mem) (scan : Z) (ws : list (list Z)) : Prop :=
  forall i w, ws !! i = Some w ->
    let p := load32 m (args + 4 * Z.of_nat i) in is_cstr m p w /\ buf <= p /\ p + Z.of_nat (length w) <= scan.

Lemma cstr_nul m p w q : is_cstr m p w -> 0 <= p -> p + Z.of_nat (length w) <= q < 4294967296 -> is_cstr (store8 m q 0) p w.
Proof.
  intros C Hp Hq. eapply is_cstr_ext; [|exact C]. intros i Hi.
  destruct (decide (p + i = q)) as [E|]; [|apply load8_store8_ne; unfold addr; lia].
  rewrite E, load8_store8_eq. assert (Ei : i = Z.of_nat (length w)) by lia. rewrite <- E, Ei. symmetry. apply (is_cstr_end _ _ _ C).
Qed.

Lemma held_nul m scan q ws :
  held m scan ws -> Z.of_nat (length ws) <= 1024 -> scan <= q < buf + 1026 -> held (store8 m q 0) q ws.
Proof.
  unfold in_space, apart in *. intros H Hn Hq i w Hi. pose proof (lookup_lt_Some _ _ _ Hi) as Hlt.
  destruct (H i w Hi) as (C & H1 & H2).
  assert (E : load32 (store8 m q 0) (args + 4 * Z.of_nat i) = load32 m (args + 4 * Z.of_nat i)).
  { apply load32_ext. intros j Hj. apply load8_store8_ne; unfold addr; lia. }
  rewrite E. split; [apply cstr_nul; [done|lia|lia]|]. lia.
Qed.

Lemma args_store m n v p w :
  is_cstr m p w -> buf <= p -> p + Z.of_nat (length w) < buf + 1026 -> 0 <= n < 1024 ->
  is_cstr (store32 m (args + 4 * n) v) p w.
Proof.
  unfold in_space, apart in *. intros C H1 H2 Hn. eapply is_cstr_ext; [|exact C]. intros i Hi.
  apply (same_outside_store32 m (args + 4 * n) v); unfold addr; lia.
Qed.

Lemma held_store m scan ws v :
  held m scan ws -> scan < buf + 1026 -> Z.of_nat (length ws) < 1024 ->
  held (store32 m (args + 4 * Z.of_nat (length ws)) v) scan ws.
Proof.
  intros H Hs Hn i w Hi. pose proof (lookup_lt_Some _ _ _ Hi) as Hlt. destruct (H i w Hi) as (C & H1 & H2).
  unfold in_space, apart in *.
  assert (E : load32 (store32 m (args + 4 * Z.of_nat (length ws)) v) (args + 4 * Z.of_nat i) = load32 m (args + 4 * Z.of_nat i)).
  { apply load32_ext. intros j Hj. apply (same_outside_store32 m (args + 4 * Z.of_nat (length ws)) v); unfold addr; lia. }
  rewrite E. split; [|lia]. apply args_store; (done || lia).
Qed.

Lemma held_snoc m scan ws p w :
  held m scan ws -> scan <= p + Z.of_nat (length w) -> Z.of_nat (length ws) < 1024 ->
  load32 m (args + 4 * Z.of_nat (length ws)) = p -> is_cstr m p w -> buf <= p ->
  held m (p + Z.of_nat (length w)) (ws ++ [w]).
Proof.
  intros H Hs Hn Ep C Hp i w' Hi. destruct (decide (i < length ws)%nat) as [Hlt|Hge].
  - rewrite lookup_app_l in Hi by done. destruct (H i w' Hi) as (C' & H1 & H2). split; [done|]. lia.
  - rewrite lookup_app_r in Hi by lia. apply list_lookup_singleton_Some in Hi as [Hi <-].
    assert (i = length ws) as -> by lia. rewrite Ep. split; [done|]. lia.
Qed.

(** A string cut after [w]. *)
Lemma cstr_cut m p w c t :
  is_cstr m p (w ++ c :: t) -> 0 <= p -> p + Z.of_nat (length (w ++ c :: t)) < 4294967296 ->
  let m' := store8 m (p + Z.of_nat (length w)) 0 in
  is_cstr m' p w /\ is_cstr m' (p + Z.of_nat (length w) + 1) t.
Proof.
  intros C Hp Hs m'. rewrite length_app in Hs. cbn [length] in Hs. split.
  - split; [|unfold m'; by rewrite load8_store8_eq]. intros i Hi. unfold m'.
    rewrite load8_store8_ne by (unfold addr; lia). destruct C as [C _].
    destruct (C i ltac:(rewrite length_app; lia)) as [C1 C2]. split; [done|].
    rewrite aget_lookup in * by lia. by rewrite lookup_app_l in C2 by lia.
  - assert (D : is_cstr m (p + Z.of_nat (length w + 1)) (drop (length w + 1) (w ++ c :: t))).
    { apply is_cstr_drop; [done|]. rewrite length_app. cbn. lia. }
    rewrite <- drop_drop, drop_app_length in D. cbn [drop] in D. rewrite drop_0 in D.
    replace (p + Z.of_nat (length w) + 1) with (p + Z.of_nat (length w + 1)) by lia.
    eapply is_cstr_ext; [|exact D]. intros i Hi. apply load8_store8_ne; unfold addr; lia.
Qed.

Definition parsed (all : list (list Z)) (r : mem * Z) : Prop :=
  r.2 = Z.of_nat (length all) /\ r.2 < 1024 /\ exists scan, scan < buf + 1026 /\ held r.1 scan all.

Lemma parse_loop m scan ws r :
  is_cstr m scan r -> held m scan ws -> buf <= scan -> scan + Z.of_nat (length r) + 1 <= buf + 1026 ->
  Z.of_nat (length ws) + Z.of_nat (length r) < 1024 ->
  exists x, whileM (parse_turn args) (m, scan, Z.of_nat (length ws)) = Ok x /\ parsed (ws ++ args_of None r) x.
Proof.
  intros C H Hb Hs Hn. unfold in_space, apart in *.
  apply (whileM_rule _ (fun n '(mi, si, ni) => exists wi ri, n = Z.of_nat (length ri) /\ ni = Z.of_nat (length wi) /\
    is_cstr mi si ri /\ held mi si wi /\ buf <= si /\ si + Z.of_nat (length ri) + 1 <= buf + 1026 /\
    Z.of_nat (length wi) + Z.of_nat (length ri) < 1024 /\ wi ++ args_of None ri = ws ++ args_of None r)
    (parsed (ws ++ args_of None r)) (Z.of_nat (length r))); [by exists ws, r|lia|].
  clear C H Hb Hs Hn. intros n [[mi si] ni] _ (wi & ri & -> & -> & C & H & Hb & Hs & Hn & E). unfold parse_turn.
  destruct (skip_spaces_spec mi si ri C ltac:(lia)) as (k & Ek & Hk & ->). rewrite bind_ok.
  pose proof (is_cstr_drop _ _ _ _ C Hk) as Ck. rewrite <- Ek in Ck. rewrite args_of_spaces, args_of_start in E.
  assert (Hlk : Z.of_nat (length (no_spaces ri)) = Z.of_nat (length ri) - Z.of_nat k) by (rewrite Ek, length_drop; lia).
  destruct (no_spaces ri) as [|c rest] eqn:Ens.
  - pose proof (is_cstr_end _ _ _ Ck) as Z0. cbn [length] in Z0. rewrite Z.add_0_r in Z0. rewrite Z0. cbn [Z.eqb orb]. eexists. split; [reflexivity|]. rewrite app_nil_r in E. rewrite <- E. unfold parsed. cbn [fst snd length] in *.
    split; [done|]. split; [lia|]. exists (si + Z.of_nat k). split; [lia|]. eapply held_nul; [exact H|lia|lia].
  - pose proof (cstr_at _ _ _ 0 Ck ltac:(cbn [length]; lia)) as Hc. rewrite Z.add_0_r in Hc. cbn in Hc. injection Hc as Hc.
    pose proof (is_cstr_nz _ _ _ 0 Ck ltac:(cbn [length]; lia)) as Hnz. rewrite Z.add_0_r in Hnz. rewrite <- Hc in *.
    destruct (Z.eqb_spec c 0); [done|]. cbn [orb]. destruct (Z.eqb_spec c 10) as [->|Hc10].
    + eexists. split; [reflexivity|]. rewrite app_nil_r in E. rewrite <- E. unfold parsed. cbn [fst snd length] in *.
      split; [done|]. split; [lia|]. exists (si + Z.of_nat k). split; [lia|]. eapply held_nul; [exact H|lia|lia].
    + assert (Hw : (1 <= length (span_word (c :: rest)).1)%nat).
      { cbn [span_word]. assert (c <> 32).
        { intros ->. pose proof (no_spaces_head ri) as Hno. by rewrite Ens in Hno. }
        destruct (Z.eqb_spec c 32), (Z.eqb_spec c 10); try done. cbn [orb]. destruct (span_word rest). cbn. lia. }
      set (p := si + Z.of_nat k) in *. cbn [length] in Hlk.
      pose proof (args_store mi (Z.of_nat (length wi)) p p (c :: rest) Ck ltac:(lia) ltac:(cbn [length]; lia) ltac:(lia)) as Ck1.
      pose proof (held_store mi si wi p H ltac:(lia) ltac:(lia)) as H1.
      pose proof (load32_store32 mi (args + 4 * Z.of_nat (length wi)) p ltac:(lia) ltac:(lia)) as Ep.
      rewrite u32_small in Ep by lia.
      generalize dependent (store32 mi (args + 4 * Z.of_nat (length wi)) p). intros m1 Ck1 H1 Ep. clear C H Ck.
      rewrite (word_end_spec _ _ _ Ck1) by (cbn [length]; lia). rewrite bind_ok.
      destruct (span_word_eq (c :: rest)) as (Es & Ht & _). destruct (span_word (c :: rest)) as [w t]. cbn [fst snd] in *.
      rewrite Es in Ck1. apply (f_equal length) in Es. rewrite length_app in Es. cbn [length] in Es.
      destruct t as [|d t].
      * rewrite app_nil_r in Ck1. rewrite (is_cstr_end _ _ _ Ck1). cbn [Z.eqb]. eexists. split; [reflexivity|].
        exists 0. split; [cbn [length] in *; lia|]. exists (wi ++ [w]), []. rewrite length_app. cbn [length] in *.
        split_and!; try lia; [by split; [intros i Hi; cbn in Hi; lia|cbn; rewrite Z.add_0_r; apply (is_cstr_end _ _ _ Ck1)]| |].
        { eapply held_snoc; [exact H1|lia|lia|exact Ep|exact Ck1|lia]. }
        rewrite <- E, <- app_assoc. done.
      * assert (Hd : load8 m1 (p + Z.of_nat (length w)) <> 0).
        { apply (is_cstr_nz _ _ _ _ Ck1). rewrite length_app. cbn [length] in *. lia. }
        destruct (Z.eqb_spec (load8 m1 (p + Z.of_nat (length w))) 0); [done|].
        cbn [length] in *.
        destruct (cstr_cut m1 p w d t Ck1 ltac:(lia) ltac:(rewrite length_app; cbn [length]; lia)) as [Cw Ct].
        eexists. split; [reflexivity|]. exists (Z.of_nat (length t)). split; [lia|].
        exists (wi ++ [w]), t. rewrite length_app. cbn [length].
        pose proof (held_nul m1 si (p + Z.of_nat (length w)) wi H1 ltac:(lia) ltac:(lia)) as H2.
        split_and!; try lia; [exact Ct| |].
        { intros i w' Hi. apply (held_snoc _ _ wi p w H2) in Hi; [|lia|lia| |exact Cw|lia].
          - destruct Hi as (A1 & A2 & A3). split; [done|]. lia.
          - rewrite <- Ep. apply load32_ext. intros j Hj. apply load8_store8_ne; unfold addr; lia. }
        rewrite <- E, <- app_assoc. done.
Qed.
End Parse.

(** The arguments in the arrays of [ece391_execute]. *)
Lemma parse_args_spec m buf args command l :
  in_space buf 1026 -> in_space args 4096 -> apart buf 1026 args 4096 ->
  is_cstr m command l -> Z.of_nat (length l) <= 1023 -> in_space command (Z.of_nat (length l) + 1) ->
  apart buf 1026 command (Z.of_nat (length l) + 1) ->
  exists m', parse_args buf args m command = Ok m' /\ argv_at m' args (argv_of l) /\
    load32 m' (args + 4 * Z.of_nat (length (argv_of l))) = 0.
Proof.
  intros Hb Ha Hap C Hl Hc Hap2. unfold parse_args. cbv zeta.
  assert (S0 : same_outside buf (buf + 2) m (store8 (store8 m buf 46) (buf + 1) 47)).
  { unfold in_space in *. eapply same_outside_trans; apply same_outside_store8; unfold addr; lia. }
  assert (B0 : load8 (store8 (store8 m buf 46) (buf + 1) 47) buf = 46 /\ load8 (store8 (store8 m buf 46) (buf + 1) 47) (buf + 1) = 47).
  { unfold in_space in *. rewrite load8_store8_eq, load8_store8_ne, load8_store8_eq by (unfold addr; lia). done. }
  generalize dependent (store8 (store8 m buf 46) (buf + 1) 47). intros m1 S0 [B0 B1].
  assert (C1 : is_cstr m1 command l).
  { unfold in_space, apart in *. eapply is_cstr_ext; [|exact C]. intros i Hi. apply S0; unfold addr; lia. }
  unfold in_space, apart in *.
  destruct (strcpy_spec m1 (buf + 2) command l C1 ltac:(lia) ltac:(unfold in_space; lia) ltac:(unfold in_space; lia) ltac:(unfold fwd_ok; lia))
    as (m2 & -> & W). rewrite bind_ok.
  assert (C2 : is_cstr m2 (buf + 2) l).
  { eapply is_cstr_move; [|exact C1]. intros i Hi. apply (writes_in _ _ _ _ _ _ W); lia. }
  assert (Cb : is_cstr m2 buf (46 :: 47 :: l)).
  { assert (F : forall a, a = buf \/ a = buf + 1 -> load8 m2 a = load8 m1 a).
    { intros a Hx. apply (writes_out _ _ _ _ _ _ W); unfold addr; lia. }
    assert (Hsh : forall i, buf + (2 + i) = buf + 2 + i) by lia.
    split; cbn [length].
    - intros i Hi. destruct (decide (i = 0)) as [->|]; [rewrite Z.add_0_r, F, B0 by lia; done|].
      destruct (decide (i = 1)) as [->|]; [rewrite F, B1 by lia; done|].
      destruct C2 as [C2 _]. destruct (C2 (i - 2) ltac:(lia)) as [D1 D2]. replace (buf + 2 + (i - 2)) with (buf + i) in * by lia.
      split; [done|]. rewrite aget_lookup in * by lia. replace (Z.to_nat i) with (S (S (Z.to_nat (i - 2)))) by lia. exact D2.
    - rewrite <- (is_cstr_end _ _ _ C2). f_equal. lia. }
  rewrite (word_end_spec _ _ _ C2) by lia. rewrite bind_ok.
  assert (Hfin : forall x, parsed buf args (argv_of l) x ->
    argv_at (store32 x.1 (args + 4 * x.2) NULL) args (argv_of l) /\
    load32 (store32 x.1 (args + 4 * x.2) NULL) (args + 4 * Z.of_nat (length (argv_of l))) = 0).
  { intros [mx n] (En & Hn & scan & Hs & H). cbn [fst snd] in *. subst n. split.
    - intros i w Hi. by apply (held_store buf args ltac:(done) ltac:(done) ltac:(done) mx scan (argv_of l) NULL H Hs Hn i w Hi).
    - rewrite load32_store32 by lia. done. }
  unfold argv_of in *. rewrite args_of_word in *.
  destruct (span_word_eq l) as (Es & Ht & _). destruct (span_word l) as [w t]. cbn [fst snd] in *. subst l.
  rewrite length_app in *.
  pose proof (args_store buf args ltac:(done) ltac:(done) ltac:(done) m2 0 buf buf _ Cb ltac:(lia) ltac:(cbn [length]; rewrite length_app; lia) ltac:(lia)) as Cb3.
  rewrite Z.mul_0_r, Z.add_0_r in Cb3.
  pose proof (load32_store32 m2 args buf ltac:(lia) ltac:(lia)) as Ep. rewrite u32_small in Ep by lia.
  generalize dependent (store32 m2 args buf). intros m3 Cb3 Ep. clear C2 Cb W B0 B1 S0 C1 C.
  change (46 :: 47 :: w ++ t) with ((46 :: 47 :: w) ++ t) in Cb3.
  assert (Hq : buf + 2 + Z.of_nat (length w) = buf + Z.of_nat (length (46 :: 47 :: w))) by (cbn [length]; lia). rewrite Hq.
  destruct t as [|c t].
  - rewrite app_nil_r in Cb3. rewrite (is_cstr_end _ _ _ Cb3). cbn [Z.eqb]. rewrite bind_ok.
    eexists. split; [reflexivity|]. apply (Hfin (m3, 1)). split; [done|]. split; [cbn; lia|].
    exists (buf + Z.of_nat (length (46 :: 47 :: w))). cbn [length] in *. split; [lia|]. intros i x Hi.
    apply list_lookup_singleton_Some in Hi as [-> <-]. cbn [fst]. rewrite Z.mul_0_r, Z.add_0_r, Ep. cbn [length app].
    split; [exact Cb3|]. lia.
  - assert (Hnz : load8 m3 (buf + Z.of_nat (length (46 :: 47 :: w))) <> 0).
    { apply (is_cstr_nz _ _ _ _ Cb3). rewrite length_app. cbn [length]. lia. }
    destruct (Z.eqb_spec (load8 m3 (buf + Z.of_nat (length (46 :: 47 :: w)))) 0); [done|].
    cbn [length] in Hl.
    destruct (cstr_cut m3 buf (46 :: 47 :: w) c t Cb3 ltac:(lia) ltac:(rewrite length_app; cbn [length]; lia)) as [Cw Ct].
    destruct (parse_loop buf args ltac:(done) ltac:(done) ltac:(done) (store8 m3 (buf + Z.of_nat (length (46 :: 47 :: w))) 0)
      (buf + Z.of_nat (length (46 :: 47 :: w)) + 1) [46 :: 47 :: w] t Ct) as (x & E & P).
    + intros i y Hi. apply list_lookup_singleton_Some in Hi as [-> <-].
      assert (E0 : load32 (store8 m3 (buf + Z.of_nat (length (46 :: 47 :: w))) 0) (args + 4 * Z.of_nat 0) = buf).
      { rewrite Z.mul_0_r, Z.add_0_r. rewrite <- Ep at 2. apply load32_ext. intros j Hj. cbn [length].
        apply load8_store8_ne; unfold addr; lia. }
      rewrite E0. split; [exact Cw|]. cbn [length app]. lia.
    + cbn [length]. lia.
    + cbn [length]. lia.
    + cbn [length]. lia.
    + change (Z.of_nat (length [46 :: 47 :: w])) with 1 in E. rewrite E. destruct x as [mx na]. rewrite bind_ok.
      eexists. split; [reflexivity|]. exact (Hfin (mx, na) P).
Qed.

(** What Linux leaves on the stack of a program started with the arguments
    [prog :: ws], next to the array the program passes. *)
Record child (start_esp b nbytes : Z) (m : mem) (prog : list Z) (ws : list (list Z)) : Prop := Child {
  ch_room : 0 <= nbytes /\ in_space b (nbytes + 1);
  ch_argc : load32 m start_esp = 1 + Z.of_nat (length ws) /\ Z.of_nat (length ws) < 1000000;
  ch_argv : argv_at m (start_esp + 4) (prog :: ws);
  ch_stack : in_space start_esp (8 + 4 * Z.of_nat (length ws)) /\
    apart b (nbytes + 1) start_esp (8 + 4 * Z.of_nat (length ws));
  ch_strings : forall i w, ws !! i = Some w ->
    let p := load32 m (start_esp + 4 + 4 * Z.of_nat (S i)) in
    in_space p (Z.of_nat (length w) + 1) /\ Z.of_nat (length w) < 1000000 /\ apart b (nbytes + 1) p (Z.of_nat (length w) + 1) }.

Lemma join_chars m argv ws : argv_at m argv ws -> Forall (fun c => 0 < c < 256) (join ws).
Proof.
  revert argv. induction ws as [|w ws IH]; intros argv H; [constructor|]. rewrite join_cons. apply Forall_app. split.
  - by apply (is_cstr_chars _ _ _ (H O w eq_refl)).
  - destruct (decide (ws = [])); [constructor|]. constructor; [lia|]. apply (IH (argv + 4)).
    intros i x Hi. specialize (H (S i) x Hi). replace (argv + 4 + 4 * Z.of_nat i) with (argv + 4 * Z.of_nat (S i)) by lia. exact H.
Qed.

Lemma emu_getargs_spec {X} start_esp b nbytes m prog ws (s : emu * X) :
  child start_esp b nbytes m prog ws ->
  (Z.of_nat (length (join ws)) + 1 <= nbytes -> exists m', emu_getargs start_esp b nbytes m s = Ok (m', s, 0) /\
     is_cstr m' b (join ws) /\ same_outside b (b + nbytes) m m') /\
  (nbytes < Z.of_nat (length (join ws)) + 1 -> exists m', emu_getargs start_esp b nbytes m s = Ok (m', s, -1) /\
     same_outside b (b + nbytes + 1) m m').
Proof.
  intros [[Hn Hb] [Hc Hf] Hv Hst Hs]. unfold emu_getargs. rewrite Hc, s32_small by lia.
  destruct (getargs_loop start_esp b nbytes m prog ws Hn Hb Hf Hv Hst Hs) as ([[[m' b'] n'] o] & E & G).
  rewrite E, bind_ok. destruct o as [v|]; cbn in G.
  - destruct G as (-> & Hlt & S). split; [lia|]. intros _. by exists m'.
  - destruct G as (-> & -> & Hn' & B & S). unfold in_space in *.
    destruct (Z.ltb_spec (nbytes - Z.of_nat (length (join ws))) 1); split; try lia; intros _.
    + exists m'. split; [done|]. eapply same_outside_weaken; [| |exact S]; lia.
    + eexists. split; [reflexivity|]. split.
      * split; [|by rewrite load8_store8_eq]. intros i Hi. rewrite load8_store8_ne by (unfold addr; lia).
        pose proof (B i Hi) as Bi. split; [|done].
        assert (F : Forall (fun c => 0 < c < 256) (join ws)).
        { apply (join_chars m (start_esp + 8)). intros j x Hj. specialize (Hv (Datatypes.S j) x Hj).
          replace (start_esp + 8 + 4 * Z.of_nat j) with (start_esp + 4 + 4 * Z.of_nat (Datatypes.S j)) by lia. exact Hv. }
        rewrite aget_lookup in Bi by lia. pose proof (Forall_lookup_1 _ _ _ _ F Bi) as Hx. cbn beta in Hx. lia.
      * eapply same_outside_trans; [eapply same_outside_weaken; [| |exact S]; lia|].
        apply same_outside_store8; [unfold addr; lia|lia].
Qed.

(** The words of a plain command: a name and one argument. *)
Lemma argv_of_plain name arg :
  Forall (fun c => c <> 32 /\ c <> 10) name -> Forall (fun c => c <> 32 /\ c <> 10) arg -> arg <> [] ->
  argv_of (name ++ 32 :: arg) = [46 :: 47 :: name; arg].
Proof.
  intros Hn Ha Hne.
  assert (G : forall l t, Forall (fun c => c <> 32 /\ c <> 10) l -> (t = [] \/ exists t', t = 32 :: t') -> span_word (l ++ t) = (l, t)).
  { induction l as [|c l IH]; intros t Hl Ht.
    - destruct Ht as [->|(t' & ->)]; done.
    - apply Forall_cons in Hl as [[H1 H2] Hl]. cbn [app span_word]. destruct (Z.eqb_spec c 32), (Z.eqb_spec c 10); try done.
      cbn [orb]. by rewrite IH. }
  unfold argv_of. rewrite args_of_word, (G name) by (done || right; by exists arg). cbn [fst snd List.tl app].
  rewrite args_of_spaces, args_of_start. destruct arg as [|c arg]; [done|]. pose proof Ha as Ha'.
  apply Forall_cons in Ha' as [[H1 H2] _]. cbn [no_spaces]. destruct (Z.eqb_spec c 32); [done|]. destruct (Z.eqb_spec c 10); [done|].
  rewrite <- (app_nil_r (c :: arg)) at 1 2. rewrite (G (c :: arg)) by (done || by left). done.
Qed.

(** C34 The arguments of a program on Linux.  [ece391_execute] passes the words
    of the command, the program under ["./"]; a program that Linux has started
    with them gets them back from [ece391_getargs], with single spaces, or -1
    exactly when they do not fit with their terminator; for a command of a
    name and one argument that is the argument, as on the kernel.  A command of
    more than 1023 characters is refused. *)
Theorem emu_args_roundtrip {X} (spawn : Z -> Z -> mem -> X -> X * Z) buf args command l m (e : emu) (x : X) :
  in_space buf 1026 -> in_space args 4096 -> apart buf 1026 args 4096 ->
  is_cstr m command l -> Z.of_nat (length l) < 1000000 -> in_space command (Z.of_nat (length l) + 1) ->
  apart buf 1026 command (Z.of_nat (length l) + 1) ->
  (1023 < Z.of_nat (length l) -> emu_execute spawn buf args command m (e, x) = Ok (m, (e, x), -1)) /\
  (Z.of_nat (length l) <= 1023 ->
   (exists m', emu_execute spawn buf args command m (e, x) =
      Ok (m', (e, (spawn buf args m' x).1), exit_value (spawn buf args m' x).2) /\
      argv_at m' args (argv_of l) /\ load32 m' (args + 4 * Z.of_nat (length (argv_of l))) = 0) /\
   (forall prog ws, argv_of l = prog :: ws ->
    (forall start_esp b nbytes mc (s : emu * X), child start_esp b nbytes mc prog ws ->
      (Z.of_nat (length (join ws)) + 1 <= nbytes -> exists m', emu_getargs start_esp b nbytes mc s = Ok (m', s, 0) /\
         is_cstr m' b (join ws) /\ same_outside b (b + nbytes) mc m') /\
      (nbytes < Z.of_nat (length (join ws)) + 1 -> exists m', emu_getargs start_esp b nbytes mc s = Ok (m', s, -1) /\
         same_outside b (b + nbytes + 1) mc m')) /\
    (forall name arg, l = name ++ 32 :: arg -> Forall (fun c => c <> 32 /\ c <> 10) name ->
       Forall (fun c => c <> 32 /\ c <> 10) arg -> arg <> [] -> join ws = arg))).
Proof.
  intros Hb Ha Hap C Hl Hc Hap2. unfold emu_execute. rewrite ece391_strlen_eq, (strlen_cstr _ _ _ C) by lia. rewrite bind_ok.
  split; [intros Hlt; by destruct (Z.ltb_spec 1023 (Z.of_nat (length l))); [|lia]|].
  intros Hle. destruct (Z.ltb_spec 1023 (Z.of_nat (length l))); [lia|]. split.
  - destruct (parse_args_spec m buf args command l Hb Ha Hap C Hle Hc Hap2) as (m' & E & A & Z0). rewrite E, bind_ok.
    exists m'. split; [|done]. by destruct (spawn buf args m' x).
  - intros prog ws E. split.
    + intros start_esp b nbytes mc s Hch. by apply (emu_getargs_spec start_esp b nbytes mc prog).
    + intros name arg -> Hn Hg Hne. rewrite argv_of_plain in E by done. by injection E as _ <-.
Qed.

(** ** Witnesses *)

Definition emu_m : mem := store_list empty 4096 (bytes "cat  a.txt").
Definition emu_child : mem :=
  store32 (store32 (store32 (store32 (store_list (store_list empty 4096 (bytes "./cat")) 4104 (bytes "a.txt")) 8192 2) 8196 4096) 8200 4104) 8204 0.

Lemma emu_args_roundtrip_witness :
  (exists m', emu_execute (fun _ _ _ x => (x, 0)) 65536 69632 4096 emu_m (emu_start, tt) = Ok (m', (emu_start, tt), 0)) /\
  exists m', emu_getargs 8192 12288 6 emu_child (emu_start, tt) = Ok (m', (emu_start, tt), 0) /\ is_cstr m' 12288 (bytes "a.txt").
Proof.
  destruct (emu_args_roundtrip (fun _ _ _ (x : unit) => (x, 0)) 65536 69632 4096 (bytes "cat  a.txt") emu_m emu_start tt) as [_ H].
  1-3,5-7: vm_compute; intuition congruence.
  - apply is_cstr_dec. by vm_compute.
  - destruct (H ltac:(cbn; lia)) as [(m' & E & _) G]. split; [exists m'; exact E|].
    destruct (G (bytes "./cat") [bytes "a.txt"] eq_refl) as [R _].
    destruct (R 8192 12288 6 emu_child (emu_start, tt)) as [R1 _].
    + split.
      * clear. vm_compute. intuition congruence.
      * clear. vm_compute. split; reflexivity.
      * clear. unfold argv_at. intros i w Hi. destruct i as [|[|i]]; [injection Hi as <-..|done]; apply is_cstr_dec; by vm_compute.
      * clear. vm_compute. intuition congruence.
      * clear. intros i w Hi. destruct i as [|i]; [injection Hi as <-|done]. vm_compute. intuition congruence.
    + destruct (R1 ltac:(vm_compute; congruence)) as (m2 & E2 & C2 & _). exists m2. exact (conj E2 C2).
Defined.

(** A directory of one name. *)
Lemma emu_read_directory_witness :
  exists m', emu_read (fun _ _ _ _ m x => Ok (m, x, 0)) (fun _ m (x : unit) => (m, x, 4096)) 3 8192 33 emu_m (Emu 1 3 (-1), tt) =
    Ok (m', (Emu 1 3 (-1), tt), 32) /\ load8 m' 8192 = 99.
Proof.
  destruct (emu_read_directory (fun _ _ _ _ m (x : unit) => Ok (m, x, 0)) (fun _ m (x : unit) => (m, x, 4096)) 3 8192 33 emu_m
    (Emu 1 3 (-1)) tt emu_m tt 4096) as [_ H]; [done|done|done|].
  destruct (H ltac:(done) (bytes "cat  a.txt")) as (m' & E & W).
  - apply is_cstr_dec. by vm_compute.
  - by vm_compute.
  - by vm_compute; intuition congruence.
  - by vm_compute; intuition congruence.
  - by vm_compute; intuition congruence.
  - exists m'. split; [exact E|]. pose proof (writes_in _ _ _ _ _ 0 W ltac:(lia) ltac:(by vm_compute) ltac:(by vm_compute)) as E0.
    rewrite Z.add_0_r in E0. rewrite E0. by vm_compute.
Defined.
